(* ===== verification/_CoqProject ===== *)
-Q . S2P
Prelude.v
CMonad.v
Fuel.v
Heap.v
Memory.v
Lcf.v
Minix.v
Frame.v
Typing.v
Macros.v
ProjState.v
Graphics.v
GraphicsFacts.v
Timer.v
Keyboard.v
MouseDriver.v
MouseProtocol.v
Rtc.v
Ship.v
Aliens.v
ShipBullets.v
ShipBulletFacts.v
AlienBullets.v
AlienBulletFacts.v
Menu.v
Screen.v
Volley.v
GameSpec.v
GamePlay.v
Game.v
GameFrame.v
GameFuel.v
GameScore.v
GameFaults.v
GameSafe.v
GameTick.v
GameRules.v
GameSetup.v
GameSession.v
GameRefine.v
GameRemoval.v
GameTypes.v
Proj.v
Lab0.v
Lab2.v
Lab2Facts.v
Lab3.v
Lab3Facts.v
Lab4.v
Lab4Facts.v
Lab5.v
Lab5Facts.v
Lab5Move.v
