(* ===== verification/Prelude.v ===== *)
(** * A verification development of the LCOM laboratories and of the game in proj/src

    The program is C code for MINIX: a greeting, four laboratories that drive one PC
    device each (timer, keyboard, mouse, video card) and a project, a game of the Space
    Invaders family that drives all of them at once.  It runs in one process; what
    makes it hard is not concurrency but interrupts: every part is a handler that is
    called from one notification loop, talks to the others through global variables
    and heap objects, and fails by return codes.

    ** Representation

    - [Prelude]: machine integers at their width ([u8], [u16], [u32], [i16], [i32]),
      list lemmas, tactics.
    - [CMonad]: a C statement is a function from a state to an [outcome], which is a
      value, a jump ([continue], [break], [return]) or a fault.  A fault is undefined
      behaviour, a call of [panic] or exhausted fuel.  [call] is the body of a
      function, [switch] and [while_] catch the jumps that C lets them catch.  [wp] is
      the weakest precondition of a statement, and its rules are the program logic.
    - [Heap], [Memory]: [malloc] and [free] with identities that are never reused (so
      that a use after free is a fault), frame buffers as blocks of bytes.
    - [Lcf], [Minix]: the structs of the framework headers; the kernel calls as a class
      [Kernel] over an arbitrary device state.  Theorems quantify over every kernel;
      what one needs of it is a law class ([XpmLaws], [RandLaws], [Mode105] in [Minix],
      [MouseController] in [MouseProtocol], [I8254] and [Ticking] in [Lab2Facts],
      [KbdStream], [Kbc] and [Idle] in [Lab3Facts], [MouseStream] in [Lab4Facts], [RtcChip] in
      [Rtc], [Clockwork] in [Lab5Move], [KernelTypes] in [GameTypes]), each with a concrete
      instance on which the witnesses run.
    - [Frame]: [tame F J I m], what a statement keeps, which jumps it makes and which
      faults it can have; a predicate closed under the constructs of the language, with
      a tactic that proves it.
    - [Typing]: the judgement [has_type I T m]: from a state that satisfies [I], whatever
      outcome [m] has, its value is in [T] and its state satisfies [I]; one rule per
      construct of the language and a tactic that applies them.
    - [Fuel]: an order on statements; one that ends without exhausting its fuel has the
      same outcome with more of it.

    ** The project: file, source and contents

    - [Macros]: macros.h, i8042.h, i8254.h, rtc.h.  [ProjState]: the structs, enums
      and globals of every header and the sizes of the pixmaps in resources.
    - [Graphics], [GraphicsFacts], [Screen]: graphic.c; the blit of a pixmap, the
      double buffer, rules that discharge a drawing call whose image is on the screen,
      the score as it is seen.
    - [Timer]: timer.c and utils.c.  [Keyboard]: keyboard.c.  [Rtc]: rtc.c.
    - [MouseDriver], [MouseProtocol]: mouse.c; packets and their decoding, the pointer,
      the command protocol with the keyboard controller.
    - [Ship]: ship.c.  [Aliens]: alien.c.  [ShipBullets], [ShipBulletFacts]:
      shipBullet.c.  [AlienBullets], [AlienBulletFacts]: alienBullet.c.  [Menu]: menu.c.
    - [Game]: game.c.  [game_loop] is split where its source has sections: set-up, one
      definition per interrupt source and game state, dispatch, loop, tear-down.
    - [GameSpec]: an abstract game, the specification of the program: a record [game] of
      numbers and lists, the function [react] that answers one event (a byte of the mouse,
      a byte of the keyboard, a tick of the timer) and [play] for a sequence of events;
      [view] reads the abstract game off a state of the program.  [removal] says whether a
      sequence of events removes the player's shot.  [GamePlay]: how the abstract game
      goes, without the program.
    - [Volley], [GameSafe], [GameTick], [GameSetup], [GameSession]: the invariant [ready]
      of the notification loop, that the set-up establishes it, that every notification
      keeps it unless one of its events removes the shot, and that the tear-down
      releases the objects; together, the outcome of [game_loop] from the initial state,
      for every session: it ends, or it comes to a first removal.
      The same lemmas relate the views: the set-up ends in [new_game], and a handler
      changes the view as [play] does on the events that it hears ([mouse_events],
      [key_events], [tick_events], [notification_events]).
    - [GameRefine]: sessions with their events; the program refines the abstract game, and
      what follows for it from [GamePlay], and the bounds of its objects.
    - [GameFaults], [GameRemoval]: the first removal of a shot.  The notification that has it
      faults, with a use after free, or it leaves a freed slot, and then every later tick
      of play is a use after free.
    - [GameFrame]: the primitives of the project for the tactic of [Frame].
      [GameScore]: from the first round on the kill count counts the dead aliens, whatever
      the player does.
      [GameFuel]: the outcome of the game does not depend on the fuel.
      [GameTypes]: every variable of the game keeps a value of its C type, one typing
      lemma per function of the project.
    - [GameRules]: the rules of the game, step by step.
    - [Proj]: proj.c.

    ** The laboratories

    - [Lab0]: hello.c, which prints a greeting.
    - [Lab2], [Lab2Facts]: the i8254 driver against the chip, the counting of seconds.
    - [Lab3], [Lab3Facts]: the parse of a stream of scancodes, the command byte, the
      end of the timed scan when nothing is typed.
    - [Lab4], [Lab4Facts]: mouse packets from a stream of bytes; the routines that this
      laboratory shares with laboratory 2 and with the project are equivalent.
    - [Lab5], [Lab5Facts]: lines, rectangles and the test pattern, the plan of a movement.
      [Lab5Move]: [video_test_move] as a whole, from the mode to the release of escape.

    ** What the theorems show

    - safety and composition: set-up, loop and tear-down of the game have no undefined
      behaviour until an event removes the player's shot; that event is the start of it
      ([GameRemoval]), in the same notification or at the next tick of play;
    - functional correctness of the operations of every component, on their error
      branches too; bounds of the pointer, the ship and the frame buffers;
    - refinement: the whole program implements the abstract game of [GameSpec] from its start
      and until an event removes the shot: menus, pointer, ship, shots, march, lives, the end of a
      game.  From it: the fleet keeps its formation, a round ends within 8004 frames, a shot
      is removed within 22 ticks of play.  The march with dead aliens, the scancode parser, the
      packet assembler and the collision test implement functions on abstract data;
    - types: the objects are live and in their bounds until an event removes the shot; in
      every state that the game reaches, with faults later or not, every variable is within
      its C type and every array has its length;
    - invariants: [ready], the kill count of the rounds, the slots after a removal;
    - round trips: mouse packets, register fields; equivalence of duplicated drivers;
    - termination and divergence of the loops, with the fuel as an explicit number.

    ** Fuel and bounds

    Loops with a static bound are [for_each] over the list of their indices or
    structural recursion and have no fuel.  The fuel of the others is an argument of the
    definition: the theorems give a sufficient number (the bytes of a stream, the
    notifications of a session, the retries of a command) or prove that no number is
    sufficient.  [malloc] is taken to succeed, as the code takes it to,
    and so is [xpm_load] ([XpmLaws]), whose result the code does not test either.
    Arithmetic on [int] wraps at its width: where a theorem depends on it, the values are
    shown to be in range, or the range is a hypothesis.

    ** Not modelled

    - The functions that lab4 and lab5 call and that no file of the repository defines
      are the classes [Gestures] and [Lab5Lib].
    - The framework ([lcf_start], [xpm_load], printing) and the kernel are the classes
      [LcfMain], [LcfPrint] and [Kernel]; .minix-src/include is third-party.
    - The pixels of the pixmaps (proj/src/resources, lab5/myxpm.h) are data: the program
      depends on their sizes only, which [ProjState] has.
    - Makefiles, traces of executions and generated documentation. *)

From Stdlib Require Export ZifyBool.
From stdpp Require Export base numbers list gmap.
From stdpp Require Import options.

#[export] Set Default Goal Selector "!".

#[global] Open Scope Z_scope.

(** * Machine integers *)

(** [wrap w z] is the value of [z] stored in an unsigned object of [w] bits,
    [swrap w z] the value stored in a two's complement object of [w] bits. *)
Definition wrap (w z : Z) : Z := z mod 2 ^ w.

Definition swrap (w z : Z) : Z := (z + 2 ^ (w - 1)) mod 2 ^ w - 2 ^ (w - 1).

Definition u8 (z : Z) : Z := wrap 8 z.

Definition u16 (z : Z) : Z := wrap 16 z.

Definition u32 (z : Z) : Z := wrap 32 z.

Definition i16 (z : Z) : Z := swrap 16 z.

Definition i32 (z : Z) : Z := swrap 32 z.

(** [BIT(n)] of [lcom/utils.h]. *)
Definition BIT (n : Z) : Z := Z.shiftl 1 n.

(** Truth value of an integer used as a C condition. *)
Definition ctrue (z : Z) : bool := negb (z =? 0).

(** The integer value of a C [bool]. *)
Definition of_bool (b : bool) : Z := if b then 1 else 0.

Definition in_i32 (z : Z) : Prop := -2 ^ 31 <= z < 2 ^ 31.

Definition in_u8 (z : Z) : Prop := 0 <= z < 256.

Definition in_u16 (z : Z) : Prop := 0 <= z < 65536.

Definition in_i16 (z : Z) : Prop := -32768 <= z < 32768.

Lemma wrap_range w z : 0 <= w -> 0 <= wrap w z < 2 ^ w.
Proof. intros. unfold wrap. apply Z.mod_pos_bound. lia. Qed.

Lemma wrap_id w z : 0 <= z < 2 ^ w -> wrap w z = z.
Proof. apply Z.mod_small. Qed.

Lemma swrap_id w z : 0 < w -> -2 ^ (w - 1) <= z < 2 ^ (w - 1) -> swrap w z = z.
Proof.
  intros Hw Hz. unfold swrap. rewrite Z.mod_small; [lia|].
  replace (2 ^ w) with (2 * 2 ^ (w - 1)); [lia|].
  rewrite <- Z.pow_succ_r by lia. f_equal. lia.
Qed.

Lemma swrap_range w z : 0 < w -> -2 ^ (w - 1) <= swrap w z < 2 ^ (w - 1).
Proof.
  intros Hw. unfold swrap.
  pose proof (Z.mod_pos_bound (z + 2 ^ (w - 1)) (2 ^ w)) as Hm.
  assert (2 ^ w = 2 * 2 ^ (w - 1)) as Hp.
  { rewrite <- Z.pow_succ_r by lia. f_equal. lia. }
  lia.
Qed.

Lemma u8_id z : 0 <= z < 256 -> u8 z = z.
Proof. apply (wrap_id 8). Qed.

Lemma u16_id z : 0 <= z < 65536 -> u16 z = z.
Proof. apply (wrap_id 16). Qed.

Lemma u32_id z : 0 <= z < 4294967296 -> u32 z = z.
Proof. apply (wrap_id 32). Qed.

Lemma i16_id z : -32768 <= z < 32768 -> i16 z = z.
Proof. apply (swrap_id 16). lia. Qed.

Lemma i32_id z : in_i32 z -> i32 z = z.
Proof. apply (swrap_id 32). lia. Qed.

Lemma u8_range z : 0 <= u8 z < 256.
Proof. apply (wrap_range 8). lia. Qed.

Lemma u16_range z : 0 <= u16 z < 65536.
Proof. apply (wrap_range 16). lia. Qed.

Lemma u32_range z : 0 <= u32 z < 4294967296.
Proof. apply (wrap_range 32). lia. Qed.

Lemma i16_range z : in_i16 (i16 z).
Proof. apply (swrap_range 16). lia. Qed.

Lemma i32_range z : in_i32 (i32 z).
Proof. apply (swrap_range 32). lia. Qed.

(** A 16-bit object reinterpreted as [int16_t]. *)
Lemma i16_high z : 32768 <= z < 65536 -> i16 z = z - 65536.
Proof.
  intros Hz. unfold i16, swrap. change (2 ^ (16 - 1)) with 32768. change (2 ^ 16) with 65536.
  replace (z + 32768) with ((z - 32768) + 1 * 65536) by lia.
  rewrite Z.mod_add by lia. rewrite Z.mod_small by lia. lia.
Qed.

Lemma BIT_pow n : 0 <= n -> BIT n = 2 ^ n.
Proof. intros. unfold BIT. by rewrite Z.shiftl_1_l. Qed.

(** Testing one bit of a value with a mask. *)
Lemma ctrue_land_BIT z n : 0 <= n -> ctrue (Z.land z (BIT n)) = Z.testbit z n.
Proof.
  intros Hn. unfold ctrue. rewrite BIT_pow by done.
  destruct (Z.testbit z n) eqn:Hb.
  - apply negb_true_iff, Z.eqb_neq. intros H0.
    assert (Z.testbit (Z.land z (2 ^ n)) n = false) as Hf by (rewrite H0; apply Z.bits_0).
    rewrite Z.land_spec, Z.pow2_bits_true, Hb in Hf by done. done.
  - apply negb_false_iff, Z.eqb_eq. apply Z.bits_inj'. intros m Hm.
    rewrite Z.land_spec, Z.bits_0. destruct (decide (m = n)) as [->|Hne].
    + by rewrite Hb.
    + by rewrite Z.pow2_bits_false, andb_false_r by done.
Qed.

(** Bytes are the non-negative integers of fewer than 8 bits. *)
Lemma in_u8_log2 v : in_u8 v <-> 0 <= v /\ Z.log2 v < 8.
Proof.
  unfold in_u8. destruct (Z.eq_dec v 0) as [->|]; [simpl; lia|].
  split; intros [H0 H]; (split; [done|]); apply (Z.log2_lt_pow2 v 8); lia.
Qed.

Lemma in_u8_lor a b : in_u8 a -> in_u8 b -> in_u8 (Z.lor a b).
Proof.
  rewrite !in_u8_log2. intros [] []. rewrite Z.log2_lor by done.
  split; [by apply Z.lor_nonneg|lia].
Qed.

Lemma in_u8_ldiff a b : in_u8 a -> in_u8 (Z.ldiff a b).
Proof.
  intros Ha. assert (Z.ldiff a b = Z.ldiff a b mod 2 ^ 8) as ->.
  - rewrite <- Z.land_ones by lia. rewrite <- (Z.mod_small a (2 ^ 8)) at 1 by done.
    rewrite <- Z.land_ones by lia. apply Z.bits_inj'. intros n Hn.
    rewrite !Z.ldiff_spec, !Z.land_spec, Z.ldiff_spec. by destruct (Z.testbit a n), (Z.testbit b n), (Z.testbit (Z.ones 8) n).
  - apply (Z.mod_pos_bound _ (2 ^ 8)). lia.
Qed.

Create HintDb mach discriminated.
#[export] Hint Resolve u8_range u16_range u32_range i32_range : mach.
#[export] Hint Unfold in_i32 in_i16 in_u8 in_u16 : mach.

(** Removes machine-width conversions whose argument is in range. *)
Ltac machsimp :=
  repeat match goal with
    | |- context [i32 ?z] => rewrite (i32_id z) by (unfold in_i32 in *; lia)
    | |- context [u16 ?z] => rewrite (u16_id z) by lia
    | |- context [u8 ?z] => rewrite (u8_id z) by lia
    | |- context [u32 ?z] => rewrite (u32_id z) by lia
    | |- context [i16 ?z] => rewrite (i16_id z) by lia
    end.

(** Splits on the first conditional of the goal. *)
Ltac ifcase := match goal with |- context [if ?b then _ else _] => destruct b eqn:? end.
