(* ===== verification/CMonad.v ===== *)
(** * The control and state monad of the C code

    A C statement that reads and writes the state [S] is a function from a
    state to an [outcome]: it falls through with a value, it jumps
    ([continue], [break] or [return]), or it faults.  A fault is either
    undefined behaviour (an access through a null or freed pointer, an access
    out of bounds, the use of an indeterminate value, a division by zero), a
    call of [panic], or the exhaustion of the fuel given to a loop that has no
    static bound.  [wp] is the weakest precondition of a statement; its rules
    are the development's program logic. *)

From S2P Require Import Prelude.
From stdpp Require Import options.

Inductive ctl :=
| CContinue
| CBreak
| CReturn (r : Z).

Inductive fault :=
| NullDeref
| UseAfterFree
| DoubleFree
| OutOfBounds
| Indeterminate
| DivByZero
| Panic
| OutOfFuel.

#[export] Instance ctl_eq_dec : EqDecision ctl.
Proof. solve_decision. Defined.

#[export] Instance fault_eq_dec : EqDecision fault.
Proof. solve_decision. Defined.

Inductive outcome (S A : Type) :=
| Ok (a : A) (s : S)
| Jump (c : ctl) (s : S)
| Fault (f : fault).
Arguments Ok {S A} a s.
Arguments Jump {S A} c s.
Arguments Fault {S A} f.

Definition M (S A : Type) := S -> outcome S A.

Definition ret {S A} (a : A) : M S A := fun s => Ok a s.

Definition bind {S A B} (m : M S A) (k : A -> M S B) : M S B :=
  fun s => match m s with
           | Ok a s' => k a s'
           | Jump c s' => Jump c s'
           | Fault f => Fault f
           end.

Definition get {S} : M S S := fun s => Ok s s.

Definition gets {S A} (f : S -> A) : M S A := fun s => Ok (f s) s.

Definition modify {S} (f : S -> S) : M S unit := fun s => Ok tt (f s).

Definition raise {S A} (f : fault) : M S A := fun _ => Fault f.

Definition jump {S A} (c : ctl) : M S A := fun s => Jump c s.

Declare Scope cmonad_scope.
Delimit Scope cmonad_scope with cm.
Notation "x <- m ;; k" := (bind m (fun x => k))
  (at level 20, m at level 99, k at level 200) : cmonad_scope.
Notation "' p <- m ;; k" := (bind m (fun x => match x with p => k end))
  (at level 20, p pattern, m at level 99, k at level 200) : cmonad_scope.
Notation "m ;; k" := (bind m (fun _ => k)) (at level 100, k at level 200, right associativity) : cmonad_scope.
Notation "'return_' r" := (jump (CReturn r)) (at level 10) : cmonad_scope.
#[global] Open Scope cmonad_scope.

(** [if (b) m] with no [else]. *)
Definition when {S} (b : bool) (m : M S unit) : M S unit := if b then m else ret tt.

(** A function call: [return r] in the body is the value of the call. *)
Definition call {S} (body : M S Z) : M S Z :=
  fun s => match body s with
           | Jump (CReturn r) s' => Ok r s'
           | o => o
           end.

(** A call of a [void] function. *)
Definition vcall {S} (body : M S unit) : M S unit :=
  fun s => match body s with
           | Jump (CReturn _) s' => Ok tt s'
           | o => o
           end.

(** [return;] *)
Definition vreturn {S A} : M S A := jump (CReturn 0).

(** The body of a [switch] statement: [break] leaves it. *)
Definition switch {S} (body : M S unit) : M S unit :=
  fun s => match body s with
           | Jump CBreak s' => Ok tt s'
           | o => o
           end.

(** [for] over a finite list of index values. *)
Fixpoint for_each {S X} (l : list X) (body : X -> M S unit) : M S unit :=
  match l with
  | [] => ret tt
  | x :: l' => fun s =>
      match body x s with
      | Ok _ s' | Jump CContinue s' => for_each l' body s'
      | Jump CBreak s' => Ok tt s'
      | Jump (CReturn r) s' => Jump (CReturn r) s'
      | Fault f => Fault f
      end
  end.

(** [for] over a finite list of index values, with a variable carried from one
    iteration to the next; the body does not leave the loop early. *)
Fixpoint for_acc {S X B} (l : list X) (acc : B) (body : X -> B -> M S B) : M S B :=
  match l with
  | [] => ret acc
  | x :: l' => bind (body x acc) (fun acc' => for_acc l' acc' body)
  end.

(** [while (cond) body], at most [fuel] iterations. *)
Fixpoint while_ {S} (fuel : nat) (cond : S -> bool) (body : M S unit) : M S unit :=
  fun s =>
  if cond s then
    match fuel with
    | O => Fault OutOfFuel
    | Datatypes.S n =>
        match body s with
        | Ok _ s' | Jump CContinue s' => while_ n cond body s'
        | Jump CBreak s' => Ok tt s'
        | Jump (CReturn r) s' => Jump (CReturn r) s'
        | Fault f => Fault f
        end
    end
  else Ok tt s.

(** * Weakest preconditions

    [wp E m Q J s]: started in [s], [m] either falls through with [Q], or jumps
    with [J], or faults, which is allowed only when [E] holds: [wp False] is
    fault freedom together with the postcondition, [wp True] is the
    postcondition of the executions that have one. *)
Definition wp {S A} (E : Prop) (m : M S A) (Q : A -> S -> Prop) (J : ctl -> S -> Prop) (s : S) : Prop :=
  match m s with
  | Ok a s' => Q a s'
  | Jump c s' => J c s'
  | Fault _ => E
  end.

(** Postcondition of a statement that does not jump. *)
Definition nojump {S} : ctl -> S -> Prop := fun _ _ => False.

Lemma wp_ret {S A} E (a : A) Q J (s : S) : Q a s -> wp E (ret a) Q J s.
Proof. done. Qed.

Lemma wp_bind {S A B} E (m : M S A) (k : A -> M S B) Q J s :
  wp E m (fun a s' => wp E (k a) Q J s') J s -> wp E (bind m k) Q J s.
Proof. unfold wp, bind. by destruct (m s). Qed.

Lemma wp_mono {S A} (E E' : Prop) (m : M S A) (Q Q' : A -> S -> Prop) (J J' : ctl -> S -> Prop) s :
  (E -> E') -> (forall a s', Q a s' -> Q' a s') -> (forall c s', J c s' -> J' c s') ->
  wp E m Q J s -> wp E' m Q' J' s.
Proof. unfold wp. destruct (m s); auto. Qed.

Lemma wp_conseq {S A} E (m : M S A) (Q Q' : A -> S -> Prop) (J J' : ctl -> S -> Prop) s :
  wp E m Q J s -> (forall a s', Q a s' -> Q' a s') -> (forall c s', J c s' -> J' c s') -> wp E m Q' J' s.
Proof. intros Hm HQ HJ. by apply (wp_mono E E m Q Q' J J'). Qed.

Lemma wp_and {S A} E (m : M S A) (Q Q' : A -> S -> Prop) (J : ctl -> S -> Prop) s :
  wp E m Q J s -> wp E m Q' J s -> wp E m (fun a s' => Q a s' /\ Q' a s') J s.
Proof. unfold wp. by destruct (m s). Qed.

(** Fault freedom gives the result. *)
Lemma wp_exec {S A} (m : M S A) Q s :
  wp False m Q nojump s -> exists a s', m s = Ok a s' /\ Q a s'.
Proof. unfold wp, nojump. destruct (m s); [eauto|done|done]. Qed.

Lemma wp_ok {S A} E (m : M S A) Q J a s s' : wp E m Q J s -> m s = Ok a s' -> Q a s'.
Proof. unfold wp. intros Hm He. by rewrite He in Hm. Qed.

(** A statement that satisfies what another one satisfies has its outcome. *)
Lemma wp_outcome {S A} (m m' : M S A) s s' :
  (forall Q J, wp False m' Q J s' -> wp False m Q J s) -> (forall f, m' s' <> Fault f) -> m s = m' s'.
Proof.
  intros Hw Hf. specialize (Hw (fun a t => m' s' = Ok a t) (fun c t => m' s' = Jump c t)). unfold wp in Hw.
  destruct (m' s') as [a t|c t|f] eqn:E'; [| |by destruct (Hf f)]; specialize (Hw eq_refl).
  all: by destruct (m s).
Qed.

(** A postcondition may mention the execution itself. *)
Lemma wp_remember {S A} E (m : M S A) (Q : A -> S -> Prop) J s :
  wp E m Q J s -> wp E m (fun a s' => m s = Ok a s' /\ Q a s') J s.
Proof. unfold wp. by destruct (m s). Qed.

Lemma wp_of_exec {S A} E (m : M S A) Q J a s s' : m s = Ok a s' -> Q a s' -> wp E m Q J s.
Proof. unfold wp. by intros ->. Qed.

Lemma wp_gets {S A} E (f : S -> A) Q J s : Q (f s) s -> wp E (gets f) Q J s.
Proof. done. Qed.

Lemma wp_modify {S} E (f : S -> S) Q J s : Q tt (f s) -> wp E (modify f) Q J s.
Proof. done. Qed.

Lemma wp_jump {S A} E c (Q : A -> S -> Prop) J s : J c s -> wp E (jump c) Q J s.
Proof. done. Qed.

Lemma wp_raise {S A} (E : Prop) f (Q : A -> S -> Prop) J s : E -> wp E (raise f) Q J s.
Proof. done. Qed.

Lemma wp_call {S} E (m : M S Z) Q J s :
  wp E m Q (fun c s' => match c with CReturn r => Q r s' | _ => J c s' end) s -> wp E (call m) Q J s.
Proof. unfold wp, call. destruct (m s) as [|[]|]; auto. Qed.

Lemma wp_vcall {S} E (m : M S unit) Q J s :
  wp E m Q (fun c s' => match c with CReturn _ => Q tt s' | _ => J c s' end) s -> wp E (vcall m) Q J s.
Proof. unfold wp, vcall. destruct (m s) as [[]|[]|]; auto. Qed.

Lemma wp_switch {S} E (m : M S unit) Q J s :
  wp E m Q (fun c s' => match c with CBreak => Q tt s' | _ => J c s' end) s -> wp E (switch m) Q J s.
Proof. unfold wp, switch. destruct (m s) as [[]|[]|]; auto. Qed.

(** A [for] loop preserves an invariant indexed by the values still to visit. *)
Lemma wp_for_each {S X} E (I : list X -> S -> Prop) (body : X -> M S unit) (J : ctl -> S -> Prop) Q l s :
  I l s ->
  (forall x l' s', I (x :: l') s' ->
     wp E (body x) (fun _ s'' => I l' s'')
       (fun c s'' => match c with
                     | CContinue => I l' s''
                     | CBreak => Q tt s''
                     | CReturn _ => J c s'' end) s') ->
  (forall s', I [] s' -> Q tt s') ->
  wp E (for_each l body) Q J s.
Proof.
  intros HI Hb HQ. revert s HI. induction l as [|x l IH]; intros s HI.
  { by apply HQ. }
  specialize (Hb x l s HI). unfold wp in *. simpl.
  destruct (body x s) as [a s'|[] s'|f]; try done; by apply IH.
Qed.

(** [for (i = 0; i < n; i++)] with the invariant indexed by [i]. *)
Lemma wp_for_seq {S} E (I : nat -> S -> Prop) (body : nat -> M S unit) (J : ctl -> S -> Prop) Q n s :
  I 0%nat s ->
  (forall i s', (i < n)%nat -> I i s' ->
     wp E (body i) (fun _ s'' => I (Datatypes.S i) s'')
       (fun c s'' => match c with
                     | CContinue => I (Datatypes.S i) s''
                     | CBreak => Q tt s''
                     | CReturn _ => J c s'' end) s') ->
  (forall s', I n s' -> Q tt s') ->
  wp E (for_each (seq 0 n) body) Q J s.
Proof.
  intros HI Hb HQ.
  apply (wp_for_each E (fun l s' => exists i, (i <= n)%nat /\ l = seq i (n - i) /\ I i s')).
  - exists 0%nat. rewrite Nat.sub_0_r. auto with lia.
  - intros x l' s' (i & Hi & Hl & Hs'). destruct (n - i)%nat as [|m] eqn:Em; [done|].
    injection Hl as -> ->.
    assert (forall s'', I (Datatypes.S i) s'' ->
      exists j, (j <= n)%nat /\ seq (Datatypes.S i) m = seq j (n - j) /\ I j s'') as Hnext.
    { intros s'' Hs''. exists (Datatypes.S i). split; [lia|]. split; [|done]. f_equal. lia. }
    eapply wp_mono; [done| | |apply (Hb i s'); [lia|done]].
    + intros ? s'' ?. by apply Hnext.
    + intros [] s''; auto.
  - intros s' (i & Hi & Hl & Hs'). apply HQ. destruct (n - i)%nat eqn:E'; [|done].
    by replace n with i by lia.
Qed.

(** A counted loop [for (i = lo; i < lo + n; i++)]: the invariant is indexed by
    the number of iterations done. *)
Lemma wp_for_acc_seqZ {S B} E (I : Z -> B -> S -> Prop) (body : Z -> B -> M S B)
    (J : ctl -> S -> Prop) Q lo n acc s :
  0 <= n -> I 0 acc s ->
  (forall k a s', 0 <= k < n -> I k a s' -> wp E (body (lo + k) a) (I (k + 1)) J s') ->
  (forall a s', I n a s' -> Q a s') ->
  wp E (for_acc (seqZ lo n) acc body) Q J s.
Proof.
  intros Hn HI Hb HQ.
  assert (forall m k a s', 0 <= k -> k + Z.of_nat m = n -> I k a s' ->
    wp E (for_acc (seqZ (lo + k) (Z.of_nat m)) a body) Q J s') as Hgen.
  { induction m as [|m IH]; intros k a s' Hk Hkn Hs.
    - simpl. apply wp_ret, HQ. by replace n with k by lia.
    - rewrite seqZ_cons by lia. simpl. apply wp_bind.
      eapply wp_mono; [done| |done|apply Hb; [lia|done]].
      intros a' s'' Hs''. replace (Z.succ (lo + k)) with (lo + (k + 1)) by lia.
      replace (Z.pred (Z.of_nat (Datatypes.S m))) with (Z.of_nat m) by lia.
      apply IH; [lia|lia|done]. }
  specialize (Hgen (Z.to_nat n) 0 acc s). rewrite Z2Nat.id, Z.add_0_r in Hgen by done.
  apply Hgen; [lia|lia|done].
Qed.

(** [for (i = 0; i < n; i++)] over integers. *)
Lemma wp_for_each_seqZ {S} E (I : Z -> S -> Prop) (body : Z -> M S unit) (J : ctl -> S -> Prop) Q n s :
  0 <= n -> I 0 s ->
  (forall k s', 0 <= k < n -> I k s' -> wp E (body k) (fun _ s'' => I (k + 1) s'') nojump s') ->
  (forall s', I n s' -> Q tt s') ->
  wp E (for_each (seqZ 0 n) body) Q J s.
Proof.
  intros Hn HI Hb HQ.
  assert (forall m k s', 0 <= k -> k + Z.of_nat m = n -> I k s' -> wp E (for_each (seqZ k (Z.of_nat m)) body) Q J s') as Hgen.
  { induction m as [|m IH]; intros k s' Hk Hkn Hs.
    - apply wp_ret, HQ. by replace n with k by lia.
    - rewrite seqZ_cons by lia. specialize (Hb k s' ltac:(lia) Hs). unfold wp in *.
      cbn [for_each]. destruct (body k s') as [a s''|c s''|f]; [|done|done].
      replace (Z.pred (Z.of_nat (Datatypes.S m))) with (Z.of_nat m) by lia. apply (IH (k + 1)); [lia|lia|done]. }
  specialize (Hgen (Z.to_nat n) 0 s). rewrite Z2Nat.id in Hgen by done. apply Hgen; [lia|lia|done].
Qed.

(** Total correctness of a [while] loop by a measure that bounds its fuel. *)
Lemma wp_while_measure {S} E (I : S -> Prop) (mu : S -> nat) cond (body : M S unit) (J : ctl -> S -> Prop) Q fuel s :
  I s -> (mu s < fuel)%nat ->
  (forall s', I s' -> cond s' = true ->
     wp E body (fun _ s'' => I s'' /\ (mu s'' < mu s')%nat)
       (fun c s'' => match c with
                     | CContinue => I s'' /\ (mu s'' < mu s')%nat
                     | CBreak => Q tt s''
                     | CReturn _ => J c s'' end) s') ->
  (forall s', I s' -> cond s' = false -> Q tt s') ->
  wp E (while_ fuel cond body) Q J s.
Proof.
  intros HI Hm Hb HQ. revert s HI Hm. induction fuel as [|n IH]; intros s HI Hm; unfold wp; simpl.
  - lia.
  - destruct (cond s) eqn:Hc; [|auto].
    specialize (Hb s HI Hc). unfold wp in Hb, IH.
    destruct (body s) as [a s'|[] s'|f]; try done; destruct Hb; apply IH; auto; lia.
Qed.

(** A [while] loop whose invariant implies its condition does not end. *)
Lemma while_never {S} (I : S -> Prop) cond (body : M S unit) fuel s :
  (forall s', I s' -> cond s' = true /\ wp False body (fun _ s'' => I s'') (fun c s'' => c = CContinue /\ I s'') s') ->
  I s -> while_ fuel cond body s = Fault OutOfFuel.
Proof.
  intros Hb. revert s. induction fuel as [|n IH]; intros s HI; destruct (Hb s HI) as [Hc Hw]; cbn [while_]; rewrite Hc; [done|].
  unfold wp in Hw. destruct (body s) as [a s'|c s'|f]; [by apply IH| |done]. destruct Hw as [-> HI']. by apply IH.
Qed.

(** * Monad laws, up to extensional equality of statements *)
Definition meq {S A} (m1 m2 : M S A) : Prop := forall s, m1 s = m2 s.

#[export] Instance meq_equivalence {S A} : Equivalence (@meq S A).
Proof.
  split.
  - by intros m s.
  - intros m1 m2 H s. by rewrite H.
  - intros m1 m2 m3 H1 H2 s. by rewrite H1, H2.
Qed.

#[export] Instance bind_proper {S A B} :
  Proper (meq ==> pointwise_relation A meq ==> meq) (@bind S A B).
Proof.
  intros m1 m2 Hm k1 k2 Hk s. unfold bind. rewrite (Hm s).
  destruct (m2 s); auto. apply Hk.
Qed.

#[export] Instance wp_proper {S A} :
  Proper (iff ==> meq ==> eq ==> eq ==> eq ==> iff) (@wp S A).
Proof.
  intros E E' HE m m' Hm ? Q -> ? J -> ? s ->. unfold wp. rewrite (Hm s).
  destruct (m' s); by try rewrite HE.
Qed.

Lemma bind_assoc {S A B C} (m : M S A) (k : A -> M S B) (h : B -> M S C) :
  meq (bind (bind m k) h) (bind m (fun a => bind (k a) h)).
Proof. intros s. unfold bind. by destruct (m s). Qed.

Lemma bind_ret_l {S A B} (a : A) (k : A -> M S B) : meq (bind (ret a) k) (k a).
Proof. by intros s. Qed.

Lemma bind_ret_r {S A} (m : M S A) : meq (bind m ret) m.
Proof. intros s. unfold bind, ret. by destruct (m s). Qed.

(** A loop over a concatenation is the sequence of the loops, when the body
    never breaks. *)
Lemma for_each_app {S X} (l1 l2 : list X) (body : X -> M S unit) :
  (forall x s s', body x s <> Jump CBreak s') ->
  meq (for_each (l1 ++ l2) body) (bind (for_each l1 body) (fun _ => for_each l2 body)).
Proof.
  intros Hb. induction l1 as [|x l1 IH]; intros s; [done|].
  simpl. unfold bind. simpl. specialize (Hb x s).
  destruct (body x s) as [a s'|[] s'|f]; auto; try apply IH.
  by destruct (Hb s').
Qed.

(** * Updating one field of a record

    [s <| f := v |>] is [s] with field [f] set to [v].  [Settable] gives the
    record rebuilt from its own fields; the setter of a field is read off it. *)
Class Settable (R : Type) := rebuild : R -> R.

Class Setter {R T : Type} (proj : R -> T) := set_field : (T -> T) -> R -> R.
Arguments set_field {R T} proj {_} _ _.

Ltac build_setter :=
  match goal with
  | |- @Setter ?R ?T ?proj =>
      let i := constr:(_ : Settable R) in
      let e := eval red in i in
      let e := match e with
               | (fun r => _) => e
               | _ => let e' := eval hnf in i in e'
               end in
      let p := eval pattern proj in e in
      lazymatch p with
      | (fun _ => ?b) _ => fail "not a member of the record"
      | ?F _ => let u := eval cbv beta in (fun (f : T -> T) (r : R) => F (fun r' => f (proj r')) r) in exact u
      end
  end.

#[export] Hint Mode Setter - - + : typeclass_instances.

(** A setter that has no instance of its own is built where it is used. *)
#[export] Hint Extern 10 (Setter _) => build_setter : typeclass_instances.

Declare Scope update_scope.
Notation "s <| f := v |>" := (set_field f (fun _ => v) s)
  (at level 1, left associativity, f at level 0, v at level 200) : update_scope.
#[global] Open Scope update_scope.

(** [get_set] reduces a projection of an updated record.  The equation is checked on
    a variable record, so that its cost does not depend on the updates underneath. *)
Ltac get_set_with p u f s tac :=
  let R := type of s in
  let e := fresh "e" in
  first [ assert (forall x : R, p (u f x) = p x) as e by (intro; reflexivity)
        | lazymatch f with
          | (fun _ => ?v) => assert (forall x : R, p (u f x) = v) as e by (intro; reflexivity)
          end ];
  let h := constr:(e s) in tac h; clear e.
Ltac get_set_step :=
  match goal with
  | |- context [?p (@set_field ?R ?T ?q ?i ?f ?s)] =>
      get_set_with p (@set_field R T q i) f s ltac:(fun e => rewrite e)
  | H : context [?p (@set_field ?R ?T ?q ?i ?f ?s)] |- _ =>
      get_set_with p (@set_field R T q i) f s ltac:(fun e => rewrite e in H)
  end.
Ltac get_set := repeat get_set_step.

(** One step of the program logic on the head of the statement. *)
Ltac wp_step :=
  lazymatch goal with
  | |- wp _ (bind _ _) _ _ _ => apply wp_bind
  | |- wp _ (ret _) _ _ _ => apply wp_ret
  | |- wp _ (gets _) _ _ _ => apply wp_gets
  | |- wp _ (modify _) _ _ _ => apply wp_modify
  | |- wp _ (jump _) _ _ _ => apply wp_jump
  | |- wp _ (call _) _ _ _ => apply wp_call
  | |- wp _ (vcall _) _ _ _ => apply wp_vcall
  | |- wp _ vreturn _ _ _ => apply wp_jump
  | |- wp _ (when ?b _) _ _ _ => unfold when; destruct b eqn:?
  | |- wp _ (switch _) _ _ _ => apply wp_switch
  | |- wp ?E (if ?b then _ else _) _ _ _ => destruct b eqn:?
  | |- wp ?E (let '(_, _) := ?x in _) _ _ _ => destruct x eqn:?
  | |- wp True (raise _) _ _ _ => apply wp_raise; exact I
  end.
Ltac wps := repeat wp_step.
