(* ===== verification/Fuel.v ===== *)
(** * Fuel

    The loops without a static bound take a number of iterations.  [extends m m']: [m']
    does what [m] does unless [m] runs out of fuel.  The relation is an order that the
    constructs of the language preserve, so that a statement that ends has the same
    outcome with more fuel, and its outcome does not depend on the number chosen. *)

From S2P Require Import Prelude CMonad.
From stdpp Require Import options.

Definition extends {S A} (m m' : M S A) : Prop := forall s, m s = Fault OutOfFuel \/ m' s = m s.

#[export] Instance extends_preorder {S A} : PreOrder (@extends S A).
Proof.
  split.
  - intros m s. by right.
  - intros m1 m2 m3 H12 H23 s. destruct (H12 s) as [?|E12]; [by left|]. destruct (H23 s) as [E2|E23].
    + left. by rewrite <- E12.
    + right. by rewrite E23.
Qed.

Section extends.
Context {S : Type}.

Lemma extends_refl {A} (m : M S A) : extends m m.
Proof. reflexivity. Qed.

Lemma extends_out {A} (m : M S A) : extends (raise OutOfFuel) m.
Proof. intros s. by left. Qed.

Lemma extends_bind {A B} (m m' : M S A) (k k' : A -> M S B) :
  extends m m' -> (forall a, extends (k a) (k' a)) -> extends (bind m k) (bind m' k').
Proof.
  intros Hm Hk s. unfold bind. destruct (Hm s) as [->| ->]; [by left|]. destruct (m s); [apply Hk|by right|by right].
Qed.

Lemma extends_when b (m m' : M S unit) : extends m m' -> extends (when b m) (when b m').
Proof. intros Hm. by destruct b. Qed.

Lemma extends_call (m m' : M S Z) : extends m m' -> extends (call m) (call m').
Proof. intros Hm s. unfold call. destruct (Hm s) as [->| ->]; [by left|by right]. Qed.

Lemma extends_switch (m m' : M S unit) : extends m m' -> extends (switch m) (switch m').
Proof. intros Hm s. unfold switch. destruct (Hm s) as [->| ->]; [by left|by right]. Qed.

Lemma extends_while n n' cond (m m' : M S unit) :
  (n <= n')%nat -> extends m m' -> extends (while_ n cond m) (while_ n' cond m').
Proof.
  intros Hn Hm. revert n' Hn. induction n as [|n IH]; intros n' Hn s.
  - simpl. destruct (cond s) eqn:Hc; [by left|right]. destruct n'; simpl; by rewrite Hc.
  - destruct n' as [|n']; [lia|]. simpl. destruct (cond s); [|by right]. specialize (IH n' ltac:(lia)).
    destruct (Hm s) as [->| ->]; [by left|]. destruct (m s) as [a s'|[] s'|f]; try (by right); apply IH.
Qed.

End extends.

Create HintDb fuel discriminated.
#[export] Hint Resolve extends_bind extends_when extends_call extends_switch extends_while extends_out : fuel.
#[export] Hint Resolve extends_refl | 5 : fuel.
