(* ===== verification/Heap.v ===== *)
(** * Dynamically allocated objects

    [malloc], [free] and the accesses through the pointers they return.  Each
    struct type of the program has its own heap of live objects: a C object is
    only ever accessed at the type it was allocated with.  A pointer is [None]
    for [NULL] or the identity of an allocation; identities are never reused,
    so an access through a pointer whose object was freed is recognised
    whatever was allocated since.  [malloc] is taken to succeed, as the code
    takes it to: it never tests the result. *)

From S2P Require Import Prelude CMonad.
From stdpp Require Import options.

Abbreviation ptr := (option nat).

Definition NULL : ptr := None.

Record heap (A : Type) := Heap {
  cells : gmap nat A;
  brk : nat;
}.
Arguments Heap {A} _ _.
Arguments cells {A} _.
Arguments brk {A} _.

Definition empty_heap {A} : heap A := Heap ∅ 0.

(** Every live object lies below the next identity to be allocated. *)
Definition heap_wf {A} (h : heap A) : Prop :=
  forall l, is_Some (cells h !! l) -> (l < brk h)%nat.

(** The object a pointer designates, when it designates a live one. *)
Definition deref {A} (h : heap A) (p : ptr) : option A := p ≫= fun l => cells h !! l.

Definition heap_alloc {A} (v : A) (h : heap A) : heap A :=
  Heap (<[brk h := v]> (cells h)) (S (brk h)).

Definition heap_write {A} (l : nat) (v : A) (h : heap A) : heap A :=
  Heap (<[l := v]> (cells h)) (brk h).

Definition heap_free {A} (l : nat) (h : heap A) : heap A :=
  Heap (delete l (cells h)) (brk h).

Section ops.
Context {S A : Type} (hp : S -> heap A) `{!Setter hp}.

Definition load (p : ptr) : M S A := fun s =>
  match p with
  | None => Fault NullDeref
  | Some l => match cells (hp s) !! l with
              | Some v => Ok v s
              | None => Fault UseAfterFree
              end
  end.

Definition store (p : ptr) (v : A) : M S unit := fun s =>
  match p with
  | None => Fault NullDeref
  | Some l => match cells (hp s) !! l with
              | Some _ => Ok tt (s <| hp := heap_write l v (hp s) |>)
              | None => Fault UseAfterFree
              end
  end.

(** [malloc] followed by the initialisation of the object with [v]. *)
Definition malloc (v : A) : M S ptr := fun s =>
  Ok (Some (brk (hp s))) (s <| hp := heap_alloc v (hp s) |>).

Definition free (p : ptr) : M S unit := fun s =>
  match p with
  | None => Ok tt s
  | Some l => match cells (hp s) !! l with
              | Some _ => Ok tt (s <| hp := heap_free l (hp s) |>)
              | None => Fault DoubleFree
              end
  end.

Lemma wp_load E p v Q J s : deref (hp s) p = Some v -> Q v s -> wp E (load p) Q J s.
Proof. destruct p as [l|]; [|done]. unfold wp, load. simpl. by intros ->. Qed.

Lemma wp_load_lib p Q J s :
  (forall v, deref (hp s) p = Some v -> Q v s) -> wp True (load p) Q J s.
Proof.
  intros H. unfold wp, load. destruct p as [l|]; [|done].
  simpl in H. destruct (cells (hp s) !! l); auto.
Qed.

Lemma wp_store E l v v' Q J s :
  cells (hp s) !! l = Some v' -> Q tt (s <| hp := heap_write l v (hp s) |>) ->
  wp E (store (Some l) v) Q J s.
Proof. intros H. unfold wp, store. by rewrite H. Qed.

Lemma wp_store_lib p v Q J s :
  (forall l v', p = Some l -> cells (hp s) !! l = Some v' ->
     Q tt (s <| hp := heap_write l v (hp s) |>)) ->
  wp True (store p v) Q J s.
Proof.
  intros H. unfold wp, store. destruct p as [l|]; [|done].
  destruct (cells (hp s) !! l) eqn:Hl; [|done]. by eapply H.
Qed.

Lemma wp_malloc E v Q J s :
  Q (Some (brk (hp s))) (s <| hp := heap_alloc v (hp s) |>) -> wp E (malloc v) Q J s.
Proof. done. Qed.

Lemma wp_free_lib p Q J s :
  Q tt s -> (forall l, p = Some l -> Q tt (s <| hp := heap_free l (hp s) |>)) ->
  wp True (free p) Q J s.
Proof.
  intros H0 H. unfold wp, free. destruct p as [l|]; [|done].
  destruct (cells (hp s) !! l) eqn:Hl; [|done]. by apply H.
Qed.

Lemma wp_free E l v Q J s :
  cells (hp s) !! l = Some v -> Q tt (s <| hp := heap_free l (hp s) |>) ->
  wp E (free (Some l)) Q J s.
Proof. intros H. unfold wp, free. by rewrite H. Qed.

(** The second [free] of an object, and any access to it in between, is undefined. *)
Lemma load_freed l s : cells (hp s) !! l = None -> load (Some l) s = Fault UseAfterFree.
Proof. unfold load. by intros ->. Qed.

Lemma free_freed l s : cells (hp s) !! l = None -> free (Some l) s = Fault DoubleFree.
Proof. unfold free. by intros ->. Qed.

End ops.

Section lemmas.
Context {A : Type}.
Implicit Types (h : heap A) (v : A).

Lemma empty_heap_wf : heap_wf (@empty_heap A).
Proof. intros l Hl. cbn in Hl. rewrite lookup_empty in Hl. by destruct Hl. Qed.

Lemma heap_alloc_wf v h : heap_wf h -> heap_wf (heap_alloc v h).
Proof.
  intros H l. simpl. rewrite lookup_insert. case_decide; [lia|].
  intros Hl. specialize (H l Hl). lia.
Qed.

Lemma heap_write_wf l v h : heap_wf h -> is_Some (cells h !! l) -> heap_wf (heap_write l v h).
Proof.
  intros H Hl k. simpl. rewrite lookup_insert. case_decide; subst; auto.
Qed.

Lemma heap_free_wf l h : heap_wf h -> heap_wf (heap_free l h).
Proof.
  intros H k. simpl. rewrite lookup_delete. case_decide; auto. by intros [].
Qed.

Lemma deref_alloc v h : deref (heap_alloc v h) (Some (brk h)) = Some v.
Proof. simpl. apply lookup_insert_eq. Qed.

Lemma deref_alloc_other v v' h p : heap_wf h -> deref h p = Some v' -> deref (heap_alloc v h) p = Some v'.
Proof.
  intros H. destruct p as [l|]; [|done]. simpl. intros Hl.
  assert (l < brk h)%nat by (apply H; eauto). by rewrite lookup_insert_ne by lia.
Qed.

Lemma deref_write l v h : deref (heap_write l v h) (Some l) = Some v.
Proof. simpl. apply lookup_insert_eq. Qed.

Lemma deref_write_ne l l' v h : l <> l' -> deref (heap_write l v h) (Some l') = deref h (Some l').
Proof. intros. simpl. by rewrite lookup_insert_ne. Qed.

End lemmas.
