(* ===== verification/Memory.v ===== *)
(** * Regions of memory

    The frame buffers: blocks of bytes, written with [memcpy], and the object
    representation of the integers stored in them. *)

From S2P Require Import Prelude CMonad.
From stdpp Require Import options.

(** A region of memory: its size in bytes, and the bytes written so far. *)
Record block := Block {
  bsize : Z;
  bdata : gmap Z Z;
}.

#[export] Instance settable_block : Settable block := fun r =>
  Block (bsize r) (bdata r).

(** Stores the bytes [l] at offset [off]. *)
Fixpoint write_bytes (off : Z) (l : list Z) (m : gmap Z Z) : gmap Z Z :=
  match l with
  | [] => m
  | b :: l' => write_bytes (off + 1) l' (<[off := b]> m)
  end.

(** The object representation of an unsigned integer, least significant byte first. *)
Fixpoint le_bytes (n : nat) (z : Z) : list Z :=
  match n with
  | O => []
  | S n' => z mod 256 :: le_bytes n' (z / 256)
  end.

Lemma length_le_bytes n z : length (le_bytes n z) = n.
Proof. revert z. induction n; intros; simpl; auto. Qed.

Lemma lookup_write_bytes_ne off l m a :
  a < off \/ off + Z.of_nat (length l) <= a -> write_bytes off l m !! a = m !! a.
Proof.
  revert off m. induction l as [|b l IH]; intros off m Ha; simpl in *; [done|].
  rewrite IH by lia. apply lookup_insert_ne. lia.
Qed.

Lemma lookup_write_bytes off l m i :
  (i < length l)%nat -> write_bytes off l m !! (off + Z.of_nat i) = l !! i.
Proof.
  revert off m i. induction l as [|b l IH]; intros off m i Hi; simpl in *; [lia|].
  destruct i as [|i]; simpl.
  - rewrite Z.add_0_r, lookup_write_bytes_ne by lia. apply lookup_insert_eq.
  - replace (off + Z.of_nat (S i)) with ((off + 1) + Z.of_nat i) by lia. apply IH. lia.
Qed.

(** Reads [n] bytes at [off] as a little-endian integer. *)
Fixpoint read_le (n : nat) (off : Z) (m : gmap Z Z) : option Z :=
  match n with
  | O => Some 0
  | S n' => b ← m !! off; r ← read_le n' (off + 1) m; Some (b + 256 * r)
  end.

Lemma read_le_write n off z m :
  read_le n off (write_bytes off (le_bytes n z) m) = Some (z mod 256 ^ Z.of_nat n).
Proof.
  revert off z m. induction n as [|n IH]; intros off z m; simpl.
  { by rewrite Z.mod_1_r. }
  rewrite lookup_write_bytes_ne by lia. rewrite lookup_insert_eq. simpl.
  rewrite IH. simpl. f_equal.
  rewrite Nat2Z.inj_succ, Z.pow_succ_r by lia.
  rewrite (Z.rem_mul_r z 256) by lia. done.
Qed.

Lemma read_le_ext n off m m' :
  (forall a, off <= a < off + Z.of_nat n -> m !! a = m' !! a) -> read_le n off m = read_le n off m'.
Proof.
  revert off. induction n as [|n IH]; intros off Ha; simpl; [done|].
  rewrite (Ha off) by lia. rewrite (IH (off + 1)); [done|]. intros. apply Ha. lia.
Qed.

