(* ===== verification/Lcf.v ===== *)
(** * Data types of the LCOM framework headers

    The structs, enums and unions of [.minix-src/include/lcom/*.h] that the
    program passes to and receives from the framework. *)

From S2P Require Import Prelude CMonad.
From stdpp Require Import options.

(** [struct packet] of lab4.h: a decoded PS/2 mouse packet. *)
Record packet := Packet {
  pp_bytes : list Z;
  pp_rb : bool;
  pp_mb : bool;
  pp_lb : bool;
  pp_delta_x : Z;
  pp_delta_y : Z;
  pp_x_ov : bool;
  pp_y_ov : bool;
}.

Definition no_packet : packet := Packet [0; 0; 0] false false false 0 0 false false.

Inductive timer_init := INVAL_val | LSB_only | MSB_only | MSB_after_LSB.

Inductive timer_status_field := tsf_all | tsf_initial | tsf_mode | tsf_base.

(** [union timer_status_field_val]: the member that was stored last.  An enum
    object may hold any value of its underlying type, so [in_mode] carries the
    integer stored in it. *)
Inductive timer_status_field_val :=
| val_byte (b : Z)
| val_in_mode (m : Z)
| val_count_mode (m : Z)
| val_bcd (b : bool).

(** The integer value of an enumerator of [enum timer_init]. *)
Definition timer_init_code (t : timer_init) : Z :=
  match t with INVAL_val => 0 | LSB_only => 1 | MSB_only => 2 | MSB_after_LSB => 3 end.

Inductive xpm_image_type :=
| XPM_INDEXED | XPM_1_5_5_5 | XPM_5_6_5 | XPM_8_8_8 | XPM_8_8_8_8
| XPM_GRAY_1_5_5_5 | XPM_GRAY_5_6_5 | XPM_GRAY_8_8_8 | XPM_GRAY_8_8_8_8 | INVALID_XPM.

(** A pixmap in the program's text ([xpm_map_t]): an identity and the first row
    of the array, which gives its columns and rows. *)
Record xpm_map := XpmMap {
  xpm_id : nat;
  xpm_columns : Z;
  xpm_rows : Z;
}.

Record xpm_image_t := XpmImage {
  img_type : xpm_image_type;
  width : Z;
  height : Z;
  img_size : Z;
  bytes : list Z;
}.

(** An [xpm_image_t] whose members were never written. *)
Definition no_image : xpm_image_t := XpmImage INVALID_XPM 0 0 0 [].

(** The members of [vbe_mode_info_t] that the program reads. *)
Record vbe_mode_info_t := VbeModeInfo {
  XResolution : Z;
  YResolution : Z;
  BitsPerPixel : Z;
  MemoryModel : Z;
  RedMaskSize : Z;
  RedFieldPosition : Z;
  GreenMaskSize : Z;
  GreenFieldPosition : Z;
  BlueMaskSize : Z;
  BlueFieldPosition : Z;
  PhysBasePtr : Z;
}.

(** The members of [reg86_t] that the program uses. *)
Record reg86_t := Reg86 {
  r_intno : Z;
  r_al : Z;
  r_ah : Z;
  r_bx : Z;
}.

(** A received message: the process slot of its source
    ([_ENDPOINT_P(msg.m_source)]) and [m_notify.interrupts]. *)
Record message := Message {
  m_source_p : Z;
  m_interrupts : Z;
}.

(** The pseudo-process of hardware interrupt notifications ([minix/com.h]). *)
Definition HARDWARE : Z := -1.

#[export] Instance settable_packet : Settable packet := fun p =>
  Packet (pp_bytes p) (pp_rb p) (pp_mb p) (pp_lb p) (pp_delta_x p) (pp_delta_y p)
         (pp_x_ov p) (pp_y_ov p).
#[export] Instance settable_reg86 : Settable reg86_t := fun r =>
  Reg86 (r_intno r) (r_al r) (r_ah r) (r_bx r).
