(* ===== verification/Minix.v ===== *)
(** * The operating system and the devices

    The MINIX kernel calls and the framework functions that the program calls
    are not part of the program: they are the operations of the class [Kernel],
    over an arbitrary state [D] of the devices and of the system.  Theorems
    quantify over every kernel; what a theorem relies on is one of the law
    classes below.  [Script] is a concrete kernel that replays a script of
    messages and port values; the witnesses run on it. *)

From S2P Require Import Prelude CMonad Lcf.
From stdpp Require Import strings.
From stdpp Require Import options.
#[local] Open Scope Z_scope.

Class Kernel (D : Type) := {
  (** [sys_inb(port, &v)]: return code and value read. *)
  sys_inb : Z -> D -> (Z * Z) * D;
  (** [sys_outb(port, v)]: return code. *)
  sys_outb : Z -> Z -> D -> Z * D;
  (** [sys_irqsetpolicy(irq, policy, &hook)]: return code and new hook id. *)
  sys_irqsetpolicy : Z -> Z -> Z -> D -> (Z * Z) * D;
  (** [sys_irqrmpolicy(&hook)]: return code. *)
  sys_irqrmpolicy : Z -> D -> Z * D;
  (** [driver_receive]: return code, message, and whether it is a notification. *)
  driver_receive : D -> (Z * message * bool) * D;
  sys_hz : D -> Z;
  micros_to_ticks : Z -> D -> Z;
  tickdelay : Z -> D -> D;
  sleep : Z -> D -> D;
  (** [srand(time(NULL))] and [rand()]. *)
  srand_time : D -> D;
  rand : D -> Z * D;
  vbe_get_mode_info : Z -> D -> (Z * vbe_mode_info_t) * D;
  (** [sys_privctl(SELF, SYS_PRIV_ADD_MEM, {base, limit})]: return code. *)
  sys_privctl_add_mem : Z -> Z -> D -> Z * D;
  (** [vm_map_phys(SELF, base, size)]: whether the mapping succeeded. *)
  vm_map_phys : Z -> Z -> D -> bool * D;
  sys_int86 : reg86_t -> D -> (Z * reg86_t) * D;
  vg_exit : D -> Z * D;
  (** [xpm_load(map, type, &img)]: the image stored in [img]. *)
  xpm_load : xpm_map -> xpm_image_type -> D -> xpm_image_t * D;
  (** The unspecified value of an object that was never written. *)
  indeterminate : D -> Z * D;
}.

(** The printing functions of the framework used by the laboratory programs. *)
Class LcfPrint (D : Type) := {
  timer_print_config : Z -> timer_status_field -> timer_status_field_val -> D -> Z * D;
  timer_print_elapsed_time : D -> D;
  kbd_print_scancode : bool -> Z -> list Z -> D -> D;
  mouse_print_packet : packet -> D -> D;
}.

(** The entry points of the framework that the [main] functions call.
    [lcf_start] parses the command line and runs the function it names. *)
Class LcfMain (D : Type) := {
  lcf_set_language : string -> D -> bool * D;
  lcf_trace_calls : string -> D -> bool * D;
  lcf_log_output : string -> D -> bool * D;
  lcf_start : list string -> D -> Z * D;
  lcf_cleanup : D -> Z * D;
}.

(** [xpm_load] of an indexed pixmap, as [lcom/xpm.h] documents it: the width and
    height are those of the pixmap and there is one byte per pixel. *)
Class XpmLaws (D : Type) `{Kernel D} :=
  xpm_load_indexed : forall m d,
    let img := fst (xpm_load m XPM_INDEXED d) in
    width img = xpm_columns m /\ height img = xpm_rows m /\
    length (bytes img) = Z.to_nat (xpm_columns m * xpm_rows m) /\
    Forall in_u8 (bytes img).

(** [rand] returns a value between 0 and RAND_MAX. *)
Class RandLaws (D : Type) `{Kernel D} := rand_nonneg : forall d, 0 <= fst (rand d).

(** The VBE mode 0x105 is 1024 by 768 with 8 bits per pixel. *)
Class Mode105 (D : Type) `{K : Kernel D} := mode_105_info : forall d i d',
  vbe_get_mode_info 0x105 d = ((0, i), d') ->
  XResolution i = 1024 /\ YResolution i = 768 /\ BitsPerPixel i = 8.

(** Runs a system operation on the device component of the program's state. *)
Definition sys {S D A} (dv : S -> D) `{!Setter dv} (f : D -> A * D) : M S A :=
  fun s => let '(a, d) := f (dv s) in Ok a (s <| dv := d |>).

(** A system operation without a result. *)
Definition sys_ {S D} (dv : S -> D) `{!Setter dv} (f : D -> D) : M S unit :=
  fun s => Ok tt (s <| dv := f (dv s) |>).

Lemma wp_sys {S D A} (dv : S -> D) `{!Setter dv} E (f : D -> A * D) Q J s :
  Q (fst (f (dv s))) (s <| dv := snd (f (dv s)) |>) -> wp E (sys dv f) Q J s.
Proof. unfold wp, sys. by destruct (f (dv s)). Qed.

(** * Equivalence of drivers

    Two statements over different states, each with a system component, are [same_io]
    when from equal system states they have the same outcome and value and leave equal system
    states: they make the same calls to the system. *)
Definition same_outcome {S1 S2 D A} (d1 : S1 -> D) (d2 : S2 -> D) (o1 : outcome S1 A) (o2 : outcome S2 A) : Prop :=
  match o1, o2 with
  | Ok a s1, Ok b s2 => a = b /\ d1 s1 = d2 s2
  | Jump c s1, Jump c' s2 => c = c' /\ d1 s1 = d2 s2
  | Fault f, Fault f' => f = f'
  | _, _ => False
  end.

Definition same_io {S1 S2 D A} (d1 : S1 -> D) (d2 : S2 -> D) (m1 : M S1 A) (m2 : M S2 A) : Prop :=
  forall s1 s2, d1 s1 = d2 s2 -> same_outcome d1 d2 (m1 s1) (m2 s2).

Section same_io.
Context {S1 S2 D : Type} (d1 : S1 -> D) (d2 : S2 -> D) `{!Setter d1, !Setter d2}.
Context (Hd1 : forall s d, d1 (s <| d1 := d |>) = d) (Hd2 : forall s d, d2 (s <| d2 := d |>) = d).

Lemma same_io_ret {A} (a : A) : same_io d1 d2 (ret a) (ret a).
Proof using Type. by intros s1 s2. Qed.

Lemma same_io_jump {A} c : same_io d1 d2 (jump (A:=A) c) (jump c).
Proof using Type. by intros s1 s2. Qed.

Lemma same_io_raise {A} f : same_io d1 d2 (raise (A:=A) f) (raise f).
Proof using Type. by intros s1 s2. Qed.

Lemma same_io_bind {A B} (m1 : M S1 A) (m2 : M S2 A) (k1 : A -> M S1 B) k2 :
  same_io d1 d2 m1 m2 -> (forall a, same_io d1 d2 (k1 a) (k2 a)) -> same_io d1 d2 (bind m1 k1) (bind m2 k2).
Proof using Type.
  intros Hm Hk s1 s2 Hs. specialize (Hm s1 s2 Hs). unfold bind, same_outcome in *.
  destruct (m1 s1) as [a t1|c t1|f], (m2 s2) as [b t2|c' t2|f']; try done. destruct Hm as [-> Ht]. by apply Hk.
Qed.

Lemma same_io_call (m1 : M S1 Z) (m2 : M S2 Z) : same_io d1 d2 m1 m2 -> same_io d1 d2 (call m1) (call m2).
Proof using Type.
  intros Hm s1 s2 Hs. specialize (Hm s1 s2 Hs). unfold call, same_outcome in *.
  destruct (m1 s1) as [a t1|c t1|f], (m2 s2) as [b t2|c' t2|f']; try done.
  destruct Hm as [-> Ht]. by destruct c'.
Qed.

Lemma same_io_sys {A} (f : D -> A * D) : same_io d1 d2 (sys d1 f) (sys d2 f).
Proof using Hd1 Hd2.
  intros s1 s2 Hs. unfold sys, same_outcome. rewrite Hs. destruct (f (d2 s2)). by rewrite Hd1, Hd2.
Qed.

Lemma same_io_sys_ (f : D -> D) : same_io d1 d2 (sys_ d1 f) (sys_ d2 f).
Proof using Hd1 Hd2. intros s1 s2 Hs. unfold sys_, same_outcome. by rewrite Hs, Hd1, Hd2. Qed.

(** Updates of other variables. *)
Lemma same_io_modify (f : S1 -> S1) (g : S2 -> S2) :
  (forall s, d1 (f s) = d1 s) -> (forall s, d2 (g s) = d2 s) -> same_io d1 d2 (modify f) (modify g).
Proof using Type. intros Hf Hg s1 s2 Hs. unfold modify, same_outcome. by rewrite Hf, Hg. Qed.

End same_io.

(** The scripted kernel.  [port_in] are the values the next reads return, read
    in order whatever the port; a read past the end of the script fails.
    [port_out] logs the port writes, most recent first. *)
Record script := Script {
  port_in : list Z;
  port_out : list (Z * Z);
  inbox : list message;
  randoms : list Z;
  vbe_modes : list (Z * vbe_mode_info_t);
  prints : list (Z * list Z);
  garbage : Z;
  hertz : Z;
}.

#[export] Instance settable_script : Settable script := fun d =>
  Script (port_in d) (port_out d) (inbox d) (randoms d) (vbe_modes d) (prints d) (garbage d) (hertz d).

Definition assoc_mode (m : Z) (l : list (Z * vbe_mode_info_t)) : option vbe_mode_info_t :=
  snd <$> List.find (fun p => fst p =? m) l.

(** The members at their width; mode 0x105 has the resolution and the depth of the VBE standard. *)
Definition vesa_mode (m : Z) (i : vbe_mode_info_t) : vbe_mode_info_t :=
  let '(x, y, bpp) := if m =? 0x105 then (1024, 768, 8) else (u16 (XResolution i), u16 (YResolution i), u8 (BitsPerPixel i)) in
  VbeModeInfo x y bpp (u8 (MemoryModel i)) (RedMaskSize i) (RedFieldPosition i) (GreenMaskSize i)
    (GreenFieldPosition i) (BlueMaskSize i) (BlueFieldPosition i) (PhysBasePtr i).

#[export] Instance script_kernel : Kernel script := {
  sys_inb _ d := match port_in d with
                 | [] => ((1, 0), d)
                 | v :: q => ((0, v), d <| port_in := q |>)
                 end;
  sys_outb p v d := (0, d <| port_out := (p, v) :: port_out d |>);
  sys_irqsetpolicy _ _ h d := ((0, h), d);
  sys_irqrmpolicy _ d := (0, d);
  driver_receive d := match inbox d with
                      | [] => ((1, Message 0 0, false), d)
                      | m :: q => ((0, m, true), d <| inbox := q |>)
                      end;
  sys_hz d := hertz d;
  micros_to_ticks us d := us * hertz d / 1000000;
  tickdelay _ d := d;
  sleep _ d := d;
  srand_time d := d;
  rand d := match randoms d with
            | [] => (0, d)
            | r :: q => (Z.abs r, d <| randoms := q ++ [r] |>)
            end;
  vbe_get_mode_info m d := match assoc_mode m (vbe_modes d) with
                           | Some i => ((0, vesa_mode m i), d)
                           | None => ((1, VbeModeInfo 0 0 0 0 0 0 0 0 0 0 0), d)
                           end;
  sys_privctl_add_mem _ _ d := (0, d);
  vm_map_phys _ _ d := (true, d);
  sys_int86 r d := ((0, r <| r_ah := 0 |> <| r_al := 0x4F |>), d);
  vg_exit d := (0, d);
  xpm_load m t d := (XpmImage t (xpm_columns m) (xpm_rows m) (xpm_columns m * xpm_rows m)
                       (replicate (Z.to_nat (xpm_columns m * xpm_rows m)) 1), d);
  indeterminate d := (garbage d, d);
}.

#[export] Instance script_print : LcfPrint script := {
  timer_print_config t f v d := (0, d <| prints := (t, []) :: prints d |>);
  timer_print_elapsed_time d := d <| prints := (0, []) :: prints d |>;
  kbd_print_scancode mk n bs d := d <| prints := (n, bs) :: prints d |>;
  mouse_print_packet p d := d <| prints := (3, pp_bytes p) :: prints d |>;
}.

#[export] Instance script_main : LcfMain script := {
  lcf_set_language _ d := (true, d);
  lcf_trace_calls _ d := (true, d);
  lcf_log_output _ d := (true, d);
  lcf_start args d := (match args with [] => 1 | _ => 0 end, d);
  lcf_cleanup d := (0, d);
}.

(** A kernel with one device: what its ports, its notifications and an object that was never
    written yield; every other call does nothing. *)
Definition device_kernel {X} (inb : Z -> X -> (Z * Z) * X) (outb : Z -> Z -> X -> Z * X)
    (receive : X -> (Z * message * bool) * X) (junk : X -> Z) : Kernel X := {|
  sys_inb := inb;
  sys_outb := outb;
  sys_irqsetpolicy _ _ h d := ((0, h), d);
  sys_irqrmpolicy _ d := (0, d);
  driver_receive := receive;
  sys_hz _ := 60;
  micros_to_ticks us _ := us * 60 / 1000000;
  tickdelay _ d := d;
  sleep _ d := d;
  srand_time d := d;
  rand d := (0, d);
  vbe_get_mode_info _ d := ((1, VbeModeInfo 0 0 0 0 0 0 0 0 0 0 0), d);
  sys_privctl_add_mem _ _ d := (0, d);
  vm_map_phys _ _ d := (true, d);
  sys_int86 r d := ((0, r), d);
  vg_exit d := (0, d);
  xpm_load _ _ d := (no_image, d);
  indeterminate d := (junk d, d);
|}.

(** No notification. *)
Definition silent {X} (d : X) : (Z * message * bool) * X := ((1, Message 0 0, false), d).

(** The interrupt line [n], at every call. *)
Definition interrupting {X} (n : Z) (d : X) : (Z * message * bool) * X := ((0, Message HARDWARE (BIT n), true), d).

Definition device_print {X} (elapsed : X -> X) (scan : bool -> Z -> list Z -> X -> X) (pkt : packet -> X -> X) : LcfPrint X := {|
  timer_print_config _ _ _ d := (0, d);
  timer_print_elapsed_time := elapsed;
  kbd_print_scancode := scan;
  mouse_print_packet := pkt;
|}.

#[export] Instance script_xpm_laws : XpmLaws script.
Proof.
  intros m d. simpl. repeat split.
  - by rewrite length_replicate.
  - apply Forall_replicate. unfold in_u8. lia.
Qed.

#[export] Instance script_rand_laws : RandLaws script.
Proof. intros d. simpl. destruct (randoms d); simpl; lia. Qed.

#[export] Instance script_mode_105 : Mode105 script.
Proof.
  intros d i d'. cbn. destruct (assoc_mode 0x105 (vbe_modes d)); [|discriminate].
  intros [= <- <-]. done.
Qed.

(** A script with the values [q] on the ports and nothing else. *)
Definition ports (q : list Z) : script := Script q [] [] [] [] [] 0 60.
