(* ===== verification/Frame.v ===== *)
(** * What a statement keeps and how it can fail

    [tame F J I m]: started where [I] holds, [m] leaves [I] true whichever way it ends;
    if it jumps the jump is in [J], and if it faults the fault is in [F].  With [F] and
    [J] always true this is the preservation of an invariant, [keeps I m]; with [I]
    always true it is a bound on the errors of the statement.  The predicate is closed under the constructs of the
    language, so that the tactic [tame] proves most instances. *)

From S2P Require Import Prelude CMonad Heap Lcf Minix.
From stdpp Require Import options.

Definition tame {S A} (F : fault -> Prop) (J : ctl -> Prop) (I : S -> Prop) (m : M S A) : Prop :=
  forall s, I s -> match m s with
                   | Ok _ s' => I s'
                   | Jump c s' => J c /\ I s'
                   | Fault f => F f
                   end.

Definition any_fault (f : fault) : Prop := True.

Definition any_jump (c : ctl) : Prop := True.

Definition no_jump (c : ctl) : Prop := False.

Definition any_state {S} (s : S) : Prop := True.

(** The faults that are not undefined behaviour. *)
Definition benign (f : fault) : Prop := f = OutOfFuel \/ f = Panic.

(** The jumps of the body of a function, a [switch] or a loop with the jumps [J]. *)
Definition in_call (J : ctl -> Prop) (c : ctl) : Prop := match c with CReturn _ => True | _ => J c end.

Definition in_switch (J : ctl -> Prop) (c : ctl) : Prop := match c with CBreak => True | _ => J c end.

Definition in_loop (J : ctl -> Prop) (c : ctl) : Prop := match c with CReturn _ => J c | _ => True end.

Abbreviation keeps I := (tame any_fault any_jump I).

Section tame.
Context {S : Type} (F : fault -> Prop) (J : ctl -> Prop) (I : S -> Prop).
Implicit Types s : S.

Lemma tame_ret {A} (a : A) : tame F J I (ret a).
Proof. by intros s. Qed.

Lemma tame_gets {A} (f : S -> A) : tame F J I (gets f).
Proof. by intros s. Qed.

Lemma tame_jump {A} c : J c -> tame F J I (jump (A := A) c).
Proof. by intros Hc s. Qed.

Lemma tame_vreturn {A} : J (CReturn 0) -> tame F J I (vreturn (A := A)).
Proof. by intros Hc s. Qed.

Lemma tame_raise {A} f : F f -> tame F J I (raise (A := A) f).
Proof. by intros Hf s. Qed.

Lemma tame_modify f : (forall s, I s -> I (f s)) -> tame F J I (modify f).
Proof. intros Hf s. apply Hf. Qed.

Lemma tame_bind {A B} (m : M S A) (k : A -> M S B) : tame F J I m -> (forall a, tame F J I (k a)) -> tame F J I (bind m k).
Proof.
  intros Hm Hk s Hs. specialize (Hm s Hs). unfold bind. destruct (m s) as [a s'|c s'|f]; [by apply Hk|done|done].
Qed.

Lemma tame_when b (m : M S unit) : tame F J I m -> tame F J I (when b m).
Proof. intros Hm. destruct b; [done|apply tame_ret]. Qed.

Lemma tame_call (m : M S Z) : tame F (in_call J) I m -> tame F J I (call m).
Proof. intros Hm s Hs. specialize (Hm s Hs). unfold call. destruct (m s) as [|[]|]; [done|done|done|by destruct Hm|done]. Qed.

Lemma tame_vcall (m : M S unit) : tame F (in_call J) I m -> tame F J I (vcall m).
Proof. intros Hm s Hs. specialize (Hm s Hs). unfold vcall. destruct (m s) as [|[]|]; [done|done|done|by destruct Hm|done]. Qed.

Lemma tame_switch (m : M S unit) : tame F (in_switch J) I m -> tame F J I (switch m).
Proof. intros Hm s Hs. specialize (Hm s Hs). unfold switch. destruct (m s) as [|[]|]; [done|done|by destruct Hm|done|done]. Qed.

Lemma tame_for_each {X} (l : list X) body : (forall x, tame F (in_loop J) I (body x)) -> tame F J I (for_each l body).
Proof.
  intros Hb. induction l as [|x l IH]; [apply tame_ret|]. intros s Hs. specialize (Hb x s Hs). simpl.
  destruct (body x s) as [a s'|[] s'|f]; [by apply IH|by apply IH, Hb|apply Hb|apply Hb|done].
Qed.

Lemma tame_for_acc {X B} (l : list X) (acc : B) body : (forall x a, tame F J I (body x a)) -> tame F J I (for_acc l acc body).
Proof.
  intros Hb. revert acc. induction l as [|x l IH]; intros acc; [apply tame_ret|]. simpl. by apply tame_bind.
Qed.

Lemma tame_while fuel cond (body : M S unit) : F OutOfFuel -> tame F (in_loop J) I body -> tame F J I (while_ fuel cond body).
Proof.
  intros Hf Hb. induction fuel as [|n IH]; intros s Hs; simpl; destruct (cond s); auto.
  specialize (Hb s Hs). destruct (body s) as [a s'|[] s'|f]; [by apply IH|by apply IH, Hb|apply Hb|apply Hb|done].
Qed.

Lemma tame_load {A} (hp : S -> heap A) p : F NullDeref -> F UseAfterFree -> tame F J I (load hp p).
Proof. intros H1 H2 s Hs. unfold load. destruct p as [l|]; [|done]. by destruct (cells (hp s) !! l). Qed.

Lemma tame_store {A} (hp : S -> heap A) `{!Setter hp} p v :
  F NullDeref -> F UseAfterFree -> (forall h s, I s -> I (s <| hp := h |>)) -> tame F J I (store hp p v).
Proof. intros H1 H2 Hk s Hs. unfold store. destruct p as [l|]; [|done]. destruct (cells (hp s) !! l); auto. Qed.

Lemma tame_malloc {A} (hp : S -> heap A) `{!Setter hp} v :
  (forall h s, I s -> I (s <| hp := h |>)) -> tame F J I (malloc hp v).
Proof. intros Hk s Hs. apply Hk, Hs. Qed.

Lemma tame_free {A} (hp : S -> heap A) `{!Setter hp} p :
  F DoubleFree -> (forall h s, I s -> I (s <| hp := h |>)) -> tame F J I (free hp p).
Proof. intros H1 Hk s Hs. unfold free. destruct p as [l|]; [|done]. destruct (cells (hp s) !! l); auto. Qed.

Lemma tame_sys {D A} (dv : S -> D) `{!Setter dv} (f : D -> A * D) :
  (forall d s, I s -> I (s <| dv := d |>)) -> tame F J I (sys dv f).
Proof. intros Hk s Hs. unfold sys. destruct (f (dv s)). apply Hk, Hs. Qed.

Lemma tame_sys_ {D} (dv : S -> D) `{!Setter dv} (f : D -> D) :
  (forall d s, I s -> I (s <| dv := d |>)) -> tame F J I (sys_ dv f).
Proof. intros Hk s Hs. apply Hk, Hs. Qed.

(** From an execution. *)
Lemma tame_ok {A} (m : M S A) a s s' : tame F J I m -> I s -> m s = Ok a s' -> I s'.
Proof. intros Hm Hs He. specialize (Hm s Hs). by rewrite He in Hm. Qed.

Lemma tame_jumped {A} (m : M S A) c s s' : tame F J I m -> I s -> m s = Jump c s' -> J c /\ I s'.
Proof. intros Hm Hs He. specialize (Hm s Hs). by rewrite He in Hm. Qed.

End tame.

(** An invariant kept by a statement, as a triple of the program logic. *)
Lemma keeps_wp {S A} (I : S -> Prop) (m : M S A) s : keeps I m -> I s -> wp True m (fun _ => I) (fun _ => I) s.
Proof. intros Hm Hs. specialize (Hm s Hs). unfold wp. by destruct (m s) as [| ? ? |]; [|destruct Hm|]. Qed.

Lemma tame_wp {S A} (J : ctl -> Prop) (I : S -> Prop) (m : M S A) s :
  tame any_fault J I m -> I s -> wp True m (fun _ => I) (fun c s' => J c /\ I s') s.
Proof. intros Hm Hs. specialize (Hm s Hs). unfold wp. by destruct (m s). Qed.

Lemma wp_keeps {S A} (I : S -> Prop) (m : M S A) :
  (forall s, I s -> wp True m (fun _ => I) (fun _ => I) s) -> keeps I m.
Proof. intros Hm s Hs. specialize (Hm s Hs). unfold wp in Hm. by destruct (m s). Qed.

Lemma tame_mono {S A} (F F' : fault -> Prop) (J J' : ctl -> Prop) (I : S -> Prop) (m : M S A) :
  tame F J I m -> (forall f, F f -> F' f) -> (forall c, J c -> J' c) -> tame F' J' I m.
Proof. intros Hm HF HJ s Hs. specialize (Hm s Hs). destruct (m s); [done|destruct Hm; auto|auto]. Qed.

(** [ends F m Q J s]: how [m] ends when started in [s], with the possible faults. *)
Definition ends {S A} (F : fault -> Prop) (m : M S A) (Q : A -> S -> Prop) (J : ctl -> S -> Prop) (s : S) : Prop :=
  match m s with
  | Ok a s' => Q a s'
  | Jump c s' => J c s'
  | Fault f => F f
  end.

Lemma ends_bind {S A B} F (m : M S A) (k : A -> M S B) Q J s :
  ends F m (fun a s' => ends F (k a) Q J s') J s -> ends F (bind m k) Q J s.
Proof. unfold ends, bind. by destruct (m s). Qed.

Lemma ends_mono {S A} (F F' : fault -> Prop) (m : M S A) (Q Q' : A -> S -> Prop) (J J' : ctl -> S -> Prop) s :
  (forall f, F f -> F' f) -> (forall a s', Q a s' -> Q' a s') -> (forall c s', J c s' -> J' c s') ->
  ends F m Q J s -> ends F' m Q' J' s.
Proof. unfold ends. destruct (m s); auto. Qed.

Lemma ends_call {S} F (m : M S Z) Q J s :
  ends F m Q (fun c s' => match c with CReturn r => Q r s' | _ => J c s' end) s -> ends F (call m) Q J s.
Proof. unfold ends, call. destruct (m s) as [|[]|]; auto. Qed.

Lemma ends_vcall {S} F (m : M S unit) Q J s :
  ends F m Q (fun c s' => match c with CReturn _ => Q tt s' | _ => J c s' end) s -> ends F (vcall m) Q J s.
Proof. unfold ends, vcall. destruct (m s) as [|[]|]; auto. Qed.

Lemma ends_wp {S A} (F : fault -> Prop) (m : M S A) Q J s : wp False m Q J s -> ends F m Q J s.
Proof. unfold ends, wp. by destruct (m s). Qed.

Lemma ends_tame {S A} F (J : ctl -> Prop) (I : S -> Prop) (m : M S A) s :
  tame F J I m -> I s -> ends F m (fun _ => I) (fun c s' => J c /\ I s') s.
Proof. intros Hm Hs. exact (Hm s Hs). Qed.

Lemma ends_while {S} (F : fault -> Prop) (I : S -> Prop) cond (body : M S unit) (J : ctl -> S -> Prop) Q fuel s :
  F OutOfFuel -> I s ->
  (forall s', I s' -> cond s' = true ->
     ends F body (fun _ s'' => I s'')
       (fun c s'' => match c with
                     | CContinue => I s''
                     | CBreak => Q tt s''
                     | CReturn _ => J c s'' end) s') ->
  (forall s', I s' -> cond s' = false -> Q tt s') ->
  ends F (while_ fuel cond body) Q J s.
Proof.
  intros HF HI Hb HQ. revert s HI. induction fuel as [|n IH]; intros s HI; unfold ends; simpl.
  - destruct (cond s) eqn:Hc; auto.
  - destruct (cond s) eqn:Hc; [|auto].
    specialize (Hb s HI Hc). unfold ends in Hb, IH.
    destruct (body s) as [a s'|[] s'|f]; try done; by apply IH.
Qed.

(** [for (i = 0; i < n; i++)] with the invariant indexed by [i]. *)
Lemma ends_for_seq {S} (F : fault -> Prop) (I : nat -> S -> Prop) (body : nat -> M S unit) Q (J : ctl -> S -> Prop) n s :
  I 0%nat s ->
  (forall i s', (i < n)%nat -> I i s' ->
     ends F (body i) (fun _ => I (Datatypes.S i))
       (fun c s'' => match c with
                     | CContinue => I (Datatypes.S i) s''
                     | CBreak => Q tt s''
                     | CReturn _ => J c s'' end) s') ->
  (forall s', I n s' -> Q tt s') -> ends F (for_each (seq 0 n) body) Q J s.
Proof.
  intros HI Hb HQ. assert (forall m i s', (i + m = n)%nat -> I i s' -> ends F (for_each (seq i m) body) Q J s') as Hloop.
  { induction m as [|m IH]; intros i s' Him Hi; [apply HQ; by replace n with i by lia|].
    specialize (Hb i s' ltac:(lia) Hi). unfold ends in *. cbn [seq for_each].
    destruct (body i s') as [[] s''|[] s''|f]; [by apply IH; [lia|]|by apply IH; [lia|]|done..]. }
  by apply (Hloop n 0%nat).
Qed.

Lemma ends_load_freed {S A} (F : fault -> Prop) (hp : S -> heap A) l Q J s :
  cells (hp s) !! l = None -> F UseAfterFree -> ends F (load hp (Some l)) Q J s.
Proof. intros Hl HF. unfold ends, load. by rewrite Hl. Qed.

(** The result from the program logic, the errors from the constructs used. *)
Lemma ends_split {S A} F (m : M S A) Q J s :
  wp True m Q J s -> tame F any_jump any_state m -> ends F m Q J s.
Proof. intros Hw Hm. specialize (Hm s Logic.I). unfold ends, wp in *. by destruct (m s). Qed.

Create HintDb tame discriminated.

(** The functions of the program that [tame] unfolds are added by the files that define or use them. *)
Create HintDb tame_unfold.

Ltac tame_side := first [ exact Logic.I | by left | by right | done | intros; assumption | solve [auto] ].

Ltac tame_step :=
  lazymatch goal with
  | |- forall _, _ => intros ?
  | |- tame _ _ _ (bind _ _) => apply tame_bind
  | |- tame _ _ _ (ret _) => apply tame_ret
  | |- tame _ _ _ (gets _) => apply tame_gets
  | |- tame _ _ _ (jump _) => apply tame_jump; tame_side
  | |- tame _ _ _ vreturn => apply tame_vreturn; tame_side
  | |- tame _ _ _ (raise _) => apply tame_raise; tame_side
  | |- tame _ _ _ (modify _) => apply tame_modify; tame_side
  | |- tame _ _ _ (when _ _) => apply tame_when
  | |- tame _ _ _ (call _) => apply tame_call
  | |- tame _ _ _ (vcall _) => apply tame_vcall
  | |- tame _ _ _ (switch _) => apply tame_switch
  | |- tame _ _ _ (for_each _ _) => apply tame_for_each
  | |- tame _ _ _ (for_acc _ _ _) => apply tame_for_acc
  | |- tame _ _ _ (while_ _ _ _) => apply tame_while; [tame_side|]
  | |- tame _ _ _ (load _ _) => apply tame_load; tame_side
  | |- tame _ _ _ (store _ _ _) => apply tame_store; tame_side
  | |- tame _ _ _ (malloc _ _) => apply tame_malloc; tame_side
  | |- tame _ _ _ (free _ _) => apply tame_free; tame_side
  | |- tame _ _ _ (sys _ _) => apply tame_sys; tame_side
  | |- tame _ _ _ (sys_ _ _) => apply tame_sys_; tame_side
  | |- tame _ _ _ (if ?b then _ else _) => destruct b
  | |- tame _ _ _ (match ?x with _ => _ end) => destruct x
  | |- tame _ _ _ _ => first [ solve [auto 2 with tame nocore]
                             | solve [eapply tame_mono; [solve [eauto 2 with nocore]|done|by intros []]]
                             | progress (autounfold with tame_unfold) ]
  end.
Ltac tame := repeat tame_step.
