(* ===== verification/Typing.v ===== *)
(** * The types of C statements

    [has_type I T m]: when every variable has a value of its type, which is what [I]
    says, the statement [m] stores only values of the types of the variables, whichever
    way it ends, and its own value has the type [T].  One rule per construct of the
    language; a [return] in the body of a function is typed by [int], as the functions
    of the program are.  The tactic [typing] applies the rules and leaves the stores. *)

From S2P Require Import Prelude CMonad Heap Lcf Minix.
From stdpp Require Import options.

(** The value of a [return] statement is an [int]. *)
Definition ctl_int (c : ctl) : Prop := match c with CReturn r => in_i32 r | _ => True end.

Definition has_type {S A} (I : S -> Prop) (T : A -> Prop) (m : M S A) : Prop :=
  forall s, I s -> match m s with
                   | Ok a s' => T a /\ I s'
                   | Jump c s' => ctl_int c /\ I s'
                   | Fault _ => True
                   end.

(** A value of no interest. *)
Definition any_value {A} (a : A) : Prop := True.

(** The values that an expression over the variables can have. *)
Definition value_of {S A} (I : S -> Prop) (f : S -> A) (a : A) : Prop := exists s, I s /\ a = f s.

(** A type for the second component of a pair. *)
Definition on_snd {A B} (T : B -> Prop) (p : A * B) : Prop := T (snd p).

(** Every object of a heap has the type [T]. *)
Definition heap_of {A} (T : A -> Prop) (h : heap A) : Prop := forall l v, cells h !! l = Some v -> T v.

Section rules.
Context {S : Type} (I : S -> Prop).
Implicit Types s : S.

Lemma ht_ret {A} (T : A -> Prop) a : T a -> has_type I T (ret a).
Proof. by intros Ha s Hs. Qed.

Lemma ht_gets {A} (f : S -> A) : has_type I (value_of I f) (gets f).
Proof. intros s Hs. split; [by exists s|done]. Qed.

Lemma ht_gets_as {A} (T : A -> Prop) (f : S -> A) : (forall s, I s -> T (f s)) -> has_type I T (gets f).
Proof. intros Hf s Hs. split; [by apply Hf|done]. Qed.

Lemma ht_jump {A} (T : A -> Prop) c : ctl_int c -> has_type I T (jump c).
Proof. by intros Hc s Hs. Qed.

Lemma ht_vreturn {A} (T : A -> Prop) : has_type I T vreturn.
Proof. by apply ht_jump. Qed.

Lemma ht_raise {A} (T : A -> Prop) f : has_type I T (raise f).
Proof. by intros s Hs. Qed.

Lemma ht_modify (T : unit -> Prop) f : T tt -> (forall s, I s -> I (f s)) -> has_type I T (modify f).
Proof. intros HT Hf s Hs. split; [done|by apply Hf]. Qed.

Lemma ht_bind {A B} (T : A -> Prop) (U : B -> Prop) (m : M S A) (k : A -> M S B) :
  has_type I T m -> (forall a, T a -> has_type I U (k a)) -> has_type I U (bind m k).
Proof. intros Hm Hk s Hs. specialize (Hm s Hs). unfold bind. destruct (m s); [apply Hk; apply Hm|done|done]. Qed.

Lemma ht_sub {A} (T U : A -> Prop) (m : M S A) : has_type I T m -> (forall a, T a -> U a) -> has_type I U m.
Proof. intros Hm HT s Hs. specialize (Hm s Hs). destruct (m s); [destruct Hm; auto|done|done]. Qed.

Lemma ht_when (T : unit -> Prop) b (m : M S unit) : T tt -> has_type I T m -> has_type I T (when b m).
Proof. intros HT Hm. destruct b; [done|by apply ht_ret]. Qed.

(** A call of a function of type [int]. *)
Lemma ht_call (m : M S Z) : has_type I in_i32 m -> has_type I in_i32 (call m).
Proof. intros Hm s Hs. specialize (Hm s Hs). unfold call. by destruct (m s) as [|[]|]. Qed.

Lemma ht_vcall (T : unit -> Prop) (m : M S unit) : T tt -> has_type I T m -> has_type I T (vcall m).
Proof. intros HT Hm s Hs. specialize (Hm s Hs). unfold vcall. destruct (m s) as [|[]|]; try done. by destruct Hm. Qed.

Lemma ht_switch (T : unit -> Prop) (m : M S unit) : T tt -> has_type I T m -> has_type I T (switch m).
Proof. intros HT Hm s Hs. specialize (Hm s Hs). unfold switch. destruct (m s) as [|[]|]; try done. by destruct Hm. Qed.

Lemma ht_for_each {X} (T : unit -> Prop) (l : list X) body :
  T tt -> (forall x, has_type I any_value (body x)) -> has_type I T (for_each l body).
Proof.
  intros HT Hb. induction l as [|x l IH]; [by apply ht_ret|]. intros s Hs. specialize (Hb x s Hs). simpl.
  destruct (body x s) as [a s'|[] s'|f]; try (by apply IH, Hb); try done. by destruct Hb.
Qed.

Lemma ht_for_acc {X B} (T : B -> Prop) (l : list X) acc body :
  T acc -> (forall x a, x ∈ l -> T a -> has_type I T (body x a)) -> has_type I T (for_acc l acc body).
Proof.
  intros HT Hb. revert acc HT. induction l as [|x l IH]; intros acc HT; [by apply ht_ret|]. simpl.
  eapply ht_bind; [apply Hb; [by left|done]|]. intros a Ha. apply IH; [|done]. intros y b Hy. apply Hb. by right.
Qed.

Lemma ht_while fuel (T : unit -> Prop) cond (body : M S unit) :
  T tt -> has_type I any_value body -> has_type I T (while_ fuel cond body).
Proof.
  intros HT Hb. induction fuel as [|n IH]; intros s Hs; simpl; destruct (cond s); try done.
  specialize (Hb s Hs). destruct (body s) as [a s'|[] s'|f]; try (by apply IH, Hb); try done. by destruct Hb.
Qed.

Lemma ht_load {A} (T : A -> Prop) (hp : S -> heap A) p :
  (forall s, I s -> heap_of T (hp s)) -> has_type I T (load hp p).
Proof.
  intros HT s Hs. unfold load. destruct p as [l|]; [|done]. destruct (cells (hp s) !! l) eqn:Hl; [|done].
  split; [by eapply (HT s Hs)|done].
Qed.

Lemma ht_store {A} (T : A -> Prop) (U : unit -> Prop) (hp : S -> heap A) `{!Setter hp} p v :
  U tt -> (forall s, I s -> heap_of T (hp s)) -> T v ->
  (forall h s, I s -> heap_of T h -> I (s <| hp := h |>)) -> has_type I U (store hp p v).
Proof.
  intros HU HT Hv Hk s Hs. unfold store. destruct p as [l|]; [|done]. destruct (cells (hp s) !! l) eqn:Hl; [|done].
  split; [done|]. apply Hk; [done|]. intros l' v'. cbn. rewrite lookup_insert. case_decide; [by intros [= <-]|apply (HT s Hs)].
Qed.

Lemma ht_malloc {A} (T : A -> Prop) (hp : S -> heap A) `{!Setter hp} v :
  (forall s, I s -> heap_of T (hp s)) -> T v ->
  (forall h s, I s -> heap_of T h -> I (s <| hp := h |>)) -> has_type I any_value (malloc hp v).
Proof.
  intros HT Hv Hk s Hs. split; [done|]. apply Hk; [done|]. intros l' v'. cbn. rewrite lookup_insert.
  case_decide; [by intros [= <-]|apply (HT s Hs)].
Qed.

Lemma ht_free {A} (T : A -> Prop) (U : unit -> Prop) (hp : S -> heap A) `{!Setter hp} p :
  U tt -> (forall s, I s -> heap_of T (hp s)) ->
  (forall h s, I s -> heap_of T h -> I (s <| hp := h |>)) -> has_type I U (free hp p).
Proof.
  intros HU HT Hk s Hs. unfold free. destruct p as [l|]; [|done]. destruct (cells (hp s) !! l) eqn:Hl; [|done].
  split; [done|]. apply Hk; [done|]. intros l' v'. cbn. rewrite lookup_delete. case_decide; [done|apply (HT s Hs)].
Qed.

Lemma ht_sys {D A} (T : A -> Prop) (dv : S -> D) `{!Setter dv} (f : D -> A * D) :
  (forall d, T (fst (f d))) -> (forall d s, I s -> I (s <| dv := d |>)) -> has_type I T (sys dv f).
Proof. intros HT Hk s Hs. unfold sys. specialize (HT (dv s)). destruct (f (dv s)). split; [done|by apply Hk]. Qed.

Lemma ht_sys_ {D} (T : unit -> Prop) (dv : S -> D) `{!Setter dv} (f : D -> D) :
  T tt -> (forall d s, I s -> I (s <| dv := d |>)) -> has_type I T (sys_ dv f).
Proof. intros HT Hk s Hs. split; [done|by apply Hk]. Qed.

(** From an execution. *)
Lemma ht_ok {A} (T : A -> Prop) (m : M S A) a s s' : has_type I T m -> I s -> m s = Ok a s' -> T a /\ I s'.
Proof. intros Hm Hs He. specialize (Hm s Hs). by rewrite He in Hm. Qed.

Lemma ht_jumped {A} (T : A -> Prop) (m : M S A) c s s' : has_type I T m -> I s -> m s = Jump c s' -> ctl_int c /\ I s'.
Proof. intros Hm Hs He. specialize (Hm s Hs). by rewrite He in Hm. Qed.

End rules.

(** The typing rules of the functions, and the functions that [typing] unfolds. *)
Create HintDb typing discriminated.

Create HintDb typing_unfold.

(** The constants of the program. *)
Create HintDb typing_consts.

(** The types of values: closed by [auto] with the hints of [mach] and [values]. *)
Create HintDb values discriminated.
#[export] Hint Resolve i16_range i32_range : values.
#[export] Hint Extern 1 (in_u8 (u8 _)) => apply u8_range : values.
#[export] Hint Extern 3 (in_i32 _) => autounfold with typing_consts; unfold in_i32; lia : values.
#[export] Hint Extern 3 (in_u8 _) => unfold in_u8; lia : values.
#[export] Hint Extern 1 (in_u16 (u16 _)) => apply u16_range : values.

Ltac value_side := cbn [ctl_int]; first [ exact Logic.I | solve [eauto 4 with values nocore] | by (unfold in_i32, in_u8, in_u16; lia) | by (autounfold with typing_consts; unfold in_i32; lia) ].

(** The rules of the primitives of a program, tried before the database. *)
Ltac typing_prim := fail.

(** The value of the statement before a [;;]. *)
Ltac intro_value :=
  let a := fresh "a" in
  let Ha := fresh "Ha" in
  intros a Ha;
  lazymatch type of Ha with
  | value_of _ _ _ => destruct Ha as (? & ? & ->)
  | any_value _ => clear Ha
  | _ => idtac
  end.

Ltac typing_step :=
  lazymatch goal with
  | |- forall _, _ => intros; lazymatch goal with |- has_type _ _ _ => idtac end
  | |- has_type _ ?T (gets _) => first [is_evar T; apply ht_gets | apply ht_gets_as; intros ? ?; value_side]
  | |- has_type _ ?T (ret _) => first [is_evar T; apply (ht_ret _ any_value); exact Logic.I | apply ht_ret; value_side]
  | |- has_type _ _ (jump _) => apply ht_jump; value_side
  | |- has_type _ _ vreturn => apply ht_vreturn
  | |- has_type _ _ (raise _) => apply ht_raise
  | |- has_type _ ?T (modify _) => first [is_evar T; apply (ht_modify _ any_value) | apply ht_modify]; [exact Logic.I|]
  | |- has_type _ _ (bind _ _) =>
      first [ eapply ht_bind; [solve [typing_head]|intro_value] | apply (ht_bind _ any_value); [|intros ? _] ]
  | |- has_type _ _ (when _ _) => apply ht_when; [exact Logic.I|]
  | |- has_type _ ?T (call _) => first [apply ht_call | apply (ht_sub _ in_i32); [apply ht_call|intros ? ?; value_side]]
  | |- has_type _ _ (vcall _) => apply ht_vcall; [exact Logic.I|]
  | |- has_type _ _ (switch _) => apply ht_switch; [exact Logic.I|]
  | |- has_type _ _ (for_each _ _) => apply ht_for_each; [exact Logic.I|]
  | |- has_type _ _ (while_ _ _ _) => apply ht_while; [exact Logic.I|]
  | |- has_type _ ?T (for_acc _ _ _) => first [is_evar T; apply (ht_for_acc _ any_value) | apply ht_for_acc]; [value_side|]
  | |- has_type _ _ (if ?b then _ else _) => destruct b
  | |- has_type _ _ (match ?x with _ => _ end) => destruct x; cbn [from_option on_snd fst snd] in *
  | |- has_type _ _ _ => typing_fun
  end
with typing_fun :=
  first [ typing_prim
        | eapply ht_sub; [typing_prim|intros ? ?; value_side]
        | solve [eauto 5 with typing values nocore]
        | solve [eapply ht_sub; [solve [eauto 5 with typing values nocore]|intros ? ?; value_side]]
        | progress (autounfold with typing_unfold) ]
with typing_head :=
  lazymatch goal with
  | |- has_type _ _ (gets _) => apply ht_gets
  | |- has_type _ _ (call _) => apply ht_call; repeat typing_step
  | |- has_type _ _ (modify _) => fail
  | |- _ => first [typing_prim | solve [eauto 5 with typing values nocore]]
  end.

Ltac typing := repeat typing_step.
