(* ===== verification/Macros.v ===== *)
(** * Constants of the project's headers

    [proj/src/macros.h], [i8042.h], [i8254.h] and [rtc.h]. *)

From S2P Require Import Prelude.
From stdpp Require Import options.

(** macros.h *)
Definition NUMLIVES : Z := 3.

Definition SHIP_YPOS : Z := 630.

Definition X_MAX : Z := 1000.

Definition X_MIN : Z := 30.

Definition X_RES : Z := 1024.

Definition Y_RES : Z := 768.

Definition MAX_SHIP_BULLETS : Z := 7.

Definition SHIP_BULLET_SPEED : Z := 4.

Definition ALIEN_BULLET_SPEED : Z := 4.

Definition SIZE_OF_ALIENS : Z := 24.

Definition X_LEFT_BORDER : Z := 20.

Definition X_RIGHT_BORDER : Z := 1004.

Definition INITIAL_ALIEN_SPEED : Z := 1.

Definition TERRITORY : Z := 600.

Definition ROW_ALIENS : Z := 3.

Definition COL_ALIENS : Z := 8.

(** i8042.h *)
Definition KBD_IRQ : Z := 1.

Definition OUT_BUF : Z := 0x60.

Definition STAT_REG : Z := 0x64.

Definition ARGS_REG : Z := 0x60.

Definition ESC_BREAK : Z := 0x81.

Definition PARITY_BIT : Z := BIT 7.

Definition TIMEOUT_BIT : Z := BIT 6.

Definition AUX_BIT : Z := BIT 5.

Definition OBF_BIT : Z := BIT 0.

Definition IBF_BIT : Z := BIT 1.

Definition READ_COMMAND : Z := 0x20.

Definition WRITE_COMMAND : Z := 0x60.

Definition Y_OVFL : Z := BIT 7.

Definition X_OVFL : Z := BIT 6.

Definition Y_SIGN : Z := BIT 5.

Definition X_SIGN : Z := BIT 4.

Definition MIDDLE : Z := BIT 2.

Definition RIGHT : Z := BIT 1.

Definition LEFT : Z := BIT 0.

(** The expansion of [e | FILLMSB]: the macro is a list of [|] operands. *)
Definition or_FILLMSB (e : Z) : Z :=
  Z.lor (Z.lor (Z.lor (Z.lor (Z.lor (Z.lor (Z.lor (Z.lor
    e (BIT 15)) (BIT 14)) (BIT 13)) (BIT 12)) (BIT 11)) (BIT 10)) (BIT 9)) (BIT 8).

Definition ENABLE_MOUSE : Z := 0xF4.

Definition DISABLE_MOUSE : Z := 0xF5.

Definition ACK : Z := 0xFA.

Definition NACK : Z := 0xFE.

Definition ACK_ERROR : Z := 0xFC.

Definition MOUSE_COMMAND : Z := 0xD4.

Definition MOUSE_IRQ : Z := 12.

(** i8254.h *)
Definition TIMER_FREQ : Z := 1193182.

Definition TIMER0_IRQ : Z := 0.

Definition TIMER_0 : Z := 0x40.

Definition TIMER_1 : Z := 0x41.

Definition TIMER_2 : Z := 0x42.

Definition TIMER_CTRL : Z := 0x43.

Definition TIMER_SEL0 : Z := 0x00.

Definition TIMER_SEL1 : Z := BIT 6.

Definition TIMER_SEL2 : Z := BIT 7.

Definition TIMER_RB_CMD : Z := Z.lor (BIT 7) (BIT 6).

Definition TIMER_LSB : Z := BIT 4.

Definition TIMER_MSB : Z := BIT 5.

Definition TIMER_LSB_MSB : Z := Z.lor TIMER_LSB TIMER_MSB.

Definition TIMER_SQR_WAVE : Z := Z.lor (BIT 2) (BIT 1).

Definition TIMER_RATE_GEN : Z := BIT 2.

Definition TIMER_BCD : Z := 0x01.

Definition TIMER_BIN : Z := 0x00.

Definition TIMER_RB_COUNT_ : Z := BIT 5.

Definition TIMER_RB_STATUS_ : Z := BIT 4.

Definition TIMER_RB_SEL (n : Z) : Z := BIT (n + 1).

(** rtc.h *)
Definition IRQ_RTC : Z := 8.

Definition RTC_ADDR_REG : Z := 0x70.

Definition RTC_DATA_REG : Z := 0x71.

Definition PIE : Z := BIT 6.

Definition IRQF : Z := BIT 7.

Definition PF : Z := BIT 6.

Definition REG_A : Z := 0x10.

Definition REG_B : Z := 0x11.

Definition REG_C : Z := 0x12.

(** minix/com.h *)
Definition IRQ_REENABLE : Z := 0x001.

Definition IRQ_EXCLUSIVE : Z := 0x002.
