(* ===== verification/ProjState.v ===== *)
(** * Data and global state of the project

    The structs and enums of the headers of [proj/src], the pixmaps of
    [proj/src/resources], and the program's variables: every global of the
    translation units ([extern] in the others), the heaps of the objects they
    point to, and the automatic variables of [game_loop], of which a single
    activation ever exists. *)

From S2P Require Import Prelude CMonad Heap Memory Lcf Minix Macros.
From stdpp Require Import options.

(** alien.h *)
Record Alien := MkAlien {
  alien_x : Z;
  alien_y : Z;
  alien_width : Z;
  alien_height : Z;
  alien_img : xpm_image_t;
  alien_img_mov : xpm_image_t;
  alien_alive : bool;
  alien_value : Z;
}.

(** ship.h *)
Record Ship := MkShip {
  ship_x : Z;
  ship_y : Z;
  ship_speed : Z;
  ship_img : xpm_image_t;
  ship_lives : Z;
  ship_score : Z;
}.

Inductive KeyActivity := A_Pressed | A_Released | D_Pressed | D_Released | Invalid_key.

(** shipBullet.h *)
Record ShipBullet := MkShipBullet {
  sb_x : Z;
  sb_y : Z;
  sb_speed : Z;
  sb_img : xpm_image_t;
  sb_hitAlien : bool;
}.

(** alienBullet.h *)
Record AlienBullet := MkAlienBullet {
  ab_x : Z;
  ab_y : Z;
  ab_speed : Z;
  ab_img : xpm_image_t;
  ab_active : bool;
}.

(** mouse.h *)
Record Mouse := MkMouse {
  mouse_x : Z;
  mouse_y : Z;
  mouse_img : xpm_image_t;
  mouse_lb_pressed : bool;
}.

(** menu.h *)
Inductive Button := START_BUTTON | INSTRUCTIONS_BUTTON | EXIT_BUTTON | INITIAL.

(** game.h *)
Inductive game_state := MENU_DISPLAY | INSTRUCTIONS_DISPLAY | PLAYING | NEXT_ROUND | EXIT.

#[export] Instance Button_eq_dec : EqDecision Button.
Proof. solve_decision. Defined.

#[export] Instance game_state_eq_dec : EqDecision game_state.
Proof. solve_decision. Defined.

#[export] Instance KeyActivity_eq_dec : EqDecision KeyActivity.
Proof. solve_decision. Defined.

Definition is_state (a b : game_state) : bool := bool_decide (a = b).

(** resources/*.xpm: identity, columns, rows *)
Definition zero : xpm_map := XpmMap 0 16 28.

Definition one : xpm_map := XpmMap 1 16 28.

Definition two : xpm_map := XpmMap 2 16 28.

Definition three : xpm_map := XpmMap 3 16 28.

Definition four : xpm_map := XpmMap 4 16 28.

Definition five : xpm_map := XpmMap 5 16 28.

Definition six : xpm_map := XpmMap 6 16 28.

Definition seven : xpm_map := XpmMap 7 16 28.

Definition eight : xpm_map := XpmMap 8 16 28.

Definition nine : xpm_map := XpmMap 9 16 28.

Definition alien1 : xpm_map := XpmMap 10 60 40.

Definition alien1_m : xpm_map := XpmMap 11 60 40.

Definition alien2 : xpm_map := XpmMap 12 60 40.

Definition alien2_m : xpm_map := XpmMap 13 60 40.

Definition alien3 : xpm_map := XpmMap 14 60 40.

Definition alien3_m : xpm_map := XpmMap 15 60 40.

Definition alien_bullet : xpm_map := XpmMap 16 5 20.

Definition ship_bullet : xpm_map := XpmMap 17 5 20.

Definition ship_image : xpm_map := XpmMap 18 75 80.

Definition mouse_xpm : xpm_map := XpmMap 19 25 34.

Definition background_map : xpm_map := XpmMap 20 1024 768.

Definition initial_screen : xpm_map := XpmMap 21 1024 768.

Definition instructions : xpm_map := XpmMap 22 1024 768.

Definition instructions_back : xpm_map := XpmMap 23 1024 768.

Definition menu2 : xpm_map := XpmMap 24 1024 768.

Definition menu_exit : xpm_map := XpmMap 25 1024 768.

Definition menu_instructions : xpm_map := XpmMap 26 1024 768.

Definition menu_start : xpm_map := XpmMap 27 1024 768.

(** Globals of graphic.c ([Xres] is defined in mouse.c); [None] is a null pointer. *)
Record graphics := Graphics {
  Xres : Z;
  Yres : Z;
  bitsPerPixel : Z;
  color_mode : Z;
  video_mem : option block;
  display_mem : option block;
}.

(** Globals of ship.h and menu.c that hold loaded pixmaps. *)
Record images := Images {
  zero_xpm : xpm_image_t;
  one_xpm : xpm_image_t;
  two_xpm : xpm_image_t;
  three_xpm : xpm_image_t;
  four_xpm : xpm_image_t;
  five_xpm : xpm_image_t;
  six_xpm : xpm_image_t;
  seven_xpm : xpm_image_t;
  eight_xpm : xpm_image_t;
  nine_xpm : xpm_image_t;
  menu_start_xpm : xpm_image_t;
  menu_instructions_xpm : xpm_image_t;
  menu_exit_xpm : xpm_image_t;
  menu_xpm : xpm_image_t;
  instructions_xpm : xpm_image_t;
  instructions_back_xpm : xpm_image_t;
}.

(** Automatic variables of [game_loop]. *)
Record locals := Locals {
  mouse_bit_no : Z;
  kbd_bit_no : Z;
  rtc_bit_no : Z;
  timer_bit_no : Z;
  pp : packet;
  currentByte : Z;
  mouseBytes : list Z;
  kbd_size : Z;
  kbdBytes : list Z;
  button : Button;
  instruction_button : bool;
  key : KeyActivity;
  ipf : Z;
  mov_img : bool;
  right_mov : bool;
  mouse : ptr;
  ship : ptr;
  background : xpm_image_t;
  shipBullet_img : xpm_image_t;
  alienBullet_img : xpm_image_t;
  initialScreen : xpm_image_t;
}.

(** The whole state of the program, over a system state [D]. *)
Record state (D : Type) := State {
  dev : D;
  (* timer.c *)
  timer_hookid : Z;
  timer_counter : Z;
  (* keyboard.c *)
  kbd_hookid : Z;
  keyboard_scancode : Z;
  (* mouse.c *)
  mouse_hookid : Z;
  mouse_scancode : Z;
  mouse_statuscode : Z;
  ih_error : Z;
  (* rtc.c *)
  rtc_hook_id : Z;
  speed : Z;
  frames_per_state : Z;
  (* graphic.c, ship.h, menu.c *)
  gfx : graphics;
  imgs : images;
  (* objects *)
  ships : heap Ship;
  mice : heap Mouse;
  bullets : heap ShipBullet;
  alien_bullets : heap AlienBullet;
  (* shipBullet.h, alienBullet.h *)
  shipBullets : list ptr;
  alienBullet : ptr;
  (* game.c *)
  gameState : game_state;
  nextRound : bool;
  aliens : list Alien;
  row : Z;
  killCount : Z;
  frame_counter : Z;
  changeSpeed : bool;
  changeDir : bool;
  roundNum : Z;
  (* game_loop *)
  loc : locals;
}.
Arguments State {D}.
Arguments dev {D}.
Arguments timer_hookid {D}.
Arguments timer_counter {D}.
Arguments kbd_hookid {D}.
Arguments keyboard_scancode {D}.
Arguments mouse_hookid {D}.
Arguments mouse_scancode {D}.
Arguments mouse_statuscode {D}.
Arguments ih_error {D}.
Arguments rtc_hook_id {D}.
Arguments speed {D}.
Arguments frames_per_state {D}.
Arguments gfx {D}.
Arguments imgs {D}.
Arguments ships {D}.
Arguments mice {D}.
Arguments bullets {D}.
Arguments alien_bullets {D}.
Arguments shipBullets {D}.
Arguments alienBullet {D}.
Arguments gameState {D}.
Arguments nextRound {D}.
Arguments aliens {D}.
Arguments row {D}.
Arguments killCount {D}.
Arguments frame_counter {D}.
Arguments changeSpeed {D}.
Arguments changeDir {D}.
Arguments roundNum {D}.
Arguments loc {D}.

#[export] Instance settable_Alien : Settable Alien := fun r =>
  MkAlien (alien_x r) (alien_y r) (alien_width r) (alien_height r) (alien_img r)
    (alien_img_mov r) (alien_alive r) (alien_value r).

#[export] Instance settable_Ship : Settable Ship := fun r =>
  MkShip (ship_x r) (ship_y r) (ship_speed r) (ship_img r) (ship_lives r) (ship_score r).

#[export] Instance settable_ShipBullet : Settable ShipBullet := fun r =>
  MkShipBullet (sb_x r) (sb_y r) (sb_speed r) (sb_img r) (sb_hitAlien r).

#[export] Instance settable_AlienBullet : Settable AlienBullet := fun r =>
  MkAlienBullet (ab_x r) (ab_y r) (ab_speed r) (ab_img r) (ab_active r).

#[export] Instance settable_Mouse : Settable Mouse := fun r =>
  MkMouse (mouse_x r) (mouse_y r) (mouse_img r) (mouse_lb_pressed r).

#[export] Instance settable_graphics : Settable graphics := fun r =>
  Graphics (Xres r) (Yres r) (bitsPerPixel r) (color_mode r) (video_mem r) (display_mem r).

#[export] Instance settable_images : Settable images := fun r =>
  Images (zero_xpm r) (one_xpm r) (two_xpm r) (three_xpm r) (four_xpm r) (five_xpm r)
    (six_xpm r) (seven_xpm r) (eight_xpm r) (nine_xpm r) (menu_start_xpm r)
    (menu_instructions_xpm r) (menu_exit_xpm r) (menu_xpm r) (instructions_xpm r)
    (instructions_back_xpm r).

#[export] Instance settable_locals : Settable locals := fun r =>
  Locals (mouse_bit_no r) (kbd_bit_no r) (rtc_bit_no r) (timer_bit_no r) (pp r)
    (currentByte r) (mouseBytes r) (kbd_size r) (kbdBytes r) (button r)
    (instruction_button r) (key r) (ipf r) (mov_img r) (right_mov r) (mouse r) (ship r)
    (background r) (shipBullet_img r) (alienBullet_img r) (initialScreen r).

#[export] Instance settable_state {D}: Settable (state D) := fun r =>
  State (dev r) (timer_hookid r) (timer_counter r) (kbd_hookid r) (keyboard_scancode r)
    (mouse_hookid r) (mouse_scancode r) (mouse_statuscode r) (ih_error r) (rtc_hook_id r)
    (speed r) (frames_per_state r) (gfx r) (imgs r) (ships r) (mice r) (bullets r)
    (alien_bullets r) (shipBullets r) (alienBullet r) (gameState r) (nextRound r) (aliens r)
    (row r) (killCount r) (frame_counter r) (changeSpeed r) (changeDir r) (roundNum r)
    (loc r).

(** One setter per member. *)
#[export] Instance set_alien_x : Setter alien_x := ltac:(build_setter).
#[export] Instance set_alien_y : Setter alien_y := ltac:(build_setter).
#[export] Instance set_alien_width : Setter alien_width := ltac:(build_setter).
#[export] Instance set_alien_height : Setter alien_height := ltac:(build_setter).
#[export] Instance set_alien_img : Setter alien_img := ltac:(build_setter).
#[export] Instance set_alien_img_mov : Setter alien_img_mov := ltac:(build_setter).
#[export] Instance set_alien_alive : Setter alien_alive := ltac:(build_setter).
#[export] Instance set_alien_value : Setter alien_value := ltac:(build_setter).
#[export] Instance set_ship_x : Setter ship_x := ltac:(build_setter).
#[export] Instance set_ship_y : Setter ship_y := ltac:(build_setter).
#[export] Instance set_ship_speed : Setter ship_speed := ltac:(build_setter).
#[export] Instance set_ship_img : Setter ship_img := ltac:(build_setter).
#[export] Instance set_ship_lives : Setter ship_lives := ltac:(build_setter).
#[export] Instance set_ship_score : Setter ship_score := ltac:(build_setter).
#[export] Instance set_sb_x : Setter sb_x := ltac:(build_setter).
#[export] Instance set_sb_y : Setter sb_y := ltac:(build_setter).
#[export] Instance set_sb_speed : Setter sb_speed := ltac:(build_setter).
#[export] Instance set_sb_img : Setter sb_img := ltac:(build_setter).
#[export] Instance set_sb_hitAlien : Setter sb_hitAlien := ltac:(build_setter).
#[export] Instance set_ab_x : Setter ab_x := ltac:(build_setter).
#[export] Instance set_ab_y : Setter ab_y := ltac:(build_setter).
#[export] Instance set_ab_speed : Setter ab_speed := ltac:(build_setter).
#[export] Instance set_ab_img : Setter ab_img := ltac:(build_setter).
#[export] Instance set_ab_active : Setter ab_active := ltac:(build_setter).
#[export] Instance set_mouse_x : Setter mouse_x := ltac:(build_setter).
#[export] Instance set_mouse_y : Setter mouse_y := ltac:(build_setter).
#[export] Instance set_mouse_img : Setter mouse_img := ltac:(build_setter).
#[export] Instance set_mouse_lb_pressed : Setter mouse_lb_pressed := ltac:(build_setter).
#[export] Instance set_Xres : Setter Xres := ltac:(build_setter).
#[export] Instance set_Yres : Setter Yres := ltac:(build_setter).
#[export] Instance set_bitsPerPixel : Setter bitsPerPixel := ltac:(build_setter).
#[export] Instance set_color_mode : Setter color_mode := ltac:(build_setter).
#[export] Instance set_video_mem : Setter video_mem := ltac:(build_setter).
#[export] Instance set_display_mem : Setter display_mem := ltac:(build_setter).
#[export] Instance set_zero_xpm : Setter zero_xpm := ltac:(build_setter).
#[export] Instance set_one_xpm : Setter one_xpm := ltac:(build_setter).
#[export] Instance set_two_xpm : Setter two_xpm := ltac:(build_setter).
#[export] Instance set_three_xpm : Setter three_xpm := ltac:(build_setter).
#[export] Instance set_four_xpm : Setter four_xpm := ltac:(build_setter).
#[export] Instance set_five_xpm : Setter five_xpm := ltac:(build_setter).
#[export] Instance set_six_xpm : Setter six_xpm := ltac:(build_setter).
#[export] Instance set_seven_xpm : Setter seven_xpm := ltac:(build_setter).
#[export] Instance set_eight_xpm : Setter eight_xpm := ltac:(build_setter).
#[export] Instance set_nine_xpm : Setter nine_xpm := ltac:(build_setter).
#[export] Instance set_menu_start_xpm : Setter menu_start_xpm := ltac:(build_setter).
#[export] Instance set_menu_instructions_xpm : Setter menu_instructions_xpm := ltac:(build_setter).
#[export] Instance set_menu_exit_xpm : Setter menu_exit_xpm := ltac:(build_setter).
#[export] Instance set_menu_xpm : Setter menu_xpm := ltac:(build_setter).
#[export] Instance set_instructions_xpm : Setter instructions_xpm := ltac:(build_setter).
#[export] Instance set_instructions_back_xpm : Setter instructions_back_xpm := ltac:(build_setter).
#[export] Instance set_mouse_bit_no : Setter mouse_bit_no := ltac:(build_setter).
#[export] Instance set_kbd_bit_no : Setter kbd_bit_no := ltac:(build_setter).
#[export] Instance set_rtc_bit_no : Setter rtc_bit_no := ltac:(build_setter).
#[export] Instance set_timer_bit_no : Setter timer_bit_no := ltac:(build_setter).
#[export] Instance set_pp : Setter pp := ltac:(build_setter).
#[export] Instance set_currentByte : Setter currentByte := ltac:(build_setter).
#[export] Instance set_mouseBytes : Setter mouseBytes := ltac:(build_setter).
#[export] Instance set_kbd_size : Setter kbd_size := ltac:(build_setter).
#[export] Instance set_kbdBytes : Setter kbdBytes := ltac:(build_setter).
#[export] Instance set_button : Setter button := ltac:(build_setter).
#[export] Instance set_instruction_button : Setter instruction_button := ltac:(build_setter).
#[export] Instance set_key : Setter key := ltac:(build_setter).
#[export] Instance set_ipf : Setter ipf := ltac:(build_setter).
#[export] Instance set_mov_img : Setter mov_img := ltac:(build_setter).
#[export] Instance set_right_mov : Setter right_mov := ltac:(build_setter).
#[export] Instance set_mouse : Setter mouse := ltac:(build_setter).
#[export] Instance set_ship : Setter ship := ltac:(build_setter).
#[export] Instance set_background : Setter background := ltac:(build_setter).
#[export] Instance set_shipBullet_img : Setter shipBullet_img := ltac:(build_setter).
#[export] Instance set_alienBullet_img : Setter alienBullet_img := ltac:(build_setter).
#[export] Instance set_initialScreen : Setter initialScreen := ltac:(build_setter).
#[export] Instance set_dev {D} : Setter (@dev D) := ltac:(build_setter).
#[export] Instance set_timer_hookid {D} : Setter (@timer_hookid D) := ltac:(build_setter).
#[export] Instance set_timer_counter {D} : Setter (@timer_counter D) := ltac:(build_setter).
#[export] Instance set_kbd_hookid {D} : Setter (@kbd_hookid D) := ltac:(build_setter).
#[export] Instance set_keyboard_scancode {D} : Setter (@keyboard_scancode D) := ltac:(build_setter).
#[export] Instance set_mouse_hookid {D} : Setter (@mouse_hookid D) := ltac:(build_setter).
#[export] Instance set_mouse_scancode {D} : Setter (@mouse_scancode D) := ltac:(build_setter).
#[export] Instance set_mouse_statuscode {D} : Setter (@mouse_statuscode D) := ltac:(build_setter).
#[export] Instance set_ih_error {D} : Setter (@ih_error D) := ltac:(build_setter).
#[export] Instance set_rtc_hook_id {D} : Setter (@rtc_hook_id D) := ltac:(build_setter).
#[export] Instance set_speed {D} : Setter (@speed D) := ltac:(build_setter).
#[export] Instance set_frames_per_state {D} : Setter (@frames_per_state D) := ltac:(build_setter).
#[export] Instance set_gfx {D} : Setter (@gfx D) := ltac:(build_setter).
#[export] Instance set_imgs {D} : Setter (@imgs D) := ltac:(build_setter).
#[export] Instance set_ships {D} : Setter (@ships D) := ltac:(build_setter).
#[export] Instance set_mice {D} : Setter (@mice D) := ltac:(build_setter).
#[export] Instance set_bullets {D} : Setter (@bullets D) := ltac:(build_setter).
#[export] Instance set_alien_bullets {D} : Setter (@alien_bullets D) := ltac:(build_setter).
#[export] Instance set_shipBullets {D} : Setter (@shipBullets D) := ltac:(build_setter).
#[export] Instance set_alienBullet {D} : Setter (@alienBullet D) := ltac:(build_setter).
#[export] Instance set_gameState {D} : Setter (@gameState D) := ltac:(build_setter).
#[export] Instance set_nextRound {D} : Setter (@nextRound D) := ltac:(build_setter).
#[export] Instance set_aliens {D} : Setter (@aliens D) := ltac:(build_setter).
#[export] Instance set_row {D} : Setter (@row D) := ltac:(build_setter).
#[export] Instance set_killCount {D} : Setter (@killCount D) := ltac:(build_setter).
#[export] Instance set_frame_counter {D} : Setter (@frame_counter D) := ltac:(build_setter).
#[export] Instance set_changeSpeed {D} : Setter (@changeSpeed D) := ltac:(build_setter).
#[export] Instance set_changeDir {D} : Setter (@changeDir D) := ltac:(build_setter).
#[export] Instance set_roundNum {D} : Setter (@roundNum D) := ltac:(build_setter).
#[export] Instance set_loc {D} : Setter (@loc D) := ltac:(build_setter).

(** Static storage before [main]: zero-initialised, or as the definitions say. *)
Definition no_alien : Alien := MkAlien 0 0 0 0 no_image no_image false 0.

Definition no_graphics : graphics := Graphics 0 0 0 0 None None.

Definition no_images : images :=
  Images no_image no_image no_image no_image no_image no_image no_image no_image no_image no_image
    no_image no_image no_image no_image no_image no_image.

(** The automatic variables of [game_loop] at its entry; the members without an
    initialiser in the source are written before they are read. *)
Definition init_locals : locals :=
  Locals 0 0 0 0 no_packet 1 [0; 0; 0] 1 [0; 0] INITIAL false Invalid_key 0 false true NULL NULL
    no_image no_image no_image no_image.

Definition init_state {D} (d : D) : state D :=
  State d 0 0 1 0 12 0 0 0 8 1 20 no_graphics no_images
    empty_heap empty_heap empty_heap empty_heap
    (replicate 7 NULL) NULL MENU_DISPLAY false (replicate 24 no_alien) 0 0 0 false false 0
    init_locals.

(** Shorthands: an update of one global and of one automatic variable. *)
Abbreviation assign f v := (modify (fun s => s <| f := v |>)).
Abbreviation assign_loc f v := (modify (fun s => s <| loc := (loc s) <| f := v |> |>)).
Abbreviation assign_img f v := (modify (fun s => s <| imgs := (imgs s) <| f := v |> |>)).
Abbreviation local f := (gets (fun s => f (loc s))).
