(* ===== verification/Graphics.v ===== *)
(** * The video card: proj/src/graphic.c

    Off-screen drawing into [video_mem], copied to the mapped VRAM
    [display_mem] by [displayScreen] (double buffering). *)

From S2P Require Import Prelude CMonad Heap Memory Lcf Minix Macros ProjState.
From stdpp Require Import options.

Definition upd_video {D} (v : option block) (s : state D) : state D :=
  s <| gfx := (gfx s) <| video_mem := v |> |>.

Section graphic.
Context {D : Type} `{K : Kernel D}.

(** [memcpy(video_mem + off, src, length)] *)
Definition memcpy_video (off : Z) (src : list Z) : M (state D) unit := fun s =>
  match video_mem (gfx s) with
  | None => Fault NullDeref
  | Some b =>
      if (0 <=? off) && (off + Z.of_nat (length src) <=? bsize b) then
        Ok tt (upd_video (Some (Block (bsize b) (write_bytes off src (bdata b)))) s)
      else Fault OutOfBounds
  end.

(** [img.bytes[i]] *)
Definition img_byte (img : xpm_image_t) (i : Z) : M (state D) Z :=
  match bytes img !! Z.to_nat i with
  | Some b => ret b
  | None => raise OutOfBounds
  end.

Definition vg_get_mode_info (mode : Z) : M (state D) Z := call (
  '(rc, info) <- sys dev (vbe_get_mode_info mode) ;;
  if ctrue rc then return_ 1 else
  modify (fun s => s <| gfx := (gfx s) <| Xres := XResolution info |>
                                       <| Yres := YResolution info |>
                                       <| bitsPerPixel := BitsPerPixel info |>
                                       <| color_mode := MemoryModel info |> |>) ;;
  g <- gets gfx ;;
  let vram_base := PhysBasePtr info in
  let vram_size := u32 (i32 (Xres g * Yres g) * (bitsPerPixel g ÷ 8)) in
  let mr_limit := u32 (vram_base + vram_size) in
  r <- sys dev (sys_privctl_add_mem vram_base mr_limit) ;;
  when (ctrue r) (raise Panic) ;;
  mapped <- sys dev (vm_map_phys vram_base vram_size) ;;
  modify (fun s => s <| gfx := (gfx s) <| display_mem := if mapped then Some (Block vram_size ∅) else None |> |>) ;;
  modify (upd_video (Some (Block (i32 (i32 (Xres g * Yres g) * bitsPerPixel g) ÷ 8) ∅))) ;;
  when (negb mapped) (raise Panic) ;;
  ret 0).

Definition vg_set_mode (mode : Z) : M (state D) Z := call (
  if negb (mode =? 0x105) && negb (mode =? 0x110) && negb (mode =? 0x115)
     && negb (mode =? 0x11A) && negb (mode =? 0x14C) then return_ 1 else
  let aux := Reg86 0x10 0x02 0x4F (u16 (Z.lor (BIT 14) mode)) in
  '(rc, aux) <- sys dev (sys_int86 aux) ;;
  if ctrue rc then return_ 1 else
  if negb ((r_ah aux =? 0x00) && (r_al aux =? 0x4F)) then return_ 1 else
  ret 0).

Definition loadXpm (xpm : xpm_map) : M (state D) xpm_image_t := sys dev (xpm_load xpm XPM_INDEXED).

Definition loadBackground : M (state D) xpm_image_t := loadXpm background_map.

Definition loadInitialScreen : M (state D) xpm_image_t := loadXpm initial_screen.

Definition drawPixel (x y color : Z) : M (state D) unit :=
  let x := u16 x in
  let y := u16 y in
  g <- gets gfx ;;
  let n := u32 (Z.shiftr (bitsPerPixel g + 7) 3) in
  let off := u32 (n * u32 (i32 (i32 (y * Xres g) + x))) in
  if 4 <? n then raise OutOfBounds else
  memcpy_video off (le_bytes (Z.to_nat n) (u32 color)).

Definition drawBackground (img : xpm_image_t) : M (state D) unit :=
  let n := i32 (height img * width img) in
  if (n <? 0) || (Z.of_nat (length (bytes img)) <? n) then raise OutOfBounds else
  memcpy_video 0 (take (Z.to_nat n) (bytes img)).

Definition drawXpm (x y : Z) (img : xpm_image_t) : M (state D) Z :=
  for_acc (seqZ y (height img)) 0 (fun i counter =>
    for_acc (seqZ x (width img)) counter (fun j counter =>
      b <- img_byte img counter ;;
      drawPixel j i b ;;
      ret (counter + 1))) ;;
  ret 0.

Definition drawMouse (p : ptr) : M (state D) unit :=
  m <- load mice p ;;
  for_acc (seqZ (mouse_y m) (height (mouse_img m))) 0 (fun i counter =>
    for_acc (seqZ (mouse_x m) (width (mouse_img m))) counter (fun j counter =>
      b <- img_byte (mouse_img m) counter ;;
      when (ctrue b) (drawPixel j i b) ;;
      ret (counter + 1))) ;;
  ret tt.

Definition displayScreen : M (state D) unit := fun s =>
  let g := gfx s in
  let n := i32 (i32 (Yres g * Xres g) * Z.shiftr (bitsPerPixel g + 7) 3) in
  match video_mem g, display_mem g with
  | Some v, Some d =>
      if (0 <=? n) && (n <=? bsize v) && (n <=? bsize d) then
        Ok tt (s <| gfx := g <| display_mem :=
          Some (Block (bsize d) (filter (fun p => fst p < n) (bdata v) ∪
                                 filter (fun p => n <= fst p) (bdata d))) |> |>)
      else Fault OutOfBounds
  | _, _ => Fault NullDeref
  end.

(** [&aliens[i]] *)
Definition alien_at (i : nat) : M (state D) Alien := fun s =>
  match aliens s !! i with
  | Some a => Ok a s
  | None => Fault OutOfBounds
  end.

Definition set_alien (i : nat) (a : Alien) : M (state D) unit :=
  modify (fun s => s <| aliens := <[i := a]> (aliens s) |>).

Definition drawAlien (i : nat) (mov : bool) : M (state D) Z := call (
  a1 <- alien_at i ;;
  if negb (alien_alive a1) then return_ 1 else
  if mov then
    set_alien i (a1 <| alien_width := width (alien_img_mov a1) |>
                    <| alien_height := height (alien_img_mov a1) |>) ;;
    drawXpm (alien_x a1) (alien_y a1) (alien_img_mov a1)
  else
    set_alien i (a1 <| alien_width := width (alien_img a1) |>
                    <| alien_height := height (alien_img a1) |>) ;;
    drawXpm (alien_x a1) (alien_y a1) (alien_img a1)).

End graphic.

(** * What drawing may change

    [draws m]: [m] never jumps and changes nothing but the contents of
    [video_mem]. *)
Definition same_but_video {D} (s s' : state D) : Prop := exists v, s' = upd_video v s.

Definition draws {D A} (m : M (state D) A) : Prop :=
  forall s, wp True m (fun _ s' => same_but_video s s') nojump s.

Lemma same_but_video_refl {D} (s : state D) : same_but_video s s.
Proof. exists (video_mem (gfx s)). by destruct s as [? ? ? ? ? ? ? ? ? ? ? ? []]. Qed.

Lemma same_but_video_trans {D} (s1 s2 s3 : state D) :
  same_but_video s1 s2 -> same_but_video s2 s3 -> same_but_video s1 s3.
Proof. intros [v ->] [v' ->]. by exists v'. Qed.

Section draws.
Context {D : Type} `{K : Kernel D}.

Lemma draws_ret {A} (a : A) : draws (D:=D) (ret a).
Proof. intros s. apply wp_ret, same_but_video_refl. Qed.

Lemma draws_raise {A} f : draws (D:=D) (A:=A) (raise f).
Proof. intros s. by apply wp_raise. Qed.

Lemma draws_bind {A B} (m : M (state D) A) (k : A -> M (state D) B) :
  draws m -> (forall a, draws (k a)) -> draws (bind m k).
Proof.
  intros Hm Hk s. apply wp_bind. eapply wp_mono; [done| |done|apply Hm].
  intros a s' Hs'. eapply wp_mono; [done| |done|apply Hk].
  intros b s'' Hs''. exact (same_but_video_trans s s' s'' Hs' Hs'').
Qed.

Lemma draws_gets {A} (f : state D -> A) : draws (gets f).
Proof. intros s. apply wp_gets, same_but_video_refl. Qed.

Lemma draws_when b (m : M (state D) unit) : draws m -> draws (when b m).
Proof. intros Hm. destruct b; [done|]. apply draws_ret. Qed.

Lemma draws_for_acc {X B} (l : list X) (acc : B) body :
  (forall x a, draws (D:=D) (body x a)) -> draws (for_acc l acc body).
Proof.
  intros Hb. revert acc. induction l as [|x l IH]; intros acc; simpl.
  - apply draws_ret.
  - apply draws_bind; auto.
Qed.

Lemma draws_memcpy_video off l : draws (D:=D) (memcpy_video off l).
Proof.
  intros s. unfold wp, memcpy_video. destruct (video_mem (gfx s)); [|done].
  destruct (_ && _); [|done]. by eexists.
Qed.

Lemma draws_img_byte img i : draws (D:=D) (img_byte img i).
Proof. unfold img_byte. case_match; [apply draws_ret|apply draws_raise]. Qed.

Lemma draws_load {A} (hp : state D -> heap A) p : draws (load hp p).
Proof. intros s. apply wp_load_lib. intros. apply same_but_video_refl. Qed.

Lemma draws_drawPixel x y c : draws (D:=D) (drawPixel x y c).
Proof.
  apply draws_bind; [apply draws_gets|]. intros g. cbv zeta.
  case_match; [apply draws_raise|apply draws_memcpy_video].
Qed.

Lemma draws_drawBackground img : draws (D:=D) (drawBackground img).
Proof. unfold drawBackground. case_match; [apply draws_raise|apply draws_memcpy_video]. Qed.

Lemma draws_drawXpm x y img : draws (D:=D) (drawXpm x y img).
Proof.
  apply draws_bind; [|intros; apply draws_ret].
  apply draws_for_acc. intros. apply draws_for_acc. intros.
  apply draws_bind; [apply draws_img_byte|]. intros.
  apply draws_bind; [apply draws_drawPixel|intros; apply draws_ret].
Qed.

Lemma draws_drawMouse p : draws (D:=D) (drawMouse p).
Proof.
  apply draws_bind; [apply draws_load|]. intros m.
  apply draws_bind; [|intros; apply draws_ret].
  apply draws_for_acc. intros. apply draws_for_acc. intros.
  apply draws_bind; [apply draws_img_byte|]. intros.
  apply draws_bind; [apply draws_when, draws_drawPixel|intros; apply draws_ret].
Qed.

End draws.

Create HintDb draws discriminated.
#[export] Hint Resolve draws_ret draws_raise draws_gets draws_load draws_drawPixel
  draws_drawBackground draws_drawXpm draws_drawMouse : draws.
#[export] Hint Resolve draws_bind draws_when draws_for_acc | 2 : draws.
