(* ===== verification/GraphicsFacts.v ===== *)
(** * Correctness of the drawing routines

    Pixel addressing, the blit of a pixmap, and the double buffer. *)

From S2P Require Import Prelude CMonad Heap Memory Lcf Minix Macros ProjState Graphics.
From stdpp Require Import options.

(** Bytes per pixel. *)
Definition depth (g : graphics) : Z := (bitsPerPixel g + 7) / 8.

(** [b] is a frame buffer for the mode described by [g]. *)
Definition frame_buffer (g : graphics) (b : block) : Prop :=
  video_mem g = Some b /\ 0 < Xres g < 65536 /\ 0 < Yres g < 65536 /\
  1 <= bitsPerPixel g <= 32 /\ bsize b = depth g * (Xres g * Yres g) /\
  depth g * (Xres g * Yres g) < 2 ^ 31.

Definition on_screen (g : graphics) (x y : Z) : Prop := 0 <= x < Xres g /\ 0 <= y < Yres g.

(** Offset of a pixel in the frame buffer. *)
Definition pixel_offset (g : graphics) (x y : Z) : Z := depth g * (y * Xres g + x).

(** The colour last stored at a pixel. *)
Definition pixel (g : graphics) (x y : Z) : option Z :=
  b ← video_mem g; read_le (Z.to_nat (depth g)) (pixel_offset g x y) (bdata b).

Lemma depth_range g : 1 <= bitsPerPixel g <= 32 -> 1 <= depth g <= 4.
Proof. unfold depth. intros. Z.to_euclidean_division_equations. lia. Qed.

Lemma depth_shift g : 1 <= bitsPerPixel g <= 32 -> u32 (Z.shiftr (bitsPerPixel g + 7) 3) = depth g.
Proof.
  intros Hb. pose proof (depth_range g Hb). rewrite Z.shiftr_div_pow2 by lia.
  change (2 ^ 3) with 8. fold (depth g). machsimp. done.
Qed.

(** Distinct pixels occupy disjoint bytes. *)
Lemma pixel_offset_disjoint g x y x' y' :
  1 <= depth g -> on_screen g x y -> on_screen g x' y' -> (x, y) <> (x', y') ->
  pixel_offset g x' y' + depth g <= pixel_offset g x y \/
  pixel_offset g x y + depth g <= pixel_offset g x' y'.
Proof.
  unfold on_screen, pixel_offset. intros Hd [Hx Hy] [Hx' Hy'] Hne.
  assert (y * Xres g + x < y' * Xres g + x' \/ y' * Xres g + x' < y * Xres g + x) as [Hlt|Hlt].
  { destruct (Z.lt_trichotomy y y') as [|[->|]]; [left; nia| |right; nia].
    destruct (Z.lt_trichotomy x x') as [|[->|]]; [left; lia|done|right; lia]. }
  - right. nia.
  - left. nia.
Qed.

Lemma pixel_offset_range g b x y :
  frame_buffer g b -> on_screen g x y ->
  0 <= pixel_offset g x y /\ pixel_offset g x y + depth g <= bsize b.
Proof.
  unfold frame_buffer, on_screen, pixel_offset. intros (? & ? & ? & Hb & -> & ?) [? ?].
  pose proof (depth_range g Hb).
  assert (0 <= y * Xres g + x /\ y * Xres g + x + 1 <= Xres g * Yres g) as [? ?] by nia.
  split; [nia|]. rewrite <- (Z.mul_1_r (depth g)) at 2. rewrite <- Z.mul_add_distr_l.
  apply Z.mul_le_mono_nonneg_l; lia.
Qed.

Section facts.
Context {D : Type} `{K : Kernel D}.

(** Drawing an on-screen pixel stores its bytes at its offset, without fault. *)
Lemma drawPixel_exec (s : state D) b x y c :
  frame_buffer (gfx s) b -> on_screen (gfx s) x y ->
  drawPixel x y c s =
    Ok tt (upd_video (Some (Block (bsize b)
             (write_bytes (pixel_offset (gfx s) x y) (le_bytes (Z.to_nat (depth (gfx s))) (u32 c)) (bdata b)))) s).
Proof.
  intros Hf Hs. pose proof (pixel_offset_range _ _ _ _ Hf Hs) as Ho.
  destruct Hf as (Hv & HX & HY & Hb & Hsz & Hlt). destruct Hs as [Hx Hy].
  pose proof (depth_range _ Hb) as Hd. unfold pixel_offset in *. set (g := gfx s) in *.
  unfold drawPixel, bind, gets. fold g. rewrite depth_shift by done.
  assert (0 <= y * Xres g + x < Xres g * Yres g) by nia.
  assert (y * Xres g + x < 2 ^ 31) by nia.
  rewrite (u16_id x), (u16_id y) by lia.
  rewrite (i32_id (y * Xres g)) by (unfold in_i32; nia).
  rewrite (i32_id (y * Xres g + x)) by (unfold in_i32; lia).
  rewrite (u32_id (y * Xres g + x)) by lia.
  rewrite (u32_id (depth g * _)) by nia.
  replace (4 <? depth g) with false by (symmetry; apply Z.ltb_ge; lia).
  unfold memcpy_video. fold g. rewrite Hv, length_le_bytes, Z2Nat.id by lia.
  replace (_ && _) with true; [done|]. symmetry. apply andb_true_iff.
  split; apply Z.leb_le; lia.
Qed.

Lemma frame_buffer_upd (s : state D) b d :
  frame_buffer (gfx s) b -> frame_buffer (gfx (upd_video (Some (Block (bsize b) d)) s)) (Block (bsize b) d).
Proof. intros (_ & Hr). split; [done|]. exact Hr. Qed.

(** The colour of a pixel, truncated to the depth of the mode, is what reading
    it back gives, and no other pixel changes. *)
Theorem drawPixel_correct (s : state D) b x y c :
  frame_buffer (gfx s) b -> on_screen (gfx s) x y ->
  exists s', drawPixel x y c s = Ok tt s' /\
    same_but_video s s' /\
    pixel (gfx s') x y = Some (u32 c mod 256 ^ depth (gfx s)) /\
    forall x' y', on_screen (gfx s) x' y' -> (x, y) <> (x', y') ->
      pixel (gfx s') x' y' = pixel (gfx s) x' y'.
Proof.
  intros Hf Hs. eexists. split; [by apply drawPixel_exec|]. split; [by eexists|].
  destruct Hf as (Hv & ? & ? & Hb & ?). pose proof (depth_range _ Hb) as Hd.
  split.
  - unfold pixel. simpl. change (pixel_offset _ x y) with (pixel_offset (gfx s) x y).
    change (depth _) with (depth (gfx s)). rewrite read_le_write, Z2Nat.id by lia. done.
  - intros x' y' Hs' Hne. unfold pixel. rewrite Hv. simpl.
    change (pixel_offset _ x' y') with (pixel_offset (gfx s) x' y').
    change (depth _) with (depth (gfx s)). apply read_le_ext. intros a Ha.
    apply lookup_write_bytes_ne. rewrite length_le_bytes, Z2Nat.id in * by lia.
    destruct (pixel_offset_disjoint (gfx s) x y x' y'); auto; lia.
Qed.

(** The contents of a one-byte-per-pixel frame buffer of [X] columns after the
    first [r] rows of [img] and [k] pixels of the next one were copied to [(x, y)],
    over the contents [d].  With [tr], pixels of colour 0 are transparent. *)
Definition blitted (tr : bool) (img : xpm_image_t) (X x y r k : Z) (d : gmap Z Z) (a : Z) : option Z :=
  let i := a / X - y in
  let j := a mod X - x in
  if decide (0 <= i /\ 0 <= j < width img /\ (i < r \/ i = r /\ j < k))
  then c ← bytes img !! Z.to_nat (i * width img + j);
       if tr && (c =? 0) then d !! a else Some c
  else d !! a.

(** Every pixel of the image is present in its byte array. *)
Definition image_ok (img : xpm_image_t) : Prop :=
  0 <= width img /\ 0 <= height img /\
  length (bytes img) = Z.to_nat (width img * height img) /\ Forall in_u8 (bytes img).

Lemma blitted_pixel tr img X x y r k (d d' : gmap Z Z) b :
  0 < X -> 0 <= x -> x + width img <= X -> 0 <= r -> 0 <= k < width img ->
  bytes img !! Z.to_nat (r * width img + k) = Some b ->
  (forall a, 0 <= a -> d' !! a = blitted tr img X x y r k d a) ->
  forall a, 0 <= a ->
    (if tr && (b =? 0) then d' else <[ (y + r) * X + (x + k) := b ]> d') !! a
    = blitted tr img X x y r (k + 1) d a.
Proof.
  intros HX Hx HxX Hr Hk Hb Hd a Ha. unfold blitted in *.
  pose proof (Z.div_mod a X) as Hdm. pose proof (Z.mod_pos_bound a X HX) as Hm.
  destruct (decide (a = (y + r) * X + (x + k))) as [He|He].
  - assert (a / X - y = r) as Hi by (subst a; rewrite Z.add_comm, Z.div_add by lia;
      rewrite Z.div_small by lia; lia).
    assert (a mod X - x = k) as Hj by (subst a; rewrite Z.add_comm, Z.mod_add by lia;
      rewrite Z.mod_small by lia; lia).
    specialize (Hd a Ha). rewrite Hi, Hj in *. rewrite decide_False in Hd by lia.
    rewrite decide_True by lia. rewrite Hb. simpl.
    destruct (tr && (b =? 0)); [done|]. subst a. apply lookup_insert_eq.
  - transitivity (d' !! a).
    { destruct (tr && (b =? 0)); [done|]. by apply lookup_insert_ne. }
    rewrite Hd by done. apply decide_ext. split; [lia|].
    intros (? & ? & [?|[? ?]]); [lia|].
    split; [lia|]. split; [lia|]. right. split; [lia|].
    assert (a mod X - x <> k); [|lia]. intros ?. apply He. nia.
Qed.

Lemma blitted_row tr img X x y r d a :
  0 < X -> 0 <= r ->
  blitted tr img X x y r (width img) d a = blitted tr img X x y (r + 1) 0 d a.
Proof. intros. unfold blitted. apply decide_ext. lia. Qed.

(** The window of [img] at [(x, y)] lies on the screen. *)
Definition fits (g : graphics) (x y : Z) (img : xpm_image_t) : Prop :=
  0 <= x /\ x + width img <= Xres g /\ 0 <= y /\ y + height img <= Yres g.

(** A frame buffer of the indexed mode, in which a byte is a pixel. *)
Definition indexed_buffer (g : graphics) (b : block) : Prop := frame_buffer g b /\ depth g = 1.

(** [s'] is [s] with the first [r] rows and [k] more pixels of [img] drawn. *)
Definition drawn tr (s : state D) b (img : xpm_image_t) (x y r k : Z) (s' : state D) : Prop :=
  exists d, s' = upd_video (Some (Block (bsize b) d)) s /\
    forall a, 0 <= a -> d !! a = blitted tr img (Xres (gfx s)) x y r k (bdata b) a.

Lemma drawn_start tr s b img x y : video_mem (gfx s) = Some b -> drawn tr s b img x y 0 0 s.
Proof.
  intros Hv. exists (bdata b). split.
  - unfold upd_video. destruct b, s as [? ? ? ? ? ? ? ? ? ? ? ? []]. simpl in *. by subst.
  - intros a Ha. unfold blitted. rewrite decide_False; [done|]. lia.
Qed.

Lemma drawn_row tr s b img x y r s' :
  0 < Xres (gfx s) -> 0 <= r ->
  drawn tr s b img x y r (width img) s' -> drawn tr s b img x y (r + 1) 0 s'.
Proof.
  intros ? ? (d & -> & Hd). exists d. split; [done|].
  intros a Ha. rewrite Hd by done. by apply blitted_row.
Qed.

Lemma image_byte img r k :
  image_ok img -> 0 <= r < height img -> 0 <= k < width img ->
  exists b, bytes img !! Z.to_nat (r * width img + k) = Some b /\ in_u8 b.
Proof.
  intros (? & ? & Hl & Hu) Hr Hk.
  destruct (lookup_lt_is_Some_2 (bytes img) (Z.to_nat (r * width img + k))) as [b Hb].
  { rewrite Hl. apply Z2Nat.inj_lt; nia. }
  exists b. split; [done|]. by eapply Forall_lookup_1.
Qed.

(** One pixel of a blit. *)
Lemma wp_draw_image_pixel tr s b img x y r k c s' E J :
  indexed_buffer (gfx s) b -> image_ok img -> fits (gfx s) x y img ->
  0 <= r < height img -> 0 <= k < width img ->
  bytes img !! Z.to_nat (r * width img + k) = Some c -> in_u8 c ->
  drawn tr s b img x y r k s' ->
  wp E (when (negb (tr && (c =? 0))) (drawPixel (x + k) (y + r) c))
    (fun _ s'' => drawn tr s b img x y r (k + 1) s'') J s'.
Proof.
  intros [Hf Hd] Hi Hfit Hr Hk Hc Hu (d & -> & Hdr). unfold fits in Hfit.
  assert (0 < Xres (gfx s)) as HX by (destruct Hf as (_ & ? & _); lia).
  pose proof (blitted_pixel tr img (Xres (gfx s)) x y r k (bdata b) d c HX
    ltac:(lia) ltac:(lia) ltac:(lia) Hk Hc Hdr) as Hb.
  unfold when. destruct (tr && (c =? 0)); simpl.
  { apply wp_ret. by exists d. }
  eapply wp_of_exec.
  { apply drawPixel_exec; [by apply frame_buffer_upd|]. split; simpl; lia. }
  eexists. split; [reflexivity|].
  change (pixel_offset _ (x + k) (y + r)) with (pixel_offset (gfx s) (x + k) (y + r)).
  change (depth _) with (depth (gfx s)). unfold pixel_offset. rewrite Hd. simpl.
  rewrite Z.mul_1_l, u32_id, Z.mod_small by (unfold in_u8 in Hu; lia). done.
Qed.

(** The two nested loops shared by [drawXpm] and [drawMouse]. *)
Lemma wp_blit_loops tr s b img x y E J (body : Z -> Z -> Z -> M (state D) Z) :
  indexed_buffer (gfx s) b -> image_ok img -> fits (gfx s) x y img ->
  (forall r k s', 0 <= r < height img -> 0 <= k < width img -> drawn tr s b img x y r k s' ->
     wp E (body (y + r) (x + k) (r * width img + k))
       (fun n s'' => n = r * width img + k + 1 /\ drawn tr s b img x y r (k + 1) s'') J s') ->
  wp E (for_acc (seqZ y (height img)) 0 (fun i counter =>
          for_acc (seqZ x (width img)) counter (fun j counter => body i j counter)))
    (fun _ s' => drawn tr s b img x y (height img) 0 s') J s.
Proof.
  intros [Hf Hd] Hi Hfit Hbody. pose proof Hi as (Hw & Hh & _).
  apply (wp_for_acc_seqZ _ (fun r n s' => n = r * width img /\ drawn tr s b img x y r 0 s')); [done| | |].
  - split; [lia|]. apply drawn_start, Hf.
  - intros r n s' Hr (-> & Hs').
    apply (wp_for_acc_seqZ _ (fun k n s' => n = r * width img + k /\ drawn tr s b img x y r k s')); [done| | |].
    + by rewrite Z.add_0_r.
    + intros k n s'' Hk (-> & Hs''). eapply wp_mono; [done| |done|by apply Hbody].
      intros n' s3 [-> ?]. split; [lia|done].
    + intros n s'' (-> & Hs''). split; [lia|]. apply drawn_row; [apply Hf|lia|done].
  - intros n s' (_ & Hs'). done.
Qed.

Lemma drawXpm_drawn s b img x y :
  indexed_buffer (gfx s) b -> image_ok img -> fits (gfx s) x y img ->
  wp False (drawXpm x y img) (fun r s' => r = 0 /\ drawn false s b img x y (height img) 0 s') nojump s.
Proof.
  intros Hf Hi Hfit. unfold drawXpm. apply wp_bind.
  eapply wp_mono; [done| |done|eapply (wp_blit_loops false); eauto].
  - intros ? s' Hs'. by apply wp_ret.
  - intros r k s' Hr Hk Hs'. destruct (image_byte img r k Hi Hr Hk) as (c & Hc & Hu).
    unfold img_byte. rewrite Hc. apply wp_bind, wp_ret, wp_bind.
    eapply wp_mono; [done| |done|by eapply (wp_draw_image_pixel false)].
    intros ? s'' Hs''. by apply wp_ret.
Qed.

Lemma drawMouse_drawn s b p m :
  indexed_buffer (gfx s) b -> deref (mice s) p = Some m -> image_ok (mouse_img m) ->
  fits (gfx s) (mouse_x m) (mouse_y m) (mouse_img m) ->
  wp False (drawMouse p)
    (fun _ s' => drawn true s b (mouse_img m) (mouse_x m) (mouse_y m) (height (mouse_img m)) 0 s') nojump s.
Proof.
  intros Hf Hm Hi Hfit. unfold drawMouse. apply wp_bind. eapply wp_load; [done|]. apply wp_bind.
  eapply wp_mono; [done| |done|eapply (wp_blit_loops true); eauto].
  - intros ? s' Hs'. by apply wp_ret.
  - intros r k s' Hr Hk Hs'. destruct (image_byte (mouse_img m) r k Hi Hr Hk) as (c & Hc & Hu).
    unfold img_byte. rewrite Hc. apply wp_bind, wp_ret, wp_bind.
    eapply wp_mono; [done| |done|by eapply (wp_draw_image_pixel true)].
    intros ? s'' Hs''. by apply wp_ret.
Qed.

Lemma pixel_indexed g b x y :
  indexed_buffer g b -> pixel g x y = bdata b !! (y * Xres g + x).
Proof.
  intros [(Hv & _) Hd]. unfold pixel, pixel_offset. rewrite Hv, Hd. simpl.
  rewrite Z.mul_1_l. destruct (bdata b !! _) as [c|]; simpl; [|done]. f_equal. lia.
Qed.

Lemma indexed_buffer_upd (s : state D) b d :
  indexed_buffer (gfx s) b ->
  indexed_buffer (gfx (upd_video (Some (Block (bsize b) d)) s)) (Block (bsize b) d).
Proof. intros [Hf Hd]. split; [by apply frame_buffer_upd|done]. Qed.

(** What a finished blit shows on the screen. *)
Lemma drawn_pixels tr s b img x y s' :
  indexed_buffer (gfx s) b -> image_ok img -> fits (gfx s) x y img ->
  drawn tr s b img x y (height img) 0 s' ->
  same_but_video s s' /\
  (forall i j c, 0 <= i < height img -> 0 <= j < width img ->
     bytes img !! Z.to_nat (i * width img + j) = Some c ->
     pixel (gfx s') (x + j) (y + i) =
       if tr && (c =? 0) then pixel (gfx s) (x + j) (y + i) else Some c) /\
  (forall x' y', on_screen (gfx s) x' y' ->
     ~ (x <= x' < x + width img /\ y <= y' < y + height img) ->
     pixel (gfx s') x' y' = pixel (gfx s) x' y').
Proof.
  intros Hf Hi (? & ? & ? & ?) (d & -> & Hd). split; [by eexists|].
  pose proof (indexed_buffer_upd s b d Hf) as Hf'.
  assert (0 < Xres (gfx s)) as HX by (destruct Hf as [(_ & ? & _) _]; lia).
  assert (forall x' y', 0 <= x' < Xres (gfx s) -> (y' * Xres (gfx s) + x') / Xres (gfx s) = y') as Hdiv.
  { intros x' y' Hx'. rewrite Z.add_comm, Z.div_add, Z.div_small by lia. lia. }
  assert (forall x' y', 0 <= x' < Xres (gfx s) -> (y' * Xres (gfx s) + x') mod Xres (gfx s) = x') as Hmod.
  { intros x' y' Hx'. rewrite Z.add_comm, Z.mod_add, Z.mod_small by lia. lia. }
  split.
  - intros i j c Hi' Hj Hc. rewrite (pixel_indexed _ _ _ _ Hf'), (pixel_indexed _ _ _ _ Hf). simpl.
    rewrite Hd by nia. unfold blitted. rewrite Hdiv, Hmod by lia.
    rewrite decide_True by lia.
    replace (y + i - y) with i by lia. replace (x + j - x) with j by lia. by rewrite Hc.
  - intros x' y' [Hx' Hy'] Hout. rewrite (pixel_indexed _ _ _ _ Hf'), (pixel_indexed _ _ _ _ Hf). simpl.
    rewrite Hd by nia. unfold blitted. rewrite Hdiv, Hmod by lia.
    rewrite decide_False; [done|]. lia.
Qed.

(** C11: [drawXpm] copies the pixmap.  In the indexed mode, drawing an image
    whose window lies on the screen returns 0 without fault; afterwards the pixel at
    row [i] and column [j] of the window is byte [i * width + j] of the image, every
    pixel outside the window is unchanged, and so is the rest of the program's state. *)
Theorem drawXpm_correct (s : state D) b img x y :
  indexed_buffer (gfx s) b -> image_ok img -> fits (gfx s) x y img ->
  exists s', drawXpm x y img s = Ok 0 s' /\ same_but_video s s' /\
    (forall i j, 0 <= i < height img -> 0 <= j < width img ->
       pixel (gfx s') (x + j) (y + i) = bytes img !! Z.to_nat (i * width img + j)) /\
    (forall x' y', on_screen (gfx s) x' y' ->
       ~ (x <= x' < x + width img /\ y <= y' < y + height img) ->
       pixel (gfx s') x' y' = pixel (gfx s) x' y').
Proof.
  intros Hf Hi Hfit.
  destruct (wp_exec _ _ _ (drawXpm_drawn s b img x y Hf Hi Hfit)) as (r & s' & He & -> & Hs').
  destruct (drawn_pixels _ _ _ _ _ _ _ Hf Hi Hfit Hs') as (Hsame & Hin & Hout).
  exists s'. repeat split; auto. intros i j Hr Hk.
  destruct (image_byte img i j Hi Hr Hk) as (c & Hc & _). rewrite Hc. by apply Hin.
Qed.

(** C26: [drawMouse] draws the pointer with colour 0 transparent: a pixel
    of the window takes the image's byte when it is not 0 and keeps its colour when
    it is; the rest of the screen and of the state is unchanged. *)
Theorem drawMouse_correct (s : state D) b p m :
  indexed_buffer (gfx s) b -> deref (mice s) p = Some m -> image_ok (mouse_img m) ->
  fits (gfx s) (mouse_x m) (mouse_y m) (mouse_img m) ->
  exists s', drawMouse p s = Ok tt s' /\ same_but_video s s' /\
    (forall i j c, 0 <= i < height (mouse_img m) -> 0 <= j < width (mouse_img m) ->
       bytes (mouse_img m) !! Z.to_nat (i * width (mouse_img m) + j) = Some c ->
       pixel (gfx s') (mouse_x m + j) (mouse_y m + i) =
         if c =? 0 then pixel (gfx s) (mouse_x m + j) (mouse_y m + i) else Some c) /\
    (forall x' y', on_screen (gfx s) x' y' ->
       ~ (mouse_x m <= x' < mouse_x m + width (mouse_img m) /\
          mouse_y m <= y' < mouse_y m + height (mouse_img m)) ->
       pixel (gfx s') x' y' = pixel (gfx s) x' y').
Proof.
  intros Hf Hm Hi Hfit.
  destruct (wp_exec _ _ _ (drawMouse_drawn s b p m Hf Hm Hi Hfit)) as ([] & s' & He & Hs').
  destruct (drawn_pixels _ _ _ _ _ _ _ Hf Hi Hfit Hs') as (Hsame & Hin & Hout). eauto 10.
Qed.

(** [drawBackground] replaces the first [height * width] pixels of the buffer. *)
Lemma drawBackground_exec (s : state D) b img :
  video_mem (gfx s) = Some b -> image_ok img -> width img * height img <= bsize b < 2 ^ 31 ->
  drawBackground img s =
    Ok tt (upd_video (Some (Block (bsize b) (write_bytes 0 (bytes img) (bdata b)))) s).
Proof.
  intros Hv (Hw & Hh & Hl & _) Hs. unfold drawBackground.
  assert (0 <= height img * width img < 2 ^ 31) by nia.
  rewrite i32_id by (unfold in_i32; lia). rewrite Hl, Z2Nat.id by lia.
  replace (_ || _) with false by (symmetry; apply orb_false_iff; split; apply Z.ltb_ge; lia).
  rewrite take_ge by (rewrite Hl; lia). unfold memcpy_video. rewrite Hv, Hl, Z2Nat.id by lia.
  replace (_ && _) with true; [done|]. symmetry. apply andb_true_iff. split; apply Z.leb_le; lia.
Qed.

Lemma displayScreen_exec (s : state D) v d :
  frame_buffer (gfx s) v -> display_mem (gfx s) = Some d -> bsize d = bsize v ->
  exists d', displayScreen s = Ok tt (s <| gfx := (gfx s) <| display_mem := Some d' |> |>) /\
    bsize d' = bsize d /\
    (forall a, 0 <= a < bsize d' -> bdata d' !! a = bdata v !! a) /\
    (forall a, bsize d' <= a -> bdata d' !! a = bdata d !! a).
Proof.
  intros (Hv & HX & HY & Hb & Hsz & Hlt) Hd Hds. pose proof (depth_range _ Hb) as Hdep.
  unfold displayScreen. rewrite Hv, Hd. rewrite Z.shiftr_div_pow2 by lia. change (2 ^ 3) with 8.
  fold (depth (gfx s)). assert (0 <= Xres (gfx s) * Yres (gfx s) < 2 ^ 31) by nia.
  rewrite (i32_id (Yres (gfx s) * _)) by (unfold in_i32; nia).
  replace (Yres (gfx s) * Xres (gfx s) * depth (gfx s)) with (bsize v) by lia.
  rewrite i32_id by (unfold in_i32; nia).
  replace (_ && _) with true; [|symmetry; rewrite !andb_true_iff; repeat split; apply Z.leb_le; nia].
  eexists. split; [reflexivity|]. simpl. split; [done|]. split.
  - intros a Ha. destruct (bdata v !! a) as [c|] eqn:Hc.
    + apply lookup_union_Some_l. apply map_lookup_filter_Some. split; [done|]. simpl. lia.
    + rewrite lookup_union_r; apply map_lookup_filter_None; [|by left].
      right. intros c Hc' Hle. simpl in Hle. lia.
  - intros a Ha. rewrite lookup_union_r.
    + rewrite map_lookup_filter. destruct (bdata d !! a) as [c|] eqn:Hc; simpl; [|done].
      rewrite option_guard_True; [done|]. simpl. lia.
    + apply map_lookup_filter_None. right. intros c Hc Hle. simpl in Hle. lia.
Qed.

(** C25: Double buffering: when both buffers hold a whole screen, [displayScreen]
    makes every byte of the visible screen the byte of the drawing buffer,
    and touches nothing else. *)
Theorem displayScreen_correct (s : state D) v d :
  frame_buffer (gfx s) v -> display_mem (gfx s) = Some d -> bsize d = bsize v ->
  exists d', displayScreen s = Ok tt (s <| gfx := (gfx s) <| display_mem := Some d' |> |>) /\
    bsize d' = bsize d /\
    (forall a, 0 <= a < bsize d' -> bdata d' !! a = bdata v !! a) /\
    (forall a, bsize d' <= a -> bdata d' !! a = bdata d !! a).
Proof. apply displayScreen_exec. Qed.

(** The mode description that the kernel returns for the mode in use. *)
Definition mode_ok (i : vbe_mode_info_t) : Prop :=
  0 < XResolution i < 65536 /\ 0 < YResolution i < 65536 /\
  (BitsPerPixel i = 8 \/ BitsPerPixel i = 16 \/ BitsPerPixel i = 24 \/ BitsPerPixel i = 32) /\
  XResolution i * YResolution i * BitsPerPixel i < 2 ^ 31.

Lemma vg_get_mode_info_exec (s : state D) mode i d1 d2 d3 :
  vbe_get_mode_info mode (dev s) = ((0, i), d1) -> mode_ok i ->
  (forall b l, sys_privctl_add_mem b l d1 = (0, d2)) ->
  (forall b z, vm_map_phys b z d2 = (true, d3)) ->
  exists s' v d, vg_get_mode_info mode s = Ok 0 s' /\
    frame_buffer (gfx s') v /\ display_mem (gfx s') = Some d /\ bsize d = bsize v /\
    Xres (gfx s') = XResolution i /\ Yres (gfx s') = YResolution i /\
    bitsPerPixel (gfx s') = BitsPerPixel i /\ dev s' = d3.
Proof.
  intros Hi (HX & HY & Hb & Hlt) Hp Hm.
  unfold vg_get_mode_info, call, bind, sys. rewrite Hi. simpl. rewrite Hp. simpl. rewrite Hm. simpl.
  set (X := XResolution i) in *. set (Y := YResolution i) in *. set (B := BitsPerPixel i) in *.
  assert (0 < X * Y) by nia. assert (B / 8 * 8 = B /\ 1 <= B / 8 <= 4 /\ B / 8 = (B + 7) / 8 /\ B ÷ 8 = B / 8) as (HB & HB' & HB2 & HB3).
  { clear -Hb. destruct Hb as [->|[->|[->| ->]]]; vm_compute; repeat split; congruence. }
  assert (X * Y < 2 ^ 31) by nia.
  rewrite HB3, (i32_id (X * Y)), (i32_id (X * Y * B)), u32_id by (unfold in_i32; nia).
  eexists _, _, _. split; [reflexivity|]. unfold frame_buffer. cbn [gfx].
  assert (X * Y * B ÷ 8 = X * Y * (B / 8)) as HQ.
  { rewrite <- HB at 1. rewrite Z.mul_assoc. apply Z.quot_mul. lia. }
  repeat split; simpl; try lia; unfold depth; simpl; rewrite ?HQ; fold B X Y; nia.
Qed.

(** When the kernel describes a byte-aligned mode and grants the mapping,
    [vg_get_mode_info] returns 0 with a drawing buffer and a display
    buffer that both hold exactly one screen of that mode. *)
Theorem vg_get_mode_info_correct (s : state D) mode i d1 d2 d3 :
  vbe_get_mode_info mode (dev s) = ((0, i), d1) -> mode_ok i ->
  (forall b l, sys_privctl_add_mem b l d1 = (0, d2)) ->
  (forall b z, vm_map_phys b z d2 = (true, d3)) ->
  exists s' v d, vg_get_mode_info mode s = Ok 0 s' /\
    frame_buffer (gfx s') v /\ display_mem (gfx s') = Some d /\ bsize d = bsize v /\
    Xres (gfx s') = XResolution i /\ Yres (gfx s') = YResolution i /\
    bitsPerPixel (gfx s') = BitsPerPixel i /\ dev s' = d3.
Proof. apply vg_get_mode_info_exec. Qed.

End facts.

(** * Examples on a screen of 4 by 3 pixels *)
Definition demo_gfx : graphics := Graphics 4 3 8 4 (Some (Block 12 ∅)) (Some (Block 12 ∅)).

Definition demo_img : xpm_image_t := XpmImage XPM_INDEXED 2 2 4 [7; 0; 5; 9].

Definition demo_state : state script := (init_state (ports [])) <| gfx := demo_gfx |>.

Lemma demo_buffer : indexed_buffer demo_gfx (Block 12 ∅).
Proof. repeat split; try done. Qed.

Lemma demo_img_ok : image_ok demo_img.
Proof. repeat split; try done. simpl. repeat constructor; done. Qed.

Lemma drawXpm_correct_witness :
  exists s', drawXpm 1 1 demo_img demo_state = Ok 0 s' /\ pixel (gfx s') 2 1 = Some 0.
Proof.
  destruct (drawXpm_correct demo_state (Block 12 ∅) demo_img 1 1 demo_buffer demo_img_ok
    ltac:(repeat split; vm_compute; congruence)) as (s' & He & _ & Hp & _).
  exists s'. split; [exact He|]. exact (Hp 0 1 ltac:(split; vm_compute; congruence) ltac:(split; vm_compute; congruence)).
Defined.

Definition demo_mouse_state : state script :=
  demo_state <| mice := heap_alloc (MkMouse 1 1 demo_img false) empty_heap |>.

Lemma drawMouse_correct_witness :
  exists s', drawMouse (Some 0%nat) demo_mouse_state = Ok tt s' /\ pixel (gfx s') 1 1 = Some 7.
Proof.
  destruct (drawMouse_correct demo_mouse_state (Block 12 ∅) (Some 0%nat) (MkMouse 1 1 demo_img false)
    demo_buffer eq_refl demo_img_ok ltac:(repeat split; vm_compute; congruence)) as (s' & He & _ & Hp & _).
  exists s'. split; [exact He|].
  exact (Hp 0 0 7 ltac:(split; vm_compute; congruence) ltac:(split; vm_compute; congruence) eq_refl).
Defined.

Lemma drawPixel_correct_witness :
  exists s', drawPixel 3 2 300 demo_state = Ok tt s' /\ pixel (gfx s') 3 2 = Some 44.
Proof.
  destruct (drawPixel_correct demo_state (Block 12 ∅) 3 2 300 (proj1 demo_buffer)
    ltac:(repeat split; vm_compute; congruence)) as (s' & He & _ & Hp & _).
  exists s'. split; [exact He|exact Hp].
Defined.

Lemma displayScreen_correct_witness :
  exists d', displayScreen demo_state = Ok tt (demo_state <| gfx := demo_gfx <| display_mem := Some d' |> |>).
Proof.
  destruct (displayScreen_correct demo_state (Block 12 ∅) (Block 12 ∅) (proj1 demo_buffer) eq_refl eq_refl)
    as (d' & He & _).
  exists d'. exact He.
Defined.

(** Mode 0x105: 1024 by 768, 8 bits per pixel. *)
Definition mode_105 : vbe_mode_info_t := VbeModeInfo 1024 768 8 4 0 0 0 0 0 0 0xE0000000.

Definition mode_script : script := (ports []) <| vbe_modes := [(0x105, mode_105)] |>.

Lemma vg_get_mode_info_correct_witness :
  exists s' v, vg_get_mode_info 0x105 (init_state mode_script) = Ok 0 s' /\ frame_buffer (gfx s') v.
Proof.
  destruct (vg_get_mode_info_correct (K := script_kernel) (init_state mode_script) 0x105 mode_105 mode_script mode_script mode_script
    eq_refl ltac:(repeat split; vm_compute; intuition congruence) (fun _ _ => eq_refl) (fun _ _ => eq_refl))
    as (s' & v & d & He & Hf & _).
  exists s', v. split; [exact He|exact Hf].
Defined.
