(* ===== verification/Timer.v ===== *)
(** * The timer driver and the port access helper: proj/src/timer.c, utils.c *)

From S2P Require Import Prelude CMonad Heap Lcf Minix Macros ProjState.
From stdpp Require Import options.

Section timer.
Context {D : Type} `{K : Kernel D}.

(** [Some b]: returned 0 with [b] in [*byte]; [None]: returned 1, [*byte] unchanged. *)
Definition util_sys_inb (port : Z) : M (state D) (option Z) :=
  '(rc, aux) <- sys dev (sys_inb port) ;;
  if ctrue rc then ret None else ret (Some (u8 aux)).

(** A port read only changes the device state, and what it yields is a byte. *)
Lemma wp_util_sys_inb E port Q J (s : state D) :
  (forall d o, from_option in_u8 True o -> Q o (s <| dev := d |>)) -> wp E (util_sys_inb port) Q J s.
Proof.
  intros HQ. unfold util_sys_inb. apply wp_bind, wp_sys. destruct (fst _) as [rc aux].
  wps; apply HQ; simpl; auto. apply u8_range.
Qed.

Definition timer_subscribe_int : M (state D) Z := call (
  h <- gets timer_hookid ;;
  assign_loc timer_bit_no (u8 h) ;;
  '(rc, h') <- sys dev (sys_irqsetpolicy TIMER0_IRQ IRQ_REENABLE h) ;;
  assign timer_hookid h' ;;
  if ctrue rc then return_ 1 else ret 0).

Definition timer_unsubscribe_int : M (state D) Z := call (
  h <- gets timer_hookid ;;
  rc <- sys dev (sys_irqrmpolicy h) ;;
  if ctrue rc then return_ 1 else ret 0).

Definition timer_int_handler : M (state D) unit :=
  modify (fun s => s <| timer_counter := i32 (timer_counter s + 1) |>).

End timer.

(** [n] timer interrupts. *)
Fixpoint ticks {D} `{K : Kernel D} (n : nat) : M (state D) unit :=
  match n with
  | O => ret tt
  | S n' => timer_int_handler ;; ticks n'
  end.

(** The counter counts interrupts exactly until it would leave the range of [int]. *)
Lemma ticks_count {D} `{K : Kernel D} n (s : state D) :
  0 <= timer_counter s -> timer_counter s + Z.of_nat n < 2 ^ 31 ->
  ticks n s = Ok tt (s <| timer_counter := timer_counter s + Z.of_nat n |>).
Proof.
  revert s. induction n as [|n IH]; intros s H0 H1.
  - simpl. unfold ret. f_equal. rewrite Z.add_0_r. by destruct s.
  - change (ticks (S n) s) with (ticks n (s <| timer_counter := i32 (timer_counter s + 1) |>)).
    rewrite i32_id by (unfold in_i32; lia). rewrite IH; get_set; [|lia|lia].
    f_equal. replace (timer_counter s + 1 + Z.of_nat n) with (timer_counter s + Z.of_nat (S n)) by lia.
    done.
Qed.
