(* ===== verification/Keyboard.v ===== *)
(** * The keyboard driver: proj/src/keyboard.c *)

From S2P Require Import Prelude CMonad Heap Lcf Minix Macros ProjState Timer.
From stdpp Require Import options.

Section keyboard.
Context {D : Type} `{K : Kernel D}.

Definition kbd_subscribe_int : M (state D) Z := call (
  h <- gets kbd_hookid ;;
  assign_loc kbd_bit_no (u8 h) ;;
  '(rc, h') <- sys dev (sys_irqsetpolicy KBD_IRQ (Z.lor IRQ_REENABLE IRQ_EXCLUSIVE) h) ;;
  assign kbd_hookid h' ;;
  if ctrue rc then return_ 1 else ret 0).

Definition kbd_unsubscribe_int : M (state D) Z := call (
  h <- gets kbd_hookid ;;
  rc <- sys dev (sys_irqrmpolicy h) ;;
  if ctrue rc then return_ 1 else ret 0).

(** The local [keyboard_statuscode] hides the global and keeps an indeterminate
    value when the status register cannot be read. *)
Definition kbc_ih : M (state D) unit :=
  g <- sys dev indeterminate ;;
  st <- util_sys_inb STAT_REG ;;
  let keyboard_statuscode := match st with Some b => b | None => u8 g end in
  if ctrue (Z.land keyboard_statuscode (Z.lor PARITY_BIT TIMEOUT_BIT)) then
    assign keyboard_scancode 0
  else
    b <- util_sys_inb OUT_BUF ;;
    match b with
    | Some b => assign keyboard_scancode b
    | None => ret tt
    end.

End keyboard.

Definition twoBytes (scan_code : Z) : Z := if scan_code =? 0xE0 then 1 else 0.

(** What [kbc_ih] stores is the byte read, or 0 when the controller reports a
    parity or time-out error; nothing else changes but the device. *)
Lemma wp_kbc_ih {D} `{K : Kernel D} E Q J (s : state D) :
  (forall d c, c = keyboard_scancode s \/ in_u8 c ->
     Q tt (s <| dev := d |> <| keyboard_scancode := c |>)) ->
  wp E kbc_ih Q J s.
Proof.
  intros HQ. unfold kbc_ih. apply wp_bind, wp_sys, wp_bind, wp_util_sys_inb.
  intros d o _. cbv beta zeta. wp_step.
  - apply wp_modify, HQ. right. unfold in_u8. lia.
  - apply wp_bind, wp_util_sys_inb. intros d' [b|] Hb; [apply wp_modify, HQ; by right|].
    apply wp_ret. specialize (HQ d' (keyboard_scancode s) (or_introl eq_refl)). by destruct s.
Qed.
