(* ===== verification/MouseDriver.v ===== *)
(** * The mouse driver: proj/src/mouse.c

    Interrupt handling, packet decoding, commands to the mouse through the
    keyboard controller, and the on-screen pointer. *)

From S2P Require Import Prelude CMonad Heap Lcf Minix Macros ProjState Timer.
From stdpp Require Import options.

Definition getMousePacket (b : list Z) : packet :=
  let b0 := nth 0 b 0 in
  let b1 := nth 1 b 0 in
  let b2 := nth 2 b 0 in
  {| pp_bytes := [b0; b1; b2];
     pp_lb := ctrue (Z.land b0 LEFT);
     pp_rb := ctrue (Z.land b0 RIGHT);
     pp_mb := ctrue (Z.land b0 MIDDLE);
     pp_delta_y := if ctrue (Z.land b0 Y_SIGN) then i16 (or_FILLMSB b2) else i16 b2;
     pp_delta_x := if ctrue (Z.land b0 X_SIGN) then i16 (or_FILLMSB b1) else i16 b1;
     pp_x_ov := ctrue (Z.shiftr (Z.land b0 X_OVFL) 6);
     pp_y_ov := ctrue (Z.shiftr (Z.land b0 Y_OVFL) 7) |}.

(** The new pointer position that [updateMouse] computes. *)
Definition move_mouse (p : packet) (m : Mouse) : Mouse :=
  let b0 := nth 0 (pp_bytes p) 0 in
  let x :=
    if ctrue (Z.land b0 X_SIGN) then
      if i32 (mouse_x m + pp_delta_x p) <? 0 then 0
      else i32 (mouse_x m + pp_delta_x p)
    else
      if X_RES - width (mouse_img m) <? i32 (mouse_x m + pp_delta_x p) then X_RES - width (mouse_img m)
      else i32 (mouse_x m + pp_delta_x p) in
  let y :=
    if ctrue (Z.land b0 Y_SIGN) then
      if Y_RES <? i32 (i32 (mouse_y m + height (mouse_img m)) - pp_delta_y p) then Y_RES - height (mouse_img m)
      else i32 (mouse_y m - pp_delta_y p)
    else
      if i32 (mouse_y m - pp_delta_y p) <? 0 then 0
      else i32 (mouse_y m - pp_delta_y p) in
  MkMouse x y (mouse_img m) (pp_lb p).

Section mouse.
Context {D : Type} `{K : Kernel D}.

Definition mouse_subscribe_int : M (state D) Z := call (
  h <- gets mouse_hookid ;;
  assign_loc mouse_bit_no h ;;
  '(rc, h') <- sys dev (sys_irqsetpolicy MOUSE_IRQ (Z.lor IRQ_REENABLE IRQ_EXCLUSIVE) h) ;;
  assign mouse_hookid h' ;;
  if ctrue rc then return_ 1 else ret 0).

Definition mouse_unsubscribe_int : M (state D) Z := call (
  h <- gets mouse_hookid ;;
  rc <- sys dev (sys_irqrmpolicy h) ;;
  if ctrue rc then return_ 1 else ret 0).

Definition mouse_ih : M (state D) unit :=
  st <- util_sys_inb STAT_REG ;;
  match st with
  | None => assign ih_error 1
  | Some st =>
      assign mouse_statuscode st ;;
      if negb ((Z.land st (Z.lor PARITY_BIT TIMEOUT_BIT) =? 0) && ctrue (Z.land st OBF_BIT)) then
        assign mouse_scancode 0 ;;
        assign ih_error 1
      else
        b <- util_sys_inb OUT_BUF ;;
        match b with
        | Some b => assign mouse_scancode b
        | None => ret tt
        end
  end.

(** Reads the status register into [mouse_statuscode]; failure returns 1. *)
Definition read_status : M (state D) Z :=
  st <- util_sys_inb STAT_REG ;;
  match st with
  | None => return_ 1
  | Some st => assign mouse_statuscode st ;; ret st
  end.

(** One iteration of the [do ... while (ack != ACK)] loop; yields [ack].  The
    statement [continue] goes to the test of the condition. *)
Definition send_mouse_iteration (cmd ack : Z) : M (state D) Z :=
  st <- read_status ;;
  if ctrue (Z.land st IBF_BIT) then ret ack else
  rc <- sys dev (sys_outb STAT_REG MOUSE_COMMAND) ;;
  if ctrue rc then return_ 1 else
  st <- read_status ;;
  if ctrue (Z.land st IBF_BIT) then ret ack else
  rc <- sys dev (sys_outb ARGS_REG cmd) ;;
  if ctrue rc then return_ 1 else
  sys_ dev (fun d => tickdelay (micros_to_ticks 20000 d) d) ;;
  a <- util_sys_inb OUT_BUF ;;
  match a with
  | None => return_ 1
  | Some ack => if ack =? ACK_ERROR then return_ 1 else ret ack
  end.

Fixpoint send_mouse_loop (fuel : nat) (cmd ack : Z) : M (state D) Z :=
  match fuel with
  | O => raise OutOfFuel
  | S n =>
      ack <- send_mouse_iteration cmd ack ;;
      if ack =? ACK then ret 0 else send_mouse_loop n cmd ack
  end.

(** [ack] is indeterminate until the first byte is read. *)
Definition send_mouse_command (fuel : nat) (cmd : Z) : M (state D) Z := call (
  ack <- sys dev indeterminate ;;
  send_mouse_loop fuel cmd (u8 ack)).

Definition updateMouse (p : packet) (m : ptr) : M (state D) unit :=
  mo <- load mice m ;;
  store mice m (move_mouse p mo).

Definition createMouse (x y : Z) : M (state D) ptr :=
  img <- sys dev (xpm_load mouse_xpm XPM_INDEXED) ;;
  malloc mice (MkMouse x y img false).

Definition removeMouse (m : ptr) : M (state D) unit := free mice m.

End mouse.

(** * Packets *)

(** The 9-bit two's complement displacement whose low byte is [b] and whose sign is [sg]. *)
Definition displacement (sg : bool) (b : Z) : Z := b - (if sg then 256 else 0).

Lemma or_FILLMSB_byte b : in_u8 b -> or_FILLMSB b = b + 0xFF00.
Proof.
  intros Hb. unfold or_FILLMSB. rewrite <- !Z.lor_assoc.
  change (Z.lor (BIT 15) _) with (Z.shiftl 255 8).
  rewrite <- Z.lxor_lor, <- Z.add_nocarry_lxor; [done| |].
  all: apply Z.bits_inj'; intros n Hn; rewrite Z.land_spec, Z.bits_0, andb_false_iff.
  all: destruct (Z.lt_ge_cases n 8); [right; rewrite Z.shiftl_spec by done; apply Z.testbit_neg_r; lia|left].
  all: apply (Z.bits_above_log2 b n); [apply Hb|].
  all: destruct (Z.eq_dec b 0) as [->|]; [simpl; lia|].
  all: apply Z.lt_le_trans with 8; [|done]; apply Z.log2_lt_pow2; unfold in_u8 in Hb; lia.
Qed.

Lemma delta_displacement (sg : bool) b :
  in_u8 b -> (if sg then i16 (or_FILLMSB b) else i16 b) = displacement sg b.
Proof.
  intros Hb. unfold displacement, in_u8 in *. destruct sg.
  - rewrite or_FILLMSB_byte by done. rewrite i16_high by lia. lia.
  - rewrite i16_id by lia. lia.
Qed.

(** packet decoding.  For every three bytes, the decoded displacements are
    the 9-bit two's complement numbers formed by the sign bits 4 and 5 of the first
    byte and the second and third bytes, and the buttons and overflow flags are the
    corresponding bits of the first byte. *)
Theorem getMousePacket_correct b0 b1 b2 :
  in_u8 b0 -> in_u8 b1 -> in_u8 b2 ->
  getMousePacket [b0; b1; b2] =
    Packet [b0; b1; b2] (Z.testbit b0 1) (Z.testbit b0 2) (Z.testbit b0 0)
      (displacement (Z.testbit b0 4) b1) (displacement (Z.testbit b0 5) b2)
      (Z.testbit b0 6) (Z.testbit b0 7).
Proof.
  intros H0 H1 H2. unfold getMousePacket. cbn [nth].
  unfold X_SIGN, Y_SIGN, LEFT, RIGHT, MIDDLE. rewrite !ctrue_land_BIT by lia.
  rewrite !delta_displacement by done. f_equal.
  all: unfold ctrue, X_OVFL, Y_OVFL; rewrite Z.shiftr_land.
  all: match goal with |- context [Z.shiftr (BIT ?k) ?k] => change (Z.shiftr (BIT k) k) with (Z.ones 1) end.
  all: rewrite Z.land_ones by lia; change (2 ^ 1) with 2; rewrite <- Z.bit0_mod, Z.shiftr_spec by lia.
  all: by destruct (Z.testbit b0 _).
Qed.

(** The first byte of a packet. *)
Definition packet_flags (lb rb mb xo yo sx sy : bool) : Z :=
  of_bool lb + 2 * of_bool rb + 4 * of_bool mb + 8 + 16 * of_bool sx + 32 * of_bool sy
  + 64 * of_bool xo + 128 * of_bool yo.

(** The three bytes a mouse sends for a movement. *)
Definition encode_packet (lb rb mb xo yo : bool) (dx dy : Z) : list Z :=
  [packet_flags lb rb mb xo yo (dx <? 0) (dy <? 0); u8 dx; u8 dy].

Lemma displacement_u8 d : -256 <= d < 256 -> displacement (d <? 0) (u8 d) = d.
Proof.
  intros Hd. unfold displacement, u8, wrap. change (2 ^ 8) with 256.
  destruct (Z.ltb_spec d 0).
  - replace d with ((d + 256) + (-1) * 256) at 1 by lia. rewrite Z.mod_add, Z.mod_small; lia.
  - rewrite Z.mod_small; lia.
Qed.

Lemma packet_flags_bits lb rb mb xo yo sx sy :
  let b := packet_flags lb rb mb xo yo sx sy in
  in_u8 b /\ Z.testbit b 0 = lb /\ Z.testbit b 1 = rb /\ Z.testbit b 2 = mb /\ Z.testbit b 3 = true /\
  Z.testbit b 4 = sx /\ Z.testbit b 5 = sy /\ Z.testbit b 6 = xo /\ Z.testbit b 7 = yo.
Proof. destruct lb, rb, mb, xo, yo, sx, sy; vm_compute; intuition congruence. Qed.

(** C18: round trip.  Decoding the bytes that encode a movement and a button state
    gives back that movement, those buttons and those overflow flags. *)
Theorem packet_roundtrip lb rb mb xo yo dx dy :
  -256 <= dx < 256 -> -256 <= dy < 256 ->
  let p := getMousePacket (encode_packet lb rb mb xo yo dx dy) in
  pp_lb p = lb /\ pp_rb p = rb /\ pp_mb p = mb /\ pp_delta_x p = dx /\ pp_delta_y p = dy /\
  pp_x_ov p = xo /\ pp_y_ov p = yo.
Proof.
  intros Hx Hy. unfold encode_packet.
  destruct (packet_flags_bits lb rb mb xo yo (dx <? 0) (dy <? 0)) as (Hu & H0 & H1 & H2 & _ & H4 & H5 & H6 & H7).
  cbv zeta. rewrite getMousePacket_correct by (first [apply Hu | apply u8_range]).
  cbn [pp_lb pp_rb pp_mb pp_delta_x pp_delta_y pp_x_ov pp_y_ov].
  rewrite H0, H1, H2, H4, H5, H6, H7, !displacement_u8 by done. done.
Qed.

Lemma packet_roundtrip_witness :
  pp_delta_x (getMousePacket (encode_packet true false false false false (-3) 200)) = -3.
Proof. exact (proj1 (proj2 (proj2 (proj2 (packet_roundtrip true false false false false (-3) 200
  ltac:(lia) ltac:(lia)))))). Defined.

Lemma getMousePacket_correct_witness :
  getMousePacket [0x19; 0xFD; 0x05] =
    Packet [0x19; 0xFD; 0x05] false false true (-3) 5 false false.
Proof. exact (getMousePacket_correct 0x19 0xFD 0x05 ltac:(unfold in_u8; lia) ltac:(unfold in_u8; lia)
  ltac:(unfold in_u8; lia)). Defined.

(** * The pointer *)

(** The pointer's image lies on the 1024 by 768 screen. *)
Definition pointer_ok (m : Mouse) : Prop :=
  0 <= width (mouse_img m) <= X_RES /\ 0 <= height (mouse_img m) <= Y_RES /\
  0 <= mouse_x m <= X_RES - width (mouse_img m) /\ 0 <= mouse_y m <= Y_RES - height (mouse_img m).

(** A packet whose displacements agree with the sign bits of its first byte, as
    [getMousePacket] makes them. *)
Definition packet_ok (p : packet) : Prop :=
  let b0 := nth 0 (pp_bytes p) 0 in
  (if ctrue (Z.land b0 X_SIGN) then -256 <= pp_delta_x p < 0 else 0 <= pp_delta_x p < 256) /\
  (if ctrue (Z.land b0 Y_SIGN) then -256 <= pp_delta_y p < 0 else 0 <= pp_delta_y p < 256).

Lemma getMousePacket_ok b0 b1 b2 : in_u8 b1 -> in_u8 b2 -> packet_ok (getMousePacket [b0; b1; b2]).
Proof.
  intros H1 H2. unfold packet_ok, getMousePacket. cbn [pp_bytes pp_delta_x pp_delta_y nth].
  rewrite !delta_displacement by done. unfold displacement, in_u8 in *. split; case_match; lia.
Qed.

Lemma move_mouse_pointer_ok p m : packet_ok p -> pointer_ok m -> pointer_ok (move_mouse p m).
Proof.
  unfold packet_ok, pointer_ok, move_mouse, X_RES, Y_RES. simpl. intros [Hx Hy] (? & ? & ? & ?).
  split; [done|]. split; [done|]. split.
  - destruct (ctrue (Z.land _ X_SIGN)); machsimp; ifcase; lia.
  - destruct (ctrue (Z.land _ Y_SIGN)); machsimp; ifcase; lia.
Qed.

Lemma pointer_move_clipped m b0 b1 b2 :
  in_u8 b1 -> in_u8 b2 -> pointer_ok m ->
  let p := getMousePacket [b0; b1; b2] in
  pointer_ok (move_mouse p m) /\
  mouse_x (move_mouse p m) = Z.max 0 (Z.min (X_RES - width (mouse_img m)) (mouse_x m + pp_delta_x p)) /\
  mouse_y (move_mouse p m) = Z.max 0 (Z.min (Y_RES - height (mouse_img m)) (mouse_y m - pp_delta_y p)) /\
  mouse_lb_pressed (move_mouse p m) = pp_lb p.
Proof.
  intros H1 H2 Hm p. pose proof (getMousePacket_ok b0 b1 b2 H1 H2) as Hp. fold p in Hp.
  split; [by apply move_mouse_pointer_ok|].
  unfold packet_ok, pointer_ok, X_RES, Y_RES in *. destruct Hp as [Hx Hy], Hm as (? & ? & ? & ?).
  unfold move_mouse, X_RES, Y_RES. cbn [mouse_x mouse_y mouse_lb_pressed]. repeat split.
  - destruct (ctrue (Z.land _ X_SIGN)); machsimp; ifcase; lia.
  - destruct (ctrue (Z.land _ Y_SIGN)); machsimp; ifcase; lia.
Qed.

(** C12: the pointer never leaves the screen: from a position on the screen, any
    three bytes received from the mouse move it to a position on the screen, by the
    displacement they encode clipped at the edges ([y] grows downwards). *)
Theorem pointer_stays_on_screen m b0 b1 b2 :
  in_u8 b1 -> in_u8 b2 -> pointer_ok m ->
  let p := getMousePacket [b0; b1; b2] in
  pointer_ok (move_mouse p m) /\
  mouse_x (move_mouse p m) = Z.max 0 (Z.min (X_RES - width (mouse_img m)) (mouse_x m + pp_delta_x p)) /\
  mouse_y (move_mouse p m) = Z.max 0 (Z.min (Y_RES - height (mouse_img m)) (mouse_y m - pp_delta_y p)) /\
  mouse_lb_pressed (move_mouse p m) = pp_lb p.
Proof. apply pointer_move_clipped. Qed.

Lemma pointer_stays_on_screen_witness :
  mouse_x (move_mouse (getMousePacket [0x18; 0x10; 0]) (MkMouse 50 700 (XpmImage XPM_INDEXED 25 34 850 []) false)) = 0.
Proof.
  refine (proj1 (proj2 (pointer_stays_on_screen (MkMouse 50 700 (XpmImage XPM_INDEXED 25 34 850 []) false)
    0x18 0x10 0 _ _ _))).
  - unfold in_u8. lia.
  - unfold in_u8. lia.
  - repeat split; vm_compute; congruence.
Defined.

(** The interrupt handler changes the driver's variables and the device only. *)
Lemma wp_mouse_ih {D} `{K : Kernel D} E Q J (s : state D) :
  (forall d st c e, c = mouse_scancode s \/ in_u8 c ->
     Q tt (s <| dev := d |> <| mouse_statuscode := st |> <| mouse_scancode := c |> <| ih_error := e |>)) ->
  wp E mouse_ih Q J s.
Proof.
  intros HQ. unfold mouse_ih. apply wp_bind, wp_util_sys_inb. intros d [st|] _.
  - apply wp_bind, wp_modify. get_set. wp_step.
    + apply wp_bind, wp_modify, wp_modify. apply HQ. right. unfold in_u8. lia.
    + apply wp_bind, wp_util_sys_inb. intros d' [b|] Hb.
      * apply wp_modify. specialize (HQ d' st b (ih_error s) (or_intror Hb)). by destruct s.
      * apply wp_ret. specialize (HQ d' st (mouse_scancode s) (ih_error s) (or_introl eq_refl)). by destruct s.
  - apply wp_modify. specialize (HQ d (mouse_statuscode s) (mouse_scancode s) 1 (or_introl eq_refl)). by destruct s.
Qed.
