(* ===== verification/MouseProtocol.v ===== *)
(** * The command protocol between the mouse driver and the controller

    The promise of the keyboard controller to the driver is the class
    [MouseController]: the phases of a command addressed to the mouse and the
    port operation that takes each phase to the next.  The driver's theorems are
    proved against the class; [sim_controller] implements it. *)

From S2P Require Import Prelude CMonad Heap Lcf Minix Macros ProjState Timer MouseDriver.
From stdpp Require Import options.

(** [Busy n]: the input buffer is full and stays so for [n] more status reads. *)
Inductive mc_phase :=
| Busy (n : nat)
| Idle
| Addressed
| Sent (cmd : Z)
| Acked (cmd : Z).

Class MouseController (D : Type) `{K : Kernel D} := {
  mc : D -> mc_phase;
  mc_status d : exists st d', sys_inb STAT_REG d = ((0, st), d') /\
    match mc d with
    | Busy n => Z.testbit st 1 = true /\ mc d' = match n with O => Idle | S n' => Busy n' end
    | ph => Z.testbit st 1 = false /\ mc d' = ph
    end;
  mc_address d : mc d = Idle -> exists d', sys_outb STAT_REG MOUSE_COMMAND d = (0, d') /\ mc d' = Addressed;
  mc_command d c : mc d = Addressed -> exists d', sys_outb ARGS_REG c d = (0, d') /\ mc d' = Sent c;
  mc_delay t d : mc (tickdelay t d) = mc d;
  mc_ack d c : mc d = Sent c -> exists d', sys_inb OUT_BUF d = ((0, ACK), d') /\ mc d' = Acked c;
  mc_indeterminate d : mc (snd (indeterminate d)) = mc d;
}.

Lemma u8_testbit z n : 0 <= n < 8 -> Z.testbit (u8 z) n = Z.testbit z n.
Proof. intros. unfold u8, wrap. apply Z.mod_pow2_bits_low. lia. Qed.

Section protocol.
Context {D : Type} `{MC : MouseController D}.

Lemma read_status_exec (s : state D) :
  exists st d, read_status s = Ok st (s <| dev := d |> <| mouse_statuscode := st |>) /\
    match mc (dev s) with
    | Busy n => ctrue (Z.land st IBF_BIT) = true /\ mc d = match n with O => Idle | S n' => Busy n' end
    | ph => ctrue (Z.land st IBF_BIT) = false /\ mc d = ph
    end.
Proof.
  destruct (mc_status (dev s)) as (st & d & He & Hph). exists (u8 st), d.
  unfold read_status, util_sys_inb, bind, sys. rewrite He. simpl. split; [done|].
  unfold IBF_BIT. rewrite ctrue_land_BIT, u8_testbit by lia. done.
Qed.

(** An iteration while the input buffer is full leaves [ack] as it was. *)
Lemma iteration_busy (s : state D) n cmd ack :
  mc (dev s) = Busy n ->
  exists s', send_mouse_iteration cmd ack s = Ok ack s' /\
    mc (dev s') = match n with O => Idle | S n' => Busy n' end.
Proof.
  intros Hb. destruct (read_status_exec s) as (st & d & He & Hph). rewrite Hb in Hph.
  destruct Hph as [Hst Hd]. eexists. unfold send_mouse_iteration, bind. rewrite He, Hst.
  split; [reflexivity|]. exact Hd.
Qed.

(** An iteration with an idle controller delivers the command and reads its acknowledgement. *)
Lemma iteration_idle (s : state D) cmd ack :
  mc (dev s) = Idle ->
  exists s', send_mouse_iteration cmd ack s = Ok ACK s' /\ mc (dev s') = Acked cmd.
Proof.
  intros Hi. destruct (read_status_exec s) as (st & d & He & Hph). rewrite Hi in Hph.
  destruct Hph as [Hst Hd]. destruct (mc_address d Hd) as (d1 & He1 & Hd1).
  destruct (read_status_exec (s <| dev := d |> <| mouse_statuscode := st |> <| dev := d1 |>)) as (st2 & d2 & He2 & Hph2).
  get_set. rewrite Hd1 in Hph2. destruct Hph2 as [Hst2 Hd2].
  destruct (mc_command d2 cmd Hd2) as (d3 & He3 & Hd3).
  set (t := micros_to_ticks 20000 d3).
  destruct (mc_ack (tickdelay t d3) cmd) as (d4 & He4 & Hd4); [by rewrite mc_delay|].
  exists (s <| dev := d4 |> <| mouse_statuscode := st2 |>). split; [|exact Hd4].
  unfold send_mouse_iteration, bind. rewrite He, Hst. unfold sys at 1. get_set. rewrite He1.
  change (ctrue 0) with false. cbv iota beta.
  rewrite He2, Hst2. unfold sys at 1. get_set. rewrite He3. change (ctrue 0) with false. cbv iota beta.
  unfold sys_, util_sys_inb, bind, sys. get_set. fold t. rewrite He4. reflexivity.
Qed.

Lemma send_loop_acked fuel cmd ack (s : state D) :
  match mc (dev s) with
  | Idle => (0 < fuel)%nat
  | Busy n => (S n < fuel)%nat /\ ack <> ACK
  | _ => False
  end ->
  exists s', send_mouse_loop fuel cmd ack s = Ok 0 s' /\ mc (dev s') = Acked cmd.
Proof.
  revert s. induction fuel as [|fuel IH]; intros s Hs.
  { destruct (mc (dev s)); lia. }
  destruct (mc (dev s)) as [n| | | |] eqn:Hph; try done.
  - destruct Hs as [Hf Ha]. destruct (iteration_busy s n cmd ack Hph) as (s1 & He & Hs1).
    destruct (IH s1) as (s2 & He2 & Hs2).
    { rewrite Hs1. destruct n; [lia|]. split; [lia|done]. }
    exists s2. split; [|done]. simpl. unfold bind. rewrite He.
    replace (ack =? ACK) with false by (symmetry; by apply Z.eqb_neq). done.
  - destruct (iteration_idle s cmd ack Hph) as (s1 & He & Hs1).
    exists s1. split; [|done]. simpl. unfold bind. by rewrite He.
Qed.

(** command delivery.  The indeterminate first value of [ack] is not the acknowledgement byte. *)
Lemma send_mouse_command_acked (s : state D) n fuel cmd :
  mc (dev s) = Busy n -> (S n < fuel)%nat -> u8 (fst (indeterminate (dev s))) <> ACK ->
  exists s', send_mouse_command fuel cmd s = Ok 0 s' /\ mc (dev s') = Acked cmd.
Proof.
  intros Hb Hf Hg. unfold send_mouse_command, call, bind, sys.
  destruct (indeterminate (dev s)) as [g d] eqn:Hi.
  assert (mc d = Busy n) as Hd by (rewrite <- Hb, <- (mc_indeterminate (dev s)), Hi; done).
  destruct (send_loop_acked fuel cmd (u8 g) (s <| dev := d |>)) as (s' & He & Hs').
  { get_set. rewrite Hd. done. }
  exists s'. by rewrite He.
Qed.

(** the first test of [ack] reads it before it was written.  If the input
    buffer is full on entry and the indeterminate byte happens to be the
    acknowledgement byte, [send_mouse_command] reports success although nothing was
    sent to the mouse. *)
Lemma send_mouse_command_unsent (s : state D) n fuel cmd :
  mc (dev s) = Busy n -> (0 < fuel)%nat -> u8 (fst (indeterminate (dev s))) = ACK ->
  exists s', send_mouse_command fuel cmd s = Ok 0 s' /\
    mc (dev s') = match n with O => Idle | S n' => Busy n' end.
Proof.
  intros Hb Hf Hg. unfold send_mouse_command, call, bind, sys.
  destruct (indeterminate (dev s)) as [g d] eqn:Hi.
  assert (mc d = Busy n) as Hd by (rewrite <- Hb, <- (mc_indeterminate (dev s)), Hi; done).
  destruct fuel as [|fuel]; [lia|].
  destruct (iteration_busy (s <| dev := d |>) n cmd (u8 g)) as (s' & He & Hs').
  { get_set. exact Hd. }
  exists s'. split; [|done]. simpl. unfold bind. rewrite He. simpl in Hg. by rewrite Hg.
Qed.

(** C24: command delivery.  Against a controller whose input buffer is full and empties after [n] more status
    reads, [send_mouse_command] always returns 0, within [n + 2] iterations.  When the indeterminate first value
    of [ack] is not the acknowledgement byte, the mouse has then acknowledged exactly this command; when it is,
    the call ends after the first status read and nothing has been sent. *)
Theorem send_mouse_command_outcome (s : state D) n fuel cmd :
  mc (dev s) = Busy n -> (S n < fuel)%nat ->
  exists s', send_mouse_command fuel cmd s = Ok 0 s' /\
    if decide (u8 (fst (indeterminate (dev s))) = ACK)
    then mc (dev s') = match n with O => Idle | S n' => Busy n' end
    else mc (dev s') = Acked cmd.
Proof.
  intros Hb Hf. destruct (decide _) as [Hg|Hg].
  - apply send_mouse_command_unsent; [done|lia|done].
  - by apply (send_mouse_command_acked s n).
Qed.

End protocol.

(** * A simulated controller *)
Record sim := Sim {
  sim_phase : mc_phase;
  sim_junk : Z;
}.

#[export] Instance sim_kernel : Kernel sim := device_kernel
  (fun port d =>
    if port =? STAT_REG then
      match sim_phase d with
      | Busy 0 => ((0, 2), Sim Idle (sim_junk d))
      | Busy (S n) => ((0, 2), Sim (Busy n) (sim_junk d))
      | _ => ((0, 0), d)
      end
    else match sim_phase d with
         | Sent c => ((0, ACK), Sim (Acked c) (sim_junk d))
         | _ => ((1, 0), d)
         end)
  (fun port v d =>
    match sim_phase d with
    | Idle => (0, Sim (if (port =? STAT_REG) && (v =? MOUSE_COMMAND) then Addressed else Idle) (sim_junk d))
    | Addressed => (0, Sim (Sent v) (sim_junk d))
    | _ => (1, d)
    end) silent sim_junk.

#[export] Instance sim_controller : MouseController sim.
Proof.
  refine {| mc := sim_phase |}.
  - intros [[[|n]| | | |] j]; simpl; eexists _, _; repeat split.
  - intros [[] j]; simpl; try done. intros _. eexists. split; done.
  - intros [[] j] c; simpl; try done. intros _. eexists. split; done.
  - done.
  - intros [[] j] c; simpl; try done. intros [= ->]. eexists. split; done.
  - done.
Defined.

(** With 0 in [ack] the command is delivered; with the acknowledgement byte in it, it is not. *)
Lemma send_mouse_command_outcome_witness :
  (exists s', send_mouse_command 5 ENABLE_MOUSE (init_state (Sim (Busy 2) 0)) = Ok 0 s' /\ mc (dev s') = Acked 0xF4) /\
  (exists s', send_mouse_command 5 ENABLE_MOUSE (init_state (Sim (Busy 2) 0xFA)) = Ok 0 s' /\ mc (dev s') = Busy 1).
Proof.
  split.
  - exact (send_mouse_command_outcome (MC := sim_controller) (init_state (Sim (Busy 2) 0)) 2 5 ENABLE_MOUSE eq_refl ltac:(lia)).
  - exact (send_mouse_command_outcome (MC := sim_controller) (init_state (Sim (Busy 2) 0xFA)) 2 5 ENABLE_MOUSE eq_refl ltac:(lia)).
Defined.
