(* ===== verification/Rtc.v ===== *)
(** * The real-time clock driver: proj/src/rtc.c *)

From S2P Require Import Prelude CMonad Heap Lcf Minix Macros ProjState Timer.
From stdpp Require Import options.

Section rtc.
Context {D : Type} `{K : Kernel D}.

Definition rtc_subscribe_int : M (state D) Z := call (
  h <- gets rtc_hook_id ;;
  assign_loc rtc_bit_no (u8 h) ;;
  '(rc, h') <- sys dev (sys_irqsetpolicy IRQ_RTC IRQ_REENABLE h) ;;
  assign rtc_hook_id h' ;;
  if ctrue rc then return_ 1 else ret 0).

Definition rtc_unsubscribe_int : M (state D) Z := call (
  h <- gets rtc_hook_id ;;
  rc <- sys dev (sys_irqrmpolicy h) ;;
  if ctrue rc then return_ 1 else ret 0).

(** [Some data]: returned 0; [None]: returned 1. *)
Definition rtc_read (reg : Z) : M (state D) (option Z) :=
  rc <- sys dev (sys_outb RTC_ADDR_REG reg) ;;
  if ctrue rc then ret None else
  util_sys_inb RTC_DATA_REG.

Definition rtc_write (data reg : Z) : M (state D) Z := call (
  rc <- sys dev (sys_outb RTC_ADDR_REG reg) ;;
  if ctrue rc then return_ 1 else
  rc <- sys dev (sys_outb RTC_DATA_REG data) ;;
  if ctrue rc then return_ 1 else
  ret 0).

Definition rtc_enable : M (state D) Z := call (
  d <- rtc_read REG_B ;;
  match d with
  | None => return_ 1
  | Some data =>
      let data := u8 (Z.lor data PIE) in
      rc <- rtc_write data REG_B ;;
      if ctrue rc then return_ 1 else ret 0
  end).

Definition rtc_disable : M (state D) Z := call (
  d <- rtc_read REG_B ;;
  match d with
  | None => return_ 1
  | Some data =>
      let data := u8 (Z.land data (Z.lnot PIE)) in
      rc <- rtc_write data REG_B ;;
      if ctrue rc then return_ 1 else ret 0
  end).

(** Both results are ignored; [regC] is indeterminate when the read fails. *)
Definition rtc_ih : M (state D) unit :=
  g <- sys dev indeterminate ;;
  sys dev (sys_outb RTC_ADDR_REG REG_C) ;;
  r <- util_sys_inb RTC_DATA_REG ;;
  let regC := match r with Some b => b | None => u8 g end in
  when (ctrue (Z.land regC PF))
    (modify (fun s => s <| speed := i32 (speed s + 2) |>
                        <| frames_per_state := i32 (frames_per_state s - 1) |>)).

End rtc.

(** What the driver relies on: a register file behind an address latch. *)
Class RtcChip (D : Type) `{K : Kernel D} := {
  chip_addr : D -> Z;
  chip_reg : D -> Z -> Z;
  chip_byte d r : in_u8 (chip_reg d r);
  chip_select d r : exists d', sys_outb RTC_ADDR_REG r d = (0, d') /\
    chip_addr d' = r /\ forall k, chip_reg d' k = chip_reg d k;
  chip_data_in d : exists d', sys_inb RTC_DATA_REG d = ((0, chip_reg d (chip_addr d)), d') /\
    forall k, chip_reg d' k = chip_reg d k;
  chip_data_out d v : in_u8 v -> exists d', sys_outb RTC_DATA_REG v d = (0, d') /\
    forall k, chip_reg d' k = if k =? chip_addr d then v else chip_reg d k;
}.

Section chip.
Context {D : Type} `{RC : RtcChip D}.

Lemma rtc_read_exec reg (s : state D) :
  exists d, rtc_read reg s = Ok (Some (chip_reg (dev s) reg)) (s <| dev := d |>) /\
    forall k, chip_reg d k = chip_reg (dev s) k.
Proof.
  destruct (chip_select (dev s) reg) as (d1 & He1 & Ha & Hr1).
  destruct (chip_data_in d1) as (d2 & He2 & Hr2). exists d2. split.
  - unfold rtc_read, util_sys_inb, bind, sys. rewrite He1. simpl. rewrite He2, Ha, Hr1. simpl.
    rewrite u8_id by apply chip_byte. done.
  - intros k. by rewrite Hr2, Hr1.
Qed.

Lemma rtc_write_exec v reg (s : state D) :
  in_u8 v ->
  exists d, rtc_write v reg s = Ok 0 (s <| dev := d |>) /\
    forall k, chip_reg d k = if k =? reg then v else chip_reg (dev s) k.
Proof.
  intros Hv. destruct (chip_select (dev s) reg) as (d1 & He1 & Ha & Hr1).
  destruct (chip_data_out d1 v Hv) as (d2 & He2 & Hr2). exists d2. split.
  - unfold rtc_write, call, bind, sys. rewrite He1. simpl. by rewrite He2.
  - intros k. by rewrite Hr2, Ha, Hr1.
Qed.

(** C27: [rtc_enable] sets the periodic-interrupt bit of the register it calls
    REG_B and changes no other bit and no other register; [rtc_disable] clears it. *)
Theorem rtc_enable_disable_correct (s : state D) :
  exists d1 d2,
    rtc_enable s = Ok 0 (s <| dev := d1 |>) /\
    (forall k, chip_reg d1 k = if k =? REG_B then Z.lor (chip_reg (dev s) k) PIE else chip_reg (dev s) k) /\
    rtc_disable (s <| dev := d1 |>) = Ok 0 (s <| dev := d2 |>) /\
    (forall k, chip_reg d2 k = if k =? REG_B then Z.ldiff (chip_reg (dev s) k) PIE else chip_reg (dev s) k).
Proof.
  assert (forall v, in_u8 v -> in_u8 (Z.lor v PIE)) as Hor.
  { intros v Hv. apply in_u8_lor; [done|]. unfold in_u8. by vm_compute. }
  set (v := chip_reg (dev s) REG_B). pose proof (chip_byte (dev s) REG_B) as Hv. fold v in Hv.
  destruct (rtc_read_exec REG_B s) as (da & Hea & Hra). fold v in Hea.
  destruct (rtc_write_exec (Z.lor v PIE) REG_B (s <| dev := da |>) (Hor v Hv)) as (d1 & Heb & Hrb).
  destruct (rtc_read_exec REG_B (s <| dev := d1 |>)) as (dc & Hec & Hrc). get_set.
  rewrite Hrb, Z.eqb_refl in Hec.
  assert (Z.land (Z.lor v PIE) (Z.lnot PIE) = Z.ldiff v PIE) as Hld.
  { rewrite <- Z.ldiff_land. apply Z.bits_inj'. intros n Hn. rewrite !Z.ldiff_spec, Z.lor_spec.
    by destruct (Z.testbit v n), (Z.testbit PIE n). }
  pose proof (in_u8_ldiff v PIE Hv) as Hld8.
  destruct (rtc_write_exec (Z.ldiff v PIE) REG_B (s <| dev := dc |>) Hld8) as (d2 & Hed & Hrd).
  exists d1, d2. repeat split.
  - unfold rtc_enable, call, bind. rewrite Hea. rewrite u8_id by apply Hor, Hv. by rewrite Heb.
  - intros k. rewrite Hrb. get_set. destruct (Z.eqb_spec k REG_B) as [->|]; [done|]. by rewrite Hra.
  - unfold rtc_disable, call, bind. rewrite Hec, Hld, u8_id by apply Hld8.
    change (s <| dev := d1 |> <| dev := dc |>) with (s <| dev := dc |>). by rewrite Hed.
  - intros k. rewrite Hrd. get_set. destruct (Z.eqb_spec k REG_B) as [->|Hne]; [done|].
    rewrite Hrc, Hrb. rewrite (proj2 (Z.eqb_neq k REG_B) Hne). apply Hra.
Qed.

End chip.

(** * A simulated chip *)
Record rtc_sim := RtcSim {
  sim_addr : Z;
  sim_regs : Z -> Z;
}.

#[export] Instance rtc_sim_kernel : Kernel rtc_sim := device_kernel
  (fun port d => ((0, u8 (sim_regs d (sim_addr d))), d))
  (fun port v d =>
    if port =? RTC_ADDR_REG then (0, RtcSim v (sim_regs d))
    else (0, RtcSim (sim_addr d) (fun k => if k =? sim_addr d then v else sim_regs d k))) silent (fun _ => 0).

#[export] Instance rtc_sim_chip : RtcChip rtc_sim.
Proof.
  refine {| chip_addr := sim_addr; chip_reg d k := u8 (sim_regs d k) |}.
  - intros d r. apply u8_range.
  - intros d r. by eexists.
  - intros d. eexists. split; [reflexivity|done].
  - intros d v Hv. eexists. split; [reflexivity|]. intros k. simpl.
    case_match; [by apply u8_id|done].
Defined.

Lemma rtc_enable_disable_correct_witness :
  exists d1 : rtc_sim, rtc_enable (init_state (RtcSim 0 (fun _ => 0x82))) = Ok 0 (init_state d1) /\ chip_reg d1 REG_B = 0xC2.
Proof.
  destruct (rtc_enable_disable_correct (RC := rtc_sim_chip) (init_state (RtcSim 0 (fun _ => 0x82))))
    as (d1 & d2 & He & Hr & _).
  exists d1. split; [exact He|exact (Hr REG_B)].
Defined.
