(* ===== verification/Ship.v ===== *)
(** * The player's ship: proj/src/ship.c *)

From S2P Require Import Prelude CMonad Heap Lcf Minix Macros ProjState Graphics.
From stdpp Require Import options.

Definition clamp (min max value : Z) : Z :=
  if value <? min then min else if max <? value then max else value.

(** The number of iterations of [while (div > 0) { div /= 10; count++; }]. *)
Fixpoint count_digits (fuel : nat) (div : Z) : nat :=
  match fuel with
  | O => O
  | S n => if 0 <? div then S (count_digits n (div ÷ 10)) else O
  end.

(** An [int] has at most 10 decimal digits. *)
Definition digit_count (score : Z) : nat := count_digits 10 score.

Section ship.
Context {D : Type} `{K : Kernel D}.

Definition createShip (x y speed : Z) : M (state D) ptr :=
  img <- sys dev (xpm_load ship_image XPM_INDEXED) ;;
  malloc ships {| ship_x := x; ship_y := y; ship_lives := NUMLIVES; ship_speed := speed;
                  ship_score := 0; ship_img := img |}.

Definition drawShip (p : ptr) : M (state D) unit :=
  sh <- load ships p ;;
  drawXpm (ship_x sh) (ship_y sh) (ship_img sh) ;;
  ret tt.

Definition updateShipPosition (p : ptr) (k : KeyActivity) : M (state D) ptr :=
  sh <- load ships p ;;
  let move xf :=
    store ships p (sh <| ship_x := clamp X_MIN (X_MAX - width (ship_img sh)) xf |>) ;; ret p in
  match k with
  | A_Pressed => move (i32 (ship_x sh - ship_speed sh))
  | A_Released => ret p
  | D_Pressed => move (i32 (ship_x sh + ship_speed sh))
  | D_Released => ret p
  | Invalid_key => ret p
  end.

Definition removeShip (p : ptr) : M (state D) unit := free ships p.

(** The image of a decimal digit. *)
Definition digit_xpm (i : images) (r : Z) : option xpm_image_t :=
  match r with
  | 0 => Some (zero_xpm i)
  | 1 => Some (one_xpm i)
  | 2 => Some (two_xpm i)
  | 3 => Some (three_xpm i)
  | 4 => Some (four_xpm i)
  | 5 => Some (five_xpm i)
  | 6 => Some (six_xpm i)
  | 7 => Some (seven_xpm i)
  | 8 => Some (eight_xpm i)
  | 9 => Some (nine_xpm i)
  | _ => None
  end.

(** The array [score[0 .. count-1]] filled from its end by the second loop:
    the remainders of the successive divisions of [div] by 10. *)
Fixpoint score_digits (count : nat) (div : Z) : list Z :=
  match count with
  | O => []
  | S n => score_digits n (div ÷ 10) ++ [Z.rem div 10]
  end.

(** Draws [score[i]] at [x + 24 * i]. *)
Fixpoint draw_digits (ds : list Z) (x : Z) : M (state D) unit :=
  match ds with
  | [] => ret tt
  | d :: ds' =>
      i <- gets imgs ;;
      match digit_xpm i d with
      | Some img => drawXpm x 735 img ;; draw_digits ds' (x + 24)
      | None => raise Indeterminate
      end
  end.

(** The array of images, which is freed at the end, is the list of the digits; the image of a digit does not
    change between its selection and its drawing. *)
Definition drawScore (p : ptr) : M (state D) unit :=
  sh <- load ships p ;;
  if ship_score sh =? 0 then
    i <- gets imgs ;;
    drawXpm 120 735 (zero_xpm i) ;; ret tt
  else
    draw_digits (score_digits (digit_count (ship_score sh)) (ship_score sh)) 120.

(** [live] is only assigned in the three cases. *)
Definition drawLives (p : ptr) : M (state D) unit :=
  sh <- load ships p ;;
  i <- gets imgs ;;
  match ship_lives sh with
  | 1 => drawXpm 1000 735 (one_xpm i) ;; ret tt
  | 2 => drawXpm 1000 735 (two_xpm i) ;; ret tt
  | 3 => drawXpm 1000 735 (three_xpm i) ;; ret tt
  | _ => raise Indeterminate
  end.

Definition increaseScore (scoreToAdd : Z) (p : ptr) : M (state D) unit :=
  sh <- load ships p ;;
  store ships p (sh <| ship_score := i32 (ship_score sh + scoreToAdd) |>).

Definition initNumbers : M (state D) unit :=
  z <- sys dev (xpm_load zero XPM_INDEXED) ;; assign_img zero_xpm z ;;
  z <- sys dev (xpm_load one XPM_INDEXED) ;; assign_img one_xpm z ;;
  z <- sys dev (xpm_load two XPM_INDEXED) ;; assign_img two_xpm z ;;
  z <- sys dev (xpm_load three XPM_INDEXED) ;; assign_img three_xpm z ;;
  z <- sys dev (xpm_load four XPM_INDEXED) ;; assign_img four_xpm z ;;
  z <- sys dev (xpm_load five XPM_INDEXED) ;; assign_img five_xpm z ;;
  z <- sys dev (xpm_load six XPM_INDEXED) ;; assign_img six_xpm z ;;
  z <- sys dev (xpm_load seven XPM_INDEXED) ;; assign_img seven_xpm z ;;
  z <- sys dev (xpm_load eight XPM_INDEXED) ;; assign_img eight_xpm z ;;
  z <- sys dev (xpm_load nine XPM_INDEXED) ;; assign_img nine_xpm z.

End ship.

(** * Movement *)

(** The ship's horizontal range. *)
Definition ship_in_range (sh : Ship) : Prop :=
  X_MIN <= ship_x sh <= X_MAX - width (ship_img sh).

(** The displacement a key asks for. *)
Definition key_step (k : KeyActivity) (sp : Z) : Z :=
  match k with A_Pressed => -sp | D_Pressed => sp | _ => 0 end.

Lemma clamp_range lo hi v : lo <= hi -> lo <= clamp lo hi v <= hi.
Proof. unfold clamp. intros. repeat ifcase; lia. Qed.

Lemma clamp_max_min lo hi v : lo <= hi -> clamp lo hi v = Z.max lo (Z.min hi v).
Proof. unfold clamp. intros. repeat ifcase; lia. Qed.

(** The position [updateShipPosition] gives the ship. *)
Definition moved_ship (k : KeyActivity) (sh : Ship) : Ship :=
  sh <| ship_x := Z.max X_MIN (Z.min (X_MAX - width (ship_img sh)) (ship_x sh + key_step k (ship_speed sh))) |>.

Lemma moved_ship_in_range k sh :
  X_MIN <= X_MAX - width (ship_img sh) -> ship_in_range (moved_ship k sh).
Proof. unfold ship_in_range, moved_ship. simpl. lia. Qed.

Section ship_facts.
Context {D : Type} `{K : Kernel D}.

(** C21: ship movement.  For a ship inside its range, with a speed that keeps the
    sum in the range of [int], every key moves the ship by the step of that key
    clipped to [X_MIN, X_MAX - width], changes no other member and no other object,
    and returns the same pointer. *)
Theorem updateShipPosition_correct (s : state D) l sh k :
  cells (ships s) !! l = Some sh -> ship_in_range sh -> 0 <= width (ship_img sh) ->
  Z.abs (ship_speed sh) < 2 ^ 30 ->
  exists s', updateShipPosition (Some l) k s = Ok (Some l) s' /\
    ship_in_range (moved_ship k sh) /\
    deref (ships s') (Some l) = Some (moved_ship k sh) /\
    s' = s <| ships := Heap (cells (ships s')) (brk (ships s)) |> /\
    (forall l', l' <> l -> cells (ships s') !! l' = cells (ships s) !! l').
Proof.
  intros Hl Hr Hw Hsp. unfold ship_in_range, X_MIN, X_MAX in Hr.
  assert (X_MIN <= X_MAX - width (ship_img sh)) as Hle by (unfold X_MIN, X_MAX; lia).
  assert (forall v, Z.abs v < 2 ^ 30 -> i32 (ship_x sh + v) = ship_x sh + v) as Hi.
  { intros v Hv. apply i32_id. unfold in_i32. lia. }
  set (s1 := s <| ships := heap_write l (moved_ship k sh) (ships s) |>).
  assert (deref (ships s1) (Some l) = Some (moved_ship k sh)) as Hd by apply deref_write.
  assert (forall l', l' <> l -> cells (ships s1) !! l' = cells (ships s) !! l') as Ho.
  { intros l' Hne. apply lookup_insert_ne. auto. }
  assert (moved_ship k sh = sh -> s1 = s) as Hsame.
  { intros Heq. unfold s1, heap_write. rewrite Heq, insert_id by done. by destruct s as [? ? ? ? ? ? ? ? ? ? ? ? ? ? []]. }
  assert (key_step k (ship_speed sh) = 0 -> moved_ship k sh = sh) as Hstay.
  { intros H0. unfold moved_ship. rewrite H0. unfold X_MIN, X_MAX. 
    rewrite Z.add_0_r, Z.min_r, Z.max_r by lia. by destruct sh. }
  exists s1. split; [|split; [by apply moved_ship_in_range|]; split; [done|]; split; [done|done]].
  unfold updateShipPosition, bind, load. rewrite Hl.
  destruct k; simpl; try (rewrite Hsame; [done|]; by apply Hstay).
  all: unfold store; rewrite Hl; unfold ret, s1, moved_ship; rewrite clamp_max_min by done.
  all: unfold key_step; rewrite <- ?Z.add_opp_r, Hi by lia; done.
Qed.

End ship_facts.

(** * The score display *)

Definition digits_value (ds : list Z) : Z := fold_left (fun v d => 10 * v + d) ds 0.

Definition digit (d : Z) : Prop := 0 <= d <= 9.

Lemma digits_value_snoc ds d : digits_value (ds ++ [d]) = 10 * digits_value ds + d.
Proof. unfold digits_value. by rewrite fold_left_app. Qed.

Lemma score_digits_value n z : 0 <= z -> digits_value (score_digits n z) = z mod 10 ^ Z.of_nat n.
Proof.
  revert z. induction n as [|n IH]; intros z Hz; [by rewrite Z.mod_1_r|].
  cbn [score_digits]. rewrite digits_value_snoc, Z.quot_div_nonneg, Z.rem_mod_nonneg by lia.
  rewrite IH by (apply Z.div_pos; lia).
  rewrite Nat2Z.inj_succ, Z.pow_succ_r by lia. rewrite (Z.rem_mul_r z 10) by lia. lia.
Qed.

Lemma score_digits_digit n z : 0 <= z -> Forall digit (score_digits n z).
Proof.
  revert z. induction n as [|n IH]; intros z Hz; [constructor|].
  cbn [score_digits]. rewrite Z.quot_div_nonneg, Z.rem_mod_nonneg by lia. apply Forall_app. split.
  - apply IH, Z.div_pos; lia.
  - repeat constructor; unfold digit; pose proof (Z.mod_pos_bound z 10); lia.
Qed.

Lemma length_score_digits n z : length (score_digits n z) = n.
Proof. revert z. induction n as [|n IH]; intros z; [done|]. cbn [score_digits]. rewrite length_app, IH. simpl. lia. Qed.

Lemma count_digits_bound fuel z :
  0 <= z < 10 ^ Z.of_nat fuel ->
  z < 10 ^ Z.of_nat (count_digits fuel z) /\ (0 < z -> 10 ^ Z.of_nat (count_digits fuel z) <= 10 * z).
Proof.
  revert z. induction fuel as [|n IH]; intros z Hz; [change (10 ^ Z.of_nat 0) with 1 in Hz; simpl; lia|].
  cbn [count_digits]. destruct (Z.ltb_spec 0 z); [|simpl; lia].
  rewrite Z.quot_div_nonneg, Nat2Z.inj_succ, Z.pow_succ_r in * by lia.
  assert (0 <= z / 10 < 10 ^ Z.of_nat n) as Hq by (Z.to_euclidean_division_equations; lia).
  destruct (IH _ Hq) as [IH1 IH2]. split.
  - Z.to_euclidean_division_equations; lia.
  - intros _. destruct (Z.eq_dec (z / 10) 0) as [Hq0|]; [|Z.to_euclidean_division_equations; lia].
    rewrite Hq0. replace (count_digits n 0) with 0%nat by (by destruct n). simpl. lia.
Qed.

Lemma digits_value_lt ds : Forall digit ds -> 0 <= digits_value ds < 10 ^ Z.of_nat (length ds).
Proof.
  induction ds as [|d ds IH] using rev_ind; intros Hd; [done|].
  apply Forall_app in Hd as [Hds Hd]. apply Forall_cons in Hd as [Hd _]. unfold digit in Hd.
  specialize (IH Hds). rewrite digits_value_snoc, length_app, Nat2Z.inj_add, Z.pow_add_r by lia.
  simpl. lia.
Qed.

Lemma drawScore_digits {D} (s : state D) p sh :
  deref (ships s) p = Some sh -> 0 <= ship_score sh < 2 ^ 31 ->
  exists ds, drawScore p s = draw_digits ds 120 s /\ digits_value ds = ship_score sh /\
    Forall digit ds /\ (1 <= length ds <= 10)%nat /\ ((1 < length ds)%nat -> hd 0 ds <> 0).
Proof.
  intros Hp Hz. set (z := ship_score sh) in *.
  assert (drawScore p s = if z =? 0 then draw_digits [0] 120 s
          else draw_digits (score_digits (digit_count z) z) 120 s) as He.
  { unfold drawScore, bind, load. destruct p as [l|]; [|done]. simpl in Hp. rewrite Hp. unfold z. by destruct (ship_score sh =? 0). }
  rewrite He. destruct (Z.eqb_spec z 0) as [H0|H0].
  { exists [0]. split; [done|]. split; [done|]. repeat split; simpl; try lia. by repeat constructor. }
  exists (score_digits (digit_count z) z). split; [done|].
  assert (0 <= z < 10 ^ Z.of_nat 10) as Hz10 by (change (10 ^ Z.of_nat 10) with 10000000000; lia).
  destruct (count_digits_bound 10 z Hz10) as [Hlt Hge]. fold (digit_count z) in Hlt, Hge.
  specialize (Hge ltac:(lia)). rewrite length_score_digits.
  assert (digit_count z <= 10)%nat as Hn.
  { assert (Z.of_nat (digit_count z) < 11); [|lia]. apply (Z.pow_lt_mono_r_iff 10); [lia|lia|].
    change (10 ^ 11) with 100000000000. lia. }
  destruct (digit_count z) as [|n] eqn:En; [simpl in Hlt; lia|].
  split; [rewrite score_digits_value, Z.mod_small by lia; done|].
  split; [apply score_digits_digit; lia|]. split; [lia|]. intros Hn1.
  rewrite Nat2Z.inj_succ, Z.pow_succ_r in Hge by lia.
  destruct (score_digits (S n) z) as [|d ds] eqn:Eds;
    pose proof (length_score_digits (S n) z) as Hlen; rewrite Eds in Hlen; [done|].
  injection Hlen as Hlen. simpl. intros ->.
  pose proof (score_digits_value (S n) z ltac:(lia)) as Hv. rewrite Eds in Hv.
  rewrite Z.mod_small in Hv by lia.
  pose proof (score_digits_digit (S n) z ltac:(lia)) as Hd. rewrite Eds in Hd.
  apply Forall_cons in Hd as [_ Hd]. pose proof (digits_value_lt ds Hd) as Hb. rewrite Hlen in Hb.
  change (digits_value (0 :: ds)) with (digits_value ds) in Hv. lia.
Qed.

(** A state whose only object is the ship [sh]. *)
Definition ship_state (sh : Ship) : state script :=
  (init_state (ports [])) <| ships := heap_alloc sh empty_heap |>.

Lemma updateShipPosition_correct_witness :
  ship_in_range (moved_ship A_Pressed (MkShip 35 630 15 no_image 3 0)) /\
  exists s', updateShipPosition (Some 0%nat) A_Pressed (ship_state (MkShip 35 630 15 no_image 3 0)) = Ok (Some 0%nat) s'.
Proof.
  destruct (updateShipPosition_correct (ship_state (MkShip 35 630 15 no_image 3 0))
    0 (MkShip 35 630 15 no_image 3 0) A_Pressed eq_refl
    ltac:(split; vm_compute; congruence) ltac:(vm_compute; congruence) ltac:(vm_compute; congruence))
    as (s' & He & Hr & _).
  split; [exact Hr|]. exists s'. exact He.
Defined.
