(* ===== verification/Aliens.v ===== *)
(** * The aliens: proj/src/alien.c

    Every [Alien *] of the program points into the array [aliens]: it is an index. *)

From S2P Require Import Prelude CMonad Heap Lcf Minix Macros ProjState Graphics.
From stdpp Require Import options.

Definition alien_get_x (a1 : Alien) : Z := alien_x a1.

Definition alien_get_y (a1 : Alien) : Z := alien_y a1.

Definition alien_get_width (a1 : Alien) : Z := alien_width a1.

Definition alien_get_height (a1 : Alien) : Z := alien_height a1.

Section alien.
Context {D : Type} `{K : Kernel D}.

Definition change_alien_x_coordinates (i : nat) (xf : Z) : M (state D) unit :=
  a1 <- alien_at i ;;
  set_alien i (a1 <| alien_x := i32 (alien_x a1 + xf) |>).

Definition change_alien_y_coordinates (i : nat) (yf : Z) : M (state D) unit :=
  a1 <- alien_at i ;;
  set_alien i (a1 <| alien_y := i32 (alien_y a1 + yf) |>).

Definition createAlien (xi yi : Z) (img img_mov : xpm_map) (value : Z) : M (state D) Alien :=
  alien_xpm_mov <- sys dev (xpm_load img_mov XPM_INDEXED) ;;
  alien_xpm <- sys dev (xpm_load img XPM_INDEXED) ;;
  ret {| alien_x := xi; alien_y := yi; alien_img := alien_xpm; alien_img_mov := alien_xpm_mov;
         alien_width := 60; alien_height := 40; alien_alive := true; alien_value := value |}.

Definition decrement_alien_x_coordinates (i : nat) : M (state D) unit :=
  a1 <- alien_at i ;;
  set_alien i (a1 <| alien_x := i32 (alien_x a1 - 1) |>).

Definition decrement_alien_y_coordinates (i : nat) : M (state D) unit :=
  a1 <- alien_at i ;;
  set_alien i (a1 <| alien_y := i32 (alien_y a1 - 1) |>).

Definition increment_alien_x_coordinates (i : nat) : M (state D) unit :=
  a1 <- alien_at i ;;
  set_alien i (a1 <| alien_x := i32 (alien_x a1 + 1) |>).

Definition change_all_y (yf : Z) (size_array : Z) : M (state D) unit :=
  for_each (seq 0 (Z.to_nat size_array)) (fun i => change_alien_y_coordinates i yf).

End alien.

Definition lower_alien (yf : Z) (a : Alien) : Alien := a <| alien_y := i32 (alien_y a + yf) |>.

Lemma wp_alien_at {D} E i a Q J (s : state D) :
  aliens s !! i = Some a -> Q a s -> wp E (alien_at i) Q J s.
Proof. unfold wp, alien_at. by intros ->. Qed.

Lemma wp_alien_at_lib {D} i Q J (s : state D) :
  (forall a, aliens s !! i = Some a -> Q a s) -> wp True (alien_at i) Q J s.
Proof. unfold wp, alien_at. destruct (aliens s !! i); auto. Qed.

Lemma wp_set_alien {D} E i a Q J (s : state D) :
  Q tt (s <| aliens := <[i := a]> (aliens s) |>) -> wp E (set_alien i a) Q J s.
Proof. done. Qed.

(** Lowering the whole fleet lowers every alien, dead or alive, by [yf]. *)
Lemma wp_change_all_y {D} E yf n Q J (s : state D) :
  n = Z.of_nat (length (aliens s)) ->
  Q tt (s <| aliens := lower_alien yf <$> aliens s |>) ->
  wp E (change_all_y yf n) Q J s.
Proof.
  intros -> HQ. unfold change_all_y. rewrite Nat2Z.id.
  apply (wp_for_seq E (fun k s' => exists l, s' = s <| aliens := l |> /\ length l = length (aliens s) /\
    forall i, l !! i = if decide (i < k)%nat then lower_alien yf <$> aliens s !! i else aliens s !! i)).
  - exists (aliens s). split; [by destruct s|]. split; [done|].
    intros i. by rewrite decide_False by lia.
  - intros k s' Hk (l & -> & Hlen & Hl).
    destruct (lookup_lt_is_Some_2 (aliens s) k Hk) as [a Ha].
    unfold change_alien_y_coordinates. apply wp_bind. eapply wp_alien_at.
    { get_set. rewrite Hl, decide_False by lia. exact Ha. }
    apply wp_set_alien. eexists. split; [reflexivity|]. get_set. rewrite length_insert. split; [done|].
    intros i. rewrite list_lookup_insert. destruct (decide (k = i /\ (k < length l)%nat)) as [[<- _]|Hne].
    + rewrite decide_True by lia. by rewrite Ha.
    + rewrite Hl. apply decide_ext. split; [lia|]. intros. assert (k <> i) by (intros ->; apply Hne; lia). lia.
  - intros s' (l & -> & Hlen & Hl). replace (lower_alien yf <$> aliens s) with l in HQ; [done|].
    apply list_eq. intros i. rewrite Hl, list_lookup_fmap. case_decide as Hi; [done|].
    by rewrite lookup_ge_None_2 by lia.
Qed.
