(* ===== verification/ShipBullets.v ===== *)
(** * The ship's bullets: proj/src/shipBullet.c

    [shipBullets] is an array of pointers; nothing prevents several slots from
    holding the same pointer, or a pointer to a freed bullet. *)

From S2P Require Import Prelude CMonad Heap Lcf Minix Macros ProjState Graphics Aliens Ship.
From stdpp Require Import options.

Section ship_bullet.
Context {D : Type} `{K : Kernel D}.

(** [shipBullets[i]] *)
Definition slot (i : nat) : M (state D) ptr := fun s =>
  match shipBullets s !! i with
  | Some p => Ok p s
  | None => Fault OutOfBounds
  end.

Definition loadShipBulletXpm : M (state D) xpm_image_t := sys dev (xpm_load ship_bullet XPM_INDEXED).

(** The condition [shipBullets[i] == NULL || shipBullets[i]->hitAlien]. *)
Definition slot_free (p : ptr) : M (state D) bool :=
  match p with
  | None => ret true
  | Some _ => b <- load bullets p ;; ret (sb_hitAlien b)
  end.

Definition createShipBullet (x y speed : Z) (img : xpm_image_t) : M (state D) unit :=
  shipBullet <- malloc bullets {| sb_x := x; sb_y := y; sb_speed := speed; sb_img := img; sb_hitAlien := false |} ;;
  for_each (seq 0 (Z.to_nat MAX_SHIP_BULLETS)) (fun i =>
    p <- slot i ;;
    fr <- slot_free p ;;
    when fr (modify (fun s => s <| shipBullets := <[i := shipBullet]> (shipBullets s) |>))).

(** The caller's copy of the pointer is not changed by [shipBullet = NULL]. *)
Definition removeShipBullet (p : ptr) : M (state D) unit := free bullets p.

(** The body of the loop of [updateShipBulletPosition]. *)
Definition advance_slot (i : nat) : M (state D) unit :=
  p <- slot i ;;
  match p with
  | None => ret tt
  | Some _ =>
      b <- load bullets p ;;
      when (negb (sb_hitAlien b))
        (if 0 <=? i32 (sb_y b - sb_speed b) then
           store bullets p (b <| sb_y := i32 (sb_y b - sb_speed b) |>)
         else removeShipBullet p)
  end.

Definition updateShipBulletPosition : M (state D) unit :=
  for_each (seq 0 (Z.to_nat MAX_SHIP_BULLETS)) advance_slot.

Definition drawShipBullets : M (state D) unit :=
  for_each (seq 0 (Z.to_nat MAX_SHIP_BULLETS)) (fun i =>
    p <- slot i ;;
    match p with
    | None => ret tt
    | Some _ =>
        b <- load bullets p ;;
        when (negb (sb_hitAlien b)) (drawXpm (sb_x b) (sb_y b) (sb_img b) ;; ret tt)
    end).

Definition initShipBullets : M (state D) unit :=
  for_each (seq 0 (Z.to_nat MAX_SHIP_BULLETS)) (fun i =>
    modify (fun s => s <| shipBullets := <[i := NULL]> (shipBullets s) |>)).

(** The bullet is inside the alien's box, the alien is alive and the bullet unspent. *)
Definition bullet_hits (a : Alien) (b : ShipBullet) : bool :=
  (alien_x a <? sb_x b) && ((sb_x b <? i32 (alien_x a + alien_width a)) && alien_alive a) &&
  (alien_y a <? sb_y b) && (sb_y b <? i32 (alien_y a + alien_height a)) && negb (sb_hitAlien b).

(** The body of the loop of [verifyAlienAndBulletCollision], for alien [i] and slot [j]. *)
Definition verify_slot (i : nat) (sh : ptr) (j : nat) : M (state D) unit :=
  p <- slot j ;;
  match p with
  | None => jump CContinue
  | Some _ =>
      b <- load bullets p ;;
      a1 <- alien_at i ;;
      if bullet_hits a1 b then
        set_alien i (a1 <| alien_alive := false |>) ;;
        modify (fun s => s <| killCount := i32 (killCount s + 1) |>) ;;
        increaseScore (alien_value a1) sh ;;
        b <- load bullets p ;;
        store bullets p (b <| sb_hitAlien := true |>) ;;
        removeShipBullet p ;;
        vreturn
      else ret tt
  end.

Definition verifyAlienAndBulletCollision (i : nat) (sh : ptr) : M (state D) unit :=
  vcall (for_each (seq 0 (Z.to_nat MAX_SHIP_BULLETS)) (verify_slot i sh)).

(** The bound of the loop is the number of aliens, not of bullets. *)
Definition removeAllShipBullets : M (state D) unit :=
  for_each (seq 0 (Z.to_nat SIZE_OF_ALIENS)) (fun i =>
    p <- slot i ;;
    removeShipBullet p).

End ship_bullet.
