(* ===== verification/ShipBulletFacts.v ===== *)
(** * Correctness of the ship's bullets

    What firing, moving and hitting do to the array of slots and to the heap of
    bullets, and what happens to a slot whose bullet was freed. *)

From S2P Require Import Prelude CMonad Heap Lcf Minix Macros ProjState Graphics Aliens Ship ShipBullets.
From stdpp Require Import options.

Abbreviation slots := (Z.to_nat MAX_SHIP_BULLETS).

(** A slot whose pointer can be read through. *)
Definition live_slot (h : heap ShipBullet) (p : ptr) : Prop := p = NULL \/ is_Some (deref h p).

(** The array has its declared length and no slot dangles. *)
Definition slots_ok {D} (s : state D) : Prop :=
  length (shipBullets s) = slots /\ Forall (live_slot (bullets s)) (shipBullets s).

Section rules.
Context {D : Type} `{K : Kernel D}.
Implicit Types s : state D.

Lemma wp_slot E i p Q J s : shipBullets s !! i = Some p -> Q p s -> wp E (slot i) Q J s.
Proof. unfold wp, slot. by intros ->. Qed.

Lemma wp_slot_lib i Q J s :
  (forall p, shipBullets s !! i = Some p -> Q p s) -> wp True (slot i) Q J s.
Proof. unfold wp, slot. destruct (shipBullets s !! i); auto. Qed.

Lemma slots_ok_lookup s i :
  slots_ok s -> (i < slots)%nat -> exists p, shipBullets s !! i = Some p /\ live_slot (bullets s) p.
Proof.
  intros [Hl Hf] Hi. destruct (lookup_lt_is_Some_2 (shipBullets s) i) as [p Hp]; [by rewrite Hl|].
  exists p. split; [done|]. by eapply Forall_lookup_1.
Qed.

(** ** No bullets *)

Definition quiet s : Prop := shipBullets s = replicate slots NULL.

(** ** Firing *)

(** What becomes of a slot when a bullet is fired. *)
Definition refill (h : heap ShipBullet) (new p : ptr) : ptr :=
  match deref h p with
  | Some b => if sb_hitAlien b then new else p
  | None => new
  end.

Lemma wp_slot_free E p Q J s :
  live_slot (bullets s) p ->
  Q (match deref (bullets s) p with Some b => sb_hitAlien b | None => true end) s ->
  wp E (slot_free p) Q J s.
Proof.
  intros [->|[b Hb]] HQ; [by apply wp_ret|].
  destruct p as [l|]; [|done]. unfold slot_free. apply wp_bind. eapply wp_load; [done|].
  apply wp_ret. by rewrite Hb in HQ.
Qed.

Lemma heap_alloc_live v (h : heap ShipBullet) p :
  heap_wf h -> live_slot h p ->
  live_slot (heap_alloc v h) p /\ (p <> NULL -> deref (heap_alloc v h) p = deref h p).
Proof.
  intros Hwf [->|[b Hb]]; [by split; [left|]|].
  pose proof (deref_alloc_other v b h p Hwf Hb) as He. split; [right; eauto|]. by rewrite He.
Qed.

Lemma createShipBullet_exec x y sp img s :
  heap_wf (bullets s) -> slots_ok s ->
  let new := Some (brk (bullets s)) in
  let b := MkShipBullet x y sp img false in
  createShipBullet x y sp img s =
    Ok tt (s <| bullets := heap_alloc b (bullets s) |>
             <| shipBullets := refill (bullets s) new <$> shipBullets s |>).
Proof.
  intros Hwf Hok new b. set (s1 := s <| bullets := heap_alloc b (bullets s) |>).
  set (f := refill (bullets s) new).
  assert (wp False (createShipBullet x y sp img)
    (fun _ s' => s' = s1 <| shipBullets := f <$> shipBullets s |>) nojump s) as Hwp.
  2:{ destruct (wp_exec _ _ _ Hwp) as ([] & s' & He & ->). exact He. }
  unfold createShipBullet. apply wp_bind, wp_malloc. fold new b s1.
  apply (wp_for_seq False (fun k s' =>
    s' = s1 <| shipBullets := (f <$> take k (shipBullets s)) ++ drop k (shipBullets s) |>)).
  - by destruct s.
  - intros k s' Hk ->. destruct (slots_ok_lookup s k Hok Hk) as (p & Hp & Hlive).
    destruct (heap_alloc_live b (bullets s) p Hwf Hlive) as [Hlive' Hsame].
    assert (length (f <$> take k (shipBullets s)) = k) as Hlen.
    { apply lookup_lt_Some in Hp. rewrite length_fmap, length_take. lia. }
    rewrite (drop_S (shipBullets s) p k Hp). apply wp_bind. eapply wp_slot.
    { get_set. apply list_lookup_middle. by rewrite Hlen. }
    apply wp_bind, wp_slot_free; [done|]. rewrite (take_S_r (shipBullets s) k p Hp).
    rewrite fmap_app, <- app_assoc. simpl.
    assert (match deref (heap_alloc b (bullets s)) p with Some b0 => sb_hitAlien b0 | None => true end
      = match deref (bullets s) p with Some b0 => sb_hitAlien b0 | None => true end) as ->.
    { destruct p as [l|]; [|done]. by rewrite Hsame. }
    assert (f p = if match deref (bullets s) p with Some b0 => sb_hitAlien b0 | None => true end then new else p) as ->.
    { unfold f, refill. destruct (deref (bullets s) p) eqn:E; [done|]. done. }
    wps; [|done]. get_set. rewrite insert_app_r_alt by lia. by rewrite Hlen, Nat.sub_diag.
  - intros s' ->. destruct Hok as [Hl _]. rewrite take_ge, drop_ge, app_nil_r by (rewrite Hl; done). done.
Qed.

(** firing.  With no dangling slot, [createShipBullet] allocates one bullet and
    stores its address in every slot that is [NULL] or holds a spent bullet; the
    other slots and all the other bullets are unchanged.  All the free slots
    designate the same bullet afterwards. *)
Theorem createShipBullet_correct x y sp img s :
  heap_wf (bullets s) -> slots_ok s ->
  let new := Some (brk (bullets s)) in
  let b := MkShipBullet x y sp img false in
  createShipBullet x y sp img s =
    Ok tt (s <| bullets := heap_alloc b (bullets s) |>
             <| shipBullets := refill (bullets s) new <$> shipBullets s |>).
Proof. apply createShipBullet_exec. Qed.

(** ** Moving *)

(** The number of slots that hold the address [l]. *)
Definition aliases (l : nat) (ps : list ptr) : nat := length (filter (fun p : ptr => p = Some l) ps).

Lemma aliases_snoc l ps p : aliases l (ps ++ [p]) = (aliases l ps + if decide (p = Some l) then 1 else 0)%nat.
Proof. unfold aliases. rewrite filter_app, length_app, filter_cons, filter_nil. by case_decide.
Qed.

Lemma aliases_replicate l n : aliases l (replicate n (Some l)) = n.
Proof. unfold aliases. induction n as [|n IH]; [done|]. cbn [replicate]. rewrite filter_cons_True by done. cbn [length]. by rewrite IH. Qed.

Lemma aliases_take l ps k : (aliases l (take k ps) <= aliases l ps)%nat.
Proof.
  rewrite <- (take_drop k ps) at 2. unfold aliases. rewrite filter_app, length_app. lia.
Qed.

(** A bullet after [n] steps up. *)
Definition climbed (n : nat) (b : ShipBullet) : ShipBullet :=
  b <| sb_y := sb_y b - Z.of_nat n * sb_speed b |>.

Lemma climbed_0 b : climbed 0 b = b.
Proof. unfold climbed, set_field, set_sb_y. destruct b. simpl. f_equal. lia. Qed.

(** The state with other contents of the heap of bullets. *)
Definition with_bullets (c : gmap nat ShipBullet) s : state D :=
  s <| bullets := Heap c (brk (bullets s)) |>.

(** A bullet in flight that stays on the screen when it climbs [n] steps. *)
Definition can_climb (n : nat) (b : ShipBullet) : Prop :=
  sb_hitAlien b = false /\ 0 <= sb_speed b /\ Z.of_nat n * sb_speed b <= sb_y b < 2 ^ 31.

(** One slot of the loop. *)
Lemma wp_advance_slot E i l b n (Q : unit -> state D -> Prop) J c s :
  shipBullets s !! i = Some (Some l) -> c !! l = Some (climbed n b) -> can_climb (S n) b ->
  Q tt (with_bullets (<[l := climbed (S n) b]> c) s) ->
  wp E (advance_slot i) Q J (with_bullets c s).
Proof.
  intros Hi Hc (Hh & Hs & Hy) HQ. apply wp_bind. eapply wp_slot; [exact Hi|].
  apply wp_bind. eapply wp_load; [exact Hc|]. unfold when.
  change (sb_hitAlien (climbed n b)) with (sb_hitAlien b). rewrite Hh. cbn [negb].
  change (sb_speed (climbed n b)) with (sb_speed b).
  change (sb_y (climbed n b)) with (sb_y b - Z.of_nat n * sb_speed b).
  assert (sb_y b - Z.of_nat n * sb_speed b - sb_speed b = sb_y b - Z.of_nat (S n) * sb_speed b) as -> by lia.
  rewrite i32_id by (unfold in_i32; nia).
  rewrite (proj2 (Z.leb_le 0 _)) by lia. eapply wp_store; [exact Hc|]. exact HQ.
Qed.

Lemma updateShipBullet_exec s :
  length (shipBullets s) = slots ->
  (forall l, Some l ∈ shipBullets s ->
     exists b, cells (bullets s) !! l = Some b /\ can_climb (aliases l (shipBullets s)) b) ->
  exists c, updateShipBulletPosition s = Ok tt (with_bullets c s) /\
    forall l, c !! l = climbed (aliases l (shipBullets s)) <$> cells (bullets s) !! l.
Proof.
  intros Hlen Hb. set (ps := shipBullets s) in *.
  assert (wp False updateShipBulletPosition (fun _ s' => exists c, s' = with_bullets c s /\
    forall l, c !! l = climbed (aliases l ps) <$> cells (bullets s) !! l) nojump s) as Hwp.
  2:{ destruct (wp_exec _ _ _ Hwp) as ([] & s' & He & c & -> & Hc). by exists c. }
  apply (wp_for_seq False (fun k s' => exists c, s' = with_bullets c s /\
    forall l, c !! l = climbed (aliases l (take k ps)) <$> cells (bullets s) !! l)).
  - exists (cells (bullets s)). split; [by destruct s as [? ? ? ? ? ? ? ? ? ? ? ? ? ? ? ? []]|].
    intros l. destruct (cells (bullets s) !! l); simpl; [|done]. by rewrite climbed_0.
  - intros k s' Hk (c & -> & Hc). destruct (lookup_lt_is_Some_2 ps k) as [p Hp]; [lia|].
    rewrite (take_S_r ps k p Hp). destruct p as [l|].
    + destruct (Hb l) as (b & Hl & Hcl); [by apply list_elem_of_lookup_2 with k|].
      assert (aliases l (take k ps) < aliases l ps)%nat as Hlt.
      { apply Nat.lt_le_trans with (aliases l (take (S k) ps)); [|apply aliases_take].
        rewrite (take_S_r ps k (Some l) Hp), aliases_snoc, decide_True by done. lia. }
      eapply (wp_advance_slot _ k l b (aliases l (take k ps))); [exact Hp|by rewrite Hc, Hl| |].
      { destruct Hcl as (? & ? & ?). repeat split; [done|done|nia|lia]. }
      eexists. split; [reflexivity|]. intros l'. rewrite aliases_snoc, lookup_insert.
      case_decide as Hd; [subst l'; rewrite decide_True, Hl by done; simpl; do 2 f_equal; lia|].
      rewrite Hc, decide_False by congruence. by rewrite Nat.add_0_r.
    + apply wp_bind. eapply wp_slot; [exact Hp|]. apply wp_ret. exists c. split; [done|].
      intros l. rewrite Hc, aliases_snoc, decide_False by done. by rewrite Nat.add_0_r.
  - intros s' (c & -> & Hc). exists c. split; [done|]. by rewrite take_ge in Hc by lia.
Qed.

(** C28: movement.  When every bullet in the slots is in flight and far enough from
    the top, [updateShipBulletPosition] moves each bullet up by its speed once for
    every slot that holds its address, and changes nothing else. *)
Theorem updateShipBulletPosition_correct s :
  length (shipBullets s) = slots ->
  (forall l, Some l ∈ shipBullets s ->
     exists b, cells (bullets s) !! l = Some b /\ can_climb (aliases l (shipBullets s)) b) ->
  exists c, updateShipBulletPosition s = Ok tt (with_bullets c s) /\
    forall l, c !! l = climbed (aliases l (shipBullets s)) <$> cells (bullets s) !! l.
Proof. apply updateShipBullet_exec. Qed.

(** ** Freed bullets *)

(** Some slot holds the address of a freed bullet. *)
Definition dangles s : Prop :=
  exists i l, shipBullets s !! i = Some (Some l) /\ (i < slots)%nat /\ cells (bullets s) !! l = None.

(** A loop that reads the bullet of every slot cannot get past a dangling one. *)
Lemma dangling_loop i l (body : nat -> M (state D) unit) (Q : unit -> state D -> Prop) (J : ctl -> state D -> Prop) s :
  let I s' := shipBullets s' !! i = Some (Some l) /\ cells (bullets s') !! l = None in
  (forall j s', I s' -> wp True (body j) (fun _ s'' => I s'')
     (fun c s'' => match c with CContinue => I s'' | CBreak => Q tt s'' | CReturn _ => J c s'' end) s') ->
  (forall s', I s' -> wp True (body i) (fun _ _ => False)
     (fun c s'' => match c with CContinue => False | CBreak => Q tt s'' | CReturn _ => J c s'' end) s') ->
  (i < slots)%nat -> I s -> wp True (for_each (seq 0 slots) body) Q J s.
Proof.
  intros I Hpres Hfault Hi HI.
  apply (wp_for_seq True (fun k s' => I s' /\ (k <= i)%nat)); [split; [done|lia]| |].
  - intros k s' Hk [HI' Hki]. destruct (decide (k = i)) as [->|Hne].
    + eapply wp_mono; [done| | |by apply Hfault]; [by intros|]. by intros [].
    + eapply wp_mono; [done| | |by apply Hpres]; [intros ? ? ?; split; [done|lia]|].
      intros [] ? ?; try done. split; [done|lia].
  - intros s' [_ ?]. lia.
Qed.

Lemma store_keeps_freed (l : nat) p v s Q J :
  cells (bullets s) !! l = None ->
  (forall h, cells h !! l = None -> Q tt (s <| bullets := h |>)) -> wp True (store bullets p v) Q J s.
Proof.
  intros Hl HQ. apply wp_store_lib. intros l' v' -> Hl'. apply HQ. simpl.
  rewrite lookup_insert_ne; [done|]. intros ->. by rewrite Hl in Hl'.
Qed.

Lemma free_keeps_freed (l : nat) p s Q J :
  cells (bullets s) !! l = None ->
  (forall h, cells h !! l = None -> Q tt (s <| bullets := h |>)) -> wp True (free bullets p) Q J s.
Proof.
  intros Hl HQ. apply wp_free_lib.
  - specialize (HQ (bullets s) Hl). by destruct s.
  - intros l' ->. apply HQ. simpl. rewrite lookup_delete. by case_decide.
Qed.

Lemma wp_advance_freed j l (I : list ptr -> Prop) s J :
  cells (bullets s) !! l = None -> I (shipBullets s) ->
  wp True (advance_slot j) (fun _ s' => I (shipBullets s') /\ cells (bullets s') !! l = None) J s.
Proof.
  intros Hl HI. apply wp_bind, wp_slot_lib. intros [l'|] Hp; [|by apply wp_ret].
  apply wp_bind, wp_load_lib. intros b Hb. wps; [| |done].
  - apply (store_keeps_freed l); [done|]. intros h Hh. by get_set.
  - apply (free_keeps_freed l); [done|]. intros h Hh. by get_set.
Qed.

Lemma advance_dangling s : dangles s -> exists f, updateShipBulletPosition s = Fault f.
Proof.
  intros (i & l & Hi & Hlt & Hl).
  assert (wp True updateShipBulletPosition (fun _ _ => False) nojump s) as Hwp.
  { apply (dangling_loop i l); [| |done|done].
    - intros j s' [Hi' Hl']. by apply (wp_advance_freed j l (fun ps => ps !! i = Some (Some l))).
    - intros s' [Hi' Hl']. unfold advance_slot. apply wp_bind. eapply wp_slot; [done|].
      apply wp_bind, wp_load_lib. intros v Hv. by rewrite (Hl' : deref _ (Some l) = None) in Hv. }
  unfold wp in Hwp. destruct (updateShipBulletPosition s); by eauto.
Qed.

(** ** Hits *)

(** The bullet a slot designates hits the alien. *)
Definition hits_via (h : heap ShipBullet) (a : Alien) (p : ptr) : bool :=
  match deref h p with
  | Some b => bullet_hits a b
  | None => false
  end.

(** The state after bullet [l] has hit alien [i] for ship [sl]. *)
Definition killed (i : nat) (a : Alien) (l sl : nat) (sh : Ship) s : state D :=
  with_bullets (delete l (cells (bullets s)))
    (s <| aliens := <[i := a <| alien_alive := false |>]> (aliens s) |>
       <| killCount := i32 (killCount s + 1) |>
       <| ships := heap_write sl (sh <| ship_score := i32 (ship_score sh + alien_value a) |>) (ships s) |>).

Lemma wp_verify_hit E i a j l b sl sh Q J s :
  shipBullets s !! j = Some (Some l) -> cells (bullets s) !! l = Some b -> bullet_hits a b = true ->
  aliens s !! i = Some a -> cells (ships s) !! sl = Some sh ->
  J (CReturn 0) (killed i a l sl sh s) -> wp E (verify_slot i (Some sl) j) Q J s.
Proof.
  intros Hj Hl Hh Ha Hs HJ. apply wp_bind. eapply wp_slot; [done|]. apply wp_bind. eapply wp_load; [exact Hl|].
  apply wp_bind. eapply wp_alien_at; [done|]. rewrite Hh. apply wp_bind, wp_set_alien, wp_bind, wp_modify.
  apply wp_bind. unfold increaseScore. apply wp_bind. eapply wp_load; [exact Hs|].
  eapply wp_store; [exact Hs|]. apply wp_bind. eapply wp_load; [exact Hl|].
  apply wp_bind. eapply wp_store; [exact Hl|]. apply wp_bind. eapply wp_free; [apply lookup_insert_eq|].
  apply wp_jump. unfold killed, with_bullets in HJ. revert HJ. get_set. unfold heap_free, heap_write. simpl.
  rewrite delete_insert_eq. done.
Qed.

Lemma verify_spec s i a sl sh :
  slots_ok s -> aliens s !! i = Some a -> cells (ships s) !! sl = Some sh ->
  match list_find (fun p => hits_via (bullets s) a p = true) (shipBullets s) with
  | None => verifyAlienAndBulletCollision i (Some sl) s = Ok tt s
  | Some (_, p) => exists l, p = Some l /\
      verifyAlienAndBulletCollision i (Some sl) s = Ok tt (killed i a l sl sh s)
  end.
Proof.
  intros Hok Ha Hs.
  assert (forall Q : state D -> Prop,
    (Forall (fun p => hits_via (bullets s) a p <> true) (shipBullets s) -> Q s) ->
    (forall j l, list_find (fun p => hits_via (bullets s) a p = true) (shipBullets s) = Some (j, Some l) ->
       Q (killed i a l sl sh s)) ->
    wp False (verifyAlienAndBulletCollision i (Some sl)) (fun _ s' => Q s') nojump s) as Hwp.
  { intros Q HQ1 HQ2. apply wp_vcall.
    apply (wp_for_seq False (fun k s' => s' = s /\
      forall j p, (j < k)%nat -> shipBullets s !! j = Some p -> hits_via (bullets s) a p <> true)).
    - split; [done|]. intros j p Hj. lia.
    - intros k s' Hk [-> Hno]. destruct (slots_ok_lookup s k Hok Hk) as (p & Hp & [->|[b Hb]]).
      + apply wp_bind. eapply wp_slot; [done|]. apply wp_jump. split; [done|].
        intros j q Hj Hq. destruct (decide (j = k)) as [->|]; [|apply (Hno j); [lia|done]].
        by rewrite Hp in Hq; injection Hq as <-.
      + destruct p as [l|]; [|done]. destruct (bullet_hits a b) eqn:Hh.
        * eapply wp_verify_hit; [done|done|done|done|done|]. apply (HQ2 k l), list_find_Some.
          split; [done|]. split; [unfold hits_via; by rewrite Hb|]. intros j q Hq Hj. by apply (Hno j).
        * apply wp_bind. eapply wp_slot; [done|]. apply wp_bind. eapply wp_load; [done|].
          apply wp_bind. eapply wp_alien_at; [done|]. rewrite Hh. apply wp_ret. split; [done|].
          intros j q Hj Hq. destruct (decide (j = k)) as [->|]; [|apply (Hno j); [lia|done]].
          assert (q = Some l) as -> by congruence. unfold hits_via. rewrite Hb. congruence.
    - intros s' [-> Hno]. apply HQ1, Forall_lookup_2. intros j p Hp. apply (Hno j); [|done].
      destruct Hok as [<- _]. by eapply lookup_lt_Some. }
  destruct (list_find _ (shipBullets s)) as [[j p]|] eqn:Hf.
  - pose proof (proj1 (list_find_Some _ _ _ _) Hf) as (Hj & Hh & _).
    destruct p as [l|]; [|done]. exists l. split; [done|].
    destruct (wp_exec _ _ _ (Hwp (fun s' => s' = killed i a l sl sh s) ltac:(
      intros Hn; destruct (proj1 (Forall_lookup _ _) Hn j (Some l) Hj Hh)) ltac:(intros ? ? [= -> ->]; done)))
      as ([] & s' & He & ->). exact He.
  - destruct (wp_exec _ _ _ (Hwp (fun s' => s' = s) ltac:(done) ltac:(done))) as ([] & s' & He & ->). exact He.
Qed.

(** No bullet in the slots is inside the box of the alien. *)
Definition missed (h : heap ShipBullet) (ps : list ptr) (a : Alien) : Prop :=
  Forall (fun p => hits_via h a p <> true) ps.

Lemma wp_verify_missed E i a sl sh Q J s :
  slots_ok s -> aliens s !! i = Some a -> cells (ships s) !! sl = Some sh -> missed (bullets s) (shipBullets s) a ->
  Q tt s -> wp E (verifyAlienAndBulletCollision i (Some sl)) Q J s.
Proof.
  intros Hok Ha Hs Hm HQ. pose proof (verify_spec s i a sl sh Hok Ha Hs) as Hv.
  rewrite (proj2 (list_find_None _ _) Hm) in Hv. by eapply wp_of_exec.
Qed.

(** C10: hits.  With no dangling slot, [verifyAlienAndBulletCollision] leaves the state
    as it is when no bullet is inside the alien's box; otherwise the bullet of the
    first slot that hits kills the alien, the kill count grows by one, the ship's
    score by the alien's value, and the bullet is freed: no other alien, ship or
    bullet changes, and the slots keep their addresses. *)
Theorem verifyAlienAndBulletCollision_correct s i a sl sh :
  slots_ok s -> aliens s !! i = Some a -> cells (ships s) !! sl = Some sh ->
  match list_find (fun p => hits_via (bullets s) a p = true) (shipBullets s) with
  | None => verifyAlienAndBulletCollision i (Some sl) s = Ok tt s
  | Some (_, p) => exists l, p = Some l /\
      verifyAlienAndBulletCollision i (Some sl) s = Ok tt (killed i a l sl sh s)
  end.
Proof. apply verify_spec. Qed.

(** a hit is followed by undefined behaviour: the slot of the bullet that was
    freed still holds its address, so the next update of the bullets faults. *)
Theorem hit_then_update_faults s i a sl sh :
  slots_ok s -> aliens s !! i = Some a -> cells (ships s) !! sl = Some sh ->
  Exists (fun p => hits_via (bullets s) a p = true) (shipBullets s) ->
  exists f, (verifyAlienAndBulletCollision i (Some sl) ;; updateShipBulletPosition) s = Fault f.
Proof.
  intros Hok Ha Hs Hex. pose proof (verify_spec s i a sl sh Hok Ha Hs) as Hv.
  destruct (list_find _ (shipBullets s)) as [[j p]|] eqn:Hf.
  - destruct Hv as (l & -> & He). unfold bind. rewrite He. apply advance_dangling.
    apply list_find_Some in Hf as (Hj & _). exists j, l. split; [done|]. split.
    + destruct Hok as [<- _]. by eapply lookup_lt_Some.
    + apply lookup_delete_eq.
  - apply list_find_None in Hf. apply Exists_exists in Hex as (p & Hin & Hp).
    by rewrite Forall_forall in Hf; destruct (Hf p Hin).
Qed.

(** [removeAllShipBullets] reads past the end of the array of bullets, whatever
    the bullets: its loop runs to the number of aliens. *)
Theorem removeAllShipBullets_faults s :
  length (shipBullets s) = slots -> exists f, removeAllShipBullets s = Fault f.
Proof.
  intros Hlen. assert (wp True removeAllShipBullets (fun _ _ => False) nojump s) as Hwp.
  { apply (wp_for_seq True (fun k s' => length (shipBullets s') = slots /\ (k <= slots)%nat)).
    - split; [done|lia].
    - intros k s' Hk [Hl Hks]. apply wp_bind, wp_slot_lib. intros p Hp.
      apply lookup_lt_Some in Hp. apply wp_free_lib; [split; [done|lia]|].
      intros l _. get_set. split; [done|lia].
    - intros s' [_ Hle]. vm_compute in Hle. lia. }
  unfold wp in Hwp. destruct (removeAllShipBullets s); by eauto.
Qed.

End rules.

(** * Examples *)

Definition demo_bullet : ShipBullet := MkShipBullet 50 630 4 no_image false.

(** A ship at address 0, two aliens, no bullets. *)
Definition battle : state script :=
  (init_state (ports []))
    <| ships := heap_alloc (MkShip 512 630 15 no_image 3 0) empty_heap |>
    <| aliens := [MkAlien 40 40 60 40 no_image no_image true 10; MkAlien 400 40 60 40 no_image no_image true 20] |>.

(** The same with one bullet at height [y] in every slot. *)
Definition battle_with (y : Z) : state script :=
  battle <| bullets := heap_alloc (demo_bullet <| sb_y := y |>) empty_heap |>
         <| shipBullets := replicate 7 (Some 0%nat) |>.

Lemma battle_with_ok y : slots_ok (battle_with y).
Proof. split; [done|]. apply Forall_replicate. right. by eexists. Qed.

Lemma battle_aliases : aliases 0 (shipBullets (battle_with 630)) = 7%nat.
Proof. reflexivity. Qed.

Lemma createShipBullet_correct_witness :
  exists s', createShipBullet 50 630 4 no_image battle = Ok tt s' /\ shipBullets s' = replicate 7 (Some 0%nat).
Proof.
  eexists. split.
  - apply (createShipBullet_correct 50 630 4 no_image battle).
    + intros l [b Hb]. by rewrite (lookup_empty l : cells (bullets battle) !! l = None) in Hb.
    + split; [done|]. apply Forall_replicate. by left.
  - reflexivity.
Defined.

Lemma updateShipBulletPosition_correct_witness :
  exists c, updateShipBulletPosition (battle_with 630) = Ok tt (with_bullets c (battle_with 630)) /\
    c !! 0%nat = Some (demo_bullet <| sb_y := 602 |>).
Proof.
  destruct (updateShipBulletPosition_correct (battle_with 630) eq_refl) as (c & He & Hc).
  - intros l Hl. apply elem_of_replicate in Hl as [[= ->] _]. eexists. split; [reflexivity|].
    rewrite battle_aliases. repeat split; vm_compute; congruence.
  - exists c. split; [exact He|]. rewrite Hc. reflexivity.
Defined.

Lemma verifyAlienAndBulletCollision_correct_witness :
  exists s', verifyAlienAndBulletCollision 0 (Some 0%nat) (battle_with 60) = Ok tt s' /\ killCount s' = 1.
Proof.
  destruct (verifyAlienAndBulletCollision_correct (battle_with 60) 0
    (MkAlien 40 40 60 40 no_image no_image true 10) 0 (MkShip 512 630 15 no_image 3 0)
    (battle_with_ok 60) eq_refl eq_refl) as (l & _ & He).
  eexists. split; [exact He|reflexivity].
Defined.

Lemma hit_then_update_faults_witness :
  exists f, (verifyAlienAndBulletCollision 0 (Some 0%nat) ;; updateShipBulletPosition) (battle_with 60) = Fault f.
Proof.
  apply (hit_then_update_faults (battle_with 60) 0
    (MkAlien 40 40 60 40 no_image no_image true 10) 0 (MkShip 512 630 15 no_image 3 0)
    (battle_with_ok 60) eq_refl eq_refl).
  apply Exists_cons_hd. reflexivity.
Defined.

Lemma removeAllShipBullets_faults_witness : exists f, removeAllShipBullets battle = Fault f.
Proof. apply (removeAllShipBullets_faults battle). reflexivity. Defined.
