(* ===== verification/AlienBullets.v ===== *)
(** * The aliens' bullet: proj/src/alienBullet.c *)

From S2P Require Import Prelude CMonad Heap Lcf Minix Macros ProjState Graphics Aliens Ship.
From stdpp Require Import options.

Section alien_bullet.
Context {D : Type} `{K : Kernel D}.

Definition loadAlienBulletXpm : M (state D) xpm_image_t := sys dev (xpm_load alien_bullet XPM_INDEXED).

(** The members of the new object are indeterminate. *)
Definition initAlienBullet : M (state D) unit :=
  g <- sys dev indeterminate ;;
  p <- malloc alien_bullets (MkAlienBullet (i32 g) (i32 g) (i32 g) no_image (ctrue g)) ;;
  assign alienBullet p.

Definition createAlienBullet (x y speed : Z) (img : xpm_image_t) : M (state D) unit :=
  p <- gets alienBullet ;;
  store alien_bullets p {| ab_x := x; ab_y := y; ab_speed := speed; ab_img := img; ab_active := true |}.

Definition updateAlienBulletPosition : M (state D) unit := vcall (
  p <- gets alienBullet ;;
  b <- load alien_bullets p ;;
  if 720 <=? i32 (i32 (ab_y b + ab_speed b) + height (ab_img b)) then
    store alien_bullets p (b <| ab_active := false |>) ;;
    vreturn
  else
    store alien_bullets p (b <| ab_y := i32 (ab_y b + ab_speed b) |>)).

Definition drawAlienBullet : M (state D) unit := vcall (
  p <- gets alienBullet ;;
  b <- load alien_bullets p ;;
  if negb (ab_active b) then vreturn else
  drawXpm (ab_x b) (ab_y b) (ab_img b) ;;
  ret tt).

(** The loop [do ... while (!aliens[randNum].alive)]. *)
Fixpoint pick_shooter (fuel : nat) : M (state D) nat :=
  match fuel with
  | O => raise OutOfFuel
  | S n =>
      r <- sys dev rand ;;
      let randNum := Z.rem r SIZE_OF_ALIENS in
      if randNum <? 0 then raise OutOfBounds else
      a <- alien_at (Z.to_nat randNum) ;;
      if negb (alien_alive a) then pick_shooter n else ret (Z.to_nat randNum)
  end.

Definition generateAlienBullet (fuel : nat) : M (state D) nat :=
  sys_ dev srand_time ;;
  pick_shooter fuel.

(** The bullet's box lies inside the ship's box. *)
Definition bullet_in_ship (b : AlienBullet) (sh : Ship) : bool :=
  (ship_x sh <=? ab_x b) && (i32 (ab_x b + width (ab_img b)) <=? i32 (ship_x sh + width (ship_img sh))) &&
  (ship_y sh <=? ab_y b) && (i32 (ab_y b + height (ab_img b)) <=? i32 (ship_y sh + height (ship_img sh))).

Definition verifyShipAndBulletCollision (sp : ptr) : M (state D) bool :=
  sh <- load ships sp ;;
  p <- gets alienBullet ;;
  b <- load alien_bullets p ;;
  if bullet_in_ship b sh then
    store ships sp (sh <| ship_lives := i32 (ship_lives sh - 1) |>) ;;
    store alien_bullets p (b <| ab_active := false |>) ;;
    ret true
  else ret false.

Definition removeAlienBullet : M (state D) unit := vcall (
  p <- gets alienBullet ;;
  match p with
  | None => vreturn
  | Some _ => free alien_bullets p ;; assign alienBullet NULL
  end).

End alien_bullet.
