(* ===== verification/AlienBulletFacts.v ===== *)
(** * Correctness of the aliens' bullet

    Its flight, its collision with the ship, and the choice of the alien that shoots. *)

From S2P Require Import Prelude CMonad Heap Lcf Minix Macros ProjState Graphics Aliens Ship AlienBullets.
From stdpp Require Import options.

Section facts.
Context {D : Type} `{K : Kernel D}.
Implicit Types s : state D.

(** The state with the bullet at address [l] replaced. *)
Definition set_bullet (l : nat) (b : AlienBullet) s : state D :=
  s <| alien_bullets := heap_write l b (alien_bullets s) |>.

Lemma set_bullet_twice l b b' s : set_bullet l b' (set_bullet l b s) = set_bullet l b' s.
Proof. unfold set_bullet, heap_write. get_set. simpl. by rewrite insert_insert_eq. Qed.

(** The global pointer designates the live bullet [b] at address [l]. *)
Definition bullet_at l b s : Prop := alienBullet s = Some l /\ cells (alien_bullets s) !! l = Some b.

Lemma bullet_at_set l b b' s : bullet_at l b s -> bullet_at l b' (set_bullet l b' s).
Proof. intros [Hp _]. split; [done|]. apply lookup_insert_eq. Qed.

(** ** Flight *)

(** The effect of one update on the bullet. *)
Definition fall (b : AlienBullet) : AlienBullet :=
  if 720 <=? ab_y b + ab_speed b + height (ab_img b) then b <| ab_active := false |>
  else b <| ab_y := ab_y b + ab_speed b |>.

(** A bullet whose coordinates are far from the limits of [int]. *)
Definition bullet_ok (b : AlienBullet) : Prop :=
  -2 ^ 29 < ab_y b < 2 ^ 29 /\ 0 < ab_speed b < 2 ^ 29 /\ 0 <= height (ab_img b) < 2 ^ 29.

Lemma fall_ok b : bullet_ok b -> bullet_ok (fall b).
Proof. unfold fall, bullet_ok. intros ?. ifcase; simpl; lia. Qed.

Lemma wp_updateAlienBullet E l b Q J s :
  bullet_at l b s -> bullet_ok b -> Q tt (set_bullet l (fall b) s) ->
  wp E updateAlienBulletPosition Q J s.
Proof.
  intros [Hp Hl] (? & ? & ?) HQ. unfold updateAlienBulletPosition. apply wp_vcall, wp_bind, wp_gets.
  rewrite Hp. apply wp_bind. eapply wp_load; [exact Hl|].
  rewrite !(i32_id (ab_y b + _)), i32_id by (unfold in_i32; lia). unfold fall in HQ. ifcase.
  - apply wp_bind. eapply wp_store; [exact Hl|]. by apply wp_jump.
  - eapply wp_store; [exact Hl|]. done.
Qed.

(** [n] updates. *)
Fixpoint flight (n : nat) : M (state D) unit :=
  match n with
  | O => ret tt
  | S n' => updateAlienBulletPosition ;; flight n'
  end.

Lemma flight_exec n l b s :
  bullet_at l b s -> bullet_ok b ->
  flight n s = Ok tt (match n with O => s | _ => set_bullet l (Nat.iter n fall b) s end).
Proof.
  revert b s. induction n as [|n IH]; intros b s Hb Hok; [done|].
  change (flight (S n) s) with ((updateAlienBulletPosition ;; flight n) s). unfold bind.
  destruct (wp_exec updateAlienBulletPosition (fun _ s' => s' = set_bullet l (fall b) s) s) as ([] & s' & -> & ->);
    [by eapply wp_updateAlienBullet|].
  rewrite (IH (fall b)) by eauto using bullet_at_set, fall_ok. f_equal.
  rewrite Nat.iter_succ_r. destruct n; [done|]. apply set_bullet_twice.
Qed.

(** The number of updates that move a bullet, and the bullet after [n] updates: it falls by its speed
    at each of the first [room b], is switched off by the next one and stays where it is. *)
Definition room (b : AlienBullet) : Z := (719 - height (ab_img b) - ab_y b) / ab_speed b.

Definition fallen (n : Z) (b : AlienBullet) : AlienBullet :=
  b <| ab_y := ab_y b + Z.min n (room b) * ab_speed b |> <| ab_active := (n <=? room b) && ab_active b |>.

Lemma room_spec b k :
  bullet_ok b -> ab_y b + height (ab_img b) < 720 ->
  k <= room b <-> ab_y b + k * ab_speed b + height (ab_img b) <= 719.
Proof.
  intros (_ & Hs & _) Hin. unfold room. split; intros Hk.
  - pose proof (Z.mul_div_le (719 - height (ab_img b) - ab_y b) (ab_speed b) ltac:(lia)). nia.
  - apply Z.div_le_lower_bound; lia.
Qed.

Lemma fallen_0 b : bullet_ok b -> ab_y b + height (ab_img b) < 720 -> fallen 0 b = b.
Proof.
  intros Hok Hin. assert (0 <= room b) as H0 by (apply room_spec; try done; lia).
  unfold fallen. rewrite Z.min_l, Z.add_0_r by done. replace (0 <=? room b) with true by lia. by destruct b.
Qed.

Lemma fall_fallen n b :
  bullet_ok b -> ab_y b + height (ab_img b) < 720 -> 0 <= n -> fall (fallen n b) = fallen (n + 1) b.
Proof.
  intros Hok Hin Hn. pose proof (room_spec b (n + 1) Hok Hin) as Hn1. pose proof (room_spec b (room b + 1) Hok Hin) as Hr1.
  unfold fall, fallen. get_set. destruct (Z.le_gt_cases (n + 1) (room b)) as [Hle|Hgt].
  - rewrite !Z.min_l by lia. rewrite (proj2 (Z.leb_gt _ _)) by lia.
    replace (n <=? room b) with true by lia. replace (n + 1 <=? room b) with true by lia.
    replace (ab_y b + n * ab_speed b + ab_speed b) with (ab_y b + (n + 1) * ab_speed b) by lia. by destruct b.
  - replace (Z.min n (room b)) with (room b) by lia. rewrite Z.min_r by lia.
    rewrite (proj2 (Z.leb_le _ _)) by lia. by replace (n + 1 <=? room b) with false by lia.
Qed.

Lemma fall_iter n b :
  bullet_ok b -> ab_y b + height (ab_img b) < 720 -> Nat.iter n fall b = fallen (Z.of_nat n) b.
Proof.
  intros Hok Hin. induction n as [|n IH]; [by rewrite fallen_0|].
  rewrite Nat.iter_succ, IH, fall_fallen by (done || lia). f_equal. lia.
Qed.

(** C22: every shot ends.  For a bullet in the play field, after [n] updates nothing but the bullet has changed: it has
    fallen by its speed at each of the first [room b] updates, as many as leave its lower edge above line 720, and stands still
    after them; it stays as active as it was during these and is inactive from the next one on, so that another bullet can be fired. *)
Theorem alien_bullet_lands n l b s :
  bullet_at l b s -> bullet_ok b -> ab_y b + height (ab_img b) < 720 ->
  exists s', flight n s = Ok tt s' /\ bullet_at l (fallen (Z.of_nat n) b) s' /\
    s' = (s <| alien_bullets := alien_bullets s' |>) /\
    (forall l', l' <> l -> cells (alien_bullets s') !! l' = cells (alien_bullets s) !! l') /\
    720 <= ab_y b + room b * ab_speed b + ab_speed b + height (ab_img b) < 720 + ab_speed b.
Proof.
  intros Hb Hok Hin. pose proof (room_spec b (room b) Hok Hin) as [Hr _]. pose proof (room_spec b (room b + 1) Hok Hin) as [_ Hr1].
  assert (720 <= ab_y b + room b * ab_speed b + ab_speed b + height (ab_img b) < 720 + ab_speed b) as Hend by lia.
  rewrite <- fall_iter by done. destruct n as [|n].
  - exists s. split; [done|]. split; [done|]. split; [by destruct s|]. by split.
  - exists (set_bullet l (Nat.iter (S n) fall b) s). split; [by rewrite (flight_exec (S n) l b)|].
    split; [by eapply bullet_at_set|]. split; [done|]. split; [|done]. intros l' Hl'. by apply lookup_insert_ne.
Qed.

(** ** Collision with the ship *)

(** The bullet's box [x, x+w] by [y, y+h] lies inside the ship's. *)
Definition box_inside (b : AlienBullet) (sh : Ship) : Prop :=
  ship_x sh <= ab_x b /\ ab_x b + width (ab_img b) <= ship_x sh + width (ship_img sh) /\
  ship_y sh <= ab_y b /\ ab_y b + height (ab_img b) <= ship_y sh + height (ship_img sh).

Definition small (z : Z) : Prop := -2 ^ 30 <= z < 2 ^ 30.

Lemma bullet_in_ship_iff b sh :
  small (ab_x b) -> small (ab_y b) -> small (ship_x sh) -> small (ship_y sh) ->
  small (width (ab_img b)) -> small (height (ab_img b)) ->
  small (width (ship_img sh)) -> small (height (ship_img sh)) ->
  bullet_in_ship b sh = true <-> box_inside b sh.
Proof.
  unfold small, bullet_in_ship, box_inside. intros.
  rewrite !i32_id by (unfold in_i32; lia). rewrite !andb_true_iff, !Z.leb_le. tauto.
Qed.

(** collision.  [verifyShipAndBulletCollision] returns whether the bullet is
    inside the ship's box; if so the ship loses exactly one life and the bullet
    becomes inactive, and otherwise nothing changes. *)
Theorem verifyShipAndBulletCollision_correct s sl sh l b :
  cells (ships s) !! sl = Some sh -> bullet_at l b s -> in_i32 (ship_lives sh - 1) ->
  verifyShipAndBulletCollision (Some sl) s =
    if bullet_in_ship b sh then
      Ok true (set_bullet l (b <| ab_active := false |>)
        (s <| ships := heap_write sl (sh <| ship_lives := ship_lives sh - 1 |>) (ships s) |>))
    else Ok false s.
Proof.
  intros Hs [Hp Hl] Hlv. unfold verifyShipAndBulletCollision, bind, load. rewrite Hs. simpl.
  rewrite Hp, Hl. ifcase; [|done]. unfold store. rewrite Hs. get_set. rewrite Hl.
  by rewrite i32_id.
Qed.

(** ** The alien that shoots *)

(** The [k]-th value that [rand] returns from now on, and the state after it. *)
Fixpoint rand_after (k : nat) (d : D) : Z * D :=
  match k with
  | O => rand d
  | S k' => rand_after k' (snd (rand d))
  end.

(** The alien drawn by a value of [rand]. *)
Definition drawn_alien s (r : Z) : option Alien := aliens s !! Z.to_nat (r mod SIZE_OF_ALIENS).

Definition is_alive (o : option Alien) : bool := match o with Some a => alien_alive a | None => false end.

Context {RL : RandLaws D}.

(** One draw. *)
Lemma pick_shooter_step n s :
  length (aliens s) = Z.to_nat SIZE_OF_ALIENS ->
  let r := fst (rand (dev s)) in
  let s1 := s <| dev := snd (rand (dev s)) |> in
  pick_shooter (S n) s =
    if is_alive (drawn_alien s r) then Ok (Z.to_nat (r mod SIZE_OF_ALIENS)) s1 else pick_shooter n s1.
Proof using RL.
  intros Hlen r s1. pose proof (rand_nonneg (dev s)) as Hr. fold r in Hr.
  assert (0 <= r mod SIZE_OF_ALIENS < SIZE_OF_ALIENS) as Hm by (apply Z.mod_pos_bound; done).
  cbn [pick_shooter]. unfold bind, sys. destruct (rand (dev s)) as [r' d'] eqn:Er.
  subst r s1. cbn [fst snd] in *. rewrite Z.rem_mod_nonneg by (done || lia).
  rewrite (proj2 (Z.ltb_ge _ 0)) by lia. unfold alien_at, drawn_alien. get_set.
  destruct (lookup_lt_is_Some_2 (aliens s) (Z.to_nat (r' mod SIZE_OF_ALIENS))) as [a Ha].
  { rewrite Hlen. apply Z2Nat.inj_lt; lia. }
  rewrite Ha. simpl. by destruct (alien_alive a).
Qed.

Lemma pick_shooter_result fuel s i s' :
  length (aliens s) = Z.to_nat SIZE_OF_ALIENS -> pick_shooter fuel s = Ok i s' ->
  is_alive (aliens s !! i) = true /\ exists d, s' = s <| dev := d |>.
Proof using RL.
  revert s. induction fuel as [|n IH]; intros s Hlen; [done|].
  rewrite pick_shooter_step by done. cbv zeta. ifcase; [intros [= <- <-]; by eauto|].
  intros He. apply IH in He as [Ha [d ->]]; [|done]. split; [done|]. by exists d.
Qed.

Lemma pick_shooter_returns k fuel s :
  length (aliens s) = Z.to_nat SIZE_OF_ALIENS -> (k < fuel)%nat ->
  is_alive (drawn_alien s (fst (rand_after k (dev s)))) = true ->
  exists i s', pick_shooter fuel s = Ok i s'.
Proof using RL.
  revert fuel s. induction k as [|k IH]; intros [|n] s Hlen Hk Ha; try lia.
  - rewrite pick_shooter_step by done. cbv zeta. simpl in Ha. rewrite Ha. eauto.
  - rewrite pick_shooter_step by done. cbv zeta. ifcase; [eauto|].
    apply IH; [done|lia|exact Ha].
Qed.

Lemma pick_shooter_none fuel s :
  length (aliens s) = Z.to_nat SIZE_OF_ALIENS -> Forall (fun a => alien_alive a = false) (aliens s) ->
  pick_shooter fuel s = Fault OutOfFuel.
Proof using RL.
  revert s. induction fuel as [|n IH]; intros s Hlen Hd; [done|].
  rewrite pick_shooter_step by done. cbv zeta. unfold drawn_alien.
  destruct (aliens s !! _) as [a|] eqn:Ha; simpl; [|by apply IH].
  rewrite (Forall_lookup_1 _ _ _ _ Hd Ha). by apply IH.
Qed.

(** C23: the shooter.  Whatever the fuel, an alien that [generateAlienBullet] returns
    is alive, and only the random generator has advanced.  It returns as soon as one of
    the draws made within the fuel is an alien that is alive; with no alien alive it
    never returns. *)
Theorem generateAlienBullet_correct fuel s :
  length (aliens s) = Z.to_nat SIZE_OF_ALIENS ->
  (forall i s', generateAlienBullet fuel s = Ok i s' ->
     is_alive (aliens s !! i) = true /\ exists d, s' = s <| dev := d |>) /\
  (forall k, (k < fuel)%nat ->
     is_alive (drawn_alien s (fst (rand_after k (srand_time (dev s))))) = true ->
     exists i s', generateAlienBullet fuel s = Ok i s') /\
  (Forall (fun a => alien_alive a = false) (aliens s) -> generateAlienBullet fuel s = Fault OutOfFuel).
Proof using RL.
  intros Hlen. set (s1 := s <| dev := srand_time (dev s) |>).
  change (generateAlienBullet fuel s) with (pick_shooter fuel s1). split; [|split].
  - intros i s' He. destruct (pick_shooter_result fuel s1 i s' Hlen He) as [Ha [d ->]].
    split; [done|]. by exists d.
  - intros k Hk Ha. by apply (pick_shooter_returns k fuel s1).
  - intros Hd. by apply pick_shooter_none.
Qed.

End facts.

(** * Examples *)
Definition demo_shot : AlienBullet := MkAlienBullet 500 600 4 (XpmImage XPM_INDEXED 5 20 100 []) true.

Definition shot_state : state script :=
  (init_state ((ports []) <| randoms := [30; 2] |>))
    <| ships := heap_alloc (MkShip 480 600 15 (XpmImage XPM_INDEXED 75 80 6000 []) 3 0) empty_heap |>
    <| alien_bullets := heap_alloc demo_shot empty_heap |>
    <| alienBullet := Some 0%nat |>
    <| aliens := replicate 6 no_alien ++ replicate 18 (no_alien <| alien_alive := true |>) |>.

(** The shot of the example has room for 24 steps. *)
Lemma alien_bullet_lands_witness :
  (exists s' b', flight 24 shot_state = Ok tt s' /\ bullet_at 0 b' s' /\ ab_y b' = 696 /\ ab_active b' = true) /\
  (exists s' b', flight 25 shot_state = Ok tt s' /\ bullet_at 0 b' s' /\ ab_y b' = 696 /\ ab_active b' = false).
Proof.
  assert (bullet_at 0 demo_shot shot_state) as Hb by (split; reflexivity).
  assert (bullet_ok demo_shot) as Hok by (repeat split; vm_compute; congruence).
  assert (ab_y demo_shot + height (ab_img demo_shot) < 720) as Hin by (vm_compute; congruence).
  split.
  - destruct (alien_bullet_lands 24 0 demo_shot shot_state Hb Hok Hin) as (s' & He & Hb' & _).
    exists s', (fallen 24 demo_shot). split; [exact He|]. split; [exact Hb'|]. split; reflexivity.
  - destruct (alien_bullet_lands 25 0 demo_shot shot_state Hb Hok Hin) as (s' & He & Hb' & _).
    exists s', (fallen 25 demo_shot). split; [exact He|]. split; [exact Hb'|]. split; reflexivity.
Defined.

Lemma verifyShipAndBulletCollision_correct_witness :
  exists s', verifyShipAndBulletCollision (Some 0%nat) shot_state = Ok true s' /\
    ship_lives <$> cells (ships s') !! 0%nat = Some 2.
Proof.
  eexists. split.
  - refine (verifyShipAndBulletCollision_correct shot_state 0
      (MkShip 480 600 15 (XpmImage XPM_INDEXED 75 80 6000 []) 3 0) 0 demo_shot eq_refl _ _).
    + split; reflexivity.
    + split; vm_compute; congruence.
  - reflexivity.
Defined.

Lemma generateAlienBullet_correct_witness : exists i s', generateAlienBullet 2 shot_state = Ok i s'.
Proof.
  refine (proj1 (proj2 (generateAlienBullet_correct (RL := script_rand_laws) 2 shot_state eq_refl)) 0%nat _ _).
  - lia.
  - reflexivity.
Defined.
