(* ===== verification/Menu.v ===== *)
(** * The menus: proj/src/menu.c *)

From S2P Require Import Prelude CMonad Heap Lcf Minix Macros ProjState Graphics.
From stdpp Require Import options.

Definition getButton (x y : Z) : Button :=
  let x := u16 x in
  let y := u16 y in
  if (392 <? x) && (x <? 632) && (288 <? y) && (y <? 345) then START_BUTTON
  else if (208 <? x) && (x <? 817) && (400 <? y) && (y <? 457) then INSTRUCTIONS_BUTTON
  else if (408 <? x) && (x <? 609) && (512 <? y) && (y <? 569) then EXIT_BUTTON
  else INITIAL.

Definition getInstructionButton (x y : Z) : bool :=
  let x := u16 x in
  let y := u16 y in
  if (912 <? x) && (x <? 992) && (672 <? y) && (y <? 736) then true else false.

Section menu.
Context {D : Type} `{K : Kernel D}.

Definition initMenuXpm : M (state D) unit :=
  i <- sys dev (xpm_load menu_start XPM_INDEXED) ;; assign_img menu_start_xpm i ;;
  i <- sys dev (xpm_load menu_instructions XPM_INDEXED) ;; assign_img menu_instructions_xpm i ;;
  i <- sys dev (xpm_load menu_exit XPM_INDEXED) ;; assign_img menu_exit_xpm i ;;
  i <- sys dev (xpm_load menu2 XPM_INDEXED) ;; assign_img menu_xpm i ;;
  i <- sys dev (xpm_load instructions XPM_INDEXED) ;; assign_img instructions_xpm i ;;
  i <- sys dev (xpm_load instructions_back XPM_INDEXED) ;; assign_img instructions_back_xpm i.

Definition drawMenu (b : Button) : M (state D) Z :=
  i <- gets imgs ;;
  let menu := match b with
              | START_BUTTON => menu_start_xpm i
              | INSTRUCTIONS_BUTTON => menu_instructions_xpm i
              | EXIT_BUTTON => menu_exit_xpm i
              | INITIAL => menu_xpm i
              end in
  drawBackground menu ;;
  ret 0.

Definition drawInstructions (b : bool) : M (state D) Z :=
  i <- gets imgs ;;
  let menu := if b then instructions_back_xpm i else instructions_xpm i in
  drawBackground menu ;;
  ret 0.

End menu.

(** The clickable rectangle of a button, as left, right, top and bottom bounds. *)
Definition button_box (b : Button) : option (Z * Z * Z * Z) :=
  match b with
  | START_BUTTON => Some (392, 632, 288, 345)
  | INSTRUCTIONS_BUTTON => Some (208, 817, 400, 457)
  | EXIT_BUTTON => Some (408, 609, 512, 569)
  | INITIAL => None
  end.

Definition inside (bx : Z * Z * Z * Z) (x y : Z) : Prop :=
  let '(l, r, t, b) := bx in l < x < r /\ t < y < b.

(** the buttons of the menu.  For a pointer on the screen, [getButton] returns a
    button exactly when the pointer is inside that button's rectangle, and [INITIAL]
    exactly when it is inside none: the rectangles are disjoint, so their order in
    the code does not matter. *)
Theorem getButton_correct x y b :
  0 <= x < X_RES -> 0 <= y < Y_RES ->
  getButton x y = b <->
  match button_box b with
  | Some bx => inside bx x y
  | None => forall b' bx, button_box b' = Some bx -> ~ inside bx x y
  end.
Proof.
  unfold X_RES, Y_RES. intros Hx Hy. unfold getButton. rewrite !u16_id by lia.
  destruct b; simpl; repeat ifcase; split; try congruence; try lia.
  all: try (intros _ [] bx [= <-]; simpl; lia).
  all: intros Hn; exfalso.
  - apply (Hn START_BUTTON _ eq_refl). simpl. lia.
  - apply (Hn INSTRUCTIONS_BUTTON _ eq_refl). simpl. lia.
  - apply (Hn EXIT_BUTTON _ eq_refl). simpl. lia.
Qed.

Lemma getButton_correct_witness : getButton 500 300 = START_BUTTON.
Proof.
  apply (getButton_correct 500 300 START_BUTTON).
  - unfold X_RES. lia.
  - unfold Y_RES. lia.
  - simpl. lia.
Defined.
