(* ===== verification/Screen.v ===== *)
(** * The screen as the game uses it

    The mode 0x105 screen of 1024 by 768 one-byte pixels, the pixmaps of known
    size, and rules that discharge every drawing call whose image lies on the
    screen: such a call never faults and changes nothing but the frame buffer.  With
    them, what [drawScore] shows. *)

From S2P Require Import Prelude CMonad Heap Memory Lcf Minix Macros ProjState Graphics GraphicsFacts.
From S2P Require Import MouseDriver Menu Ship.
From stdpp Require Import options.

(** A complete pixmap of [w] by [h] pixels. *)
Definition pic (w h : Z) (img : xpm_image_t) : Prop := image_ok img /\ width img = w /\ height img = h.

Definition screen_gfx (g : graphics) : Prop :=
  exists v d, indexed_buffer g v /\ display_mem g = Some d /\ bsize d = bsize v /\ Xres g = X_RES /\ Yres g = Y_RES.

Definition screen {D} (s : state D) : Prop := screen_gfx (gfx s).

(** Only the video card and the system changed, and the screen is still there. *)
Definition env {D} (s s' : state D) : Prop :=
  (exists g d, s' = s <| gfx := g |> <| dev := d |>) /\ screen s'.

(** The images of the ten digits, in order. *)
Definition numerals (i : images) : list xpm_image_t :=
  [zero_xpm i; one_xpm i; two_xpm i; three_xpm i; four_xpm i; five_xpm i; six_xpm i; seven_xpm i; eight_xpm i; nine_xpm i].

(** The pixmaps that the menus and the numbers use. *)
Definition images_ok (i : images) : Prop :=
  Forall (pic 16 28) (numerals i) /\
  Forall (pic 1024 768) [menu_start_xpm i; menu_instructions_xpm i; menu_exit_xpm i; menu_xpm i;
                         instructions_xpm i; instructions_back_xpm i].

Lemma xpm_load_pic {D} `{XL : XpmLaws D} m d :
  0 <= xpm_columns m -> 0 <= xpm_rows m ->
  pic (xpm_columns m) (xpm_rows m) (fst (xpm_load m XPM_INDEXED d)).
Proof.
  intros Hc Hr. destruct (xpm_load_indexed m d) as (Hw & Hh & Hl & Hu).
  repeat split; [lia|lia|by rewrite Hw, Hh|done|done|done].
Qed.

Section rules.
Context {D : Type} `{K : Kernel D}.
Implicit Types s : state D.

Lemma env_refl s : screen s -> env s s.
Proof. intros Hs. split; [|done]. exists (gfx s), (dev s). by destruct s. Qed.

Lemma env_trans s1 s2 s3 : env s1 s2 -> env s2 s3 -> env s1 s3.
Proof. intros [(g & d & ->) _] [(g' & d' & ->) Hs]. split; [by exists g', d'|done]. Qed.

Lemma env_dev s d : screen s -> env s (s <| dev := d |>).
Proof. intros Hs. split; [|done]. exists (gfx s), d. by destruct s. Qed.

Lemma same_but_video_env s v b' :
  screen s -> video_mem (gfx s) = Some v -> bsize b' = bsize v -> env s (upd_video (Some b') s).
Proof.
  intros (v' & d & [Hf Hd] & Hdm & Hsz & HX & HY) Hv Hb. split.
  - exists ((gfx s) <| video_mem := Some b' |>), (dev s). by destruct s.
  - exists b', d. assert (v' = v) as -> by (destruct Hf; congruence).
    repeat split; try done; try apply Hf; simpl; try lia.
    all: destruct Hf as (_ & ? & ? & ? & ? & ?); rewrite ?Hb; auto; lia.
Qed.

Lemma wp_drawXpm E x y img Q J s :
  screen s -> image_ok img -> 0 <= x -> x + width img <= X_RES -> 0 <= y -> y + height img <= Y_RES ->
  (forall s', env s s' -> Q 0 s') -> wp E (drawXpm x y img) Q J s.
Proof.
  intros Hs Hi Hx Hx' Hy Hy' HQ. pose proof Hs as (v & d & Hf & Hd & Hsz & HX & HY).
  destruct (wp_exec _ _ _ (drawXpm_drawn s v img x y Hf Hi ltac:(unfold fits; rewrite HX, HY; done)))
    as (r & s' & He & -> & m & -> & _).
  eapply wp_of_exec; [exact He|]. apply HQ. eapply same_but_video_env; [done|apply Hf|done].
Qed.

Lemma wp_drawMouse E p m Q J s :
  screen s -> deref (mice s) p = Some m -> image_ok (mouse_img m) -> pointer_ok m ->
  (forall s', env s s' -> Q tt s') -> wp E (drawMouse p) Q J s.
Proof.
  intros Hs Hm Hi (? & ? & ? & ?) HQ. pose proof Hs as (v & d & Hf & Hd & Hsz & HX & HY).
  destruct (wp_exec _ _ _ (drawMouse_drawn s v p m Hf Hm Hi ltac:(unfold fits; rewrite HX, HY; lia)))
    as ([] & s' & He & m' & -> & _).
  eapply wp_of_exec; [exact He|]. apply HQ. eapply same_but_video_env; [done|apply Hf|done].
Qed.

Lemma wp_drawBackground E img Q J s :
  screen s -> pic 1024 768 img -> (forall s', env s s' -> Q tt s') -> wp E (drawBackground img) Q J s.
Proof.
  intros Hs (Hi & Hw & Hh) HQ. pose proof Hs as (v & d & [Hf Hd1] & Hd & Hsz & HX & HY).
  assert (bsize v = 1024 * 768) as Hv.
  { destruct Hf as (_ & _ & _ & _ & -> & _). rewrite Hd1, HX, HY. reflexivity. }
  eapply wp_of_exec.
  - apply (drawBackground_exec s v img); [apply Hf|done|]. rewrite Hw, Hh, Hv. lia.
  - apply HQ. eapply same_but_video_env; [done|apply Hf|done].
Qed.

Lemma wp_displayScreen E Q J s :
  screen s -> (forall s', env s s' -> Q tt s') -> wp E displayScreen Q J s.
Proof.
  intros (v & d & [Hf Hd1] & Hd & Hsz & HX & HY) HQ.
  destruct (displayScreen_exec s v d Hf Hd Hsz) as (d' & He & Hb & _).
  eapply wp_of_exec; [exact He|]. apply HQ. split; [exists ((gfx s) <| display_mem := Some d' |>), (dev s); by destruct s|].
  exists v, d'. repeat split; try done; try apply Hf. simpl. congruence.
Qed.

Lemma wp_drawMenu E b Q J s :
  screen s -> images_ok (imgs s) -> (forall s', env s s' -> Q 0 s') -> wp E (drawMenu b) Q J s.
Proof.
  intros Hs [_ Hi] HQ. rewrite !Forall_cons in Hi. destruct Hi as (? & ? & ? & ? & _).
  apply wp_bind, wp_gets, wp_bind, wp_drawBackground; [done|by destruct b|].
  intros s' Hs'. by apply wp_ret, HQ.
Qed.

Lemma wp_drawInstructions E b Q J s :
  screen s -> images_ok (imgs s) -> (forall s', env s s' -> Q 0 s') -> wp E (drawInstructions b) Q J s.
Proof.
  intros Hs [_ Hi] HQ. rewrite !Forall_cons in Hi. destruct Hi as (_ & _ & _ & _ & ? & ? & _).
  apply wp_bind, wp_gets, wp_bind, wp_drawBackground; [done|by destruct b|].
  intros s' Hs'. by apply wp_ret, HQ.
Qed.

(** A ship that can be drawn. *)
Definition ship_ok (sh : Ship) : Prop :=
  pic 75 80 (ship_img sh) /\ ship_in_range sh /\ ship_y sh = SHIP_YPOS /\ ship_speed sh = 15 /\
  1 <= ship_lives sh <= 3.

Lemma wp_drawShip E p sh Q J s :
  screen s -> deref (ships s) p = Some sh -> ship_ok sh -> (forall s', env s s' -> Q tt s') ->
  wp E (drawShip p) Q J s.
Proof.
  intros Hs Hp ((Hi & Hw & Hh) & Hr & Hy & _ & _) HQ. unfold ship_in_range, X_MIN, X_MAX in Hr.
  apply wp_bind. eapply wp_load; [done|]. apply wp_bind. rewrite Hy. unfold SHIP_YPOS.
  apply wp_drawXpm; unfold X_RES, Y_RES; [done|done|lia..|]. intros s' Hs'. by apply wp_ret, HQ.
Qed.

Lemma wp_drawLives E p sh Q J s :
  screen s -> images_ok (imgs s) -> deref (ships s) p = Some sh -> ship_ok sh ->
  (forall s', env s s' -> Q tt s') -> wp E (drawLives p) Q J s.
Proof.
  intros Hs [Hi _] Hp (_ & _ & _ & _ & Hl) HQ. unfold numerals in Hi. rewrite !Forall_cons in Hi.
  destruct Hi as (_ & [? [? ?]] & [? [? ?]] & [? [? ?]] & _).
  apply wp_bind. eapply wp_load; [done|]. apply wp_bind, wp_gets.
  assert (ship_lives sh = 1 \/ ship_lives sh = 2 \/ ship_lives sh = 3) as [->|[->| ->]] by lia.
  all: apply wp_bind, wp_drawXpm; unfold X_RES, Y_RES; [done|done|lia..|]; intros s' Hs'; by apply wp_ret, HQ.
Qed.

Lemma digit_pic i d : Forall (pic 16 28) (numerals i) -> digit d -> exists img, digit_xpm i d = Some img /\ pic 16 28 img.
Proof.
  intros Hi Hd. unfold numerals in Hi. rewrite !Forall_cons in Hi. unfold digit in Hd.
  destruct Hi as (? & ? & ? & ? & ? & ? & ? & ? & ? & ? & _).
  assert (d = 0 \/ d = 1 \/ d = 2 \/ d = 3 \/ d = 4 \/ d = 5 \/ d = 6 \/ d = 7 \/ d = 8 \/ d = 9) as Hc by lia.
  repeat destruct Hc as [->|Hc]; try subst d; simpl; eauto.
Qed.

Lemma wp_draw_digits E ds x Q J s :
  screen s -> images_ok (imgs s) -> Forall digit ds -> 0 <= x -> x + 24 * Z.of_nat (length ds) <= X_RES ->
  (forall s', env s s' -> Q tt s') -> wp E (draw_digits ds x) Q J s.
Proof.
  revert x s. induction ds as [|d ds IH]; intros x s Hs Hi Hd Hx Hlen HQ; simpl.
  { by apply wp_ret, HQ, env_refl. }
  apply Forall_cons in Hd as [Hd Hds]. cbn [length] in Hlen. unfold X_RES in *.
  apply wp_bind, wp_gets. destruct (digit_pic _ _ (proj1 Hi) Hd) as (img & -> & Hpi & Hw & Hh).
  apply wp_bind, wp_drawXpm; unfold X_RES, Y_RES; [done|done|lia..|]. intros s' Hs'.
  apply IH; [apply Hs'|by destruct Hs' as [(g & dd & ->) _]|done|lia|unfold X_RES; lia|].
  intros s'' Hs''. apply HQ. by eapply env_trans.
Qed.

Lemma wp_drawScore E p sh Q J s :
  screen s -> images_ok (imgs s) -> deref (ships s) p = Some sh -> 0 <= ship_score sh < 2 ^ 31 ->
  (forall s', env s s' -> Q tt s') -> wp E (drawScore p) Q J s.
Proof.
  intros Hs Hi Hp Hz HQ. destruct (drawScore_digits s p sh Hp Hz) as (ds & He & _ & Hd & Hlen & _).
  unfold wp. rewrite He. apply wp_draw_digits; [done|done|done|lia|unfold X_RES; lia|done].
Qed.

(** ** The score on the screen *)

(** The drawing buffer shows the whole of an image with its corner at [(x, y)]. *)
Definition shows s (x y : Z) (img : xpm_image_t) : Prop :=
  forall r k, 0 <= r < height img -> 0 <= k < width img ->
    pixel (gfx s) (x + k) (y + r) = bytes img !! Z.to_nat (r * width img + k).

(** The pixel belongs to one of [n] digits, 16 by 28 pixels each and 24 pixels apart, from column [x] on. *)
Definition in_digits (x : Z) (n : nat) (x' y' : Z) : Prop :=
  735 <= y' < 763 /\ exists k : nat, (k < n)%nat /\ x + 24 * Z.of_nat k <= x' < x + 24 * Z.of_nat k + 16.

Lemma numeral_xpm i d img : digit d -> numerals i !! Z.to_nat d = Some img -> digit_xpm i d = Some img.
Proof.
  intros Hd. unfold digit in Hd.
  assert (d = 0 \/ d = 1 \/ d = 2 \/ d = 3 \/ d = 4 \/ d = 5 \/ d = 6 \/ d = 7 \/ d = 8 \/ d = 9) as Hc by lia.
  by repeat destruct Hc as [->|Hc]; try subst d.
Qed.

Lemma drawXpm_shows x y img s :
  screen s -> image_ok img -> 0 <= x -> x + width img <= X_RES -> 0 <= y -> y + height img <= Y_RES ->
  exists s', drawXpm x y img s = Ok 0 s' /\ same_but_video s s' /\ screen s' /\ shows s' x y img /\
    (forall x' y', on_screen (gfx s) x' y' -> ~ (x <= x' < x + width img /\ y <= y' < y + height img) ->
       pixel (gfx s') x' y' = pixel (gfx s) x' y').
Proof.
  intros Hs Hi Hx Hx' Hy Hy'. pose proof Hs as (v & d & Hf & Hd & Hsz & HX & HY).
  assert (fits (gfx s) x y img) as Hfit by (unfold fits; by rewrite HX, HY).
  destruct (wp_exec _ _ _ (drawXpm_drawn s v img x y Hf Hi Hfit)) as (r & s' & He & -> & Hs').
  destruct (drawn_pixels _ _ _ _ _ _ _ Hf Hi Hfit Hs') as (Hsame & Hin & Hout).
  exists s'. split; [done|]. split; [done|]. split; [|split; [|done]].
  - destruct Hs' as (m & -> & _). by apply (same_but_video_env s v (Block (bsize v) m) Hs (proj1 (proj1 Hf))).
  - intros r k Hr Hk. destruct (image_byte img r k Hi Hr Hk) as (c & Hc & _). rewrite Hc. by apply Hin.
Qed.

Lemma in_digits_cons x n x' y' :
  x <= x' < x + 16 /\ 735 <= y' < 763 \/ in_digits (x + 24) n x' y' -> in_digits x (S n) x' y'.
Proof.
  intros [[Hx Hy]|(Hy & k & Hk & Hx)]; (split; [done|]).
  - exists 0%nat. lia.
  - exists (S k). lia.
Qed.

(** The digits are drawn one after the other and none of them covers another. *)
Lemma draw_digits_shows ds x s :
  screen s -> Forall (pic 16 28) (numerals (imgs s)) -> Forall digit ds -> 0 <= x -> x + 24 * Z.of_nat (length ds) <= X_RES ->
  exists s', draw_digits ds x s = Ok tt s' /\ same_but_video s s' /\
    (forall (n : nat) d img, ds !! n = Some d -> numerals (imgs s) !! Z.to_nat d = Some img -> shows s' (x + 24 * Z.of_nat n) 735 img) /\
    (forall x' y', on_screen (gfx s) x' y' -> ~ in_digits x (length ds) x' y' -> pixel (gfx s') x' y' = pixel (gfx s) x' y').
Proof.
  revert x s. induction ds as [|d ds IH]; intros x s Hs Hi Hd Hx Hlen.
  { exists s. split; [done|]. split; [apply same_but_video_refl|]. by split. }
  apply Forall_cons in Hd as [Hd Hds]. cbn [length] in Hlen. unfold X_RES in *.
  destruct (digit_pic _ _ Hi Hd) as (img & Hdi & Hpi & Hw & Hh).
  destruct (drawXpm_shows x 735 img s) as (s1 & He1 & Hsame1 & Hs1 & Hsh1 & Hout1); [done|done|unfold X_RES, Y_RES; lia..|].
  pose proof Hsame1 as [v1 Hv1]. assert (imgs s1 = imgs s) as Himgs by (by rewrite Hv1).
  assert (forall x' y', on_screen (gfx s) x' y' -> on_screen (gfx s1) x' y') as Hon by (intros; by rewrite Hv1).
  destruct (IH (x + 24) s1 Hs1 ltac:(by rewrite Himgs) Hds ltac:(lia) ltac:(lia)) as (s2 & He2 & Hsame2 & Hsh2 & Hout2).
  exists s2. split; [|split; [by eapply same_but_video_trans|split]].
  - cbn [draw_digits]. unfold bind, gets. rewrite Hdi, He1. done.
  - intros [|n] d' img' Hn Himg.
    + injection Hn as <-. rewrite (numeral_xpm _ _ _ Hd Himg) in Hdi. injection Hdi as ->.
      rewrite Z.mul_0_r, Z.add_0_r. intros r k Hr Hk. rewrite <- Hsh1 by done. rewrite Hw, Hh in *. apply Hout2.
      * apply Hon. destruct Hs as (? & ? & _ & _ & _ & HX & HY). unfold on_screen. rewrite HX, HY. unfold X_RES, Y_RES. lia.
      * intros (_ & j & _ & Hj). lia.
    + rewrite <- Himgs in Himg. specialize (Hsh2 n d' img' Hn Himg). by replace (x + 24 * Z.of_nat (S n)) with (x + 24 + 24 * Z.of_nat n) by lia.
  - intros x' y' Hxy Hnot. cbn [length] in Hnot. rewrite Hout2.
    + apply Hout1; [done|]. rewrite Hw, Hh. intros [? ?]. apply Hnot, in_digits_cons. left. lia.
    + by apply Hon.
    + intros ?. apply Hnot, in_digits_cons. by right.
Qed.

(** C20: score display.  For every score an [int] can hold that is not negative, [drawScore] leaves on the screen the
    decimal digits of the score, most significant first: the [n]-th digit is the whole image of that digit, at column
    [120 + 24 n] of line 735; there are at most 10 digits, they read back as the score, and there is no leading zero.
    No other pixel and nothing else in the state changes. *)
Theorem drawScore_decimal p sh s :
  screen s -> Forall (pic 16 28) (numerals (imgs s)) -> deref (ships s) p = Some sh -> 0 <= ship_score sh < 2 ^ 31 ->
  exists ds s', drawScore p s = Ok tt s' /\ same_but_video s s' /\
    Forall digit ds /\ digits_value ds = ship_score sh /\ (1 <= length ds <= 10)%nat /\ ((1 < length ds)%nat -> hd 0 ds <> 0) /\
    (forall (n : nat) d img, ds !! n = Some d -> numerals (imgs s) !! Z.to_nat d = Some img -> shows s' (120 + 24 * Z.of_nat n) 735 img) /\
    (forall x y, on_screen (gfx s) x y -> ~ in_digits 120 (length ds) x y -> pixel (gfx s') x y = pixel (gfx s) x y).
Proof.
  intros Hs Hi Hp Hz. destruct (drawScore_digits s p sh Hp Hz) as (ds & He & Hv & Hd & Hlen & Hhd).
  destruct (draw_digits_shows ds 120 s Hs Hi Hd ltac:(lia) ltac:(unfold X_RES; lia)) as (s' & He' & Hsame & Hsh & Hout).
  exists ds, s'. split; [by rewrite He|]. split_and!; first [done|apply Hlen].
Qed.

End rules.

(** ** An example: the score 70, with digits of one colour each *)

Definition plain (c : Z) : xpm_image_t := XpmImage XPM_INDEXED 16 28 448 (replicate 448 c).

Definition score_screen : state script :=
  (init_state (ports []))
    <| gfx := Graphics 1024 768 8 4 (Some (Block 786432 ∅)) (Some (Block 786432 ∅)) |>
    <| ships := heap_alloc (MkShip 512 630 15 no_image 3 70) empty_heap |>
    <| imgs := Images (plain 1) (plain 2) (plain 3) (plain 4) (plain 5) (plain 6) (plain 7) (plain 8) (plain 9) (plain 10)
                 no_image no_image no_image no_image no_image no_image |>.

Lemma plain_pic c : in_u8 c -> pic 16 28 (plain c).
Proof.
  intros Hc. repeat split; cbn; try done. by apply (Forall_replicate in_u8 448 c).
Qed.

Lemma drawScore_decimal_witness :
  exists ds s', drawScore (Some 0%nat) score_screen = Ok tt s' /\ digits_value ds = 70 /\
    (forall n d img, ds !! n = Some d -> numerals (imgs score_screen) !! Z.to_nat d = Some img -> shows s' (120 + 24 * Z.of_nat n) 735 img).
Proof.
  destruct (drawScore_decimal (Some 0%nat) (MkShip 512 630 15 no_image 3 70) score_screen) as (ds & s' & He & _ & _ & Hv & _ & _ & Hsh & _).
  - exists (Block 786432 ∅), (Block 786432 ∅). repeat split; done.
  - repeat (apply Forall_cons_2; [apply plain_pic; unfold in_u8; lia|]). apply Forall_nil_2.
  - reflexivity.
  - cbn. lia.
  - exists ds, s'. split; [exact He|]. split; [exact Hv|exact Hsh].
Defined.
