(* ===== verification/Volley.v ===== *)
(** * The bullets of the ship in flight

    [volley] is the part of the game's invariant about the ship's bullets: every slot
    is [NULL] or holds the same live bullet, which is on the screen and has hit nothing.  It is
    kept by firing, by drawing, and by moving as long as no bullet leaves the screen. *)

From S2P Require Import Prelude CMonad Heap Memory Lcf Minix Macros ProjState Graphics GraphicsFacts.
From S2P Require Import MouseDriver Aliens Ship ShipBullets ShipBulletFacts Menu Screen.
From stdpp Require Import options.

Definition flying (b : ShipBullet) : Prop :=
  sb_hitAlien b = false /\ sb_speed b = SHIP_BULLET_SPEED /\ pic 5 20 (sb_img b) /\
  0 <= sb_x b <= 1019 /\ 0 <= sb_y b <= SHIP_YPOS.

(** All slots hold the same pointer, because a shot fills every free slot. *)
Definition volley (h : heap ShipBullet) (ps : list ptr) : Prop :=
  heap_wf h /\ exists p, ps = replicate slots p /\ forall l, p = Some l -> exists b, cells h !! l = Some b /\ flying b.

Lemma volley_length h ps : volley h ps -> length ps = slots.
Proof. intros (_ & p & -> & _). apply length_replicate. Qed.

Lemma volley_live h ps l : volley h ps -> Some l ∈ ps -> exists b, cells h !! l = Some b /\ flying b.
Proof. intros (_ & p & -> & Hf) [Hin _]%elem_of_replicate. by apply Hf. Qed.

(** No bullet leaves the screen at its next move. *)
Definition clears (h : heap ShipBullet) (ps : list ptr) : Prop :=
  forall l b, Some l ∈ ps -> cells h !! l = Some b -> Z.of_nat (aliases l ps) * sb_speed b <= sb_y b.

Section volley.
Context {D : Type} `{K : Kernel D}.
Implicit Types s : state D.

Lemma volley_slots s : volley (bullets s) (shipBullets s) -> slots_ok s.
Proof.
  intros Hv. split; [by eapply volley_length|]. apply Forall_forall. intros [l|] Hin; [|by left].
  right. destruct (volley_live _ _ l Hv Hin) as (b & Hb & _). by exists b.
Qed.

Lemma quiet_volley s : quiet s -> heap_wf (bullets s) -> volley (bullets s) (shipBullets s).
Proof.
  intros Hq Hwf. split; [done|]. by exists NULL.
Qed.

Lemma climbed_flying n b : flying b -> Z.of_nat n * sb_speed b <= sb_y b -> flying (climbed n b).
Proof.
  intros (Hh & Hs & Hp & Hx & Hy) Hn. unfold flying, climbed. cbn. rewrite Hs in *. unfold SHIP_BULLET_SPEED in *.
  repeat split; try done; try apply Hp; lia.
Qed.

(** Moving. *)
Lemma wp_update_volley E (Q : unit -> state D -> Prop) J s :
  volley (bullets s) (shipBullets s) -> clears (bullets s) (shipBullets s) ->
  (forall c, volley (Heap c (brk (bullets s))) (shipBullets s) ->
     (forall l, c !! l = climbed (aliases l (shipBullets s)) <$> cells (bullets s) !! l) -> Q tt (with_bullets c s)) ->
  wp E updateShipBulletPosition Q J s.
Proof.
  intros Hv Hc HQ. destruct (updateShipBullet_exec s (volley_length _ _ Hv)) as (c & He & Hcl).
  - intros l Hin. destruct (volley_live _ _ l Hv Hin) as (b & Hb & Hfl). exists b. split; [done|].
    pose proof (Hc l b Hin Hb). destruct Hfl as (Hh & Hs & _ & _ & Hy). unfold can_climb.
    rewrite Hs in *. unfold SHIP_BULLET_SPEED, SHIP_YPOS in *. repeat split; [done|lia..].
  - destruct Hv as (Hwf & p & Hps & Hf). eapply wp_of_exec; [exact He|]. apply HQ; [|done]. split.
    + intros l Hl. cbn in Hl. rewrite Hcl, fmap_is_Some in Hl. by apply Hwf.
    + exists p. split; [done|]. intros l Hl. destruct (Hf l Hl) as (b & Hb & Hfl). eexists. split; [cbn; by rewrite Hcl, Hb|].
      apply climbed_flying; [done|]. apply Hc; [|done]. rewrite Hps, <- Hl. by apply elem_of_replicate.
Qed.

(** Drawing. *)
Lemma wp_draw_volley E Q J s :
  screen s -> volley (bullets s) (shipBullets s) -> (forall s', env s s' -> Q tt s') -> wp E drawShipBullets Q J s.
Proof.
  intros Hs Hv HQ. apply (wp_for_seq E (fun _ s' => env s s')); [by apply env_refl| |done].
  intros i s' Hi He. pose proof He as [(g & d & ->) Hs'].
  destruct (lookup_lt_is_Some_2 (shipBullets s) i) as [p Hp]; [by erewrite volley_length|].
  apply wp_bind. eapply wp_slot; [exact Hp|]. destruct p as [l|]; [|by apply wp_ret].
  destruct (volley_live _ _ l Hv) as (b & Hb & Hh & _ & (Hi' & Hw & Hht) & Hx & Hy); [by eapply list_elem_of_lookup_2|].
  apply wp_bind. eapply wp_load; [exact Hb|]. rewrite Hh. cbn [negb when].
  unfold SHIP_YPOS in Hy. apply wp_bind, wp_drawXpm; unfold X_RES, Y_RES; [done|done|lia..|].
  intros s2 He2. apply wp_ret. exact (env_trans _ _ _ He He2).
Qed.

(** Firing: the new bullet fills the slots if they are free, and is lost otherwise. *)
Lemma volley_fire b h ps :
  volley h ps -> flying b -> volley (heap_alloc b h) (refill h (Some (brk h)) <$> ps).
Proof.
  intros (Hwf & p & -> & Hf) Hb. split; [by apply heap_alloc_wf|]. rewrite fmap_replicate. eexists. split; [done|].
  intros l Hl. unfold refill in Hl. destruct p as [l'|].
  - destruct (Hf l' eq_refl) as (b' & Hb' & Hfl). cbn in Hl. rewrite Hb' in Hl. pose proof Hfl as (Hh & _).
    rewrite Hh in Hl. injection Hl as ->. exists b'. split; [|done].
    exact (deref_alloc_other b b' h (Some l) Hwf Hb').
  - injection Hl as <-. exists b. split; [apply lookup_insert_eq|done].
Qed.

Lemma wp_fire_volley E x y img (Q : unit -> state D -> Prop) J s :
  let b := MkShipBullet x y SHIP_BULLET_SPEED img false in
  volley (bullets s) (shipBullets s) -> flying b ->
  (forall h ps, volley h ps -> h = heap_alloc b (bullets s) -> ps = refill (bullets s) (Some (brk (bullets s))) <$> shipBullets s ->
     Q tt (s <| bullets := h |> <| shipBullets := ps |>)) ->
  wp E (createShipBullet x y SHIP_BULLET_SPEED img) Q J s.
Proof.
  intros b Hv Hfl HQ. eapply wp_of_exec.
  - apply createShipBullet_exec; [apply Hv|by apply volley_slots].
  - apply HQ; [by apply volley_fire|done|done].
Qed.

End volley.
