(* ===== verification/GameSpec.v ===== *)
(** * The game as it is played: an abstract specification

    [game] is what a player can know of the game: numbers and lists, without pointers,
    heaps, pixels, devices or faults.  [react] says how it answers an event: a byte of the
    mouse, a byte of the keyboard, or a tick of the timer.  [view] reads the abstract game
    off the state of the program.  The specification covers play until an event
    removes the shot of the ship ([removal]); what the program does then is the subject of
    [GameRemoval]. *)

From S2P Require Import Prelude CMonad Heap Lcf Minix Macros ProjState Ship Menu MouseDriver.
From stdpp Require Import options.

(** ** The game *)

Record game := Game {
  g_mode : game_state;
  (** the pointer, the size of its image, and the bytes received of a packet *)
  g_pointer : Z * Z;
  g_size : Z * Z;
  g_packet : list Z;
  (** the button that the menu highlights *)
  g_button : Button;
  (** the ship *)
  g_cannon : Z;
  g_lives : Z;
  (** the upper left corners of the aliens, and the direction of their march *)
  g_fleet : list (Z * Z);
  g_right : bool;
  (** the bullets in flight: that of the ship and that of the aliens *)
  g_shot : option (Z * Z);
  g_bomb : option (Z * Z);
  (** the ticks since the last march and the ticks between marches *)
  g_clock : Z;
  g_period : Z;
}.

#[export] Instance settable_game : Settable game := fun g =>
  Game (g_mode g) (g_pointer g) (g_size g) (g_packet g) (g_button g) (g_cannon g) (g_lives g) (g_fleet g) (g_right g)
    (g_shot g) (g_bomb g) (g_clock g) (g_period g).

Inductive event :=
| MouseByte (b : Z)
| KeyByte (c : Z)
| Tick (shooter : nat).

(** The sizes of the images. *)
Abbreviation ship_width := 75.
Abbreviation ship_height := 80.
Abbreviation alien_size := (60, 40).
Abbreviation bullet_size := (5, 20).

(** ** A new game and a new fleet *)

(** Column by column, three aliens to a column. *)
Definition formation_point (i : Z) : Z * Z := (24 + 80 * (i / ROW_ALIENS), 20 + 60 * (i mod ROW_ALIENS)).

Definition formation : list (Z * Z) := formation_point <$> seqZ 0 SIZE_OF_ALIENS.

(** The start button. *)
Definition start_round (g : game) : game := g <| g_mode := PLAYING |> <| g_fleet := formation |>.

(** The last life is lost or an alien has landed: back to the menu, with a new ship. *)
Definition game_over (g : game) : game :=
  g <| g_cannon := 512 |> <| g_lives := NUMLIVES |> <| g_mode := MENU_DISPLAY |>.

(** ** The mouse *)

(** The pointer moves by the displacement of the packet and stays on the screen. *)
Definition point (b0 b1 b2 : Z) (g : game) : game :=
  let '(x, y) := g_pointer g in
  let '(w, h) := g_size g in
  g <| g_pointer := (Z.max 0 (Z.min (X_RES - w) (x + displacement (Z.testbit b0 4) b1)),
                     Z.max 0 (Z.min (Y_RES - h) (y - displacement (Z.testbit b0 5) b2))) |>.

Definition highlight (g : game) : game := g <| g_button := getButton (fst (g_pointer g)) (snd (g_pointer g)) |>.

(** A packet is complete; [pressed] is the left button. *)
Definition click_menu (pressed : bool) (g : game) : game :=
  let g := highlight g in
  if pressed then
    match g_button g with
    | START_BUTTON => start_round g
    | INSTRUCTIONS_BUTTON => g <| g_mode := INSTRUCTIONS_DISPLAY |>
    | EXIT_BUTTON => g <| g_mode := EXIT |>
    | INITIAL => g
    end
  else g.

Definition click_instructions (pressed : bool) (g : game) : game :=
  if pressed && getInstructionButton (fst (g_pointer g)) (snd (g_pointer g))
  then g <| g_mode := MENU_DISPLAY |> <| g_button := INITIAL |>
  else g.

(** One bullet of the ship at a time. *)
Definition shoot (pressed : bool) (g : game) : game :=
  match g_shot g with
  | None => if pressed then g <| g_shot := Some (g_cannon g + ship_width / 2, SHIP_YPOS) |> else g
  | Some _ => g
  end.

Definition click (pressed : bool) (g : game) : game :=
  match g_mode g with
  | MENU_DISPLAY => click_menu pressed g
  | INSTRUCTIONS_DISPLAY => click_instructions pressed g
  | PLAYING => shoot pressed g
  | NEXT_ROUND | EXIT => g
  end.

(** The first byte of a packet has bit 3 set; the third one completes it. *)
Definition mouse_byte (b : Z) (g : game) : game :=
  match g_packet g with
  | [] => if Z.testbit b 3 then g <| g_packet := [b] |> else g
  | [b0] => g <| g_packet := [b0; b] |>
  | b0 :: b1 :: _ => click (Z.testbit b0 0) (point b0 b1 b (g <| g_packet := [] |>))
  end.

(** ** The keyboard *)

Definition move_cannon (dx : Z) (g : game) : game :=
  g <| g_cannon := clamp X_MIN (X_MAX - ship_width) (g_cannon g + dx) |>.

Definition key_byte (c : Z) (g : game) : game :=
  if c =? 0xE0 then g else
  if c =? ESC_BREAK then g <| g_mode := EXIT |> else
  match g_mode g with
  | PLAYING => if c =? 0x1E then move_cannon (-15) g else if c =? 0x20 then move_cannon 15 g else g
  | _ => g
  end.

(** ** The timer *)

(** Every slot of the array moves the bullet once. *)
Definition climb (g : game) : game :=
  g <| g_shot := (fun '(x, y) => (x, y - MAX_SHIP_BULLETS * SHIP_BULLET_SPEED)) <$> g_shot g |>.

Definition in_cannon (p : Z * Z) (g : game) : bool :=
  (g_cannon g <=? fst p) && (fst p + fst bullet_size <=? g_cannon g + ship_width) &&
  (SHIP_YPOS <=? snd p) && (snd p + snd bullet_size <=? SHIP_YPOS + ship_height).

(** The march of the fleet: one pixel in its direction, and down when it reaches the border. *)
Definition alien_march (right : bool) (p : Z * Z) : Z * Z := (fst p + (if right then 1 else -1), snd p).

Definition alien_turns (right : bool) (p : Z * Z) : bool :=
  if right then X_RIGHT_BORDER <=? fst p + fst alien_size else fst p <=? X_LEFT_BORDER.

Definition alien_lowered (p : Z * Z) : Z * Z := (fst p, snd p + 20).

Definition alien_lands (p : Z * Z) : bool := TERRITORY <=? snd p + snd alien_size.

Definition march_fleet (g : game) : game :=
  if g_period g <=? g_clock g then
    let l := alien_march (g_right g) <$> g_fleet g in
    let turn := existsb (alien_turns (g_right g)) l in
    let g' := g <| g_clock := 0 |> <| g_fleet := if turn then alien_lowered <$> l else l |>
                <| g_right := if turn then negb (g_right g) else g_right g |> in
    if existsb alien_lands (g_fleet g) then game_over g' else g'
  else g.

(** The bullet of the aliens falls; the ship can be hit where it ends up.  The second component tells
    whether the last life is lost. *)
Definition bomb_falls (x y : Z) (g : game) : game * bool :=
  let lands := 720 <=? y + ALIEN_BULLET_SPEED + snd bullet_size in
  let p := (x, if lands then y else y + ALIEN_BULLET_SPEED) in
  let hit := in_cannon p g in
  let g := g <| g_bomb := if lands || hit then None else Some p |> in
  if hit then (g <| g_lives := g_lives g - 1 |>, g_lives g =? 1) else (g, false).

(** Alien [i] shoots. *)
Definition drop_bomb (i : nat) (g : game) : game :=
  g <| g_bomb := (fun '(x, y) => (x + fst alien_size / 2, y + snd alien_size)) <$> (g_fleet g !! i) |>.

Definition bombard (i : nat) (g : game) : game * bool :=
  match g_bomb g with
  | None => (drop_bomb i g, false)
  | Some (x, y) => bomb_falls x y g
  end.

(** The rest of the frame is skipped when the game is lost to a bullet. *)
Definition frame (i : nat) (g : game) : game :=
  let '(g, lost) := bombard i (climb g) in
  if lost then game_over g else march_fleet g.

Definition tick (i : nat) (g : game) : game :=
  let g := g <| g_clock := i32 (g_clock g + 1) |> in
  match g_mode g with
  | MENU_DISPLAY => highlight g
  | PLAYING => frame i g
  | INSTRUCTIONS_DISPLAY | NEXT_ROUND | EXIT => g
  end.

(** ** Events *)

Definition react (e : event) (g : game) : game :=
  match e with
  | MouseByte b => mouse_byte b g
  | KeyByte c => key_byte c g
  | Tick i => tick i g
  end.

(** The game after a sequence of events. *)
Definition play (es : list event) (g : game) : game := fold_left (fun g e => react e g) es g.

Lemma play_app es es' g : play (es ++ es') g = play es' (play es g).
Proof. apply fold_left_app. Qed.

(** ** The removal of the shot *)

(** The next move takes the shot past the top of the screen. *)
Definition shot_leaves (g : game) : bool :=
  match g_shot g with
  | Some (x, y) => y <? MAX_SHIP_BULLETS * SHIP_BULLET_SPEED
  | None => false
  end.

Definition in_alien (q p : Z * Z) : bool :=
  (fst p <? fst q) && (fst q <? fst p + fst alien_size) && (snd p <? snd q) && (snd q <? snd p + snd alien_size).

(** The shot is inside an alien where that stands after its next step. *)
Definition shot_strikes (g : game) : bool :=
  match g_shot g with
  | Some q => existsb (in_alien q) (alien_march (g_right g) <$> g_fleet g)
  | None => false
  end.

(** The fleet meets the shot only in a frame in which it marches. *)
Definition march_strikes (g : game) : bool := (g_period g <=? g_clock g) && shot_strikes g.

Definition frame_removes (i : nat) (g : game) : bool :=
  shot_leaves g || let '(g', lost) := bombard i (climb g) in negb lost && march_strikes g'.

(** The event removes the shot. *)
Definition removes (e : event) (g : game) : bool :=
  match e with
  | Tick i => is_state (g_mode g) PLAYING && frame_removes i (g <| g_clock := i32 (g_clock g + 1) |>)
  | MouseByte _ | KeyByte _ => false
  end.

(** One of the events does. *)
Fixpoint removal (es : list event) (g : game) : bool :=
  match es with
  | [] => false
  | e :: es => removes e g || removal es (react e g)
  end.

Lemma removal_app es es' g : removal (es ++ es') g = removal es g || removal es' (play es g).
Proof. revert g. induction es as [|e es IH]; intros g; [done|]. cbn [app removal]. by rewrite IH, orb_assoc. Qed.

Definition is_tick (e : event) : bool := match e with Tick _ => true | _ => false end.

Definition ticks (es : list event) : nat := length (filter (fun e => is_tick e = true) es).

Lemma ticks_app es es' : ticks (es ++ es') = (ticks es + ticks es')%nat.
Proof. unfold ticks. by rewrite filter_app, length_app. Qed.

Lemma ticks_cons e es : ticks (e :: es) = ((if is_tick e then 1 else 0) + ticks es)%nat.
Proof. unfold ticks. rewrite filter_cons. by destruct e. Qed.

(** ** The game in the state of the program *)

Definition place_of (a : Alien) : Z * Z := (alien_x a, alien_y a).

Definition pointer_of {D} (s : state D) : option Mouse := deref (mice s) (mouse (loc s)).

Definition ship_of {D} (s : state D) : option Ship := deref (ships s) (ship (loc s)).

(** The bullet that the slots hold. *)
Definition shot_of {D} (s : state D) : option (Z * Z) :=
  b ← deref (bullets s) (default NULL (head (shipBullets s)));
  Some (sb_x b, sb_y b).

Definition bomb_of {D} (s : state D) : option (Z * Z) :=
  b ← deref (alien_bullets s) (alienBullet s);
  if ab_active b then Some (ab_x b, ab_y b) else None.

Definition view {D} (s : state D) : game := {|
  g_mode := gameState s;
  g_pointer := from_option (fun m => (mouse_x m, mouse_y m)) (0, 0) (pointer_of s);
  g_size := from_option (fun m => (width (mouse_img m), height (mouse_img m))) (0, 0) (pointer_of s);
  g_packet := take (Z.to_nat (currentByte (loc s) - 1)) (mouseBytes (loc s));
  g_button := button (loc s);
  g_cannon := from_option ship_x 0 (ship_of s);
  g_lives := from_option ship_lives 0 (ship_of s);
  g_fleet := place_of <$> aliens s;
  g_right := right_mov (loc s);
  g_shot := shot_of s;
  g_bomb := bomb_of s;
  g_clock := timer_counter s;
  g_period := ipf (loc s);
|}.

(** The title screen, on a system with [hz] ticks per second. *)
Definition new_game (hz : Z) : game := {|
  g_mode := MENU_DISPLAY; g_pointer := (50, 700); g_size := (25, 34); g_packet := []; g_button := INITIAL;
  g_cannon := 512; g_lives := NUMLIVES; g_fleet := replicate (Z.to_nat SIZE_OF_ALIENS) (0, 0); g_right := true;
  g_shot := None; g_bomb := None; g_clock := 0; g_period := hz ÷ 60;
|}.

(** [s'] is what [s] becomes when the events [es] are heard. *)
Definition heard {D} (es : list event) (s s' : state D) : Prop := view s' = play es (view s).

Lemma heard_trans {D} es es' (s1 s2 s3 : state D) : heard es s1 s2 -> heard es' s2 s3 -> heard (es ++ es') s1 s3.
Proof. unfold heard. intros H1 H2. by rewrite H2, H1, play_app. Qed.

Lemma heard_nil {D} (s : state D) : heard [] s s.
Proof. done. Qed.

(** ** What the view does not show, and how it changes *)

Section views.
Context {D : Type}.
Implicit Types s : state D.

Lemma view_system g d s : view (s <| gfx := g |> <| dev := d |>) = view s.
Proof. done. Qed.

Lemma view_ships h p sh s :
  ship (loc s) = Some p -> cells h !! p = Some sh ->
  view (s <| ships := h |>) = (view s) <| g_cannon := ship_x sh |> <| g_lives := ship_lives sh |>.
Proof. intros Hp Hsh. unfold view, ship_of. get_set. rewrite Hp. cbn [deref mbind option_bind]. rewrite Hsh. reflexivity. Qed.

Lemma view_ship_same p sh s : ship (loc s) = Some p -> cells (ships s) !! p = Some sh ->
  g_cannon (view s) = ship_x sh /\ g_lives (view s) = ship_lives sh.
Proof. intros Hp Hsh. unfold view, ship_of. cbn [g_cannon g_lives]. rewrite Hp. cbn. by rewrite Hsh. Qed.

Lemma view_mouse_same p m s : mouse (loc s) = Some p -> cells (mice s) !! p = Some m ->
  g_pointer (view s) = (mouse_x m, mouse_y m) /\ g_size (view s) = (width (mouse_img m), height (mouse_img m)).
Proof. intros Hp Hm. unfold view, pointer_of. cbn [g_pointer g_size]. rewrite Hp. cbn. by rewrite Hm. Qed.

Lemma view_mice h p m s :
  mouse (loc s) = Some p -> cells h !! p = Some m ->
  view (s <| mice := h |>) = (view s) <| g_pointer := (mouse_x m, mouse_y m) |> <| g_size := (width (mouse_img m), height (mouse_img m)) |>.
Proof. intros Hp Hm. unfold view, pointer_of. get_set. rewrite Hp. cbn [deref mbind option_bind]. rewrite Hm. reflexivity. Qed.

Lemma view_button b s : view (s <| loc := (loc s) <| button := b |> |>) = (view s) <| g_button := b |>.
Proof. done. Qed.

Lemma view_mode gs s : view (s <| gameState := gs |>) = (view s) <| g_mode := gs |>.
Proof. done. Qed.

End views.
