(* ===== verification/GamePlay.v ===== *)
(** * How the abstract game goes

    Facts of the specification alone: the fleet keeps its formation, a round that nobody
    disturbs ends after a bounded number of ticks, and a bullet of the ship climbs to the
    top of the screen. *)

From S2P Require Import Prelude CMonad Heap Lcf Minix Macros ProjState Ship Menu MouseDriver GameSpec.
From stdpp Require Import options.

(** ** The formation *)

(** The fleet [dx] to the right of its first place and [k] rows below it. *)
Definition shifted (dx k : Z) : list (Z * Z) := (fun p => (fst p + dx, snd p + 20 * k)) <$> formation.

Lemma shifted_0 : shifted 0 0 = formation.
Proof. reflexivity. Qed.

(** The columns and the rows of the formation: what holds of its corners holds of all aliens. *)
Lemma formation_elem p : p ∈ formation -> 24 <= fst p <= 584 /\ 20 <= snd p <= 140.
Proof.
  unfold formation, formation_point, SIZE_OF_ALIENS, ROW_ALIENS. intros (i & -> & Hi)%list_elem_of_fmap. apply elem_of_seqZ in Hi. cbn [fst snd].
  Z.to_euclidean_division_equations; lia.
Qed.

Lemma existsb_shifted (f : Z * Z -> bool) dx k b :
  (forall p, p ∈ formation -> f (fst p + dx, snd p + 20 * k) = true -> b = true) ->
  (b = true -> exists p, p ∈ formation /\ f (fst p + dx, snd p + 20 * k) = true) ->
  existsb f (shifted dx k) = b.
Proof.
  intros H1 H2. destruct b; [|apply not_true_is_false]; [destruct (H2 eq_refl) as (p & Hp & Hf)|].
  - apply existsb_exists. exists (fst p + dx, snd p + 20 * k). split; [|done].
    apply list_elem_of_In, list_elem_of_fmap. by exists p.
  - intros (q & Hq & Hf)%existsb_exists. apply list_elem_of_In, list_elem_of_fmap in Hq as (p & -> & Hp).
    by specialize (H1 p Hp Hf).
Qed.

(** The alien that decides. *)
Lemma formation_corner i : 0 <= i < SIZE_OF_ALIENS -> formation_point i ∈ formation.
Proof. intros Hi. apply list_elem_of_fmap. exists i. split; [done|]. apply elem_of_seqZ. lia. Qed.

Lemma march_shifted right dx k : alien_march right <$> shifted dx k = shifted (dx + if right then 1 else -1) k.
Proof.
  unfold shifted. rewrite <- list_fmap_compose. apply list_fmap_ext. intros i p _. unfold compose, alien_march. cbn [fst snd]. f_equal. lia.
Qed.

Lemma lower_shifted dx k : alien_lowered <$> shifted dx k = shifted dx (k + 1).
Proof.
  unfold shifted. rewrite <- list_fmap_compose. apply list_fmap_ext. intros i p _. unfold compose, alien_lowered. cbn [fst snd]. f_equal. lia.
Qed.

Lemma turns_shifted (right : bool) dx k :
  existsb (alien_turns right) (shifted dx k) = if right then 360 <=? dx else dx <=? -4.
Proof.
  apply existsb_shifted; unfold alien_turns, X_RIGHT_BORDER, X_LEFT_BORDER; cbn [fst snd].
  - intros p Hp%formation_elem. destruct right; lia.
  - destruct right; intros Hb.
    + exists (formation_point 21). split; [by apply formation_corner|]. change (fst (formation_point 21)) with 584. lia.
    + exists (formation_point 0). split; [by apply formation_corner|]. change (fst (formation_point 0)) with 24. lia.
Qed.

Lemma lands_shifted dx k : existsb alien_lands (shifted dx k) = (21 <=? k).
Proof.
  apply existsb_shifted; unfold alien_lands, TERRITORY; cbn [fst snd].
  - intros p Hp%formation_elem. lia.
  - intros Hb. exists (formation_point 2). split; [by apply formation_corner|]. change (snd (formation_point 2)) with 140. lia.
Qed.

(** ** A round *)

(** The steps to the border that the fleet marches to. *)
Definition distance (right : bool) (dx : Z) : Z := if right then 360 - dx else dx + 4.

(** The fleet marches in formation between the borders, and its lowest row is above the territory. *)
Definition marching_order (right : bool) (dx k : Z) : Prop := -4 <= dx <= 360 /\ 0 < distance right dx /\ 0 <= k <= 21.

(** Before the first round the fleet is not there; in later menus it is where the round ended. *)
Definition orderly (g : game) : Prop :=
  (g_fleet g = replicate (Z.to_nat SIZE_OF_ALIENS) (0, 0) /\ g_mode g <> PLAYING) \/
  exists dx k, g_fleet g = shifted dx k /\ -4 <= dx <= 360 /\ 0 <= k <= 22 /\
    (g_mode g = PLAYING -> marching_order (g_right g) dx k).

(** The ticks that a round can still last: the frames until the fleet has landed, of [pace] ticks each. *)
Definition pace (g : game) : Z := Z.max 1 (g_period g).

Definition frames_left (right : bool) (dx k : Z) : Z := 364 * (21 - k) + distance right dx.

Definition round_lasts (n : Z) (g : game) : Prop :=
  exists dx k, g_fleet g = shifted dx k /\ marching_order (g_right g) dx k /\ 0 <= g_clock g /\
    n = pace g * frames_left (g_right g) dx k - Z.min (g_clock g) (pace g - 1).

Lemma round_lasts_pos n g : round_lasts n g -> 0 < n.
Proof.
  intros (dx & k & _ & (_ & Hd & Hk) & Hc & ->). unfold frames_left. assert (1 <= pace g) by (unfold pace; lia). nia.
Qed.

Lemma round_lasts_start g : 0 <= g_clock g -> exists n, round_lasts n (start_round g) /\ n <= 8004 * pace g.
Proof.
  intros Hc. eexists. split; [exists 0, 0; split; [reflexivity|]; split; [|split; [exact Hc|reflexivity]]|].
  - unfold marching_order, distance. change (g_right (start_round g)) with (g_right g). destruct (g_right g); lia.
  - unfold frames_left, distance. change (g_right (start_round g)) with (g_right g).
    change (pace (start_round g)) with (pace g). change (g_clock (start_round g)) with (g_clock g).
    assert (1 <= pace g) by (unfold pace; lia). destruct (g_right g); nia.
Qed.

(** The mouse, the keyboard and the bullets do not disturb the march. *)
Definition same_march (g g' : game) : Prop :=
  g_fleet g' = g_fleet g /\ g_right g' = g_right g /\ g_clock g' = g_clock g /\ g_period g' = g_period g.

Lemma same_march_refl g : same_march g g.
Proof. done. Qed.

Lemma bombard_march i g : same_march g (fst (bombard i g)) /\ g_mode (fst (bombard i g)) = g_mode g.
Proof. unfold bombard, bomb_falls. destruct (g_bomb g) as [[x y]|]; [|done]. by destruct (in_cannon _ _). Qed.

Lemma game_over_march g : same_march g (game_over g).
Proof. done. Qed.

Lemma point_march b0 b1 b2 g : same_march g (point b0 b1 b2 g) /\ g_mode (point b0 b1 b2 g) = g_mode g /\ g_shot (point b0 b1 b2 g) = g_shot g.
Proof. unfold point. by destruct (g_pointer g), (g_size g). Qed.

Lemma shoot_march p g : same_march g (shoot p g) /\ g_mode (shoot p g) = g_mode g.
Proof. unfold shoot. by destruct (g_shot g), p. Qed.

(** An input that does not start a round leaves the march alone, and play does not begin by itself. *)
Definition off_march (g g' : game) : Prop := same_march g g' /\ (g_mode g' = PLAYING -> g_mode g = PLAYING).

Lemma click_march p g : off_march g (click p g) \/ click p g = start_round (highlight g).
Proof.
  unfold click, click_menu, click_instructions. destruct (g_mode g) eqn:Hm; try (by left).
  - destruct p; [|left; split; [done|]; change (g_mode (highlight g)) with (g_mode g); congruence].
    destruct (g_button (highlight g)); [by right|left..]; by split.
  - left. destruct (_ && _); (split; [done|]); [done|congruence].
  - left. split; [apply shoot_march|done].
Qed.

Lemma off_march_trans g1 g2 g3 : off_march g1 g2 -> off_march g2 g3 -> off_march g1 g3.
Proof. unfold off_march, same_march. intros [(-> & -> & -> & ->) H1] [(-> & -> & -> & ->) H2]. split; [done|auto]. Qed.

Lemma mouse_march b g : off_march g (mouse_byte b g) \/ exists g', mouse_byte b g = start_round g' /\ g_clock g' = g_clock g /\ g_period g' = g_period g.
Proof.
  unfold mouse_byte. destruct (g_packet g) as [|b0 [|b1 l]].
  - left. by destruct (Z.testbit b 3).
  - by left.
  - destruct (point_march b0 b1 b (g <| g_packet := [] |>)) as (Hp & Hpm & _). set (g1 := point _ _ _ _) in *.
    assert (off_march g g1) as H1 by (split; [exact Hp|by rewrite Hpm]).
    destruct (click_march (Z.testbit b0 0) g1) as [Hc|Hc]; [left; by eapply off_march_trans|right; exists (highlight g1)].
    split; [done|]. by destruct Hp as (_ & _ & ? & ?).
Qed.

Lemma key_march c g : off_march g (key_byte c g).
Proof.
  unfold off_march, key_byte. destruct (c =? 0xE0); [done|]. destruct (c =? ESC_BREAK); [done|].
  destruct (g_mode g) eqn:Hm; try (split; [done|congruence]). by destruct (c =? 0x1E), (c =? 0x20).
Qed.

(** In play the mouse only shoots. *)
Lemma mouse_in_play b g :
  g_mode g = PLAYING -> same_march g (mouse_byte b g) /\ g_mode (mouse_byte b g) = PLAYING /\
    (forall q, g_shot g = Some q -> g_shot (mouse_byte b g) = Some q).
Proof.
  intros Hm. unfold mouse_byte. destruct (g_packet g) as [|b0 [|b1 l]]; [by destruct (Z.testbit b 3)|done|].
  destruct (point_march b0 b1 b (g <| g_packet := [] |>)) as (Hp & Hpm & Hps). set (g1 := point _ _ _ _) in *.
  unfold click. rewrite Hpm. change (g_mode (g <| g_packet := [] |>)) with (g_mode g). rewrite Hm.
  destruct (shoot_march (Z.testbit b0 0) g1) as [Hs Hsm]. rewrite Hsm, Hpm. split; [|split; [done|]].
  - unfold same_march in *. destruct Hs as (-> & -> & -> & ->). by destruct Hp as (-> & -> & -> & ->).
  - intros q Hq. assert (g_shot g1 = Some q) as He by (by rewrite Hps). unfold shoot. by rewrite He.
Qed.

(** A frame in which the fleet marches. *)
Lemma march_fleet_round g dx k :
  g_fleet g = shifted dx k -> marching_order (g_right g) dx k ->
  let d := dx + if g_right g then 1 else -1 in
  let turn := distance (g_right g) dx =? 1 in
  march_fleet g =
    if g_period g <=? g_clock g then
      let g' := g <| g_clock := 0 |> <| g_fleet := shifted d (if turn then k + 1 else k) |>
                  <| g_right := if turn then negb (g_right g) else g_right g |> in
      if k =? 21 then game_over g' else g'
    else g.
Proof.
  intros Hf (Hx & Hd & Hk). cbv zeta. unfold march_fleet. ifcase; [|done]. rewrite Hf, march_shifted, turns_shifted, lands_shifted.
  assert ((if g_right g then 360 <=? dx + (if g_right g then 1 else -1) else dx + (if g_right g then 1 else -1) <=? -4) =
    (distance (g_right g) dx =? 1)) as -> by (unfold distance in *; destruct (g_right g); lia).
  assert ((21 <=? k) = (k =? 21)) as -> by lia. rewrite lower_shifted. by destruct (distance _ _ =? 1).
Qed.

Lemma march_step (right : bool) dx k :
  marching_order right dx k -> k < 21 ->
  let turn := distance right dx =? 1 in
  let right' := if turn then negb right else right in
  let d := dx + if right then 1 else -1 in
  let k' := if turn then k + 1 else k in
  marching_order right' d k' /\ frames_left right' d k' = frames_left right dx k - 1.
Proof.
  unfold marching_order, frames_left, distance. intros (Hx & Hd & Hk) Hlt.
  destruct right; cbv zeta; match goal with |- context [?x =? 1] => destruct (Z.eqb_spec x 1) end; cbn [negb]; lia.
Qed.

(** One tick of a round. *)
Lemma tick_round_lasts i n g :
  round_lasts n g -> g_mode g = PLAYING -> g_clock g < 2 ^ 31 - 1 -> g_mode (tick i g) = PLAYING ->
  round_lasts (n - 1) (tick i g) /\ g_period (tick i g) = g_period g /\ g_clock (tick i g) <= g_clock g + 1.
Proof.
  intros (dx & k & Hf & Ho & Hc & ->) Hm Hlt. unfold tick. rewrite i32_id by (unfold in_i32; lia).
  change (g_mode (g <| g_clock := g_clock g + 1 |>)) with (g_mode g). rewrite Hm. unfold frame.
  set (g1 := climb _). destruct (bombard_march i g1) as [(Hf2 & Hr2 & Hc2 & Hp2) Hm2]. destruct (bombard i g1) as [g2 lost].
  cbn [fst] in *. change (g_fleet g1) with (g_fleet g) in Hf2. change (g_right g1) with (g_right g) in Hr2.
  change (g_clock g1) with (g_clock g + 1) in Hc2. change (g_period g1) with (g_period g) in Hp2.
  destruct lost; [done|]. rewrite (march_fleet_round g2 dx k) by (rewrite ?Hf2, ?Hr2; done). cbv zeta. rewrite Hp2, Hc2, Hr2.
  assert (pace g2 = pace g) as Hpace by (unfold pace; by rewrite Hp2). assert (1 <= pace g) by (unfold pace; lia).
  destruct (Z.leb_spec (g_period g) (g_clock g + 1)) as [Hdue|Hdue].
  - destruct (Z.eqb_spec k 21) as [->|Hk]; [done|]. intros _. split; [|split; [exact Hp2|cbn [g_clock set_field settable_game]; get_set; lia]].
    destruct (march_step (g_right g) dx k Ho ltac:(destruct Ho as (_ & _ & ?); lia)) as [Ho' Hfr]. cbv zeta in Ho', Hfr.
    eexists _, _. split; [reflexivity|]. split; [exact Ho'|]. split; [done|]. get_set. rewrite Hfr.
    match goal with |- context [pace ?x] => lazymatch x with g => fail | _ => change (pace x) with (pace g2) end end. rewrite Hpace.
    assert (Z.min (g_clock g) (pace g - 1) = pace g - 1) as -> by (unfold pace; lia). nia.
  - intros _. split; [|split; [exact Hp2|lia]]. exists dx, k. rewrite Hf2, Hr2, Hc2, Hpace. split; [done|]. split; [done|]. split; [lia|].
    unfold pace in *. lia.
Qed.

(** Any event of a round that goes on. *)
Lemma react_round_lasts e n g :
  round_lasts n g -> g_mode g = PLAYING -> g_clock g < 2 ^ 31 - 1 -> g_mode (react e g) = PLAYING ->
  let t := if is_tick e then 1 else 0 in
  round_lasts (n - t) (react e g) /\ g_period (react e g) = g_period g /\ g_clock (react e g) <= g_clock g + t.
Proof.
  intros Hn Hm Hc Hm'. destruct e as [b|c|i]; cbn [react is_tick] in *; cbv zeta; [| |by apply tick_round_lasts]; rewrite Z.sub_0_r, Z.add_0_r.
  - destruct (mouse_in_play b g Hm) as [(Hf & Hr & Hk & Hp) _]. split; [|split; [done|lia]]. destruct Hn as (dx & k & Hn).
    exists dx, k. unfold pace in *. by rewrite Hf, Hr, Hk, Hp.
  - destruct (key_march c g) as [(Hf & Hr & Hk & Hp) _]. split; [|split; [done|lia]]. destruct Hn as (dx & k & Hn).
    exists dx, k. unfold pace in *. by rewrite Hf, Hr, Hk, Hp.
Qed.

(** ** Sequences of events *)

Lemma orderly_off_march g g' : off_march g g' -> orderly g -> orderly g'.
Proof.
  intros [(Hf & Hr & _) Hm] [[H1 H2]|(dx & k & H1 & Hx & Hk & H2)]; [left; rewrite Hf; by auto|right].
  exists dx, k. rewrite Hf, Hr. split; [done|]. split; [done|]. split; [done|]. intros Hg. apply H2, Hm, Hg.
Qed.

Lemma orderly_start g : orderly (start_round g).
Proof.
  right. exists 0, 0. split; [reflexivity|]. split; [lia|]. split; [lia|]. intros _. unfold marching_order, distance.
  destruct (g_right _); lia.
Qed.

Lemma orderly_tick i g : orderly g -> orderly (tick i g).
Proof.
  intros Ho. unfold tick. set (g0 := g <| g_clock := _ |>). assert (orderly g0) as Ho0 by exact Ho. clearbody g0. clear Ho g.
  destruct (g_mode g0) eqn:Hm; [by apply (orderly_off_march g0)|done| |done|done]. unfold frame. set (g1 := climb g0).
  destruct Ho0 as [[_ ?]|(dx & k & Hf & Hx & Hk & Ho)]; [done|]. specialize (Ho Hm).
  destruct (bombard_march i g1) as [(Hf2 & Hr2 & _) Hm2]. destruct (bombard i g1) as [g2 lost]. cbn [fst] in *.
  change (g_fleet g1) with (g_fleet g0) in Hf2. change (g_right g1) with (g_right g0) in Hr2. right. destruct lost.
  { exists dx, k. split; [by rewrite <- Hf|]. by split. }
  rewrite (march_fleet_round g2 dx k) by (rewrite ?Hf2, ?Hr2; done). cbv zeta. rewrite Hr2. ifcase.
  2:{ exists dx, k. rewrite Hf2, Hr2. do 3 (split; [done|]). by intros _. }
  pose proof Ho as (_ & Hd & Hk').
  destruct (Z.eqb_spec k 21) as [->|Hne].
  - eexists _, _. split; [reflexivity|]. unfold distance in *. split; [destruct (g_right g0); lia|]. split; [destruct (_ =? 1); lia|done].
  - destruct (march_step (g_right g0) dx k Ho ltac:(lia)) as [Hstep _]. cbv zeta in Hstep. eexists _, _. split; [reflexivity|].
    destruct Hstep as (Hs1 & Hs2 & Hs3). split; [exact Hs1|]. split; [lia|]. by intros _.
Qed.

Lemma orderly_play es g : orderly g -> orderly (play es g).
Proof.
  revert g. induction es as [|e es IH]; intros g Ho; [done|]. apply IH. destruct e as [b|c|i]; cbn [react].
  - destruct (mouse_march b g) as [H|(g' & -> & _)]; [by eapply orderly_off_march|apply orderly_start].
  - eapply orderly_off_march; [apply key_march|done].
  - by apply orderly_tick.
Qed.

(** The bullet of the ship climbs while the game is played. *)
Lemma react_shot e x y g :
  g_mode g = PLAYING -> g_shot g = Some (x, y) -> g_shot (react e g) = Some (x, y - if is_tick e then 28 else 0).
Proof.
  intros Hm Hs. destruct e as [b|c|i]; cbn [react is_tick]; rewrite ?Z.sub_0_r.
  - by apply mouse_in_play.
  - unfold key_byte. rewrite Hm. by destruct (c =? 0xE0), (c =? ESC_BREAK), (c =? 0x1E), (c =? 0x20).
  - unfold tick. change (g_mode (g <| g_clock := i32 (g_clock g + 1) |>)) with (g_mode g). rewrite Hm. unfold frame.
    set (g1 := climb _). assert (g_shot g1 = Some (x, y - 28)) as H1 by (unfold g1, climb; get_set; by rewrite Hs).
    assert (g_shot (fst (bombard i g1)) = Some (x, y - 28)) as H2.
    { unfold bombard, bomb_falls. destruct (g_bomb g1) as [[? ?]|]; [|done]. by destruct (in_cannon _ _). }
    destruct (bombard i g1) as [g2 []]; [done|]. unfold march_fleet. cbn [fst] in H2. ifcase; [|done]. by destruct (existsb alien_lands _).
Qed.

(** The events of one notification: of the mouse, of the keyboard, of the timer. *)
Definition in_order (es : list event) : Prop :=
  exists m k t, es = m ++ k ++ t /\ (m = [] \/ exists b, m = [MouseByte b]) /\ (k = [] \/ exists c, k = [KeyByte c]) /\
    (t = [] \/ exists i, t = [Tick i]).

Lemma tick_exit i g : g_mode g = EXIT -> g_mode (tick i g) = EXIT.
Proof. intros Hm. unfold tick. change (g_mode (g <| g_clock := i32 (g_clock g + 1) |>)) with (g_mode g). by rewrite Hm. Qed.

Lemma key_in_play c g : g_mode g = PLAYING -> g_mode (key_byte c g) = PLAYING \/ g_mode (key_byte c g) = EXIT.
Proof.
  intros Hm. unfold key_byte. rewrite Hm. destruct (c =? 0xE0); [by left|]. destruct (c =? ESC_BREAK); [by right|]. left.
  by destruct (c =? 0x1E), (c =? 0x20).
Qed.

(** A property of the events of a round, one after the other. *)
Lemma play_in_order (R : Z -> game -> Prop) es n g :
  (forall e m g, R m g -> g_mode g = PLAYING -> g_mode (react e g) = PLAYING -> R (m + if is_tick e then 1 else 0) (react e g)) ->
  in_order es -> R n g -> g_mode g = PLAYING -> g_mode (play es g) = PLAYING -> R (n + Z.of_nat (ticks es)) (play es g).
Proof.
  intros Hstep (m & k & t & -> & Hm & Hk & Ht) HR Hg Hend. rewrite !ticks_app, !play_app in *.
  assert (g_mode (play m g) = PLAYING /\ R n (play m g) /\ ticks m = 0%nat) as (H1 & HR1 & ->).
  { destruct Hm as [->|[b ->]]; [done|]. cbn [play fold_left]. pose proof (mouse_in_play b g Hg) as (_ & Hp & _). split; [done|].
    split; [|done]. specialize (Hstep (MouseByte b) n g HR Hg Hp). cbn [is_tick] in Hstep. by rewrite Z.add_0_r in Hstep. }
  set (g1 := play m g) in *. clearbody g1.
  assert (g_mode (play k g1) = PLAYING /\ R n (play k g1) /\ ticks k = 0%nat) as (H2 & HR2 & ->).
  { destruct Hk as [->|[c ->]]; [done|]. cbn [play fold_left] in *. destruct (key_in_play c g1 H1) as [Hp|Hx].
    - split; [done|]. split; [|done]. specialize (Hstep (KeyByte c) n g1 HR1 H1 Hp). cbn [is_tick] in Hstep. by rewrite Z.add_0_r in Hstep.
    - exfalso. destruct Ht as [->|[i ->]]; cbn [play fold_left react] in *; [congruence|]. rewrite tick_exit in Hend; done. }
  set (g2 := play k g1) in *. clearbody g2. destruct Ht as [->|[i ->]]; [by rewrite Z.add_0_r|]. exact (Hstep (Tick i) n g2 HR2 H2 Hend).
Qed.

(** ** Games without a shot *)

Lemma bombard_shot i g : g_shot (fst (bombard i g)) = g_shot g.
Proof. unfold bombard, bomb_falls. destruct (g_bomb g) as [[x y]|]; [|done]. by destruct (in_cannon _ _). Qed.

Lemma mouse_outside_play b g : g_mode g <> PLAYING -> g_shot (mouse_byte b g) = g_shot g.
Proof.
  intros Hm. unfold mouse_byte. destruct (g_packet g) as [|b0 [|b1 l]]; [by destruct (Z.testbit b 3)|done|].
  destruct (point_march b0 b1 b (g <| g_packet := [] |>)) as (_ & Hpm & Hps). set (g1 := point _ _ _ _) in *.
  change (g_shot g1 = g_shot g) in Hps. rewrite <- Hps. unfold click, click_menu, click_instructions. rewrite Hpm. change (g_mode (g <| g_packet := [] |>)) with (g_mode g).
  destruct (g_mode g); [|by destruct (_ && _)|done..]. by destruct (Z.testbit b0 0), (g_button (highlight g1)).
Qed.

Lemma key_shot c g : g_shot (key_byte c g) = g_shot g.
Proof.
  unfold key_byte. destruct (c =? 0xE0); [done|]. destruct (c =? ESC_BREAK); [done|]. destruct (g_mode g); try done.
  by destruct (c =? 0x1E), (c =? 0x20).
Qed.

Lemma removes_shot e g : g_shot g = None -> removes e g = false.
Proof.
  intros Hs. destruct e as [| |i]; [done..|]. unfold removes. destruct (is_state _ _); [cbn [andb]|done]. set (g1 := g <| g_clock := _ |>).
  assert (g_shot g1 = None) as Hs1 by exact Hs.
  assert (g_shot (climb g1) = None) as Hc by (unfold climb; get_set; by rewrite Hs1).
  unfold frame_removes, shot_leaves. rewrite Hs1. cbn [orb].
  pose proof (bombard_shot i (climb g1)) as Hb. rewrite Hc in Hb. destruct (bombard i (climb g1)) as [g2 lost]. cbn [fst] in Hb.
  unfold march_strikes, shot_strikes. rewrite Hb. by rewrite !andb_false_r.
Qed.

(** A notification in a menu. *)
Lemma removal_menu es g : in_order es -> g_mode g <> PLAYING -> g_shot g = None -> removal es g = false.
Proof.
  intros (m & k & t & -> & Hm & Hk & Ht) Hg Hs. rewrite !removal_app.
  assert (g_shot (play m g) = None /\ removal m g = false) as [Hs1 ->].
  { destruct Hm as [->|[b ->]]; [done|]. cbn [play fold_left react]. by rewrite mouse_outside_play. }
  set (g1 := play m g) in *. clearbody g1.
  assert (g_shot (play k g1) = None /\ removal k g1 = false) as [Hs2 ->].
  { destruct Hk as [->|[c ->]]; [done|]. cbn [play fold_left react]. by rewrite key_shot. }
  destruct Ht as [->|[i ->]]; [done|]. cbn [removal]. by rewrite removes_shot.
Qed.
