(* ===== verification/Game.v ===== *)
(** * The game: proj/src/game.c

    [game_loop] is split where its source has sections: the set-up, one
    definition per interrupt source and per game state, the dispatch of a
    notification, the loop and the tear-down.  [CContinue] is the source's
    [continue] of the notification loop, [CBreak] its [break] out of the [switch]
    on the message source, [CReturn] its [return]. *)

From S2P Require Import Prelude CMonad Heap Lcf Minix Macros ProjState Graphics Timer Keyboard MouseDriver Rtc.
From S2P Require Import Ship Aliens ShipBullets AlienBullets Menu.
From stdpp Require Import options.

Section game.
Context {D : Type} `{K : Kernel D}.

(** The alien that the nested loops of [initGame] create in row [r]. *)
Definition createAlien_row (r xi yi : Z) : M (state D) Alien :=
  if r =? 0 then createAlien xi yi alien3 alien3_m 30
  else if r =? 1 then createAlien xi yi alien1 alien1_m 20
  else createAlien xi yi alien2 alien2_m 10.

(** The nested loops of [initGame]; [xi], [yi] and [indice] are carried along. *)
Definition create_aliens : M (state D) (Z * Z * nat) :=
  for_acc (seqZ 0 COL_ALIENS) (24, 20, 0%nat) (fun _ '(xi, yi, indice) =>
    '(xi, yi, indice) <- for_acc (seqZ 0 ROW_ALIENS) (xi, yi, indice) (fun r '(xi, yi, indice) =>
      a <- createAlien_row r xi yi ;;
      set_alien indice a ;;
      ret (xi, i32 (yi + 60), S indice)) ;;
    ret (i32 (xi + 80), 20, indice)).

(** The ship created here is not the one the caller plays with. *)
Definition initGame (sh : ptr) : M (state D) unit :=
  background <- loadBackground ;;
  gs <- gets gameState ;;
  when (negb (is_state gs NEXT_ROUND)) (createShip 512 SHIP_YPOS 15 ;; ret tt) ;;
  drawBackground background ;;
  drawShip sh ;;
  create_aliens ;;
  assign gameState PLAYING ;;
  assign killCount 0 ;;
  assign frames_per_state 20 ;;
  assign frame_counter 0 ;;
  assign changeSpeed false ;;
  assign changeDir false ;;
  modify (fun s => s <| speed := i32 (INITIAL_ALIEN_SPEED + i32 (2 * roundNum s)) |>).

(** ** The mouse *)

(** [drawMenu(button)], whose failure ends [game_loop]. *)
Definition show_menu : M (state D) unit :=
  b <- local button ;;
  rc <- drawMenu b ;;
  when (ctrue rc) (return_ 1).

Definition mouse_in_menu : M (state D) unit :=
  mp <- local mouse ;;
  m <- load mice mp ;;
  assign_loc button (getButton (mouse_x m) (mouse_y m)) ;;
  show_menu ;;
  drawMouse mp ;;
  m <- load mice mp ;;
  when (mouse_lb_pressed m) (
    b <- local button ;;
    match b with
    | START_BUTTON => sp <- local ship ;; initGame sp
    | INSTRUCTIONS_BUTTON => assign gameState INSTRUCTIONS_DISPLAY ;; drawInstructions false ;; ret tt
    | EXIT_BUTTON => assign gameState EXIT
    | INITIAL => ret tt
    end).

Definition mouse_in_instructions : M (state D) unit :=
  mp <- local mouse ;;
  m <- load mice mp ;;
  assign_loc instruction_button (getInstructionButton (mouse_x m) (mouse_y m)) ;;
  ib <- local instruction_button ;;
  rc <- drawInstructions ib ;;
  if ctrue rc then jump CContinue else
  drawMouse mp ;;
  m <- load mice mp ;;
  when (mouse_lb_pressed m) (when ib (
    assign gameState MENU_DISPLAY ;;
    assign_loc button INITIAL ;;
    drawMenu INITIAL ;;
    ret tt)).

Definition mouse_in_game : M (state D) unit :=
  mp <- local mouse ;;
  m <- load mice mp ;;
  when (mouse_lb_pressed m) (
    sp <- local ship ;;
    sh <- load ships sp ;;
    img <- local shipBullet_img ;;
    createShipBullet (i32 (ship_x sh + width (ship_img sh) ÷ 2)) (ship_y sh) SHIP_BULLET_SPEED img ;;
    m <- load mice mp ;;
    store mice mp (m <| mouse_lb_pressed := false |>)).

(** A complete packet: the pointer moves, then the game state decides. *)
Definition mouse_packet : M (state D) unit :=
  bs <- local mouseBytes ;;
  assign_loc pp (getMousePacket bs) ;;
  p <- local pp ;;
  mp <- local mouse ;;
  updateMouse p mp ;;
  gs <- gets gameState ;;
  match gs with
  | MENU_DISPLAY => mouse_in_menu
  | INSTRUCTIONS_DISPLAY => mouse_in_instructions
  | PLAYING => mouse_in_game
  | NEXT_ROUND | EXIT => ret tt
  end.

Definition set_mouse_byte (i : nat) (b : Z) : M (state D) unit :=
  modify (fun s => s <| loc := (loc s) <| mouseBytes := <[i := b]> (mouseBytes (loc s)) |> |>).

Definition mouse_interrupt : M (state D) unit :=
  mouse_ih ;;
  e <- gets ih_error ;;
  if ctrue e then assign ih_error 0 ;; jump CContinue else
  cur <- local currentByte ;;
  b <- gets mouse_scancode ;;
  if cur =? 1 then
    if Z.land b (BIT 3) =? 0 then jump CContinue else
    assign_loc currentByte 2 ;;
    set_mouse_byte 0 b
  else if cur =? 2 then
    assign_loc currentByte 3 ;;
    set_mouse_byte 1 b
  else if cur =? 3 then
    assign_loc currentByte 1 ;;
    set_mouse_byte 2 b ;;
    mouse_packet
  else ret tt.

(** ** The keyboard *)

Definition set_kbd_byte (i : nat) (b : Z) : M (state D) unit :=
  modify (fun s => s <| loc := (loc s) <| kbdBytes := <[i := b]> (kbdBytes (loc s)) |> |>).

(** The [switch] on the scancode. *)
Definition scancode_key (c : Z) : KeyActivity :=
  if c =? 0x1E then A_Pressed
  else if c =? 0x9E then A_Released
  else if c =? 0x20 then D_Pressed
  else if c =? 0xAE then D_Released
  else Invalid_key.

Definition keyboard_interrupt : M (state D) unit :=
  kbc_ih ;;
  c <- gets keyboard_scancode ;;
  if ctrue (twoBytes c) then assign_loc kbd_size 2 ;; jump CContinue else
  sz <- local kbd_size ;;
  (if sz =? 1 then set_kbd_byte 0 c else set_kbd_byte 0 0xE0 ;; set_kbd_byte 1 c) ;;
  assign_loc kbd_size 1 ;;
  if c =? ESC_BREAK then assign gameState EXIT ;; jump CContinue else
  gs <- gets gameState ;;
  when (is_state gs PLAYING) (
    assign_loc key (scancode_key c) ;;
    sp <- local ship ;;
    k <- local key ;;
    sp' <- updateShipPosition sp k ;;
    assign_loc ship sp').

(** ** The timer *)

(** A lost game: a new ship, the initial speed, the menu. *)
Definition lose_game : M (state D) unit :=
  sp <- createShip 512 SHIP_YPOS 15 ;;
  assign_loc ship sp ;;
  assign speed INITIAL_ALIEN_SPEED ;;
  assign roundNum 0 ;;
  assign gameState MENU_DISPLAY.

Definition draw_frame : M (state D) unit :=
  updateShipBulletPosition ;;
  bg <- local background ;;
  drawBackground bg ;;
  sp <- local ship ;;
  drawShip sp ;;
  drawShipBullets ;;
  drawAlienBullet ;;
  drawLives sp ;;
  drawScore sp.

(** The section ALIEN BULLET. *)
Definition alien_fire (fuel : nat) : M (state D) unit :=
  ap <- gets alienBullet ;;
  ab <- load alien_bullets ap ;;
  if negb (ab_active ab) then
    i <- generateAlienBullet fuel ;;
    a <- alien_at i ;;
    img <- local alienBullet_img ;;
    createAlienBullet (i32 (alien_x a + alien_width a ÷ 2)) (i32 (alien_y a + alien_height a))
      ALIEN_BULLET_SPEED img
  else
    updateAlienBulletPosition ;;
    sp <- local ship ;;
    verifyShipAndBulletCollision sp ;;
    sh <- load ships sp ;;
    when (ship_lives sh =? 0) (lose_game ;; jump CBreak).

(** The movement of alien [i], which detects the border. *)
Definition advance_alien (i : nat) (right mov : bool) (sp : Z) : M (state D) unit :=
  if right then
    change_alien_x_coordinates i sp ;;
    drawAlien i mov ;;
    a <- alien_at i ;;
    when (X_RIGHT_BORDER <=? i32 (alien_x a + alien_width a)) (assign changeDir true)
  else
    change_alien_x_coordinates i (i32 (- sp)) ;;
    drawAlien i mov ;;
    a <- alien_at i ;;
    when (alien_x a <=? X_LEFT_BORDER) (assign changeDir true).

(** The body of the loop over the aliens. *)
Definition alien_step (i : nat) : M (state D) unit :=
  a <- alien_at i ;;
  if negb (alien_alive a) then jump CContinue else
  right <- local right_mov ;;
  sp <- gets speed ;;
  mov <- local mov_img ;;
  advance_alien i right mov sp ;;
  shp <- local ship ;;
  verifyAlienAndBulletCollision i shp ;;
  a <- alien_at i ;;
  kc <- gets killCount ;;
  if TERRITORY <=? i32 (alien_y a + alien_height a) then lose_game
  else when (kc =? SIZE_OF_ALIENS) (
    assign gameState NEXT_ROUND ;;
    modify (fun s => s <| roundNum := i32 (roundNum s + 1) |>)).

(** The section ALIEN MOVEMENT. *)
Definition alien_move : M (state D) unit :=
  tc <- gets timer_counter ;;
  n <- local ipf ;;
  when (n <=? tc) (
    modify (fun s => s <| frame_counter := i32 (frame_counter s + 1) |>) ;;
    assign changeDir false ;;
    for_each (seq 0 (Z.to_nat SIZE_OF_ALIENS)) alien_step ;;
    cd <- gets changeDir ;;
    when cd (
      change_all_y 20 SIZE_OF_ALIENS ;;
      modify (fun s => s <| loc := (loc s) <| right_mov := negb (right_mov (loc s)) |> |>) ;;
      assign changeDir false) ;;
    modify (fun s => s <| row := i32 (row s + 1) |>) ;;
    assign timer_counter 0 ;;
    fc <- gets frame_counter ;;
    fps <- gets frames_per_state ;;
    when (fps <=? fc) (
      modify (fun s => s <| loc := (loc s) <| mov_img := negb (mov_img (loc s)) |> |>) ;;
      assign frame_counter 0)).

Definition timer_in_game (fuel : nat) : M (state D) unit :=
  draw_frame ;;
  alien_fire fuel ;;
  alien_move.

(** The section NEW ROUND. *)
Definition timer_in_next_round : M (state D) unit :=
  sp <- local ship ;;
  initGame sp ;;
  assign gameState PLAYING ;;
  modify (fun s => s <| speed := i32 (INITIAL_ALIEN_SPEED + roundNum s) |>) ;;
  assign nextRound true.

Definition timer_in_menu : M (state D) unit :=
  mp <- local mouse ;;
  m <- load mice mp ;;
  assign_loc button (getButton (mouse_x m) (mouse_y m)) ;;
  show_menu ;;
  drawMouse mp.

Definition timer_interrupt (fuel : nat) : M (state D) unit :=
  timer_int_handler ;;
  gs <- gets gameState ;;
  match gs with
  | PLAYING => timer_in_game fuel
  | NEXT_ROUND => timer_in_next_round
  | MENU_DISPLAY => timer_in_menu
  | INSTRUCTIONS_DISPLAY | EXIT => ret tt
  end.

(** ** The notification loop *)

(** [interrupts & BIT(n)] *)
Definition irq_pending (interrupts n : Z) : bool := ctrue (Z.land interrupts (BIT n)).

(** The [case HARDWARE] of the [switch]. *)
Definition hardware_interrupt (fuel : nat) (interrupts : Z) : M (state D) unit :=
  mb <- local mouse_bit_no ;;
  when (irq_pending interrupts mb) mouse_interrupt ;;
  kb <- local kbd_bit_no ;;
  when (irq_pending interrupts kb) keyboard_interrupt ;;
  tb <- local timer_bit_no ;;
  when (irq_pending interrupts tb) (timer_interrupt fuel) ;;
  jump CBreak.

Definition dispatch (fuel : nat) (msg : message) : M (state D) unit :=
  switch (if m_source_p msg =? HARDWARE then hardware_interrupt fuel (m_interrupts msg) else jump CBreak).

(** The body of [while (gameState != EXIT)]. *)
Definition loop_body (fuel : nat) : M (state D) unit :=
  displayScreen ;;
  '(r, msg, notify) <- sys dev driver_receive ;;
  if ctrue r then jump CContinue else
  when notify (dispatch fuel msg).

Definition running (s : state D) : bool := negb (is_state (gameState s) EXIT).

Definition notification_loop (fuel n : nat) : M (state D) unit := while_ n running (loop_body fuel).

(** ** Set-up and tear-down *)

(** [if (m) return 1;] *)
Definition or_return_1 (m : M (state D) Z) : M (state D) unit :=
  rc <- m ;;
  when (ctrue rc) (return_ 1).

(** The objects, pixmaps and tables created before the devices are set up. *)
Definition create_objects : M (state D) unit :=
  modify (fun s => s <| loc := init_locals |>) ;;
  hz <- gets (fun s => sys_hz (dev s)) ;;
  assign_loc ipf (i32 hz ÷ 60) ;;
  assign frames_per_state 20 ;;
  mp <- createMouse 50 700 ;;
  assign_loc mouse mp ;;
  sp <- createShip 512 SHIP_YPOS 15 ;;
  assign_loc ship sp ;;
  bg <- loadBackground ;;
  assign_loc background bg ;;
  si <- loadShipBulletXpm ;;
  assign_loc shipBullet_img si ;;
  ai <- loadAlienBulletXpm ;;
  assign_loc alienBullet_img ai ;;
  scr <- loadInitialScreen ;;
  assign_loc initialScreen scr ;;
  initMenuXpm ;;
  initShipBullets ;;
  initNumbers ;;
  initAlienBullet ;;
  ap <- gets alienBullet ;;
  ab <- load alien_bullets ap ;;
  store alien_bullets ap (ab <| ab_active := false |>).

Definition subscribe_devices (fuel : nat) : M (state D) unit :=
  or_return_1 (vg_get_mode_info 0x105) ;;
  or_return_1 (vg_set_mode 0x105) ;;
  or_return_1 mouse_subscribe_int ;;
  or_return_1 (send_mouse_command fuel ENABLE_MOUSE) ;;
  or_return_1 kbd_subscribe_int ;;
  or_return_1 timer_subscribe_int ;;
  or_return_1 rtc_subscribe_int ;;
  or_return_1 rtc_enable.

Definition splash : M (state D) unit :=
  scr <- local initialScreen ;;
  drawBackground scr ;;
  displayScreen ;;
  sys_ dev (sleep 4) ;;
  show_menu.

Definition tear_down (fuel : nat) : M (state D) unit :=
  mp <- local mouse ;;
  removeMouse mp ;;
  sp <- local ship ;;
  removeShip sp ;;
  removeAlienBullet ;;
  or_return_1 rtc_disable ;;
  or_return_1 rtc_unsubscribe_int ;;
  or_return_1 timer_unsubscribe_int ;;
  or_return_1 (send_mouse_command fuel DISABLE_MOUSE) ;;
  or_return_1 mouse_unsubscribe_int ;;
  or_return_1 kbd_unsubscribe_int ;;
  or_return_1 (sys dev vg_exit).

Definition game_loop (fuel n : nat) : M (state D) Z := call (
  create_objects ;;
  subscribe_devices fuel ;;
  splash ;;
  notification_loop fuel n ;;
  tear_down fuel ;;
  ret 0).

End game.
