(* ===== verification/GameFrame.v ===== *)
(** * The frame of the game's operations

    The primitives of the project for the tactic [tame], and the functions that it
    unfolds. *)

From S2P Require Import Prelude CMonad Heap Memory Lcf Minix Frame Macros ProjState Graphics Timer.
From S2P Require Import Keyboard MouseDriver Rtc Ship Aliens ShipBullets AlienBullets Menu Game.
From stdpp Require Import options.

Section primitives.
Context {D : Type} `{K : Kernel D} (F : fault -> Prop) (J : ctl -> Prop) (I : state D -> Prop).

Lemma tame_memcpy_video off l :
  F NullDeref -> F OutOfBounds -> (forall g s, I s -> I (s <| gfx := g |>)) -> tame F J I (memcpy_video off l).
Proof.
  intros H1 H2 Hk s Hs. unfold memcpy_video, upd_video. destruct (video_mem (gfx s)); [|done].
  destruct (_ && _); auto.
Qed.

Lemma tame_displayScreen :
  F NullDeref -> F OutOfBounds -> (forall g s, I s -> I (s <| gfx := g |>)) -> tame F J I displayScreen.
Proof.
  intros H1 H2 Hk s Hs. unfold displayScreen. destruct (video_mem (gfx s)), (display_mem (gfx s)); try done.
  cbv zeta. destruct (_ && _); auto.
Qed.

Lemma tame_alien_at i : F OutOfBounds -> tame F J I (alien_at i).
Proof. intros H1 s Hs. unfold alien_at. by destruct (aliens s !! i). Qed.

Lemma tame_slot i : F OutOfBounds -> tame F J I (slot i).
Proof. intros H1 s Hs. unfold slot. by destruct (shipBullets s !! i). Qed.

End primitives.

#[export] Hint Extern 1 (tame _ _ _ (memcpy_video _ _)) => apply tame_memcpy_video; tame_side : tame.
#[export] Hint Extern 1 (tame _ _ _ displayScreen) => apply tame_displayScreen; tame_side : tame.
#[export] Hint Extern 1 (tame _ _ _ (alien_at _)) => apply tame_alien_at; tame_side : tame.
#[export] Hint Extern 1 (tame _ _ _ (slot _)) => apply tame_slot; tame_side : tame.

(** The drivers. *)
#[export] Hint Unfold util_sys_inb timer_subscribe_int timer_unsubscribe_int timer_int_handler kbd_subscribe_int
  kbd_unsubscribe_int kbc_ih mouse_subscribe_int mouse_unsubscribe_int mouse_ih read_status send_mouse_iteration
  send_mouse_command updateMouse createMouse removeMouse rtc_subscribe_int rtc_unsubscribe_int rtc_read rtc_write
  rtc_enable rtc_disable vg_set_mode vg_get_mode_info : tame_unfold.

(** Drawing and loading. *)
#[export] Hint Unfold img_byte loadXpm loadBackground loadInitialScreen drawPixel drawBackground drawXpm drawMouse
  set_alien drawMenu drawInstructions initMenuXpm initNumbers loadShipBulletXpm loadAlienBulletXpm : tame_unfold.

(** The objects of the game. *)
#[export] Hint Unfold createShip drawShip updateShipPosition removeShip drawScore drawLives increaseScore
  slot_free createShipBullet removeShipBullet advance_slot updateShipBulletPosition drawShipBullets
  initShipBullets initAlienBullet createAlienBullet updateAlienBulletPosition drawAlienBullet generateAlienBullet
  verifyShipAndBulletCollision removeAlienBullet createAlien : tame_unfold.

(** The loop. *)
#[export] Hint Unfold show_menu or_return_1 set_mouse_byte set_kbd_byte lose_game create_objects subscribe_devices
  splash : tame_unfold.

Section loops.
Context {D : Type} `{K : Kernel D} (F : fault -> Prop) (J : ctl -> Prop) (I : state D -> Prop).
Context (Idev : forall d s, I s -> I (s <| dev := d |>)).

Lemma tame_pick_shooter fuel : F OutOfFuel -> F OutOfBounds -> tame F J I (pick_shooter fuel).
Proof using Idev.
  intros H1 H2. induction fuel as [|n IH]; cbn [pick_shooter]; tame.
Qed.

Lemma tame_send_mouse_loop fuel cmd ack :
  F OutOfFuel -> J (CReturn 1) -> (forall x s, I s -> I (s <| mouse_statuscode := x |>)) -> tame F J I (send_mouse_loop fuel cmd ack).
Proof using Idev.
  intros H1 HJ Hst. revert ack. induction fuel as [|n IH]; intros ack; cbn [send_mouse_loop]; tame.
Qed.

Lemma tame_draw_digits ds x :
  F NullDeref -> F OutOfBounds -> F Indeterminate -> (forall g s, I s -> I (s <| gfx := g |>)) -> tame F J I (draw_digits ds x).
Proof using D.
  intros H1 H2 H3 Hg. revert x. induction ds as [|y ds IH]; intros x; cbn [draw_digits]; tame.
Qed.

End loops.

#[export] Hint Extern 1 (tame _ _ _ (pick_shooter _)) => apply tame_pick_shooter; tame_side : tame.
#[export] Hint Extern 1 (tame _ _ _ (send_mouse_loop _ _ _)) => apply tame_send_mouse_loop; tame_side : tame.
#[export] Hint Extern 1 (tame _ _ _ (draw_digits _ _)) => apply tame_draw_digits; tame_side : tame.
