(* ===== verification/GameFuel.v ===== *)
(** * The game does not depend on the fuel

    The two fuels of [game_loop], for the retries of a command and for the choice of the
    alien that shoots, and for the notifications, only bound how long it is observed. *)

From S2P Require Import Prelude CMonad Fuel Heap Lcf Minix Macros ProjState Graphics Timer.
From S2P Require Import Keyboard MouseDriver Rtc Ship Aliens ShipBullets AlienBullets Menu Game.
From stdpp Require Import options.

Section fuel.
Context {D : Type} `{K : Kernel D} (fuel fuel' : nat) (Hle : (fuel <= fuel')%nat).

Lemma pick_shooter_extends : extends (pick_shooter (D := D) fuel) (pick_shooter fuel').
Proof using Hle.
  revert fuel' Hle. induction fuel as [|n IH]; intros [|n'] Hn; [apply extends_refl|apply extends_out|lia|].
  cbn [pick_shooter]. apply extends_bind; [apply extends_refl|]. intros r. cbv zeta. ifcase; [apply extends_refl|].
  apply extends_bind; [apply extends_refl|]. intros a. ifcase; [apply IH; lia|apply extends_refl].
Qed.

Lemma send_mouse_loop_extends cmd ack : extends (send_mouse_loop (D := D) fuel cmd ack) (send_mouse_loop fuel' cmd ack).
Proof using Hle.
  revert fuel' Hle ack. induction fuel as [|n IH]; intros [|n'] Hn ack; [apply extends_refl|apply extends_out|lia|].
  cbn [send_mouse_loop]. apply extends_bind; [apply extends_refl|]. intros r. ifcase; [apply extends_refl|apply IH; lia].
Qed.

Lemma send_mouse_command_extends cmd : extends (send_mouse_command (D := D) fuel cmd) (send_mouse_command fuel' cmd).
Proof using Hle. apply extends_call, extends_bind; [apply extends_refl|]. intros. apply send_mouse_loop_extends. Qed.

Lemma or_return_1_extends (m m' : M (state D) Z) : extends m m' -> extends (or_return_1 m) (or_return_1 m').
Proof using Type. intros Hm. apply extends_bind; [done|]. intros. apply extends_refl. Qed.

Hint Resolve pick_shooter_extends send_mouse_command_extends or_return_1_extends : fuel.

Lemma timer_interrupt_extends : extends (timer_interrupt (D := D) fuel) (timer_interrupt fuel').
Proof using Hle.
  apply extends_bind; [apply extends_refl|]. intros _. apply extends_bind; [apply extends_refl|]. intros gs.
  destruct gs; try apply extends_refl. unfold timer_in_game, alien_fire, generateAlienBullet.
  apply extends_bind; [apply extends_refl|]. intros _. apply extends_bind; [|intros _; apply extends_refl].
  apply extends_bind; [apply extends_refl|]. intros p. apply extends_bind; [apply extends_refl|]. intros b.
  ifcase; [|apply extends_refl]. auto with fuel.
Qed.

Lemma loop_body_extends : extends (loop_body (D := D) fuel) (loop_body fuel').
Proof using Hle.
  pose proof timer_interrupt_extends.
  apply extends_bind; [apply extends_refl|]. intros _. apply extends_bind; [apply extends_refl|]. intros [[r msg] notify].
  ifcase; [apply extends_refl|]. apply extends_when, extends_switch. ifcase; [|apply extends_refl].
  unfold hardware_interrupt. auto 10 with fuel.
Qed.

Lemma game_loop_extends n n' : (n <= n')%nat -> extends (game_loop (D := D) fuel n) (game_loop fuel' n').
Proof using Hle.
  intros Hn. pose proof loop_body_extends. unfold game_loop, subscribe_devices, tear_down, notification_loop.
  auto 40 with fuel.
Qed.

End fuel.

(** fuel.  A run of the program that ends, in whatever way, has the same outcome with more
    fuel of either kind. *)
Theorem game_loop_fuel {D} `{K : Kernel D} fuel fuel' n n' (s : state D) :
  (fuel <= fuel')%nat -> (n <= n')%nat -> game_loop fuel n s <> Fault OutOfFuel ->
  game_loop fuel' n' s = game_loop fuel n s.
Proof. intros Hf Hn Hend. by destruct (game_loop_extends fuel fuel' Hf n n' Hn s). Qed.
