(* ===== verification/GameScore.v ===== *)
(** * The kill count and the rounds

    Whatever the player does and whatever the devices deliver, from the first round on
    the kill count is the number of dead aliens in every state of the notification loop:
    a round in progress has a living alien, and a round is over when all are dead. *)

From S2P Require Import Prelude CMonad Heap Memory Lcf Minix Frame Macros ProjState Graphics Timer.
From S2P Require Import Keyboard MouseDriver Rtc Ship Aliens ShipBullets ShipBulletFacts AlienBullets Menu Game GameFrame.
From stdpp Require Import options.

(** ** Counting *)

Definition dead_one (a : Alien) : nat := if alien_alive a then 0 else 1.

Definition dead (l : list Alien) : nat := sum_list_with dead_one l.

Lemma dead_insert (l : list Alien) i a a' :
  l !! i = Some a -> (dead (<[i := a']> l) + dead_one a = dead l + dead_one a')%nat.
Proof.
  unfold dead. revert i. induction l as [|x l IH]; intros [|i] Hi; try done; simpl in *.
  - injection Hi as ->. lia.
  - specialize (IH i Hi). lia.
Qed.

Lemma dead_one_le a : (dead_one a <= 1)%nat.
Proof. unfold dead_one. destruct (alien_alive a); lia. Qed.

Lemma dead_le l : (dead l <= length l)%nat.
Proof. unfold dead. induction l as [|a l IH]; simpl; [lia|]. pose proof (dead_one_le a). lia. Qed.

Lemma dead_alive l i a : l !! i = Some a -> alien_alive a = true -> (dead l < length l)%nat.
Proof.
  unfold dead. revert i. induction l as [|x l IH]; intros [|i] Hi Ha; try done; simpl in *.
  - injection Hi as ->. pose proof (dead_le l). unfold dead in *. assert (dead_one a = 0%nat) by (unfold dead_one; by rewrite Ha). lia.
  - specialize (IH i Hi Ha). pose proof (dead_one_le x). lia.
Qed.

Lemma dead_fmap (f : Alien -> Alien) l : (forall a, alien_alive (f a) = alien_alive a) -> dead (f <$> l) = dead l.
Proof.
  intros Hf. unfold dead. induction l as [|a l IH]; [done|].
  rewrite fmap_cons. cbn [sum_list_with]. rewrite IH. unfold dead_one. by rewrite Hf.
Qed.

(** ** The invariant *)

Definition tally {D} (s : state D) : Prop :=
  length (aliens s) = Z.to_nat SIZE_OF_ALIENS /\ killCount s = Z.of_nat (dead (aliens s)).

(** What the state of the game says about the kill count. *)
Definition phase_ok (g : game_state) (kills : Z) : Prop :=
  (g = PLAYING -> kills < SIZE_OF_ALIENS) /\ (g = NEXT_ROUND -> kills = SIZE_OF_ALIENS).

Definition in_round {D} (s : state D) : Prop := tally s /\ phase_ok (gameState s) (killCount s).

(** The fleet has its 24 entries, and the counts are right in a round and between two rounds; if a round has been
    [started], they are right in the menus too. *)
Definition counted {D} (started : Prop) (s : state D) : Prop :=
  length (aliens s) = Z.to_nat SIZE_OF_ALIENS /\ (started \/ gameState s = PLAYING \/ gameState s = NEXT_ROUND -> in_round s).

Section score.
Context {D : Type} `{K : Kernel D}.
Implicit Types s : state D.
Context (started : Prop).
#[local] Abbreviation rounds_ok := (counted started).

Lemma in_round_ok s : in_round s -> rounds_ok s.
Proof. intros Hr. split; [apply Hr|done]. Qed.

Lemma rounds_ok_out s gs : rounds_ok s -> gs <> PLAYING -> gs <> NEXT_ROUND -> rounds_ok (s <| gameState := gs |>).
Proof.
  intros [Hl Hr] H1 H2. split; [done|]. intros [Hst|[?|?]]; [|done|done].
  destruct (Hr (or_introl Hst)) as [Ht _]. split; [exact Ht|]. by split.
Qed.

(** A change of an alien that does not kill it. *)
Lemma tally_set i a a' s :
  aliens s !! i = Some a -> alien_alive a' = alien_alive a -> tally s -> tally (s <| aliens := <[i := a']> (aliens s) |>).
Proof.
  intros Ha Hal [Hl Hk]. split; get_set; [by rewrite length_insert|]. pose proof (dead_insert _ _ _ a' Ha) as Hd.
  unfold dead_one in Hd. rewrite Hal in Hd. rewrite Hk. f_equal. lia.
Qed.

(** ** The fleet *)

(** Moving and drawing an alien keeps the counts and the game state. *)
Lemma tame_set_alien (P : state D -> Prop) i (f : Alien -> Alien) :
  (forall a, alien_alive (f a) = alien_alive a) -> (forall l s, P s -> P (s <| aliens := l |>)) ->
  keeps (fun s => tally s /\ P s) (a <- alien_at i ;; set_alien i (f a)).
Proof.
  intros Hf HP. apply wp_keeps. intros s [Ht Hp]. apply wp_bind, wp_alien_at_lib. intros a Ha.
  apply wp_set_alien. split; [|by apply HP]. by apply (tally_set i a).
Qed.

Lemma tame_advance_alien (P : state D -> Prop) i right mov sp :
  (forall l s, P s -> P (s <| aliens := l |>)) -> (forall b s, P s -> P (s <| changeDir := b |>)) ->
  (forall g s, P s -> P (s <| gfx := g |>)) ->
  keeps (fun s => tally s /\ P s) (advance_alien i right mov sp).
Proof.
  intros HP Hc Hg. set (I := fun s => _ /\ _).
  assert (forall x, keeps I (change_alien_x_coordinates i x)) as Hx.
  { intros x. by apply (tame_set_alien P i (fun a => a <| alien_x := i32 (alien_x a + x) |>)). }
  assert (forall g s, I s -> I (s <| gfx := g |>)) as Hg' by (intros g s []; split; auto).
  assert (forall b s, I s -> I (s <| changeDir := b |>)) as Hc' by (intros b s []; split; auto).
  assert (keeps I (drawAlien i mov)) as Hd.
  { apply wp_keeps. intros s Hs. apply wp_call, wp_bind, wp_alien_at_lib. intros a Ha. wp_step; [by apply wp_jump|].
    destruct mov; apply wp_bind, wp_set_alien.
    all: eapply wp_mono; [done| | |apply (keeps_wp I)]; [done|by intros []|by tame|].
    all: destruct Hs as [Ht Hp]; split; [by apply (tally_set i a)|by apply HP]. }
  unfold advance_alien. tame.
Qed.

(** A collision: the alien is alive before, and the count follows its death. *)
Lemma wp_verify_tally i shp s :
  tally s -> wp True (verifyAlienAndBulletCollision i shp)
    (fun _ s' => tally s' /\ gameState s' = gameState s) nojump s.
Proof.
  intros Ht. apply wp_vcall.
  apply (wp_for_each True (fun _ s' => tally s' /\ gameState s' = gameState s)); [done| |done].
  intros j l s1 [Ht1 Hg1]. apply wp_bind, wp_slot_lib. intros [p|] _; [|by apply wp_jump].
  apply wp_bind, wp_load_lib. intros b _. apply wp_bind, wp_alien_at_lib. intros a Ha. wp_step; [|by apply wp_ret].
  assert (alien_alive a = true) as Hal by (unfold bullet_hits in *; destruct (alien_alive a); [done|lia]).
  apply wp_bind, wp_set_alien, wp_bind, wp_modify. set (s2 := _ <| killCount := _ |>).
  assert (tally s2 /\ gameState s2 = gameState s) as Hs2.
  { split; [|exact Hg1]. destruct Ht1 as [Hl Hk]. split; [change (length (<[i := a <| alien_alive := false |>]> (aliens s1)) = Z.to_nat SIZE_OF_ALIENS); by rewrite length_insert|].
    pose proof (dead_insert _ _ _ (a <| alien_alive := false |>) Ha) as Hd. unfold dead_one in Hd. rewrite Hal in Hd.
    pose proof (dead_alive _ _ _ Ha Hal) as Hlt. rewrite Hl in Hlt.
    change (i32 (killCount s1 + 1) = Z.of_nat (dead (<[i := a <| alien_alive := false |>]> (aliens s1)))).
    cbn [alien_alive set_field set_alien_alive] in Hd. rewrite Hk.
    unfold SIZE_OF_ALIENS in *. rewrite i32_id by (unfold in_i32; lia). lia. }
  apply (wp_mono True True _ (fun _ s' => tally s' /\ gameState s' = gameState s) _ (fun c s' => (tally s' /\ gameState s' = gameState s) /\ c = CReturn 0)).
  1-3: try done. { intros c s' [? ->]. done. }
  apply wp_bind, wp_bind, wp_load_lib. intros sh _. apply wp_store_lib. intros ? ? _ _.
  apply wp_bind, wp_load_lib. intros b' _. apply wp_bind, wp_store_lib. intros ? ? _ _.
  apply wp_bind, wp_free_lib; [by apply wp_jump|]. intros ? _. by apply wp_jump.
Qed.

Lemma wp_lose_rounds E (Q : unit -> state D -> Prop) J s :
  (forall s', aliens s' = aliens s -> killCount s' = killCount s -> gameState s' = MENU_DISPLAY -> Q tt s') ->
  wp E lose_game Q J s.
Proof.
  intros HQ. apply wp_bind, wp_bind, wp_sys, wp_malloc. repeat (apply wp_bind, wp_modify). apply wp_modify. by apply HQ.
Qed.

Lemma in_round_menu s s' :
  tally s -> aliens s' = aliens s -> killCount s' = killCount s -> gameState s' = MENU_DISPLAY -> in_round s'.
Proof. intros Ht Ha Hk Hg. unfold in_round, tally, phase_ok. rewrite Ha, Hk, Hg. by split. Qed.

(** One iteration of the loop over the aliens. *)
Lemma alien_step_rounds i s :
  in_round s -> wp True (alien_step i) (fun _ => in_round) (fun _ => in_round) s.
Proof.
  intros Hr. pose proof Hr as [Ht [_ Hn]]. apply wp_bind, wp_alien_at_lib. intros a Ha. wp_step; [by apply wp_jump|].
  assert (alien_alive a = true) as Hal by (by destruct (alien_alive a)).
  assert (gameState s <> NEXT_ROUND) as Hg.
  { intros Hg. specialize (Hn Hg). destruct Ht as [Hl Hk]. pose proof (dead_alive _ _ _ Ha Hal). rewrite Hl in *. lia. }
  apply wp_bind, wp_gets, wp_bind, wp_gets, wp_bind, wp_gets, wp_bind.
  set (P s' := phase_ok (gameState s') (killCount s') /\ gameState s' <> NEXT_ROUND).
  apply (wp_mono True True _ (fun _ s' => tally s' /\ P s') _ (fun _ s' => tally s' /\ P s')); [done| | |].
  - intros _ s1 (Ht1 & _ & Hg1). apply wp_bind, wp_gets, wp_bind.
    apply (wp_mono True True _ (fun _ s' => tally s' /\ gameState s' = gameState s1) _ nojump); [done| |done|by apply wp_verify_tally].
    intros _ s2 [Ht2 Hg2].
    apply wp_bind, wp_alien_at_lib. intros a2 _. apply wp_bind, wp_gets. wp_step.
    + apply wp_lose_rounds. intros s3. by apply (in_round_menu s2).
    + pose proof (dead_le (aliens s2)) as Hle. destruct Ht2 as [Hl2 Hk2]. rewrite Hl2 in Hle. unfold SIZE_OF_ALIENS in *.
      wp_step; [apply wp_bind, wp_modify, wp_modify|apply wp_ret].
      * split; [done|]. split; [done|]. intros _. change (killCount s2 = 24). lia.
      * split; [done|]. split; [intros _; unfold SIZE_OF_ALIENS; lia|congruence].
  - intros c s1 (Ht1 & Hp & _). by split.
  - apply keeps_wp; [|split; [done|split; [apply Hr|done]]]. by apply tame_advance_alien.
Qed.

(** ** The handlers *)

Lemma tally_lower yf s : tally s -> tally (s <| aliens := lower_alien yf <$> aliens s |>).
Proof. intros [Hl Hk]. split; get_set; [by rewrite length_fmap|]. by rewrite dead_fmap. Qed.

Lemma alien_move_rounds s : in_round s -> wp True alien_move (fun _ => in_round) (fun _ => in_round) s.
Proof.
  intros Hr. apply wp_bind, wp_gets, wp_bind, wp_gets. wp_step; [|done].
  apply wp_bind, wp_modify, wp_bind, wp_modify, wp_bind.
  match goal with |- wp True _ ?Q _ _ => assert (forall s1, in_round s1 -> Q tt s1) as Hend end.
  { intros s1 Hr1. apply wp_bind, wp_gets, wp_bind.
    apply (wp_mono True True _ (fun _ => in_round) _ (fun _ => in_round)); [done| |done|].
    - intros _ s2 Hr2. apply wp_bind, wp_modify, wp_bind, wp_modify, wp_bind, wp_gets, wp_bind, wp_gets.
      wp_step; [apply wp_bind, wp_modify, wp_modify|apply wp_ret]; exact Hr2.
    - wp_step; [|done]. destruct Hr1 as [Ht1 Hp1]. apply wp_bind, wp_change_all_y; [by rewrite (proj1 Ht1)|].
      apply wp_bind, wp_modify, wp_modify. split; [exact (tally_lower 20 s1 Ht1)|exact Hp1]. }
  apply (wp_for_each True (fun _ => in_round)); [exact Hr| |exact Hend].
  intros i l s' Hs'. apply (wp_mono True True _ (fun _ => in_round) _ (fun _ => in_round)); [done|done| |by apply alien_step_rounds].
  intros [] s'' Hs''; auto.
Qed.

(** A round that is in progress, and not about to end. *)
Definition playing s : Prop := in_round s /\ gameState s = PLAYING.

Lemma alien_fire_rounds fuel s : playing s -> wp True (alien_fire fuel) (fun _ => playing) (fun _ => rounds_ok) s.
Proof.
  intros Hp. assert (forall A (m : M (state D) A) (Q : A -> state D -> Prop) s', keeps playing m -> playing s' ->
    (forall a s'', playing s'' -> Q a s'') -> wp True m Q (fun _ => rounds_ok) s') as Hstep.
  { intros A m Q s' Hm Hs' HQ. apply (wp_mono True True _ (fun _ => playing) _ (fun _ => playing));
      [done|done|intros _ s'' [? _]; by apply in_round_ok|by apply keeps_wp]. }
  apply wp_bind, wp_gets, wp_bind, wp_load_lib. intros b _. wp_step.
  - apply Hstep; [tame|done|done].
  - apply wp_bind, Hstep; [tame|done|]. intros _ s1 Hs1. apply wp_bind, wp_gets, wp_bind, Hstep; [tame|done|].
    intros _ s2 Hs2. apply wp_bind, wp_load_lib. intros sh _. wp_step; [|done].
    apply wp_bind, wp_lose_rounds. intros s3 Ha Hk Hg. apply wp_jump, in_round_ok.
    apply (in_round_menu s2); [apply Hs2|done|done|done].
Qed.

Lemma timer_in_game_rounds fuel s : playing s -> wp True (timer_in_game fuel) (fun _ => rounds_ok) (fun _ => rounds_ok) s.
Proof.
  intros Hp. apply wp_bind.
  apply (wp_mono True True _ (fun _ => playing) _ (fun _ => playing)); [done| |by intros _ s' [? _]; apply in_round_ok|].
  2:{ apply keeps_wp; [|done]. unfold draw_frame. tame. }
  intros _ s1 Hs1. apply wp_bind.
  apply (wp_mono True True _ (fun _ => playing) _ (fun _ => rounds_ok)); [done| |done|by apply alien_fire_rounds].
  intros _ s2 [Hs2 _].
  apply (wp_mono True True _ (fun _ => in_round) _ (fun _ => in_round)); [done| | |by apply alien_move_rounds].
  all: intros; by apply in_round_ok.
Qed.

(** ** A new round *)

(** The first [n] aliens are alive. *)
Definition alive_upto (n : nat) (l : list Alien) : Prop :=
  length l = Z.to_nat SIZE_OF_ALIENS /\ forall i a, (i < n)%nat -> l !! i = Some a -> alien_alive a = true.

Lemma alive_upto_snoc n l a : alive_upto n l -> alien_alive a = true -> alive_upto (S n) (<[n := a]> l).
Proof.
  intros [Hl Hf] Ha. split; [by rewrite length_insert|]. intros i a' Hi Hi'.
  apply list_lookup_insert_Some in Hi' as [(-> & <- & _)|[Hne Hi']]; [done|]. apply (Hf i); [lia|done].
Qed.

Lemma dead_none l : alive_upto (Z.to_nat SIZE_OF_ALIENS) l -> dead l = 0%nat.
Proof.
  intros [Hl Hf]. assert (forall i a, l !! i = Some a -> alien_alive a = true) as Hal.
  { intros i a Ha. apply (Hf i); [rewrite <- Hl; by eapply lookup_lt_Some|done]. }
  clear Hl Hf. unfold dead. induction l as [|a l IH]; [done|]. cbn [sum_list_with].
  rewrite IH by (intros i; apply (Hal (S i))). unfold dead_one. by rewrite (Hal 0%nat a eq_refl).
Qed.

Lemma wp_create_alive E Q J s :
  length (aliens s) = Z.to_nat SIZE_OF_ALIENS ->
  (forall p l d, alive_upto (Z.to_nat SIZE_OF_ALIENS) l -> Q p (s <| aliens := l |> <| dev := d |>)) ->
  wp E create_aliens Q J s.
Proof.
  intros Hlen HQ. unfold create_aliens, COL_ALIENS, ROW_ALIENS.
  set (I n s' := exists l d, s' = s <| aliens := l |> <| dev := d |> /\ alive_upto n l).
  apply (wp_for_acc_seqZ _ (fun c '(_, _, n) s' => n = Z.to_nat (3 * c) /\ I n s')); [lia| | |].
  - split; [done|]. exists (aliens s), (dev s). split; [by destruct s|]. split; [done|]. intros i a Hi. lia.
  - intros c [[xi yi] n] s' Hc [-> Hs']. apply wp_bind.
    apply (wp_for_acc_seqZ _ (fun r '(_, _, n) s' => n = Z.to_nat (3 * c + r) /\ I n s')); [lia| | |].
    + split; [f_equal; lia|done].
    + clear xi yi s' Hs'. intros r [[xi yi] n] s' Hr [-> (l & d & -> & Hl)].
      apply wp_bind, (wp_mono E E _ (fun a s' => alien_alive a = true /\ exists d, s' = s <| aliens := l |> <| dev := d |>) _ J);
        [done| |done|].
      * intros a s' [Ha [d' ->]]. apply wp_bind, wp_set_alien, wp_ret. split; [lia|].
        exists (<[Z.to_nat (3 * c + r) := a]> l), d'. split; [done|].
        by apply alive_upto_snoc.
      * unfold createAlien_row, createAlien. wps; apply wp_sys; wps; apply wp_sys, wp_ret; split; eauto.
    + intros [[xi' yi'] n] s'' [-> Hs'']. apply wp_ret. split; [lia|]. done.
  - intros [[xi yi] n] s' [-> (l & d & -> & Hl)]. by apply HQ.
Qed.

Lemma initGame_rounds p s : rounds_ok s -> wp True (initGame p) (fun _ => playing) (fun _ => rounds_ok) s.
Proof.
  intros Hs. unfold initGame.
  assert (forall A (m : M (state D) A) (k : A -> M (state D) unit) s', keeps rounds_ok m -> rounds_ok s' ->
    (forall a s'', rounds_ok s'' -> wp True (k a) (fun _ => playing) (fun _ => rounds_ok) s'') ->
    wp True (bind m k) (fun _ => playing) (fun _ => rounds_ok) s') as Hstep.
  { intros A m k s' Hm Hs' Hk. apply wp_bind. apply (wp_mono True True _ (fun _ => rounds_ok) _ (fun _ => rounds_ok)); [done|done|done|by apply keeps_wp]. }
  do 5 (apply Hstep; [tame|assumption|clear s Hs; intros ? s Hs]).
  apply wp_bind, wp_create_alive; [exact (proj1 Hs)|]. intros q l d Hl. repeat (apply wp_bind, wp_modify). apply wp_modify.
  split; [|done]. split; [|by split]. split; [apply Hl|]. change (0 = Z.of_nat (dead l)). by rewrite dead_none.
Qed.

Lemma tame_initGame p : keeps rounds_ok (initGame (D := D) p).
Proof.
  apply wp_keeps. intros s Hs. apply (wp_mono True True _ (fun _ => playing) _ (fun _ => rounds_ok)); [done| |done|by apply initGame_rounds].
  intros _ s' [? _]. by apply in_round_ok.
Qed.

Lemma rounds_ok_playing s : rounds_ok s -> gameState s = PLAYING -> playing s.
Proof. intros [_ Hr] Hg. split; [apply Hr; by right; left|done]. Qed.

Lemma timer_in_next_round_rounds : keeps rounds_ok (timer_in_next_round (D := D)).
Proof.
  apply wp_keeps. intros s Hs. apply wp_bind, wp_gets, wp_bind.
  apply (wp_mono True True _ (fun _ => playing) _ (fun _ => rounds_ok)); [done| |done|by apply initGame_rounds].
  intros _ s1 [[Ht [Hp _]] Hg]. apply wp_bind, wp_modify, wp_bind, wp_modify, wp_modify. apply in_round_ok.
  split; [exact Ht|]. split; [|done]. intros _. exact (Hp Hg).
Qed.

Lemma timer_rounds fuel : keeps rounds_ok (timer_interrupt (D := D) fuel).
Proof.
  apply tame_bind; [tame|]. intros _. apply wp_keeps. intros s Hs. apply wp_bind, wp_gets.
  destruct (gameState s) eqn:Hg; [| |by apply timer_in_game_rounds, rounds_ok_playing| |]; apply (keeps_wp rounds_ok); try done.
  - unfold timer_in_menu. tame.
  - tame.
  - apply timer_in_next_round_rounds.
  - tame.
Qed.

Lemma tame_leave gs : gs <> PLAYING -> gs <> NEXT_ROUND -> keeps rounds_ok (assign (gameState (D := D)) gs).
Proof. intros. apply tame_modify. intros s Hs. by apply rounds_ok_out. Qed.

Lemma mouse_rounds : keeps rounds_ok (mouse_interrupt (D := D)).
Proof.
  pose proof tame_initGame. unfold mouse_interrupt, mouse_packet, mouse_in_menu, mouse_in_instructions, mouse_in_game.
  tame. all: try by apply tame_leave. all: auto.
Qed.

Lemma keyboard_rounds : keeps rounds_ok (keyboard_interrupt (D := D)).
Proof. unfold keyboard_interrupt. tame. all: by apply tame_leave. Qed.

Lemma loop_body_rounds fuel : keeps rounds_ok (loop_body (D := D) fuel).
Proof.
  pose proof mouse_rounds. pose proof keyboard_rounds. pose proof (timer_rounds fuel).
  unfold loop_body, dispatch, hardware_interrupt. tame.
Qed.

(** One notification that the loop handles. *)
Inductive handled (fuel : nat) : state D -> state D -> Prop :=
| handled_step s s' :
    running s = true -> loop_body fuel s = Ok tt s' \/ loop_body fuel s = Jump CContinue s' -> handled fuel s s'.

Lemma handled_rounds fuel s s' : rtc (handled fuel) s s' -> rounds_ok s -> rounds_ok s'.
Proof.
  intros Hrun Hs. induction Hrun as [|s1 s2 s3 [s1' s2' _ [He|He]] _ IH]; [done| |]; apply IH.
  - by apply (tame_ok any_fault any_jump _ _ _ _ _ (loop_body_rounds fuel) Hs He).
  - by apply (tame_jumped any_fault any_jump _ _ _ _ _ (loop_body_rounds fuel) Hs He).
Qed.

Lemma dead_all l i a : l !! i = Some a -> dead l = length l -> alien_alive a = false.
Proof.
  intros Hi Hd. destruct (alien_alive a) eqn:Ha; [|done]. pose proof (dead_alive l i a Hi Ha). lia.
Qed.

Lemma dead_some l : (dead l < length l)%nat -> exists i a, l !! i = Some a /\ alien_alive a = true.
Proof.
  unfold dead. induction l as [|x l IH]; simpl; [lia|]. destruct (alien_alive x) eqn:Hx.
  - intros _. by exists 0%nat, x.
  - unfold dead_one at 1. rewrite Hx. intros Hlt. destruct IH as (i & a & Hi & Ha); [lia|]. by exists (S i), a.
Qed.

End score.

Section rounds.
Context {D : Type} `{K : Kernel D}.
Implicit Types s : state D.

Lemma set_up_rounds fuel d s :
  (create_objects ;; subscribe_devices fuel ;; splash) (init_state d) = Ok tt s -> counted False s.
Proof.
  apply (tame_ok any_fault any_jump); [tame|]. split; [done|]. by intros [|[?|?]].
Qed.

(** C7: rounds.  Let a state with a round in progress, or between two rounds, be reached from the set-up, or from any state
    that has 24 aliens and right counts in its rounds.  From it on, whatever the devices deliver and the player does, the kill
    count is the number of dead aliens after every sequence of notifications, in the menus too; while a
    round is played some alien is alive, so that the choice of an alien that shoots can succeed; and when the game
    is between two rounds, all the aliens are dead and counted. *)
Theorem rounds_invariant fuel s0 s1 s :
  counted False s0 \/ (exists d, (create_objects ;; subscribe_devices fuel ;; splash) (init_state d) = Ok tt s0) ->
  rtc (handled fuel) s0 s1 -> gameState s1 = PLAYING \/ gameState s1 = NEXT_ROUND ->
  rtc (handled fuel) s1 s ->
  killCount s = Z.of_nat (dead (aliens s)) /\
  (gameState s = PLAYING -> exists i a, aliens s !! i = Some a /\ alien_alive a = true) /\
  (gameState s = NEXT_ROUND -> killCount s = 24 /\ forall i a, aliens s !! i = Some a -> alien_alive a = false).
Proof.
  intros H0 Hrun1 Hg1 Hrun. assert (counted False s1) as [Hl1 Hs1].
  { apply (handled_rounds False fuel s0); [done|]. destruct H0 as [|[d Hd]]; [done|by eapply set_up_rounds]. }
  assert (counted True s) as [Hl Hs].
  { apply (handled_rounds True fuel s1); [done|]. split; [done|]. intros _. apply Hs1. by right. }
  destruct (Hs (or_introl I)) as [[_ Hk] [Hp Hn]]. split; [done|]. split; intros Hg.
  - apply dead_some. specialize (Hp Hg). lia.
  - specialize (Hn Hg). split; [done|]. intros i a Ha. apply (dead_all _ i a Ha). rewrite Hl. lia.
Qed.

End rounds.

(** A round with two kills on a screen of 8 by 4 pixels. *)
Definition score_play : state script :=
  (init_state (ports []))
    <| gfx := Graphics 0 0 8 4 (Some (Block 0 ∅)) (Some (Block 0 ∅)) |> <| gameState := PLAYING |> <| killCount := 2 |>
    <| aliens := replicate 2 no_alien ++ replicate 22 (no_alien <| alien_alive := true |>) |>.

(** The last alien of a round, and the bullet that hits it when the timer ticks. *)
Definition score_last : state script :=
  let img := XpmImage XPM_INDEXED 4 3 12 (replicate 12 7) in
  (init_state ((ports []) <| inbox := [Message HARDWARE (BIT 0)] |> <| randoms := [23] |>))
    <| gfx := Graphics 8 4 8 4 (Some (Block 32 ∅)) (Some (Block 32 ∅)) |> <| gameState := PLAYING |> <| killCount := 23 |>
    <| aliens := replicate 23 no_alien ++ [MkAlien 0 0 4 3 img img true 30] |>
    <| ships := heap_alloc (MkShip 0 0 0 no_image 3 0) empty_heap |>
    <| alien_bullets := heap_alloc (MkAlienBullet 0 0 0 no_image false) empty_heap |> <| alienBullet := Some 0%nat |>
    <| bullets := heap_alloc (MkShipBullet 3 3 1 no_image false) empty_heap |> <| shipBullets := Some 0%nat :: replicate 6 NULL |>
    <| loc := init_locals <| ship := Some 0%nat |> <| ipf := 1 |> <| mouse_bit_no := 12 |> <| kbd_bit_no := 1 |> |>.

Lemma rounds_invariant_witness :
  exists s, handled 1 score_last s /\ gameState s = NEXT_ROUND /\ forall i a, aliens s !! i = Some a -> alien_alive a = false.
Proof.
  assert (exists s, (loop_body 1 score_last = Ok tt s \/ loop_body 1 score_last = Jump CContinue s) /\ gameState s = NEXT_ROUND)
    as (s & He & Hg).
  { eexists. split; [first [left; vm_compute; reflexivity|right; vm_compute; reflexivity]|reflexivity]. }
  exists s. assert (handled 1 score_last s) as Hh by (constructor; [reflexivity|exact He]).
  split; [exact Hh|]. split; [exact Hg|].
  assert (counted False score_last) as Hc.
  { split; [reflexivity|]. intros _. split; [split; reflexivity|]. split; [intros _; reflexivity|intros H; discriminate H]. }
  exact (proj2 (proj2 (proj2 (rounds_invariant 1 score_last score_last s (or_introl Hc) (rtc_refl _ _) (or_introl eq_refl) (rtc_once _ _ Hh))) Hg)).
Defined.
