(* ===== verification/GameFaults.v ===== *)
(** * What the removal of a bullet does to the game

    A bullet that leaves the screen or hits an alien is freed while slots still hold its
    address.  From then on every tick of play and every shot accesses the freed bullet,
    and nothing else in the program repairs the slots. *)

From S2P Require Import Prelude CMonad Heap Memory Lcf Minix Frame Macros ProjState Graphics Timer.
From S2P Require Import Keyboard MouseDriver Rtc Ship Aliens ShipBullets ShipBulletFacts AlienBullets Menu Game GameFrame GameScore.
From stdpp Require Import options.

Section faults.
Context {D : Type} `{K : Kernel D}.
Implicit Types s : state D.

(** ** A dangling slot *)

(** Slot [i] holds the address [l] of a bullet that was freed. *)
Definition stale (i l : nat) s : Prop :=
  shipBullets s !! i = Some (Some l) /\ (i < slots)%nat /\ cells (bullets s) !! l = None /\ (l < brk (bullets s))%nat.

(** A loop over the slots that reads the bullet of each of them faults. *)
Lemma stale_loop i l (body : nat -> M (state D) unit) (Q : unit -> state D -> Prop) J s :
  (forall j s', stale i l s' -> j <> i ->
     wp True (body j) (fun _ s'' => stale i l s'') (fun c s'' => c = CContinue /\ stale i l s'') s') ->
  (forall s', stale i l s' -> wp True (body i) (fun _ _ => False) (fun _ _ => False) s') ->
  stale i l s -> wp True (for_each (seq 0 slots) body) Q J s.
Proof.
  intros Hpres Hfault Hs. pose proof Hs as (_ & Hi & _).
  apply (wp_for_seq True (fun k s' => stale i l s' /\ (k <= i)%nat)); [split; [done|lia]| |].
  - intros k s' Hk [Hs' Hki]. destruct (decide (k = i)) as [->|Hne].
    + eapply wp_conseq; [by apply Hfault|by intros|by intros []].
    + eapply wp_conseq; [by apply Hpres| |].
      * intros a s'' Hs''. split; [done|lia].
      * intros c s'' [-> Hs'']. split; [done|lia].
  - intros s' [_ ?]. lia.
Qed.

Lemma read_stale i l {A} (k : ShipBullet -> M (state D) A) (Q : A -> state D -> Prop) J s :
  stale i l s -> wp True (b <- load bullets (Some l) ;; k b) Q J s.
Proof.
  intros (_ & _ & Hl & _). apply wp_bind, wp_load_lib. intros v Hv. by rewrite (Hl : deref _ (Some l) = None) in Hv.
Qed.

Lemma slot_stale i l {A} (k : ptr -> M (state D) A) (Q : A -> state D -> Prop) J s :
  stale i l s -> wp True (k (Some l)) Q J s -> wp True (p <- slot i ;; k p) Q J s.
Proof. intros (Hi & _) Hk. apply wp_bind. by eapply wp_slot. Qed.

(** Stores and frees through other pointers leave the slot as it is. *)
Lemma store_stale i l p v Q J s :
  stale i l s -> (forall s', stale i l s' -> Q tt s') -> wp True (store bullets p v) Q J s.
Proof.
  intros (Hi & Hlt & Hl & Hb) HQ. apply wp_store_lib. intros l' v' -> Hl'. apply HQ. split; [done|]. split; [done|].
  split; [|done]. cbn. rewrite lookup_insert_ne; [done|]. intros ->. by rewrite Hl in Hl'.
Qed.

Lemma free_stale i l p Q J s :
  stale i l s -> (forall s', stale i l s' -> Q tt s') -> wp True (free bullets p) Q J s.
Proof.
  intros Hs HQ. pose proof Hs as (Hi & Hlt & Hl & Hb). apply wp_free_lib; [by apply HQ|]. intros l' ->. apply HQ.
  split; [done|]. split; [done|]. split; [|done]. cbn. rewrite lookup_delete. by case_decide.
Qed.

(** ** The operations on the bullets *)

Lemma update_stale i l (Q : unit -> state D -> Prop) J s : stale i l s -> wp True updateShipBulletPosition Q J s.
Proof.
  apply stale_loop.
  - intros j s' Hs' Hj. apply wp_bind, wp_slot_lib. intros [p|] _; [|by apply wp_ret].
    apply wp_bind, wp_load_lib. intros b _. wps; [| |done]; [by apply (store_stale i l)|by apply (free_stale i l)].
  - intros s' Hs'. apply (slot_stale i l); [done|]. by apply (read_stale i l).
Qed.

Lemma draw_stale i l (Q : unit -> state D -> Prop) J s : stale i l s -> wp True drawShipBullets Q J s.
Proof.
  apply stale_loop.
  - intros j s' Hs' Hj. eapply wp_conseq; [apply (tame_wp no_jump (stale i l)); [tame|done]|done|by intros c s'' []].
  - intros s' Hs'. apply (slot_stale i l); [done|]. by apply (read_stale i l).
Qed.

Lemma fire_stale i l x y sp img (Q : unit -> state D -> Prop) J s :
  stale i l s -> wp True (createShipBullet x y sp img) Q J s.
Proof.
  intros (Hi & Hlt & Hl & Hb). apply wp_bind, wp_malloc. apply (stale_loop i l).
  - intros j s' Hs' Hj. apply wp_bind, wp_slot_lib. intros p _. apply wp_bind.
    apply (wp_mono True True _ (fun _ s'' => stale i l s'') _ (fun _ _ => False)); [done| |done|].
    + intros b s'' Hs''. wp_step; [|done]. apply wp_modify. destruct Hs'' as (? & ? & ? & ?). split; [|done].
      get_set. by rewrite list_lookup_insert_ne.
    + unfold slot_free. destruct p as [p|]; [|by apply wp_ret]. apply wp_bind, wp_load_lib. intros b _. by apply wp_ret.
  - intros s' Hs'. apply (slot_stale i l); [done|]. apply wp_bind. by apply (read_stale i l).
  - split; [done|]. split; [done|]. cbn. split; [|lia]. by rewrite lookup_insert_ne by lia.
Qed.

Lemma verify_stale i l k shp : keeps (stale i l) (verifyAlienAndBulletCollision (D := D) k shp).
Proof.
  apply tame_vcall, tame_for_each. intros j. apply (tame_mono any_fault any_fault any_jump); [|done|by intros []].
  apply wp_keeps. intros s Hs. apply wp_bind, wp_slot_lib. intros [p|] _; [|by apply wp_jump].
  apply wp_bind, wp_load_lib. intros b _. apply wp_bind, wp_alien_at_lib. intros a _. wp_step; [|by apply wp_ret].
  apply wp_bind, wp_set_alien, wp_bind, wp_modify, wp_bind, wp_bind, wp_load_lib. intros sh _.
  apply wp_store_lib. intros ? ? _ _. apply wp_bind, wp_load_lib. intros b' _.
  apply wp_bind, (store_stale i l); [exact Hs|]. intros s1 Hs1. apply wp_bind, (free_stale i l); [done|].
  intros s2 Hs2. by apply wp_jump.
Qed.

(** ** The handlers *)

Lemma vacuous_keeps {A} (I : state D -> Prop) (m : M (state D) A) :
  (forall s, I s -> wp True m (fun _ _ => False) (fun _ _ => False) s) -> keeps I m.
Proof. intros Hm s Hs. specialize (Hm s Hs). unfold wp in Hm. by destruct (m s). Qed.

Lemma loop_body_stale i l fuel : keeps (stale i l) (loop_body (D := D) fuel).
Proof.
  assert (keeps (stale i l) (updateShipBulletPosition (D := D))) as H1 by (apply vacuous_keeps; intros; by apply (update_stale i l)).
  assert (keeps (stale i l) (drawShipBullets (D := D))) as H2 by (apply vacuous_keeps; intros; by apply (draw_stale i l)).
  assert (forall x y sp img, keeps (stale i l) (createShipBullet (D := D) x y sp img)) as H3.
  { intros. apply vacuous_keeps. intros. by apply (fire_stale i l). }
  pose proof (verify_stale i l) as H4.
  assert (forall p, keeps (stale i l) (initGame (D := D) p)) as H5.
  { intros p. unfold initGame, create_aliens, createAlien_row. tame. }
  assert (keeps (stale i l) (timer_interrupt (D := D) fuel)) as H6.
  { unfold timer_interrupt, timer_in_game, draw_frame, alien_fire, alien_move, alien_step, advance_alien, drawAlien,
      change_alien_x_coordinates, change_all_y, change_alien_y_coordinates, timer_in_next_round, timer_in_menu. tame. }
  unfold loop_body, dispatch, hardware_interrupt, mouse_interrupt, mouse_packet, mouse_in_menu, mouse_in_instructions,
    mouse_in_game, keyboard_interrupt. tame.
Qed.

Lemma timer_stale i l fuel s :
  stale i l s -> gameState s = PLAYING -> exists f, timer_interrupt fuel s = Fault f.
Proof.
  intros Hs Hg. assert (wp True (timer_interrupt fuel) (fun _ _ => False) (fun _ _ => False) s) as Hw.
  { apply wp_bind, wp_modify, wp_bind, wp_gets. get_set. rewrite Hg. apply wp_bind, wp_bind. by apply (update_stale i l). }
  unfold wp in Hw. destruct (timer_interrupt fuel s); [done|done|eauto].
Qed.

(** ** The first slot *)

(** When the first slot is the dangling one, the fault is known. *)
Lemma freed_first (body : nat -> M (state D) unit) Q J s :
  ends (eq UseAfterFree) (body 0%nat) (fun _ _ => False) (fun _ _ => False) s -> ends (eq UseAfterFree) (for_each (seq 0 slots) body) Q J s.
Proof. intros Hb. unfold ends in *. change slots with 7%nat. cbn [seq for_each]. by destruct (body 0%nat s). Qed.

Lemma read_freed i l (k : ptr -> ShipBullet -> M (state D) unit) Q J s :
  stale i l s -> ends (eq UseAfterFree) (p <- slot i ;; match p with None => ret tt | Some _ => b <- load bullets p ;; k p b end) Q J s.
Proof. intros (Hi & _ & Hl & _). apply ends_bind, ends_wp. eapply wp_slot; [exact Hi|]. apply ends_bind. by apply ends_load_freed. Qed.

Lemma update_freed l Q J s : stale 0 l s -> ends (eq UseAfterFree) updateShipBulletPosition Q J s.
Proof. intros Hs. apply freed_first. unfold advance_slot. by apply (read_freed 0 l). Qed.

Lemma draw_freed l Q J s : stale 0 l s -> ends (eq UseAfterFree) drawShipBullets Q J s.
Proof. intros Hs. by apply freed_first, (read_freed 0 l). Qed.

Lemma verify_freed l i shp Q J s : stale 0 l s -> ends (eq UseAfterFree) (verifyAlienAndBulletCollision i shp) Q J s.
Proof.
  intros (Hi & _ & Hl & _). apply ends_vcall, freed_first, ends_bind, ends_wp.
  eapply wp_slot; [exact Hi|]. apply ends_bind. by apply ends_load_freed.
Qed.

Lemma fire_freed l x y sp img Q J s : stale 0 l s -> ends (eq UseAfterFree) (createShipBullet x y sp img) Q J s.
Proof.
  intros (Hi & _ & Hl & Hlt). apply ends_bind, ends_wp, wp_malloc, freed_first, ends_bind, ends_wp. eapply wp_slot; [exact Hi|].
  apply ends_bind, ends_bind, ends_load_freed; [|done]. cbn. by rewrite lookup_insert_ne by lia.
Qed.

Lemma timer_freed l fuel s : stale 0 l s -> gameState s = PLAYING -> timer_interrupt fuel s = Fault UseAfterFree.
Proof.
  intros Hs Hg. assert (ends (eq UseAfterFree) (timer_interrupt fuel) (fun _ _ => False) (fun _ _ => False) s) as He.
  { apply ends_bind, ends_wp, wp_modify, ends_bind, ends_wp, wp_gets. get_set. rewrite Hg. apply ends_bind, ends_bind. by apply (update_freed l). }
  unfold ends in He. destruct (timer_interrupt fuel s); [done|done|by rewrite He].
Qed.

(** ** A bullet that leaves the screen *)

(** The next move takes the bullet [b] at [l] past the top: it moves once for each slot that holds it. *)
Definition leaving (l : nat) (b : ShipBullet) s : Prop :=
  Some l ∈ shipBullets s /\ cells (bullets s) !! l = Some b /\ sb_hitAlien b = false /\
  0 <= sb_speed b < 2 ^ 31 /\ 0 <= sb_y b < Z.of_nat (aliases l (shipBullets s)) * sb_speed b /\ sb_y b < 2 ^ 31.

(** The bullet while the loop of [updateShipBulletPosition] has visited the slots [ps]: it was
    freed, or has moved up for each of them. *)
Definition climbing (l : nat) (b : ShipBullet) (ps : list ptr) (o : option ShipBullet) : Prop :=
  o = None \/ o = Some (climbed (aliases l ps) b) /\ Z.of_nat (aliases l ps) * sb_speed b <= sb_y b.

Lemma advance_climbing l b k p ps s J :
  sb_hitAlien b = false -> 0 <= sb_speed b < 2 ^ 31 -> 0 <= sb_y b < 2 ^ 31 ->
  shipBullets s !! k = Some p -> climbing l b ps (cells (bullets s) !! l) ->
  wp True (advance_slot k) (fun _ s' => shipBullets s' = shipBullets s /\ brk (bullets s') = brk (bullets s) /\
    climbing l b (ps ++ [p]) (cells (bullets s') !! l)) J s.
Proof.
  intros Hh Hsp Hy Hk Hc. unfold climbing in *. rewrite aliases_snoc.
  apply wp_bind. eapply wp_slot; [done|]. destruct p as [l'|].
  2:{ apply wp_ret. rewrite decide_False, Nat.add_0_r by done. done. }
  apply wp_bind, wp_load_lib. intros b' Hb'. cbn in Hb'. destruct (decide (l' = l)) as [->|Hne].
  - rewrite decide_True by done. destruct Hc as [Hc|[Hc Hle]]; [by rewrite Hc in Hb'|]. rewrite Hc in Hb'. injection Hb' as <-.
    set (m := aliases l ps) in *. unfold when. change (sb_hitAlien (climbed m b)) with (sb_hitAlien b). rewrite Hh. cbn [negb].
    change (sb_y (climbed m b) - sb_speed (climbed m b)) with (sb_y b - Z.of_nat m * sb_speed b - sb_speed b).
    rewrite i32_id by (unfold in_i32; nia). wp_step.
    + eapply wp_store; [done|]. get_set. split; [done|]. split; [done|]. right. cbn. rewrite lookup_insert_eq.
      replace (m + 1)%nat with (S m) by lia. split; [|lia]. f_equal. unfold climbed. get_set.
      replace (sb_y b - Z.of_nat m * sb_speed b - sb_speed b) with (sb_y b - Z.of_nat (S m) * sb_speed b) by lia. done.
    + eapply wp_free; [done|]. get_set. split; [done|]. split; [done|]. left. apply lookup_delete_eq.
  - rewrite decide_False, Nat.add_0_r by congruence. wps; [| |done].
    + eapply wp_store; [done|]. get_set. split; [done|]. split; [done|]. cbn. by rewrite lookup_insert_ne.
    + eapply wp_free; [done|]. get_set. split; [done|]. split; [done|]. cbn. by rewrite lookup_delete_ne.
Qed.

Lemma update_leaving l b s (Q : unit -> state D -> Prop) J :
  heap_wf (bullets s) -> length (shipBullets s) = slots -> leaving l b s ->
  (forall i s', stale i l s' -> Q tt s') -> wp True updateShipBulletPosition Q J s.
Proof.
  intros Hwf Hlen (Hin & Hb & Hh & Hsp & Hy & Hy') HQ. set (ps := shipBullets s) in *.
  apply (wp_for_seq True (fun k s' => shipBullets s' = ps /\ brk (bullets s') = brk (bullets s) /\
    climbing l b (take k ps) (cells (bullets s') !! l))).
  - split; [done|]. split; [done|]. right. rewrite Hb. change (take 0 ps) with (@nil ptr). cbn. rewrite climbed_0.
    split; [done|lia].
  - intros k s' Hk (Hps & Hbrk & Hc). destruct (lookup_lt_is_Some_2 ps k) as [p Hp]; [by rewrite Hlen|].
    rewrite (take_S_r ps k p Hp). eapply wp_conseq.
    + apply (advance_climbing l b k p (take k ps) s' (fun _ _ => False)); [done|done|lia|by rewrite Hps|done].
    + cbv beta. intros _ s'' (Hps' & Hbrk' & Hc'). split; [by rewrite Hps'|]. split; [by rewrite Hbrk'|done].
    + done.
  - intros s' (Hps & Hbrk & Hc). rewrite take_ge in Hc by (rewrite Hlen; done).
    destruct Hc as [Hc|[_ Hc]]; [|lia]. apply list_elem_of_lookup_1 in Hin as [i Hi].
    apply (HQ i). split; [by rewrite Hps|]. split; [rewrite <- Hlen; by eapply lookup_lt_Some|]. split; [done|].
    rewrite Hbrk. apply Hwf. by exists b.
Qed.

(** a bullet that leaves the screen.  In play, the tick in which a bullet would pass the top of
    the screen faults: [updateShipBulletPosition] frees the bullet and leaves its address in
    the slots, and the same tick reads the bullet again to move or to draw it. *)
Theorem leaving_bullet_faults fuel l b s :
  gameState s = PLAYING -> heap_wf (bullets s) -> length (shipBullets s) = slots -> leaving l b s ->
  exists f, timer_interrupt fuel s = Fault f.
Proof.
  intros Hg Hwf Hlen Hl. assert (wp True (timer_interrupt fuel) (fun _ _ => False) (fun _ _ => False) s) as Hw.
  2:{ unfold wp in Hw. destruct (timer_interrupt fuel s); [done|done|eauto]. }
  apply wp_bind, wp_modify, wp_bind, wp_gets. get_set. rewrite Hg. apply wp_bind, wp_bind.
  apply (update_leaving l b); [done|done|exact Hl|]. clear s Hg Hwf Hlen Hl. intros i s Hs.
  assert (forall A (m : M (state D) A) (k : A -> M (state D) unit) (Q : unit -> state D -> Prop) s, tame any_fault no_jump (stale i l) m ->
    stale i l s -> (forall a s', stale i l s' -> wp True (k a) Q (fun _ _ => False) s') -> wp True (bind m k) Q (fun _ _ => False) s) as Hstep.
  { intros A m k Q s' Hm Hs' Hk. apply wp_bind. eapply wp_conseq; [by apply (tame_wp no_jump (stale i l))|done|by intros c s'' []]. }
  do 4 (apply Hstep; [tame|assumption|clear s Hs; intros ? s Hs]). apply wp_bind. by apply (draw_stale i l).
Qed.

(** Nothing that the loop does repairs the slot. *)
Lemma stale_for_ever fuel i l s0 s : stale i l s0 -> rtc (handled fuel) s0 s -> stale i l s.
Proof.
  intros H0 Hrun. induction Hrun as [|s1 s2 s3 [s1' s2' _ [He|He]] _ IH]; [done| |]; apply IH.
  - by apply (tame_ok any_fault any_jump _ _ _ _ _ (loop_body_stale i l fuel) H0 He).
  - by apply (tame_jumped any_fault any_jump _ _ _ _ _ (loop_body_stale i l fuel) H0 He).
Qed.

Lemma fire_freed_exact l x y sp img s : stale 0 l s -> createShipBullet x y sp img s = Fault UseAfterFree.
Proof.
  intros Hs. pose proof (fire_freed l x y sp img (fun _ _ => False) (fun _ _ => False) s Hs) as He. unfold ends in He.
  destruct (createShipBullet x y sp img s); [done|done|by rewrite He].
Qed.

(** C30: after a removal.  Once a slot holds the address of a freed bullet it does so for ever,
    whatever notifications follow: every later tick of play and every later shot faults, by a use after free if the slot is the
    first one. *)
Theorem removed_bullet_is_fatal fuel i l s0 s :
  stale i l s0 -> rtc (handled fuel) s0 s ->
  stale i l s /\
  (gameState s = PLAYING -> exists f, timer_interrupt fuel s = Fault f /\ (i = 0%nat -> f = UseAfterFree)) /\
  (forall x y sp img, exists f, createShipBullet x y sp img s = Fault f /\ (i = 0%nat -> f = UseAfterFree)).
Proof.
  intros H0 Hrun. pose proof (stale_for_ever fuel i l s0 s H0 Hrun) as Hs. split; [done|].
  destruct (decide (i = 0%nat)) as [->|Hne].
  - split; [intros Hg; rewrite (timer_freed l fuel s) by done|intros x y sp img; rewrite (fire_freed_exact l) by done]; by eexists.
  - split; [intros Hg; destruct (timer_stale i l fuel s Hs Hg) as [f Hf]; by exists f|]. intros x y sp img.
    pose proof (fire_stale i l x y sp img (fun _ _ => False) (fun _ _ => False) s Hs) as Hw. unfold wp in Hw.
    destruct (createShipBullet x y sp img s) as [| |f]; [done|done|by exists f].
Qed.

End faults.

(** One bullet in all the slots, just below the top. *)
Definition fault_play : state script :=
  score_play <| bullets := heap_alloc (MkShipBullet 50 20 4 no_image false) empty_heap |>
    <| shipBullets := replicate 7 (Some 0%nat) |>.

Lemma leaving_bullet_faults_witness : exists f, timer_interrupt 1 fault_play = Fault f.
Proof.
  apply (leaving_bullet_faults 1 0 (MkShipBullet 50 20 4 no_image false) fault_play); [reflexivity| |reflexivity|].
  - apply heap_alloc_wf, empty_heap_wf.
  - split; [apply elem_of_replicate; split; [reflexivity|discriminate]|]. split; [reflexivity|]. split; [reflexivity|].
    repeat split; vm_compute; congruence.
Defined.

(** The same with the bullet freed. *)
Definition fault_removed : state script := fault_play <| bullets := Heap ∅ 1 |>.

Lemma removed_bullet_is_fatal_witness :
  exists s, handled 1 fault_removed s /\ gameState s = PLAYING /\ timer_interrupt 1 s = Fault UseAfterFree.
Proof.
  assert (exists s, (loop_body 1 fault_removed = Ok tt s \/ loop_body 1 fault_removed = Jump CContinue s) /\ gameState s = PLAYING)
    as (s & He & Hg).
  { eexists. split; [first [left; vm_compute; reflexivity|right; vm_compute; reflexivity]|reflexivity]. }
  assert (handled 1 fault_removed s) as Hh by (constructor; [reflexivity|exact He]).
  exists s. split; [exact Hh|]. split; [exact Hg|].
  assert (stale 0 0 fault_removed) as Hst.
  { split; [reflexivity|]. split; [vm_compute; lia|]. split; [reflexivity|vm_compute; lia]. }
  destruct (proj1 (proj2 (removed_bullet_is_fatal 1 0 0 fault_removed s Hst (rtc_once _ _ Hh))) Hg) as (f & Hf & Hu).
  rewrite Hf, (Hu eq_refl). reflexivity.
Defined.
