(* ===== verification/GameSafe.v ===== *)
(** * The invariant of the notification loop

    [ready] is the invariant of a session in which the player moves, shoots, uses the
    menus, loses lives and games, up to the first bullet that hits an alien or leaves
    the screen: every pointer the loop uses is live, every image it draws is complete
    and lies on the screen, and the fleet is inside its borders.  This file shows that
    the keyboard and the mouse keep it in every case, and that they change the view of the
    state as the abstract game of [GameSpec] changes on the bytes they read. *)

From S2P Require Import Prelude CMonad Heap Memory Lcf Minix Macros ProjState Graphics GraphicsFacts Timer.
From S2P Require Import Keyboard MouseDriver Rtc Ship Aliens ShipBullets ShipBulletFacts AlienBullets.
From S2P Require Import AlienBulletFacts Menu Screen Volley GameSpec Game.
From stdpp Require Import options.

(** ** The invariant *)

Definition pics_ok (l : locals) : Prop := pic 1024 768 (background l) /\ pic 5 20 (alienBullet_img l) /\ pic 5 20 (shipBullet_img l).

Definition mouse_ok (h : heap Mouse) (l : locals) : Prop :=
  exists p m, mouse l = Some p /\ cells h !! p = Some m /\ pointer_ok m /\ image_ok (mouse_img m).

Definition ships_ok (h : heap Ship) (l : locals) : Prop :=
  heap_wf h /\ exists p sh, ship l = Some p /\ cells h !! p = Some sh /\ ship_ok sh /\ ship_score sh = 0.

(** A bullet in flight is on the play field. *)
Definition shot_ok (b : AlienBullet) : Prop :=
  ab_active b = true ->
  pic 5 20 (ab_img b) /\ ab_speed b = ALIEN_BULLET_SPEED /\ 0 <= ab_x b <= 1019 /\ 0 <= ab_y b < 700.

Definition alien_shot_ok (h : heap AlienBullet) (p : ptr) : Prop :=
  exists l b, p = Some l /\ cells h !! l = Some b /\ shot_ok b.

Definition input_ok (c : Z) (l : locals) : Prop :=
  in_u8 c /\ 1 <= currentByte l <= 3 /\ length (mouseBytes l) = 3%nat /\ Forall in_u8 (mouseBytes l).

(** The horizontal range of an alien, by the direction and the speed of the fleet. *)
Definition lane (right : bool) (sp : Z) (a : Alien) : Prop :=
  if right then 21 - sp <= alien_x a /\ alien_x a + 60 <= 1003
  else 21 <= alien_x a /\ alien_x a + 60 <= 1003 + sp.

Definition alien_shape (a : Alien) : Prop :=
  alien_width a = 60 /\ alien_height a = 40 /\ pic 60 40 (alien_img a) /\ pic 60 40 (alien_img_mov a).

Definition alien_ok (right : bool) (sp : Z) (a : Alien) : Prop :=
  alien_alive a = true /\ alien_shape a /\ lane right sp a /\ 0 <= alien_y a /\ alien_y a + 40 < TERRITORY + 20.

Definition fleet_ok (right : bool) (sp kills : Z) (l : list Alien) : Prop :=
  sp = 1 /\ kills = 0 /\ Forall (alien_ok right sp) l.

Definition world {D} (s : state D) : Prop :=
  images_ok (imgs s) /\ pics_ok (loc s) /\ mouse_ok (mice s) (loc s) /\ ships_ok (ships s) (loc s) /\
  alien_shot_ok (alien_bullets s) (alienBullet s) /\ volley (bullets s) (shipBullets s) /\ input_ok (mouse_scancode s) (loc s) /\
  length (aliens s) = Z.to_nat SIZE_OF_ALIENS /\ gameState s <> NEXT_ROUND /\ roundNum s = 0 /\
  (gameState s = PLAYING -> fleet_ok (right_mov (loc s)) (speed s) (killCount s) (aliens s)).

Definition ready {D} (s : state D) : Prop := screen s /\ world s.

(** A statement that keeps the invariant whichever way it is left. *)
Definition kept {D} (c : ctl) (s : state D) : Prop := (c = CContinue \/ c = CBreak) /\ ready s.

Ltac split_world := refine (conj _ (conj _ (conj _ (conj _ (conj _ (conj _ (conj _ (conj _ (conj _ (conj _ _))))))))));
  get_set; try (first [assumption | done]).

Section safety.
Context {D : Type} `{K : Kernel D} {XL : XpmLaws D} {RL : RandLaws D}.
Implicit Types s : state D.

Lemma world_env s s' : env s s' -> world s -> world s'.
Proof. intros [(g & d & ->) _] Hw. exact Hw. Qed.

Lemma ready_env s s' : env s s' -> ready s -> ready s'.
Proof. intros He [_ Hw]. split; [apply He|by eapply world_env]. Qed.

(** ** The keyboard *)

Lemma ship_ok_moved x sh : ship_ok sh -> ship_ok (sh <| ship_x := clamp X_MIN (X_MAX - width (ship_img sh)) x |>).
Proof.
  intros ((Hi & Hw & Hh) & Hr & Hrest). unfold ship_ok, ship_in_range. cbn. split; [done|].
  split; [|done]. apply clamp_range. unfold ship_in_range in Hr. lia.
Qed.

(** The ship after a key. *)
Definition steered (k : KeyActivity) (sh : Ship) : Ship :=
  match k with
  | A_Pressed => sh <| ship_x := clamp X_MIN (X_MAX - width (ship_img sh)) (i32 (ship_x sh - ship_speed sh)) |>
  | D_Pressed => sh <| ship_x := clamp X_MIN (X_MAX - width (ship_img sh)) (i32 (ship_x sh + ship_speed sh)) |>
  | A_Released | D_Released | Invalid_key => sh
  end.

Lemma steered_ok k sh : ship_ok sh -> ship_ok (steered k sh).
Proof. intros Hok. destruct k; try done; by apply ship_ok_moved. Qed.

Lemma wp_updateShip E p sh k Q J s :
  cells (ships s) !! p = Some sh ->
  Q (Some p) (s <| ships := heap_write p (steered k sh) (ships s) |>) ->
  wp E (updateShipPosition (Some p) k) Q J s.
Proof.
  intros Hp HQ. assert (s <| ships := heap_write p sh (ships s) |> = s) as Hid.
  { assert (heap_write p sh (ships s) = ships s) as ->; [|by destruct s].
    unfold heap_write. rewrite insert_id by done. by destruct (ships s). }
  apply wp_bind. eapply wp_load; [done|].
  destruct k; cbn [steered] in HQ; rewrite ?Hid in HQ; try by apply wp_ret.
  all: apply wp_bind; eapply wp_store; [done|]; apply wp_ret, HQ.
Qed.

(** A key in play, on the ship. *)
Lemma view_steered c p sh s :
  ship (loc s) = Some p -> cells (ships s) !! p = Some sh -> ship_ok sh -> gameState s = PLAYING ->
  (c =? 0xE0) = false -> (c =? ESC_BREAK) = false ->
  view (s <| ships := heap_write p (steered (scancode_key c) sh) (ships s) |>) = key_byte c (view s).
Proof.
  intros Hp Hsh ((_ & Hw & _) & Hr & _ & Hv & _) Hg H1 H2. destruct (view_ship_same p sh s Hp Hsh) as [Hx Hl].
  rewrite (view_ships _ p (steered (scancode_key c) sh)); [|done|apply lookup_insert_eq].
  assert (g_mode (view s) = PLAYING) as Hm by done.
  unfold key_byte, scancode_key. rewrite H1, H2, Hm. destruct (Z.eqb_spec c 0x1E) as [->|]; [|destruct (Z.eqb_spec c 0x20) as [->|]].
  - cbn [steered]. unfold move_cannon. rewrite Hx, Hw, Hv. unfold ship_in_range, X_MIN, X_MAX in Hr.
    rewrite i32_id by (unfold in_i32; lia). change (ship_lives _) with (ship_lives sh). rewrite <- Hl. by destruct (view s).
  - change (0x20 =? 0x9E) with false. cbn [steered]. unfold move_cannon. rewrite Hx, Hw, Hv. unfold ship_in_range, X_MIN, X_MAX in Hr.
    rewrite i32_id by (unfold in_i32; lia). change (ship_lives _) with (ship_lives sh). rewrite <- Hl. by destruct (view s).
  - assert (steered (if c =? 0x9E then A_Released else if c =? 0xAE then D_Released else Invalid_key) sh = sh) as -> by (by repeat ifcase).
    rewrite <- Hx, <- Hl. by destruct (view s).
Qed.

(** What the drivers read when their interrupt is served in [s]. *)
Definition mouse_events s : list event :=
  match mouse_ih s with
  | Ok _ s' => if ctrue (ih_error s') then [] else [MouseByte (mouse_scancode s')]
  | _ => []
  end.

Definition key_events s : list event :=
  match kbc_ih s with
  | Ok _ s' => [KeyByte (keyboard_scancode s')]
  | _ => []
  end.

(** The state after events were heard. *)
Definition served (es : list event) s s' : Prop := ready s' /\ heard es s s'.

Definition served_jump (es : list event) s (c : ctl) s' : Prop := c = CContinue /\ served es s s'.

(** The keyboard handler never faults and keeps the invariant, in every game
    state and for every byte the controller delivers; the game reacts to the byte. *)
Lemma keyboard_heard s :
  ready s -> wp False keyboard_interrupt (fun _ s' => served (key_events s) s s') (served_jump (key_events s) s) s.
Proof.
  intros [Hs Hw]. unfold served_jump, served, key_events. pose proof Hw as (Hi & Hpi & Hm & Hships & Hb & Hq & Hin & Hlen & Hn & Hr & Hf).
  pose proof Hships as (Hwf & p & sh & Hsp & Hsh & Hok & Hz).
  unfold keyboard_interrupt. apply wp_bind.
  apply (wp_mono False False _ (fun a s1 => kbc_ih s = Ok a s1 /\ exists d c, s1 = s <| dev := d |> <| keyboard_scancode := c |>) _ nojump);
    [done| |done|apply wp_remember, wp_kbc_ih; intros d c _; by exists d, c].
  intros [] s1 (-> & d & c & ->). apply wp_bind, wp_gets. get_set.
  assert (ctrue (twoBytes c) = (c =? 0xE0)) as -> by (unfold twoBytes; by ifcase). wp_step.
  { apply wp_bind, wp_modify, wp_jump. split; [done|]. split; [split; [done|]; split_world|].
    unfold heard. cbn [play fold_left react]. get_set. unfold key_byte. by rewrite Heqb. }
  apply wp_bind, wp_gets, wp_bind.
  apply (wp_mono False False _ (fun _ s' => exists bs, s' =
    s <| dev := d |> <| keyboard_scancode := c |> <| loc := (loc s) <| kbdBytes := bs |> |>) _ nojump); [done| |done|].
  2:{ wp_step; [apply wp_modify|apply wp_bind, wp_modify, wp_modify]; by eexists. }
  intros [] s1 [bs ->]. apply wp_bind, wp_modify. get_set. wp_step.
  { apply wp_bind, wp_modify, wp_jump. split; [done|]. split; [split; [done|]; split_world|].
    unfold heard. cbn [play fold_left react]. get_set. unfold key_byte. by rewrite Heqb, Heqb0. }
  apply wp_bind, wp_gets. get_set. wp_step.
  2:{ split; [split; [done|]; split_world|]. unfold heard. cbn [play fold_left react]. get_set. unfold key_byte. rewrite Heqb, Heqb0.
      change (g_mode (view s)) with (gameState s). by destruct (gameState s). }
  apply wp_bind, wp_modify, wp_bind, wp_gets, wp_bind, wp_gets, wp_bind. get_set. rewrite Hsp.
  eapply wp_updateShip; [exact Hsh|]. apply wp_modify. split.
  - split; [done|]. split_world. split; [apply heap_write_wf; eauto|]. eexists p, _. split; [done|].
    split; [apply lookup_insert_eq|]. split; [by apply steered_ok|by destruct (scancode_key c)].
  - assert (gameState s = PLAYING) as Hg by (unfold is_state in *; by apply bool_decide_eq_true in Heqb1).
    unfold heard. cbn [play fold_left react]. get_set. rewrite <- (view_steered c p sh s) by done.
    unfold view, ship_of. get_set. by rewrite Hsp.
Qed.

(** ** Starting a round *)

(** The alien at index [i] of a new fleet: 8 columns of 3 rows. *)
Definition formed (i : nat) (a : Alien) : Prop :=
  let c := Z.of_nat i / ROW_ALIENS in
  let r := Z.of_nat i mod ROW_ALIENS in
  alien_x a = 24 + 80 * c /\ alien_y a = 20 + 60 * r /\ alien_value a = 30 - 10 * r /\
  alien_alive a = true /\ alien_shape a.

Lemma wp_createAlien E xi yi m m' v Q J s :
  xpm_columns m = 60 -> xpm_rows m = 40 -> xpm_columns m' = 60 -> xpm_rows m' = 40 ->
  (forall d a, alien_x a = xi -> alien_y a = yi -> alien_value a = v -> alien_alive a = true -> alien_shape a ->
     Q a (s <| dev := d |>)) ->
  wp E (createAlien xi yi m m' v) Q J s.
Proof using XL.
  intros Hc Hr Hc' Hr' HQ. apply wp_bind, wp_sys, wp_bind, wp_sys, wp_ret. apply HQ; try done.
  split; [done|]. split; [done|]. split.
  - rewrite <- Hc, <- Hr. apply xpm_load_pic; lia.
  - rewrite <- Hc', <- Hr'. apply xpm_load_pic; lia.
Qed.

Lemma wp_createAlien_row E r xi yi Q J s :
  0 <= r < 3 ->
  (forall d a, alien_x a = xi -> alien_y a = yi -> alien_value a = 30 - 10 * r -> alien_alive a = true ->
     alien_shape a -> Q a (s <| dev := d |>)) ->
  wp E (createAlien_row r xi yi) Q J s.
Proof using XL.
  intros Hr HQ. unfold createAlien_row. assert (r = 0 \/ r = 1 \/ r = 2) as [->|[->| ->]] by lia; simpl.
  all: apply wp_createAlien; try done; intros; apply HQ; lia || done.
Qed.

(** The first [n] aliens are in formation. *)
Definition formed_upto (n : nat) (l : list Alien) : Prop :=
  length l = Z.to_nat SIZE_OF_ALIENS /\ forall i a, (i < n)%nat -> l !! i = Some a -> formed i a.

Lemma formed_upto_snoc n l a :
  formed_upto n l -> (n < length l)%nat -> formed n a -> formed_upto (S n) (<[n := a]> l).
Proof.
  intros [Hl Hf] Hn Ha. split; [by rewrite length_insert|]. intros i a' Hi.
  destruct (decide (i = n)) as [->|Hne].
  - rewrite list_lookup_insert_eq by done. by intros [= <-].
  - rewrite list_lookup_insert_ne by done. apply Hf. lia.
Qed.

(** The state after [create_aliens] has stored the aliens of [l]. *)
Definition recruited (l : list Alien) (d : D) s : state D := s <| aliens := l |> <| dev := d |>.

Lemma wp_create_aliens E Q J s :
  length (aliens s) = Z.to_nat SIZE_OF_ALIENS ->
  (forall p l d, formed_upto (Z.to_nat SIZE_OF_ALIENS) l -> Q p (recruited l d s)) -> wp E create_aliens Q J s.
Proof using XL.
  intros Hlen HQ. unfold create_aliens, COL_ALIENS, ROW_ALIENS.
  apply (wp_for_acc_seqZ _ (fun c '(xi, yi, n) s' => xi = 24 + 80 * c /\ yi = 20 /\ n = Z.to_nat (3 * c) /\
    exists l d, s' = recruited l d s /\ formed_upto n l)); [lia| | |].
  - split; [done|]. split; [done|]. split; [done|]. exists (aliens s), (dev s). split; [by destruct s|].
    split; [done|]. intros i a Hi. lia.
  - intros c [[xi yi] n] s' Hc (-> & -> & -> & l & d & -> & Hl). apply wp_bind.
    apply (wp_for_acc_seqZ _ (fun r '(xi, yi, n) s' => xi = 24 + 80 * c /\ yi = 20 + 60 * r /\
      n = Z.to_nat (3 * c + r) /\ exists l d, s' = recruited l d s /\ formed_upto n l)); [lia| | |].
    + split; [done|]. split; [done|]. split; [f_equal; lia|]. exists l, d. done.
    + clear l d Hl. intros r [[xi yi] n] s' Hr (-> & -> & -> & l & d & -> & Hl).
      apply wp_bind, wp_createAlien_row; [lia|]. intros d' a Hx Hy Hv Hal Hsh.
      apply wp_bind, wp_set_alien, wp_ret. split; [done|]. split; [machsimp; lia|]. split; [lia|].
      exists (<[Z.to_nat (3 * c + r) := a]> l), d'. split; [reflexivity|].
      replace (Z.to_nat (3 * c + (r + 1))) with (S (Z.to_nat (3 * c + r))) by lia.
      apply formed_upto_snoc; [done|destruct Hl as [-> _]; unfold SIZE_OF_ALIENS; lia|].
      unfold formed, ROW_ALIENS. rewrite Z2Nat.id by lia.
      replace ((3 * c + r) / 3) with c by (Z.to_euclidean_division_equations; lia).
      replace ((3 * c + r) mod 3) with r by (Z.to_euclidean_division_equations; lia).
      rewrite Hx, Hy, Hv. done.
    + intros [[xi yi] n] s' (-> & -> & -> & l' & d' & -> & Hl'). apply wp_ret.
      split; [machsimp; lia|]. split; [done|]. split; [lia|]. by exists l', d'.
  - intros [[xi yi] n] s' (-> & -> & -> & l & d & -> & Hl). by apply HQ.
Qed.

(** The state of a new round. *)
Definition reset_flags s : state D :=
  s <| gameState := PLAYING |> <| killCount := 0 |> <| frames_per_state := 20 |> <| frame_counter := 0 |>
    <| changeSpeed := false |> <| changeDir := false |>.

Definition reset_round s : state D :=
  let s' := reset_flags s in s' <| speed := i32 (INITIAL_ALIEN_SPEED + i32 (2 * roundNum s')) |>.

Definition new_round (g : graphics) (d : D) (h : heap Ship) (l : list Alien) s : state D :=
  reset_round (s <| gfx := g |> <| dev := d |> <| ships := h |> <| aliens := l |>).

Lemma wp_reset_round E (Q : unit -> state D -> Prop) J s :
  Q tt (reset_round s) ->
  wp E (assign gameState PLAYING ;; assign killCount 0 ;; assign frames_per_state 20 ;;
        assign frame_counter 0 ;; assign changeSpeed false ;; assign changeDir false ;;
        modify (fun s => s <| speed := i32 (INITIAL_ALIEN_SPEED + i32 (2 * roundNum s)) |>)) Q J s.
Proof. done. Qed.

(** The heap is unchanged or has one object more. *)
Definition grown {A} (h h' : heap A) : Prop := h' = h \/ exists v, h' = heap_alloc v h.

Lemma grown_lookup {A} (h h' : heap A) p v :
  heap_wf h -> grown h h' -> cells h !! p = Some v -> cells h' !! p = Some v.
Proof.
  intros Hwf [->|[v' ->]] Hp; [done|]. by apply (deref_alloc_other v' v h (Some p)).
Qed.

Lemma grown_wf {A} (h h' : heap A) : heap_wf h -> grown h h' -> heap_wf h'.
Proof. intros Hwf [->|[v ->]]; [done|]. by apply heap_alloc_wf. Qed.

Lemma wp_initGame E p sh Q J s :
  screen s -> length (aliens s) = Z.to_nat SIZE_OF_ALIENS -> heap_wf (ships s) ->
  cells (ships s) !! p = Some sh -> ship_ok sh ->
  (forall g d h l, screen_gfx g -> grown (ships s) h -> formed_upto (Z.to_nat SIZE_OF_ALIENS) l ->
     Q tt (new_round g d h l s)) ->
  wp E (initGame (Some p)) Q J s.
Proof using XL.
  intros Hs Hlen Hwf Hp Hsh HQ. apply wp_bind, wp_sys, wp_bind, wp_gets, wp_bind.
  set (bg := fst _). set (d0 := snd _).
  assert (pic 1024 768 bg) as Hbg by (apply (xpm_load_pic background_map); done).
  eapply (wp_mono _ _ _ (fun _ s' => exists h d, grown (ships s) h /\ s' = s <| dev := d |> <| ships := h |>)); [done| |done|].
  2:{ unfold when. ifcase.
      - apply wp_bind, wp_bind, wp_sys, wp_malloc, wp_ret. eexists _, _. split; [right; by eexists|reflexivity].
      - apply wp_ret. exists (ships s), d0. split; [by left|]. by destruct s. }
  intros [] s1 (h & d & Hh & ->). apply wp_bind, wp_drawBackground; [done|done|].
  intros s2 [(g2 & d2 & ->) Hs2]. apply wp_bind, (wp_drawShip _ _ sh); [done|by apply grown_lookup with (ships s)|done|].
  intros s3 [(g3 & d3 & ->) Hs3]. apply wp_bind, wp_create_aliens; [done|]. intros q l d4 Hl.
  apply wp_reset_round.
  specialize (HQ g3 d4 h l Hs3 Hh Hl). unfold new_round, recruited in *. by destruct s.
Qed.

Lemma formed_ok right i a : (i < Z.to_nat SIZE_OF_ALIENS)%nat -> formed i a -> alien_ok right 1 a.
Proof.
  unfold formed, alien_ok, lane, ROW_ALIENS, TERRITORY, SIZE_OF_ALIENS. cbv zeta.
  intros Hi (Hx & Hy & _ & Hal & Hsh). split; [done|]. split; [done|].
  assert (0 <= Z.of_nat i / 3 <= 7) by (Z.to_euclidean_division_equations; lia).
  assert (0 <= Z.of_nat i mod 3 <= 2) by (Z.to_euclidean_division_equations; lia).
  destruct right; lia.
Qed.

Lemma ready_new_round g d h l s :
  world s -> screen_gfx g -> grown (ships s) h -> formed_upto (Z.to_nat SIZE_OF_ALIENS) l ->
  ready (new_round g d h l s).
Proof.
  intros (Hi & Hpi & Hm & (Hwf & p & sh & Hsp & Hsh & Hok & Hz) & Hb & Hq & Hin & Hlen & Hn & Hr & Hf) Hg Hh [Hl Hfl].
  split; [done|]. unfold new_round. split_world.
  - split; [by eapply grown_wf|]. exists p, sh. split; [done|]. split; [by eapply grown_lookup|done].
  - intros _. assert (speed (new_round g d h l s) = 1) as Hsp1.
    { change (i32 (INITIAL_ALIEN_SPEED + i32 (2 * roundNum s)) = 1). by rewrite Hr. }
    change (fleet_ok (right_mov (loc s)) (speed (new_round g d h l s)) 0 l). rewrite Hsp1.
    split; [done|]. split; [done|]. apply Forall_lookup_2. intros i a Ha.
    apply (formed_ok _ i); [rewrite <- Hl; by eapply lookup_lt_Some|].
    apply Hfl; [rewrite <- Hl; by eapply lookup_lt_Some|done].
Qed.

(** The game at the start of a round. *)
Lemma formed_formation l : formed_upto (Z.to_nat SIZE_OF_ALIENS) l -> place_of <$> l = formation.
Proof.
  intros [Hl Hf]. apply list_eq. intros i. unfold formation. rewrite !list_lookup_fmap.
  destruct (decide (i < length l)%nat) as [Hi|Hi].
  - destruct (lookup_lt_is_Some_2 l i Hi) as [a Ha]. rewrite Ha, lookup_seqZ_lt by (rewrite Hl in Hi; unfold SIZE_OF_ALIENS in *; lia).
    destruct (Hf i a ltac:(lia) Ha) as (Hx & Hy & _). cbn [fmap option_fmap option_map]. unfold place_of, formation_point. by rewrite Hx, Hy.
  - rewrite !lookup_ge_None_2; [done|rewrite length_seqZ; lia|lia].
Qed.

Lemma view_new_round g d h l s :
  ships_ok (ships s) (loc s) -> grown (ships s) h -> formed_upto (Z.to_nat SIZE_OF_ALIENS) l ->
  view (new_round g d h l s) = start_round (view s).
Proof.
  intros (Hwf & p & sh & Hp & Hsh & _) Hg Hl. unfold start_round. rewrite <- (formed_formation l Hl).
  assert (ship_of (new_round g d h l s) = ship_of s) as Hs.
  { unfold ship_of. change (ships (new_round g d h l s)) with h. change (ship (loc (new_round g d h l s))) with (ship (loc s)).
    rewrite Hp. cbn. by rewrite Hsh, (grown_lookup (ships s) h p sh). }
  unfold view. rewrite Hs. reflexivity.
Qed.

(** C17: a new round.  On a working screen, [initGame] succeeds: the 24 aliens are alive in
    8 columns of 3 rows, 80 pixels apart from [x = 24] and 60 pixels apart from [y = 20],
    worth 30, 20 and 10 points from the top row down, with their pixmaps loaded; the
    kill count, the animation counter and the direction flag are reset; the speed is
    1 plus twice the round number; the player's ship and the slots of its bullets are not
    changed, although game.h says that the function initialises them. *)
Theorem initGame_correct p sh s :
  screen s -> length (aliens s) = Z.to_nat SIZE_OF_ALIENS -> heap_wf (ships s) ->
  cells (ships s) !! p = Some sh -> ship_ok sh -> 0 <= roundNum s < 2 ^ 29 ->
  exists s', initGame (Some p) s = Ok tt s' /\
    length (aliens s') = 24%nat /\ (forall i a, aliens s' !! i = Some a -> formed i a) /\
    gameState s' = PLAYING /\ killCount s' = 0 /\ frame_counter s' = 0 /\ changeDir s' = false /\
    speed s' = 1 + 2 * roundNum s /\ cells (ships s') !! p = Some sh /\
    shipBullets s' = shipBullets s /\ loc s' = loc s.
Proof using XL.
  intros Hs Hlen Hwf Hp Hsh Hr.
  destruct (wp_exec (initGame (Some p)) (fun _ s' => exists g d h l, grown (ships s) h /\
    formed_upto (Z.to_nat SIZE_OF_ALIENS) l /\ s' = new_round g d h l s) s) as ([] & s' & He & g & d & h & l & Hh & [Hl Hfl] & ->).
  { eapply wp_initGame; [done..|]. intros g d h l _ Hh Hl. by exists g, d, h, l. }
  eexists. split; [exact He|]. repeat (split; [done|]). split.
  - intros i a Ha. apply Hfl; [rewrite <- Hl; by eapply lookup_lt_Some|done].
  - repeat (split; [done|]). split.
    + change (i32 (INITIAL_ALIEN_SPEED + i32 (2 * roundNum s)) = 1 + 2 * roundNum s).
      unfold INITIAL_ALIEN_SPEED. machsimp. lia.
    + split; [by eapply grown_lookup|done].
Qed.

(** ** The mouse *)

Lemma ready_gameState gs s : ready s -> gs <> PLAYING -> gs <> NEXT_ROUND -> ready (s <| gameState := gs |>).
Proof.
  intros [Hs (Hi & Hpi & Hm & Hsh & Hb & Hq & Hin & Hlen & Hn & Hr & Hf)] H1 H2. split; [done|]. split_world.
Qed.

(** The selected button is not part of the invariant. *)
Lemma ready_button b s : ready s -> ready (s <| loc := (loc s) <| button := b |> |>).
Proof. intros Hr. exact Hr. Qed.

Lemma wp_show_menu E Q J s :
  ready s -> (forall s', env s s' -> Q tt s') -> wp E show_menu Q J s.
Proof.
  intros [Hs Hw] HQ. apply wp_bind, wp_gets, wp_bind, wp_drawMenu; [done|apply Hw|].
  intros s' Hs'. apply wp_ret. by apply HQ.
Qed.

(** The menu with the pointer over it, as the timer and the mouse draw it. *)
Lemma wp_menu_frame E p m Q J s :
  ready s -> mouse (loc s) = Some p -> cells (mice s) !! p = Some m -> pointer_ok m -> image_ok (mouse_img m) ->
  (forall s', env s s' -> Q tt s') -> wp E (show_menu ;; drawMouse (Some p)) Q J s.
Proof.
  intros Hr Hp Hm Hok Hi HQ. apply wp_bind, wp_show_menu; [done|]. intros s1 He.
  pose proof He as [(g & d & ->) Hs1]. apply (wp_drawMouse _ _ m); [done|exact Hm|done|done|].
  intros s2 He2. exact (HQ s2 (env_trans _ _ _ He He2)).
Qed.

(** The game changes by [f]. *)
Definition follows (f : game -> game) s s' : Prop := ready s' /\ view s' = f (view s).

Lemma follows_heard (f : game -> game) es s s' : (forall g, f g = play es g) -> follows f s s' -> heard es s s'.
Proof. intros Hf [_ Hv]. unfold heard. by rewrite Hv, Hf. Qed.

Lemma view_env s s' : env s s' -> view s' = view s.
Proof. by intros [(g & d & ->) _]. Qed.

Lemma follows_env f s s1 s2 : follows f s s1 -> env s1 s2 -> follows f s s2.
Proof. intros [Hr Hv] He. split; [by eapply ready_env|]. by rewrite (view_env _ _ He). Qed.

(** The button under the pointer. *)
Lemma follows_highlight p m s :
  ready s -> mouse (loc s) = Some p -> cells (mice s) !! p = Some m ->
  follows highlight s (s <| loc := (loc s) <| button := getButton (mouse_x m) (mouse_y m) |> |>).
Proof.
  intros Hr Hp Hm. split; [exact Hr|]. rewrite view_button. unfold highlight.
  destruct (view_mouse_same p m s Hp Hm) as [-> _]. done.
Qed.

Lemma timer_in_menu_heard s : ready s -> wp False timer_in_menu (fun _ s' => follows highlight s s') nojump s.
Proof.
  intros Hr. pose proof Hr as [Hs (_ & _ & (p & m & Hp & Hm & Hok & Hi) & _)].
  apply wp_bind, wp_gets. rewrite Hp. apply wp_bind. eapply wp_load; [exact Hm|]. apply wp_bind, wp_modify.
  apply (wp_menu_frame _ p m); [exact Hr|exact Hp|exact Hm|done|done|].
  intros s' He. eapply follows_env; [by eapply follows_highlight|exact He].
Qed.

(** The left button of the pointer. *)
Definition pressed s : bool := from_option mouse_lb_pressed false (pointer_of s).

Lemma pressed_mouse p m s : mouse (loc s) = Some p -> cells (mice s) !! p = Some m -> pressed s = mouse_lb_pressed m.
Proof. intros Hp Hm. unfold pressed, pointer_of. rewrite Hp. cbn. by rewrite Hm. Qed.

Lemma mouse_in_menu_heard s : ready s -> wp False mouse_in_menu (fun _ s' => follows (click_menu (pressed s)) s s') nojump s.
Proof using XL.
  intros Hr. pose proof Hr as [Hs (_ & _ & (p & m & Hp & Hm & Hok & Hi) & _)].
  apply wp_bind, wp_gets. rewrite Hp. apply wp_bind. eapply wp_load; [exact Hm|]. apply wp_bind, wp_modify.
  pose proof (follows_highlight p m s Hr Hp Hm) as Hf1. rewrite (pressed_mouse p m s Hp Hm). set (s1 := s <| loc := _ |>) in *.
  apply wp_bind, wp_show_menu; [exact Hr|]. intros s2 He2.
  pose proof (follows_env _ _ _ _ Hf1 He2) as Hf2. assert (mice s2 = mice s) as Hm2 by (by destruct He2 as [(g & d & ->) _]).
  apply wp_bind, (wp_drawMouse _ _ m); [apply He2|by rewrite Hm2|done|done|]. intros s3 He3.
  pose proof (follows_env _ _ _ _ Hf2 He3) as [Hr3 Hv3]. assert (mice s3 = mice s) as Hm3 by (rewrite <- Hm2; by destruct He3 as [(g & d & ->) _]).
  clear Hf1 Hf2 Hm2 He2 He3. apply wp_bind. eapply wp_load; [by rewrite Hm3|]. unfold follows, click_menu.
  wp_step; [|done]. change (button (loc s3)) with (g_button (view s3)).
  apply wp_bind, wp_gets. change (button (loc s3)) with (g_button (view s3)). rewrite <- Hv3. destruct (g_button (view s3)).
  - pose proof Hr3 as [Hs3 Hw3]. pose proof Hw3 as (_ & _ & _ & Hsok & _ & _ & _ & Hlen & _).
    pose proof Hsok as (Hwf & q & sh & Hsp & Hsh & Hshok & _).
    apply wp_bind, wp_gets. rewrite Hsp. eapply wp_initGame; [done..|].
    intros g d h l Hg Hh Hl. split; [by apply ready_new_round|by apply view_new_round].
  - apply wp_bind, wp_modify. pose proof (ready_gameState INSTRUCTIONS_DISPLAY _ Hr3 ltac:(done) ltac:(done)) as Hr4.
    apply wp_bind, wp_drawInstructions; [apply Hr4|apply Hr4|]. intros s5 He5. apply wp_ret. split; [exact (ready_env _ _ He5 Hr4)|].
    by rewrite (view_env _ _ He5).
  - apply wp_modify. split; [by apply ready_gameState|done].
  - by apply wp_ret.
Qed.

Lemma mouse_in_instructions_heard s :
  ready s -> wp False mouse_in_instructions (fun _ s' => follows (click_instructions (pressed s)) s s') nojump s.
Proof.
  intros Hr. pose proof Hr as [Hs (_ & _ & (p & m & Hp & Hm & Hok & Hi) & _)].
  apply wp_bind, wp_gets. rewrite Hp. apply wp_bind. eapply wp_load; [exact Hm|]. apply wp_bind, wp_modify.
  rewrite (pressed_mouse p m s Hp Hm). set (s1 := s <| loc := _ |>). assert (ready s1) as Hr1 by exact Hr.
  apply wp_bind, wp_gets, wp_bind, wp_drawInstructions; [apply Hr1|apply Hr1|]. intros s2 He2.
  pose proof (ready_env _ _ He2 Hr1) as Hr2. assert (mice s2 = mice s) as Hm2 by (by destruct He2 as [(g & d & ->) _]).
  apply wp_bind, (wp_drawMouse _ _ m); [apply He2|by rewrite Hm2|done|done|]. intros s3 He3.
  pose proof (ready_env _ _ He3 Hr2) as Hr3. assert (mice s3 = mice s) as Hm3 by (rewrite <- Hm2; by destruct He3 as [(g & d & ->) _]).
  assert (view s3 = view s) as Hv3 by (by rewrite (view_env _ _ He3), (view_env _ _ He2)).
  apply wp_bind. eapply wp_load; [by rewrite Hm3|]. unfold follows, click_instructions.
  destruct (view_mouse_same p m s Hp Hm) as [-> _]. cbn [fst snd].
  wp_step; [|done]. change (instruction_button (loc s1)) with (getInstructionButton (mouse_x m) (mouse_y m)). cbn [andb].
  wp_step; [|done].
  apply wp_bind, wp_modify, wp_bind, wp_modify. get_set.
  pose proof (ready_button INITIAL _ (ready_gameState MENU_DISPLAY _ Hr3 ltac:(done) ltac:(done))) as Hr4.
  apply wp_bind, wp_drawMenu; [apply Hr4|apply Hr4|]. intros s5 He5. apply wp_ret. split; [exact (ready_env _ _ He5 Hr4)|].
  rewrite (view_env _ _ He5), <- Hv3. done.
Qed.

(** Replacing the pointer and the input bytes. *)
Lemma ready_mouse p m bs cb pk s :
  ready s -> mouse (loc s) = Some p -> pointer_ok m -> image_ok (mouse_img m) ->
  length bs = 3%nat -> Forall in_u8 bs -> 1 <= cb <= 3 ->
  ready (s <| mice := heap_write p m (mice s) |>
           <| loc := (loc s) <| mouseBytes := bs |> <| currentByte := cb |> <| pp := pk |> |>).
Proof.
  intros [Hs (Hi & Hpi & Hm & Hsh & Hb & Hq & (Hc & _) & Hlen & Hn & Hr & Hf)] Hp Hok Him Hbl Hb8 Hcb.
  split; [done|]. split_world. exists p, m. split; [done|]. split; [apply lookup_insert_eq|done].
Qed.

Lemma ready_input bs cb s :
  ready s -> length bs = 3%nat -> Forall in_u8 bs -> 1 <= cb <= 3 ->
  ready (s <| loc := (loc s) <| mouseBytes := bs |> <| currentByte := cb |> |>).
Proof.
  intros [Hs (Hi & Hpi & Hm & Hsh & Hb & Hq & (Hc & _) & Hlen & Hn & Hr & Hf)] Hbl Hb8 Hcb.
  split; [done|]. split_world.
Qed.

(** The bullet that the ship fires. *)
Lemma fired_flying sh img :
  ship_ok sh -> pic 5 20 img ->
  flying (MkShipBullet (i32 (ship_x sh + width (ship_img sh) ÷ 2)) (ship_y sh) SHIP_BULLET_SPEED img false).
Proof.
  intros ((_ & Hw & _) & Hr & Hy & _) Hp. unfold ship_in_range, X_MIN, X_MAX in Hr. rewrite Hw in *.
  change (75 ÷ 2) with 37. unfold flying. cbn [sb_hitAlien sb_speed sb_img sb_x sb_y]. rewrite Hy.
  machsimp. unfold SHIP_YPOS. repeat split; try apply Hp; lia.
Qed.

(** The bullet that the slots hold after a shot. *)
Lemma shot_fired b s :
  volley (bullets s) (shipBullets s) -> flying b ->
  shot_of (s <| bullets := heap_alloc b (bullets s) |>
             <| shipBullets := refill (bullets s) (Some (brk (bullets s))) <$> shipBullets s |>) =
  match shot_of s with None => Some (sb_x b, sb_y b) | Some q => Some q end.
Proof.
  intros (Hwf & p & Hps & Hf) Hb. unfold shot_of. get_set. rewrite Hps, fmap_replicate.
  change (default NULL (head (replicate slots ?q))) with q. destruct p as [l|].
  - destruct (Hf l eq_refl) as (b0 & Hb0 & Hh & _).
    assert (deref (bullets s) (Some l) = Some b0) as Hd by done. unfold refill. rewrite Hd, Hh.
    by rewrite (deref_alloc_other b b0 (bullets s) (Some l) Hwf Hd).
  - cbn [refill deref mbind option_bind heap_alloc cells]. by rewrite lookup_insert_eq.
Qed.

(** A packet during play: the button fires, whatever bullets are in flight. *)
Lemma mouse_in_game_heard s :
  ready s -> gameState s = PLAYING -> wp False mouse_in_game (fun _ s' => follows (shoot (pressed s)) s s') nojump s.
Proof.
  intros Hr Hg. pose proof Hr as [Hs (Hi & Hpi & (p & m & Hp & Hm & Hok & Him) & Hships & Hb & Hv & Hin & Hlen & Hn & Hrn & Hf)].
  pose proof Hships as (_ & q & sh & Hsp & Hsh & Hsok & _). pose proof Hpi as (_ & _ & Himg).
  apply wp_bind, wp_gets. rewrite Hp. apply wp_bind. eapply wp_load; [exact Hm|]. rewrite (pressed_mouse p m s Hp Hm).
  unfold follows, shoot. wp_step; [|by split; [|destruct (g_shot (view s))]].
  apply wp_bind, wp_gets. rewrite Hsp. apply wp_bind. eapply wp_load; [exact Hsh|]. apply wp_bind, wp_gets.
  pose proof (fired_flying sh (shipBullet_img (loc s)) Hsok Himg) as Hfl.
  apply wp_bind, wp_fire_volley; [done|exact Hfl|]. intros h ps Hv' Hh Hps.
  apply wp_bind. eapply wp_load; [exact Hm|]. eapply wp_store; [exact Hm|]. split.
  - split; [done|]. split_world. eexists p, _. split; [done|]. split; [apply lookup_insert_eq|done].
  - pose proof (shot_fired _ s Hv Hfl) as Hshot. rewrite <- Hh, <- Hps in Hshot.
    set (s1 := s <| bullets := h |> <| shipBullets := ps |>) in *.
    rewrite (view_mice _ p (m <| mouse_lb_pressed := false |>)); [|exact Hp|apply lookup_insert_eq].
    destruct (view_mouse_same p m s Hp Hm) as [Hpt Hsz], (view_ship_same q sh s Hsp Hsh) as [Hx _].
    assert (view s1 = (view s) <| g_shot := shot_of s1 |>) as -> by done. rewrite Hshot.
    destruct Hsok as ((_ & Hw & _) & Hra & Hy & _). unfold ship_in_range, X_MIN, X_MAX in Hra.
    cbn [sb_x sb_y]. rewrite Hw, Hy, i32_id by (unfold in_i32; Z.to_euclidean_division_equations; lia). change (75 ÷ 2) with (75 / 2).
    rewrite <- Hx. change (mouse_x (m <| mouse_lb_pressed := false |>), mouse_y (m <| mouse_lb_pressed := false |>)) with (mouse_x m, mouse_y m).
    change (mouse_img (m <| mouse_lb_pressed := false |>)) with (mouse_img m). rewrite <- Hpt, <- Hsz.
    change (shot_of s) with (g_shot (view s)). destruct (view s) as [? ? ? ? ? ? ? ? ? [|] ? ? ?]; done.
Qed.

(** The pointer after a packet. *)
Lemma view_moved p m b0 b1 b2 pk s :
  mouse (loc s) = Some p -> cells (mice s) !! p = Some m -> in_u8 b0 -> in_u8 b1 -> in_u8 b2 -> pointer_ok m ->
  let m' := move_mouse (getMousePacket [b0; b1; b2]) m in
  view (s <| loc := (loc s) <| pp := pk |> |> <| mice := heap_write p m' (mice s) |>) = point b0 b1 b2 (view s).
Proof.
  intros Hp Hm H0 H1 H2 Hok m'. rewrite (view_mice _ p m'); [|exact Hp|apply lookup_insert_eq].
  destruct (view_mouse_same p m s Hp Hm) as [Hpt Hsz]. unfold point. rewrite Hpt, Hsz.
  destruct (pointer_move_clipped m b0 b1 b2 H1 H2 Hok) as (_ & Hx & Hy & _). fold m' in Hx, Hy. rewrite Hx, Hy.
  rewrite getMousePacket_correct by done. cbn [pp_delta_x pp_delta_y].
  change (mouse_img m') with (mouse_img m). change (view (s <| loc := (loc s) <| pp := pk |> |>)) with (view s).
  rewrite <- Hsz. by destruct (view s).
Qed.

(** A complete packet. *)
Lemma mouse_packet_heard b0 b1 b2 s :
  ready s -> mouseBytes (loc s) = [b0; b1; b2] ->
  wp False mouse_packet (fun _ s' => follows (fun g => click (Z.testbit b0 0) (point b0 b1 b2 g)) s s') nojump s.
Proof using XL.
  intros Hr Hbs. pose proof Hr as [Hs (_ & _ & (p & m & Hp & Hm & Hok & Hi) & _ & _ & _ & (_ & Hcb & Hbl & Hb8) & _)].
  rewrite Hbs in Hbl, Hb8. pose proof Hb8 as Hb8'. rewrite !Forall_cons in Hb8'. destruct Hb8' as (H0 & H1 & H2 & _).
  apply wp_bind, wp_gets. rewrite Hbs. set (pk := getMousePacket [b0; b1; b2]).
  apply wp_bind, wp_modify, wp_bind, wp_gets, wp_bind, wp_gets. get_set. rewrite Hp.
  apply wp_bind, wp_bind. eapply wp_load; [exact Hm|]. eapply wp_store; [exact Hm|].
  pose proof (move_mouse_pointer_ok pk m (getMousePacket_ok b0 b1 b2 H1 H2) Hok) as Hok'.
  pose proof (ready_mouse p (move_mouse pk m) [b0; b1; b2] (currentByte (loc s)) pk s Hr Hp Hok' Hi Hbl Hb8 Hcb) as Hr'.
  pose proof (view_moved p m b0 b1 b2 pk s Hp Hm H0 H1 H2 Hok) as Hv'. fold pk in Hv'. cbv zeta in Hv'.
  assert (forall X, mouseBytes (loc s) = X -> (loc s) <| pp := pk |> = (loc s) <| mouseBytes := X |> <| currentByte := currentByte (loc s) |> <| pp := pk |>) as Hloc.
  { intros X <-. by destruct (loc s). }
  rewrite (Hloc _ Hbs) in Hv' |- *. clear Hloc. revert Hr' Hv'. set (s1 := s <| mice := _ |> <| loc := _ |>). intros Hr1.
  change (set_field mice _ _) with s1. intros Hv1.
  assert (pressed s1 = Z.testbit b0 0) as Hpr.
  { rewrite (pressed_mouse p (move_mouse pk m) s1); [|exact Hp|apply lookup_insert_eq]. unfold move_mouse, pk. cbn [mouse_lb_pressed].
    by rewrite getMousePacket_correct. }
  apply wp_bind, wp_gets. unfold follows, click. rewrite <- Hv1, <- Hpr. change (g_mode (view s1)) with (gameState s1). destruct (gameState s1) eqn:Egs.
  - by apply mouse_in_menu_heard.
  - by apply mouse_in_instructions_heard.
  - by apply mouse_in_game_heard.
  - by apply wp_ret.
  - by apply wp_ret.
Qed.

Lemma insert_byte_ok i (b : Z) bs : Forall in_u8 bs -> in_u8 b -> length bs = 3%nat ->
  length (<[i := b]> bs) = 3%nat /\ Forall in_u8 (<[i := b]> bs).
Proof. intros. rewrite length_insert. split; [done|]. by apply Forall_insert. Qed.

(** The packet, byte by byte. *)
Lemma view_packet bs cb s :
  view (s <| loc := (loc s) <| mouseBytes := bs |> <| currentByte := cb |> |>) = (view s) <| g_packet := take (Z.to_nat (cb - 1)) bs |>.
Proof. done. Qed.

Lemma served_byte b0 b1 b2 c cb s :
  mouseBytes (loc s) = [b0; b1; b2] -> currentByte (loc s) = cb -> (cb = 1 /\ Z.testbit c 3 = true \/ cb = 2) ->
  view (s <| loc := (loc s) <| mouseBytes := <[Z.to_nat (cb - 1) := c]> (mouseBytes (loc s)) |> <| currentByte := cb + 1 |> |>) =
    mouse_byte c (view s).
Proof.
  intros Hbs Hcb Hc. rewrite view_packet, Hbs. unfold mouse_byte. change (g_packet (view s)) with (take (Z.to_nat (currentByte (loc s) - 1)) (mouseBytes (loc s))).
  rewrite Hcb, Hbs. destruct Hc as [[-> Ht]| ->]; [|done].
  change (take (Z.to_nat (1 - 1)) [b0; b1; b2]) with (@nil Z). by rewrite Ht.
Qed.

(** The mouse handler. *)
Lemma mouse_heard s :
  ready s -> wp False mouse_interrupt (fun _ s' => served (mouse_events s) s s') (served_jump (mouse_events s) s) s.
Proof using XL.
  intros Hr. unfold mouse_interrupt, served_jump, served, mouse_events. apply wp_bind.
  apply (wp_mono False False _ (fun a s1 => mouse_ih s = Ok a s1 /\ exists d st c e, (c = mouse_scancode s \/ in_u8 c) /\
    s1 = s <| dev := d |> <| mouse_statuscode := st |> <| mouse_scancode := c |> <| ih_error := e |>) _ nojump); [done| |done|].
  2:{ apply wp_remember, wp_mouse_ih. intros d st c e Hc. by exists d, st, c, e. }
  intros [] s1 (-> & d & st & c & e & Hc & ->). get_set.
  pose proof Hr as [Hs (Hi & Hpi & Hm & Hsh & Hb & Hq & (Hin & Hcb & Hbl & Hb8) & Hlen & Hn & Hrn & Hf)].
  assert (in_u8 c) as Hc8 by (destruct Hc as [->|]; done).
  set (s1 := s <| dev := d |> <| mouse_statuscode := st |> <| mouse_scancode := c |>).
  assert (forall e', ready (s1 <| ih_error := e' |>)) as Hr1 by (intros e'; split; [done|]; split_world).
  apply wp_bind, wp_gets. get_set. wp_step.
  { apply wp_bind, wp_modify, wp_jump. split; [done|]. split; [apply Hr1|done]. }
  apply wp_bind, wp_gets, wp_bind, wp_gets. get_set.
  change (currentByte (loc s1)) with (currentByte (loc s)). change (mouse_scancode s1) with c.
  assert (forall i cb, 1 <= cb <= 3 -> ready (s1 <| ih_error := e |> <| loc := (loc s) <| mouseBytes := <[i := c]> (mouseBytes (loc s)) |> <| currentByte := cb |> |>)) as Hr2.
  { intros i cb Hcb'. destruct (insert_byte_ok i c _ Hb8 Hc8 Hbl) as [? ?]. exact (ready_input (<[i := c]> (mouseBytes (loc s))) cb (s1 <| ih_error := e |>) (Hr1 e) ltac:(done) ltac:(done) Hcb'). }
  assert (exists b0 b1 b2, mouseBytes (loc s) = [b0; b1; b2]) as (b0 & b1 & b2 & Ebs).
  { destruct (mouseBytes (loc s)) as [|b0 [|b1 [|b2 []]]]; try done. by exists b0, b1, b2. }
  assert (Z.testbit c 3 = negb (Z.land c (BIT 3) =? 0)) as Hbit by (rewrite <- ctrue_land_BIT by lia; done).
  wp_step; [wp_step|wp_step; [|wp_step]].
  - apply wp_jump. split; [done|]. split; [apply Hr1|]. unfold heard. cbn [play fold_left react]. unfold mouse_byte.
    assert (g_packet (view s) = []) as -> by (unfold view; cbn [g_packet]; by replace (currentByte (loc s)) with 1 by lia).
    by rewrite Hbit.
  - apply wp_bind, wp_modify, wp_modify. split; [exact (Hr2 0%nat 2 ltac:(lia))|].
    exact (served_byte b0 b1 b2 c 1 s Ebs ltac:(lia) (or_introl (conj eq_refl Hbit))).
  - apply wp_bind, wp_modify, wp_modify. split; [exact (Hr2 1%nat 3 ltac:(lia))|].
    exact (served_byte b0 b1 b2 c 2 s Ebs ltac:(lia) (or_intror eq_refl)).
  - apply wp_bind, wp_modify, wp_bind, wp_modify. pose proof (Hr2 2%nat 1 ltac:(lia)) as Hr3.
    eapply wp_conseq; [apply (mouse_packet_heard b0 b1 c); [exact Hr3|]|intros [] s' [Hr' Hv']; split; [exact Hr'|]|by intros ? ? []].
    { change (<[2%nat := c]> (mouseBytes (loc s)) = [b0; b1; c]). by rewrite Ebs. }
    unfold heard. rewrite Hv'. cbn [play fold_left react]. unfold mouse_byte.
    assert (g_packet (view s) = [b0; b1]) as -> by (unfold view; cbn [g_packet]; rewrite Ebs; by replace (currentByte (loc s)) with 3 by lia).
    done.
  - lia.
Qed.

End safety.

(** A round on an empty screen. *)
Definition game_screen : graphics := Graphics 1024 768 8 4 (Some (Block 786432 ∅)) (Some (Block 786432 ∅)).

Lemma game_screen_ok : screen_gfx game_screen.
Proof. exists (Block 786432 ∅), (Block 786432 ∅). repeat split; done. Qed.

Definition game_ship : Ship := MkShip 512 SHIP_YPOS 15 (fst (xpm_load ship_image XPM_INDEXED (ports []))) 3 0.

Lemma game_ship_ok : ship_ok game_ship.
Proof.
  split; [by apply (xpm_load_pic ship_image)|]. unfold ship_in_range, X_MIN, X_MAX. cbn. lia.
Qed.

Definition game_start : state script :=
  (init_state (ports [])) <| gfx := game_screen |> <| ships := heap_alloc game_ship empty_heap |>.

Lemma initGame_correct_witness :
  exists s', initGame (Some 0%nat) game_start = Ok tt s' /\
    length (aliens s') = 24%nat /\ (forall i a, aliens s' !! i = Some a -> formed i a) /\ speed s' = 1.
Proof.
  destruct (initGame_correct 0 game_ship game_start game_screen_ok eq_refl (heap_alloc_wf _ _ empty_heap_wf)
    eq_refl game_ship_ok ltac:(split; vm_compute; congruence)) as (s' & He & Hl & Hf & _ & _ & _ & _ & Hs & _).
  exists s'. split; [exact He|]. split; [exact Hl|]. split; [exact Hf|]. rewrite Hs. reflexivity.
Defined.
