(* ===== verification/GameTick.v ===== *)
(** * The timer interrupt

    A tick that does not remove the shot of the abstract game keeps the invariant, and
    changes the view of the state as it changes the abstract game. *)

From S2P Require Import Prelude CMonad Heap Memory Lcf Minix Frame Macros ProjState Graphics GraphicsFacts Timer.
From S2P Require Import Keyboard MouseDriver Rtc Ship Aliens ShipBullets ShipBulletFacts AlienBullets.
From S2P Require Import AlienBulletFacts Menu Screen Volley GameSpec Game GameSafe.
From stdpp Require Import options.

(** ** The movement of one alien *)

(** An alien after one step in the direction of the fleet. *)
Definition stepped (right : bool) (sp : Z) (a : Alien) : Alien :=
  a <| alien_x := alien_x a + (if right then sp else - sp) |>.

(** The border that makes the fleet turn round. *)
Definition at_border (right : bool) (a : Alien) : bool :=
  if right then X_RIGHT_BORDER <=? alien_x a + alien_width a else alien_x a <=? X_LEFT_BORDER.

(** A step takes an alien into the lane of the other direction; while no alien is at
    the border, it is also still in its own lane. *)
Lemma lane_stepped right sp a : lane right sp a -> lane (negb right) sp (stepped right sp a).
Proof. unfold lane, stepped. destruct right; simpl; lia. Qed.

Lemma lane_not_at_border right sp a :
  0 <= sp -> alien_width a = 60 -> lane (negb right) sp a -> at_border right a = false -> lane right sp a.
Proof. unfold lane, at_border, X_RIGHT_BORDER, X_LEFT_BORDER. intros Hs ->. destruct right; simpl; lia. Qed.

Section tick.
Context {D : Type} `{K : Kernel D} {XL : XpmLaws D} {RL : RandLaws D}.
Implicit Types s : state D.

(** ** Drawing a frame *)

Lemma wp_drawAlienBullet E Q J s :
  screen s -> alien_shot_ok (alien_bullets s) (alienBullet s) -> (forall s', env s s' -> Q tt s') ->
  wp E drawAlienBullet Q J s.
Proof.
  intros Hs (l & b & Hp & Hl & Hok) HQ. apply wp_vcall, wp_bind, wp_gets. rewrite Hp.
  apply wp_bind. eapply wp_load; [exact Hl|]. unfold shot_ok in Hok. wp_step; [apply wp_jump, HQ, env_refl, Hs|].
  destruct Hok as ((Hi & Hw & Hh) & _ & Hx & Hy); [by destruct (ab_active b)|].
  apply wp_bind, wp_drawXpm; unfold X_RES, Y_RES; [done|done|lia..|]. intros s' Hs'. apply wp_ret, HQ, Hs'.
Qed.

(** No bullet hits the aliens where they stand after their next step. *)
Definition spared s : Prop :=
  forall i a, aliens s !! i = Some a -> missed (bullets s) (shipBullets s) (stepped (right_mov (loc s)) (speed s) a).

(** The bullet that the slots hold. *)
Lemma shot_of_volley s l b : volley (bullets s) (shipBullets s) -> Some l ∈ shipBullets s -> cells (bullets s) !! l = Some b ->
  shot_of s = Some (sb_x b, sb_y b) /\ aliases l (shipBullets s) = slots /\ flying b.
Proof.
  intros (_ & p & Hps & Hfl) Hin Hb. unfold shot_of. rewrite Hps in *. apply elem_of_replicate in Hin as [<- _].
  destruct (Hfl l eq_refl) as (b' & Hb' & Hok). rewrite Hb in Hb'. injection Hb' as <-.
  change (default NULL (head (replicate slots ?q))) with q. cbn [deref mbind option_bind]. rewrite Hb, aliases_replicate. done.
Qed.

Lemma shot_clears s : volley (bullets s) (shipBullets s) -> shot_leaves (view s) = false -> clears (bullets s) (shipBullets s).
Proof.
  intros Hv Hl l b Hin Hb. destruct (shot_of_volley s l b Hv Hin Hb) as (Hs & -> & (_ & -> & _)).
  unfold shot_leaves in Hl. change (g_shot (view s)) with (shot_of s) in Hl. rewrite Hs in Hl.
  change (Z.of_nat slots) with MAX_SHIP_BULLETS. cbn iota in Hl. lia.
Qed.

(** The test of the program and that of the abstract game. *)
Lemma bullet_hits_in_alien right a b :
  alien_ok right 1 a -> flying b -> bullet_hits (stepped right 1 a) b = in_alien (sb_x b, sb_y b) (alien_march right (place_of a)).
Proof.
  intros (Hal & (Hw & Hh & _) & Hln & Hy0 & Hy1) (Hf & _ & _ & Hbx & Hby). unfold lane, TERRITORY in *.
  unfold bullet_hits, in_alien, stepped, alien_march, place_of. get_set. cbn [fst snd]. rewrite Hal, Hf, Hw, Hh.
  rewrite !i32_id by (unfold in_i32; destruct right; lia). rewrite !andb_true_r. by destruct right.
Qed.

(** The first alien that the shot strikes, if it strikes one. *)
Lemma spared_view s : ready s -> gameState s = PLAYING -> shot_strikes (view s) = false -> spared s.
Proof.
  intros [_ (_ & _ & _ & _ & _ & Hv & _ & _ & _ & _ & Hfleet)] Hg Hst i a Ha. destruct (Hfleet Hg) as (Hsp & _ & Hal).
  apply Forall_forall. intros [l|] Hin; [|done]. unfold hits_via. cbn [deref mbind option_bind].
  destruct (cells (bullets s) !! l) as [b|] eqn:Hb; [|done]. destruct (shot_of_volley s l b Hv Hin Hb) as (Hs & _ & Hfl).
  unfold shot_strikes in Hst. change (g_shot (view s)) with (shot_of s) in Hst. rewrite Hs in Hst. rewrite Hsp in *.
  rewrite (bullet_hits_in_alien _ _ _ (Forall_lookup_1 _ _ _ _ Hal Ha) Hfl).
  intros Hin'. apply not_true_iff_false in Hst. apply Hst, existsb_exists.
  eexists. split; [|exact Hin']. apply list_elem_of_In. change (g_fleet (view s)) with (place_of <$> aliens s).
  rewrite <- list_fmap_compose. apply (list_elem_of_fmap_2 (alien_march (g_right (view s)) ∘ place_of)). by eapply list_elem_of_lookup_2.
Qed.

Lemma ready_with_bullets c s : ready s -> volley (Heap c (brk (bullets s))) (shipBullets s) -> ready (with_bullets c s).
Proof.
  intros [Hs (Hi & Hpi & Hm & Hsh & Hb & Hq & Hin & Hlen & Hn & Hr & Hf)] Hv. split; [done|].
  unfold with_bullets. split_world.
Qed.

(** The bullets have moved: the one that all the slots hold has moved once for each of them. *)
Lemma view_climbed c s :
  volley (bullets s) (shipBullets s) -> (forall l, c !! l = climbed (aliases l (shipBullets s)) <$> cells (bullets s) !! l) ->
  view (with_bullets c s) = climb (view s).
Proof.
  intros (_ & p & Hps & Hf) Hc.
  assert (shot_of (with_bullets c s) = (fun '(x, y) => (x, y - MAX_SHIP_BULLETS * SHIP_BULLET_SPEED)) <$> shot_of s) as Hs.
  { unfold shot_of, with_bullets. get_set. rewrite Hps. change (default NULL (head (replicate slots ?q))) with q.
    destruct p as [l|]; [|done]. destruct (Hf l eq_refl) as (b & Hb & _ & Hsp & _).
    cbn [deref mbind option_bind cells]. rewrite Hc, Hb, Hps. cbn [fmap option_fmap option_map mbind option_bind].
    rewrite aliases_replicate. unfold climbed. cbn [sb_x sb_y set_field set_sb_y]. by rewrite Hsp. }
  unfold climb. change (g_shot (view s)) with (shot_of s). rewrite <- Hs. done.
Qed.

Lemma wp_draw_frame E Q J s :
  ready s -> shot_leaves (view s) = false ->
  (forall s', ready s' -> gameState s' = gameState s -> view s' = climb (view s) -> Q tt s') -> wp E draw_frame Q J s.
Proof.
  intros Hr0 Ht HQ. assert (volley (bullets s) (shipBullets s)) as Hv0 by apply Hr0.
  apply wp_bind, wp_update_volley; [exact Hv0|by apply shot_clears|]. intros c Hv Hc.
  pose proof (ready_with_bullets c s Hr0 Hv) as Hr. rewrite <- (view_climbed c s Hv0 Hc) in HQ.
  change (gameState s) with (gameState (with_bullets c s)) in HQ. revert Hr HQ. clear.
  generalize (with_bullets c s). clear s. intros s Hr HQ.
  pose proof Hr as [Hs (Hi & [Hbg _] & _ & (_ & p & sh & Hsp & Hsh & Hok & Hz) & Hb & Hq & _)].
  apply wp_bind, wp_gets, wp_bind, wp_drawBackground; [done|done|].
  intros s1 [(g1 & d1 & ->) Hs1]. apply wp_bind, wp_gets. get_set. rewrite Hsp.
  apply wp_bind, (wp_drawShip _ _ sh); [done|exact Hsh|done|]. intros s2 [(g2 & d2 & ->) Hs2].
  apply wp_bind, wp_draw_volley; [done|exact Hq|]. intros s2' [(g2' & d2' & ->) Hs2'].
  apply wp_bind, wp_drawAlienBullet; [done|exact Hb|].
  intros s3 [(g3 & d3 & ->) Hs3]. apply wp_bind, (wp_drawLives _ _ sh); [done|exact Hi|exact Hsh|done|].
  intros s4 [(g4 & d4 & ->) Hs4]. apply (wp_drawScore _ _ sh); [done|exact Hi|exact Hsh|rewrite Hz; lia|].
  intros s5 [(g5 & d5 & ->) Hs5]. apply HQ; [|done|done].
  apply (ready_env s); [|done]. split; [|done]. by exists g5, d5.
Qed.

(** ** Losing a game *)

(** The invariant without the fleet. *)
Definition base s : Prop := world (s <| gameState := MENU_DISPLAY |>).

Lemma base_world s :
  base s -> gameState s <> NEXT_ROUND ->
  (gameState s = PLAYING -> fleet_ok (right_mov (loc s)) (speed s) (killCount s) (aliens s)) -> world s.
Proof. intros (Hi & Hpi & Hm & Hsh & Hb & Hq & Hin & Hlen & _ & Hr & _) Hn Hf. split_world. Qed.

Lemma world_base s : world s -> base s.
Proof. intros (Hi & Hpi & Hm & Hsh & Hb & Hq & Hin & Hlen & Hn & Hr & Hf). unfold base. split_world. Qed.

Lemma new_ship_ok x d : x = 512 ->
  ship_ok (MkShip x SHIP_YPOS 15 (fst (xpm_load ship_image XPM_INDEXED d)) NUMLIVES 0).
Proof using XL.
  intros ->. pose proof (xpm_load_pic ship_image d ltac:(done) ltac:(done)) as Hp.
  split; [done|]. destruct Hp as (_ & Hw & _). unfold ship_in_range, X_MIN, X_MAX, NUMLIVES. cbn. rewrite Hw. simpl. lia.
Qed.

Lemma wp_lose_game E h Q J s :
  screen s -> heap_wf (ships s) -> base (s <| ships := h |>) ->
  (forall s', screen s' -> base s' -> gameState s' = MENU_DISPLAY -> speed s' = 1 -> killCount s' = killCount s ->
     aliens s' = aliens s -> right_mov (loc s') = right_mov (loc s) -> mov_img (loc s') = mov_img (loc s) ->
     changeDir s' = changeDir s -> bullets s' = bullets s -> shipBullets s' = shipBullets s ->
     view s' = game_over (view s) -> Q tt s') ->
  wp E lose_game Q J s.
Proof using XL.
  intros Hs Hwf (Hi & Hpi & Hm & _ & Hb & Hq & Hin & Hlen & _ & Hr & _) HQ.
  apply wp_bind, wp_bind, wp_sys, wp_malloc. get_set. repeat (apply wp_bind, wp_modify). apply wp_modify.
  apply HQ; try done; [|unfold view, ship_of; get_set; cbn [deref mbind option_bind heap_alloc cells]; by rewrite lookup_insert_eq].
  unfold base. split_world. split; [by apply heap_alloc_wf|]. eexists _, _. split; [reflexivity|]. split; [apply lookup_insert_eq|].
  split; [by apply new_ship_ok|done].
Qed.

(** ** The aliens' bullet *)

(** With every alien alive, the first draw is a hit. *)
Lemma wp_generateAlienBullet E fuel Q J s :
  (0 < fuel)%nat -> length (aliens s) = Z.to_nat SIZE_OF_ALIENS -> Forall (fun a => alien_alive a = true) (aliens s) ->
  (forall i a d, aliens s !! i = Some a -> Q i (s <| dev := d |>)) -> wp E (generateAlienBullet fuel) Q J s.
Proof using RL.
  intros Hf Hlen Hal HQ. destruct fuel as [|n]; [lia|]. unfold wp.
  change (generateAlienBullet (S n) s) with (pick_shooter (S n) (s <| dev := srand_time (dev s) |>)).
  rewrite pick_shooter_step by done. cbv zeta. unfold drawn_alien. get_set.
  set (r := fst (rand (srand_time (dev s)))).
  destruct (lookup_lt_is_Some_2 (aliens s) (Z.to_nat (r mod SIZE_OF_ALIENS))) as [a Ha].
  { pose proof (Z.mod_pos_bound r SIZE_OF_ALIENS ltac:(done)). lia. }
  rewrite Ha. unfold is_alive. pose proof (Forall_lookup_1 _ _ _ _ Hal Ha) as Hal'. cbv beta in Hal'. rewrite Hal'.
  exact (HQ _ a _ Ha).
Qed.

Lemma wp_verifyShip E sl sh l b Q J s :
  cells (ships s) !! sl = Some sh -> bullet_at l b s ->
  (bullet_in_ship b sh = false -> Q false s) ->
  (bullet_in_ship b sh = true -> Q true (set_bullet l (b <| ab_active := false |>)
    (s <| ships := heap_write sl (sh <| ship_lives := i32 (ship_lives sh - 1) |>) (ships s) |>))) ->
  wp E (verifyShipAndBulletCollision (Some sl)) Q J s.
Proof.
  intros Hs [Hp Hl] HF HT. apply wp_bind. eapply wp_load; [exact Hs|]. apply wp_bind, wp_gets. rewrite Hp.
  apply wp_bind. eapply wp_load; [exact Hl|]. wp_step; [|apply wp_ret; by apply HF].
  apply wp_bind. eapply wp_store; [exact Hs|]. apply wp_bind. eapply wp_store; [exact Hl|]. apply wp_ret. by apply HT.
Qed.

Lemma shot_ok_fall b : shot_ok b -> shot_ok (fall b).
Proof.
  unfold shot_ok, fall, ALIEN_BULLET_SPEED. intros Hb. ifcase; simpl; [done|]. intros Ha.
  destruct (Hb Ha) as ((Hi & Hw & Hh) & Hs & Hx & Hy). rewrite Hs in *. split; [done|]. lia.
Qed.

(** Replacing the aliens' bullet. *)
Lemma base_set_bullet l b s : base s -> alienBullet s = Some l -> shot_ok b -> base (set_bullet l b s).
Proof.
  intros (Hi & Hpi & Hm & Hsh & Hb & Hq & Hin & Hlen & Hn & Hr & _) Hp Hok. unfold base, set_bullet. split_world.
  exists l, b. split; [done|]. split; [apply lookup_insert_eq|done].
Qed.

(** A hit that leaves the ship a life. *)
Lemma base_hit p sh s :
  base s -> ship (loc s) = Some p -> cells (ships s) !! p = Some sh -> ship_ok sh -> ship_score sh = 0 ->
  2 <= ship_lives sh ->
  base (s <| ships := heap_write p (sh <| ship_lives := i32 (ship_lives sh - 1) |>) (ships s) |>).
Proof.
  intros (Hi & Hpi & Hm & (Hwf & _) & Hb & Hq & Hin & Hlen & Hn & Hr & _) Hp Hsh (Hpic & Hra & Hy & Hsp & Hl) Hz H2.
  unfold base. split_world. split; [apply heap_write_wf; eauto|]. eexists p, _. split; [done|].
  split; [apply lookup_insert_eq|]. split; [|done]. split; [done|]. split; [done|]. split; [done|]. split; [done|].
  cbn. rewrite i32_id by (unfold in_i32; lia). lia.
Qed.

(** The fleet does not depend on the bullets and the ships. *)
Lemma ready_playing s :
  screen s -> base s -> gameState s = PLAYING ->
  fleet_ok (right_mov (loc s)) (speed s) (killCount s) (aliens s) -> ready s /\ gameState s = PLAYING.
Proof.
  intros Hs Hb Hp Hf. split; [|done]. split; [done|]. apply base_world; [done|congruence|done].
Qed.

Lemma fleet_alive right sp k l : fleet_ok right sp k l -> Forall (fun a => alien_alive a = true) l.
Proof. intros (_ & _ & Hf). eapply Forall_impl; [exact Hf|]. by intros a []. Qed.

(** The bullet in the view. *)
Lemma view_bomb l b s :
  alienBullet s = Some l -> view (set_bullet l b s) = (view s) <| g_bomb := if ab_active b then Some (ab_x b, ab_y b) else None |>.
Proof.
  intros Hp. unfold view, bomb_of, set_bullet. get_set. rewrite Hp. cbn [deref mbind option_bind heap_write cells].
  rewrite lookup_insert_eq. reflexivity.
Qed.

Lemma view_bomb_same l b s :
  alienBullet s = Some l -> cells (alien_bullets s) !! l = Some b ->
  g_bomb (view s) = if ab_active b then Some (ab_x b, ab_y b) else None.
Proof. intros Hp Hb. unfold view, bomb_of. cbn [g_bomb]. rewrite Hp. cbn. by rewrite Hb. Qed.

Lemma bullet_in_cannon b sh g :
  width (ab_img b) = 5 -> height (ab_img b) = 20 -> 0 <= ab_x b <= 1019 -> 0 <= ab_y b <= 720 -> ship_ok sh -> g_cannon g = ship_x sh ->
  bullet_in_ship b sh = in_cannon (ab_x b, ab_y b) g.
Proof.
  intros Hw Hh Hx Hy ((_ & Hsw & Hsh) & Hr & Hsy & _) Hg. unfold ship_in_range, X_MIN, X_MAX in Hr. rewrite Hsw in Hr.
  unfold bullet_in_ship, in_cannon. rewrite Hw, Hh, Hsw, Hsh, Hsy, Hg. cbn [fst snd].
  by rewrite !i32_id by (unfold in_i32, SHIP_YPOS; lia).
Qed.

(** A bullet in flight, one update later. *)
Lemma fallen b :
  ab_active b = true -> ab_speed b = ALIEN_BULLET_SPEED -> height (ab_img b) = 20 ->
  let lands := 720 <=? ab_y b + ALIEN_BULLET_SPEED + 20 in
  ab_active (fall b) = negb lands /\ ab_x (fall b) = ab_x b /\ ab_img (fall b) = ab_img b /\
  ab_y (fall b) = if lands then ab_y b else ab_y b + ALIEN_BULLET_SPEED.
Proof. intros Ha Hs Hh. unfold fall. rewrite Hs, Hh. cbv zeta. by destruct (720 <=? _). Qed.

(** The alien that the random generator chooses. *)
Definition shooter (fuel : nat) s : nat := match generateAlienBullet fuel s with Ok i _ => i | _ => 0%nat end.

(** Play goes on after the section ALIEN BULLET. *)
Definition bombarded (i : nat) s s' : Prop :=
  ready s' /\ gameState s' = PLAYING /\ bombard i (view s) = (view s', false).

Lemma alien_fire_new fuel l b s :
  (0 < fuel)%nat -> ready s -> gameState s = PLAYING ->
  alienBullet s = Some l -> cells (alien_bullets s) !! l = Some b -> ab_active b = false ->
  wp False (alien_fire fuel) (fun _ s' => bombarded (shooter fuel s) s s') nojump s.
Proof using XL RL.
  intros Hfu Hr Hp Hap Hl Hact. pose proof Hr as [Hs Hw]. pose proof (world_base s Hw) as Hb.
  pose proof Hw as (_ & (_ & Himg & _) & _ & _ & _ & _ & _ & Hlen & _ & _ & Hf).
  specialize (Hf Hp). pose proof Hf as (Hsp1 & Hk & Hfl).
  apply wp_bind, wp_gets. rewrite Hap. apply wp_bind. eapply wp_load; [exact Hl|]. rewrite Hact. cbn [negb]. unfold shooter. apply wp_bind.
  apply (wp_mono False False _ (fun i s1 => generateAlienBullet fuel s = Ok i s1 /\ exists a d, aliens s !! i = Some a /\ s1 = s <| dev := d |>)
    _ nojump); [done| |done|].
  2:{ apply wp_remember, wp_generateAlienBullet; [done|done|by eapply fleet_alive|]. intros i a d Ha. by exists a, d. }
  intros i s1 (-> & a & d & Ha & ->).
  pose proof (Forall_lookup_1 _ _ _ _ Hfl Ha) as (Hal & (Haw & Hah & _) & Hln & Hy0 & Hy1).
  apply wp_bind. eapply wp_alien_at; [exact Ha|]. apply wp_bind, wp_gets, wp_bind, wp_gets. get_set. rewrite Hap.
  eapply wp_store; [exact Hl|]. rewrite Haw, Hah. change (60 ÷ 2) with 30. unfold lane, TERRITORY in *. rewrite Hsp1 in Hln.
  assert (0 <= alien_x a <= 944) as Hx by (destruct (right_mov (loc s)); lia). rewrite !i32_id by (unfold in_i32; lia).
  match goal with |- bombarded _ _ (set_field _ (fun _ => heap_write l ?n _) _) => set (new := n) end.
  change (bombarded i s (set_bullet l new (s <| dev := d |>))). split; [|split; [done|]].
  - apply (ready_playing (set_bullet l new (s <| dev := d |>))); [done| |done|done].
    apply base_set_bullet; [exact Hb|done|]. intros _. unfold new. cbn [ab_img ab_speed ab_x ab_y]. split; [done|]. split; [done|]. lia.
  - rewrite view_bomb by done. change (view (s <| dev := d |>)) with (view s). unfold bombard, drop_bomb.
    rewrite (view_bomb_same l b) by done. rewrite Hact. change (g_fleet (view s)) with (place_of <$> aliens s).
    rewrite list_lookup_fmap, Ha. reflexivity.
Qed.

Lemma alien_fire_falls fuel l b s :
  ready s -> gameState s = PLAYING ->
  alienBullet s = Some l -> cells (alien_bullets s) !! l = Some b -> ab_active b = true -> shot_ok b ->
  wp False (alien_fire fuel) (fun _ s' => bombarded (shooter fuel s) s s')
    (fun c s' => c = CBreak /\ ready s' /\ exists g, bombard (shooter fuel s) (view s) = (g, true) /\ view s' = game_over g) s.
Proof using XL RL.
  intros Hr Hp Hap Hl Hact Hshot. pose proof Hr as [Hs Hw]. pose proof (world_base s Hw) as Hb.
  pose proof Hw as (_ & _ & _ & (Hwf & p & sh & Hsp & Hsh & Hok & Hz) & _ & _ & _ & _ & _ & _ & Hf).
  specialize (Hf Hp). pose proof (Hshot Hact) as ((Hbi & Hbw & Hbh) & Hbs & Hbx & Hby).
  destruct (fallen b Hact Hbs Hbh) as (Hfa & Hfx & Hfi & Hfy). destruct (view_ship_same p sh s Hsp Hsh) as [Hcx Hcl].
  assert (bullet_in_ship (fall b) sh = in_cannon (ab_x (fall b), ab_y (fall b)) (view s)) as Hhit.
  { apply bullet_in_cannon; rewrite ?Hfi, ?Hfx, ?Hfy; try done. unfold ALIEN_BULLET_SPEED. ifcase; lia. }
  assert (forall i, bombard i (view s) = bomb_falls (ab_x b) (ab_y b) (view s)) as Hbomb.
  { intros i. unfold bombard. rewrite (view_bomb_same l b) by done. by rewrite Hact. }
  unfold bombarded. rewrite Hbomb. unfold bomb_falls. cbn [snd]. rewrite <- Hfy, <- Hfx, <- Hhit.
  apply wp_bind, wp_gets. rewrite Hap. apply wp_bind. eapply wp_load; [exact Hl|]. rewrite Hact. cbn [negb].
  apply wp_bind. eapply (wp_updateAlienBullet _ l b); [done| |].
  { unfold bullet_ok. rewrite Hbs, Hbh. unfold ALIEN_BULLET_SPEED. lia. }
  set (s1 := set_bullet l (fall b) s). pose proof (base_set_bullet l (fall b) s Hb Hap (shot_ok_fall b Hshot)) as Hb1.
  fold s1 in Hb1. apply wp_bind, wp_gets. change (ship (loc s1)) with (ship (loc s)). rewrite Hsp.
  assert (bullet_at l (fall b) s1) as Hat by (by eapply bullet_at_set; split).
  apply wp_bind. eapply (wp_verifyShip _ p sh l (fall b)); [exact Hsh|exact Hat| |]; intros Hin; rewrite Hin.
  - apply wp_bind. eapply wp_load; [exact Hsh|]. pose proof Hok as (_ & _ & _ & _ & Hlv).
    wp_step; [lia|]. split; [by apply ready_playing|]. split; [done|].
    unfold s1. rewrite view_bomb, Hfa, orb_false_r by done. by destruct (720 <=? _).
  - set (s2 := set_bullet _ _ _). apply wp_bind. eapply wp_load; [apply lookup_insert_eq|].
    pose proof Hok as (Hpic & Hra & Hy & Hspd & Hlv). cbn [ship_lives set_field set_ship_lives]. rewrite orb_true_r.
    rewrite i32_id by (unfold in_i32; lia). set (sh' := sh <| ship_lives := ship_lives sh - 1 |>).
    assert (view s2 = (view s) <| g_bomb := None |> <| g_lives := g_lives (view s) - 1 |>) as Hv2.
    { unfold s2. rewrite view_bomb by exact Hap. cbn [ab_active set_field set_ab_active].
      rewrite (view_ships _ p (sh <| ship_lives := i32 (ship_lives sh - 1) |>) s1); [|exact Hsp|apply lookup_insert_eq].
      rewrite i32_id by (unfold in_i32; lia). unfold s1. rewrite view_bomb by exact Hap. fold sh'.
      change (ship_x sh') with (ship_x sh). change (ship_lives sh') with (ship_lives sh - 1). rewrite <- Hcx, <- Hcl. by destruct (view s). }
    assert (2 <= ship_lives sh -> base s2) as Hb2.
    { intros H2. apply base_set_bullet; [|exact Hap|done]. by apply (base_hit p sh s1). }
    get_set. rewrite <- Hv2, Hcl. wp_step.
    + apply wp_bind, (wp_lose_game _ (ships s)); [done|exact (heap_write_wf p _ (ships s) Hwf (mk_is_Some _ _ Hsh))| |].
      { pose proof (base_set_bullet l ((fall b) <| ab_active := false |>) s1 Hb1 Hap ltac:(done)) as Hb3.
        unfold s2, s1 in *. revert Hb3. by destruct s. }
      intros s3 Hs3 Hb3 Hg3 _ _ _ _ _ _ _ _ Hv3. apply wp_jump. split; [done|]. split; [split; [done|]|].
      * apply base_world; [done|by rewrite Hg3|by rewrite Hg3].
      * exists (view s2). split; [|exact Hv3]. f_equal. lia.
    + split; [apply ready_playing; [done|apply Hb2; lia|done|done]|]. split; [done|]. f_equal. lia.
Qed.

Lemma alien_fire_heard fuel s :
  (0 < fuel)%nat -> ready s -> gameState s = PLAYING ->
  wp False (alien_fire fuel) (fun _ s' => bombarded (shooter fuel s) s s')
    (fun c s' => c = CBreak /\ ready s' /\ exists g, bombard (shooter fuel s) (view s) = (g, true) /\ view s' = game_over g) s.
Proof using XL RL.
  intros Hfu Hr Hp. pose proof Hr as [_ (_ & _ & _ & _ & (l & b & Hap & Hl & Hshot) & _)].
  destruct (ab_active b) eqn:Hact.
  - by apply (alien_fire_falls fuel l b).
  - eapply wp_conseq; [by apply (alien_fire_new fuel l b)|done|by intros ? ? []].
Qed.

(** ** The march of the fleet *)

(** Drawing an alien that is on the screen stores the sizes it already has. *)
Lemma wp_drawAlien E i mov a Q J s :
  screen s -> aliens s !! i = Some a -> alien_alive a = true -> alien_shape a ->
  0 <= alien_x a <= 964 -> 0 <= alien_y a <= 728 -> (forall s', env s s' -> Q 0 s') -> wp E (drawAlien i mov) Q J s.
Proof.
  intros Hs Ha Hal (Hw & Hh & (Hi1 & Hw1 & Hh1) & (Hi2 & Hw2 & Hh2)) Hx Hy HQ.
  assert (a <| alien_width := 60 |> <| alien_height := 40 |> = a) as Heta by (rewrite <- Hw, <- Hh; by destruct a).
  assert (s <| aliens := <[i := a]> (aliens s) |> = s) as Hid by (rewrite list_insert_id by done; by destruct s).
  apply wp_call, wp_bind. eapply wp_alien_at; [done|]. rewrite Hal. simpl. destruct mov.
  all: apply wp_bind, wp_set_alien; rewrite ?Hw1, ?Hh1, ?Hw2, ?Hh2, Heta, Hid.
  all: apply wp_drawXpm; unfold X_RES, Y_RES; [done|done|lia..|done].
Qed.

(** An alien that has moved: it is in the lane of the other direction, and in its own
    unless the fleet is to turn round; in a game that goes on it has not landed. *)
Definition marched (right turn playing : bool) (a : Alien) : Prop :=
  lane (negb right) 1 a /\ (turn = false -> lane right 1 a) /\ (playing = true -> alien_y a + 40 < TERRITORY).

Definition rank (right turn playing : bool) (k i : nat) (a : Alien) : Prop :=
  alien_alive a = true /\ alien_shape a /\ 0 <= alien_y a /\ alien_y a + 40 < TERRITORY + 20 /\
  if decide (i < k)%nat then marched right turn playing a else lane right 1 a.

(** The state when the first [k] aliens have moved; no bullet hits any of the first [n]. *)
Definition marching (n : nat) (right : bool) (k : nat) s : Prop :=
  screen s /\ base s /\ (gameState s = PLAYING \/ gameState s = MENU_DISPLAY) /\ speed s = 1 /\ killCount s = 0 /\
  right_mov (loc s) = right /\
  (forall i a, (k <= i < n)%nat -> aliens s !! i = Some a -> missed (bullets s) (shipBullets s) (stepped right 1 a)) /\
  forall i a, aliens s !! i = Some a -> rank right (changeDir s) (is_state (gameState s) PLAYING) k i a.

Lemma rank_weaken right turn turn' playing playing' k i a :
  (turn' = false -> turn = false) -> (playing' = true -> playing = true) ->
  rank right turn playing k i a -> rank right turn' playing' k i a.
Proof.
  intros Ht Hp (Hal & Hsh & Hy0 & Hy1 & Hl). do 4 (split; [done|]). case_decide; [|done].
  destruct Hl as (? & ? & ?). unfold marched. auto.
Qed.

(** Alien [k] has moved. *)
Lemma rank_step right turn turn' playing playing' k l a' :
  (forall i a, l !! i = Some a -> rank right turn playing k i a) -> (k < length l)%nat ->
  (turn' = false -> turn = false) -> (playing' = true -> playing = true) ->
  alien_alive a' = true -> alien_shape a' -> 0 <= alien_y a' -> alien_y a' + 40 < TERRITORY + 20 ->
  marched right turn' playing' a' ->
  forall i a, <[k := a']> l !! i = Some a -> rank right turn' playing' (S k) i a.
Proof.
  intros Hl Hk Ht Hp Hal Hsh Hy0 Hy1 Hm i a. destruct (decide (i = k)) as [->|Hne].
  - rewrite list_lookup_insert_eq by done. intros [= <-]. do 4 (split; [done|]). by rewrite decide_True by lia.
  - rewrite list_lookup_insert_ne by done. intros Ha.
    destruct (rank_weaken right turn turn' playing playing' k i a Ht Hp (Hl i a Ha)) as (? & ? & ? & ? & Hr).
    do 4 (split; [done|]). case_decide; [rewrite decide_True by lia|rewrite decide_False by lia]; done.
Qed.

Lemma base_aliens l s : base s -> length l = Z.to_nat SIZE_OF_ALIENS -> base (s <| aliens := l |>).
Proof. intros (Hi & Hpi & Hm & Hsh & Hb & Hq & Hin & Hlen & Hn & Hr & _) Hl. unfold base. split_world. Qed.

(** The state after alien [i] has advanced, up to drawing. *)
Definition advanced (right : bool) (sp : Z) (i : nat) (a : Alien) s : state D :=
  s <| aliens := <[i := stepped right sp a]> (aliens s) |>
    <| changeDir := changeDir s || at_border right (stepped right sp a) |>.

Lemma env_advanced b s s' : env s s' ->
  env (s <| changeDir := changeDir s || b |>) (if b then s' <| changeDir := true |> else s').
Proof.
  intros [(g & d & ->) Hs]. destruct b.
  - split; [|done]. exists g, d. rewrite orb_true_r. done.
  - split; [|done]. exists g, d. rewrite orb_false_r. by destruct s.
Qed.

Lemma wp_advance_alien E i right mov sp a Q J s :
  screen s -> aliens s !! i = Some a -> alien_alive a = true -> alien_shape a -> 0 <= sp <= 20 ->
  lane right sp a -> 0 <= alien_y a <= 728 ->
  (forall s', env (advanced right sp i a s) s' -> Q tt s') -> wp E (advance_alien i right mov sp) Q J s.
Proof.
  intros Hs Ha Hal Hsh Hsp Hln Hy HQ. set (a' := stepped right sp a).
  assert (alien_width a' = 60) as Hw by (by destruct Hsh). assert (0 <= alien_x a' <= 964) as Hx.
  { unfold a', stepped, lane in *. destruct right; cbn; lia. }
  assert (forall x k, i32 (alien_x a + x) = alien_x a' ->
    (forall s', env (s <| aliens := <[i := a']> (aliens s) |>) s' -> aliens s' !! i = Some a' -> wp E k Q J s') ->
    wp E (change_alien_x_coordinates i x ;; drawAlien i mov ;; k) Q J s) as Hmove.
  { intros x k Hx' Hk. apply wp_bind, wp_bind. eapply wp_alien_at; [done|]. apply wp_set_alien. rewrite Hx'.
    change (a <| alien_x := alien_x a' |>) with a'. pose proof (lookup_lt_Some _ _ _ Ha) as Hlt.
    apply wp_bind, (wp_drawAlien _ i mov a'); [done| |done|done|done|done|].
    { get_set. by apply list_lookup_insert_eq. }
    intros s' He. apply Hk; [done|]. destruct He as [(g & d & ->) _]. get_set. by apply list_lookup_insert_eq. }
  assert (forall b s', env (s <| aliens := <[i := a']> (aliens s) |>) s' -> at_border right a' = b ->
    wp E (when b (assign changeDir true)) Q J s') as Hturn.
  { intros b s' He Hb. unfold advanced in HQ. fold a' in HQ. rewrite Hb in HQ.
    pose proof (HQ _ (env_advanced b _ s' He)) as HQ'. destruct b; [by apply wp_modify|by apply wp_ret]. }
  unfold advance_alien, at_border, a', stepped in *. destruct right; apply Hmove; cbn [alien_x set_field set_alien_x].
  all: try (unfold lane in Hln; machsimp; lia).
  all: intros s' He Ha'; apply wp_bind; eapply wp_alien_at; [exact Ha'|]; apply Hturn; [done|].
  - cbn [alien_width alien_x set_field set_alien_x] in *. rewrite i32_id by (unfold in_i32; lia). done.
  - done.
Qed.

(** What [alien_step] does after the movement. *)
Definition settle (k : nat) : M (state D) unit :=
  shp <- local ship ;;
  verifyAlienAndBulletCollision k shp ;;
  a <- alien_at k ;;
  kc <- gets killCount ;;
  if TERRITORY <=? i32 (alien_y a + alien_height a) then lose_game
  else when (kc =? SIZE_OF_ALIENS) (
    assign gameState NEXT_ROUND ;;
    modify (fun s => s <| roundNum := i32 (roundNum s + 1) |>)).

(** One alien moves. *)
Lemma ends_alien_step F right k a Q J s :
  screen s -> speed s = 1 -> right_mov (loc s) = right -> aliens s !! k = Some a -> alien_alive a = true -> alien_shape a ->
  0 <= alien_y a -> alien_y a + 40 < TERRITORY + 20 -> lane right 1 a ->
  (forall s1, env (advanced right 1 k a s) s1 -> ends F (settle k) Q J s1) -> ends F (alien_step k) Q J s.
Proof.
  intros Hs Hsp Hrm Ha Halive Hsh Hy0 Hy1 Hln HQ.
  apply ends_bind, ends_wp. eapply wp_alien_at; [done|]. rewrite Halive. cbn [negb].
  apply ends_bind, ends_wp, wp_gets, ends_bind, ends_wp, wp_gets, ends_bind, ends_wp, wp_gets. rewrite Hrm, Hsp.
  apply ends_bind, ends_wp, (wp_advance_alien _ k right _ 1 a); [done|done|done|done|lia|done|unfold TERRITORY in *; lia|exact HQ].
Qed.

(** Then it may have landed. *)
Lemma wp_alien_step_either n right k a s (Q : unit -> state D -> Prop) J :
  (k < n)%nat -> marching n right k s -> aliens s !! k = Some a ->
  (forall s1, env (advanced right 1 k a s) s1 -> wp False (if TERRITORY <=? alien_y a + 40 then lose_game else ret tt) Q J s1) ->
  wp False (alien_step k) Q J s.
Proof.
  intros Hkn (Hs & Hb & Hg & Hsp & Hkc & Hrm & Hms & Hal) Ha HQ.
  pose proof Hb as (_ & _ & _ & (Hwf & sl & sh & Hsl & Hship & _) & _ & Hq & _ & Hlen & _).
  pose proof (Hal k a Ha) as (Halive & Hsh & Hy0 & Hy1 & Hln). rewrite decide_False in Hln by lia.
  apply (ends_alien_step (fun _ => False) right k a); [done..|].
  intros s1 He. specialize (HQ s1 He). set (a' := stepped right 1 a) in *. pose proof He as [(g & d & ->) Hs1].
  change (wp False (settle k) Q J (advanced right 1 k a s <| gfx := g |> <| dev := d |>)).
  assert (aliens (advanced right 1 k a s) !! k = Some a') as Ha'.
  { apply list_lookup_insert_eq. by eapply lookup_lt_Some. }
  apply wp_bind, wp_gets, wp_bind. change (ship (loc _)) with (ship (loc s)).
  change (ship (loc s) = Some sl) in Hsl. rewrite Hsl.
  eapply (wp_verify_missed _ k a' sl sh); [exact (volley_slots s Hq)|exact Ha'|exact Hship|exact (Hms k a ltac:(lia) Ha)|].
  apply wp_bind. eapply wp_alien_at; [exact Ha'|]. apply wp_bind, wp_gets.
  change (killCount _) with (killCount s). rewrite Hkc. change (when (0 =? SIZE_OF_ALIENS) _) with (ret (S := state D) tt).
  assert (i32 (alien_y a' + alien_height a') = alien_y a + 40) as ->; [|exact HQ].
  destruct Hsh as (_ & Hh & _). change (alien_height a') with (alien_height a). change (alien_y a') with (alien_y a).
  rewrite Hh. apply i32_id. unfold in_i32, TERRITORY in *. lia.
Qed.

(** It leaves the bullets and the aliens behind it as they are. *)
Lemma alien_step_rest n right k s :
  (k < n <= Z.to_nat SIZE_OF_ALIENS)%nat -> marching n right k s ->
  wp False (alien_step k) (fun _ s' => bullets s' = bullets s /\ shipBullets s' = shipBullets s /\
    forall i, (k < i)%nat -> aliens s' !! i = aliens s !! i) nojump s.
Proof using XL.
  intros [Hk Hn] Hm. pose proof Hm as (_ & Hb & _). pose proof Hb as (_ & _ & _ & (Hwf & _) & _ & _ & _ & Hlen & _). cbn in Hlen.
  destruct (lookup_lt_is_Some_2 (aliens s) k) as [a Ha]; [rewrite Hlen; lia|].
  apply (wp_alien_step_either n right k a s); [done|done|done|]. intros s1 [(g & d & ->) Hs1].
  assert (forall i, (k < i)%nat -> <[k := stepped right 1 a]> (aliens s) !! i = aliens s !! i) as Hi by (intros i Hi; by rewrite list_lookup_insert_ne by lia).
  wp_step; [|by apply wp_ret]. apply (wp_lose_game _ (ships s)); [done|done| |].
  - apply (base_aliens (<[k := stepped right 1 a]> (aliens s))) in Hb; [|by rewrite length_insert]. revert Hb. by destruct s.
  - intros s2 _ _ _ _ _ Hal2 _ _ _ Hbu Hps _. by rewrite Hal2, Hbu, Hps.
Qed.

Lemma marching_alien n right k s : marching n right k s -> (k < Z.to_nat SIZE_OF_ALIENS)%nat -> exists a, aliens s !! k = Some a.
Proof.
  intros (_ & (_ & _ & _ & _ & _ & _ & _ & Hlen & _) & _) Hk. apply lookup_lt_is_Some_2. cbn in Hlen. by rewrite Hlen.
Qed.

Lemma alien_step_marching n right k s :
  (k < n <= Z.to_nat SIZE_OF_ALIENS)%nat -> marching n right k s ->
  wp False (alien_step k) (fun _ s' => marching n right (S k) s') nojump s.
Proof using XL.
  intros [Hk Hn] Hm. destruct (marching_alien n right k s Hm ltac:(lia)) as [a Ha]. apply (wp_alien_step_either n right k a s); [done|done|done|].
  intros s1 He. set (a' := stepped right 1 a) in *. destruct Hm as (Hs & Hb & Hg & Hsp & Hkc & Hrm & Hms & Hal).
  pose proof Hb as (_ & _ & _ & (Hwf & _) & _ & _ & _ & Hlen & _). cbn in Hlen.
  pose proof (Hal k a Ha) as (Halive & Hsh & Hy0 & Hy1 & Hln). rewrite decide_False in Hln by lia.
  pose proof He as [(g & d & ->) Hs1]. set (s1 := (advanced right 1 k a s) <| gfx := g |> <| dev := d |>) in *.
  assert (base s1) as Hb1.
  { apply (base_aliens (<[k := a']> (aliens s))) in Hb; [exact Hb|]. by rewrite length_insert. }
  pose proof (lane_stepped right 1 a Hln) as Hln'.
  assert (forall playing, (playing = true -> is_state (gameState s) PLAYING = true) ->
    (playing = true -> alien_y a + 40 < TERRITORY) ->
    forall i x, aliens s1 !! i = Some x -> rank right (changeDir s1) playing (S k) i x) as Hrank.
  { intros playing Hp Hyp. apply (rank_step right (changeDir s) (changeDir s1) (is_state (gameState s) PLAYING) playing k (aliens s) a');
      [done|rewrite Hlen; lia| |done|done|done|done|done|].
    - change (changeDir s1) with (changeDir s || at_border right a'). by destruct (changeDir s).
    - split; [done|]. split; [|done]. change (changeDir s1) with (changeDir s || at_border right a'). intros Hcd.
      apply lane_not_at_border; [lia|by destruct Hsh|done|]. by destruct (changeDir s). }
  assert (forall i x, (S k <= i < n)%nat -> aliens s1 !! i = Some x -> missed (bullets s1) (shipBullets s1) (stepped right 1 x)) as Hms1.
  { intros i x Hi Hx. change (<[k := a']> (aliens s) !! i = Some x) in Hx. rewrite list_lookup_insert_ne in Hx by lia.
    apply (Hms i x); [lia|done]. }
  wp_step.
  - apply (wp_lose_game _ (ships s)); [done|done|by revert Hb1; destruct s|].
    intros s2 Hs2 Hb2 Hg2 Hsp2 Hkc2 Hal2 Hrm2 _ Hcd2 Hbu2 Hps2 _. split; [done|]. split; [done|]. split; [by right|].
    split; [done|]. split; [by rewrite Hkc2|]. split; [by rewrite Hrm2|]. rewrite Hal2, Hg2, Hcd2, Hbu2, Hps2. split; [exact Hms1|].
    apply Hrank; done.
  - apply wp_ret. split; [done|]. split; [done|]. split; [exact Hg|]. split; [exact Hsp|]. split; [exact Hkc|].
    split; [exact Hrm|]. split; [exact Hms1|]. apply Hrank; [done|]. intros _. lia.
Qed.

(** The game when the first [k] aliens of the fleet of [g] have moved. *)
Definition march_upto (right : bool) (k : nat) (g : game) : game :=
  let g' := g <| g_fleet := (alien_march right <$> take k (g_fleet g)) ++ drop k (g_fleet g) |> in
  if existsb alien_lands (take k (g_fleet g)) then game_over g' else g'.

Definition marching_view (right : bool) (k : nat) (g : game) s : Prop :=
  view s = march_upto right k g /\ changeDir s = existsb (alien_turns right) (alien_march right <$> take k (g_fleet g)).

Lemma march_upto_fleet right k g : g_fleet (march_upto right k g) = (alien_march right <$> take k (g_fleet g)) ++ drop k (g_fleet g).
Proof. unfold march_upto. by destruct (existsb _ _). Qed.

Lemma march_fleet_step right k (l : list (Z * Z)) q :
  l !! k = Some q ->
  (alien_march right <$> take (S k) l) ++ drop (S k) l = <[k := alien_march right q]> ((alien_march right <$> take k l) ++ drop k l).
Proof.
  intros Hq. pose proof (lookup_lt_Some _ _ _ Hq) as Hlt. rewrite (take_S_r _ _ _ Hq), fmap_app, <- app_assoc.
  rewrite insert_app_r_alt by (rewrite length_fmap, length_take; lia).
  rewrite length_fmap, length_take, Nat.min_l, Nat.sub_diag, (drop_S _ _ _ Hq) by lia. done.
Qed.

Lemma march_upto_S right k g q :
  g_fleet g !! k = Some q ->
  march_upto right (S k) g =
    let g' := (march_upto right k g) <| g_fleet := <[k := alien_march right q]> (g_fleet (march_upto right k g)) |> in
    if alien_lands q then game_over g' else g'.
Proof.
  intros Hq. rewrite march_upto_fleet, <- (march_fleet_step right k _ q Hq). unfold march_upto.
  assert (existsb alien_lands (take (S k) (g_fleet g)) = existsb alien_lands (take k (g_fleet g)) || alien_lands q) as ->.
  { rewrite (take_S_r _ _ _ Hq), existsb_app. cbn [existsb]. by rewrite orb_false_r. }
  by destruct (existsb alien_lands (take k (g_fleet g))), (alien_lands q).
Qed.

Lemma place_stepped right a : place_of (stepped right 1 a) = alien_march right (place_of a).
Proof. by destruct right. Qed.

Lemma place_insert k a (l : list Alien) : place_of <$> <[k := a]> l = <[k := place_of a]> (place_of <$> l).
Proof. apply list_fmap_insert. Qed.

Lemma turns_at_border right a : alien_width a = 60 -> at_border right (stepped right 1 a) = alien_turns right (alien_march right (place_of a)).
Proof. intros Hw. rewrite <- place_stepped. unfold at_border, alien_turns. change (alien_width (stepped right 1 a)) with (alien_width a). by rewrite Hw. Qed.

Lemma alien_step_view n right k g s :
  (k < n <= Z.to_nat SIZE_OF_ALIENS)%nat -> marching n right k s -> marching_view right k g s ->
  wp False (alien_step k) (fun _ s' => marching_view right (S k) g s') nojump s.
Proof using XL.
  intros [Hk Hn] Hm [Hv Hcd]. destruct (marching_alien n right k s Hm ltac:(lia)) as [a Ha].
  assert (g_fleet g !! k = Some (place_of a)) as Hq.
  { assert (g_fleet (view s) !! k = Some (place_of a)) as Hf by (change (g_fleet (view s)) with (place_of <$> aliens s); by rewrite list_lookup_fmap, Ha).
    rewrite Hv, march_upto_fleet in Hf. pose proof (lookup_lt_Some _ _ _ Hf) as Hlt.
    rewrite length_app, length_fmap, length_take, length_drop in Hlt.
    rewrite lookup_app_r in Hf by (rewrite length_fmap, length_take; lia).
    rewrite length_fmap, length_take, Nat.min_l, Nat.sub_diag, lookup_drop, Nat.add_0_r in Hf by lia. done. }
  apply (wp_alien_step_either n right k a s); [done|done|done|]. intros s1 He.
  destruct Hm as (Hs & Hb & Hg & Hsp & Hkc & Hrm & Hms & Hal). destruct (Hal k a Ha) as (_ & (Haw & _) & _).
  pose proof He as [(g1 & d & ->) Hs1]. set (s1 := (advanced right 1 k a s) <| gfx := g1 |> <| dev := d |>) in *.
  assert (view s1 = (march_upto right k g) <| g_fleet := <[k := alien_march right (place_of a)]> (g_fleet (march_upto right k g)) |>) as Hv1.
  { rewrite <- Hv, <- place_stepped. change (g_fleet (view s)) with (place_of <$> aliens s). rewrite <- place_insert. done. }
  assert (changeDir s1 = existsb (alien_turns right) (alien_march right <$> take (S k) (g_fleet g))) as Hcd1.
  { rewrite (take_S_r _ _ _ Hq), fmap_app, existsb_app. cbn. rewrite orb_false_r, <- turns_at_border, <- Hcd by done. done. }
  unfold marching_view. rewrite (march_upto_S right k g _ Hq). cbv zeta.
  change (TERRITORY <=? alien_y a + 40) with (alien_lands (place_of a)). rewrite <- Hv1. destruct (alien_lands (place_of a)).
  - pose proof Hb as (_ & _ & _ & (Hwf & _) & _ & _ & _ & Hlen & _). cbn in Hlen.
    apply (wp_lose_game _ (ships s)); [done|exact Hwf| |].
    { apply (base_aliens (<[k := stepped right 1 a]> (aliens s))) in Hb; [|by rewrite length_insert]. revert Hb. by destruct s. }
    intros s2 _ _ _ _ _ _ _ _ Hcd2 _ _ Hv2. split; [exact Hv2|]. by rewrite Hcd2.
  - by apply wp_ret.
Qed.

(** The state of [alien_move] when the loop over the aliens starts. *)
Definition move_start s : state D := s <| frame_counter := i32 (frame_counter s + 1) |> <| changeDir := false |>.

Lemma marching_start n s :
  ready s -> gameState s = PLAYING ->
  (forall i a, (i < n)%nat -> aliens s !! i = Some a -> missed (bullets s) (shipBullets s) (stepped (right_mov (loc s)) 1 a)) ->
  marching n (right_mov (loc s)) 0 (move_start s).
Proof.
  intros [Hs Hw] Hp Hspare. pose proof (world_base s Hw) as Hb.
  destruct Hw as (_ & _ & _ & _ & _ & _ & _ & _ & _ & _ & Hf). destruct (Hf Hp) as (Hsp & Hk & Hfl).
  split; [done|]. split; [exact Hb|]. split; [by left|]. split; [done|]. split; [done|]. split; [done|].
  split; [intros i a Hi Ha; exact (Hspare i a (proj2 Hi) Ha)|].
  intros i a Ha. pose proof (Forall_lookup_1 _ _ _ _ Hfl Ha) as (Hal & Hsh & Hln & Hy0 & Hy1). rewrite Hsp in Hln.
  do 4 (split; [done|]). by rewrite decide_False by lia.
Qed.

(** Every alien has moved and the fleet keeps its direction. *)
Lemma marched_straight n right s :
  marching n right (Z.to_nat SIZE_OF_ALIENS) s -> changeDir s = false -> ready s.
Proof.
  intros (Hs & Hb & Hg & Hsp & Hk & Hrm & _ & Hal) Hcd. split; [done|]. apply base_world; [done|by destruct Hg as [->| ->]|].
  intros Hp. split; [done|]. split; [done|]. apply Forall_lookup_2. intros i a Ha.
  pose proof Hb as (_ & _ & _ & _ & _ & _ & _ & Hlen & _). cbn in Hlen. pose proof (lookup_lt_Some _ _ _ Ha) as Hlt.
  destruct (Hal i a Ha) as (? & ? & ? & ? & Hm). rewrite decide_True in Hm by lia. destruct Hm as (_ & Hm & _).
  rewrite Hsp, Hrm. do 2 (split; [done|]). split; [by apply Hm|done].
Qed.

(** Every alien has moved, is lowered, and the fleet turns round. *)
Lemma marched_turn n right s :
  marching n right (Z.to_nat SIZE_OF_ALIENS) s ->
  ready (s <| aliens := lower_alien 20 <$> aliens s |> <| loc := (loc s) <| right_mov := negb (right_mov (loc s)) |> |>
           <| changeDir := false |>).
Proof.
  intros (Hs & Hb & Hg & Hsp & Hk & Hrm & _ & Hal). pose proof Hb as (_ & _ & _ & _ & _ & _ & _ & Hlen & _). cbn in Hlen.
  split; [done|]. apply base_world.
  - destruct Hb as (Hi & Hpi & Hmo & Hsh & Hbu & Hq & Hin & _ & Hn & Hr & _). unfold base. split_world.
    by rewrite length_fmap.
  - get_set. by destruct Hg as [->| ->].
  - get_set. intros Hp. split; [done|]. split; [done|]. apply Forall_lookup_2. intros i a Ha.
    apply list_lookup_fmap_Some in Ha as (a0 & -> & Ha). pose proof (lookup_lt_Some _ _ _ Ha) as Hlt.
    destruct (Hal i a0 Ha) as (? & ? & ? & ? & Hm). rewrite decide_True in Hm by lia. destruct Hm as (Hln & _ & Hy).
    specialize (Hy ltac:(unfold is_state; by rewrite Hp)). rewrite Hsp, Hrm. unfold lower_alien, alien_ok, TERRITORY in *.
    get_set. rewrite i32_id by (unfold in_i32; lia). do 2 (split; [done|]). split; [exact Hln|lia].
Qed.

(** The march of the whole fleet. *)
Lemma march_upto_all right g :
  length (g_fleet g) = Z.to_nat SIZE_OF_ALIENS ->
  march_upto right (Z.to_nat SIZE_OF_ALIENS) g =
    let g' := g <| g_fleet := alien_march right <$> g_fleet g |> in
    if existsb alien_lands (g_fleet g) then game_over g' else g'.
Proof. intros Hl. unfold march_upto. by rewrite <- Hl, firstn_all, drop_all, app_nil_r. Qed.

Lemma march_fleet_due g :
  g_period g <= g_clock g ->
  let l := alien_march (g_right g) <$> g_fleet g in
  let g' := let g' := g <| g_fleet := l |> in if existsb alien_lands (g_fleet g) then game_over g' else g' in
  march_fleet g = (if existsb (alien_turns (g_right g)) l
    then g' <| g_fleet := alien_lowered <$> l |> <| g_right := negb (g_right g) |> else g') <| g_clock := 0 |>.
Proof.
  intros Hdue. unfold march_fleet. rewrite (proj2 (Z.leb_le _ _) Hdue). cbv zeta.
  destruct (existsb alien_lands _), (existsb (alien_turns _) _); done.
Qed.

(** The aliens of a fleet that has marched are lowered without wrapping round. *)
Lemma place_lowered n right s :
  marching n right (Z.to_nat SIZE_OF_ALIENS) s -> place_of <$> (lower_alien 20 <$> aliens s) = alien_lowered <$> (place_of <$> aliens s).
Proof.
  intros (_ & _ & _ & _ & _ & _ & _ & Hal). rewrite <- !list_fmap_compose. apply list_fmap_ext. intros i a Ha.
  destruct (Hal i a Ha) as (_ & _ & Hy0 & Hy1 & _). unfold compose, place_of, alien_lowered, lower_alien. get_set. cbn [fst snd].
  by rewrite i32_id by (unfold in_i32, TERRITORY in *; lia).
Qed.

Lemma alien_move_heard s :
  ready s -> gameState s = PLAYING -> march_strikes (view s) = false -> wp False alien_move (fun _ s' => follows march_fleet s s') nojump s.
Proof using XL.
  intros Hr Hp Hst. unfold follows. apply wp_bind, wp_gets, wp_bind, wp_gets. wp_step.
  2:{ apply wp_ret. split; [done|]. unfold march_fleet. change (g_period (view s)) with (ipf (loc s)).
      change (g_clock (view s)) with (timer_counter s). by rewrite Heqb. }
  assert (spared s) as Hspare.
  { apply spared_view; [done|done|]. unfold march_strikes in Hst. change (g_period (view s) <=? g_clock (view s)) with (ipf (loc s) <=? timer_counter s) in Hst.
    by rewrite Heqb in Hst. }
  assert (speed s = 1) as Hsp1 by (destruct Hr as [_ (_ & _ & _ & _ & _ & _ & _ & _ & _ & _ & Hfl)]; by destruct (Hfl Hp)).
  rewrite march_fleet_due by (change (ipf (loc s) <= timer_counter s); lia). cbv zeta.
  change (g_right (view s)) with (right_mov (loc s)). set (right := right_mov (loc s)).
  assert (length (g_fleet (view s)) = Z.to_nat SIZE_OF_ALIENS) as Hlen.
  { change (g_fleet (view s)) with (place_of <$> aliens s). rewrite length_fmap. apply Hr. }
  pose proof (march_upto_all right (view s) Hlen) as Hall. cbv zeta in Hall. rewrite <- Hall.
  apply wp_bind, wp_modify, wp_bind, wp_modify, wp_bind.
  apply (wp_for_seq False (fun k s' => marching (Z.to_nat SIZE_OF_ALIENS) right k s' /\ marching_view right k (view s) s')).
  { split; [apply marching_start; [done|done|]; intros i a _ Ha; pose proof (Hspare i a Ha) as Hmiss; by rewrite Hsp1 in Hmiss|]. split; [|done]. unfold march_upto. rewrite take_0, drop_0. cbn [existsb fmap list_fmap app].
    change (view _) with (view s) at 1. by destruct (view s). }
  { intros k s' Hk [Hm Hv]. apply (wp_mono False False _ (fun _ s'' => marching (Z.to_nat SIZE_OF_ALIENS) right (S k) s'' /\ marching_view right (S k) (view s) s'') _ nojump);
      [done|done|done|]. apply wp_and; [apply alien_step_marching; [lia|done]|apply (alien_step_view (Z.to_nat SIZE_OF_ALIENS)); [lia|done|done]]. }
  intros s1 [Hm [Hv Hcd]]. rewrite firstn_all2 in Hcd by lia. apply wp_bind, wp_gets, wp_bind. rewrite Hcd.
  set (g1 := march_upto _ _ _) in *.
  apply (wp_mono False False _ (fun _ s' => ready s' /\
    view s' = if existsb (alien_turns right) (alien_march right <$> g_fleet (view s))
              then g1 <| g_fleet := alien_lowered <$> (alien_march right <$> g_fleet (view s)) |> <| g_right := negb right |> else g1) _ nojump); [done| |done|].
  - intros _ s2 [Hr2 Hv2]. apply wp_bind, wp_modify, wp_bind, wp_modify, wp_bind, wp_gets, wp_bind, wp_gets.
    wp_step; [apply wp_bind, wp_modify, wp_modify|apply wp_ret]; (split; [exact Hr2|by rewrite <- Hv2]).
  - destruct (existsb (alien_turns right) _); cbn [when]; [|apply wp_ret; by split; [eapply marched_straight|]].
    apply wp_bind, wp_change_all_y.
    { pose proof Hm as (_ & (_ & _ & _ & _ & _ & _ & _ & Hl & _) & _). cbn in Hl. rewrite Hl. done. }
    apply wp_bind, wp_modify, wp_modify. split; [exact (marched_turn _ right s1 Hm)|].
    assert (alien_march right <$> g_fleet (view s) = g_fleet (view s1)) as ->.
    { rewrite Hv. unfold g1. rewrite march_upto_fleet, <- Hlen, firstn_all, drop_all, app_nil_r. done. }
    change (g_fleet (view s1)) with (place_of <$> aliens s1). rewrite <- (place_lowered _ right s1 Hm).
    assert (right = right_mov (loc s1)) as -> by (by destruct Hm as (_ & _ & _ & _ & _ & Hrm & _)). rewrite <- Hv. done.
Qed.

(** ** The timer *)

(** The tick that a timer interrupt in [s] is: the frame is drawn before the shooter is chosen. *)
Definition tick_events (fuel : nat) s : list event :=
  match (timer_int_handler ;; draw_frame) s with
  | Ok _ s' => [Tick (shooter fuel s')]
  | _ => [Tick 0]
  end.

(** Outside play no alien shoots. *)
Lemma served_tick fuel s s' i :
  ready s' -> view s' = tick i (view s) -> (gameState s = PLAYING -> tick_events fuel s = [Tick i]) -> served (tick_events fuel s) s s'.
Proof.
  intros Hr Hv He. split; [done|]. unfold heard. destruct (gameState s) eqn:Hg; [| |by rewrite He| |].
  all: assert (forall j, tick j (view s) = tick i (view s)) as Hsame by (intros j; unfold tick;
    change (g_mode ((view s) <| g_clock := i32 (g_clock (view s) + 1) |>)) with (gameState s); by rewrite Hg).
  all: rewrite Hv; unfold tick_events; destruct ((_ ;; _) s); cbn [play fold_left react]; symmetry; apply Hsame.
Qed.

(** A tick of play, seen by the abstract game. *)
Lemma tick_removal fuel s :
  gameState s = PLAYING ->
  exists i, tick_events fuel s = [Tick i] /\
    removal (tick_events fuel s) (view s) = frame_removes i ((view s) <| g_clock := i32 (g_clock (view s) + 1) |>).
Proof.
  intros Hg. assert (exists i, tick_events fuel s = [Tick i]) as [i Hi].
  { unfold tick_events. destruct ((_ ;; _) s); by eexists. }
  exists i. split; [done|]. rewrite Hi. cbn [removal removes]. change (g_mode (view s)) with (gameState s). rewrite Hg. cbn [is_state andb].
  by rewrite orb_false_r.
Qed.

Lemma timer_heard fuel s :
  (0 < fuel)%nat -> ready s -> removal (tick_events fuel s) (view s) = false ->
  wp False (timer_interrupt fuel) (fun _ s' => served (tick_events fuel s) s s') (fun c s' => c = CBreak /\ served (tick_events fuel s) s s') s.
Proof using XL RL.
  intros Hf Hr Ht. apply wp_bind, wp_modify. set (s1 := s <| timer_counter := _ |>). assert (ready s1) as Hr1 by exact Hr.
  assert (view s1 = (view s) <| g_clock := i32 (g_clock (view s) + 1) |>) as Hv1 by done.
  apply wp_bind, wp_gets. change (gameState s1) with (gameState s). destruct (gameState s) eqn:Hg.
  - eapply wp_conseq; [by apply timer_in_menu_heard| |by intros ? ? []]. intros [] s2 [Hr2 Hv2].
    apply (served_tick fuel s s2 0); [done| |by rewrite Hg]. unfold tick. rewrite <- Hv1.
    change (g_mode (view s1)) with (gameState s). by rewrite Hg.
  - apply wp_ret, (served_tick fuel s s1 0); [done| |by rewrite Hg]. unfold tick. rewrite <- Hv1.
    change (g_mode (view s1)) with (gameState s). by rewrite Hg.
  - destruct (tick_removal fuel s Hg) as (j & Hj & Hrem). rewrite Ht, <- Hv1 in Hrem. symmetry in Hrem. apply orb_false_elim in Hrem as [Hleave Hst].
    apply wp_bind. apply (wp_mono False False _ (fun _ s2 => draw_frame s1 = Ok tt s2 /\ ready s2 /\ gameState s2 = PLAYING /\
      view s2 = climb (view s1)) _ nojump); [done| |done|].
    2:{ eapply wp_conseq; [apply wp_remember, (wp_draw_frame False (fun _ s2 => ready s2 /\ gameState s2 = PLAYING /\ view s2 = climb (view s1)) nojump);
          [exact Hr1|exact Hleave|]|by intros [] s2|done]. intros s2 Hr2 Hg2 Hv2. change (gameState s1) with (gameState s) in Hg2. by rewrite Hg2. }
    intros _ s2 (He & Hr2 & Hg2 & Hv2). set (i := shooter fuel s2).
    assert (tick_events fuel s = [Tick i]) as Hev by (unfold tick_events, bind, timer_int_handler, modify; fold s1; by rewrite He).
    rewrite Hev in Hj. injection Hj as <-. rewrite <- Hv2 in Hst.
    assert (forall s', ready s' -> view s' = frame i (view s1) -> served (tick_events fuel s) s s') as Hserved.
    { intros s' Hr' Hv'. apply (served_tick fuel s s' i); [done| |done]. unfold tick. rewrite <- Hv1.
      change (g_mode (view s1)) with (gameState s). by rewrite Hg. }
    apply wp_bind. eapply wp_conseq; [by apply alien_fire_heard| |].
    + intros _ s3 (Hr3 & Hg3 & Hb). fold i in Hb. rewrite Hb in Hst. eapply wp_conseq; [by apply alien_move_heard| |by intros ? ? []].
      intros _ s4 [Hr4 Hv4]. apply Hserved; [done|]. unfold frame. by rewrite <- Hv2, Hb.
    + intros c s3 (-> & Hr3 & g & Hb & Hv3). fold i in Hb. split; [done|]. apply Hserved; [done|]. unfold frame. by rewrite <- Hv2, Hb.
  - exfalso. destruct Hr1 as [_ (_ & _ & _ & _ & _ & _ & _ & _ & Hn & _)]. done.
  - apply wp_ret, (served_tick fuel s s1 0); [done| |by rewrite Hg]. unfold tick. rewrite <- Hv1.
    change (g_mode (view s1)) with (gameState s). by rewrite Hg.
Qed.

End tick.
