(* ===== verification/GameRules.v ===== *)
(** * The rules of the game

    What one step of the notification loop does to the game: the march of the
    fleet refines a function on fleets, the last kill ends the round, the next tick
    starts the next one, the last life ends the game, three bytes make a mouse
    packet, and the escape key ends the program. *)

From S2P Require Import Prelude CMonad Heap Memory Lcf Minix Macros ProjState Graphics GraphicsFacts Timer.
From S2P Require Import Keyboard MouseDriver Rtc Ship Aliens ShipBullets ShipBulletFacts AlienBullets.
From S2P Require Import AlienBulletFacts Menu Screen Volley Game GameSafe GameTick.
From stdpp Require Import options.

(** ** The march *)

(** What a tick does to a fleet: the living aliens step in the direction of the fleet;
    when one of them reaches the border, all are lowered and the direction reverses. *)
Definition march_one (right : bool) (sp : Z) (a : Alien) : Alien :=
  if alien_alive a then stepped right sp a else a.

Definition turns_one (right : bool) (sp : Z) (a : Alien) : bool :=
  alien_alive a && at_border right (stepped right sp a).

Definition march (right : bool) (sp : Z) (l : list Alien) : list Alien * bool :=
  if existsb (turns_one right sp) l then (lower_alien 20 <$> (march_one right sp <$> l), negb right)
  else (march_one right sp <$> l, right).

(** A living alien that can step and has not reached the player's territory. *)
Definition marchable (right : bool) (sp : Z) (a : Alien) : Prop :=
  alien_alive a = true -> alien_shape a /\ lane right sp a /\ 0 <= alien_y a /\ alien_y a + 40 < TERRITORY.

Section rules.
Context {D : Type} `{K : Kernel D} {XL : XpmLaws D} {RL : RandLaws D}.
Implicit Types s : state D.

(** The state when the first [k] aliens have marched. *)
Definition marched_upto (right : bool) (sp : Z) (k : nat) s : state D :=
  s <| aliens := (march_one right sp <$> take k (aliens s)) ++ drop k (aliens s) |>
    <| changeDir := changeDir s || existsb (turns_one right sp) (take k (aliens s)) |>.

Lemma marched_upto_0 right sp s : marched_upto right sp 0 s = s.
Proof. unfold marched_upto. cbn [take drop existsb fmap list_fmap app]. rewrite orb_false_r. by destruct s. Qed.

Lemma march_take_S right sp k (l : list Alien) a :
  l !! k = Some a ->
  (march_one right sp <$> take (S k) l) ++ drop (S k) l =
  <[k := march_one right sp a]> ((march_one right sp <$> take k l) ++ drop k l).
Proof.
  intros Ha. pose proof (lookup_lt_Some _ _ _ Ha) as Hlt. rewrite (take_S_r _ _ _ Ha), fmap_app, <- app_assoc.
  rewrite insert_app_r_alt by (rewrite length_fmap, length_take; lia).
  rewrite length_fmap, length_take, Nat.min_l, Nat.sub_diag by lia. f_equal.
  by rewrite (drop_S _ _ _ Ha).
Qed.

Lemma march_lookup right sp k (l : list Alien) a :
  l !! k = Some a -> ((march_one right sp <$> take k l) ++ drop k l) !! k = Some a.
Proof.
  intros Ha. pose proof (lookup_lt_Some _ _ _ Ha) as Hlt.
  rewrite lookup_app_r by (rewrite length_fmap, length_take; lia).
  rewrite length_fmap, length_take, Nat.min_l, Nat.sub_diag, lookup_drop, Nat.add_0_r by lia. done.
Qed.

Lemma turns_take_S right sp k (l : list Alien) a :
  l !! k = Some a ->
  existsb (turns_one right sp) (take (S k) l) = existsb (turns_one right sp) (take k l) || turns_one right sp a.
Proof. intros Ha. rewrite (take_S_r _ _ _ Ha), existsb_app. simpl. by rewrite orb_false_r. Qed.

Lemma marched_upto_S right sp k s a :
  aliens s !! k = Some a ->
  marched_upto right sp (S k) s =
  (if alien_alive a then advanced right sp k a (marched_upto right sp k s) else marched_upto right sp k s).
Proof.
  intros Ha. unfold marched_upto, advanced. rewrite (march_take_S _ _ _ _ a), (turns_take_S _ _ _ _ a) by done.
  unfold march_one, turns_one. destruct (alien_alive a) eqn:Hal.
  - cbn [andb]. by rewrite orb_assoc.
  - cbn [andb]. rewrite orb_false_r, list_insert_id; [done|]. by apply march_lookup.
Qed.

(** One iteration of the loop over the aliens, without a hit and above the territory. *)
Lemma wp_alien_step right sp k a sh s0 s (Q : unit -> state D -> Prop) (J : ctl -> state D -> Prop) :
  env (marched_upto right sp k s0) s -> aliens s0 !! k = Some a -> marchable right sp a -> slots_ok s0 ->
  deref (ships s0) (ship (loc s0)) = Some sh -> missed (bullets s0) (shipBullets s0) (stepped right sp a) ->
  right_mov (loc s0) = right -> speed s0 = sp -> 0 <= sp <= 20 -> killCount s0 <> SIZE_OF_ALIENS ->
  (forall s', env (marched_upto right sp (S k) s0) s' -> Q tt s' /\ J CContinue s') ->
  wp False (alien_step k) Q J s.
Proof.
  intros He Ha Hm Hok Hship Hmiss Hr Hsp Hsp' Hk HQ. pose proof He as [(g & d & ->) Hs].
  pose proof (march_lookup right sp k _ a Ha) as Ha'. apply wp_bind. eapply wp_alien_at; [exact Ha'|].
  rewrite (marched_upto_S right sp k s0 a Ha) in HQ. destruct (alien_alive a) eqn:Hal; cbn [negb].
  2:{ apply wp_jump. by apply HQ. }
  destruct (Hm Hal) as (Hsh & Hln & Hy0 & Hy1). apply wp_bind, wp_gets, wp_bind, wp_gets, wp_bind, wp_gets.
  set (s1 := (marched_upto right sp k s0) <| gfx := g |> <| dev := d |>) in *.
  change (right_mov (loc s1)) with (right_mov (loc s0)). change (speed s1) with (speed s0). rewrite Hr, Hsp.
  apply wp_bind, (wp_advance_alien _ k right _ sp a); [done|done|done|done|done|done|unfold TERRITORY in *; lia|].
  intros s2 [(g2 & d2 & ->) Hs2]. apply wp_bind, wp_gets, wp_bind. change (ship (loc _)) with (ship (loc s0)).
  destruct (ship (loc s0)) as [sl|]; [|done]. assert (forall g d, aliens ((advanced right sp k a s1) <| gfx := g |> <| dev := d |>) !! k = Some (stepped right sp a)) as Ha2.
  { intros. apply list_lookup_insert_eq. by eapply lookup_lt_Some. }
  eapply (wp_verify_missed _ k _ sl sh); [exact Hok|apply Ha2|exact Hship|exact Hmiss|].
  apply wp_bind. eapply wp_alien_at; [apply Ha2|].
  apply wp_bind, wp_gets. change (killCount _) with (killCount s0).
  change (alien_height (stepped right sp a)) with (alien_height a). change (alien_y (stepped right sp a)) with (alien_y a).
  destruct Hsh as (_ & Hh & _). rewrite Hh, i32_id by (unfold in_i32, TERRITORY in *; lia).
  wp_step; [lia|]. wp_step; [lia|]. apply HQ. split; [|done]. by exists g2, d2.
Qed.

(** The march of the whole fleet. *)
Lemma wp_alien_steps right sp sh s (Q : unit -> state D -> Prop) J :
  screen s -> length (aliens s) = Z.to_nat SIZE_OF_ALIENS -> Forall (marchable right sp) (aliens s) -> slots_ok s ->
  deref (ships s) (ship (loc s)) = Some sh -> spared s ->
  right_mov (loc s) = right -> speed s = sp -> 0 <= sp <= 20 -> killCount s <> SIZE_OF_ALIENS ->
  (forall s', env (marched_upto right sp (Z.to_nat SIZE_OF_ALIENS) s) s' -> Q tt s') ->
  wp False (for_each (seq 0 (Z.to_nat SIZE_OF_ALIENS)) alien_step) Q J s.
Proof.
  intros Hs Hlen Hm Hok Hship Hspare Hr Hsp Hsp' Hk HQ.
  apply (wp_for_seq False (fun k s' => env (marched_upto right sp k s) s')); [| |done].
  - rewrite marched_upto_0. by apply env_refl.
  - intros k s' Hk' He. destruct (lookup_lt_is_Some_2 (aliens s) k) as [a Ha]; [by rewrite Hlen|].
    apply (wp_alien_step right sp k a sh s); try done; [by eapply Forall_lookup_1|]. rewrite <- Hr, <- Hsp. by apply (Hspare k).
Qed.

(** A frame of the game in which the fleet [l] marches right or left: [s'] has the new
    fleet and direction, the timer and the turn flag are reset, the animation has
    advanced, and the rest of the game is that of [s]. *)
Definition marched_frame (fleet : list Alien * bool) s s' : Prop :=
  (aliens s', right_mov (loc s')) = fleet /\
  timer_counter s' = 0 /\ changeDir s' = false /\ gameState s' = gameState s /\
  speed s' = speed s /\ killCount s' = killCount s /\ ships s' = ships s /\ ship (loc s') = ship (loc s) /\
  (let fc := i32 (frame_counter s + 1) in
   if frames_per_state s <=? fc then frame_counter s' = 0 /\ mov_img (loc s') = negb (mov_img (loc s))
   else frame_counter s' = fc /\ mov_img (loc s') = mov_img (loc s)).

(** The end of [alien_move]: the timer and the animation. *)
Lemma wp_frame_end fleet s s1 J :
  (aliens s1, right_mov (loc s1)) = fleet -> changeDir s1 = false -> gameState s1 = gameState s ->
  speed s1 = speed s -> killCount s1 = killCount s -> ships s1 = ships s -> ship (loc s1) = ship (loc s) ->
  frame_counter s1 = i32 (frame_counter s + 1) -> frames_per_state s1 = frames_per_state s ->
  mov_img (loc s1) = mov_img (loc s) ->
  wp False
    (modify (fun s => s <| row := i32 (row s + 1) |>) ;;
     assign timer_counter 0 ;;
     fc <- gets frame_counter ;;
     fps <- gets frames_per_state ;;
     when (fps <=? fc) (
       modify (fun s => s <| loc := (loc s) <| mov_img := negb (mov_img (loc s)) |> |>) ;;
       assign frame_counter 0)) (fun _ s' => marched_frame fleet s s') J s1.
Proof.
  intros Hfl Hcd Hg Hsp Hk Hsh Hl Hfc Hfps Hmov.
  apply wp_bind, wp_modify, wp_bind, wp_modify, wp_bind, wp_gets, wp_bind, wp_gets. get_set. rewrite Hfc, Hfps.
  wp_step; [apply wp_bind, wp_modify, wp_modify|apply wp_ret].
  all: do 8 (split; [done|]); cbv zeta; rewrite Heqb; get_set; by rewrite ?Hmov.
Qed.

(** C9: the march of the fleet.  When a frame is due and no bullet hits, [alien_move] does to the fleet what [march]
    does: the living aliens step by the speed of the fleet, and when one of them reaches
    the border every alien is lowered by 20 and the direction is reversed; the frame timer
    is reset, the animation advances, and nothing else in the game changes. *)
Theorem alien_move_refines_march sh s :
  screen s -> length (aliens s) = Z.to_nat SIZE_OF_ALIENS ->
  slots_ok s -> deref (ships s) (ship (loc s)) = Some sh -> spared s ->
  Forall (marchable (right_mov (loc s)) (speed s)) (aliens s) -> 0 <= speed s <= 20 ->
  killCount s <> SIZE_OF_ALIENS -> ipf (loc s) <= timer_counter s ->
  exists s', alien_move s = Ok tt s' /\
    marched_frame (march (right_mov (loc s)) (speed s) (aliens s)) s s'.
Proof.
  intros Hs Hlen Hok Hship Hspare Hm Hsp Hk Hdue.
  destruct (wp_exec alien_move (fun _ s' => marched_frame (march (right_mov (loc s)) (speed s) (aliens s)) s s') s)
    as ([] & s' & He & Hpost); [|by exists s'].
  apply wp_bind, wp_gets, wp_bind, wp_gets. unfold when at 1. rewrite (proj2 (Z.leb_le _ _) Hdue).
  apply wp_bind, wp_modify, wp_bind, wp_modify, wp_bind.
  set (s0 := s <| frame_counter := _ |> <| changeDir := _ |>).
  apply (wp_alien_steps (right_mov (loc s)) (speed s) sh s0); [done|done|done|done|done|exact Hspare|done|done|done|done|].
  intros s1 [(g & d & ->) Hs1]. unfold marched_upto. change (aliens s0) with (aliens s).
  rewrite <- Hlen, firstn_all, drop_all, app_nil_r. apply wp_bind, wp_gets. get_set. change (changeDir s0) with false.
  cbn [orb]. unfold march. destruct (existsb _ (aliens s)) eqn:Hturn; cbn [when].
  - apply wp_bind, wp_bind, wp_change_all_y; [get_set; by rewrite length_fmap, Hlen|].
    apply wp_bind, wp_modify, wp_modify. by apply wp_frame_end.
  - apply wp_bind, wp_ret. by apply wp_frame_end.
Qed.

(** ** Rounds *)

(** C13: the last kill.  When the alien being moved is the last one and a bullet hits it where
    it stands after its step, [alien_step] kills it, credits its value to the ship and
    ends the round: the next tick starts round [roundNum + 1]. *)
Theorem last_kill_ends_round i a sl sh s :
  screen s -> slots_ok s -> aliens s !! i = Some a -> alien_alive a = true ->
  marchable (right_mov (loc s)) (speed s) a -> 0 <= speed s <= 20 ->
  ship (loc s) = Some sl -> cells (ships s) !! sl = Some sh ->
  Exists (fun p => hits_via (bullets s) (stepped (right_mov (loc s)) (speed s) a) p = true) (shipBullets s) ->
  killCount s = SIZE_OF_ALIENS - 1 -> 0 <= roundNum s < 2 ^ 31 - 1 ->
  exists s', alien_step i s = Ok tt s' /\
    gameState s' = NEXT_ROUND /\ roundNum s' = roundNum s + 1 /\ killCount s' = SIZE_OF_ALIENS /\
    alien_alive <$> (aliens s' !! i) = Some false /\
    cells (ships s') !! sl = Some (sh <| ship_score := i32 (ship_score sh + alien_value a) |>).
Proof.
  intros Hs Hok Ha Hal Hm Hsp Hsl Hsh Hhit Hk Hrn. set (right := right_mov (loc s)) in *. set (sp := speed s) in *.
  destruct (Hm Hal) as (Hshp & Hln & Hy0 & Hy1). set (a' := stepped right sp a) in *.
  destruct (wp_exec (alien_step i) (fun _ s' =>
    gameState s' = NEXT_ROUND /\ roundNum s' = roundNum s + 1 /\ killCount s' = SIZE_OF_ALIENS /\
    alien_alive <$> (aliens s' !! i) = Some false /\
    cells (ships s') !! sl = Some (sh <| ship_score := i32 (ship_score sh + alien_value a) |>)) s)
    as ([] & s' & He & Hpost); [|by exists s'].
  apply wp_bind. eapply wp_alien_at; [exact Ha|]. rewrite Hal. cbn [negb].
  apply wp_bind, wp_gets, wp_bind, wp_gets, wp_bind, wp_gets.
  apply wp_bind, (wp_advance_alien _ i right _ sp a); [done|done|done|done|done|done|unfold TERRITORY in *; lia|].
  intros s1 [(g & d & ->) Hs1]. set (s1 := (advanced right sp i a s) <| gfx := g |> <| dev := d |>).
  apply wp_bind, wp_gets. change (ship (loc s1)) with (ship (loc s)). rewrite Hsl. apply wp_bind.
  pose proof (lookup_lt_Some _ _ _ Ha) as Hlt.
  assert (aliens s1 !! i = Some a') as Ha1 by (by apply list_lookup_insert_eq).
  pose proof (verify_spec s1 i a' sl sh Hok Ha1 Hsh) as Hv.
  change (bullets s1) with (bullets s) in Hv. change (shipBullets s1) with (shipBullets s) in Hv.
  destruct (list_find _ (shipBullets s)) as [[j p]|] eqn:Hf.
  2:{ apply list_find_None in Hf. apply Exists_exists in Hhit as (p & Hin & Hp).
      by rewrite Forall_forall in Hf; destruct (Hf p Hin). }
  destruct Hv as (l & -> & He). eapply wp_of_exec; [exact He|]. set (s2 := killed i a' l sl sh s1).
  assert (aliens s2 !! i = Some (a' <| alien_alive := false |>)) as Ha2.
  { apply list_lookup_insert_eq. change (length (aliens s1)) with (length (<[i := a']> (aliens s))). by rewrite length_insert. }
  apply wp_bind. eapply wp_alien_at; [exact Ha2|]. apply wp_bind, wp_gets.
  change (killCount s2) with (i32 (killCount s + 1)). rewrite Hk. get_set.
  change (alien_y a') with (alien_y a). change (alien_height a') with (alien_height a).
  destruct Hshp as (_ & Hh & _). rewrite Hh, i32_id by (unfold in_i32, TERRITORY in *; lia). wp_step; [lia|].
  change (when _) with (@id (M (state D) unit)). unfold id. apply wp_bind, wp_modify, wp_modify.
  split; [done|]. split; [change (i32 (roundNum s + 1) = roundNum s + 1); apply i32_id; unfold in_i32; lia|].
  split; [change (i32 (killCount s + 1) = SIZE_OF_ALIENS); by rewrite Hk|].
  split; [change (alien_alive <$> aliens s2 !! i = Some false); by rewrite Ha2|]. apply lookup_insert_eq.
Qed.

(** C14: the next round.  The tick that follows the end of a round forms a whole new fleet,
    resets the kill count, and resumes play with a fleet one pixel per frame faster
    than the rounds before, with the same ship, lives and score. *)
Theorem next_round_starts fuel p sh s :
  screen s -> length (aliens s) = Z.to_nat SIZE_OF_ALIENS -> heap_wf (ships s) ->
  gameState s = NEXT_ROUND -> ship (loc s) = Some p -> cells (ships s) !! p = Some sh -> ship_ok sh ->
  0 <= roundNum s < 2 ^ 31 - 1 ->
  exists s', timer_interrupt fuel s = Ok tt s' /\
    gameState s' = PLAYING /\ speed s' = 1 + roundNum s /\ roundNum s' = roundNum s /\ killCount s' = 0 /\
    length (aliens s') = Z.to_nat SIZE_OF_ALIENS /\ (forall i a, aliens s' !! i = Some a -> formed i a) /\
    ship (loc s') = Some p /\ cells (ships s') !! p = Some sh.
Proof using XL.
  intros Hs Hlen Hwf Hg Hp Hsh Hok Hr.
  destruct (wp_exec (timer_interrupt fuel) (fun _ s' =>
    gameState s' = PLAYING /\ speed s' = 1 + roundNum s /\ roundNum s' = roundNum s /\ killCount s' = 0 /\
    length (aliens s') = Z.to_nat SIZE_OF_ALIENS /\ (forall i a, aliens s' !! i = Some a -> formed i a) /\
    ship (loc s') = Some p /\ cells (ships s') !! p = Some sh) s) as ([] & s' & He & Hpost); [|by exists s'].
  apply wp_bind, wp_modify, wp_bind, wp_gets. get_set. rewrite Hg. apply wp_bind, wp_gets. get_set. rewrite Hp.
  apply wp_bind, (wp_initGame _ p sh); [done|done|done|done|done|]. intros g d h l _ Hgr [Hl Hfl].
  apply wp_bind, wp_modify, wp_bind, wp_modify, wp_modify. split; [done|].
  split; [change (i32 (INITIAL_ALIEN_SPEED + roundNum s) = 1 + roundNum s); apply i32_id; unfold in_i32, INITIAL_ALIEN_SPEED; lia|].
  split; [done|]. split; [done|]. split; [exact Hl|]. split.
  { intros i a Ha. apply Hfl; [rewrite <- Hl; by eapply lookup_lt_Some|exact Ha]. }
  split; [done|]. exact (grown_lookup (ships s) h p sh Hwf Hgr Hsh).
Qed.

(** ** Lives *)

Lemma lose_game_exec s :
  exists s' p img, lose_game s = Ok tt s' /\ gameState s' = MENU_DISPLAY /\ speed s' = 1 /\ roundNum s' = 0 /\
    ship (loc s') = Some p /\ cells (ships s') !! p = Some (MkShip 512 SHIP_YPOS 15 img 3 0).
Proof.
  unfold lose_game, createShip, bind, sys. destruct (xpm_load _ _ _) as [img d].
  eexists _, _, img. split; [reflexivity|]. do 4 (split; [done|]). apply lookup_insert_eq.
Qed.

(** The state in which the bullet [b] has hit the ship. *)
Definition ship_hit (sl : nat) (sh : Ship) (l : nat) (b : AlienBullet) s : state D :=
  set_bullet l ((fall b) <| ab_active := false |>)
    (s <| ships := heap_write sl (sh <| ship_lives := ship_lives sh - 1 |>) (ships s) |>).

Lemma alien_fire_hit fuel sl sh l b s Q J :
  ship (loc s) = Some sl -> cells (ships s) !! sl = Some sh -> 1 <= ship_lives sh <= 3 ->
  bullet_at l b s -> bullet_ok b -> ab_active b = true -> bullet_in_ship (fall b) sh = true ->
  wp False (when (ship_lives sh - 1 =? 0) (lose_game ;; jump CBreak)) Q J (ship_hit sl sh l b s) ->
  wp False (alien_fire fuel) Q J s.
Proof.
  intros Hsp Hsh Hlv Hat Hok Hact Hin HQ. pose proof Hat as [Hap Hl].
  apply wp_bind, wp_gets. rewrite Hap. apply wp_bind. eapply wp_load; [exact Hl|].
  rewrite Hact. cbn [negb]. apply wp_bind. eapply (wp_updateAlienBullet _ l b); [done|done|].
  set (s1 := set_bullet l (fall b) s). assert (bullet_at l (fall b) s1) as [Hp1 Hl1] by (by eapply bullet_at_set).
  apply wp_bind, wp_gets. change (ship (loc s1)) with (ship (loc s)). rewrite Hsp.
  apply wp_bind, wp_bind. eapply wp_load; [exact Hsh|]. apply wp_bind, wp_gets. rewrite Hp1.
  apply wp_bind. eapply wp_load; [exact Hl1|]. rewrite Hin, i32_id by (unfold in_i32; lia).
  apply wp_bind. eapply wp_store; [exact Hsh|]. apply wp_bind. eapply wp_store; [exact Hl1|]. apply wp_ret.
  change (set_field alien_bullets _ _) with (set_bullet l ((fall b) <| ab_active := false |>) (set_bullet l (fall b)
    (s <| ships := heap_write sl (sh <| ship_lives := ship_lives sh - 1 |>) (ships s) |>))).
  rewrite set_bullet_twice. apply wp_bind. eapply wp_load; [apply lookup_insert_eq|exact HQ].
Qed.

(** C15: a hit on the ship.  When the aliens' bullet, moved down, is inside the ship, the bullet
    is spent; a ship with another life loses one and play goes on; with the last life
    the rest of the frame is skipped and the game returns to the menu, with a new ship of
    three lives and no score, the initial speed and round 0. *)
Theorem alien_shot_hits fuel sl sh l b s :
  ship (loc s) = Some sl -> cells (ships s) !! sl = Some sh -> 1 <= ship_lives sh <= 3 ->
  bullet_at l b s -> bullet_ok b -> ab_active b = true -> bullet_in_ship (fall b) sh = true ->
  if ship_lives sh =? 1 then
    exists s' p img, alien_fire fuel s = Jump CBreak s' /\
      gameState s' = MENU_DISPLAY /\ speed s' = 1 /\ roundNum s' = 0 /\
      ship (loc s') = Some p /\ cells (ships s') !! p = Some (MkShip 512 SHIP_YPOS 15 img 3 0)
  else
    alien_fire fuel s = Ok tt (ship_hit sl sh l b s).
Proof.
  intros Hsp Hsh Hlv Hat Hok Hact Hin.
  pose proof (wp_outcome (alien_fire fuel) _ s (ship_hit sl sh l b s)
    (fun Q J => alien_fire_hit fuel sl sh l b s Q J Hsp Hsh Hlv Hat Hok Hact Hin)) as He.
  destruct (ship_lives sh =? 1) eqn:E1.
  - rewrite (proj2 (Z.eqb_eq (ship_lives sh - 1) 0)) in He by lia.
    destruct (lose_game_exec (ship_hit sl sh l b s)) as (s' & p & img & Hl & Hpost).
    cbn [when] in He. unfold bind in He. rewrite Hl in He. rewrite He by (intros f Hf; discriminate Hf).
    by exists s', p, img.
  - rewrite (proj2 (Z.eqb_neq (ship_lives sh - 1) 0)) in He by lia. rewrite He by (intros f Hf; discriminate Hf). done.
Qed.

(** ** Input *)

(** The controller holds the byte [b] without an error, and [d'] is the system after it is read. *)
Definition delivers (d : D) (b : Z) (d' : D) : Prop :=
  exists st d1, sys_inb STAT_REG d = ((0, st), d1) /\ in_u8 st /\ Z.land st (Z.lor PARITY_BIT TIMEOUT_BIT) = 0 /\
    ctrue (Z.land st OBF_BIT) = true /\ sys_inb OUT_BUF d1 = ((0, b), d') /\ in_u8 b.

Lemma util_sys_inb_exec port v d s :
  sys_inb port (dev s) = ((0, v), d) -> in_u8 v -> util_sys_inb port s = Ok (Some v) (s <| dev := d |>).
Proof. intros He Hv. unfold util_sys_inb, bind, sys. rewrite He. unfold ret. simpl. by rewrite u8_id. Qed.

Lemma mouse_ih_delivers b d s :
  delivers (dev s) b d ->
  exists st, mouse_ih s = Ok tt (s <| dev := d |> <| mouse_statuscode := st |> <| mouse_scancode := b |>).
Proof.
  intros (st & d1 & H1 & Hst & He & Ho & H2 & Hb). exists st. unfold mouse_ih, bind.
  rewrite (util_sys_inb_exec _ _ _ _ H1 Hst). unfold modify. rewrite He, Ho. simpl.
  erewrite util_sys_inb_exec; [|exact H2|done]. by destruct s.
Qed.

Lemma kbc_ih_delivers b d s :
  delivers (snd (indeterminate (dev s))) b d ->
  kbc_ih s = Ok tt (s <| dev := d |> <| keyboard_scancode := b |>).
Proof.
  intros (st & d1 & H1 & Hst & He & _ & H2 & Hb). unfold kbc_ih, bind, sys.
  destruct (indeterminate (dev s)) as [g d0]. cbn [snd] in H1. erewrite util_sys_inb_exec; [|exact H1|done].
  rewrite He. simpl. erewrite util_sys_inb_exec; [|exact H2|done]. by destruct s.
Qed.

Lemma mouse_bytes_3 (l : list Z) : length l = 3%nat -> exists a b c, l = [a; b; c].
Proof. destruct l as [|a [|b [|c []]]]; try done. by exists a, b, c. Qed.

(** The state after [n] mouse bytes have been received. *)
Definition received (d : D) (st b : Z) (cb : Z) (bs : list Z) s : state D :=
  s <| dev := d |> <| mouse_statuscode := st |> <| mouse_scancode := b |>
    <| loc := (loc s) <| mouseBytes := bs |> <| currentByte := cb |> |>.

Lemma mouse_interrupt_exec b d s :
  delivers (dev s) b d -> ih_error s = 0 -> 1 <= currentByte (loc s) <= 3 ->
  exists st, mouse_interrupt s =
    match currentByte (loc s) with
    | 1 => if Z.testbit b 3 then Ok tt (received d st b 2 (<[0%nat := b]> (mouseBytes (loc s))) s)
           else Jump CContinue (s <| dev := d |> <| mouse_statuscode := st |> <| mouse_scancode := b |>)
    | 2 => Ok tt (received d st b 3 (<[1%nat := b]> (mouseBytes (loc s))) s)
    | _ => mouse_packet (received d st b 1 (<[2%nat := b]> (mouseBytes (loc s))) s)
    end.
Proof.
  intros Hd He Hc. destruct (mouse_ih_delivers b d s Hd) as [st Hih]. exists st.
  unfold mouse_interrupt, bind. rewrite Hih. unfold gets. get_set. rewrite He. change (ctrue 0) with false. cbv iota beta. get_set.
  assert (Z.testbit b 3 = negb (Z.land b (BIT 3) =? 0)) as -> by (rewrite <- ctrue_land_BIT by lia; done).
  assert (currentByte (loc s) = 1 \/ currentByte (loc s) = 2 \/ currentByte (loc s) = 3) as [->|[->| ->]] by lia.
  - destruct (Z.land b (BIT 3) =? 0). { reflexivity. } reflexivity.
  - done.
  - done.
Qed.

(** C19: mouse packets.  From the start of a packet, a byte whose bit 3 is clear is dropped, and three
    bytes of which the first has bit 3 set are handled as exactly one packet, in order. *)
Theorem packet_assembly b0 b1 b2 d1 d2 d3 s :
  delivers (dev s) b0 d1 -> delivers d1 b1 d2 -> delivers d2 b2 d3 -> ih_error s = 0 ->
  currentByte (loc s) = 1 -> length (mouseBytes (loc s)) = 3%nat ->
  exists st, if Z.testbit b0 3 then
    (mouse_interrupt ;; mouse_interrupt ;; mouse_interrupt) s =
      mouse_packet (received d3 st b2 1 [b0; b1; b2] s)
  else mouse_interrupt s = Jump CContinue (s <| dev := d1 |> <| mouse_statuscode := st |> <| mouse_scancode := b0 |>).
Proof.
  intros H0 H1 H2 He Hc Hl. destruct (mouse_bytes_3 _ Hl) as (c0 & c1 & c2 & Hbs).
  destruct (mouse_interrupt_exec b0 d1 s H0 He ltac:(lia)) as [st Hr]. rewrite Hc, Hbs in Hr. change (<[0%nat := b0]> [c0; c1; c2]) with [b0; c1; c2] in Hr.
  destruct (Z.testbit b0 3); [|by exists st]. unfold bind at 1. rewrite Hr.
  destruct (mouse_interrupt_exec b1 d2 (received d1 st b0 2 [b0; c1; c2] s) H1 He ltac:(cbn; lia)) as [st' Hr'].
  unfold bind. rewrite Hr'.
  destruct (mouse_interrupt_exec b2 d3 (received d2 st' b1 3 [b0; b1; c2] (received d1 st b0 2 [b0; c1; c2] s)) H2 He ltac:(cbn; lia))
    as [st'' Hr''].
  exists st''. exact Hr''.
Qed.

(** The state after the escape key was released. *)
Definition escaped (d : D) (bs : list Z) s : state D :=
  s <| dev := d |> <| keyboard_scancode := ESC_BREAK |> <| gameState := EXIT |>
    <| loc := (loc s) <| kbdBytes := bs |> <| kbd_size := 1 |> |>.

Lemma keyboard_escape d s :
  delivers (snd (indeterminate (dev s))) ESC_BREAK d ->
  exists bs, keyboard_interrupt s = Jump CContinue (escaped d bs s).
Proof.
  intros Hd. unfold keyboard_interrupt, bind. rewrite (kbc_ih_delivers _ _ _ Hd). unfold gets. get_set.
  change (ctrue (twoBytes ESC_BREAK)) with false. cbv iota beta. get_set.
  destruct (kbd_size (loc s) =? 1); eexists; reflexivity.
Qed.

Lemma loop_body_escape fuel msg d1 d2 s :
  screen s -> driver_receive (dev s) = ((0, msg, true), d1) -> m_source_p msg = HARDWARE ->
  irq_pending (m_interrupts msg) (mouse_bit_no (loc s)) = false ->
  irq_pending (m_interrupts msg) (kbd_bit_no (loc s)) = true ->
  delivers (snd (indeterminate d1)) ESC_BREAK d2 ->
  exists g bs, loop_body fuel s = Jump CContinue (escaped d2 bs (s <| gfx := g |>)).
Proof.
  intros Hs Hrec Hsrc Hm Hk Hd. pose proof Hs as (v & ds & [Hf Hd1] & Hdm & Hsz & HX & HY).
  destruct (displayScreen_exec s v ds Hf Hdm Hsz) as (ds' & He & _).
  set (s1 := s <| gfx := _ |>) in He. unfold loop_body, bind at 1. rewrite He.
  unfold bind, sys. change (dev s1) with (dev s). rewrite Hrec. cbn [ctrue Z.eqb negb when].
  unfold dispatch, switch. rewrite Hsrc. cbn [Z.eqb HARDWARE Pos.eqb].
  unfold hardware_interrupt, bind, gets. change (loc (s1 <| dev := d1 |>)) with (loc s). rewrite Hm. cbn [when ret].
  unfold ret. change (loc (s1 <| dev := d1 |>)) with (loc s). rewrite Hk. cbn [when].
  pose proof (keyboard_escape d2 (s1 <| dev := d1 |>)) as Hkb. replace (dev (s1 <| dev := d1 |>)) with d1 in Hkb by done.
  destruct (Hkb Hd) as [bs ->]. by exists (gfx s1), bs.
Qed.

(** A mouse interrupt whose byte cannot start a packet ends the notification before the keyboard is read. *)
Lemma loop_body_out_of_sync fuel msg d1 d2 b s :
  screen s -> driver_receive (dev s) = ((0, msg, true), d1) -> m_source_p msg = HARDWARE ->
  irq_pending (m_interrupts msg) (mouse_bit_no (loc s)) = true ->
  currentByte (loc s) = 1 -> ih_error s = 0 -> delivers d1 b d2 -> Z.land b (BIT 3) = 0 ->
  exists g st, loop_body fuel s =
    Jump CContinue (s <| gfx := g |> <| dev := d2 |> <| mouse_statuscode := st |> <| mouse_scancode := b |>).
Proof.
  intros Hs Hrec Hsrc Hm Hcur Herr Hd Hb. pose proof Hs as (v & ds & [Hf Hd1] & Hdm & Hsz & HX & HY).
  destruct (displayScreen_exec s v ds Hf Hdm Hsz) as (ds' & He & _).
  set (s1 := s <| gfx := _ |>) in He. unfold loop_body, bind at 1. rewrite He.
  unfold bind, sys. change (dev s1) with (dev s). rewrite Hrec. cbn [ctrue Z.eqb negb when].
  unfold dispatch, switch. rewrite Hsrc. cbn [Z.eqb HARDWARE Pos.eqb].
  unfold hardware_interrupt, bind, gets. change (loc (s1 <| dev := d1 |>)) with (loc s). rewrite Hm. cbn [when].
  unfold mouse_interrupt, bind.
  destruct (mouse_ih_delivers b d2 (s1 <| dev := d1 |>)) as [st He2]; [exact Hd|]. rewrite He2.
  unfold gets. get_set. change (ih_error s1) with (ih_error s). rewrite Herr. cbn [ctrue Z.eqb negb]. get_set.
  change (loc s1) with (loc s). rewrite Hcur, Hb. by exists (gfx s1), st.
Qed.

(** C16: the escape key.  On a working screen, let a notification carry a keyboard interrupt.  If it carries no mouse
    interrupt and the byte read, without error, is the release of the escape key, then it is the last notification: the loop
    returns, and only the input state, the screen and the game state have changed.  If it carries a mouse interrupt as
    well, and the byte of the mouse cannot start a packet where one is due, then the keyboard is not read at all and the
    loop goes on with the game state it had. *)
Theorem escape_ends_loop fuel n msg d1 d2 s :
  screen s -> running s = true -> driver_receive (dev s) = ((0, msg, true), d1) -> m_source_p msg = HARDWARE ->
  irq_pending (m_interrupts msg) (kbd_bit_no (loc s)) = true ->
  (irq_pending (m_interrupts msg) (mouse_bit_no (loc s)) = false -> delivers (snd (indeterminate d1)) ESC_BREAK d2 ->
   exists g bs, notification_loop fuel (S n) s = Ok tt (escaped d2 bs (s <| gfx := g |>))) /\
  (irq_pending (m_interrupts msg) (mouse_bit_no (loc s)) = true ->
   forall b, currentByte (loc s) = 1 -> ih_error s = 0 -> delivers d1 b d2 -> Z.land b (BIT 3) = 0 ->
   exists g st, let s' := s <| gfx := g |> <| dev := d2 |> <| mouse_statuscode := st |> <| mouse_scancode := b |> in
     loop_body fuel s = Jump CContinue s' /\ notification_loop fuel (S n) s = notification_loop fuel n s').
Proof.
  intros Hs Hrun Hrec Hsrc Hk. split.
  - intros Hm Hd. unfold notification_loop. cbn [while_]. rewrite Hrun.
    destruct (loop_body_escape fuel msg d1 d2 s Hs Hrec Hsrc Hm Hk Hd) as (g & bs & ->).
    exists g, bs. destruct n; reflexivity.
  - intros Hm b Hcur Herr Hd Hb.
    destruct (loop_body_out_of_sync fuel msg d1 d2 b s Hs Hrec Hsrc Hm Hcur Herr Hd Hb) as (g & st & He).
    exists g, st. split; [exact He|]. unfold notification_loop. cbn [while_]. by rewrite Hrun, He.
Qed.

(** notifications that carry several interrupts.  When the first byte of a two-byte scancode
    arrives together with a timer tick, the handler leaves the notification before it
    looks at the timer: the tick is lost. *)
Theorem extended_scancode_loses_tick fuel ints d s :
  irq_pending ints (mouse_bit_no (loc s)) = false -> irq_pending ints (kbd_bit_no (loc s)) = true ->
  irq_pending ints (timer_bit_no (loc s)) = true -> delivers (snd (indeterminate (dev s))) 0xE0 d ->
  hardware_interrupt fuel ints s =
    Jump CContinue (s <| dev := d |> <| keyboard_scancode := 0xE0 |> <| loc := (loc s) <| kbd_size := 2 |> |>).
Proof.
  intros Hm Hk Ht Hd. unfold hardware_interrupt, bind, gets. rewrite Hm. cbn [when ret]. unfold ret. rewrite Hk. cbn [when].
  unfold keyboard_interrupt, bind. rewrite (kbc_ih_delivers _ _ _ Hd). reflexivity.
Qed.

End rules.

(** ** Examples of play *)

Definition demo_alien_img : xpm_image_t := fst (xpm_load alien1 XPM_INDEXED (ports [])).

Lemma demo_alien_pic : pic 60 40 demo_alien_img.
Proof. apply (xpm_load_pic alien1); done. Qed.

Definition demo_alien (i : Z) : Alien :=
  MkAlien (24 + 80 * (i / 3)) (20 + 60 * (i mod 3)) 60 40 demo_alien_img demo_alien_img true (30 - 10 * (i mod 3)).

Definition demo_fleet : list Alien := demo_alien <$> seqZ 0 24.

Lemma demo_marchable : Forall (marchable true 1) demo_fleet.
Proof.
  apply Forall_fmap, Forall_forall. intros i Hi%elem_of_seqZ _. split; [|split].
  - split; [done|]. split; [done|]. split; exact demo_alien_pic.
  - unfold lane, demo_alien. cbn [alien_x]. assert (0 <= i / 3 <= 7) by (Z.to_euclidean_division_equations; lia). lia.
  - unfold demo_alien, TERRITORY. cbn [alien_y]. pose proof (Z.mod_pos_bound i 3 ltac:(lia)). lia.
Qed.

(** A round in progress, with the timer at 1. *)
Definition demo_play : state script :=
  game_start <| gameState := PLAYING |> <| aliens := demo_fleet |> <| timer_counter := 1 |>
    <| loc := init_locals <| ship := Some 0%nat |> <| ipf := 1 |> <| mouse_bit_no := 12 |> <| kbd_bit_no := 1 |> |>.

Lemma demo_play_slots : slots_ok demo_play /\ spared demo_play.
Proof.
  split; [split; [done|]; apply Forall_replicate; by left|]. intros i a _. by apply Forall_replicate.
Qed.

Lemma alien_move_refines_march_witness :
  exists s', alien_move demo_play = Ok tt s' /\ marched_frame (march true 1 demo_fleet) demo_play s'.
Proof.
  exact (alien_move_refines_march game_ship demo_play game_screen_ok eq_refl
    (proj1 demo_play_slots) eq_refl (proj2 demo_play_slots) demo_marchable
    ltac:(split; vm_compute; congruence) ltac:(vm_compute; congruence) ltac:(vm_compute; congruence)).
Defined.

(** A bullet where the first alien is after its step, and one alien left. *)
Definition demo_bullet : ShipBullet := MkShipBullet 40 30 4 no_image false.

Definition demo_last : state script :=
  demo_play <| killCount := 23 |> <| bullets := heap_alloc demo_bullet empty_heap |>
    <| shipBullets := Some 0%nat :: replicate 6 NULL |>.

Lemma demo_last_slots : slots_ok demo_last.
Proof. split; [done|]. apply Forall_cons. split; [right; by eexists|]. apply Forall_replicate. by left. Qed.

Lemma last_kill_ends_round_witness :
  exists s', alien_step 0 demo_last = Ok tt s' /\ gameState s' = NEXT_ROUND /\ roundNum s' = 1 /\
    cells (ships s') !! 0%nat = Some (game_ship <| ship_score := 30 |>).
Proof.
  destruct (last_kill_ends_round 0 (demo_alien 0) 0 game_ship demo_last game_screen_ok demo_last_slots eq_refl eq_refl
    (Forall_inv demo_marchable) ltac:(split; vm_compute; congruence) eq_refl eq_refl
    (Exists_cons_hd _ (Some 0%nat) (replicate 6 NULL) eq_refl) eq_refl ltac:(split; vm_compute; congruence)) as (s' & He & Hg & Hr & _ & _ & Hsc).
  exists s'. split; [exact He|]. split; [exact Hg|]. split; [exact Hr|exact Hsc].
Defined.

Definition demo_won : state script := demo_play <| gameState := NEXT_ROUND |> <| roundNum := 2 |>.

Lemma next_round_starts_witness :
  exists s', timer_interrupt 1 demo_won = Ok tt s' /\
    gameState s' = PLAYING /\ speed s' = 3 /\ killCount s' = 0.
Proof.
  destruct (next_round_starts 1 0 game_ship demo_won game_screen_ok eq_refl
    (heap_alloc_wf _ _ empty_heap_wf) eq_refl eq_refl eq_refl game_ship_ok ltac:(split; vm_compute; congruence))
    as (s' & He & Hg & Hs & _ & Hk & _).
  exists s'. split; [exact He|]. split; [exact Hg|]. split; [exact Hs|exact Hk].
Defined.

(** The aliens' bullet about to reach the ship, which has one life. *)
Definition demo_shot : AlienBullet :=
  MkAlienBullet 540 650 ALIEN_BULLET_SPEED (fst (xpm_load alien_bullet XPM_INDEXED (ports []))) true.

Definition demo_dying : state script :=
  demo_play <| ships := heap_alloc (game_ship <| ship_lives := 1 |>) empty_heap |>
    <| alien_bullets := heap_alloc demo_shot empty_heap |> <| alienBullet := Some 0%nat |>.

Lemma alien_shot_hits_witness :
  exists s', alien_fire 1 demo_dying = Jump CBreak s' /\ gameState s' = MENU_DISPLAY /\ speed s' = 1.
Proof.
  destruct (alien_shot_hits 1 0 (game_ship <| ship_lives := 1 |>) 0 demo_shot demo_dying eq_refl eq_refl
    ltac:(split; vm_compute; congruence) (conj eq_refl eq_refl) ltac:(repeat split; vm_compute; congruence) eq_refl eq_refl)
    as (s' & p & img & He & Hg & Hs & _).
  exists s'. split; [exact He|]. split; [exact Hg|exact Hs].
Defined.

(** Bytes on the controller's ports. *)
Lemma delivers_script st b q d :
  port_in d = st :: b :: q -> in_u8 st -> Z.land st (Z.lor PARITY_BIT TIMEOUT_BIT) = 0 ->
  ctrue (Z.land st OBF_BIT) = true -> in_u8 b -> delivers d b (d <| port_in := q |>).
Proof.
  intros Hp Hst He Ho Hb. exists st, (d <| port_in := b :: q |>). cbn. rewrite Hp. cbn. by destruct d.
Qed.

Definition demo_bytes : state script := demo_play <| dev := ports [0x21; 0x08; 0x21; 5; 0x21; 7] |>.

Lemma packet_assembly_witness :
  exists st, (mouse_interrupt ;; mouse_interrupt ;; mouse_interrupt) demo_bytes =
    mouse_packet (received (ports []) st 7 1 [0x08; 5; 7] demo_bytes).
Proof.
  refine (packet_assembly 0x08 5 7 (ports [0x21; 5; 0x21; 7]) (ports [0x21; 7]) (ports []) demo_bytes _ _ _ eq_refl eq_refl eq_refl).
  - apply (delivers_script 0x21 0x08 _ (ports _)); unfold in_u8; try reflexivity; lia.
  - apply (delivers_script 0x21 5 _ (ports _)); unfold in_u8; try reflexivity; lia.
  - apply (delivers_script 0x21 7 _ (ports _)); unfold in_u8; try reflexivity; lia.
Defined.

Definition demo_escape : state script :=
  demo_play <| dev := (ports [1; ESC_BREAK]) <| inbox := [Message HARDWARE (BIT 1)] |> |>.

(** The escape key alone, and together with a byte of the mouse that cannot start a packet. *)
Definition demo_lost_escape : state script :=
  demo_play <| dev := (ports [0x21; 0; 1; ESC_BREAK]) <| inbox := [Message HARDWARE (BIT 1 + BIT 12)] |> |>
    <| loc := (loc demo_play) <| mouse_bit_no := 12 |> <| currentByte := 1 |> |>.

Lemma escape_ends_loop_witness :
  (exists s', notification_loop 1 1 demo_escape = Ok tt s' /\ gameState s' = EXIT) /\
  exists s', loop_body 1 demo_lost_escape = Jump CContinue s' /\ gameState s' = PLAYING.
Proof.
  split.
  - destruct (escape_ends_loop (K := script_kernel) 1 0 (Message HARDWARE (BIT 1)) (ports [1; ESC_BREAK]) (ports []) demo_escape game_screen_ok
      eq_refl eq_refl eq_refl eq_refl) as [Hend _]. destruct (Hend eq_refl) as (g & bs & He).
    + apply (delivers_script 1 ESC_BREAK _ (ports _)); unfold in_u8, ESC_BREAK; try reflexivity; lia.
    + eexists. split; [exact He|reflexivity].
  - destruct (escape_ends_loop (K := script_kernel) 1 0 (Message HARDWARE (BIT 1 + BIT 12)) (ports [0x21; 0; 1; ESC_BREAK]) (ports [1; ESC_BREAK])
      demo_lost_escape game_screen_ok eq_refl eq_refl eq_refl eq_refl) as [_ Hlost].
    destruct (Hlost eq_refl 0 eq_refl eq_refl) as (g & st & He & _); [|reflexivity|eexists; split; [exact He|reflexivity]].
    apply (delivers_script 0x21 0 _ (ports _)); unfold in_u8; try reflexivity; lia.
Defined.

Lemma extended_scancode_loses_tick_witness :
  exists s', hardware_interrupt 1 (BIT 0 + BIT 1) (demo_play <| dev := ports [1; 0xE0] |>) = Jump CContinue s' /\
    timer_counter s' = timer_counter demo_play.
Proof.
  eexists. split.
  - apply (extended_scancode_loses_tick 1 (BIT 0 + BIT 1) (ports [])); [reflexivity|reflexivity|reflexivity|].
    apply (delivers_script 1 0xE0 _ (ports _)); unfold in_u8; try reflexivity; lia.
  - reflexivity.
Defined.
