(* ===== verification/GameSetup.v ===== *)
(** * The set-up of the game: the part of [game_loop] before its loop

    [create_objects] loads every pixmap and creates every object,
    [subscribe_devices] sets the video mode and the interrupt lines up, [splash]
    shows the first screens: together they establish the invariant of the loop,
    and the view of the state is a new abstract game. *)

From S2P Require Import Prelude CMonad Heap Memory Lcf Minix Frame Macros ProjState Graphics GraphicsFacts Timer.
From S2P Require Import Keyboard MouseDriver Rtc Ship Aliens ShipBullets ShipBulletFacts AlienBullets.
From S2P Require Import AlienBulletFacts Menu Screen Volley GameSpec Game GameFrame GameSafe.
From stdpp Require Import options.

Section setup.
Context {D : Type} `{K : Kernel D} {XL : XpmLaws D} {ML : Mode105 D}.
Implicit Types s : state D.

(** ** Objects and pixmaps *)

(** A property [P] of the system that loading pixmaps does not change. *)
Definition stable (P : D -> Prop) : Prop :=
  (forall m d, P d -> P (snd (xpm_load m XPM_INDEXED d))) /\ (forall d, P d -> P (snd (indeterminate d))).

Section objects.
Context (P : D -> Prop) (HP : stable P).

Lemma wp_loadXpm E m Q J s :
  0 <= xpm_columns m -> 0 <= xpm_rows m -> P (dev s) ->
  (forall d img, pic (xpm_columns m) (xpm_rows m) img -> P d -> Q img (s <| dev := d |>)) ->
  wp E (sys dev (xpm_load m XPM_INDEXED)) Q J s.
Proof using XL HP. intros Hc Hr Hd HQ. apply wp_sys, HQ; [by apply xpm_load_pic|by apply HP]. Qed.

(** The state with the pixmaps [i] loaded. *)
Definition with_images (d : D) (i : images) s : state D := s <| dev := d |> <| imgs := i |>.

Lemma with_images_same s : with_images (dev s) (imgs s) s = s.
Proof. by destruct s. Qed.

Lemma wp_load_image (f : images -> xpm_image_t) `{!Setter f} E m (k : M (state D) unit) Q J s d i :
  0 <= xpm_columns m -> 0 <= xpm_rows m -> P d ->
  (forall d' img, pic (xpm_columns m) (xpm_rows m) img -> P d' -> wp E k Q J (with_images d' (i <| f := img |>) s)) ->
  wp E (z <- sys dev (xpm_load m XPM_INDEXED) ;; assign_img f z ;; k) Q J (with_images d i s).
Proof using XL HP.
  intros Hc Hr Hd HQ. apply wp_bind, wp_loadXpm; [done|done|done|]. intros d' img Hp Hd'. apply wp_bind, wp_modify. by apply HQ.
Qed.

Lemma wp_load_last (f : images -> xpm_image_t) `{!Setter f} E m (Q : unit -> state D -> Prop) J s d i :
  0 <= xpm_columns m -> 0 <= xpm_rows m -> P d ->
  (forall d' img, pic (xpm_columns m) (xpm_rows m) img -> P d' -> Q tt (with_images d' (i <| f := img |>) s)) ->
  wp E (z <- sys dev (xpm_load m XPM_INDEXED) ;; assign_img f z) Q J (with_images d i s).
Proof using XL HP.
  intros Hc Hr Hd HQ. apply wp_bind, wp_loadXpm; [done|done|done|]. intros d' img Hp Hd'. apply wp_modify. by apply HQ.
Qed.

Ltac forall_pics := repeat (apply Forall_cons; split; [assumption|]); constructor.

Definition menus_ok (i : images) : Prop :=
  Forall (pic 1024 768) [menu_start_xpm i; menu_instructions_xpm i; menu_exit_xpm i; menu_xpm i;
                         instructions_xpm i; instructions_back_xpm i].

Lemma wp_initMenuXpm E Q J s d i :
  P d -> (forall d' i', menus_ok i' -> P d' -> Q tt (with_images d' i' s)) -> wp E initMenuXpm Q J (with_images d i s).
Proof using XL HP.
  intros Hd HQ. unfold initMenuXpm. do 5 (apply wp_load_image; [done|done|done|]; intros ? ? ? ?).
  apply wp_load_last; [done|done|done|]. intros ? ? ? ?. apply HQ; [by forall_pics|done].
Qed.

Lemma wp_initNumbers E Q J s d i :
  P d -> menus_ok i -> (forall d' i', images_ok i' -> P d' -> Q tt (with_images d' i' s)) -> wp E initNumbers Q J (with_images d i s).
Proof using XL HP.
  intros Hd Hm HQ. unfold initNumbers. do 9 (apply wp_load_image; [done|done|done|]; intros ? ? ? ?).
  apply wp_load_last; [done|done|done|]. intros ? ? ? ?. apply HQ; [|done]. split; [by forall_pics|exact Hm].
Qed.

Lemma wp_initShipBullets E Q J s :
  quiet s -> Q tt s -> wp E initShipBullets Q J s.
Proof.
  intros Hq HQ. apply wp_for_each with (I := fun _ s' => s' = s); [done| |by intros s' ->].
  intros i l s' ->. apply wp_modify. unfold quiet in Hq.
  assert (<[i := NULL]> (shipBullets s) = shipBullets s) as E1; [|destruct s; cbn in *; by rewrite E1].
  rewrite Hq. apply list_insert_id'. intros Hi. apply lookup_replicate_2. by rewrite length_replicate in Hi.
Qed.

(** ** The whole of [create_objects] *)

(** The state of the program when the pixmaps of the menus are about to be loaded. *)
Definition booted (d : D) (hz : Z) (im ish bg si ai scr : xpm_image_t) : state D :=
  State d 0 0 1 0 12 0 0 0 8 1 20 no_graphics no_images
    (heap_alloc (MkShip 512 SHIP_YPOS 15 ish NUMLIVES 0) empty_heap) (heap_alloc (MkMouse 50 700 im false) empty_heap)
    empty_heap empty_heap
    (replicate 7 NULL) NULL MENU_DISPLAY false (replicate 24 no_alien) 0 0 0 false false 0
    (Locals 0 0 0 0 no_packet 1 [0; 0; 0] 1 [0; 0] INITIAL false Invalid_key hz false true (Some 0%nat) (Some 0%nat)
       bg si ai scr).

Lemma create_objects_world d : P d -> wp False create_objects (fun _ s' => world s' /\ pic 1024 768 (initialScreen (loc s')) /\ view s' = new_game (i32 (sys_hz d)) /\ P (dev s')) nojump (init_state d).
Proof using XL HP.
  intros H0. unfold create_objects, createMouse, createShip, initAlienBullet, loadBackground, loadInitialScreen, loadXpm,
    loadShipBulletXpm, loadAlienBulletXpm.
  apply wp_bind, wp_modify, wp_bind, wp_gets, wp_bind, wp_modify, wp_bind, wp_modify.
  set (hz := _ ÷ 60). apply wp_bind, wp_bind, wp_loadXpm; [done|done|exact H0|]. intros d1 im Him H1.
  apply wp_malloc, wp_bind, wp_modify, wp_bind, wp_bind, wp_loadXpm; [done|done|exact H1|]. intros d2 ish Hish H2.
  apply wp_malloc, wp_bind, wp_modify, wp_bind, wp_loadXpm; [done|done|exact H2|]. intros d3 bg Hbg H3.
  apply wp_bind, wp_modify, wp_bind, wp_loadXpm; [done|done|exact H3|]. intros d4 si Hsi H4.
  apply wp_bind, wp_modify, wp_bind, wp_loadXpm; [done|done|exact H4|]. intros d5 ai Hai H5.
  apply wp_bind, wp_modify, wp_bind, wp_loadXpm; [done|done|exact H5|]. intros d6 scr Hscr H6.
  apply wp_bind, wp_modify.
  match goal with |- wp _ _ _ _ ?s => change s with (booted d6 hz im ish bg si ai scr) end.
  generalize (eq_refl (booted d6 hz im ish bg si ai scr)). generalize (booted d6 hz im ish bg si ai scr) at 1 3.
  intros s0 Hs0. apply wp_bind. rewrite <- (with_images_same s0). apply wp_initMenuXpm; [by subst s0|]. intros d7 i7 Hm7 H7.
  apply wp_bind, wp_initShipBullets; [by subst s0|]. apply wp_bind, wp_initNumbers; [done|done|]. intros d8 i8 Hi8 H8.
  apply wp_bind, wp_bind, wp_sys, wp_bind, wp_malloc, wp_modify.
  set (g := fst _). set (d9 := snd _).
  apply wp_bind, wp_gets, wp_bind. eapply wp_load; [by subst s0|]. eapply wp_store; [by subst s0|].
  subst s0. split; [|split; [exact Hscr|split; [|by apply HP]]].
  2:{ destruct Him as (_ & Hw & Hh). transitivity ((new_game (i32 (sys_hz d))) <| g_size := (width im, height im) |>); [reflexivity|by rewrite Hw, Hh]. }
  refine (conj Hi8 (conj (conj Hbg (conj Hai Hsi)) (conj _ (conj _ (conj _ (conj _ (conj _ (conj eq_refl (conj _ (conj eq_refl _)))))))))).
  - exists 0%nat, (MkMouse 50 700 im false). destruct Him as (Hi & Hw & Hh). split; [done|]. split; [done|].
    split; [|done]. unfold pointer_ok. cbn [mouse_x mouse_y mouse_img]. rewrite Hw, Hh. cbn. unfold X_RES, Y_RES. lia.
  - split; [apply heap_alloc_wf, empty_heap_wf|]. exists 0%nat, (MkShip 512 SHIP_YPOS 15 ish NUMLIVES 0).
    split; [done|]. split; [done|]. split; [|done]. destruct Hish as (Hi & Hw & Hh).
    split; [done|]. unfold ship_in_range. cbn [ship_img ship_x ship_y ship_speed ship_lives].
    rewrite Hw. cbn. unfold X_MIN, X_MAX, NUMLIVES. lia.
  - eexists 0%nat, _. split; [done|]. split; [reflexivity|]. intros Hab. discriminate Hab.
  - apply quiet_volley; [done|apply empty_heap_wf].
  - repeat split; try done; cbn; try lia. by repeat constructor.
  - done.
  - intros Hp. discriminate Hp.
Qed.

End objects.

(** ** The devices *)

(** What the set-up has to keep: the invariant, less the screen before it is set up. *)
Definition staged (g : game) s : Prop := world s /\ pic 1024 768 (initialScreen (loc s)) /\ view s = g.

Definition started (g : game) s : Prop := ready s /\ pic 1024 768 (initialScreen (loc s)) /\ view s = g.

(** The mode 0x105 gives the screen of the game. *)
Lemma vg_get_mode_info_ready g s :
  staged g s -> wp True (vg_get_mode_info 0x105) (fun rc s' => rc = 0 -> started g s') nojump s.
Proof using ML.
  intros Hw. apply wp_call, wp_bind, wp_sys. destruct (vbe_get_mode_info 0x105 (dev s)) as [[rc i] d] eqn:Ei.
  cbn [fst snd]. wp_step; [by apply wp_jump|]. unfold ctrue in *.
  assert (rc = 0) as -> by (apply Z.eqb_eq; by destruct (rc =? 0)).
  destruct (mode_105_info _ _ _ Ei) as (HX & HY & HB).
  apply wp_bind, wp_modify, wp_bind, wp_gets. cbn [gfx set_field set_gfx set_dev Xres Yres bitsPerPixel set_Xres set_Yres set_bitsPerPixel set_color_mode].
  rewrite HX, HY, HB. apply wp_bind, wp_sys, wp_bind. wp_step; [done|]. apply wp_bind, wp_sys, wp_bind, wp_modify, wp_bind, wp_modify.
  destruct (fst (vm_map_phys _ _ _)); [|done]. apply wp_bind, wp_ret, wp_ret. intros _.
  split; [split; [|apply Hw]|apply Hw]. exists (Block 786432 ∅), (Block 786432 ∅). repeat split; done.
Qed.

(** The device set-up ends with 1, or succeeds, or stops in a way that is not undefined:
    the kernel refuses to map the video memory, or the mouse never acknowledges. *)
Lemma subscribe_devices_outcome fuel g s :
  staged g s ->
  ends benign (subscribe_devices fuel) (fun _ s' => started g s') (fun c _ => c = CReturn 1) s.
Proof using ML.
  intros Hw. apply ends_bind, ends_bind.
  apply (ends_mono benign benign _ (fun rc s' => rc = 0 -> started g s') _ nojump); [done| |done|].
  - intros rc s1 H1. unfold when. destruct (ctrue rc) eqn:Hrc; [done|]. unfold ctrue in Hrc.
    specialize (H1 ltac:(lia)). apply ends_wp, wp_ret.
    apply (ends_mono benign benign _ (fun _ => started g) _ (fun c s' => c = CReturn 1 /\ started g s')); [done|done|by intros c s' []|].
    apply (ends_tame _ (fun c => c = CReturn 1)); [tame|done].
  - apply ends_split; [by apply vg_get_mode_info_ready|tame].
Qed.

(** ** The first screens *)
Lemma splash_ready g s :
  started g s -> wp False splash (fun _ s' => ready s' /\ view s' = g) nojump s.
Proof.
  intros (Hr & Hp & Hg). apply wp_bind, wp_gets, wp_bind, wp_drawBackground; [apply Hr|done|]. intros s1 He1.
  pose proof (ready_env _ _ He1 Hr) as Hr1. apply wp_bind, wp_displayScreen; [apply Hr1|]. intros s2 He2.
  pose proof (ready_env _ _ He2 Hr1) as Hr2. apply wp_bind. unfold sys_, wp at 1.
  set (s3 := s2 <| dev := _ |>). assert (ready s3) as Hr3 by exact Hr2.
  apply wp_show_menu; [done|]. intros s' He'. split; [by apply (ready_env s3)|].
  rewrite (view_env _ _ He'). change (view s3) with (view s2). by rewrite (view_env _ _ He2), (view_env _ _ He1).
Qed.

(** The whole set-up. *)
Lemma set_up_ends fuel d :
  ends benign (create_objects ;; subscribe_devices fuel ;; splash) (fun _ s => ready s /\ view s = new_game (i32 (sys_hz d)))
    (fun c _ => c = CReturn 1) (init_state d).
Proof using XL ML.
  apply ends_bind. eapply (ends_mono benign _ _ _ _ nojump); [done| |done|apply ends_wp, (create_objects_world (fun _ => True)); done].
  intros _ s1 (Hw & Hi & Hg & _). apply ends_bind.
  apply (ends_mono benign benign _ (fun _ => started (new_game (i32 (sys_hz d)))) _ (fun c _ => c = CReturn 1)); [done| |done|by apply subscribe_devices_outcome].
  intros _ s2 Hs2. eapply (ends_mono benign _ _ _ _ nojump); [done| |done|by apply ends_wp, splash_ready]. done.
Qed.

Lemma set_up_exec fuel d :
  exists s1, create_objects (init_state d) = Ok tt s1 /\ world s1 /\
    match subscribe_devices fuel s1 with
    | Ok _ s2 => exists s3, splash s2 = Ok tt s3 /\ ready s3 /\ view s3 = new_game (i32 (sys_hz d))
    | Jump c _ => c = CReturn 1
    | Fault f => f = OutOfFuel \/ f = Panic
    end.
Proof using XL ML.
  destruct (wp_exec _ _ _ (create_objects_world (fun _ => True) ltac:(done) d ltac:(done)))
    as ([] & s1 & He & Hw & Hi & Hg & _).
  exists s1. split; [done|]. split; [done|].
  pose proof (subscribe_devices_outcome fuel _ s1 (conj Hw (conj Hi Hg))) as Hsub. unfold ends in Hsub.
  destruct (subscribe_devices fuel s1) as [[] s2|c s2|f]; [|done|done].
  destruct (wp_exec _ _ _ (splash_ready _ s2 Hsub)) as ([] & s3 & He3 & Hr3). eauto.
Qed.

(** C6: set-up.  From the initial state of the program, [create_objects] succeeds; the device
    set-up that follows establishes, with the first screens drawn and the menu shown, the
    invariant of the notification loop, or ends the program with 1, or does not end
    because the mouse never acknowledges, or panics because the video memory is refused:
    nothing in it is undefined. *)
Theorem set_up_correct fuel d :
  exists s1, create_objects (init_state d) = Ok tt s1 /\ world s1 /\
    match subscribe_devices fuel s1 with
    | Ok _ s2 => exists s3, splash s2 = Ok tt s3 /\ ready s3 /\ gameState s3 = MENU_DISPLAY
    | Jump c _ => c = CReturn 1
    | Fault f => f = OutOfFuel \/ f = Panic
    end.
Proof using XL ML.
  destruct (set_up_exec fuel d) as (s1 & H1 & Hw & Hs). exists s1. split; [done|]. split; [done|].
  destruct (subscribe_devices fuel s1); [|done|done]. destruct Hs as (s3 & H3 & Hr & Hv). exists s3. do 2 (split; [done|]).
  exact (f_equal g_mode Hv).
Qed.

End setup.

(** ** A run of the set-up *)

(** The mode 0x105 is available, the mouse acknowledges, the clock answers. *)
Definition boot_script : script := (ports [0; 0; ACK; 2]) <| vbe_modes := [(0x105, mode_105)] |>.

Lemma boot_subscribes s1 : dev s1 = boot_script -> exists s2, subscribe_devices 5 s1 = Ok tt s2.
Proof. destruct s1 as [d]. intros Hd. change (d = boot_script) in Hd. subst. lazy. eexists. reflexivity. Qed.

Lemma boot_objects s1 : create_objects (init_state boot_script) = Ok tt s1 -> dev s1 = boot_script.
Proof.
  intros He. assert (stable (eq boot_script)) as Hst by (split; intros; subst; reflexivity).
  destruct (wp_ok _ _ _ _ _ _ _ (create_objects_world (eq boot_script) Hst boot_script eq_refl) He) as (_ & _ & _ & Hd).
  exact (eq_sym Hd).
Qed.

Lemma set_up_correct_witness :
  exists s1 s2 s3, create_objects (init_state boot_script) = Ok tt s1 /\ subscribe_devices 5 s1 = Ok tt s2 /\
    splash s2 = Ok tt s3 /\ ready s3 /\ gameState s3 = MENU_DISPLAY.
Proof.
  destruct (set_up_correct 5 boot_script) as (s1 & H1 & _ & Hs).
  destruct (boot_subscribes s1 (boot_objects s1 H1)) as [s2 H2]. rewrite H2 in Hs. destruct Hs as (s3 & H3 & Hr).
  exists s1, s2, s3. split; [exact H1|]. split; [exact H2|]. split; [exact H3|exact Hr].
Defined.

