(* ===== verification/GameSession.v ===== *)
(** * Sessions: from the set-up through the notification loop

    The events that a notification delivers, that every notification whose events do not
    remove the shot is handled without a fault, preserves [ready] and changes the view of the
    state as the abstract game changes on these events; how the loop ends, and the outcome of [game_loop]. *)

From S2P Require Import Prelude CMonad Heap Memory Lcf Minix Frame Macros ProjState Graphics GraphicsFacts Timer.
From S2P Require Import Keyboard MouseDriver Rtc Ship Aliens ShipBullets ShipBulletFacts AlienBullets.
From S2P Require Import AlienBulletFacts Menu Screen Volley GameSpec GamePlay Game GameFrame GameFuel GameScore GameSafe GameTick.
From S2P Require Import GameRules GameSetup.
From stdpp Require Import options.

Section session.
Context {D : Type} `{K : Kernel D} {XL : XpmLaws D} {RL : RandLaws D}.
Implicit Types s : state D.

(** ** The events of a notification *)

(** An interrupt line: if it is set, its events come first, and a jump out of its handler hides the others. *)
Definition line_events (set : bool) (e : state D -> list event) (handler : M (state D) unit) (rest : state D -> list event) s : list event :=
  if set then e s ++ match handler s with Ok _ s' => rest s' | _ => [] end else rest s.

Definition hardware_events (fuel : nat) (ints : Z) s : list event :=
  line_events (irq_pending ints (mouse_bit_no (loc s))) mouse_events mouse_interrupt (fun s1 =>
  line_events (irq_pending ints (kbd_bit_no (loc s1))) key_events keyboard_interrupt (fun s2 =>
  line_events (irq_pending ints (timer_bit_no (loc s2))) (tick_events fuel) (timer_interrupt fuel) (fun _ => []) s2) s1) s.

(** What the player and the timer do in the notification that arrives in [s]. *)
Definition notification_events (fuel : nat) s : list event :=
  match (displayScreen ;; sys dev driver_receive) s with
  | Ok (r, msg, notify) s1 =>
      if ctrue r then [] else if notify then (if m_source_p msg =? HARDWARE then hardware_events fuel (m_interrupts msg) s1 else []) else []
  | _ => []
  end.

Definition leaves_switch (c : ctl) : Prop := c = CContinue \/ c = CBreak.

Lemma served_trans es es' s1 s2 s3 : served es s1 s2 -> served es' s2 s3 -> served (es ++ es') s1 s3.
Proof. intros [_ H1] [Hr H2]. split; [done|]. by eapply heard_trans. Qed.

Lemma wp_line set e handler rest (m : M (state D) unit) s :
  ready s -> removal (line_events set e handler rest s) (view s) = false ->
  (removal (e s) (view s) = false ->
     wp False handler (fun _ s' => served (e s) s s') (fun c s' => leaves_switch c /\ served (e s) s s') s) ->
  (forall s1, ready s1 -> removal (rest s1) (view s1) = false ->
     wp False m (fun _ s' => served (rest s1) s1 s') (fun c s' => leaves_switch c /\ served (rest s1) s1 s') s1) ->
  wp False (when set handler ;; m) (fun _ s' => served (line_events set e handler rest s) s s')
    (fun c s' => leaves_switch c /\ served (line_events set e handler rest s) s s') s.
Proof.
  intros Hr Hrem Hh Hm. apply wp_bind. unfold line_events in *. destruct set; cbn [when] in *; [|by apply wp_ret, Hm].
  rewrite removal_app in Hrem. apply orb_false_elim in Hrem as [He Hrest]. specialize (Hh He).
  unfold wp in Hh. unfold wp at 1. destruct (handler s) as [[] s1|c s1|f]; [| |done].
  - destruct Hh as [Hr1 Hv1]. rewrite <- Hv1 in Hrest.
    eapply wp_conseq; [by apply Hm|intros [] s2 H2|intros c s2 [Hc H2]; split; [done|]]; by eapply served_trans.
  - rewrite app_nil_r. done.
Qed.

Lemma hardware_heard fuel ints s :
  (0 < fuel)%nat -> ready s -> removal (hardware_events fuel ints s) (view s) = false ->
  wp False (hardware_interrupt fuel ints) (fun _ s' => served (hardware_events fuel ints s) s s')
    (fun c s' => leaves_switch c /\ served (hardware_events fuel ints s) s s') s.
Proof using XL RL.
  intros Hf Hr Hn. apply wp_bind, wp_gets, wp_line; [done|done| |].
  { intros _. eapply wp_conseq; [by apply mouse_heard|done|]. intros c s' [-> Hs']. split; [by left|done]. }
  intros s1 Hr1 H1. apply wp_bind, wp_gets, wp_line; [done|done| |].
  { intros _. eapply wp_conseq; [by apply keyboard_heard|done|]. intros c s' [-> Hs']. split; [by left|done]. }
  intros s2 Hr2 H2. apply wp_bind, wp_gets, wp_line; [done|done| |].
  { intros Ht. eapply wp_conseq; [by apply timer_heard|done|]. intros c s' [-> Hs']. split; [by right|done]. }
  intros s3 Hr3 _. apply wp_jump. split; [by right|]. by split.
Qed.

(** Up to the interrupts nothing happens to the game. *)
Lemma wp_receive {A} E (k : Z * message * bool -> M (state D) A) Q J s :
  ready s ->
  (forall r msg notify s1, (displayScreen ;; sys dev driver_receive) s = Ok (r, msg, notify) s1 -> ready s1 -> view s1 = view s ->
     wp E (k (r, msg, notify)) Q J s1) ->
  wp E (displayScreen ;; x <- sys dev driver_receive ;; k x) Q J s.
Proof.
  intros Hr Hk. apply wp_bind.
  apply (wp_mono False E _ (fun a s1 => displayScreen s = Ok a s1 /\ env s s1) _ nojump); [done| |done|].
  2:{ apply wp_remember, wp_displayScreen; [apply Hr|done]. }
  intros [] s1 [Hd He1]. apply wp_bind, wp_sys. set (s2 := s1 <| dev := _ |>).
  destruct (fst _) as [[r msg] notify] eqn:Hrec. apply Hk.
  - unfold bind, sys. rewrite Hd. destruct (driver_receive (dev s1)) as [x d] eqn:Ed. cbn [fst snd] in *. by subst.
  - apply (ready_env s1); [|by apply (ready_env s)]. apply env_dev. by destruct He1.
  - by rewrite <- (view_env _ _ He1).
Qed.

Lemma loop_body_heard fuel s :
  (0 < fuel)%nat -> ready s -> removal (notification_events fuel s) (view s) = false ->
  wp False (loop_body fuel) (fun _ s' => served (notification_events fuel s) s s')
    (fun c s' => c = CContinue /\ served (notification_events fuel s) s s') s.
Proof using XL RL.
  intros Hf Hr Hn. apply wp_receive; [done|]. intros r msg notify s1 Hin Hr1 Hv1.
  unfold notification_events in *. rewrite Hin in *. unfold served, heard. rewrite <- Hv1 in *.
  wp_step; [by apply wp_jump|]. wp_step; [|by apply wp_ret]. apply wp_switch. wp_step.
  - eapply wp_conseq; [by apply hardware_heard|done|]. intros [] s3 [[?|?] ?]; done.
  - by apply wp_jump.
Qed.

Lemma loop_body_ready fuel s :
  (0 < fuel)%nat -> ready s -> removal (notification_events fuel s) (view s) = false ->
  wp False (loop_body fuel) (fun _ s' => ready s') (fun c s' => c = CContinue /\ ready s') s.
Proof using XL RL.
  intros Hf Hr Hn. eapply wp_conseq; [by apply loop_body_heard|by intros _ s' []|]. by intros c s' [-> []].
Qed.

Lemma notification_heard fuel s s' :
  (0 < fuel)%nat -> ready s -> removal (notification_events fuel s) (view s) = false -> handled fuel s s' ->
  served (notification_events fuel s) s s'.
Proof using XL RL.
  intros Hf Hr Hc Hh. revert Hr Hc. destruct Hh as [s1 s2 _ Hstep]. intros Hr Hc. pose proof (loop_body_heard fuel s1 Hf Hr Hc) as Hwp.
  unfold wp in Hwp. destruct Hstep as [He|He]; rewrite He in Hwp; [done|by destruct Hwp].
Qed.

(** One event of each interrupt at most, in the order in which the loop looks at them. *)
Lemma notification_in_order fuel s : in_order (notification_events fuel s).
Proof.
  assert (in_order []) as Hnil by (exists [], [], []; split; [done|]; auto).
  assert (forall s', mouse_events s' = [] \/ exists b, mouse_events s' = [MouseByte b]) as Hm.
  { intros s'. unfold mouse_events. destruct (mouse_ih s') as [? s1| |]; [|by left..]. destruct (ctrue _); [by left|right; by eexists]. }
  assert (forall s', key_events s' = [] \/ exists c, key_events s' = [KeyByte c]) as Hk.
  { intros s'. unfold key_events. destruct (kbc_ih s') as [? s1| |]; [right; by eexists|by left..]. }
  assert (forall s', exists i, tick_events fuel s' = [Tick i]) as Ht.
  { intros s'. unfold tick_events. destruct ((_ ;; _) s'); by eexists. }
  assert (forall b s', let es := line_events b (tick_events fuel) (timer_interrupt fuel) (fun _ => []) s' in es = [] \/ exists i, es = [Tick i]) as Ht'.
  { intros b s'. unfold line_events. destruct b; [|by left]. right. destruct (Ht s') as [i ->]. exists i. by destruct (timer_interrupt fuel s'). }
  unfold notification_events. destruct ((_ ;; _) s) as [[[r msg] n] s1| |]; [|done..]. repeat ifcase; try done.
  unfold hardware_events. set (ints := m_interrupts msg).
  assert (forall b s', exists k t, line_events b key_events keyboard_interrupt (fun s2 =>
    line_events (irq_pending ints (timer_bit_no (loc s2))) (tick_events fuel) (timer_interrupt fuel) (fun _ => []) s2) s' = k ++ t /\
    (k = [] \/ exists c, k = [KeyByte c]) /\ (t = [] \/ exists i, t = [Tick i])) as Hkt.
  { intros b s'. unfold line_events at 1. destruct b.
    - exists (key_events s'). destruct (keyboard_interrupt s') as [? s2| |]; eexists; (split; [done|]; split; [apply Hk|]); [apply Ht'|by left..].
    - exists []. eexists. split; [done|]. split; [by left|apply Ht']. }
  unfold line_events at 1. destruct (irq_pending _ _).
  - exists (mouse_events s1). destruct (mouse_interrupt s1) as [? s2| |].
    + destruct (Hkt (irq_pending ints (kbd_bit_no (loc s2))) s2) as (k & t & -> & H1 & H2). exists k, t. by repeat split.
    + exists [], []. split; [done|]. auto.
    + exists [], []. split; [done|]. auto.
  - destruct (Hkt (irq_pending ints (kbd_bit_no (loc s1))) s1) as (k & t & -> & H1 & H2). exists [], k, t. repeat split; auto.
Qed.

(** ** Outside play *)

Lemma quiet_menu fuel s : quiet s -> gameState s <> PLAYING -> removal (notification_events fuel s) (view s) = false.
Proof.
  intros Hq Hg. apply removal_menu; [apply notification_in_order|done|]. change (g_shot (view s)) with (shot_of s).
  unfold shot_of. by rewrite Hq.
Qed.

(** ** Sessions and their events *)

(** A session, its events, and a property [P] of all its states between notifications. *)
Inductive session (P : state D -> Prop) (fuel : nat) : state D -> list event -> state D -> Prop :=
| session_nil s : P s -> session P fuel s [] s
| session_cons s1 s2 s3 es : P s1 -> handled fuel s1 s2 -> session P fuel s2 es s3 ->
    session P fuel s1 (notification_events fuel s1 ++ es) s3.

Lemma session_app P fuel s1 es s2 es' s3 : session P fuel s1 es s2 -> session P fuel s2 es' s3 -> session P fuel s1 (es ++ es') s3.
Proof.
  intros H1 H2. induction H1 as [s Hp|s s' s'' es Hp Hh _ IH]; [done|]. rewrite <- app_assoc. eapply session_cons; eauto.
Qed.

Lemma session_last P fuel s es s' : session P fuel s es s' -> P s'.
Proof. by induction 1. Qed.

Lemma session_mono (P Q : state D -> Prop) fuel s es s' : (forall t, P t -> Q t) -> session P fuel s es s' -> session Q fuel s es s'.
Proof. intros HPQ. induction 1; [apply session_nil|eapply session_cons]; eauto. Qed.

(** ** The end of the program *)

(** The mouse, the ship and the aliens' bullet of [s] are no longer allocated in [s']. *)
Definition released s s' : Prop :=
  deref (mice s') (mouse (loc s)) = None /\ deref (ships s') (ship (loc s)) = None /\
  deref (alien_bullets s') (alienBullet s) = None /\ alienBullet s' = NULL.

Lemma tear_down_ends fuel s :
  ready s ->
  ends benign (tear_down fuel) (fun _ s' => released s s' /\ gameState s' = gameState s) (fun c s' => c = CReturn 1) s.
Proof.
  intros [_ (_ & _ & (p & m & Hp & Hm & _) & (_ & q & sh & Hq & Hsh & _) & (l & b & Hl & Hb & _) & _)].
  apply ends_bind, ends_wp, wp_gets, ends_bind, ends_wp. rewrite Hp. eapply wp_free; [exact Hm|].
  apply ends_bind, ends_wp, wp_gets, ends_bind, ends_wp. get_set. rewrite Hq. eapply wp_free; [exact Hsh|].
  apply ends_bind, ends_wp, wp_vcall, wp_bind, wp_gets. get_set. rewrite Hl. apply wp_bind. eapply wp_free; [exact Hb|].
  apply wp_modify. set (s1 := _ <| alienBullet := NULL |>).
  set (I s' := released s s' /\ gameState s' = gameState s).
  assert (I s1) as Hs1.
  { split; [|done]. unfold released. rewrite Hp, Hq, Hl. split; [apply lookup_delete_eq|]. split; [apply lookup_delete_eq|].
    split; [apply lookup_delete_eq|done]. }
  apply (ends_mono benign benign _ (fun _ => I) _ (fun c s' => c = CReturn 1 /\ I s')); [done|done|by intros c s' []|].
  apply (ends_tame _ (fun c => c = CReturn 1)); [tame|done].
Qed.

(** After some events of the session, the next notification removes the shot. *)
Definition removal_ahead (fuel : nat) s0 : Prop :=
  exists es s, session (fun _ => True) fuel s0 es s /\ running s = true /\ removal es (view s0) = false /\
    removal (notification_events fuel s) (view s) = true.

Lemma removal_ahead_step fuel s s' :
  handled fuel s s' -> served (notification_events fuel s) s s' -> removal (notification_events fuel s) (view s) = false ->
  removal_ahead fuel s' -> removal_ahead fuel s.
Proof.
  intros Hh [_ Hv] Hn (es & s2 & Hs & Hrun & Hes & Hrem). exists (notification_events fuel s ++ es), s2.
  split; [by eapply session_cons|]. split; [done|]. split; [|done]. rewrite removal_app, Hn. cbn [orb]. by rewrite <- Hv.
Qed.

(** The notification loop, from a state in which the invariant holds. *)
Lemma notification_loop_ends fuel n s :
  (0 < fuel)%nat -> ready s ->
  removal_ahead fuel s \/ ends benign (notification_loop fuel n) (fun _ s' => ready s' /\ gameState s' = EXIT) nojump s.
Proof using XL RL.
  intros Hf. revert s. induction n as [|n IH]; intros s Hr; unfold ends, notification_loop; cbn [while_]; destruct (running s) eqn:Hrun.
  all: try (right; split; [done|]; unfold running, is_state in Hrun; by destruct (gameState s)).
  { right. by left. }
  destruct (removal (notification_events fuel s) (view s)) eqn:Hrem.
  { left. exists [], s. by repeat split; [apply session_nil|..]. }
  pose proof (loop_body_heard fuel s Hf Hr Hrem) as Hwp. unfold wp in Hwp.
  assert (forall s', loop_body fuel s = Ok tt s' \/ loop_body fuel s = Jump CContinue s' -> served (notification_events fuel s) s s' ->
    removal_ahead fuel s \/ ends benign (notification_loop fuel n) (fun _ s' => ready s' /\ gameState s' = EXIT) nojump s') as Hnext.
  { intros s' He Hs'. destruct (IH s') as [Ha|Hends]; [apply Hs'| |by right]. left. apply (removal_ahead_step fuel s s'); [by constructor|done..]. }
  destruct (loop_body fuel s) as [[] s'|c s'|f]; [by apply Hnext; [left|]| |done]. destruct Hwp as [-> Hs']. by apply Hnext; [right|].
Qed.

End session.

Section program.
Context {D : Type} `{K : Kernel D} {XL : XpmLaws D} {RL : RandLaws D} {ML : Mode105 D}.
Implicit Types s : state D.

Lemma game_loop_split fuel n s :
  game_loop fuel n s =
  call ((create_objects ;; subscribe_devices fuel ;; splash) ;; notification_loop fuel n ;; tear_down fuel ;; ret 0) s.
Proof.
  unfold game_loop, call, bind. destruct (create_objects s) as [[] s1| |]; [|done|done].
  destruct (subscribe_devices fuel s1) as [[] s2| |]; [|done|done]. by destruct (splash s2).
Qed.

(** [s] is a state of the notification loop when the program is run on the system [d] and the events [es] have happened. *)
Definition reached (fuel : nat) (d : D) (es : list event) s : Prop :=
  exists s0, (create_objects ;; subscribe_devices fuel ;; splash) (init_state d) = Ok tt s0 /\ session (fun _ => True) fuel s0 es s.

Lemma set_up_state fuel d s0 :
  (create_objects ;; subscribe_devices fuel ;; splash) (init_state d) = Ok tt s0 -> ready s0 /\ view s0 = new_game (i32 (sys_hz d)).
Proof using XL ML. intros He. pose proof (set_up_ends fuel d) as Hset. unfold ends in Hset. by rewrite He in Hset. Qed.

(** The first notification of a run that removes a shot of the ship. *)
Definition first_removal (fuel : nat) (d : D) (es : list event) s : Prop :=
  reached fuel d es s /\ running s = true /\ removal es (new_game (i32 (sys_hz d))) = false /\
  removal (notification_events fuel s) (view s) = true.

(** C1: the whole program.  Started in the initial state the program either comes to a notification that removes a shot of
    the ship (which [removal_is_undefined] describes), or it has no undefined behaviour: it returns 0 after the exit
    was chosen, with the objects of the game released; or it returns 1 because a device
    refused; or the fuel was not enough for the session or the mouse; or it panics because
    the video memory was refused. *)
Theorem game_loop_outcome fuel n d :
  (0 < fuel)%nat ->
  (exists es s, first_removal fuel d es s) \/
  match game_loop fuel n (init_state d) with
  | Ok r s' => r = 1 \/ r = 0 /\ exists s, ready s /\ gameState s = EXIT /\ released s s'
  | Jump _ _ => False
  | Fault f => f = OutOfFuel \/ f = Panic
  end.
Proof using XL RL ML.
  intros Hf. rewrite game_loop_split.
  change ((exists es s, first_removal fuel d es s) \/
    ends benign (call ((create_objects ;; subscribe_devices fuel ;; splash) ;; notification_loop fuel n ;; tear_down fuel ;; ret 0))
    (fun r s' => r = 1 \/ r = 0 /\ exists s, ready s /\ gameState s = EXIT /\ released s s') nojump (init_state d)).
  unfold first_removal, reached. pose proof (set_up_ends fuel d) as Hset. pose proof (set_up_state fuel d) as Hst.
  set (set_up := create_objects ;; _) in *. unfold ends in Hset.
  destruct (set_up (init_state d)) as [[] s0|c s0|f] eqn:He.
  - destruct Hset as [Hr Hv]. destruct (notification_loop_ends fuel n s0 Hf Hr) as [(es & s & Hs & Hrun & Hes & Hrem)|Hends].
    { left. exists es, s. split; [by exists s0|]. split; [done|]. by rewrite <- Hv. }
    right. apply ends_call, ends_bind. unfold ends at 1. rewrite He. apply ends_bind.
    apply (ends_mono benign benign _ (fun _ s => ready s /\ gameState s = EXIT) _ nojump); [done| |done|exact Hends].
    intros _ s1 (Hs1 & Hg). apply ends_bind.
    apply (ends_mono benign benign _ (fun _ s' => released s1 s' /\ gameState s' = gameState s1) _ (fun c _ => c = CReturn 1));
      [done| |intros c s' ->; by left|by apply tear_down_ends].
    intros _ s2 [Hs2 _]. apply ends_wp, wp_ret. right. split; [done|]. by exists s1.
  - right. apply ends_call, ends_bind. unfold ends at 1. rewrite He. subst c. by left.
  - right. apply ends_call, ends_bind. unfold ends at 1. by rewrite He.
Qed.

End program.

(** ** Sessions on a scripted system *)

(** The devices work.  After the set-up the ports yield [q] and the notifications are [l]. *)
Definition session_rest (q : list Z) (l : list message) : script :=
  (ports q) <| port_out := [(113, 66); (112, 17); (112, 17); (96, 244); (100, 212)] |>
    <| inbox := l |> <| vbe_modes := [(0x105, mode_105)] |>.

Definition session_script (q : list Z) (l : list message) : script :=
  (session_rest q l) <| port_in := [0; 0; ACK; 2] ++ q |> <| port_out := [] |>.

(** The lines of the devices, and no error of the mouse. *)
Definition plugged (q : list Z) (l : list message) (s : state script) : Prop :=
  dev s = session_rest q l /\ mouse_bit_no (loc s) = 12 /\ kbd_bit_no (loc s) = 1 /\ timer_bit_no (loc s) = 0 /\ ih_error s = 0.

Definition session_ready (q : list Z) (l : list message) (s : state script) : Prop := quiet s /\ plugged q l s.

(** What the set-up of the objects leaves as it was. *)
Definition unplugged (s : state script) : Prop :=
  quiet s /\ mouse_hookid s = 12 /\ kbd_hookid s = 1 /\ timer_hookid s = 0 /\ ih_error s = 0.

Lemma session_subscribes q l s1 :
  dev s1 = session_script q l -> unplugged s1 -> exists s2, subscribe_devices 5 s1 = Ok tt s2 /\ session_ready q l s2.
Proof.
  destruct s1 as [d]. unfold unplugged. cbn. intros -> (Hq & -> & -> & -> & ->). lazy in Hq. lazy. eexists. split; [reflexivity|]. lazy.
  split; [exact Hq|]. split; [reflexivity|]. done.
Qed.

Lemma session_objects q l s1 :
  create_objects (init_state (session_script q l)) = Ok tt s1 -> dev s1 = session_script q l /\ unplugged s1.
Proof.
  intros He. assert (stable (eq (session_script q l))) as Hst by (split; intros; subst; reflexivity).
  destruct (wp_ok _ _ _ _ _ _ _ (create_objects_world (eq (session_script q l)) Hst (session_script q l) eq_refl) He) as (_ & _ & _ & Hd).
  split; [done|].
  assert (keeps unplugged (initShipBullets (D := script))) as Hi.
  { apply wp_keeps. intros s Hs. apply wp_initShipBullets; [apply Hs|exact Hs]. }
  assert (keeps unplugged (create_objects (D := script))) as Hk by (unfold create_objects; tame).
  refine (tame_ok any_fault any_jump unplugged create_objects tt (init_state (session_script q l)) s1 Hk _ He). by repeat split.
Qed.

Lemma session_splash q l : keeps (session_ready q l) (splash (D := script)).
Proof.
  assert (keeps (session_ready q l) (sys_ (dev (D := script)) (sleep 4))) as Hsleep by (intros s Hs; exact Hs).
  unfold splash, session_ready, plugged in *. tame. exact Hsleep.
Qed.

Lemma session_boot q l :
  exists s0, (create_objects ;; subscribe_devices 5 ;; splash) (init_state (session_script q l)) = Ok tt s0 /\
    ready s0 /\ view s0 = new_game 60 /\ session_ready q l s0.
Proof.
  destruct (set_up_exec 5 (session_script q l)) as (s1 & H1 & _ & Hs). destruct (session_objects q l s1 H1) as (Hd & Hu).
  destruct (session_subscribes q l s1 Hd Hu) as (s2 & H2 & Hr2). rewrite H2 in Hs. destruct Hs as (s3 & H3 & Hr & Hg).
  exists s3. split; [unfold bind; by rewrite H1, H2|]. split; [exact Hr|]. split; [exact Hg|].
  exact (tame_ok any_fault any_jump (session_ready q l) _ _ _ _ (session_splash q l) Hr2 H3).
Qed.

(** The first notification is the release of the escape key. *)
Definition escape_bytes : list Z := [1; ESC_BREAK; 2; 0; 0; ACK].

Definition escape_key : list message := [Message HARDWARE (BIT 1)].

(** What is left of the script when the game ends. *)
Definition session_end : script := session_rest [2; 0; 0; ACK] [].

Lemma session_escape s :
  ready s -> session_ready escape_bytes escape_key s ->
  exists s', loop_body 5 s = Jump CContinue s' /\ gameState s' = EXIT /\ dev s' = session_end.
Proof.
  intros [Hs _] (_ & Hd & Hm & Hk & _ & _).
  destruct (loop_body_escape (K := script_kernel) 5 (Message HARDWARE (BIT 1)) (session_rest escape_bytes [])
    session_end s Hs) as (g & bs & He).
  - by rewrite Hd.
  - done.
  - by rewrite Hm.
  - by rewrite Hk.
  - by apply (delivers_script 1 ESC_BREAK [2; 0; 0; ACK] (session_rest escape_bytes [])).
  - eexists. split; [exact He|done].
Qed.

Lemma session_tear_down s : ready s -> dev s = session_end -> exists s', tear_down 5 s = Ok tt s'.
Proof.
  intros [_ (_ & _ & (p & m & Hp & Hm & _) & (_ & q & sh & Hq & Hsh & _) & (l & b & Hl & Hb & _) & _)] Hd.
  destruct (wp_exec (tear_down 5) (fun _ _ => True) s) as ([] & s' & He & _); [|by exists s'].
  apply wp_bind, wp_gets, wp_bind. rewrite Hp. eapply wp_free; [exact Hm|].
  apply wp_bind, wp_gets, wp_bind. get_set. rewrite Hq. eapply wp_free; [exact Hsh|].
  apply wp_bind, wp_vcall, wp_bind, wp_gets. get_set. rewrite Hl. apply wp_bind. eapply wp_free; [exact Hb|].
  apply wp_modify. set (s1 := _ <| alienBullet := NULL |>). change (dev s) with (dev s1) in Hd. clearbody s1. clear -Hd.
  destruct s1 as [d]. cbn in Hd. subst d. lazy. exact I.
Qed.

(** The only state of this session in which the loop runs is the first one. *)
Lemma session_runs s0 es s :
  ready s0 -> session_ready escape_bytes escape_key s0 -> session (fun _ => True) 5 s0 es s -> running s = true -> s = s0.
Proof.
  intros Hr Hs Hrun Hrn. destruct Hrun as [|s0 s1 s2 es _ [? s1' _ Hstep] Hrest]; [done|].
  destruct (session_escape _ Hr Hs) as (s' & He & Hg & _). rewrite He in Hstep. destruct Hstep as [|[= ->]]; [done|].
  assert (running s1' = false) as Hn by (unfold running; by rewrite Hg).
  destruct Hrest as [|? ? ? ? _ [? ? Hrn' _] _]; congruence.
Qed.

Lemma session_returns : exists s, game_loop 5 2 (init_state (session_script escape_bytes escape_key)) = Ok 0 s.
Proof.
  destruct (session_boot escape_bytes escape_key) as (s0 & He & Hr & Hv & Hs). pose proof (f_equal g_mode Hv : gameState s0 = MENU_DISPLAY) as Hg. destruct (session_escape s0 Hr Hs) as (s1 & H1 & Hx & Hd).
  assert (ready s1) as Hr1.
  { apply (notification_heard 5 s0 s1); [lia|exact Hr| |constructor; [unfold running; by rewrite Hg|by right]].
    apply quiet_menu; [apply Hs|by rewrite Hg]. }
  destruct (session_tear_down s1 Hr1 Hd) as [s2 H2]. exists s2. rewrite game_loop_split.
  revert He. generalize (create_objects (D := script) ;; subscribe_devices 5 ;; splash). intros set_up He.
  unfold call, bind. rewrite He. unfold notification_loop. cbn [while_]. unfold running. rewrite Hg. cbn [is_state negb].
  change (negb (is_state MENU_DISPLAY EXIT)) with true. cbv iota. rewrite H1, Hx.
  change (negb (is_state EXIT EXIT)) with false. cbv iota. by rewrite H2.
Qed.

Lemma game_loop_outcome_witness :
  exists s', game_loop 5 2 (init_state (session_script escape_bytes escape_key)) = Ok 0 s' /\
    exists s, ready s /\ gameState s = EXIT /\ released s s'.
Proof.
  destruct session_returns as [s' Hret]. exists s'. split; [exact Hret|].
  destruct (game_loop_outcome 5 2 (session_script escape_bytes escape_key)) as [(es & s & (s0 & He & Hs) & Hrun & _ & Hrem)|Hout]; [lia| |].
  - exfalso. destruct (session_boot escape_bytes escape_key) as (s0' & He' & Hr & Hv & Hsr). rewrite He in He'. injection He' as <-.
    pose proof (f_equal g_mode Hv : gameState s0 = MENU_DISPLAY) as Hg.
    rewrite (session_runs s0 es s Hr Hsr Hs Hrun), (quiet_menu 5 s0) in Hrem; [discriminate|apply Hsr|rewrite Hg; discriminate].
  - rewrite Hret in Hout. destruct Hout as [H|[_ H]]; [discriminate H|exact H].
Defined.

(** Without the video mode the program returns 1 whatever the fuel. *)
Lemma refused_mode s1 : dev s1 = ports [] -> exists s2, subscribe_devices 0 s1 = Jump (CReturn 1) s2.
Proof. destruct s1 as [d]. cbn. intros ->. lazy. eexists. reflexivity. Qed.

Lemma refused_game : exists s, game_loop 0 0 (init_state (ports [])) = Ok 1 s.
Proof.
  assert (stable (eq (ports []))) as Hst by (split; intros; subst; reflexivity).
  destruct (wp_exec _ _ _ (create_objects_world (eq (ports [])) Hst (ports []) eq_refl)) as ([] & s1 & H1 & _ & _ & _ & Hd).
  destruct (refused_mode s1 (eq_sym Hd)) as [s2 H2]. exists s2. unfold game_loop, call, bind. by rewrite H1, H2.
Qed.

Lemma game_loop_fuel_witness : exists s, game_loop 7 9 (init_state (ports [])) = Ok 1 s.
Proof.
  destruct refused_game as [s Hs]. exists s. rewrite <- Hs.
  apply (game_loop_fuel 0 7 0 9 (init_state (ports []))); [lia|lia|]. rewrite Hs. discriminate.
Defined.
