(* ===== verification/GameRefine.v ===== *)
(** * The program refines the abstract game

    Every notification that the loop handles changes the view of the state as [play]
    changes the abstract game on the events that the notification delivers.  What holds of
    the abstract game therefore holds of the program: the fleet keeps its formation, a
    round ends within a number of ticks, and a shot that hits nothing is in the air for at
    most 22 of them. *)

From S2P Require Import Prelude CMonad Heap Memory Lcf Minix Frame Macros ProjState Graphics GraphicsFacts Timer.
From S2P Require Import Keyboard MouseDriver Rtc Ship Aliens ShipBullets ShipBulletFacts AlienBullets AlienBulletFacts.
From S2P Require Import Menu Screen Volley GameSpec GamePlay Game GameFrame GameFuel GameScore GameSafe GameTick GameRules GameSetup GameSession.
From stdpp Require Import options.

Section refinement.
Context {D : Type} `{K : Kernel D} {XL : XpmLaws D} {RL : RandLaws D}.
Implicit Types s : state D.

(** The events of a session, up to the first removal. *)
Lemma session_heard P fuel s es s' :
  (0 < fuel)%nat -> ready s -> session P fuel s es s' -> removal es (view s) = false -> served es s s'.
Proof using XL RL.
  intros Hf Hr Hs. induction Hs as [s Hp|s1 s2 s3 es Hp Hh Hs IH]; intros Hrem; [by split|].
  rewrite removal_app in Hrem. apply orb_false_elim in Hrem as [H1 H2].
  pose proof (notification_heard fuel s1 s2 Hf Hr H1 Hh) as Hserved. eapply served_trans; [exact Hserved|].
  destruct Hserved as [Hr2 Hv2]. apply IH; [done|]. by rewrite Hv2.
Qed.

Lemma notification_next fuel s :
  (0 < fuel)%nat -> ready s -> removal (notification_events fuel s) (view s) = false ->
  exists s', (loop_body fuel s = Ok tt s' \/ loop_body fuel s = Jump CContinue s') /\ ready s' /\
    view s' = play (notification_events fuel s) (view s).
Proof using XL RL.
  intros Hf Hr Hc. pose proof (loop_body_heard fuel s Hf Hr Hc) as Hwp. unfold wp in Hwp.
  destruct (loop_body fuel s) as [[] s'|c s'|f]; [| |done]; [|destruct Hwp as [-> Hwp]]; exists s'; (split; [by auto|exact Hwp]).
Qed.

(** ** A round *)

Definition playing s : Prop := gameState s = PLAYING.

(** What the events of a round preserve, the sessions of the round preserve. *)
Lemma session_round (R : Z -> game -> Prop) fuel n s es s' :
  (forall e m g, R m g -> g_mode g = PLAYING -> g_mode (react e g) = PLAYING -> R (m + if is_tick e then 1 else 0) (react e g)) ->
  (0 < fuel)%nat -> ready s -> session playing fuel s es s' -> removal es (view s) = false -> R n (view s) ->
  R (n + Z.of_nat (ticks es)) (view s').
Proof using XL RL.
  intros Hstep Hf Hr Hs. revert n. induction Hs as [s Hp|s1 s2 s3 es Hp Hh Hs IH]; intros n Hrem HR; [by rewrite Z.add_0_r|].
  rewrite removal_app in Hrem. apply orb_false_elim in Hrem as [Hc Hrem].
  destruct (notification_heard fuel s1 s2 Hf Hr Hc Hh) as [Hr2 Hv2]. unfold heard in Hv2.
  assert (playing s2) as Hp2 by (by destruct Hs).
  assert (R (n + Z.of_nat (ticks (notification_events fuel s1))) (view s2)) as HR2.
  { rewrite Hv2. apply play_in_order; [done|apply notification_in_order|done|done|]. rewrite <- Hv2. exact Hp2. }
  rewrite ticks_app, Nat2Z.inj_add, Z.add_assoc. apply IH; [done|by rewrite Hv2|done].
Qed.

Lemma shot_height s x y : ready s -> shot_of s = Some (x, y) -> 0 <= y <= 630.
Proof.
  intros [_ (_ & _ & _ & _ & _ & (_ & p & Hps & Hfl) & _)] Ht. unfold shot_of in Ht. rewrite Hps in Ht.
  change (default NULL (head (replicate slots ?q))) with q in Ht. destruct p as [l|]; [|done].
  destruct (Hfl l eq_refl) as (b & Hb & _ & _ & _ & _ & Hby). cbn [deref mbind option_bind] in Ht. rewrite Hb in Ht.
  injection Ht as <- <-. exact Hby.
Qed.

(** C5: a round ends.  Whatever the player does and whichever aliens shoot, a round that has just been started and in
    which no bullet of the ship is removed is over, won by the aliens, in fewer than 8004 frames: at 60 ticks a
    second and one tick per frame, in less than two and a quarter minutes. *)
Theorem round_ends_in_time fuel g s es s' :
  (0 < fuel)%nat -> ready s -> view s = start_round g -> 0 <= timer_counter s ->
  timer_counter s + Z.of_nat (ticks es) < 2 ^ 31 - 1 -> session playing fuel s es s' -> removal es (view s) = false ->
  Z.of_nat (ticks es) < 8004 * Z.max 1 (ipf (loc s)).
Proof using XL RL.
  intros Hf Hr Hv Hc Hlt Hs Hrem. destruct (round_lasts_start g) as (n & Hn & Hle).
  { change (0 <= g_clock (start_round g)). by rewrite <- Hv. }
  rewrite <- Hv in Hn. assert (pace g = Z.max 1 (ipf (loc s))) as Hpace.
  { change (pace g) with (pace (start_round g)). by rewrite <- Hv. }
  pose proof (session_round (fun m g' => timer_counter s + m < 2 ^ 31 - 1 -> round_lasts (n - m) g' /\ g_clock g' <= timer_counter s + m)
    fuel 0 s es s') as H. rewrite Z.add_0_l, Z.add_0_r in H.
  destruct H as [Hend _]; [|done|done|done|done|by rewrite Z.sub_0_r|done|apply round_lasts_pos in Hend; lia].
  intros e m g' HR Hm Hm' Hlt'. destruct HR as [HR Hck]; [destruct (is_tick e); lia|].
  destruct (react_round_lasts e (n - m) g' HR Hm ltac:(destruct (is_tick e); lia) Hm') as (H1 & _ & H2). cbv zeta in *.
  split; [|lia]. by replace (n - (m + if is_tick e then 1 else 0)) with (n - m - if is_tick e then 1 else 0) by lia.
Qed.

(** C29: the life of a shot.  A bullet of the ship in flight climbs 28 pixels at every tick of the round.  A session can
    therefore not contain 23 ticks of play after a shot: before, the bullet has been removed, by an alien or at the top of the
    screen, and the program accesses it after it was freed. *)
Theorem shot_is_removed fuel x y s es s' :
  (0 < fuel)%nat -> ready s -> shot_of s = Some (x, y) -> session playing fuel s es s' ->
  removal es (view s) = false ->
  shot_of s' = Some (x, y - 28 * Z.of_nat (ticks es)) /\ (ticks es <= 22)%nat.
Proof using XL RL.
  intros Hf Hr Hsh Hs Hrem.
  pose proof (session_round (fun m g => g_shot g = Some (x, y - 28 * m)) fuel 0 s es s') as H. rewrite Z.add_0_l in H.
  assert (shot_of s' = Some (x, y - 28 * Z.of_nat (ticks es))) as Hend.
  { apply H; [|done|done|done|done|by rewrite Z.sub_0_r]. intros e m g HR Hm _. rewrite (react_shot e x (y - 28 * m) g Hm HR).
    f_equal. f_equal. destruct (is_tick e); lia. }
  split; [done|]. pose proof (shot_height s x y Hr Hsh). pose proof (shot_height s' _ _ (proj1 (session_heard _ _ _ _ _ Hf Hr Hs Hrem)) Hend). lia.
Qed.

End refinement.

(** ** From the start of the program *)

Section program.
Context {D : Type} `{K : Kernel D} {XL : XpmLaws D} {RL : RandLaws D} {ML : Mode105 D}.
Implicit Types s : state D.

Lemma reached_view fuel d es s :
  (0 < fuel)%nat -> reached fuel d es s -> removal es (new_game (i32 (sys_hz d))) = false ->
  ready s /\ view s = play es (new_game (i32 (sys_hz d))).
Proof using XL RL ML.
  intros Hf (s0 & He & Hs). destruct (set_up_state fuel d s0 He) as [Hr <-]. by apply (session_heard (fun _ => True) fuel).
Qed.

(** C2: the program refines the abstract game.  When the program has been started, and the player and the timer have
    done [es] without a removal of the shot of the abstract game, the view of the state is the abstract game after [es];
    and the next notification, if its events do not remove the shot, is handled without a fault and takes the view to
    the abstract game after them. *)
Theorem program_refines_game fuel d es s :
  (0 < fuel)%nat -> reached fuel d es s -> removal es (new_game (i32 (sys_hz d))) = false ->
  view s = play es (new_game (i32 (sys_hz d))) /\
  (removal (es ++ notification_events fuel s) (new_game (i32 (sys_hz d))) = false ->
   exists s', (loop_body fuel s = Ok tt s' \/ loop_body fuel s = Jump CContinue s') /\
     view s' = play (es ++ notification_events fuel s) (new_game (i32 (sys_hz d)))).
Proof using XL RL ML.
  intros Hf Hs Hrem. destruct (reached_view fuel d es s Hf Hs Hrem) as [Hr Hv]. split; [done|].
  rewrite removal_app, Hrem, play_app, <- Hv. intros Hc.
  destruct (notification_next fuel s Hf Hr Hc) as (s' & He & _ & Hv'). by exists s'.
Qed.

(** C4: the fleet keeps its formation.  In every state of the loop in which a round is being played, the aliens stand in
    the formation in which they started, moved by one offset, between the borders, and above the territory of the ship. *)
Theorem fleet_in_formation fuel d es s :
  (0 < fuel)%nat -> reached fuel d es s -> removal es (new_game (i32 (sys_hz d))) = false -> gameState s = PLAYING ->
  exists dx k, -4 <= dx <= 360 /\ 0 <= k <= 21 /\
    forall i a, aliens s !! i = Some a ->
      alien_x a = 24 + 80 * (Z.of_nat i / ROW_ALIENS) + dx /\
      alien_y a = 20 + 60 * (Z.of_nat i mod ROW_ALIENS) + 20 * k.
Proof using XL RL ML.
  intros Hf Hs Hrem Hg. destruct (reached_view fuel d es s Hf Hs Hrem) as [_ Hv].
  assert (orderly (view s)) as Ho by (rewrite Hv; apply orderly_play; by left).
  destruct Ho as [[_ Hn]|(dx & k & Hl & Hx & _ & Ho)]; [by destruct Hn|]. destruct (Ho Hg) as (_ & _ & Hk).
  exists dx, k. split; [done|]. split; [done|]. intros i a Ha.
  assert ((place_of <$> aliens s) !! i = Some (place_of a)) as Hp by (by rewrite list_lookup_fmap, Ha).
  change (g_fleet (view s)) with (place_of <$> aliens s) in Hl. rewrite Hl in Hp. unfold shifted, formation in Hp.
  rewrite !list_lookup_fmap in Hp. destruct (seqZ 0 SIZE_OF_ALIENS !! i) as [j|] eqn:Hj; [|done].
  apply lookup_seqZ in Hj as [-> _]. injection Hp as Hpx Hpy. rewrite <- Hpx, <- Hpy. rewrite Z.add_0_l. done.
Qed.

(** C8: the objects stay well formed and in their bounds.  In every state of the loop, before an event removes the shot: the
    pointer is an object whose image lies on the screen; the ship is an object in the play field, with 1 to 3 lives; the seven
    slots hold one and the same pointer, and if it is not null, it is a bullet of the ship in flight between the ship and the top of
    the screen; the bullet of the aliens is an object, inside the play field while it is active; the assembly of a
    packet waits for one of its three bytes; and in play every one of the 24 aliens is alive and none is counted as killed. *)
Theorem objects_in_bounds fuel d es s :
  (0 < fuel)%nat -> reached fuel d es s -> removal es (new_game (i32 (sys_hz d))) = false ->
  (exists p m, mouse (loc s) = Some p /\ cells (mice s) !! p = Some m /\
     0 <= mouse_x m <= 1024 - width (mouse_img m) /\ 0 <= mouse_y m <= 768 - height (mouse_img m)) /\
  (exists p sh, ship (loc s) = Some p /\ cells (ships s) !! p = Some sh /\
     30 <= ship_x sh <= 1000 - width (ship_img sh) /\ ship_y sh = 630 /\ 1 <= ship_lives sh <= 3) /\
  (exists p, shipBullets s = replicate 7 p /\ forall l, p = Some l -> exists b, cells (bullets s) !! l = Some b /\
     sb_hitAlien b = false /\ 0 <= sb_x b <= 1024 - width (sb_img b) /\ 0 <= sb_y b <= 630) /\
  (exists l b, alienBullet s = Some l /\ cells (alien_bullets s) !! l = Some b /\
     (ab_active b = true -> 0 <= ab_x b <= 1024 - width (ab_img b) /\ 0 <= ab_y b /\ ab_y b + height (ab_img b) < 720)) /\
  1 <= currentByte (loc s) <= 3 /\ length (mouseBytes (loc s)) = 3%nat /\ Forall in_u8 (mouseBytes (loc s)) /\
  length (aliens s) = 24%nat /\
  (gameState s = PLAYING -> killCount s = 0 /\ speed s = 1 /\ Forall (fun a => alien_alive a = true) (aliens s)).
Proof using XL RL ML.
  intros Hf Hs Hrem. destruct (reached_view fuel d es s Hf Hs Hrem) as [[_ Hw] _].
  destruct Hw as (_ & _ & (p & m & Hp & Hm & Hpo & _) & (_ & q & sh & Hq & Hsh & Hso & _) & (l & b & Hl & Hb & Hab) &
    (_ & bp & Hbp & Hfl) & (_ & Hcb & Hlen & Hb8) & Hal & _ & _ & Hplay).
  split; [|split; [|split; [|split; [|split; [exact Hcb|split; [exact Hlen|split; [exact Hb8|split; [exact Hal|]]]]]]]].
  - exists p, m. destruct Hpo as (_ & _ & Hx & Hy). done.
  - exists q, sh. destruct Hso as (_ & Hr & Hy & _ & Hlv). split; [exact Hq|]. split; [exact Hsh|]. split; [exact Hr|]. by split.
  - exists bp. split; [exact Hbp|]. intros l' Hl'. destruct (Hfl l' Hl') as (c & Hc & Hh & _ & (_ & Hwd & _) & Hx & Hy).
    exists c. rewrite Hwd. split; [exact Hc|]. split; [exact Hh|]. split; [lia|exact Hy].
  - exists l, b. split; [exact Hl|]. split; [exact Hb|]. intros Ha. destruct (Hab Ha) as ((_ & Hwd & Hht) & _ & Hx & Hy). rewrite Hwd, Hht. lia.
  - intros Hg. destruct (Hplay Hg) as (Hsp & Hk & Hfa). split; [exact Hk|]. split; [exact Hsp|].
    eapply Forall_impl; [exact Hfa|]. by intros a [Ha _].
Qed.

End program.

(** ** A session on a scripted system *)

Section scripted.
Implicit Types s : state script.

(** A notification of the device on line [n] arrives in a state with the scripted system. *)
Lemma notification_arrives n q l s :
  ready s -> plugged q (Message HARDWARE (BIT n) :: l) s ->
  exists s1, (displayScreen ;; sys dev driver_receive) s = Ok (0, Message HARDWARE (BIT n), true) s1 /\
    ready s1 /\ view s1 = view s /\ plugged q l s1.
Proof.
  intros Hr (Hd & Hp). destruct (wp_exec displayScreen (fun _ => env s) s) as ([] & s1 & H1 & Henv).
  { apply wp_displayScreen; [apply Hr|done]. }
  exists (s1 <| dev := session_rest q l |>). pose proof (ready_env s s1 Henv Hr) as Hr1. pose proof (view_env s s1 Henv) as Hv1.
  assert (dev s1 = dev s /\ loc s1 = loc s /\ ih_error s1 = ih_error s) as (Hd1 & Hl1 & Hi1).
  { refine (tame_ok any_fault any_jump (fun s' => dev s' = dev s /\ loc s' = loc s /\ ih_error s' = ih_error s) _ _ _ _ _ _ H1); [tame|done]. }
  split; [unfold bind; rewrite H1; unfold sys; by rewrite Hd1, Hd|].
  split; [exact (ready_env s1 _ (env_dev s1 _ (proj1 Hr1)) Hr1)|]. split; [exact Hv1|]. split; [done|]. get_set. by rewrite Hl1, Hi1.
Qed.

(** The rest of the mouse handler does not use the devices of this system. *)
Lemma mouse_plugged b q l s :
  plugged (0x21 :: b :: q) l s -> in_u8 b ->
  mouse_events s = [MouseByte b] /\ wp True mouse_interrupt (fun _ => plugged q l) (fun _ => plugged q l) s.
Proof.
  intros (Hd & Hm & Hk & Ht & Hi) Hb. destruct (mouse_ih_delivers b (session_rest q l) s) as [st Hih].
  { rewrite Hd. by apply (delivers_script 0x21 b q (session_rest _ l)). }
  split; [unfold mouse_events; rewrite Hih; get_set; by rewrite Hi|]. unfold mouse_interrupt. apply wp_bind.
  eapply wp_of_exec; [exact Hih|]. apply keeps_wp; [|done].
  assert (forall m t, keeps (plugged q l) (sys (dev (D := script)) (xpm_load m t))) as Hx by (intros m t s' Hs; exact Hs).
  unfold plugged, mouse_packet, mouse_in_menu, mouse_in_instructions, mouse_in_game, initGame, create_aliens, createAlien_row in *.
  tame; [intros s' (?&?&?&?&?); by repeat split|..]; exact (Hx _ _).
Qed.

Lemma loop_arrives fuel ints s s1 :
  (displayScreen ;; sys dev driver_receive) s = Ok (0, Message HARDWARE ints, true) s1 ->
  loop_body fuel s = switch (hardware_interrupt fuel ints) s1 /\ notification_events fuel s = hardware_events fuel ints s1.
Proof.
  intros He. split; [|unfold notification_events; by rewrite He]. unfold loop_body, bind in *.
  destruct (displayScreen s) as [[] s0| |]; [|done..]. by rewrite He.
Qed.

Lemma mouse_line q l s (m : M (state script) unit) :
  plugged q l s -> wp True (when (irq_pending (BIT 12) (kbd_bit_no (loc s))) m) (fun _ => plugged q l) (fun _ => plugged q l) s.
Proof. intros Hp. pose proof Hp as (_ & _ & -> & _). by apply wp_ret. Qed.

(** A byte of the mouse. *)
Lemma mouse_notification b q l s :
  ready s -> plugged (0x21 :: b :: q) (Message HARDWARE (BIT 12) :: l) s -> in_u8 b -> running s = true ->
  notification_events 5 s = [MouseByte b] /\
  exists s', handled 5 s s' /\ ready s' /\ view s' = react (MouseByte b) (view s) /\ plugged q l s'.
Proof.
  intros Hr Hp Hb Hrun. destruct (notification_arrives 12 _ l s Hr Hp) as (s1 & He & Hr1 & Hv1 & Hp1).
  destruct (mouse_plugged b q l s1 Hp1 Hb) as [Hev Hwp]. pose proof Hp1 as (_ & Hm & _).
  destruct (loop_arrives 5 _ s s1 He) as [Hloop Hnot].
  assert (notification_events 5 s = [MouseByte b]) as Hn.
  { rewrite Hnot. unfold hardware_events, line_events. rewrite Hm. change (irq_pending (BIT 12) 12) with true. cbv iota. rewrite Hev.
    unfold wp in Hwp. destruct (mouse_interrupt s1) as [[] s2| |]; [|done..]. by destruct Hwp as (_ & _ & -> & -> & _). }
  split; [done|]. destruct (notification_next 5 s ltac:(lia) Hr) as (s' & Hs' & Hr' & Hv'); [by rewrite Hn|]. rewrite Hn in Hv'.
  exists s'. split; [by constructor|]. split; [done|]. split; [done|].
  assert (wp True (switch (hardware_interrupt 5 (BIT 12))) (fun _ => plugged q l) (fun _ => plugged q l) s1) as Hend.
  { apply wp_switch, wp_bind, wp_gets, wp_bind. rewrite Hm. change (irq_pending (BIT 12) 12) with true. cbn [when].
    eapply wp_conseq; [exact Hwp| |by intros []]. intros [] s2 Hp2. pose proof Hp2 as (_ & _ & Hk2 & Ht2 & _).
    apply wp_bind, wp_gets, wp_bind. rewrite Hk2. apply wp_ret, wp_bind, wp_gets, wp_bind. rewrite Ht2. by apply wp_ret, wp_jump. }
  unfold wp in Hend. rewrite <- Hloop in Hend. destruct Hs' as [Hs'|Hs']; by rewrite Hs' in Hend.
Qed.

(** A tick of the timer. *)
Lemma tick_arrives q l s :
  ready s -> plugged q (Message HARDWARE (BIT 0) :: l) s -> exists i, notification_events 5 s = [Tick i].
Proof.
  intros Hr Hp. destruct (notification_arrives 0 q l s Hr Hp) as (s1 & He & Hr1 & Hv1 & (_ & Hm & Hk & Ht & _)).
  destruct (loop_arrives 5 _ s s1 He) as [_ Hnot].
  rewrite Hnot. unfold hardware_events, line_events. rewrite Hm, Hk, Ht. change (irq_pending (BIT 0) 12) with false.
  change (irq_pending (BIT 0) 1) with false. change (irq_pending (BIT 0) 0) with true. cbv iota.
  destruct (timer_interrupt 5 s1); rewrite app_nil_r; unfold tick_events; destruct ((_ ;; _) s1); by eexists.
Qed.

Lemma tick_notification q l s :
  ready s -> plugged q (Message HARDWARE (BIT 0) :: l) s -> running s = true -> (forall i, removal [Tick i] (view s) = false) ->
  exists i s', notification_events 5 s = [Tick i] /\ handled 5 s s' /\ ready s' /\ view s' = react (Tick i) (view s).
Proof.
  intros Hr Hp Hrun Hrem. destruct (tick_arrives q l s Hr Hp) as [i Hn].
  destruct (notification_next 5 s ltac:(lia) Hr) as (s' & Hs' & Hr' & Hv'); [by rewrite Hn|]. rewrite Hn in Hv'. exists i, s'.
  split; [done|]. split; [by constructor|done].
Qed.

(** The states that a sequence of bytes goes through, if every byte is handled. *)
Fixpoint goes_well (p : game -> bool) (bs : list Z) (g : game) : bool :=
  p g && match bs with
         | [] => true
         | b :: bs => (0 <=? b) && (b <? 256) && negb (is_state (g_mode g) EXIT) && goes_well p bs (react (MouseByte b) g)
         end.

Definition on_ports (bs : list Z) : list Z := bs ≫= fun b => [0x21; b].

Definition mouse_lines (bs : list Z) : list message := const (Message HARDWARE (BIT 12)) <$> bs.

Lemma mouse_session (p : game -> bool) (P : state script -> Prop) bs q l s :
  (forall s', p (view s') = true -> P s') ->
  ready s -> plugged (on_ports bs ++ q) (mouse_lines bs ++ l) s -> goes_well p bs (view s) = true ->
  exists s', session P 5 s (MouseByte <$> bs) s' /\ ready s' /\ view s' = play (MouseByte <$> bs) (view s) /\ plugged q l s'.
Proof.
  intros HP. revert s. induction bs as [|b bs IH]; intros s Hr Hp Hg; cbn [goes_well] in Hg.
  - apply andb_prop in Hg as [Hg _]. exists s. split; [by apply session_nil, HP|done].
  - apply andb_prop in Hg as [Hpg [[[H0 H1]%andb_prop Hrun]%andb_prop Hg]%andb_prop].
    destruct (mouse_notification b (on_ports bs ++ q) (mouse_lines bs ++ l) s) as (Hn & s1 & Hh & Hr1 & Hv1 & Hp1);
      [done|done|unfold in_u8; lia|exact Hrun|].
    destruct (IH s1 Hr1 Hp1) as (s' & Hs' & Hr' & Hv' & Hp'); [by rewrite Hv1|].
    exists s'. split; [|split; [done|]; split; [|done]].
    + change (session P 5 s ([MouseByte b] ++ (MouseByte <$> bs)) s'). rewrite <- Hn. eapply session_cons; [by apply HP|done|done].
    + by rewrite Hv', Hv1.
Qed.

End scripted.

(** The player moves the pointer to the start button and presses it; in the round he shoots; the timer ticks. *)
Definition start_clicks : list Z := [8; 200; 190; 9; 200; 190].

Definition fire_click : list Z := [9; 0; 0].

Definition round_script : script :=
  session_script (on_ports start_clicks ++ on_ports fire_click ++ [])
    (mouse_lines start_clicks ++ mouse_lines fire_click ++ [Message HARDWARE (BIT 0)]).

Lemma round_session :
  exists s1 s2 i s3,
    reached 5 round_script (MouseByte <$> start_clicks) s1 /\ ready s1 /\ view s1 = start_round (view s1) /\ timer_counter s1 = 0 /\
    session playing 5 s1 (MouseByte <$> fire_click) s2 /\ ready s2 /\ shot_of s2 = Some (549, 630) /\
    plugged [] [Message HARDWARE (BIT 0)] s2 /\ notification_events 5 s2 = [Tick i] /\ session playing 5 s2 [Tick i] s3 /\
    removal (MouseByte <$> start_clicks ++ fire_click) (new_game 60) = false /\
    removal ((MouseByte <$> start_clicks ++ fire_click) ++ [Tick i]) (new_game 60) = false /\
    removal ((MouseByte <$> fire_click) ++ [Tick i]) (view s1) = false /\ removal [Tick i] (view s2) = false.
Proof.
  destruct (session_boot (on_ports start_clicks ++ on_ports fire_click ++ [])
    (mouse_lines start_clicks ++ mouse_lines fire_click ++ [Message HARDWARE (BIT 0)])) as (s0 & He & Hr0 & Hv0 & _ & Hp0).
  destruct (mouse_session (fun _ => true) (fun _ => True) start_clicks _ _ s0 ltac:(done) Hr0 Hp0) as (s1 & Hs1 & Hr1 & Hv1 & Hp1).
  { rewrite Hv0. reflexivity. }
  set (p g := is_state (g_mode g) PLAYING).
  assert (forall s : state script, p (view s) = true -> playing s) as HP.
  { intros s Hs. unfold playing. change (gameState s) with (g_mode (view s)). unfold p in Hs. by destruct (g_mode (view s)). }
  rewrite Hv0 in Hv1.
  destruct (mouse_session p playing fire_click _ _ s1 HP Hr1 Hp1) as (s2 & Hs2 & Hr2 & Hv2 & Hp2).
  { rewrite Hv1. reflexivity. }
  rewrite Hv1 in Hv2.
  assert (running s2 = true) as Hrun by (change (negb (is_state (g_mode (view s2)) EXIT) = true); rewrite Hv2; reflexivity).
  destruct (tick_notification [] [] s2 Hr2 Hp2 Hrun) as (i & s3 & Hn & Hh & Hr3 & Hv3).
  { intros i. rewrite Hv2. reflexivity. }
  exists s1, s2, i, s3. split; [exact (ex_intro _ s0 (conj He Hs1))|]. split; [assumption|]. split; [rewrite Hv1; reflexivity|].
  split; [change (g_clock (view s1) = 0); rewrite Hv1; reflexivity|]. split; [assumption|]. split; [assumption|].
  split; [change (g_shot (view s2) = Some (549, 630)); rewrite Hv2; reflexivity|]. split; [assumption|]. split; [assumption|].
  split; [|rewrite Hv1, Hv2; repeat split; reflexivity].
  rewrite <- Hn. rewrite <- (app_nil_r (notification_events 5 s2)). eapply session_cons; [apply HP; rewrite Hv2; reflexivity|exact Hh|].
  apply session_nil, HP. rewrite Hv3, Hv2. reflexivity.
Qed.

Lemma program_refines_game_witness :
  exists (s s' : state script) i, reached 5 round_script (MouseByte <$> start_clicks ++ fire_click) s /\
    (loop_body 5 s = Ok tt s' \/ loop_body 5 s = Jump CContinue s') /\
    view s' = play ((MouseByte <$> start_clicks ++ fire_click) ++ [Tick i]) (new_game 60).
Proof.
  destruct round_session as (s1 & s & i & s3 & (s0 & He & Hs1) & _ & _ & _ & Hs2 & _ & _ & _ & Hn & _ & Hrem & Hc & _).
  assert (reached 5 round_script (MouseByte <$> start_clicks ++ fire_click) s) as Hs.
  { exists s0. split; [exact He|]. rewrite fmap_app. eapply session_app; [exact Hs1|].
    eapply session_mono; [|exact Hs2]. intros; exact Logic.I. }
  destruct (program_refines_game 5 round_script _ s ltac:(lia) Hs Hrem) as [_ Hnext]. rewrite Hn in Hnext.
  destruct (Hnext Hc) as (s' & Hl & Hv). exists s, s', i. split; [exact Hs|]. split; [exact Hl|exact Hv].
Defined.

(** The state after the tick, as a state of the program. *)
Lemma round_ticked :
  exists (s : state script) i, gameState s = PLAYING /\ reached 5 round_script ((MouseByte <$> start_clicks ++ fire_click) ++ [Tick i]) s /\
    removal ((MouseByte <$> start_clicks ++ fire_click) ++ [Tick i]) (new_game 60) = false.
Proof.
  destruct round_session as (s1 & s2 & i & s3 & (s0 & He & Hs1) & _ & _ & _ & Hs2 & _ & _ & _ & _ & Hs3 & _ & Hrem & _).
  exists s3, i. split; [exact (session_last _ _ _ _ _ Hs3)|]. split; [|exact Hrem].
  exists s0. split; [exact He|]. rewrite fmap_app, <- app_assoc. eapply session_app; [exact Hs1|].
  eapply session_mono; [|eapply session_app; [exact Hs2|exact Hs3]]. intros; exact Logic.I.
Qed.

Lemma fleet_in_formation_witness :
  exists (s : state script) dx k, gameState s = PLAYING /\ -4 <= dx <= 360 /\ 0 <= k <= 21 /\
    forall i a, aliens s !! i = Some a ->
      alien_x a = 24 + 80 * (Z.of_nat i / ROW_ALIENS) + dx /\ alien_y a = 20 + 60 * (Z.of_nat i mod ROW_ALIENS) + 20 * k.
Proof.
  destruct round_ticked as (s & i & Hg & Hs & Hrem).
  destruct (fleet_in_formation 5 round_script _ s ltac:(lia) Hs Hrem Hg) as (dx & k & Hf). exists s, dx, k. split; [exact Hg|exact Hf].
Defined.

Lemma round_ends_in_time_witness :
  exists (s s' : state script) es, ready s /\ session playing 5 s es s' /\ ticks es = 1%nat /\
    Z.of_nat (ticks es) < 8004 * Z.max 1 (ipf (loc s)).
Proof.
  destruct round_session as (s1 & s2 & i & s3 & _ & Hr & Hv & Ht & Hs2 & _ & _ & _ & _ & Hs3 & _ & _ & Hrem & _).
  pose proof (session_app _ _ _ _ _ _ _ Hs2 Hs3) as Hs. exists s1, s3, ((MouseByte <$> fire_click) ++ [Tick i]).
  split; [exact Hr|]. split; [exact Hs|]. split; [reflexivity|].
  apply (round_ends_in_time 5 (view s1) s1 _ s3); [lia|exact Hr|exact Hv|lia|rewrite Ht; reflexivity|exact Hs|exact Hrem].
Defined.

Lemma shot_is_removed_witness :
  exists (s s' : state script) i, shot_of s = Some (549, 630) /\ session playing 5 s [Tick i] s' /\ shot_of s' = Some (549, 602).
Proof.
  destruct round_session as (s1 & s2 & i & s3 & _ & _ & _ & _ & _ & Hr & Hsh & _ & _ & Hs3 & _ & _ & _ & Hrem). exists s2, s3, i.
  split; [exact Hsh|]. split; [exact Hs3|]. exact (proj1 (shot_is_removed 5 549 630 s2 [Tick i] s3 ltac:(lia) Hr Hsh Hs3 Hrem)).
Defined.

(** After a shot and a tick. *)
Lemma objects_in_bounds_witness :
  exists (s : state script) p sh, gameState s = PLAYING /\ cells (ships s) !! p = Some sh /\
    30 <= ship_x sh <= 1000 - width (ship_img sh) /\ 1 <= ship_lives sh <= 3.
Proof.
  destruct round_ticked as (s & i & Hg & Hs & Hrem).
  destruct (objects_in_bounds 5 round_script _ s ltac:(lia) Hs Hrem) as (_ & (p & sh & _ & Hsh & Hx & _ & Hl) & _).
  exists s, p, sh. split; [exact Hg|]. split; [exact Hsh|]. split; [exact Hx|exact Hl].
Defined.
