(* ===== verification/GameRemoval.v ===== *)
(** * The notification that removes the shot

    The abstract game ends where an event removes the shot of the ship.  This file shows what
    the program does there: it uses the bullet after it was freed, at once or, when the last
    alien of the fleet is the one that was hit, at the next tick of play or the next shot. *)

From S2P Require Import Prelude CMonad Heap Memory Lcf Minix Frame Macros ProjState Graphics GraphicsFacts Timer.
From S2P Require Import Keyboard MouseDriver Rtc Ship Aliens ShipBullets ShipBulletFacts AlienBullets AlienBulletFacts.
From S2P Require Import Menu Screen Volley GameSpec GamePlay Game GameFaults GameScore GameSafe GameTick GameSetup GameSession GameRefine.
From stdpp Require Import options.

Section removal.
Context {D : Type} `{K : Kernel D} {XL : XpmLaws D} {RL : RandLaws D}.
Implicit Types s : state D.

(** The only fault. *)
Abbreviation freed_use := (eq UseAfterFree).

(** All slots hold the bullet [b] at [l], which is the shot [q]. *)
Definition in_slots (l : nat) (b : ShipBullet) s : Prop :=
  shipBullets s = replicate slots (Some l) /\ cells (bullets s) !! l = Some b /\ flying b /\ (l < brk (bullets s))%nat.

Lemma shot_in_slots s q :
  volley (bullets s) (shipBullets s) -> shot_of s = Some q -> exists l b, in_slots l b s /\ q = (sb_x b, sb_y b).
Proof.
  intros (Hwf & p & Hps & Hfl) Hq. unfold shot_of in Hq. rewrite Hps in Hq. change (default NULL (head (replicate slots ?q))) with q in Hq.
  destruct p as [l|]; [|done]. destruct (Hfl l eq_refl) as (b & Hb & Hok). cbn [deref mbind option_bind] in Hq. rewrite Hb in Hq.
  injection Hq as <-. exists l, b. split; [|done]. split; [done|]. split; [done|]. split; [done|]. apply Hwf. by exists b.
Qed.

Lemma slots_stale l s : shipBullets s = replicate slots (Some l) -> cells (bullets s) !! l = None -> (l < brk (bullets s))%nat -> stale 0 l s.
Proof. intros Hps Hl Hlt. split; [by rewrite Hps|]. split; [vm_compute; lia|done]. Qed.

(** ** The shot leaves the screen *)

Lemma update_leaves l b s J :
  in_slots l b s -> sb_y b < 28 ->
  ends freed_use updateShipBulletPosition (fun _ s' => exists c, s' = with_bullets c s /\ c !! l = None) J s.
Proof.
  intros (Hps & Hl & (Hhit & Hsp & _ & _ & Hy) & _) Hlow. unfold SHIP_BULLET_SPEED, SHIP_YPOS in *.
  apply (ends_for_seq _ (fun k s' => exists c, s' = with_bullets c s /\
    (c !! l = None \/ c !! l = Some (climbed k b) /\ 4 * Z.of_nat k <= sb_y b))).
  - exists (cells (bullets s)). split; [unfold with_bullets; destruct (bullets s) eqn:Hbs; destruct s; cbn in *; by subst|]. right. rewrite climbed_0. split; [done|lia].
  - intros k s' Hk (c & -> & Hc). assert (shipBullets (with_bullets c s) !! k = Some (Some l)) as Hslot.
    { change (shipBullets (with_bullets c s)) with (shipBullets s). rewrite Hps. by apply lookup_replicate_2. }
    apply ends_bind, ends_wp. eapply wp_slot; [exact Hslot|]. apply ends_bind.
    destruct Hc as [Hc|[Hc Hle]]; [by apply ends_load_freed|]. apply ends_wp. eapply wp_load; [exact Hc|].
    unfold when. change (sb_hitAlien (climbed k b)) with (sb_hitAlien b). rewrite Hhit. cbn [negb]. apply ends_wp.
    change (sb_y (climbed k b) - sb_speed (climbed k b)) with (sb_y b - Z.of_nat k * sb_speed b - sb_speed b).
    rewrite Hsp, i32_id by (unfold in_i32; lia). wp_step.
    + eapply wp_store; [exact Hc|]. eexists. split; [reflexivity|]. right. cbn [heap_write cells]. rewrite lookup_insert_eq. split; [|lia].
      f_equal. unfold climbed. get_set. by replace (sb_y b - Z.of_nat k * 4 - 4) with (sb_y b - Z.of_nat (S k) * sb_speed b) by lia.
    + eapply wp_free; [exact Hc|]. eexists. split; [reflexivity|]. left. apply lookup_delete_eq.
  - intros s' (c & -> & Hc). exists c. split; [done|]. destruct Hc as [Hc|[_ Hc]]; [done|]. change (Z.of_nat slots) with 7 in Hc. lia.
Qed.

Lemma draw_frame_leaves s Q J : ready s -> shot_leaves (view s) = true -> ends freed_use draw_frame Q J s.
Proof.
  intros Hr Hlow. assert (volley (bullets s) (shipBullets s)) as Hv by apply Hr. unfold shot_leaves in Hlow.
  change (g_shot (view s)) with (shot_of s) in Hlow. destruct (shot_of s) as [q|] eqn:Hq; [|done].
  destruct (shot_in_slots s q Hv Hq) as (l & b & Hin & ->). apply ends_bind.
  eapply (ends_mono freed_use freed_use _ _ _ J J); [done| |done|].
  2:{ apply (update_leaves l b); [done|]. change (MAX_SHIP_BULLETS * SHIP_BULLET_SPEED) with 28 in Hlow. lia. }
  intros _ s1 (c & -> & Hc). destruct Hin as (Hps & _ & _ & Hlt).
  pose proof Hr as [Hs (_ & [Hbg _] & _ & (_ & p & sh & Hsp & Hsh & Hok & _) & _)].
  apply ends_bind, ends_wp, wp_gets, ends_bind, ends_wp, wp_drawBackground; [exact Hs|exact Hbg|].
  intros s2 [(g2 & d2 & ->) Hs2]. apply ends_bind, ends_wp, wp_gets. change (ship (loc _)) with (ship (loc s)). rewrite Hsp.
  apply ends_bind, ends_wp, (wp_drawShip _ _ sh); [done|exact Hsh|done|]. intros s3 [(g3 & d3 & ->) Hs3].
  apply ends_bind, (draw_freed l). by apply slots_stale.
Qed.

(** ** The shot strikes the fleet *)

Lemma missed_in_slots l b a s :
  in_slots l b s -> bullet_hits a b <> true -> missed (bullets s) (shipBullets s) a.
Proof.
  intros (Hps & Hl & _) Hn. unfold missed. rewrite Hps. apply Forall_replicate. unfold hits_via. cbn [deref mbind option_bind]. by rewrite Hl.
Qed.

(** The first alien that is hit. *)
Lemma strike_first s :
  ready s -> gameState s = PLAYING -> shot_strikes (view s) = true ->
  exists l b k a, in_slots l b s /\ aliens s !! k = Some a /\ bullet_hits (stepped (right_mov (loc s)) 1 a) b = true /\
    forall i a', (i < k)%nat -> aliens s !! i = Some a' -> missed (bullets s) (shipBullets s) (stepped (right_mov (loc s)) 1 a').
Proof.
  intros [_ (_ & _ & _ & _ & _ & Hv & _ & _ & _ & _ & Hfleet)] Hg Hst. destruct (Hfleet Hg) as (Hsp & _ & Hal).
  unfold shot_strikes in Hst. change (g_shot (view s)) with (shot_of s) in Hst. destruct (shot_of s) as [q|] eqn:Hq; [|done].
  destruct (shot_in_slots s q Hv Hq) as (l & b & Hin & ->). set (right := right_mov (loc s)) in *.
  destruct (list_find (fun a => bullet_hits (stepped right 1 a) b = true) (aliens s)) as [[k a]|] eqn:Hf.
  - apply list_find_Some in Hf as (Ha & Hh & Hno). exists l, b, k, a. split; [done|]. split; [done|]. split; [done|].
    intros i a' Hi Ha'. apply (missed_in_slots l b); [done|]. by apply (Hno i a').
  - exfalso. apply list_find_None in Hf. apply existsb_exists in Hst as (p & Hp & Hhit).
    apply list_elem_of_In, list_elem_of_fmap in Hp as (p' & -> & Hp). change (g_fleet (view s)) with (place_of <$> aliens s) in Hp.
    apply list_elem_of_fmap in Hp as (a & -> & Ha). rewrite Forall_forall in Hf, Hal. apply (Hf a Ha). change (g_right (view s)) with right in Hhit.
    rewrite <- Hhit. apply bullet_hits_in_alien; [|apply Hin]. rewrite <- Hsp. by apply Hal.
Qed.

(** The alien [k - 1] was hit, and the fleet has still to march from alien [k] on. *)
Definition struck (right : bool) (k l : nat) s : Prop :=
  screen s /\ stale 0 l s /\ length (aliens s) = Z.to_nat SIZE_OF_ALIENS /\ speed s = 1 /\ right_mov (loc s) = right /\
  forall a, aliens s !! k = Some a ->
    alien_alive a = true /\ alien_shape a /\ 0 <= alien_y a /\ alien_y a + 40 < TERRITORY + 20 /\ lane right 1 a.

Lemma struck_lose_game right k l s : struck right k l s -> wp False lose_game (fun _ => struck right k l) nojump s.
Proof.
  intros (Hs & Hst & Hl & _ & Hrm & Hal). apply wp_bind, wp_bind, wp_sys, wp_malloc. repeat (apply wp_bind, wp_modify). apply wp_modify.
  unfold struck, stale, screen. get_set. repeat split; try apply Hst; try apply Hs; try done; by apply Hal.
Qed.

(** The alien that is hit. *)
Lemma alien_step_strikes right k l b a s :
  marching k right k s -> aliens s !! k = Some a -> in_slots l b s -> bullet_hits (stepped right 1 a) b = true ->
  wp False (alien_step k) (fun _ => struck right (S k) l) nojump s.
Proof using XL.
  intros (Hs & Hb & Hg & Hsp & Hkc & Hrm & Hms & Hal) Ha Hin Hhit.
  pose proof Hb as (_ & _ & _ & (Hwf & sl & sh & Hsl & Hship & _) & _ & Hq & _ & Hlen & _). cbn in Hlen.
  pose proof (Hal k a Ha) as (Halive & Hsh & Hy0 & Hy1 & Hln). rewrite decide_False in Hln by lia.
  apply (ends_alien_step (fun _ => False) right k a); [done..|]. set (a' := stepped right 1 a) in *. intros s1 [(g & d & ->) Hs1].
  change (ship (loc s) = Some sl) in Hsl. set (s1 := (advanced right 1 k a s) <| gfx := g |> <| dev := d |>) in *.
  change (wp False (settle k) (fun _ => struck right (S k) l) nojump s1). assert (aliens s1 !! k = Some a') as Ha'.
  { apply list_lookup_insert_eq. by eapply lookup_lt_Some. }
  apply wp_bind, wp_gets, wp_bind. change (ship (loc s1)) with (ship (loc s)). rewrite Hsl.
  pose proof (verify_spec s1 k a' sl sh (volley_slots s Hq) Ha' Hship) as Hv. destruct Hin as (Hps & Hl & Hfl & Hlt).
  assert (verifyAlienAndBulletCollision k (Some sl) s1 = Ok tt (killed k a' l sl sh s1)) as He.
  { change (shipBullets s1) with (shipBullets s) in Hv. change (bullets s1) with (bullets s) in Hv. destruct (list_find _ (shipBullets s)) as [[j p]|] eqn:Hf.
    - destruct Hv as (l' & -> & Hv). apply list_find_Some in Hf as (Hj & _). rewrite Hps in Hj.
      apply lookup_replicate in Hj as [[= <-] _]. exact Hv.
    - apply list_find_None in Hf. rewrite Hps in Hf. exfalso. apply Forall_inv in Hf. apply Hf. unfold hits_via.
      cbn [deref mbind option_bind]. by rewrite Hl. }
  eapply wp_of_exec; [exact He|]. set (s2 := killed k a' l sl sh s1).
  assert (struck right (S k) l s2) as Hstruck.
  { split; [exact Hs1|]. split; [by apply slots_stale; [exact Hps|apply lookup_delete_eq|exact Hlt]|].
    split; [change (aliens s2) with (<[k := a' <| alien_alive := false |>]> (<[k := a']> (aliens s))); by rewrite !length_insert|].
    split; [exact Hsp|]. split; [exact Hrm|]. intros x Hx.
    change (<[k := a' <| alien_alive := false |>]> (<[k := a']> (aliens s)) !! S k = Some x) in Hx.
    rewrite !list_lookup_insert_ne in Hx by lia. destruct (Hal _ _ Hx) as (? & ? & ? & ? & Hlx). by rewrite decide_False in Hlx by lia. }
  assert (aliens s2 !! k = Some (a' <| alien_alive := false |>)) as Ha2 by (apply list_lookup_insert_eq; by eapply lookup_lt_Some).
  apply wp_bind. eapply wp_alien_at; [exact Ha2|].
  apply wp_bind, wp_gets. wp_step; [by apply struck_lose_game|].
  change (killCount s2) with (i32 (killCount s + 1)). rewrite Hkc. by apply wp_ret.
Qed.

(** The alien behind it. *)
Lemma alien_step_struck right k l Q J s :
  (k < Z.to_nat SIZE_OF_ALIENS)%nat -> struck right k l s -> ends freed_use (alien_step k) Q J s.
Proof.
  intros Hk (Hs & Hst & Hlen & Hsp & Hrm & Hal). destruct (lookup_lt_is_Some_2 (aliens s) k) as [a Ha]; [by rewrite Hlen|].
  destruct (Hal a Ha) as (? & ? & ? & ? & ?). apply (ends_alien_step _ right k a); [done..|]. intros s1 [(g & d & ->) _].
  apply ends_bind, ends_wp, wp_gets, ends_bind, (verify_freed l). exact Hst.
Qed.

(** The loop over the aliens stops behind the alien that is hit. *)
Lemma fleet_strikes right k l b a s J :
  marching k right 0 s -> aliens s !! k = Some a -> in_slots l b s -> bullet_hits (stepped right 1 a) b = true ->
  ends freed_use (for_each (seq 0 (Z.to_nat SIZE_OF_ALIENS)) alien_step)
    (fun _ s' => struck right (Z.to_nat SIZE_OF_ALIENS) l s') J s.
Proof using XL.
  intros Hm Ha Hin Hhit. assert (k < Z.to_nat SIZE_OF_ALIENS)%nat as Hk.
  { destruct Hm as (_ & (_ & _ & _ & _ & _ & _ & _ & Hlen & _) & _). cbn in Hlen. rewrite <- Hlen. by eapply lookup_lt_Some. }
  apply (ends_for_seq _ (fun j s' => (j <= k)%nat /\ marching k right j s' /\ in_slots l b s' /\ aliens s' !! k = Some a \/
    (k < j)%nat /\ struck right j l s')).
  - left. split; [lia|done].
  - intros j s' Hj [(Hle & Hm' & Hin' & Ha')|[Hlt Hst]]; [|by apply (alien_step_struck right j l)]. apply ends_wp.
    destruct (decide (j = k)) as [->|Hne].
    + eapply wp_conseq; [by apply (alien_step_strikes right k l b a)| |done]. intros [] s'' Hs''. right. split; [lia|done].
    + eapply wp_conseq; [apply wp_and; [apply (alien_step_marching k right j); [lia|done]|apply (alien_step_rest k right j); [lia|done]]| |done].
      intros [] s'' (Hm'' & Hbu & Hps & Hrest). left. split; [lia|]. split; [done|]. split; [|by rewrite Hrest by lia].
      unfold in_slots. by rewrite Hbu, Hps.
  - intros s' [(Hle & _)|[_ Hst]]; [lia|done].
Qed.

Lemma alien_move_strikes s :
  ready s -> gameState s = PLAYING -> march_strikes (view s) = true ->
  ends freed_use alien_move (fun _ s' => exists l, stale 0 l s') nojump s.
Proof using XL.
  intros Hr Hg [Hdue Hst]%andb_prop. destruct (strike_first s Hr Hg Hst) as (l & b & k & a & Hin & Ha & Hhit & Hno).
  pose proof (marching_start k s Hr Hg Hno) as Hm. set (right := right_mov (loc s)) in *.
  apply ends_bind, ends_wp, wp_gets, ends_bind, ends_wp, wp_gets. change (ipf (loc s) <=? timer_counter s) with (g_period (view s) <=? g_clock (view s)).
  rewrite Hdue. cbn [when]. apply ends_bind, ends_wp, wp_modify, ends_bind, ends_wp, wp_modify, ends_bind.
  eapply (ends_mono freed_use freed_use _ _ _ nojump nojump); [done| |done|apply (fleet_strikes right k l b a (move_start s)); [exact Hm|exact Ha|exact Hin|done]].
  intros _ s1 (Hs1 & Hst1 & Hlen & _). apply ends_wp, wp_bind, wp_gets, wp_bind.
  apply (wp_mono False False _ (fun _ s' => stale 0 l s') _ nojump); [done| |done|].
  - intros _ s2 Hst2. apply wp_bind, wp_modify, wp_bind, wp_modify, wp_bind, wp_gets, wp_bind, wp_gets.
    wp_step; [apply wp_bind, wp_modify, wp_modify|apply wp_ret]; by exists l.
  - destruct (changeDir s1); cbn [when]; [|by apply wp_ret]. apply wp_bind, wp_change_all_y; [by rewrite Hlen|].
    by apply wp_bind, wp_modify, wp_modify.
Qed.

(** ** The tick *)

(** How a statement ends that removes the shot. *)
Definition removed (c : ctl -> Prop) (m : M (state D) unit) s : Prop :=
  ends freed_use m (fun _ s' => exists l, stale 0 l s') (fun c' s' => c c' /\ exists l, stale 0 l s') s.

Lemma timer_removed fuel s :
  (0 < fuel)%nat -> ready s -> removal (tick_events fuel s) (view s) = true -> removed (fun _ => False) (timer_interrupt fuel) s.
Proof using XL RL.
  intros Hf Hr Hrem. assert (gameState s = PLAYING) as Hg.
  { unfold tick_events in Hrem. destruct ((_ ;; _) s); cbn [removal removes] in Hrem; rewrite orb_false_r in Hrem; apply andb_prop in Hrem as [Hrem _].
    all: change (g_mode (view s)) with (gameState s) in Hrem; by destruct (gameState s). }
  destruct (tick_removal fuel s Hg) as (i & Hi & He). rewrite Hrem in He. set (s1 := s <| timer_counter := i32 (timer_counter s + 1) |>).
  assert (view s1 = (view s) <| g_clock := i32 (g_clock (view s) + 1) |>) as Hv1 by done. rewrite <- Hv1 in He.
  assert (ready s1) as Hr1 by exact Hr. apply ends_bind, ends_wp, wp_modify, ends_bind, ends_wp, wp_gets. fold s1.
  change (gameState s1) with (gameState s). rewrite Hg. apply ends_bind. symmetry in He. unfold frame_removes in He.
  destruct (shot_leaves (view s1)) eqn:Hleave; [by apply draw_frame_leaves|]. cbn [orb] in He.
  apply (ends_mono freed_use freed_use _ (fun _ s2 => draw_frame s1 = Ok tt s2 /\ ready s2 /\ gameState s2 = PLAYING /\
    view s2 = climb (view s1)) _ nojump); [done| |done|].
  2:{ apply ends_wp. eapply wp_conseq; [apply wp_remember, (wp_draw_frame False (fun _ s2 => ready s2 /\ gameState s2 = PLAYING /\ view s2 = climb (view s1)) nojump);
        [exact Hr1|exact Hleave|]|by intros [] s2|done]. intros s2 Hr2 Hg2 Hv2. change (gameState s1) with (gameState s) in Hg2. by rewrite Hg2. }
  intros _ s2 (Hd & Hr2 & Hg2 & Hv2). rewrite <- Hv2 in He.
  assert (shooter fuel s2 = i) as Hsh.
  { unfold tick_events, bind, timer_int_handler, modify in Hi. fold s1 in Hi. rewrite Hd in Hi. by injection Hi. }
  apply ends_bind.
  eapply (ends_mono freed_use freed_use); [done| | |apply ends_wp, alien_fire_heard; done]; rewrite Hsh.
  - intros _ s3 (Hr3 & Hg3 & Hb). rewrite Hb in He. cbn [negb andb] in He.
    eapply (ends_mono freed_use freed_use); [done| | |by apply alien_move_strikes]; [done|by intros ? ? []].
  - intros c s3 (_ & _ & g & Hb & _). by rewrite Hb in He.
Qed.

(** ** The notification *)

Lemma hardware_removed fuel ints s :
  (0 < fuel)%nat -> ready s -> removal (hardware_events fuel ints s) (view s) = true ->
  removed (fun c => c = CBreak) (hardware_interrupt fuel ints) s.
Proof using XL RL.
  intros Hf Hr. assert (forall s', ready s' -> removal (mouse_events s') (view s') = false) as Hmouse.
  { intros s' _. unfold mouse_events. destruct (mouse_ih s') as [? s1| |]; [|done..]. by destruct (ctrue _). }
  assert (forall s', ready s' -> removal (key_events s') (view s') = false) as Hkey.
  { intros s' _. unfold key_events. by destruct (kbc_ih s'). }
  assert (forall set e (handler : M (state D) unit) rest (m : M (state D) unit) s',
    ready s' -> removal (e s') (view s') = false ->
    wp False handler (fun _ s1 => served (e s') s' s1) (fun c s1 => c = CContinue /\ served (e s') s' s1) s' ->
    (forall s1, ready s1 -> removal (rest s1) (view s1) = true -> removed (fun c => c = CBreak) m s1) ->
    removal (line_events set e handler rest s') (view s') = true -> removed (fun c => c = CBreak) (when set handler ;; m) s') as Hline.
  { intros set e handler rest m s' Hr' He Hwp Hm Hrem. unfold removed. apply ends_bind. unfold line_events in Hrem. destruct set; cbn [when].
    - rewrite removal_app, He in Hrem. cbn [orb] in Hrem. unfold wp in Hwp. unfold ends at 1.
      destruct (handler s') as [[] s1|c s1|f]; [|discriminate Hrem|done]. destruct Hwp as [Hr1 Hv1]. unfold heard in Hv1. rewrite <- Hv1 in Hrem. by apply Hm.
    - by apply Hm. }
  intros Hrem. apply ends_bind, ends_wp, wp_gets. eapply Hline; [done|by apply Hmouse|by apply mouse_heard| |exact Hrem].
  intros s1 Hr1 H1. apply ends_bind, ends_wp, wp_gets. eapply Hline; [done|by apply Hkey|by apply keyboard_heard| |exact H1].
  intros s2 Hr2 H2. apply ends_bind, ends_wp, wp_gets, ends_bind. unfold line_events in H2. destruct (irq_pending _ _); [|done]. cbn [when].
  assert (removal (tick_events fuel s2) (view s2) = true) as Ht.
  { destruct (timer_interrupt fuel s2); by rewrite app_nil_r in H2. }
  eapply (ends_mono freed_use freed_use); [done| | |by apply timer_removed].
  - intros [] s3 Hs3. apply ends_wp, wp_jump. by split.
  - by intros ? ? [].
Qed.

Lemma loop_body_removed fuel s :
  (0 < fuel)%nat -> ready s -> removal (notification_events fuel s) (view s) = true -> removed (fun _ => False) (loop_body fuel) s.
Proof using XL RL.
  intros Hf Hr Hrem. unfold notification_events in Hrem.
  destruct ((displayScreen ;; sys dev driver_receive) s) as [[[r msg] notify] s1| |] eqn:He; [|done..].
  destruct (ctrue r) eqn:Hr0; [done|]. destruct notify; [|done]. destruct (m_source_p msg =? HARDWARE) eqn:Hsrc; [|done].
  assert (ready s1 /\ view s1 = view s) as [Hr1 Hv1].
  { assert (wp False (displayScreen ;; x <- sys dev driver_receive ;; ret x) (fun _ s' => ready s' /\ view s' = view s) nojump s) as Hwp.
    { apply wp_receive; [done|]. intros r' msg' n' s' _ Hr' Hv'. by apply wp_ret. }
    unfold wp, bind, ret in Hwp. unfold bind in He. destruct (displayScreen s) as [[] s'| |]; [|done..].
    destruct (sys dev driver_receive s') as [x s''| |]; [|done..]. by injection He as _ ->. }
  rewrite <- Hv1 in Hrem. pose proof (hardware_removed fuel _ s1 Hf Hr1 Hrem) as Hh.
  assert (loop_body fuel s = switch (hardware_interrupt fuel (m_interrupts msg)) s1) as Hloop.
  { unfold loop_body, bind in *. destruct (displayScreen s) as [[] s'| |]; [|done..]. rewrite He, Hr0. cbn [when].
    unfold dispatch. by rewrite Hsrc. }
  unfold removed, ends in *. rewrite Hloop. unfold switch.
  destruct (hardware_interrupt fuel (m_interrupts msg) s1) as [[] s2|[] s2|f]; [done|by destruct Hh|by destruct Hh|by destruct Hh|done].
Qed.

(** C3: what the removal of a shot does.  In every state of the loop (all of them satisfy [ready] before the first removal),
    a notification that removes the shot of the abstract game, because the shot passes the top of the screen or strikes an
    alien, is a use of the bullet after it was freed; or it ends, when the alien is the last one of the fleet, and then,
    whatever notifications follow, every tick of play and every shot is one. *)
Theorem removal_is_undefined fuel s :
  (0 < fuel)%nat -> ready s -> removal (notification_events fuel s) (view s) = true ->
  loop_body fuel s = Fault UseAfterFree \/
  exists s1, loop_body fuel s = Ok tt s1 /\
    forall s2, rtc (handled fuel) s1 s2 ->
      (gameState s2 = PLAYING -> timer_interrupt fuel s2 = Fault UseAfterFree) /\
      (forall x y sp img, createShipBullet x y sp img s2 = Fault UseAfterFree).
Proof using XL RL.
  intros Hf Hr Hrem. pose proof (loop_body_removed fuel s Hf Hr Hrem) as He. unfold removed, ends in He.
  destruct (loop_body fuel s) as [[] s1|c s1|f]; [|by destruct He|left; by rewrite He]. destruct He as [l Hl]. right. exists s1.
  split; [done|]. intros s2 Hrun. pose proof (stale_for_ever fuel 0 l s1 s2 Hl Hrun) as H2.
  split; [by apply (timer_freed l)|by intros; apply (fire_freed_exact l)].
Qed.

End removal.

(** ** A shot near the top of the screen *)

(** The state [s] with its bullet at height [y]. *)
Lemma shot_moved (s : state script) x y y' :
  ready s -> shot_of s = Some (x, y) -> 0 <= y' <= SHIP_YPOS ->
  exists c, ready (with_bullets c s) /\ shot_of (with_bullets c s) = Some (x, y').
Proof.
  intros Hr Hq Hy'. assert (volley (bullets s) (shipBullets s)) as Hv by apply Hr.
  destruct (shot_in_slots s _ Hv Hq) as (l & b & (Hps & Hl & Hfl & Hlt) & [= -> ->]).
  exists (<[l := b <| sb_y := y' |>]> (cells (bullets s))). split.
  - apply ready_with_bullets; [done|]. destruct Hv as [Hwf _]. split.
    + intros j Hj. cbn [cells brk] in *. rewrite lookup_insert_is_Some in Hj. destruct Hj as [<-|[_ Hj]]; [done|by apply Hwf].
    + exists (Some l). split; [done|]. intros j [= <-]. eexists. split; [apply lookup_insert_eq|].
      destruct Hfl as (Hh & Hsp & Hpic & Hx & _). by repeat split; try apply Hpic; try apply Hx; try apply Hy'.
  - unfold shot_of, with_bullets. get_set. rewrite Hps. change (default NULL (head (replicate slots ?q))) with q.
    cbn [deref mbind option_bind cells]. rewrite lookup_insert_eq. reflexivity.
Qed.

Lemma removal_is_undefined_witness :
  exists s : state script, ready s /\ shot_of s = Some (549, 10) /\
    (loop_body 5 s = Fault UseAfterFree \/ exists s1, loop_body 5 s = Ok tt s1).
Proof.
  destruct round_session as (s1 & s2 & i & s3 & _ & _ & _ & _ & Hs2 & Hr & Hsh & Hp & _).
  destruct (shot_moved s2 549 630 10 Hr Hsh ltac:(unfold SHIP_YPOS; lia)) as (c & Hr' & Hq). set (s := with_bullets c s2) in *.
  assert (gameState s = PLAYING) as Hg by exact (session_last _ _ _ _ _ Hs2).
  assert (plugged [] [Message HARDWARE (BIT 0)] s) as Hp' by exact Hp.
  destruct (tick_arrives [] [] s Hr' Hp') as [j Hj].
  assert (removal (notification_events 5 s) (view s) = true) as Hrem.
  { rewrite Hj. cbn [removal removes]. change (g_mode (view s)) with (gameState s). rewrite Hg. unfold frame_removes, shot_leaves.
    change (g_shot ((view s) <| g_clock := i32 (g_clock (view s) + 1) |>)) with (shot_of s). rewrite Hq. reflexivity. }
  exists s. split; [exact Hr'|]. split; [exact Hq|].
  destruct (removal_is_undefined 5 s ltac:(lia) Hr' Hrem) as [H|(s4 & H & _)]; [left; exact H|right; exists s4; exact H].
Defined.
