(* ===== verification/GameTypes.v ===== *)
(** * The types of the variables of the game

    [typed]: every global, every object on the heaps, every array and every local of
    [game_loop] holds a value of its C type and every array has its length.  Each
    function of the project keeps it, whatever the player does and whatever faults the
    rest of the program has: the conversions that the definitions write out are all
    that the C types require. *)

From S2P Require Import Prelude CMonad Heap Memory Lcf Minix Typing Macros ProjState Graphics Timer.
From S2P Require Import Keyboard MouseDriver Rtc Ship Aliens ShipBullets AlienBullets Menu GameSpec Game GameScore GameSession.
From stdpp Require Import options.

(** ** The types *)

Record typed_image (i : xpm_image_t) : Prop := TypedImage {
  ty_width : in_u16 (width i);
  ty_height : in_u16 (height i);
  ty_bytes : Forall in_u8 (bytes i);
}.

Record typed_packet (p : packet) : Prop := TypedPacket {
  ty_pp_bytes : length (pp_bytes p) = 3%nat /\ Forall in_u8 (pp_bytes p);
  ty_delta_x : in_i16 (pp_delta_x p);
  ty_delta_y : in_i16 (pp_delta_y p);
}.

Record typed_alien (a : Alien) : Prop := TypedAlien {
  ty_alien_x : in_i32 (alien_x a);
  ty_alien_y : in_i32 (alien_y a);
  ty_alien_width : in_i32 (alien_width a);
  ty_alien_height : in_i32 (alien_height a);
  ty_alien_value : in_i32 (alien_value a);
  ty_alien_img : typed_image (alien_img a);
  ty_alien_img_mov : typed_image (alien_img_mov a);
}.

Record typed_ship (s : Ship) : Prop := TypedShip {
  ty_ship_x : in_i32 (ship_x s);
  ty_ship_y : in_i32 (ship_y s);
  ty_ship_speed : in_i32 (ship_speed s);
  ty_ship_lives : in_i32 (ship_lives s);
  ty_ship_score : in_i32 (ship_score s);
  ty_ship_img : typed_image (ship_img s);
}.

Record typed_bullet (b : ShipBullet) : Prop := TypedBullet {
  ty_sb_x : in_i32 (sb_x b);
  ty_sb_y : in_i32 (sb_y b);
  ty_sb_speed : in_i32 (sb_speed b);
  ty_sb_img : typed_image (sb_img b);
}.

Record typed_shot (b : AlienBullet) : Prop := TypedShot {
  ty_ab_x : in_i32 (ab_x b);
  ty_ab_y : in_i32 (ab_y b);
  ty_ab_speed : in_i32 (ab_speed b);
  ty_ab_img : typed_image (ab_img b);
}.

Record typed_mouse (m : Mouse) : Prop := TypedMouse {
  ty_mouse_x : in_i32 (mouse_x m);
  ty_mouse_y : in_i32 (mouse_y m);
  ty_mouse_img : typed_image (mouse_img m);
}.

Record typed_gfx (g : graphics) : Prop := TypedGfx {
  ty_Xres : in_u16 (Xres g);
  ty_Yres : in_u16 (Yres g);
  ty_bitsPerPixel : in_i32 (bitsPerPixel g);
  ty_color_mode : in_u8 (color_mode g);
}.

Definition typed_imgs (i : images) : Prop := Forall typed_image
  [zero_xpm i; one_xpm i; two_xpm i; three_xpm i; four_xpm i; five_xpm i; six_xpm i; seven_xpm i; eight_xpm i; nine_xpm i;
   menu_start_xpm i; menu_instructions_xpm i; menu_exit_xpm i; menu_xpm i; instructions_xpm i; instructions_back_xpm i].

Record typed_locals (l : locals) : Prop := TypedLocals {
  ty_mouse_bit_no : in_i32 (mouse_bit_no l);
  ty_kbd_bit_no : in_u8 (kbd_bit_no l);
  ty_rtc_bit_no : in_u8 (rtc_bit_no l);
  ty_timer_bit_no : in_u8 (timer_bit_no l);
  ty_pp : typed_packet (pp l);
  ty_currentByte : in_i32 (currentByte l);
  ty_mouseBytes : length (mouseBytes l) = 3%nat /\ Forall in_u8 (mouseBytes l);
  ty_kbd_size : in_i32 (kbd_size l);
  ty_kbdBytes : length (kbdBytes l) = 2%nat /\ Forall in_u8 (kbdBytes l);
  ty_ipf : in_i32 (ipf l);
  ty_background : typed_image (background l);
  ty_shipBullet_img : typed_image (shipBullet_img l);
  ty_alienBullet_img : typed_image (alienBullet_img l);
  ty_initialScreen : typed_image (initialScreen l);
}.

(** The scalars of the drivers and of game.c. *)
Definition typed_scalars {D} (s : state D) : Prop :=
  Forall in_i32 [timer_hookid s; timer_counter s; kbd_hookid s; mouse_hookid s; ih_error s; rtc_hook_id s; speed s;
                 frames_per_state s; row s; killCount s; frame_counter s; roundNum s] /\
  Forall in_u8 [keyboard_scancode s; mouse_scancode s; mouse_statuscode s].

Record typed {D} (s : state D) : Prop := Typed {
  ty_scalars : typed_scalars s;
  ty_gfx : typed_gfx (gfx s);
  ty_imgs : typed_imgs (imgs s);
  ty_ships : heap_of typed_ship (ships s);
  ty_mice : heap_of typed_mouse (mice s);
  ty_bullets : heap_of typed_bullet (bullets s);
  ty_alien_bullets : heap_of typed_shot (alien_bullets s);
  ty_shipBullets : length (shipBullets s) = Z.to_nat MAX_SHIP_BULLETS;
  ty_aliens : length (aliens s) = Z.to_nat SIZE_OF_ALIENS /\ Forall typed_alien (aliens s);
  ty_loc : typed_locals (loc s);
}.

Definition typed_mode (i : vbe_mode_info_t) : Prop :=
  in_u16 (XResolution i) /\ in_u16 (YResolution i) /\ in_u8 (BitsPerPixel i) /\ in_u8 (MemoryModel i).

(** The system calls store values of the types that their prototypes declare. *)
Class KernelTypes (D : Type) `{K : Kernel D} := {
  kt_hook irq policy h d : in_i32 h -> in_i32 (snd (fst (sys_irqsetpolicy irq policy h d)));
  kt_mode m d : typed_mode (snd (fst (vbe_get_mode_info m d)));
  kt_image m d : in_u16 (xpm_columns m) -> in_u16 (xpm_rows m) -> typed_image (fst (xpm_load m XPM_INDEXED d));
}.

#[export] Hint Resolve ty_width ty_height ty_bytes ty_delta_x ty_delta_y ty_alien_x ty_alien_y ty_alien_width
  ty_alien_height ty_alien_value ty_alien_img ty_alien_img_mov ty_ship_x ty_ship_y ty_ship_speed ty_ship_lives
  ty_ship_score ty_ship_img ty_sb_x ty_sb_y ty_sb_speed ty_sb_img ty_ab_x ty_ab_y ty_ab_speed ty_ab_img
  ty_mouse_x ty_mouse_y ty_mouse_img : values.
#[export] Hint Resolve ty_mouse_bit_no ty_kbd_bit_no ty_rtc_bit_no ty_timer_bit_no ty_pp ty_currentByte ty_mouseBytes
  ty_kbd_size ty_kbdBytes ty_ipf ty_background ty_shipBullet_img ty_alienBullet_img ty_initialScreen : values.
#[export] Hint Resolve ty_gfx ty_imgs ty_ships ty_mice ty_bullets ty_alien_bullets ty_loc : values.

(** ** Values *)

(** The elements of [Forall P [x1; ...; xn]]. *)
Ltac forall_split H := repeat (apply Forall_cons in H as [? H]).

Lemma u8_i32 z : in_u8 z -> in_i32 z.
Proof. unfold in_u8, in_i32. lia. Qed.

Lemma u16_i32 z : in_u16 z -> in_i32 z.
Proof. unfold in_u16, in_i32. lia. Qed.

#[export] Hint Resolve u16_i32 : values.

Lemma clamp_i32 hi x : in_u16 hi -> in_i32 x -> in_i32 (clamp X_MIN (X_MAX - hi) x).
Proof. unfold clamp, X_MIN, X_MAX, in_u16, in_i32. intros. repeat ifcase; lia. Qed.

Lemma typed_no_image : typed_image no_image.
Proof. split; [unfold in_u16; cbn; lia..|constructor]. Qed.

Lemma nth_u8 i l : Forall in_u8 l -> in_u8 (nth i l 0).
Proof.
  intros Hl. destruct (nth_in_or_default i l 0) as [Hi| ->]; [|unfold in_u8; lia].
  rewrite Forall_forall in Hl. apply Hl. by apply list_elem_of_In.
Qed.

Lemma typed_getMousePacket l : length l = 3%nat /\ Forall in_u8 l -> typed_packet (getMousePacket l).
Proof.
  intros [_ Hl]. split; cbn.
  - split; [done|]. repeat constructor; by apply nth_u8.
  - destruct (ctrue _); apply i16_range.
  - destruct (ctrue _); apply i16_range.
Qed.

Lemma typed_move_mouse p m : typed_mouse m -> typed_mouse (move_mouse p m).
Proof.
  intros [Hx Hy Hi]. pose proof (ty_width _ Hi) as Hw. pose proof (ty_height _ Hi) as Hh. unfold in_u16 in Hw, Hh.
  split; cbn; [| |exact Hi]; unfold X_RES, Y_RES.
  all: repeat case_match; first [apply i32_range|unfold in_i32; lia].
Qed.

Lemma insert_u8 i b n l : in_u8 b -> length l = n /\ Forall in_u8 l -> length (<[i := b]> l) = n /\ Forall in_u8 (<[i := b]> l).
Proof. intros Hb [Hl Hf]. rewrite length_insert. split; [done|by apply Forall_insert]. Qed.

Lemma typed_init_locals : typed_locals init_locals.
Proof.
  split; cbn; unfold in_i32, in_u8; try lia; try apply typed_no_image; try (split; [done|]; repeat constructor; unfold in_u8; lia).
  split; cbn; [|unfold in_i16; lia..]. split; [done|]. repeat constructor; unfold in_u8; lia.
Qed.

(** The rate of the timer. *)
Lemma quot_60_i32 z : in_i32 z -> in_i32 (z ÷ 60).
Proof. unfold in_i32. intros. Z.to_euclidean_division_equations. lia. Qed.

#[export] Hint Resolve typed_init_locals quot_60_i32 clamp_i32 typed_no_image typed_getMousePacket typed_move_mouse insert_u8 : values.

Section scalars.
Context {D : Type} (s : state D) (Hs : typed s).

Ltac scalar := destruct (ty_scalars s Hs) as [Hi Hb]; forall_split Hi; forall_split Hb; assumption.

Lemma ty_timer_hookid : in_i32 (timer_hookid s).
Proof using Hs. scalar. Qed.

Lemma ty_timer_counter : in_i32 (timer_counter s).
Proof using Hs. scalar. Qed.

Lemma ty_kbd_hookid : in_i32 (kbd_hookid s).
Proof using Hs. scalar. Qed.

Lemma ty_mouse_hookid : in_i32 (mouse_hookid s).
Proof using Hs. scalar. Qed.

Lemma ty_ih_error : in_i32 (ih_error s).
Proof using Hs. scalar. Qed.

Lemma ty_rtc_hook_id : in_i32 (rtc_hook_id s).
Proof using Hs. scalar. Qed.

Lemma ty_speed : in_i32 (speed s).
Proof using Hs. scalar. Qed.

Lemma ty_frames_per_state : in_i32 (frames_per_state s).
Proof using Hs. scalar. Qed.

Lemma ty_row : in_i32 (row s).
Proof using Hs. scalar. Qed.

Lemma ty_killCount : in_i32 (killCount s).
Proof using Hs. scalar. Qed.

Lemma ty_frame_counter : in_i32 (frame_counter s).
Proof using Hs. scalar. Qed.

Lemma ty_roundNum : in_i32 (roundNum s).
Proof using Hs. scalar. Qed.

Lemma ty_keyboard_scancode : in_u8 (keyboard_scancode s).
Proof using Hs. scalar. Qed.

Lemma ty_mouse_scancode : in_u8 (mouse_scancode s).
Proof using Hs. scalar. Qed.

Lemma ty_mouse_statuscode : in_u8 (mouse_statuscode s).
Proof using Hs. scalar. Qed.

End scalars.

#[export] Hint Resolve ty_timer_hookid ty_timer_counter ty_kbd_hookid ty_mouse_hookid ty_ih_error ty_rtc_hook_id ty_speed ty_frames_per_state ty_row ty_killCount ty_frame_counter ty_roundNum ty_keyboard_scancode ty_mouse_scancode ty_mouse_statuscode : values.

(** ** Updates of the state *)

Section updates.
Context {D : Type}.
Implicit Types s : state D.

Lemma typed_dev d s : typed s -> typed (s <| dev := d |>).
Proof. by intros []. Qed.

Lemma typed_set_gfx g s : typed s -> typed_gfx g -> typed (s <| gfx := g |>).
Proof. by intros []. Qed.

Lemma typed_set_imgs i s : typed s -> typed_imgs i -> typed (s <| imgs := i |>).
Proof. by intros []. Qed.

Lemma typed_set_ships h s : typed s -> heap_of typed_ship h -> typed (s <| ships := h |>).
Proof. by intros []. Qed.

Lemma typed_set_mice h s : typed s -> heap_of typed_mouse h -> typed (s <| mice := h |>).
Proof. by intros []. Qed.

Lemma typed_set_bullets h s : typed s -> heap_of typed_bullet h -> typed (s <| bullets := h |>).
Proof. by intros []. Qed.

Lemma typed_set_alien_bullets h s : typed s -> heap_of typed_shot h -> typed (s <| alien_bullets := h |>).
Proof. by intros []. Qed.

Lemma typed_set_loc l s : typed s -> typed_locals l -> typed (s <| loc := l |>).
Proof. by intros []. Qed.

Lemma typed_set_slot i p s : typed s -> typed (s <| shipBullets := <[i := p]> (shipBullets s) |>).
Proof. intros []; split; try assumption. get_set. by rewrite length_insert. Qed.

Lemma typed_set_alien i a s : typed s -> typed_alien a -> typed (s <| aliens := <[i := a]> (aliens s) |>).
Proof.
  intros [? ? ? ? ? ? ? ? [Hl Hf] ?] Ha; split; try assumption. get_set. rewrite length_insert.
  split; [done|by apply Forall_insert].
Qed.

(** An update of scalars. *)
Lemma typed_update s s' :
  typed s -> typed_scalars s' -> gfx s' = gfx s -> imgs s' = imgs s -> ships s' = ships s -> mice s' = mice s ->
  bullets s' = bullets s -> alien_bullets s' = alien_bullets s -> shipBullets s' = shipBullets s -> aliens s' = aliens s ->
  loc s' = loc s -> typed s'.
Proof. intros [] Hsc Hg Hi Hs Hm Hb Hab Hsb Ha Hl. split; rewrite ?Hg, ?Hi, ?Hs, ?Hm, ?Hb, ?Hab, ?Hsb, ?Ha, ?Hl; done. Qed.

End updates.

Ltac typed_scalar :=
  lazymatch goal with
  | Hs : typed ?s |- typed_scalars _ =>
      let Hi := fresh "Hi" in let Hb := fresh "Hb" in
      destruct (ty_scalars s Hs) as [Hi Hb]; forall_split Hi; forall_split Hb;
      split; repeat (apply Forall_cons; split); get_set; first [assumption | value_side | constructor]
  end.

(** The obligation of a store. *)
Ltac typed_store :=
  lazymatch goal with
  | |- forall s, typed s -> typed (s <| loc := init_locals |>) => intros; by apply typed_set_loc, typed_init_locals
  | |- forall s, typed s -> typed (s <| loc := _ |>) =>
      let s := fresh "s" in let Hs := fresh "Hs" in
      intros s Hs; apply typed_set_loc; [exact Hs|]; pose proof (ty_loc s Hs) as []; split; get_set; first [assumption | value_side]
  | |- forall s, typed s -> typed (s <| imgs := _ |>) =>
      let s := fresh "s" in let Hs := fresh "Hs" in
      intros s Hs; apply typed_set_imgs; [exact Hs|]; pose proof (ty_imgs s Hs) as Hi; unfold typed_imgs in *; forall_split Hi;
      repeat (apply Forall_cons; split); get_set; first [assumption | value_side | constructor]
  | |- forall s, typed s -> typed _ =>
      let s := fresh "s" in let Hs := fresh "Hs" in
      intros s Hs; first [by destruct Hs | by apply typed_set_slot | apply (typed_update s); [exact Hs|typed_scalar|done..]]
  end.

#[export] Hint Resolve typed_dev typed_set_ships typed_set_mice typed_set_bullets typed_set_alien_bullets : values.

Section types.
Context {D : Type} `{KT : KernelTypes D}.
Implicit Types s : state D.

(** ** The primitives *)

Lemma ht_util_sys_inb port : has_type (S := state D) typed (from_option in_u8 True) (util_sys_inb port).
Proof.
  unfold util_sys_inb. apply (ht_bind _ any_value); [apply ht_sys; [done|eauto using typed_dev]|]. intros [rc v] _.
  destruct (ctrue rc); apply ht_ret; [done|apply u8_range].
Qed.

Lemma ht_memcpy_video off l : has_type (S := state D) typed any_value (memcpy_video off l).
Proof.
  intros s Hs. unfold memcpy_video. destruct (video_mem (gfx s)); [|done]. destruct (_ && _); [|done].
  split; [done|]. apply typed_set_gfx; [done|]. by destruct (ty_gfx s Hs).
Qed.

Lemma ht_displayScreen : has_type (S := state D) typed any_value displayScreen.
Proof.
  intros s Hs. unfold displayScreen. cbv zeta. destruct (video_mem (gfx s)), (display_mem (gfx s)); try done.
  destruct (_ && _); [|done]. split; [done|]. apply typed_set_gfx; [done|]. by destruct (ty_gfx s Hs).
Qed.

Lemma ht_alien_at i : has_type (S := state D) typed typed_alien (alien_at i).
Proof.
  intros s Hs. unfold alien_at. destruct (aliens s !! i) eqn:Ha; [|done]. split; [|done].
  eapply Forall_lookup_1; [apply (ty_aliens s Hs)|done].
Qed.

Lemma ht_set_alien i a : typed_alien a -> has_type (S := state D) typed any_value (set_alien i a).
Proof. intros Ha. apply ht_modify; [done|]. intros s Hs. by apply typed_set_alien. Qed.

Lemma ht_slot i : has_type (S := state D) typed any_value (slot i).
Proof. intros s Hs. unfold slot. by destruct (shipBullets s !! i). Qed.

Lemma ht_xpm m : in_u16 (xpm_columns m) -> in_u16 (xpm_rows m) ->
  has_type (S := state D) typed typed_image (sys dev (xpm_load m XPM_INDEXED)).
Proof using KT. intros Hc Hr. apply ht_sys; [intros d; by apply kt_image|eauto using typed_dev]. Qed.

Lemma ht_policy irq policy h : in_i32 h ->
  has_type (S := state D) typed (on_snd in_i32) (sys dev (sys_irqsetpolicy irq policy h)).
Proof using KT. intros Hh. apply ht_sys; [intros d; by apply kt_hook|eauto using typed_dev]. Qed.

Lemma ht_mode m : has_type (S := state D) typed (on_snd typed_mode) (sys dev (vbe_get_mode_info m)).
Proof using KT. apply ht_sys; [intros d; apply kt_mode|eauto using typed_dev]. Qed.

Lemma ht_other {A} (f : D -> A * D) : has_type (S := state D) typed any_value (sys dev f).
Proof. apply ht_sys; [done|eauto using typed_dev]. Qed.

Lemma ht_other_ (f : D -> D) : has_type (S := state D) typed any_value (sys_ dev f).
Proof. apply ht_sys_; [done|eauto using typed_dev]. Qed.

End types.

#[export] Hint Resolve ht_util_sys_inb ht_memcpy_video ht_displayScreen ht_alien_at ht_slot : typing.
#[export] Hint Resolve ht_other ht_other_ : typing.

#[export] Hint Unfold NUMLIVES SHIP_YPOS SHIP_BULLET_SPEED ALIEN_BULLET_SPEED INITIAL_ALIEN_SPEED : typing_consts.

Ltac typed_object := first [ value_side | split; get_set; cbn [ship_x ship_y ship_speed ship_lives ship_score ship_img alien_x alien_y alien_width alien_height alien_value alien_img alien_img_mov mouse_x mouse_y mouse_img]; value_side ].

Ltac typing_prim ::=
  lazymatch goal with
  | |- has_type _ _ (sys _ (sys_irqsetpolicy _ _ _)) => apply ht_policy; value_side
  | |- has_type _ _ (sys _ (vbe_get_mode_info _)) => apply ht_mode
  | |- has_type _ _ (sys _ (xpm_load _ XPM_INDEXED)) => apply ht_xpm; unfold in_u16; cbn; lia
  | |- has_type _ _ (load ships _) => apply (ht_load _ typed_ship); exact ty_ships
  | |- has_type _ _ (load mice _) => apply (ht_load _ typed_mouse); exact ty_mice
  | |- has_type _ _ (load bullets _) => apply (ht_load _ typed_bullet); exact ty_bullets
  | |- has_type _ _ (load alien_bullets _) => apply (ht_load _ typed_shot); exact ty_alien_bullets
  | |- has_type _ _ (store ships _ _) => apply (ht_store _ typed_ship any_value); [done|exact ty_ships|typed_object|by intros; apply typed_set_ships]
  | |- has_type _ _ (store mice _ _) => apply (ht_store _ typed_mouse any_value); [done|exact ty_mice|typed_object|by intros; apply typed_set_mice]
  | |- has_type _ _ (store bullets _ _) => apply (ht_store _ typed_bullet any_value); [done|exact ty_bullets|typed_object|by intros; apply typed_set_bullets]
  | |- has_type _ _ (store alien_bullets _ _) => apply (ht_store _ typed_shot any_value); [done|exact ty_alien_bullets|typed_object|by intros; apply typed_set_alien_bullets]
  | |- has_type _ _ (malloc ships _) => apply (ht_malloc _ typed_ship); [exact ty_ships|typed_object|by intros; apply typed_set_ships]
  | |- has_type _ _ (malloc mice _) => apply (ht_malloc _ typed_mouse); [exact ty_mice|typed_object|by intros; apply typed_set_mice]
  | |- has_type _ _ (malloc bullets _) => apply (ht_malloc _ typed_bullet); [exact ty_bullets|typed_object|by intros; apply typed_set_bullets]
  | |- has_type _ _ (malloc alien_bullets _) => apply (ht_malloc _ typed_shot); [exact ty_alien_bullets|typed_object|by intros; apply typed_set_alien_bullets]
  | |- has_type _ _ (free ships _) => apply (ht_free _ typed_ship any_value); [done|exact ty_ships|by intros; apply typed_set_ships]
  | |- has_type _ _ (free mice _) => apply (ht_free _ typed_mouse any_value); [done|exact ty_mice|by intros; apply typed_set_mice]
  | |- has_type _ _ (free bullets _) => apply (ht_free _ typed_bullet any_value); [done|exact ty_bullets|by intros; apply typed_set_bullets]
  | |- has_type _ _ (free alien_bullets _) => apply (ht_free _ typed_shot any_value); [done|exact ty_alien_bullets|by intros; apply typed_set_alien_bullets]
  | |- has_type _ _ (set_alien _ _) => apply ht_set_alien; typed_object
  end.

Section program.
Context {D : Type} `{KT : KernelTypes D}.
Implicit Types s : state D.

(** ** The drivers *)

Abbreviation ht T m := (has_type (S := state D) typed T m).

Ltac typing_all := typing; typed_store.

Lemma ht_timer_subscribe_int : ht in_i32 timer_subscribe_int.
Proof using KT. unfold timer_subscribe_int. typing_all. Qed.

Lemma ht_kbd_subscribe_int : ht in_i32 kbd_subscribe_int.
Proof using KT. unfold kbd_subscribe_int. typing_all. Qed.

Lemma ht_mouse_subscribe_int : ht in_i32 mouse_subscribe_int.
Proof using KT. unfold mouse_subscribe_int. typing_all. Qed.

Lemma ht_rtc_subscribe_int : ht in_i32 rtc_subscribe_int.
Proof using KT. unfold rtc_subscribe_int. typing_all. Qed.

Lemma ht_unsubscribe : ht in_i32 timer_unsubscribe_int /\ ht in_i32 kbd_unsubscribe_int /\ ht in_i32 mouse_unsubscribe_int /\ ht in_i32 rtc_unsubscribe_int.
Proof. unfold timer_unsubscribe_int, kbd_unsubscribe_int, mouse_unsubscribe_int, rtc_unsubscribe_int. split_and!; typing. Qed.

Lemma ht_kbc_ih : ht any_value kbc_ih.
Proof. unfold kbc_ih. typing_all. Qed.

Lemma ht_mouse_ih : ht any_value mouse_ih.
Proof. unfold mouse_ih. typing_all. Qed.

Lemma ht_read_status : ht in_u8 read_status.
Proof. unfold read_status. typing_all. Qed.
#[local] Hint Resolve ht_read_status : typing.

Lemma ht_send_mouse_loop fuel cmd ack : ht in_i32 (send_mouse_loop fuel cmd ack).
Proof. revert ack. induction fuel as [|n IH]; intros ack; cbn [send_mouse_loop]; unfold send_mouse_iteration; typing. Qed.
#[local] Hint Resolve ht_send_mouse_loop : typing.

Lemma ht_send_mouse_command fuel cmd : ht in_i32 (send_mouse_command fuel cmd).
Proof. unfold send_mouse_command. typing. Qed.

Lemma ht_vg_get_mode_info m : ht in_i32 (vg_get_mode_info m).
Proof using KT.
  unfold vg_get_mode_info. typing; intros s Hs; destruct (ty_gfx s Hs); apply typed_set_gfx; try exact Hs; split; get_set; try done.
  all: destruct Ha as (? & ? & ? & ?); cbn [snd] in *; try done. by apply u8_i32.
Qed.

Lemma ht_vg_set_mode m : ht in_i32 (vg_set_mode m).
Proof. unfold vg_set_mode. typing. Qed.

Lemma ht_rtc_read reg : ht (from_option in_u8 True) (rtc_read reg).
Proof. unfold rtc_read. typing. Qed.

Lemma ht_rtc_write v reg : ht in_i32 (rtc_write v reg).
Proof. unfold rtc_write. typing. Qed.
#[local] Hint Resolve ht_rtc_read ht_rtc_write : typing.

Lemma ht_rtc_enable : ht in_i32 rtc_enable.
Proof. unfold rtc_enable. typing. Qed.

Lemma ht_rtc_disable : ht in_i32 rtc_disable.
Proof. unfold rtc_disable. typing. Qed.

(** ** Drawing *)

Lemma ht_drawPixel x y c : ht any_value (drawPixel x y c).
Proof. unfold drawPixel. typing. Qed.
#[local] Hint Resolve ht_drawPixel : typing.

Lemma ht_img_byte img i : ht any_value (img_byte img i).
Proof. unfold img_byte. typing. Qed.
#[local] Hint Resolve ht_img_byte : typing.

Lemma ht_drawXpm x y img : ht in_i32 (drawXpm x y img).
Proof. unfold drawXpm. typing. Qed.
#[local] Hint Resolve ht_drawXpm : typing.

Lemma ht_drawBackground img : ht any_value (drawBackground img).
Proof. unfold drawBackground. typing. Qed.
#[local] Hint Resolve ht_drawBackground : typing.

Lemma ht_drawMouse p : ht any_value (drawMouse p).
Proof. unfold drawMouse. typing. Qed.

Lemma ht_drawMenu b : ht in_i32 (drawMenu b).
Proof. unfold drawMenu. typing. Qed.

Lemma ht_drawInstructions b : ht in_i32 (drawInstructions b).
Proof. unfold drawInstructions. typing. Qed.

Lemma ht_drawAlien i mov : ht in_i32 (drawAlien i mov).
Proof. unfold drawAlien. typing. Qed.

Lemma ht_loadXpm m : in_u16 (xpm_columns m) -> in_u16 (xpm_rows m) -> ht typed_image (loadXpm m).
Proof using KT. apply ht_xpm. Qed.

Lemma ht_initMenuXpm : ht any_value initMenuXpm.
Proof using KT. unfold initMenuXpm. typing_all. Qed.

Lemma ht_initNumbers : ht any_value initNumbers.
Proof using KT. unfold initNumbers. typing_all. Qed.
#[local] Hint Resolve ht_drawMouse ht_drawMenu ht_drawInstructions ht_drawAlien ht_loadXpm : typing.

Lemma ht_updateMouse p m : ht any_value (updateMouse p m).
Proof. unfold updateMouse. typing. Qed.

(** ** The objects of the game *)

Lemma ht_createShip x y v : in_i32 x -> in_i32 y -> in_i32 v -> ht any_value (createShip x y v).
Proof using KT. intros. unfold createShip. typing. Qed.

Lemma ht_updateShipPosition p k : ht any_value (updateShipPosition p k).
Proof. unfold updateShipPosition. typing. Qed.

Lemma ht_drawShip p : ht any_value (drawShip p).
Proof. unfold drawShip. typing. Qed.

Lemma ht_draw_digits ds x : ht any_value (draw_digits ds x).
Proof. revert x. induction ds as [|y ds IH]; intros x; cbn [draw_digits]; typing. Qed.
#[local] Hint Resolve ht_draw_digits : typing.

Lemma ht_drawScore p : ht any_value (drawScore p).
Proof. unfold drawScore. typing. Qed.

Lemma ht_drawLives p : ht any_value (drawLives p).
Proof. unfold drawLives. typing. Qed.

Lemma ht_increaseScore v p : ht any_value (increaseScore v p).
Proof. unfold increaseScore. typing. Qed.

Lemma ht_createShipBullet x y v img : in_i32 x -> in_i32 y -> in_i32 v -> typed_image img -> ht any_value (createShipBullet x y v img).
Proof. intros. unfold createShipBullet, slot_free. typing_all. Qed.

Lemma ht_updateShipBulletPosition : ht any_value updateShipBulletPosition.
Proof. unfold updateShipBulletPosition, advance_slot, removeShipBullet. typing. Qed.

Lemma ht_drawShipBullets : ht any_value drawShipBullets.
Proof. unfold drawShipBullets. typing. Qed.

Lemma ht_initShipBullets : ht any_value initShipBullets.
Proof. unfold initShipBullets. typing_all. Qed.
#[local] Hint Resolve ht_updateMouse ht_createShip ht_updateShipPosition ht_drawShip ht_drawScore ht_drawLives ht_increaseScore
  ht_createShipBullet ht_updateShipBulletPosition ht_drawShipBullets ht_initShipBullets : typing.

Lemma ht_verify i sp : ht any_value (verifyAlienAndBulletCollision i sp).
Proof. unfold verifyAlienAndBulletCollision, verify_slot, removeShipBullet. typing_all. Qed.

Lemma ht_initAlienBullet : ht any_value initAlienBullet.
Proof. unfold initAlienBullet. typing_all. Qed.

Lemma ht_createAlienBullet x y v img : in_i32 x -> in_i32 y -> in_i32 v -> typed_image img -> ht any_value (createAlienBullet x y v img).
Proof. intros. unfold createAlienBullet. typing. Qed.

Lemma ht_updateAlienBulletPosition : ht any_value updateAlienBulletPosition.
Proof. unfold updateAlienBulletPosition. typing. Qed.

Lemma ht_drawAlienBullet : ht any_value drawAlienBullet.
Proof. unfold drawAlienBullet. typing. Qed.

Lemma ht_pick_shooter fuel : ht any_value (pick_shooter fuel).
Proof. induction fuel as [|n IH]; cbn [pick_shooter]; typing. Qed.
#[local] Hint Resolve ht_pick_shooter : typing.

Lemma ht_generateAlienBullet fuel : ht any_value (generateAlienBullet fuel).
Proof. unfold generateAlienBullet. typing. Qed.

Lemma ht_verifyShip sp : ht any_value (verifyShipAndBulletCollision sp).
Proof. unfold verifyShipAndBulletCollision. typing. Qed.

Lemma ht_removeAlienBullet : ht any_value removeAlienBullet.
Proof. unfold removeAlienBullet. typing_all. Qed.

Lemma ht_change_all_y y n : ht any_value (change_all_y y n).
Proof. unfold change_all_y, change_alien_y_coordinates. typing. Qed.

Lemma ht_createAlien_row r xi yi : in_i32 xi -> in_i32 yi -> ht typed_alien (createAlien_row r xi yi).
Proof using KT. intros. unfold createAlien_row, createAlien. typing. all: apply ht_ret; typed_object. Qed.

(** [xi], [yi] and [indice]. *)
Definition typed_cursor (c : Z * Z * nat) : Prop := in_i32 (fst (fst c)) /\ in_i32 (snd (fst c)).

Lemma ht_create_aliens : ht any_value create_aliens.
Proof using KT.
  unfold create_aliens. apply (ht_sub _ typed_cursor); [|done].
  apply ht_for_acc; [split; cbn; unfold in_i32; lia|]. intros _ [[xi yi] n] _ Hc.
  apply (ht_bind _ typed_cursor).
  - apply ht_for_acc; [done|]. intros r [[x y] m] _ [Hx Hy]. apply (ht_bind _ typed_alien); [by apply ht_createAlien_row|].
    intros a Ha. apply (ht_bind _ any_value); [by apply ht_set_alien|]. intros _ _. apply ht_ret. split; [exact Hx|apply i32_range].
  - intros [[x y] m] _. apply ht_ret. split; [apply i32_range|cbn; unfold in_i32; lia].
Qed.

#[local] Hint Resolve ht_verify ht_initAlienBullet ht_createAlienBullet ht_updateAlienBulletPosition ht_drawAlienBullet
  ht_generateAlienBullet ht_verifyShip ht_removeAlienBullet ht_change_all_y ht_create_aliens : typing.
#[local] Hint Resolve ht_timer_subscribe_int ht_kbd_subscribe_int ht_mouse_subscribe_int ht_rtc_subscribe_int ht_kbc_ih ht_mouse_ih
  ht_send_mouse_command ht_vg_get_mode_info ht_vg_set_mode ht_rtc_enable ht_rtc_disable ht_initMenuXpm ht_initNumbers : typing.

(** ** The game *)

Lemma ht_initGame p : ht any_value (initGame p).
Proof using KT. unfold initGame, loadBackground, loadXpm. typing_all. Qed.
#[local] Hint Resolve ht_initGame : typing.

Lemma ht_show_menu : ht any_value show_menu.
Proof. unfold show_menu. typing. Qed.
#[local] Hint Resolve ht_show_menu : typing.

Lemma ht_mouse_interrupt : ht any_value mouse_interrupt.
Proof using KT. unfold mouse_interrupt, set_mouse_byte, mouse_packet, mouse_in_menu, mouse_in_instructions, mouse_in_game. typing_all. Qed.

Lemma ht_keyboard_interrupt : ht any_value keyboard_interrupt.
Proof using KT. unfold keyboard_interrupt, set_kbd_byte. typing_all. Qed.

Lemma ht_lose_game : ht any_value lose_game.
Proof using KT. unfold lose_game. typing_all. Qed.
#[local] Hint Resolve ht_lose_game : typing.

Lemma ht_alien_step i : ht any_value (alien_step i).
Proof using KT. unfold alien_step, advance_alien, change_alien_x_coordinates. typing_all. Qed.
#[local] Hint Resolve ht_alien_step : typing.

Lemma ht_timer_interrupt fuel : ht any_value (timer_interrupt fuel).
Proof using KT. unfold timer_interrupt, timer_int_handler, timer_in_game, timer_in_next_round, timer_in_menu, draw_frame, alien_fire, alien_move. typing_all. Qed.
#[local] Hint Resolve ht_mouse_interrupt ht_keyboard_interrupt ht_timer_interrupt : typing.

Lemma ht_loop_body fuel : ht any_value (loop_body fuel).
Proof using KT. unfold loop_body, dispatch, hardware_interrupt. typing. Qed.
#[local] Hint Resolve ht_loop_body : typing.

Lemma ht_create_objects : ht any_value create_objects.
Proof using KT.
  unfold create_objects, createMouse, loadBackground, loadInitialScreen, loadXpm, loadShipBulletXpm, loadAlienBulletXpm. typing_all.
Qed.

Lemma ht_subscribe_devices fuel : ht any_value (subscribe_devices fuel).
Proof using KT. unfold subscribe_devices, or_return_1. typing. Qed.

Lemma ht_tear_down fuel : ht any_value (tear_down fuel).
Proof. pose proof ht_unsubscribe. destruct_and!. unfold tear_down, or_return_1, removeMouse, removeShip. typing. Qed.

Lemma ht_splash : ht any_value splash.
Proof. unfold splash. typing. Qed.

Lemma typed_init d : typed (init_state (D := D) d).
Proof.
  split; try (intros l v; cbn; by rewrite lookup_empty).
  - split; repeat (apply Forall_cons; split); try constructor; unfold in_i32, in_u8; cbn; lia.
  - split; cbn; unfold in_u16, in_i32, in_u8; lia.
  - repeat (apply Forall_cons; split); try apply typed_no_image. constructor.
  - done.
  - split; [done|]. apply Forall_replicate. split; cbn; try apply typed_no_image; unfold in_i32; lia.
  - apply typed_init_locals.
Qed.

Lemma handled_typed fuel s s' : rtc (handled fuel) s s' -> typed s -> typed s'.
Proof using KT.
  intros Hrun Hs. induction Hrun as [|s1 s2 s3 [s1' s2' _ [He|He]] _ IH]; [done| |]; apply IH.
  - exact (proj2 (ht_ok _ _ _ _ _ _ (ht_loop_body fuel) Hs He)).
  - exact (proj2 (ht_jumped _ any_value _ _ _ _ (ht_loop_body fuel) Hs He)).
Qed.

Lemma ht_game_loop fuel n : ht in_i32 (game_loop fuel n).
Proof using KT.
  pose proof ht_create_objects. pose proof (ht_subscribe_devices fuel). pose proof ht_splash. pose proof (ht_tear_down fuel).
  unfold game_loop, notification_loop. typing.
Qed.

(** the types of the variables.  Whatever the player does and the devices deliver, from the initial state on every
    variable, every object on the heaps and every element of an array has a value of its C type and the arrays
    keep their lengths: in every state of the notification loop, and when the program returns, which it does
    with an [int]. *)
Theorem variables_keep_their_types fuel n d :
  (forall s0 s, (create_objects ;; subscribe_devices fuel ;; splash) (init_state d) = Ok tt s0 -> rtc (handled fuel) s0 s -> typed s) /\
  (forall r s, game_loop fuel n (init_state d) = Ok r s -> in_i32 r /\ typed s).
Proof using KT.
  split.
  - intros s0 s He Hrun. apply (handled_typed fuel s0 s Hrun).
    assert (ht any_value (create_objects ;; subscribe_devices fuel ;; splash)) as Hset.
    { pose proof ht_create_objects. pose proof (ht_subscribe_devices fuel). pose proof ht_splash. typing. }
    exact (proj2 (ht_ok _ _ _ _ _ _ Hset (typed_init d) He)).
  - intros r s He. exact (ht_ok _ _ _ _ _ _ (ht_game_loop fuel n) (typed_init d) He).
Qed.

End program.

#[export] Instance script_types : KernelTypes script.
Proof.
  split.
  - done.
  - intros m d. cbn. destruct (assoc_mode m (vbe_modes d)) as [i|]; cbn; [unfold vesa_mode|].
    + destruct (m =? 0x105); repeat split; cbn; try apply u16_range; try apply u8_range; unfold in_u16, in_u8; lia.
    + unfold typed_mode, in_u16, in_u8. cbn. lia.
  - intros m d Hc Hr. split; [done|done|]. apply Forall_replicate. unfold in_u8. lia.
Qed.

Lemma variables_keep_their_types_witness :
  (exists s0 s : state script, rtc (handled 5) s0 s /\ gameState s = EXIT /\ typed s) /\
  exists s, game_loop 5 2 (init_state (session_script escape_bytes escape_key)) = Ok 0 s /\ typed s.
Proof.
  split.
  - destruct (session_boot escape_bytes escape_key) as (s0 & He & Hr & Hv & Hs). pose proof (f_equal g_mode Hv : gameState s0 = MENU_DISPLAY) as Hg.
    destruct (session_escape s0 Hr Hs) as (s & Hl & Hx & _).
    assert (rtc (handled 5) s0 s) as Hrun by (apply rtc_once; constructor; [unfold running; rewrite Hg; reflexivity|right; exact Hl]).
    exists s0, s. split; [exact Hrun|]. split; [exact Hx|]. exact (proj1 (variables_keep_their_types 5 2 (session_script escape_bytes escape_key)) s0 s He Hrun).
  - destruct session_returns as [s Hs]. exists s. split; [exact Hs|].
    exact (proj2 (proj2 (variables_keep_their_types 5 2 (session_script escape_bytes escape_key)) 0 s Hs)).
Defined.
