(* ===== verification/Proj.v ===== *)
(** * The program's entry point: proj/src/proj.c *)

From stdpp Require Import strings options.
From S2P Require Import Prelude CMonad Heap Lcf Minix Macros ProjState Game.
#[local] Open Scope Z_scope.
#[local] Open Scope cmonad_scope.

Section proj.
Context {D : Type} `{K : Kernel D} `{F : LcfMain D}.

(** [lcf_start] is what calls [proj_main_loop]. *)
Definition main (argv : list string) : M (state D) Z := call (
  sys dev (lcf_set_language "EN-US") ;;
  sys dev (lcf_trace_calls "/home/lcom/labs/proj/src/trace.txt") ;;
  sys dev (lcf_log_output "/home/lcom/labs/proj/src/output.txt") ;;
  rc <- sys dev (lcf_start argv) ;;
  if ctrue rc then return_ 1 else
  sys dev lcf_cleanup ;;
  ret 0).

Definition proj_main_loop (fuel n : nat) : M (state D) Z := call (
  rc <- game_loop fuel n ;;
  if ctrue rc then return_ 1 else ret 0).

End proj.
