(* ===== verification/Lab0.v ===== *)
(** * Laboratory 0: the greeting (lab0/hello.c)

    The state is what the program has written on the standard output.  The
    format that [main] passes to [printf] has no conversion: the call writes the
    string as it is and its value is the number of characters. *)

From S2P Require Import Prelude CMonad.
From stdpp Require Import strings options.
#[local] Open Scope Z_scope.
#[local] Open Scope cmonad_scope.

(** The character [\n]. *)
Definition newline : string := String (Ascii.ascii_of_nat 10) EmptyString.

Definition printf (s : string) : M string Z :=
  modify (fun out => (out +:+ s)%string);; ret (Z.of_nat (String.length s)).

Definition main : M string Z :=
  call (printf ("Hello, World!" +:+ newline);; return_ 0).

(** The program appends the greeting to its output, once, and succeeds. *)
Lemma main_greets out : main out = Ok 0 (out +:+ "Hello, World!" +:+ newline)%string.
Proof. reflexivity. Qed.
