(* ===== verification/Lab2.v ===== *)
(** * Laboratory 2: the i8254 timer (lab2/timer.c, utils.c, lab2.c, i8254.h) *)

From S2P Require Import Prelude CMonad Heap Lcf Minix.
From stdpp Require Import strings options.
#[local] Open Scope Z_scope.
#[local] Open Scope cmonad_scope.

(** i8254.h *)
Definition TIMER_FREQ : Z := 1193182.

Definition TIMER0_IRQ : Z := 0.

Definition TIMER_0 : Z := 0x40.

Definition TIMER_1 : Z := 0x41.

Definition TIMER_2 : Z := 0x42.

Definition TIMER_CTRL : Z := 0x43.

Definition TIMER_SEL0 : Z := 0x00.

Definition TIMER_SEL1 : Z := BIT 6.

Definition TIMER_SEL2 : Z := BIT 7.

Definition TIMER_RB_CMD : Z := Z.lor (BIT 7) (BIT 6).

Definition TIMER_LSB : Z := BIT 4.

Definition TIMER_MSB : Z := BIT 5.

Definition TIMER_LSB_MSB : Z := Z.lor TIMER_LSB TIMER_MSB.

Definition TIMER_BCD : Z := 0x01.

Definition TIMER_RB_COUNT_ : Z := BIT 5.

Definition TIMER_RB_STATUS_ : Z := BIT 4.

Definition TIMER_RB_SEL (n : Z) : Z := BIT (n + 1).

(** minix/com.h *)
Definition IRQ_REENABLE : Z := 0x001.

(** The globals of timer.c, and [bit_no] of [timer_test_int]. *)
Record lab2 (D : Type) := MkLab2 {
  dev : D;
  hookid : Z;
  timer_counter : Z;
  bit_no : Z;
}.
Arguments MkLab2 {D}.
Arguments dev {D}.
Arguments hookid {D}.
Arguments timer_counter {D}.
Arguments bit_no {D}.

#[export] Instance settable_lab2 {D} : Settable (lab2 D) := fun s =>
  MkLab2 (dev s) (hookid s) (timer_counter s) (bit_no s).

(** One setter per member. *)
#[export] Instance set_dev {D} : Setter (@dev D) := ltac:(build_setter).
#[export] Instance set_hookid {D} : Setter (@hookid D) := ltac:(build_setter).
#[export] Instance set_timer_counter {D} : Setter (@timer_counter D) := ltac:(build_setter).
#[export] Instance set_bit_no {D} : Setter (@bit_no D) := ltac:(build_setter).

Definition init_lab2 {D} (d : D) : lab2 D := MkLab2 d 0 0 0.

Abbreviation assign f v := (modify (fun s => s <| f := v |>)).

(** utils.c.  [valid]: the destination pointer is not [NULL]; [None] is the
    return value 1, [Some b] the return value 0 with [b] stored. *)
Definition util_get_LSB (valid : bool) (val : Z) : option Z :=
  if negb valid then None else Some (u8 val).

Definition util_get_MSB (valid : bool) (val : Z) : option Z :=
  if negb valid then None else Some (u8 (Z.shiftr val 8)).

Section lab2.
Context {D : Type} `{K : Kernel D} `{P : LcfPrint D} `{F : LcfMain D}.

Definition util_sys_inb (port : Z) : M (lab2 D) (option Z) :=
  '(rc, aux) <- sys dev (sys_inb port) ;;
  if ctrue rc then ret None else ret (Some (u8 aux)).

(** timer.c *)
Definition timer_get_conf (timer : Z) : M (lab2 D) (option Z) :=
  if (timer <? 0) || (2 <? timer) then ret None else
  let readBack := u8 (Z.lor (Z.lor TIMER_RB_CMD TIMER_RB_COUNT_) (TIMER_RB_SEL timer)) in
  let timerReg := match timer with 0 => Some TIMER_0 | 1 => Some TIMER_1 | 2 => Some TIMER_2 | _ => None end in
  match timerReg with
  | None => ret None
  | Some timerReg =>
      rc <- sys dev (sys_outb TIMER_CTRL readBack) ;;
      if ctrue rc then ret None else
      util_sys_inb timerReg
  end.

(** The [switch] on the timer: the control word and the register. *)
Definition select_timer (timer controlWord : Z) : option (Z * Z) :=
  match timer with
  | 0 => Some (u8 (Z.lor controlWord TIMER_SEL0), TIMER_0)
  | 1 => Some (u8 (Z.lor controlWord TIMER_SEL1), TIMER_1)
  | 2 => Some (u8 (Z.lor controlWord TIMER_SEL2), TIMER_2)
  | _ => None
  end.

Definition timer_set_frequency (timer freq : Z) : M (lab2 D) Z := call (
  if (freq <? 19) || (TIMER_FREQ <? freq) then return_ 1 else
  if (timer <? 0) || (2 <? timer) then return_ 1 else
  st <- timer_get_conf timer ;;
  match st with
  | None => return_ 1
  | Some status =>
      let status := u8 (Z.land status (Z.lor (Z.lor (Z.lor (BIT 0) (BIT 1)) (BIT 2)) (BIT 3))) in
      let controlWord := u8 (Z.lor status TIMER_LSB_MSB) in
      let frequency := u16 (TIMER_FREQ / freq) in
      match select_timer timer controlWord with
      | None => return_ 1
      | Some (controlWord, timer_reg) =>
          rc <- sys dev (sys_outb TIMER_CTRL controlWord) ;;
          if ctrue rc then return_ 1 else
          match util_get_LSB true frequency, util_get_MSB true frequency with
          | Some lsb, Some msb =>
              rc <- sys dev (sys_outb timer_reg lsb) ;;
              if ctrue rc then return_ 1 else
              rc <- sys dev (sys_outb timer_reg msb) ;;
              if ctrue rc then return_ 1 else
              ret 0
          | _, _ => return_ 1
          end
      end
  end).

Definition timer_subscribe_int : M (lab2 D) Z := call (
  h <- gets hookid ;;
  assign bit_no (u8 h) ;;
  '(rc, h') <- sys dev (sys_irqsetpolicy TIMER0_IRQ IRQ_REENABLE h) ;;
  assign hookid h' ;;
  if ctrue rc then return_ 1 else ret 0).

Definition timer_unsubscribe_int : M (lab2 D) Z := call (
  h <- gets hookid ;;
  rc <- sys dev (sys_irqrmpolicy h) ;;
  if ctrue rc then return_ 1 else ret 0).

Definition timer_int_handler : M (lab2 D) unit :=
  modify (fun s => s <| timer_counter := i32 (timer_counter s + 1) |>).

(** What [timer_display_conf] stores in [val]. *)
Definition conf_field (st : Z) (field : timer_status_field) : timer_status_field_val :=
  match field with
  | tsf_all => val_byte st
  | tsf_initial => val_in_mode (u8 (Z.land (Z.land st TIMER_RB_COUNT_) TIMER_RB_STATUS_))
  | tsf_mode => val_count_mode (u8 (Z.land (Z.land (Z.land st (BIT 1)) (BIT 2)) (BIT 3)))
  | tsf_base => val_bcd (Z.land st TIMER_BCD =? 1)
  end.

Definition timer_display_conf (timer st : Z) (field : timer_status_field) : M (lab2 D) Z := call (
  if (timer <? 0) || (2 <? timer) then return_ 1 else
  rc <- sys dev (timer_print_config timer field (conf_field st field)) ;;
  if ctrue rc then return_ 1 else ret 0).

(** lab2.c *)
Definition main (argv : list string) : M (lab2 D) Z := call (
  sys dev (lcf_set_language "EN-US") ;;
  sys dev (lcf_trace_calls "/home/lcom/labs/lab2/trace.txt") ;;
  sys dev (lcf_log_output "/home/lcom/labs/lab2/output.txt") ;;
  rc <- sys dev (lcf_start argv) ;;
  if ctrue rc then return_ 1 else
  sys dev lcf_cleanup ;;
  ret 0).

Definition timer_test_read_config (timer : Z) (field : timer_status_field) : M (lab2 D) Z := call (
  st <- timer_get_conf timer ;;
  match st with
  | None => return_ 1
  | Some status =>
      rc <- timer_display_conf timer status field ;;
      if ctrue rc then return_ 1 else ret 0
  end).

Definition timer_test_time_base (timer freq : Z) : M (lab2 D) Z := call (
  rc <- timer_set_frequency timer freq ;;
  if ctrue rc then return_ 1 else ret 0).

(** [timer_counter < time * (int)sys_hz()] *)
Definition time_left (time : Z) (s : lab2 D) : bool :=
  timer_counter s <? i32 (time * i32 (sys_hz (dev s))).

(** The body of the loop of [timer_test_int]. *)
Definition timer_test_body : M (lab2 D) unit :=
  '(r, msg, notify) <- sys dev driver_receive ;;
  if ctrue r then jump CContinue else
  when notify (switch (
    if m_source_p msg =? HARDWARE then
      bn <- gets bit_no ;;
      when (ctrue (Z.land (m_interrupts msg) (BIT bn))) (
        timer_int_handler ;;
        tc <- gets timer_counter ;;
        hz <- gets (fun s => i32 (sys_hz (dev s))) ;;
        if hz =? 0 then raise DivByZero else
        when (Z.rem tc hz =? 0) (sys_ dev timer_print_elapsed_time)) ;;
      jump CBreak
    else jump CBreak)).

Definition timer_test_int (fuel : nat) (time : Z) : M (lab2 D) Z := call (
  modify (fun s => s <| bit_no := u8 (BIT (hookid s)) |>) ;;
  rc <- timer_subscribe_int ;;
  if ctrue rc then return_ 1 else
  while_ fuel (time_left time) timer_test_body ;;
  rc <- timer_unsubscribe_int ;;
  if ctrue rc then return_ 1 else
  ret 0).

End lab2.
