(* ===== verification/Lab2Facts.v ===== *)
(** * Laboratory 2: the timer driver against the i8254

    [I8254] states what the chip promises to the driver: three counters, each with
    an operating mode and a divisor, behind a control register that latches a
    status or expects the two bytes of a divisor.  [Ticking] is a system whose
    notifications are all timer interrupts. *)

From S2P Require Import Prelude CMonad Lcf Minix Lab2.
From stdpp Require Import options.

(** What the chip expects next. *)
Inductive pit_phase :=
| PitIdle
| PitStatus (t : Z)
| PitLSB (t : Z)
| PitMSB (t lsb : Z).

Class I8254 (D : Type) `{K : Kernel D} := {
  pit_phase_of : D -> pit_phase;
  (** the low 4 bits of the last control word of a counter: operating mode and BCD *)
  pit_mode : D -> Z -> Z;
  pit_divisor : D -> Z -> Z;
  (** a read-back command that latches the status of counter [t] only *)
  pit_read_back d t : 0 <= t <= 2 -> exists d',
    sys_outb TIMER_CTRL (0xE0 + 2 ^ (t + 1)) d = (0, d') /\ pit_phase_of d' = PitStatus t /\
    (forall k, pit_mode d' k = pit_mode d k) /\ (forall k, pit_divisor d' k = pit_divisor d k);
  pit_status d t : 0 <= t <= 2 -> pit_phase_of d = PitStatus t -> exists st d',
    sys_inb (TIMER_0 + t) d = ((0, st), d') /\ in_u8 st /\ Z.land st 15 = pit_mode d t /\
    (forall k, pit_mode d' k = pit_mode d k) /\ (forall k, pit_divisor d' k = pit_divisor d k);
  (** a control word for counter [t]: both bytes, mode [m] *)
  pit_control d t m : 0 <= t <= 2 -> 0 <= m < 16 -> exists d',
    sys_outb TIMER_CTRL (64 * t + 48 + m) d = (0, d') /\ pit_phase_of d' = PitLSB t /\
    (forall k, pit_mode d' k = if k =? t then m else pit_mode d k) /\
    (forall k, pit_divisor d' k = pit_divisor d k);
  pit_lsb d t b : 0 <= t <= 2 -> in_u8 b -> pit_phase_of d = PitLSB t -> exists d',
    sys_outb (TIMER_0 + t) b d = (0, d') /\ pit_phase_of d' = PitMSB t b /\
    (forall k, pit_mode d' k = pit_mode d k) /\ (forall k, pit_divisor d' k = pit_divisor d k);
  pit_msb d t b lsb : 0 <= t <= 2 -> in_u8 b -> pit_phase_of d = PitMSB t lsb -> exists d',
    sys_outb (TIMER_0 + t) b d = (0, d') /\ pit_phase_of d' = PitIdle /\
    (forall k, pit_mode d' k = pit_mode d k) /\
    (forall k, pit_divisor d' k = if k =? t then lsb + 256 * b else pit_divisor d k);
}.

Section pit.
Context {D : Type} `{C : I8254 D}.
Implicit Types s : lab2 D.

Lemma timer_cases t : 0 <= t <= 2 -> t = 0 \/ t = 1 \/ t = 2.
Proof. lia. Qed.

Lemma timer_get_conf_exec t s :
  0 <= t <= 2 ->
  exists st d, timer_get_conf t s = Ok (Some st) (s <| dev := d |>) /\ in_u8 st /\
    Z.land st 15 = pit_mode (dev s) t /\ (forall k, pit_mode d k = pit_mode (dev s) k) /\
    (forall k, pit_divisor d k = pit_divisor (dev s) k).
Proof.
  intros Ht. destruct (pit_read_back (dev s) t Ht) as (d1 & H1 & Hp & Hm & Hd).
  destruct (pit_status d1 t Ht Hp) as (st & d2 & H2 & Hst & Hland & Hm2 & Hd2).
  exists st, d2. split; [|split; [done|split; [by rewrite Hland|split; intros k; [by rewrite Hm2, Hm|by rewrite Hd2, Hd]]]].
  assert (timer_get_conf t s = bind (sys dev (sys_outb TIMER_CTRL (0xE0 + 2 ^ (t + 1)))) (fun rc =>
    if ctrue rc then ret None else util_sys_inb (TIMER_0 + t)) s) as ->.
  { by destruct (timer_cases t Ht) as [->|[->| ->]]. }
  unfold bind, sys, util_sys_inb, bind, sys. rewrite H1. simpl. rewrite H2. simpl. unfold ret. rewrite u8_id by done. done.
Qed.

(** The words that the driver computes. *)
Lemma low_nibble st : in_u8 st -> u8 (Z.land st (Z.lor (Z.lor (Z.lor (BIT 0) (BIT 1)) (BIT 2)) (BIT 3))) = Z.land st 15.
Proof.
  intros Hs. change (Z.lor _ _) with 15. apply u8_id. change 15 with (Z.ones 4).
  rewrite Z.land_ones by lia. pose proof (Z.mod_pos_bound st (2 ^ 4) ltac:(lia)). lia.
Qed.

Lemma control_word t m :
  0 <= t <= 2 -> 0 <= m < 16 -> select_timer t (u8 (Z.lor m TIMER_LSB_MSB)) = Some (64 * t + 48 + m, TIMER_0 + t).
Proof.
  intros Ht Hm.
  assert (m = 0 \/ m = 1 \/ m = 2 \/ m = 3 \/ m = 4 \/ m = 5 \/ m = 6 \/ m = 7 \/ m = 8 \/ m = 9 \/ m = 10 \/ m = 11 \/
    m = 12 \/ m = 13 \/ m = 14 \/ m = 15) as Hc by lia.
  destruct (timer_cases t Ht) as [->|[->| ->]]; repeat destruct Hc as [->|Hc]; try subst m; reflexivity.
Qed.

Lemma divisor_bytes n : 0 <= n < 65536 -> u8 n + 256 * u8 (Z.shiftr n 8) = n.
Proof.
  intros Hn. rewrite Z.shiftr_div_pow2 by lia. unfold u8, wrap. change (2 ^ 8) with 256.
  pose proof (Z.div_mod n 256 ltac:(lia)). rewrite (Z.mod_small (n / 256)); [lia|].
  split; [apply Z.div_pos; lia|apply Z.div_lt_upper_bound; lia].
Qed.

Lemma divisor_range freq : 19 <= freq <= TIMER_FREQ -> 1 <= TIMER_FREQ / freq < 65536.
Proof.
  unfold TIMER_FREQ. intros Hf. split; [apply Z.div_le_lower_bound; lia|apply Z.div_lt_upper_bound; lia].
Qed.

(** C31: the frequency of a timer.  For every timer and every frequency that a 16-bit divisor can
    express, [timer_set_frequency] returns 0 and programs the divisor [TIMER_FREQ / freq] of
    that timer, least significant byte first; the timer keeps its operating mode and its counting
    base, and the other timers are not touched. *)
Theorem timer_set_frequency_correct t freq s :
  0 <= t <= 2 -> 19 <= freq <= TIMER_FREQ ->
  exists d, timer_set_frequency t freq s = Ok 0 (s <| dev := d |>) /\ pit_phase_of d = PitIdle /\
    (forall k, pit_mode d k = pit_mode (dev s) k) /\
    (forall k, pit_divisor d k = if k =? t then TIMER_FREQ / freq else pit_divisor (dev s) k).
Proof.
  intros Ht Hf. destruct (timer_get_conf_exec t s Ht) as (st & d1 & H1 & Hst & Hm & Hm1 & Hd1).
  pose proof (divisor_range freq Hf) as Hdiv. set (n := TIMER_FREQ / freq) in *.
  assert (0 <= Z.land st 15 < 16) as Hnib by (change 15 with (Z.ones 4); rewrite Z.land_ones by lia; apply Z.mod_pos_bound; lia).
  destruct (pit_control d1 t _ Ht Hnib) as (d2 & H2 & Hp2 & Hm2 & Hd2).
  destruct (pit_lsb d2 t (u8 n) Ht (u8_range _) Hp2) as (d3 & H3 & Hp3 & Hm3 & Hd3).
  destruct (pit_msb d3 t (u8 (Z.shiftr n 8)) _ Ht (u8_range _) Hp3) as (d4 & H4 & Hp4 & Hm4 & Hd4).
  exists d4. split; [|split; [done|split]].
  - unfold timer_set_frequency, call, TIMER_FREQ in *.
    replace ((freq <? 19) || (1193182 <? freq)) with false by lia. replace ((t <? 0) || (2 <? t)) with false by lia.
    unfold bind at 1. rewrite H1. cbn [util_get_LSB util_get_MSB negb]. rewrite low_nibble, control_word by done.
    fold n. rewrite (u16_id n) by lia. unfold bind, sys. get_set. rewrite H2. simpl. rewrite H3. simpl. rewrite H4. simpl. done.
  - intros k. rewrite Hm4, Hm3, Hm2. destruct (k =? t) eqn:E; [|by rewrite Hm1]. apply Z.eqb_eq in E as ->. by rewrite Hm.
  - intros k. rewrite Hd4. destruct (k =? t); [apply divisor_bytes; lia|]. by rewrite Hd3, Hd2, Hd1.
Qed.

End pit.

(** ** Configuration *)

(** the displayed configuration.  Of the four fields of a status byte, [timer_display_conf] prints the
    whole byte and the counting base; the initialisation mode and the operating mode that
    it prints are 0 for every status, since the masks of different bits are
    conjoined. *)
Theorem conf_field_values st :
  in_u8 st ->
  conf_field st tsf_all = val_byte st /\
  conf_field st tsf_base = val_bcd (Z.testbit st 0) /\
  conf_field st tsf_initial = val_in_mode 0 /\
  conf_field st tsf_mode = val_count_mode 0.
Proof.
  intros Hs. unfold conf_field. rewrite <- !Z.land_assoc.
  change (Z.land TIMER_RB_COUNT_ TIMER_RB_STATUS_) with 0. change (Z.land (BIT 1) _) with 0. rewrite !Z.land_0_r.
  split; [done|]. split; [|done]. f_equal. unfold TIMER_BCD. change 1 with (Z.ones 1) at 1. rewrite Z.land_ones by lia.
  rewrite Z.bit0_odd, Zodd_mod. change (2 ^ 1) with 2. done.
Qed.

Lemma conf_field_values_witness :
  conf_field 0x35 tsf_base = val_bcd true /\ conf_field 0x35 tsf_initial = val_in_mode 0.
Proof.
  pose proof (conf_field_values 0x35 ltac:(unfold in_u8; lia)) as (_ & Hb & Hi & _). split; [exact Hb|exact Hi].
Defined.

(** ** Arguments *)

(** invalid arguments.  A timer number or a frequency out of range is refused before any access
    to the chip, by each operation of the driver. *)
Theorem timer_arguments_checked {D} `{K : Kernel D} `{P : LcfPrint D} t freq st f (s : lab2 D) :
  (t < 0 \/ 2 < t -> timer_get_conf t s = Ok None s /\ timer_display_conf t st f s = Ok 1 s) /\
  (t < 0 \/ 2 < t \/ freq < 19 \/ TIMER_FREQ < freq -> timer_set_frequency t freq s = Ok 1 s).
Proof.
  split; intros H.
  - unfold timer_get_conf, timer_display_conf. by replace ((t <? 0) || (2 <? t)) with true by lia.
  - unfold timer_set_frequency, call. destruct ((freq <? 19) || (TIMER_FREQ <? freq)) eqn:E; [done|].
    by replace ((t <? 0) || (2 <? t)) with true by lia.
Qed.

(** ** Counting seconds *)

(** A system in which every notification is an interrupt of timer 0, at a constant rate. *)
Class Ticking (D : Type) `{K : Kernel D} `{P : LcfPrint D} := {
  rate : Z;
  rate_pos : 0 < rate < 2 ^ 31;
  seconds_shown : D -> Z;
  tick_hz d : sys_hz d = rate;
  tick_receive d : exists m d', driver_receive d = ((0, m, true), d') /\ m_source_p m = HARDWARE /\
    Z.testbit (m_interrupts m) 0 = true /\ seconds_shown d' = seconds_shown d;
  tick_show d : seconds_shown (timer_print_elapsed_time d) = seconds_shown d + 1;
  tick_subscribe d p h : exists h' d', sys_irqsetpolicy TIMER0_IRQ p h d = ((0, h'), d') /\ seconds_shown d' = seconds_shown d;
  tick_unsubscribe d h : exists d', sys_irqrmpolicy h d = (0, d') /\ seconds_shown d' = seconds_shown d;
}.

Section ticking.
Context {D : Type} `{T : Ticking D}.
Implicit Types s : lab2 D.

(** The elapsed seconds have been shown. *)
Definition shown_upto (n0 : Z) s : Prop :=
  bit_no s = 0 /\ 0 <= timer_counter s /\ seconds_shown (dev s) = n0 + timer_counter s / rate.

Lemma timer_test_body_tick n0 s J :
  shown_upto n0 s -> timer_counter s < 2 ^ 31 - 1 ->
  wp False timer_test_body (fun _ s' => shown_upto n0 s' /\ timer_counter s' = timer_counter s + 1) J s.
Proof.
  intros (Hb & Hc & Hs) Hlt. destruct (tick_receive (dev s)) as (m & d & Hr & Hsrc & Hm & Hsd).
  unfold timer_test_body. apply wp_bind, wp_sys. rewrite Hr. cbn [fst snd]. cbn [ctrue Z.eqb negb when].
  apply wp_switch. rewrite Hsrc. cbn [Z.eqb HARDWARE Pos.eqb]. apply wp_bind, wp_gets. get_set. rewrite Hb.
  rewrite ctrue_land_BIT, Hm by lia. cbn [when]. apply wp_bind, wp_bind, wp_modify, wp_bind, wp_gets, wp_bind, wp_gets. get_set.
  pose proof rate_pos as Hrt. rewrite tick_hz, (i32_id rate), (i32_id (timer_counter s + 1)) by (unfold in_i32; lia).
  rewrite (proj2 (Z.eqb_neq rate 0)) by lia. rewrite Z.rem_mod_nonneg by lia.
  assert (seconds_shown d + (if (timer_counter s + 1) mod rate =? 0 then 1 else 0) = n0 + (timer_counter s + 1) / rate) as Hnext.
  { rewrite Hsd, Hs. destruct (Z.eqb_spec ((timer_counter s + 1) mod rate) 0) as [E|E].
    - replace ((timer_counter s + 1) / rate) with (timer_counter s / rate + 1); [lia|].
      clear -E Hrt Hc. Z.to_euclidean_division_equations; nia.
    - replace ((timer_counter s + 1) / rate) with (timer_counter s / rate); [lia|].
      clear -E Hrt Hc. Z.to_euclidean_division_equations; nia. }
  wp_step; [unfold sys_, wp at 1|apply wp_ret]; apply wp_jump; (split; [|get_set; done]).
  all: split; [done|]; split; [get_set; lia|]; get_set; rewrite ?tick_show; lia.
Qed.

(** C32: [timer_test_int] terminates.  When interrupts keep arriving at the rate [sys_hz], it returns 0 after exactly
    [time * rate] of them, and has shown the elapsed time once per second, [time] times. *)
Theorem timer_test_int_counts fuel time d :
  0 <= time -> time * rate < 2 ^ 31 - 1 -> (Z.to_nat (time * rate) < fuel)%nat ->
  exists s', timer_test_int fuel time (init_lab2 d) = Ok 0 s' /\
    timer_counter s' = time * rate /\ seconds_shown (dev s') = seconds_shown d + time.
Proof.
  intros Ht Hlt Hf. pose proof rate_pos as Hrt.
  destruct (wp_exec (timer_test_int fuel time) (fun r s' => r = 0 /\ timer_counter s' = time * rate /\
    seconds_shown (dev s') = seconds_shown d + time) (init_lab2 d)) as (r & s' & He & -> & Hpost); [|by exists s'].
  apply wp_call, wp_bind, wp_modify, wp_bind, wp_call, wp_bind, wp_gets, wp_bind, wp_modify, wp_bind, wp_sys.
  change (hookid _) with 0. destruct (tick_subscribe d IRQ_REENABLE 0) as (h' & d1 & H1 & Hd1).
  match goal with |- context [sys_irqsetpolicy _ _ _ ?x] => change x with d end. rewrite H1. cbn [fst snd]. apply wp_bind, wp_modify. cbn [ctrue Z.eqb negb]. apply wp_ret.
  cbn [ctrue Z.eqb negb]. set (s1 := set_field hookid _ _). apply wp_bind.
  apply (wp_while_measure False (fun s => shown_upto (seconds_shown d) s /\ timer_counter s <= time * rate)
    (fun s => Z.to_nat (time * rate - timer_counter s))).
  - split; [|change (timer_counter s1) with 0; nia]. split; [done|]. split; [done|].
    change (timer_counter s1) with 0. change (dev s1) with d1. rewrite Hd1, Z.div_0_l by lia. lia.
  - change (timer_counter s1) with 0. by rewrite Z.sub_0_r.
  - intros s [Hs Hle] Hc. unfold time_left in Hc. rewrite tick_hz, (i32_id rate), i32_id in Hc by (unfold in_i32; lia).
    apply (wp_mono False False _ (fun _ s' => shown_upto (seconds_shown d) s' /\ timer_counter s' = timer_counter s + 1) _ nojump);
      [done| |intros c s' []|apply timer_test_body_tick; [done|lia]].
    intros _ s' [Hs' Hc']. split; [split; [done|lia]|]. rewrite Hc'. destruct Hs as (_ & Hc0 & _). lia.
  - intros s [(_ & Hc0 & Hs) Hle] Hc. unfold time_left in Hc.
    rewrite tick_hz, (i32_id rate), i32_id in Hc by (unfold in_i32; lia).
    assert (timer_counter s = time * rate) as Heq by lia.
    apply wp_bind, wp_call, wp_bind, wp_gets, wp_bind, wp_sys. destruct (tick_unsubscribe (dev s) (hookid s)) as (d2 & H2 & Hd2).
    rewrite H2. cbn [fst snd ctrue Z.eqb negb]. apply wp_ret. cbn [ctrue Z.eqb negb]. apply wp_ret.
    split; [done|]. split; [exact Heq|]. get_set. rewrite Hd2, Hs, Heq, Z.div_mul by lia. done.
Qed.

End ticking.

(** ** A simulated chip and a simulated tick source *)

Record sim_pit := SimPit {
  sp_phase : pit_phase;
  sp_mode : Z -> Z;
  sp_div : Z -> Z;
  sp_shown : Z;
}.

#[export] Instance settable_sim_pit : Settable sim_pit := fun d => SimPit (sp_phase d) (sp_mode d) (sp_div d) (sp_shown d).

Definition upd (f : Z -> Z) (t v : Z) : Z -> Z := fun k => if k =? t then v else f k.

(** A write to the control register: read-back of a status, or a control word. *)
Definition sim_control (w : Z) (d : sim_pit) : sim_pit :=
  if Z.land w 0xF0 =? 0xE0 then
    d <| sp_phase := PitStatus (Z.log2 (Z.land w 0x0E) - 1) |>
  else let t := w / 64 in d <| sp_phase := PitLSB t |> <| sp_mode := upd (sp_mode d) t (w mod 16) |>.

(** A write to a counter. *)
Definition sim_data (t v : Z) (d : sim_pit) : sim_pit :=
  match sp_phase d with
  | PitLSB _ => d <| sp_phase := PitMSB t v |>
  | PitMSB _ lsb => d <| sp_phase := PitIdle |> <| sp_div := upd (sp_div d) t (lsb + 256 * v) |>
  | _ => d
  end.

#[export] Instance sim_pit_kernel : Kernel sim_pit := device_kernel
  (fun p d => match sp_phase d with
              | PitStatus t => ((0, sp_mode d t mod 16), d <| sp_phase := PitIdle |>)
              | _ => ((1, 0), d)
              end)
  (fun p v d => if p =? TIMER_CTRL then (0, sim_control v d) else (0, sim_data (p - TIMER_0) v d))
  (interrupting 0) (fun _ => 0).

Lemma land_15 z : Z.land z 15 = z mod 16.
Proof. change 15 with (Z.ones 4). by rewrite Z.land_ones by lia. Qed.

#[export, refine] Instance sim_pit_chip : I8254 sim_pit := {
  pit_phase_of := sp_phase;
  pit_mode d t := sp_mode d t mod 16;
  pit_divisor := sp_div;
}.
Proof.
  - intros d t Ht. exists (d <| sp_phase := PitStatus t |>). split; [|done]. by destruct (timer_cases t Ht) as [->|[->| ->]].
  - intros d t Ht Hp. exists (sp_mode d t mod 16), (d <| sp_phase := PitIdle |>). split; [cbn; by rewrite Hp|].
    pose proof (Z.mod_pos_bound (sp_mode d t) 16 ltac:(lia)). split; [unfold in_u8; lia|]. split; [|done].
    rewrite land_15, Z.mod_mod by lia. done.
  - intros d t m Ht Hm. exists (d <| sp_phase := PitLSB t |> <| sp_mode := upd (sp_mode d) t m |>).
    split; [|split; [done|split; [|done]]].
    + cbn [sys_outb sim_pit_kernel device_kernel]. unfold sim_control.
      assert ((Z.land (64 * t + 48 + m) 0xF0 =? 0xE0) = false) as ->.
      { assert (m = 0 \/ m = 1 \/ m = 2 \/ m = 3 \/ m = 4 \/ m = 5 \/ m = 6 \/ m = 7 \/ m = 8 \/ m = 9 \/ m = 10 \/
          m = 11 \/ m = 12 \/ m = 13 \/ m = 14 \/ m = 15) as Hc by lia.
        destruct (timer_cases t Ht) as [->|[->| ->]]; repeat destruct Hc as [->|Hc]; try subst m; reflexivity. }
      replace ((64 * t + 48 + m) / 64) with t by (Z.to_euclidean_division_equations; lia).
      replace ((64 * t + 48 + m) mod 16) with m by (Z.to_euclidean_division_equations; lia). done.
    + intros k. cbn. unfold upd. destruct (k =? t); [|done]. by apply Z.mod_small.
  - intros d t b Ht Hb Hp. exists (d <| sp_phase := PitMSB t b |>). split; [|done].
    cbn [sys_outb sim_pit_kernel device_kernel]. unfold sim_data. rewrite Hp. by destruct (timer_cases t Ht) as [->|[->| ->]].
  - intros d t b lsb Ht Hb Hp. exists (d <| sp_phase := PitIdle |> <| sp_div := upd (sp_div d) t (lsb + 256 * b) |>).
    split; [|done]. cbn [sys_outb sim_pit_kernel device_kernel]. unfold sim_data. rewrite Hp. by destruct (timer_cases t Ht) as [->|[->| ->]].
Defined.

Lemma timer_set_frequency_correct_witness :
  exists d, timer_set_frequency 2 1000 (init_lab2 (SimPit PitIdle (fun _ => 6) (fun _ => 0) 0)) =
      Ok 0 (init_lab2 d) /\ pit_divisor d 2 = 1193 /\ pit_divisor d 0 = 0 /\ pit_mode d 2 = 6.
Proof.
  destruct (timer_set_frequency_correct 2 1000 (init_lab2 (SimPit PitIdle (fun _ => 6) (fun _ => 0) 0))
    ltac:(lia) ltac:(unfold TIMER_FREQ; lia)) as (d & He & _ & Hm & Hd).
  exists d. split; [exact He|]. split; [exact (Hd 2)|]. split; [exact (Hd 0)|exact (Hm 2)].
Defined.

#[export] Instance sim_pit_print : LcfPrint sim_pit :=
  device_print (fun d => d <| sp_shown := sp_shown d + 1 |>) (fun _ _ _ d => d) (fun _ d => d).

#[export, refine] Instance sim_pit_ticking : Ticking sim_pit := {
  rate := 60;
  seconds_shown := sp_shown;
}.
Proof.
  - lia.
  - done.
  - intros d. by exists (Message HARDWARE (BIT 0)), d.
  - done.
  - intros d p h. exists h, d. by destruct d.
  - intros d h. exists d. by destruct d.
Defined.

Lemma timer_test_int_counts_witness :
  exists s', timer_test_int 200 3 (init_lab2 (SimPit PitIdle (fun _ => 6) (fun _ => 0) 0)) = Ok 0 s' /\
    timer_counter s' = 180 /\ seconds_shown (dev s') = 3.
Proof.
  assert (3 * rate < 2 ^ 31 - 1) as H1 by (change rate with 60; lia).
  assert (Z.to_nat (3 * rate) < 200)%nat as H2 by (change rate with 60; lia).
  destruct (timer_test_int_counts 200 3 (SimPit PitIdle (fun _ => 6) (fun _ => 0) 0) ltac:(lia) H1 H2)
    as (s' & He & Hc & Hs).
  exists s'. split; [exact He|]. split; [exact Hc|exact Hs].
Defined.

Lemma timer_arguments_checked_witness :
  timer_get_conf 3 (init_lab2 (ports [])) = Ok None (init_lab2 (ports [])) /\
  timer_set_frequency 0 18 (init_lab2 (ports [])) = Ok 1 (init_lab2 (ports [])).
Proof.
  split.
  - exact (proj1 (proj1 (timer_arguments_checked 3 0 0 tsf_all (init_lab2 (ports []))) ltac:(lia))).
  - exact (proj2 (timer_arguments_checked 0 18 0 tsf_all (init_lab2 (ports []))) ltac:(lia)).
Defined.
