(* ===== verification/Lab3.v ===== *)
(** * Laboratory 3: the keyboard (lab3/kbc.c, timer.c, utils.c, lab3.c, i8042.h) *)

From S2P Require Import Prelude CMonad Heap Lcf Minix.
From stdpp Require Import strings options.
#[local] Open Scope Z_scope.
#[local] Open Scope cmonad_scope.

(** i8042.h *)
Definition KBD_IRQ : Z := 1.

Definition OUT_BUF : Z := 0x60.

Definition STAT_REG : Z := 0x64.

Definition ARGS_REG : Z := 0x60.

Definition ESC_BREAK : Z := 0x81.

Definition PARITY_BIT : Z := BIT 7.

Definition TIMEOUT_BIT : Z := BIT 6.

Definition AUX_BIT : Z := BIT 5.

Definition OBF_BIT : Z := BIT 0.

Definition IBF_BIT : Z := BIT 1.

Definition MAKE_BIT : Z := BIT 7.

Definition READ_COMMAND : Z := 0x20.

Definition WRITE_COMMAND : Z := 0x60.

Definition ENABLE_KBD : Z := BIT 0.

(** i8254.h *)
Definition TIMER0_IRQ : Z := 0.

(** minix/com.h *)
Definition IRQ_REENABLE : Z := 0x001.

Definition IRQ_EXCLUSIVE : Z := 0x002.

(** The globals of kbc.c and timer.c, and the automatic variables of the test
    functions, of which one activation exists at a time. *)
Record lab3 (D : Type) := MkLab3 {
  dev : D;
  kbd_hookid : Z;
  scancode : Z;
  statuscode : Z;
  hookid : Z;
  timer_counter : Z;
  kbd_bit_no : Z;
  timer_bit_no : Z;
  size : Z;
  bytes : list Z;
  aux_counter : Z;
}.
Arguments MkLab3 {D}.
Arguments dev {D}.
Arguments kbd_hookid {D}.
Arguments scancode {D}.
Arguments statuscode {D}.
Arguments hookid {D}.
Arguments timer_counter {D}.
Arguments kbd_bit_no {D}.
Arguments timer_bit_no {D}.
Arguments size {D}.
Arguments bytes {D}.
Arguments aux_counter {D}.

#[export] Instance settable_lab3 {D} : Settable (lab3 D) := fun s =>
  MkLab3 (dev s) (kbd_hookid s) (scancode s) (statuscode s) (hookid s) (timer_counter s)
    (kbd_bit_no s) (timer_bit_no s) (size s) (bytes s) (aux_counter s).

(** One setter per member. *)
#[export] Instance set_dev {D} : Setter (@dev D) := ltac:(build_setter).
#[export] Instance set_kbd_hookid {D} : Setter (@kbd_hookid D) := ltac:(build_setter).
#[export] Instance set_scancode {D} : Setter (@scancode D) := ltac:(build_setter).
#[export] Instance set_statuscode {D} : Setter (@statuscode D) := ltac:(build_setter).
#[export] Instance set_hookid {D} : Setter (@hookid D) := ltac:(build_setter).
#[export] Instance set_timer_counter {D} : Setter (@timer_counter D) := ltac:(build_setter).
#[export] Instance set_kbd_bit_no {D} : Setter (@kbd_bit_no D) := ltac:(build_setter).
#[export] Instance set_timer_bit_no {D} : Setter (@timer_bit_no D) := ltac:(build_setter).
#[export] Instance set_size {D} : Setter (@size D) := ltac:(build_setter).
#[export] Instance set_bytes {D} : Setter (@bytes D) := ltac:(build_setter).
#[export] Instance set_aux_counter {D} : Setter (@aux_counter D) := ltac:(build_setter).

Definition init_lab3 {D} (d : D) : lab3 D := MkLab3 d 1 0 0 0 0 0 0 1 [0; 0] 0.

Abbreviation assign f v := (modify (fun s => s <| f := v |>)).

Definition twoBytes (scan_code : Z) : Z := if scan_code =? 0xE0 then 1 else 0.

Definition makecode (scan_code : Z) : bool :=
  if ctrue (Z.shiftr (Z.land scan_code MAKE_BIT) 7) then false else true.

Section lab3.
Context {D : Type} `{K : Kernel D} `{P : LcfPrint D} `{F : LcfMain D}.

(** utils.c *)
Definition util_sys_inb (port : Z) : M (lab3 D) (option Z) :=
  '(rc, aux) <- sys dev (sys_inb port) ;;
  if ctrue rc then ret None else ret (Some (u8 aux)).

(** kbc.c *)
Definition kbd_subscribe_int : M (lab3 D) Z := call (
  h <- gets kbd_hookid ;;
  assign kbd_bit_no (u8 h) ;;
  '(rc, h') <- sys dev (sys_irqsetpolicy KBD_IRQ (Z.lor IRQ_REENABLE IRQ_EXCLUSIVE) h) ;;
  assign kbd_hookid h' ;;
  if ctrue rc then return_ 1 else ret 0).

Definition kbd_unsubscribe_int : M (lab3 D) Z := call (
  h <- gets kbd_hookid ;;
  rc <- sys dev (sys_irqrmpolicy h) ;;
  if ctrue rc then return_ 1 else ret 0).

(** The local [statuscode] hides the global. *)
Definition kbc_ih : M (lab3 D) unit :=
  g <- sys dev indeterminate ;;
  st <- util_sys_inb STAT_REG ;;
  let statuscode := match st with Some b => b | None => u8 g end in
  if ctrue (Z.land statuscode (Z.lor PARITY_BIT TIMEOUT_BIT)) then
    assign scancode 0
  else
    b <- util_sys_inb OUT_BUF ;;
    match b with
    | Some b => assign scancode b
    | None => ret tt
    end.

(** The loop [while (tries)] shared by [readcommand] and [writecommand]: [act]
    is what follows the tests; [None] is the return value 1. *)
Fixpoint when_ready (fuel : nat) (tries : Z) (act : M (lab3 D) (option Z)) : M (lab3 D) (option Z) :=
  if negb (ctrue tries) then ret None else
  match fuel with
  | O => raise OutOfFuel
  | S n =>
      st <- util_sys_inb STAT_REG ;;
      match st with
      | None => when_ready n tries act
      | Some st =>
          assign statuscode st ;;
          if ctrue (Z.land st (Z.lor IBF_BIT OBF_BIT)) then when_ready n (tries - 1) act
          else act
      end
  end.

Definition readcommand (fuel : nat) : M (lab3 D) (option Z) :=
  when_ready fuel 10 (
    rc <- sys dev (sys_outb STAT_REG READ_COMMAND) ;;
    if ctrue rc then ret None else
    util_sys_inb OUT_BUF).

Definition writecommand (fuel : nat) (commandbyte : Z) : M (lab3 D) (option Z) :=
  when_ready fuel 10 (
    rc <- sys dev (sys_outb STAT_REG WRITE_COMMAND) ;;
    if ctrue rc then ret None else
    rc <- sys dev (sys_outb ARGS_REG commandbyte) ;;
    if ctrue rc then ret None else
    ret (Some 0)).

Definition kbd_reenable_int (fuel : nat) : M (lab3 D) Z := call (
  cb <- readcommand fuel ;;
  match cb with
  | None => return_ 1
  | Some commandByte =>
      let commandByte := u8 (Z.lor commandByte ENABLE_KBD) in
      w <- writecommand fuel commandByte ;;
      match w with
      | None => return_ 1
      | Some _ => ret 0
      end
  end).

(** timer.c: the bodies of the configuration functions are commented out. *)
Definition timer_set_frequency (timer freq : Z) : M (lab3 D) Z := ret 0.

Definition timer_subscribe_int : M (lab3 D) Z := call (
  h <- gets hookid ;;
  assign timer_bit_no (u8 h) ;;
  '(rc, h') <- sys dev (sys_irqsetpolicy TIMER0_IRQ IRQ_REENABLE h) ;;
  assign hookid h' ;;
  if ctrue rc then return_ 1 else ret 0).

Definition timer_unsubscribe_int : M (lab3 D) Z := call (
  h <- gets hookid ;;
  rc <- sys dev (sys_irqrmpolicy h) ;;
  if ctrue rc then return_ 1 else ret 0).

Definition timer_int_handler : M (lab3 D) unit :=
  modify (fun s => s <| timer_counter := u32 (timer_counter s + 1) |>).

Definition timer_get_conf (timer : Z) : M (lab3 D) Z := ret 0.

Definition timer_display_conf (timer st : Z) (field : timer_status_field) : M (lab3 D) Z := ret 0.

(** lab3.c *)
Definition main (argv : list string) : M (lab3 D) Z := call (
  sys dev (lcf_set_language "EN-US") ;;
  sys dev (lcf_trace_calls "/home/lcom/labs/lab3/trace.txt") ;;
  sys dev (lcf_log_output "/home/lcom/labs/lab3/output.txt") ;;
  rc <- sys dev (lcf_start argv) ;;
  if ctrue rc then return_ 1 else
  sys dev lcf_cleanup ;;
  ret 0).

(** One byte from the keyboard: the assembly of one- and two-byte scancodes. *)
Definition handle_scancode : M (lab3 D) unit :=
  kbc_ih ;;
  c <- gets scancode ;;
  if ctrue (twoBytes c) then assign size 2 ;; jump CContinue else
  sz <- gets size ;;
  (if sz =? 1 then modify (fun s => s <| bytes := <[0%nat := c]> (bytes s) |>)
   else modify (fun s => s <| bytes := <[1%nat := c]> (<[0%nat := 0xE0]> (bytes s)) |>)) ;;
  bs <- gets bytes ;;
  sys_ dev (kbd_print_scancode (makecode c) sz bs) ;;
  assign size 1.

Definition not_esc (s : lab3 D) : bool := negb (scancode s =? ESC_BREAK).

(** The skeleton of a notification loop: receive, select hardware notifications. *)
Definition on_notification (handler : Z -> M (lab3 D) unit) : M (lab3 D) unit :=
  '(r, msg, notify) <- sys dev driver_receive ;;
  if ctrue r then jump CContinue else
  when notify (switch (
    if m_source_p msg =? HARDWARE then handler (m_interrupts msg) ;; jump CBreak
    else jump CBreak)).

Definition scan_body : M (lab3 D) unit := on_notification (fun ints =>
  kb <- gets kbd_bit_no ;;
  when (ctrue (Z.land ints (BIT kb))) handle_scancode).

Definition kbd_test_scan (fuel : nat) : M (lab3 D) Z := call (
  modify (fun s => s <| kbd_bit_no := u8 (BIT (kbd_hookid s)) |>) ;;
  rc <- kbd_subscribe_int ;;
  if ctrue rc then return_ 1 else
  assign size 1 ;;
  while_ fuel not_esc scan_body ;;
  rc <- kbd_unsubscribe_int ;;
  if ctrue rc then return_ 1 else
  ret 0).

(** The body of the polling loop. *)
Definition poll_body : M (lab3 D) unit :=
  st <- util_sys_inb STAT_REG ;;
  match st with
  | None => return_ 1
  | Some st =>
      assign statuscode st ;;
      if ctrue (Z.land st (Z.lor OBF_BIT AUX_BIT)) then jump CContinue else
      handle_scancode
  end.

Definition kbd_test_poll (fuel : nat) : M (lab3 D) Z := call (
  assign size 1 ;;
  while_ fuel not_esc poll_body ;;
  rc <- kbd_reenable_int fuel ;;
  if ctrue rc then return_ 1 else
  ret 0).

Definition timed_scan_body : M (lab3 D) unit := on_notification (fun ints =>
  kb <- gets kbd_bit_no ;;
  when (ctrue (Z.land ints (BIT kb))) (
    handle_scancode ;;
    assign timer_counter 0 ;;
    assign aux_counter 0) ;;
  tb <- gets timer_bit_no ;;
  when (ctrue (Z.land ints (BIT tb))) (
    tc <- gets timer_counter ;;
    when (Z.rem (i32 tc) 60 =? 0) (modify (fun s => s <| aux_counter := u32 (aux_counter s + 1) |>)) ;;
    timer_int_handler)).

(** [aux_counter] has no initialiser. *)
Definition kbd_test_timed_scan (fuel : nat) (n : Z) : M (lab3 D) Z := call (
  modify (fun s => s <| kbd_bit_no := u8 (BIT (kbd_hookid s)) |>) ;;
  modify (fun s => s <| timer_bit_no := u8 (BIT (hookid s)) |>) ;;
  rc <- kbd_subscribe_int ;;
  if ctrue rc then return_ 1 else
  rc <- timer_subscribe_int ;;
  if ctrue rc then return_ 1 else
  g <- sys dev indeterminate ;;
  assign aux_counter (u32 g) ;;
  assign size 1 ;;
  while_ fuel (fun s => not_esc s && (aux_counter s <=? n)) timed_scan_body ;;
  rc <- timer_unsubscribe_int ;;
  if ctrue rc then return_ 1 else
  rc <- kbd_unsubscribe_int ;;
  if ctrue rc then return_ 1 else
  ret 0).

End lab3.
