(* ===== verification/Lab3Facts.v ===== *)
(** * Laboratory 3: scancodes and the command byte

    [KbdStream] is a keyboard that delivers a stream of bytes by interrupts and a
    console that records what is printed; against it [kbd_test_scan] prints the
    parse of the stream.  [Kbc] is the controller's command interface; against it
    [kbd_reenable_int] updates the command byte.  [Idle] is a machine on which
    nothing is typed and the timer ticks; on it [kbd_test_timed_scan] ends. *)

From S2P Require Import Prelude CMonad Lcf Minix Lab3.
From stdpp Require Import options.

(** ** Scancodes *)

(** The scancodes of a stream of bytes: 0xE0 announces a second byte.  [ext]: it was just read. *)
Fixpoint scan_parse (ext : bool) (l : list Z) : list (bool * list Z) :=
  match l with
  | [] => []
  | c :: l' => if c =? 0xE0 then scan_parse true l'
               else (negb (Z.testbit c 7), if ext then [0xE0; c] else [c]) :: scan_parse false l'
  end.

Lemma makecode_spec c : makecode c = negb (Z.testbit c 7).
Proof.
  unfold makecode, MAKE_BIT. assert (ctrue (Z.shiftr (Z.land c (BIT 7)) 7) = Z.testbit c 7) as ->; [|by destruct (Z.testbit c 7)].
  unfold ctrue. rewrite Z.shiftr_land. change (Z.shiftr (BIT 7) 7) with (Z.ones 1). rewrite Z.land_ones by lia.
  change (2 ^ 1) with 2. rewrite <- Z.bit0_mod, Z.shiftr_spec by lia. change (0 + 7) with 7. by destruct (Z.testbit c 7).
Qed.

Class KbdStream (D : Type) `{K : Kernel D} `{P : LcfPrint D} := {
  stream : D -> list Z;
  printed : D -> list (bool * list Z);
  ks_bytes d : Forall in_u8 (stream d);
  (** a notification of the keyboard for every byte *)
  ks_receive d : exists m d', driver_receive d = ((0, m, true), d') /\ m_source_p m = HARDWARE /\
    Z.testbit (m_interrupts m) 1 = true /\ stream d' = stream d /\ printed d' = printed d;
  ks_indeterminate d : stream (snd (indeterminate d)) = stream d /\ printed (snd (indeterminate d)) = printed d;
  ks_status d : exists st d', sys_inb STAT_REG d = ((0, st), d') /\ in_u8 st /\
    Z.land st (Z.lor PARITY_BIT TIMEOUT_BIT) = 0 /\ stream d' = stream d /\ printed d' = printed d;
  ks_data d b q : stream d = b :: q -> exists d', sys_inb OUT_BUF d = ((0, b), d') /\
    stream d' = q /\ printed d' = printed d;
  ks_print mk n bs d : stream (kbd_print_scancode mk n bs d) = stream d /\
    printed (kbd_print_scancode mk n bs d) = printed d ++ [(mk, take (Z.to_nat n) bs)];
  ks_subscribe d p h : exists h' d', sys_irqsetpolicy KBD_IRQ p h d = ((0, h'), d') /\ stream d' = stream d /\ printed d' = printed d;
  ks_unsubscribe d h : exists d', sys_irqrmpolicy h d = (0, d') /\ stream d' = stream d /\ printed d' = printed d;
}.

Section scan.
Context {D : Type} `{KS : KbdStream D}.
Implicit Types s : lab3 D.

Lemma kbc_ih_reads b q s :
  stream (dev s) = b :: q ->
  exists d, kbc_ih s = Ok tt (s <| dev := d |> <| scancode := b |>) /\ stream d = q /\ printed d = printed (dev s).
Proof.
  intros Hs. destruct (ks_indeterminate (dev s)) as [Hi1 Hi2]. unfold kbc_ih, bind, sys.
  destruct (indeterminate (dev s)) as [g d0]. cbn [snd] in Hi1, Hi2.
  destruct (ks_status d0) as (st & d1 & H1 & Hst & He & Hs1 & Hp1).
  destruct (ks_data d1 b q) as (d2 & H2 & Hs2 & Hp2); [congruence|].
  assert (in_u8 b) as Hb by (pose proof (ks_bytes (dev s)) as Hf; rewrite Hs in Hf; by inversion Hf).
  exists d2. split; [|split; [done|congruence]]. unfold util_sys_inb at 1, bind, sys. get_set. rewrite H1. cbn [ctrue Z.eqb negb].
  unfold ret. rewrite u8_id, He by done. cbn [ctrue Z.eqb negb]. unfold util_sys_inb, bind, sys. get_set. rewrite H2.
  cbn [ctrue Z.eqb negb]. unfold ret. rewrite u8_id by done. by destruct s.
Qed.

(** The state between two bytes: [ext] is kept in [size]. *)
Definition scanning (ext : bool) s : Prop := size s = (if ext then 2 else 1) /\ length (bytes s) = 2%nat.

(** One byte: the parser makes a step. *)
Lemma handle_scancode_step ext b q s :
  scanning ext s -> stream (dev s) = b :: q ->
  exists s', (handle_scancode s = Ok tt s' \/ handle_scancode s = Jump CContinue s') /\
    scanning (b =? 0xE0) s' /\ scancode s' = b /\ stream (dev s') = q /\ kbd_bit_no s' = kbd_bit_no s /\
    printed (dev s') ++ scan_parse (b =? 0xE0) q = printed (dev s) ++ scan_parse ext (b :: q).
Proof.
  intros [Hsz Hl] Hs. destruct (kbc_ih_reads b q s Hs) as (d & Hih & Hsd & Hpd).
  unfold handle_scancode, bind. rewrite Hih. unfold gets. get_set. unfold twoBytes.
  simpl scan_parse. destruct (b =? 0xE0) eqn:Eb.
  - cbn [ctrue Z.eqb negb]. eexists. split; [by right|]. split; [done|]. split; [done|]. split; [done|]. split; [done|].
    change (printed d ++ scan_parse true q = printed (dev s) ++ scan_parse true q). by rewrite Hpd.
  - cbn [ctrue Z.eqb negb]. get_set. rewrite Hsz.
    assert (exists b0 b1, bytes s = [b0; b1]) as (b0 & b1 & Hbs) by (destruct (bytes s) as [|? [|? []]]; try done; by eexists _, _).
    destruct ext; cbn [Z.eqb Pos.eqb]; unfold modify, sys_; get_set; rewrite Hbs.
    + change (<[1%nat := b]> (<[0%nat := 0xE0]> [b0; b1])) with [0xE0; b].
      eexists. split; [by left|]. split; [done|]. split; [done|]. get_set.
      destruct (ks_print (makecode b) 2 [0xE0; b] d) as [Hst Hpr]. split; [by rewrite Hst|]. split; [done|].
      rewrite Hpr, Hpd, makecode_spec, <- app_assoc. done.
    + change (<[0%nat := b]> [b0; b1]) with [b; b1].
      eexists. split; [by left|]. split; [done|]. split; [done|]. get_set.
      destruct (ks_print (makecode b) 1 [b; b1] d) as [Hst Hpr]. split; [by rewrite Hst|]. split; [done|].
      rewrite Hpr, Hpd, makecode_spec, <- app_assoc. done.
Qed.

(** One notification delivers one byte. *)
Lemma scan_body_step ext b q s :
  scanning ext s -> kbd_bit_no s = 1 -> stream (dev s) = b :: q ->
  exists s', (scan_body s = Ok tt s' \/ scan_body s = Jump CContinue s') /\
    scanning (b =? 0xE0) s' /\ scancode s' = b /\ stream (dev s') = q /\ kbd_bit_no s' = 1 /\
    printed (dev s') ++ scan_parse (b =? 0xE0) q = printed (dev s) ++ scan_parse ext (b :: q).
Proof.
  intros Hsc Hkb Hs. destruct (ks_receive (dev s)) as (m & d & Hr & Hsrc & Hm & Hsd & Hpd).
  set (s1 := s <| dev := d |>). assert (stream (dev s1) = b :: q) as Hs1 by (change (stream d = b :: q); congruence).
  destruct (handle_scancode_step ext b q s1 Hsc Hs1) as (s' & Hh & H1 & H2 & H3 & H4 & H5).
  change (printed (dev s1)) with (printed d) in H5. rewrite Hpd in H5. change (kbd_bit_no s1) with (kbd_bit_no s) in H4.
  rewrite Hkb in H4.
  exists s'. split; [|done].
  assert (scan_body s = switch (handle_scancode ;; jump CBreak) s1) as ->.
  { unfold scan_body, on_notification, bind at 1, sys. rewrite Hr. cbn [ctrue Z.eqb negb when].
    unfold switch. rewrite Hsrc. cbn [Z.eqb HARDWARE Pos.eqb]. fold s1. unfold bind, gets. change (kbd_bit_no s1) with (kbd_bit_no s).
    by rewrite Hkb, ctrue_land_BIT, Hm by lia. }
  unfold switch, bind. destruct Hh as [->| ->]; [by left|by right].
Qed.

(** The loop consumes the bytes up to the first [ESC_BREAK]. *)
Lemma scan_loop l ext fuel s :
  scanning ext s -> kbd_bit_no s = 1 -> stream (dev s) = l ++ [ESC_BREAK] -> ~ In ESC_BREAK l -> scancode s <> ESC_BREAK ->
  (length l < fuel)%nat ->
  exists s', while_ fuel not_esc scan_body s = Ok tt s' /\ stream (dev s') = [] /\
    printed (dev s') = printed (dev s) ++ scan_parse ext (l ++ [ESC_BREAK]).
Proof.
  revert ext fuel s. induction l as [|b l IH]; intros ext fuel s Hsc Hkb Hs Hn He Hf; (destruct fuel as [|fuel]; [lia|]); cbn [while_].
  all: unfold not_esc at 1; rewrite (proj2 (Z.eqb_neq _ _) He); cbn [negb].
  - destruct (scan_body_step ext ESC_BREAK [] s Hsc Hkb Hs) as (s' & Hb & _ & H2 & H3 & _ & H5).
    exists s'. split; [|split; [done|]].
    + assert (while_ fuel not_esc scan_body s' = Ok tt s') as Hstop by (destruct fuel; cbn; unfold not_esc; by rewrite H2).
      destruct Hb as [->| ->]; exact Hstop.
    + change ([] ++ [ESC_BREAK]) with [ESC_BREAK]. rewrite <- H5. cbn. by rewrite app_nil_r.
  - destruct (scan_body_step ext b (l ++ [ESC_BREAK]) s Hsc Hkb Hs) as (s1 & Hb & H1 & H2 & H3 & H4 & H5).
    destruct (IH (b =? 0xE0) fuel s1) as (s' & Hw & Hst & Hpr); [done|done|done|by intros ?; apply Hn; right|
      rewrite H2; intros ->; apply Hn; by left|simpl in Hf; lia|].
    exists s'. split; [by destruct Hb as [->| ->]|]. split; [done|]. rewrite Hpr. exact H5.
Qed.

(** C33: [kbd_test_scan] prints the scancodes.  For every stream of bytes that ends with the release of
    the escape key, it terminates with 0 after consuming the stream, and what it
    has printed is the parse of the stream: every make and break code once, in
    order, with its one or two bytes. *)
Theorem kbd_test_scan_correct l fuel d :
  stream d = l ++ [ESC_BREAK] -> ~ In ESC_BREAK l -> (length l < fuel)%nat ->
  exists s', kbd_test_scan fuel (init_lab3 d) = Ok 0 s' /\ stream (dev s') = [] /\
    printed (dev s') = printed d ++ scan_parse false (l ++ [ESC_BREAK]).
Proof.
  intros Hs Hn Hf. destruct (ks_subscribe d (Z.lor IRQ_REENABLE IRQ_EXCLUSIVE) 1) as (h' & d1 & H1 & Hs1 & Hp1).
  set (s1 := MkLab3 d1 h' 0 0 0 0 1 0 1 [0; 0] 0).
  destruct (scan_loop l false fuel s1) as (s2 & Hw & Hst & Hpr); [done|done|by rewrite <- Hs|done|done|done|].
  destruct (ks_unsubscribe (dev s2) (kbd_hookid s2)) as (d3 & H3 & Hs3 & Hp3).
  exists (s2 <| dev := d3 |>). split; [|split; [by rewrite <- Hst|get_set; by rewrite Hp3, Hpr, <- Hp1]].
  assert (kbd_test_scan fuel (init_lab3 d) = call (
    while_ fuel not_esc scan_body ;; rc <- kbd_unsubscribe_int ;; if ctrue rc then return_ 1 else ret 0) s1) as ->.
  { unfold kbd_test_scan, kbd_subscribe_int, call, bind, gets, modify, sys. cbn [kbd_hookid init_lab3 set_field set_kbd_bit_no dev].
    rewrite H1. done. }
  unfold call, bind. rewrite Hw. unfold kbd_unsubscribe_int, call, bind, gets, sys. rewrite H3. done.
Qed.

End scan.

(** ** The command byte *)

(** What the controller expects next; [KIdle n]: its buffers are full for [n] more status reads. *)
Inductive kbc_phase :=
| KIdle (n : nat)
| KReading
| KWriting.

Class Kbc (D : Type) `{K : Kernel D} := {
  kbc_phase_of : D -> kbc_phase;
  command_byte : D -> Z;
  kbc_command_u8 d : in_u8 (command_byte d);
  kbc_status d n : kbc_phase_of d = KIdle n -> exists st d', sys_inb STAT_REG d = ((0, st), d') /\ in_u8 st /\
    ctrue (Z.land st (Z.lor IBF_BIT OBF_BIT)) = negb (Nat.eqb n 0) /\
    kbc_phase_of d' = KIdle (Nat.pred n) /\ command_byte d' = command_byte d;
  kbc_read d : kbc_phase_of d = KIdle 0 -> exists d', sys_outb STAT_REG READ_COMMAND d = (0, d') /\
    kbc_phase_of d' = KReading /\ command_byte d' = command_byte d;
  kbc_read_data d : kbc_phase_of d = KReading -> exists d', sys_inb OUT_BUF d = ((0, command_byte d), d') /\
    kbc_phase_of d' = KIdle 0 /\ command_byte d' = command_byte d;
  kbc_write d : kbc_phase_of d = KIdle 0 -> exists d', sys_outb STAT_REG WRITE_COMMAND d = (0, d') /\
    kbc_phase_of d' = KWriting /\ command_byte d' = command_byte d;
  kbc_write_data d v : kbc_phase_of d = KWriting -> in_u8 v -> exists d', sys_outb ARGS_REG v d = (0, d') /\
    kbc_phase_of d' = KIdle 0 /\ command_byte d' = v;
}.

Section command.
Context {D : Type} `{C : Kbc D}.
Implicit Types s : lab3 D.

(** The wait of [readcommand] and [writecommand] is bounded by their number of tries. *)
Lemma when_ready_waits n tries fuel act s :
  kbc_phase_of (dev s) = KIdle n -> (tries <= fuel)%nat ->
  exists s', kbc_phase_of (dev s') = KIdle (n - tries) /\ command_byte (dev s') = command_byte (dev s) /\
    when_ready fuel (Z.of_nat tries) act s = if (n <? tries)%nat then act s' else Ok None s'.
Proof.
  revert n fuel s. induction tries as [|tries IH]; intros n fuel s Hn Hf.
  { exists s. rewrite Nat.sub_0_r. by destruct fuel. }
  destruct fuel as [|fuel]; [lia|]. destruct (kbc_status (dev s) n Hn) as (st & d & He & Hst & Hb & Hp & Hc).
  cbn [when_ready]. assert (ctrue (Z.of_nat (S tries)) = true) as -> by (unfold ctrue; lia). cbn [negb].
  unfold bind at 1, util_sys_inb, bind, sys. rewrite He. cbn [ctrue Z.eqb negb]. unfold ret, modify. rewrite u8_id, Hb by done.
  set (s1 := s <| dev := d |> <| statuscode := st |>).
  destruct n as [|n]; cbn [negb Nat.eqb].
  - exists s1. split; [exact Hp|]. split; [exact Hc|done].
  - replace (Z.of_nat (S tries) - 1) with (Z.of_nat tries) by lia.
    destruct (IH n fuel s1 Hp ltac:(lia)) as (s' & Hp' & Hc' & Hr). exists s'. split; [done|]. split; [rewrite Hc'; exact Hc|].
    exact Hr.
Qed.

(** C35: interrupts of the keyboard are enabled again.  If the controller's buffers become free within 10 status reads,
    [kbd_reenable_int] returns 0 and the command byte has bit 0 set and its other bits as
    before; if not, it returns 1 and the command byte is as before. *)
Theorem kbd_reenable_int_correct n fuel s :
  kbc_phase_of (dev s) = KIdle n -> (10 <= fuel)%nat ->
  exists s', kbd_reenable_int fuel s = Ok (if (n <? 10)%nat then 0 else 1) s' /\
    command_byte (dev s') = if (n <? 10)%nat then Z.lor (command_byte (dev s)) 1 else command_byte (dev s).
Proof.
  intros Hn Hf. unfold kbd_reenable_int, call, bind at 1, readcommand. change 10 with (Z.of_nat 10).
  destruct (when_ready_waits n 10 fuel (rc <- sys dev (sys_outb STAT_REG READ_COMMAND) ;;
    if ctrue rc then ret None else util_sys_inb OUT_BUF) s Hn Hf) as (s1 & Hp1 & Hc1 & ->).
  destruct (n <? 10)%nat eqn:En; [|by exists s1]. apply Nat.ltb_lt in En. replace (n - 10)%nat with 0%nat in Hp1 by lia.
  destruct (kbc_read (dev s1) Hp1) as (d2 & H2 & Hp2 & Hc2). destruct (kbc_read_data d2 Hp2) as (d3 & H3 & Hp3 & Hc3).
  unfold bind at 1, sys. rewrite H2. cbn [ctrue Z.eqb negb]. unfold util_sys_inb, bind, sys. get_set. rewrite H3.
  cbn [ctrue Z.eqb negb]. unfold ret at 1. pose proof (kbc_command_u8 d2) as Hu. rewrite (u8_id (command_byte d2)) by exact Hu.
  set (s3 := s1 <| dev := d2 |> <| dev := d3 |>). set (v := u8 (Z.lor (command_byte d2) ENABLE_KBD)).
  unfold writecommand. change 10 with (Z.of_nat 10).
  destruct (when_ready_waits 0 10 fuel (rc <- sys dev (sys_outb STAT_REG WRITE_COMMAND) ;; if ctrue rc then ret None else
    rc <- sys dev (sys_outb ARGS_REG v) ;; if ctrue rc then ret None else ret (Some 0)) s3 Hp3 Hf) as (s4 & Hp4 & Hc4 & ->).
  change (0 <? 10)%nat with true. cbv iota. destruct (kbc_write (dev s4) Hp4) as (d5 & H5 & Hp5 & Hc5).
  destruct (kbc_write_data d5 v Hp5 (u8_range _)) as (d6 & H6 & _ & Hc6).
  exists (s4 <| dev := d5 |> <| dev := d6 |>). split.
  - unfold bind, sys. rewrite H5. cbn [ctrue Z.eqb negb]. get_set. rewrite H6. done.
  - get_set. rewrite Hc6. unfold v. rewrite u8_id by (apply in_u8_lor; [done|split; vm_compute; congruence]).
    change ENABLE_KBD with 1. congruence.
Qed.

End command.

(** ** Loops that do not end *)

(** polling.  While a byte of the keyboard is waiting in the output buffer, the polling loop does not
    read it: it skips the iteration in which the buffer is full, so [kbd_test_poll] never
    returns, whatever its fuel. *)
Theorem kbd_test_poll_ignores_full_buffer {D} `{K : Kernel D} `{P : LcfPrint D} fuel (s : lab3 D) :
  (forall d, exists st d', sys_inb STAT_REG d = ((0, st), d') /\ in_u8 st /\ Z.testbit st 0 = true) ->
  scancode s <> ESC_BREAK ->
  kbd_test_poll fuel s = Fault OutOfFuel.
Proof.
  intros Hst Hsc. unfold kbd_test_poll, call, bind at 1, modify. unfold bind at 1.
  assert (forall s1 : lab3 D, scancode s1 <> ESC_BREAK -> while_ fuel not_esc poll_body s1 = Fault OutOfFuel) as ->; [|done|exact Hsc].
  clear s Hsc. induction fuel as [|n IH]; intros s Hsc; cbn [while_]; unfold not_esc; rewrite (proj2 (Z.eqb_neq _ _) Hsc); [done|].
  cbn [negb]. destruct (Hst (dev s)) as (st & d & He & Hu & Hb).
  unfold poll_body, bind at 1, util_sys_inb, bind, sys. rewrite He. cbn [ctrue Z.eqb negb]. unfold ret, modify.
  rewrite u8_id by done. assert (ctrue (Z.land st (Z.lor OBF_BIT AUX_BIT)) = true) as ->.
  { unfold ctrue. destruct (Z.land st (Z.lor OBF_BIT AUX_BIT) =? 0) eqn:E; [|done]. apply Z.eqb_eq in E.
    assert (Z.testbit (Z.land st (Z.lor OBF_BIT AUX_BIT)) 0 = false) as Hf by (by rewrite E, Z.bits_0).
    by rewrite Z.land_spec, Hb in Hf. }
  apply IH. exact Hsc.
Qed.

(** a failing status register.  The attempts of [readcommand] and [writecommand] are counted only when
    the status register could be read: if it cannot, they never return. *)
Theorem command_loops_on_status_failure {D} `{K : Kernel D} fuel v (s : lab3 D) :
  (forall d, exists rc b d', sys_inb STAT_REG d = ((rc, b), d') /\ rc <> 0) ->
  readcommand fuel s = Fault OutOfFuel /\ writecommand fuel v s = Fault OutOfFuel.
Proof.
  intros Hst. assert (forall act (s : lab3 D), when_ready fuel 10 act s = Fault OutOfFuel) as Hw; [|by split; apply Hw].
  clear s. intros act. induction fuel as [|n IH]; intros s; [done|]. cbn [when_ready ctrue Z.eqb negb].
  destruct (Hst (dev s)) as (rc & b & d & He & Hrc). unfold bind at 1, util_sys_inb, bind, sys. rewrite He.
  assert (ctrue rc = true) as -> by (unfold ctrue; lia). unfold ret. apply IH.
Qed.

(** ** Waiting for a key *)

(** A system on which nothing happens but the ticks of timer 0, [ticked] of them so far; [junk] is the value of
    a variable that was never written. *)
Class Idle (D : Type) `{K : Kernel D} := {
  ticked : D -> Z;
  junk : Z;
  idle_receive d : exists m d', driver_receive d = ((0, m, true), d') /\ m_source_p m = HARDWARE /\ m_interrupts m = BIT 0 /\
    ticked d' = ticked d + 1;
  idle_subscribe irq p h d : exists h' d', sys_irqsetpolicy irq p h d = ((0, h'), d') /\ ticked d' = ticked d;
  idle_unsubscribe h d : exists d', sys_irqrmpolicy h d = (0, d') /\ ticked d' = ticked d;
  idle_junk d : exists d', indeterminate d = (junk, d') /\ ticked d' = ticked d;
}.

Section idle.
Context {D : Type} `{I : Idle D} `{P : LcfPrint D}.
Implicit Types s : lab3 D.

(** [t] ticks after the start of the loop, from the first value [g] of the counter of seconds. *)
Definition waited (g n0 t : Z) s : Prop :=
  timer_bit_no s = 0 /\ kbd_bit_no s = 1 /\ scancode s = 0 /\ timer_counter s = t /\ aux_counter s = g + (t + 59) / 60 /\
  ticked (dev s) = n0 + t.

Lemma timed_scan_tick g n0 t s J :
  0 <= t < 2 ^ 31 - 60 -> 0 <= g < 256 -> waited g n0 t s -> wp False timed_scan_body (fun _ s' => waited g n0 (t + 1) s') J s.
Proof.
  intros Ht Hg (Htb & Hkb & Hsc & Htc & Haux & Hn). destruct (idle_receive (dev s)) as (m & d & Hr & Hsrc & Hm & Hd).
  unfold timed_scan_body, on_notification. apply wp_bind, wp_sys. rewrite Hr. cbn [fst snd ctrue Z.eqb negb when].
  apply wp_switch. rewrite Hsrc. cbn [Z.eqb HARDWARE Pos.eqb]. apply wp_bind, wp_bind, wp_gets, wp_bind. get_set. rewrite Hkb, Hm.
  change (ctrue (Z.land (BIT 0) (BIT 1))) with false. apply wp_ret, wp_bind, wp_gets. get_set. rewrite Htb.
  change (ctrue (Z.land (BIT 0) (BIT 0))) with true. cbn [when]. apply wp_bind, wp_gets, wp_bind. get_set. rewrite Htc, i32_id by (unfold in_i32; lia).
  rewrite Z.rem_mod_nonneg by lia.
  assert (0 <= (t + 59) / 60 < 2 ^ 31) as Hq by (Z.to_euclidean_division_equations; lia).
  assert ((t + 1 + 59) / 60 = (t + 59) / 60 + if t mod 60 =? 0 then 1 else 0) as Hnext by (ifcase; Z.to_euclidean_division_equations; lia).
  wp_step; [apply wp_modify|apply wp_ret]; apply wp_modify, wp_jump; unfold waited; get_set; rewrite Hnext, Haux, Hd, Hn, Htc.
  - rewrite !u32_id by lia. repeat split; try done; lia.
  - rewrite u32_id by lia. repeat split; try done; lia.
Qed.

(** C34: the time out of the scan.  When no key is pressed, [kbd_test_timed_scan] returns 0 after [n] seconds of 60 ticks, and one
    tick, if the counter of seconds happens to start at 0; it starts at whatever the variable [aux_counter], which has no
    initialiser, contains, and the time is shorter by as many seconds, down to no waiting at all. *)
Theorem kbd_test_timed_scan_idle fuel n d :
  0 <= n < 256 -> 0 <= junk < 2 ^ 32 -> (Z.to_nat (60 * n + 1) < fuel)%nat ->
  exists s', kbd_test_timed_scan fuel n (init_lab3 d) = Ok 0 s' /\
    ticked (dev s') = ticked d + if junk <=? n then 60 * (n - junk) + 1 else 0.
Proof.
  intros Hn Hj Hf.
  destruct (wp_exec (kbd_test_timed_scan fuel n) (fun r s' => r = 0 /\
    ticked (dev s') = ticked d + if junk <=? n then 60 * (n - junk) + 1 else 0) (init_lab3 d)) as (r & s' & He & -> & Hpost); [|by exists s'].
  apply wp_call, wp_bind, wp_modify, wp_bind, wp_modify, wp_bind, wp_call, wp_bind, wp_gets, wp_bind, wp_modify, wp_bind, wp_sys.
  destruct (idle_subscribe KBD_IRQ (Z.lor IRQ_REENABLE IRQ_EXCLUSIVE) 1 d) as (h1 & d1 & H1 & Hd1). get_set. cbn [init_lab3 kbd_hookid dev]. rewrite H1.
  cbn [fst snd]. apply wp_bind, wp_modify. cbn [ctrue Z.eqb negb]. apply wp_ret. cbn [ctrue Z.eqb negb].
  apply wp_bind, wp_call, wp_bind, wp_gets, wp_bind, wp_modify, wp_bind, wp_sys.
  destruct (idle_subscribe TIMER0_IRQ IRQ_REENABLE 0 d1) as (h2 & d2 & H2 & Hd2). get_set. cbn [init_lab3 hookid dev]. rewrite H2.
  cbn [fst snd]. apply wp_bind, wp_modify. cbn [ctrue Z.eqb negb]. apply wp_ret. cbn [ctrue Z.eqb negb].
  apply wp_bind, wp_sys. destruct (idle_junk d2) as (d3 & H3 & Hd3). get_set. rewrite H3. cbn [fst snd]. rewrite u32_id by done.
  apply wp_bind, wp_modify, wp_bind, wp_modify, wp_bind. set (s0 := set_field size _ _).
  set (N := if junk <=? n then 60 * (n - junk) + 1 else 0). assert (0 <= N <= 60 * n + 1) as HN by (unfold N; ifcase; lia).
  assert (forall s, waited junk (ticked d) N s -> wp False (rc <- timer_unsubscribe_int ;; if ctrue rc then return_ 1 else
    rc <- kbd_unsubscribe_int ;; if ctrue rc then return_ 1 else ret 0)
    (fun r s' => r = 0 /\ ticked (dev s') = ticked d + N) (fun c s' => match c with CReturn r => r = 0 /\ ticked (dev s') = ticked d + N | _ => False end) s) as Hend.
  { intros s (_ & _ & _ & _ & _ & Hs). apply wp_bind, wp_call, wp_bind, wp_gets, wp_bind, wp_sys.
    destruct (idle_unsubscribe (hookid s) (dev s)) as (d4 & H4 & Hd4). rewrite H4. cbn [fst snd ctrue Z.eqb negb]. apply wp_ret. cbn [ctrue Z.eqb negb].
    apply wp_bind, wp_call, wp_bind, wp_gets, wp_bind, wp_sys. get_set.
    destruct (idle_unsubscribe (kbd_hookid s) d4) as (d5 & H5 & Hd5). rewrite H5. cbn [fst snd ctrue Z.eqb negb]. apply wp_ret. cbn [ctrue Z.eqb negb].
    apply wp_ret. split; [done|]. get_set. by rewrite Hd5, Hd4. }
  assert (waited junk (ticked d) 0 s0) as Hs0.
  { split; [done|]. split; [done|]. split; [done|]. split; [done|]. split; [|change (dev s0) with d3; lia].
    change (aux_counter s0) with junk. change ((0 + 59) / 60) with 0. lia. }
  apply (wp_while_measure False (fun s => exists t, waited junk (ticked d) t s /\ 0 <= t <= N) (fun s => Z.to_nat (N - timer_counter s))).
  - exists 0. split; [done|lia].
  - change (timer_counter s0) with 0. lia.
  - intros s (t & Hs & Ht) Hc. pose proof Hs as (_ & _ & Hsc & Htc & Haux & _). apply andb_prop in Hc as [_ Hc].
    assert (junk <= n /\ t < N) as [Hle Hlt].
    { rewrite Haux in Hc. unfold N in *. destruct (Z.leb_spec junk n); Z.to_euclidean_division_equations; lia. }
    apply (wp_mono False False _ (fun _ => waited junk (ticked d) (t + 1)) _ nojump); [done| |by intros ? ? []|apply timed_scan_tick; [lia|lia|done]]. intros [] s' Hs'.
    pose proof Hs' as (_ & _ & _ & Htc' & _). split; [exists (t + 1); split; [done|lia]|]. rewrite Htc, Htc'. lia.
  - intros s (t & Hs & Ht) Hc. apply Hend. pose proof Hs as (_ & _ & Hsc & _ & Haux & _). unfold not_esc in Hc. rewrite Hsc in Hc.
    change (negb (0 =? ESC_BREAK)) with true in Hc. cbn [andb] in Hc. rewrite Haux in Hc. replace N with t; [done|].
    unfold N in *. destruct (Z.leb_spec junk n); Z.to_euclidean_division_equations; lia.
Qed.

End idle.

(** ** A simulated keyboard *)

Record sim_kbd := SimKbd {
  sk_stream : list Z;
  sk_printed : list (bool * list Z);
  sk_phase : kbc_phase;
  sk_command : Z;
}.

#[export] Instance settable_sim_kbd : Settable sim_kbd := fun d =>
  SimKbd (sk_stream d) (sk_printed d) (sk_phase d) (sk_command d).

Definition sim_inb (p : Z) (d : sim_kbd) : (Z * Z) * sim_kbd :=
  if p =? STAT_REG then
    match sk_phase d with
    | KIdle (S n) => ((0, 3), d <| sk_phase := KIdle n |>)
    | _ => ((0, 0), d)
    end
  else match sk_phase d, sk_stream d with
       | KReading, _ => ((0, u8 (sk_command d)), d <| sk_phase := KIdle 0 |>)
       | _, b :: q => ((0, u8 b), d <| sk_stream := q |>)
       | _, [] => ((0, 0), d)
       end.

Definition sim_outb (p v : Z) (d : sim_kbd) : Z * sim_kbd :=
  if p =? STAT_REG then
    (0, d <| sk_phase := if v =? READ_COMMAND then KReading else KWriting |>)
  else (0, d <| sk_phase := KIdle 0 |> <| sk_command := v |>).

#[export] Instance sim_kbd_kernel : Kernel sim_kbd := device_kernel sim_inb sim_outb (interrupting 1) (fun _ => 0).

#[export] Instance sim_kbd_print : LcfPrint sim_kbd :=
  device_print (fun d => d) (fun mk n bs d => d <| sk_printed := sk_printed d ++ [(mk, take (Z.to_nat n) bs)] |>) (fun _ d => d).

#[export, refine] Instance sim_kbd_stream : KbdStream sim_kbd := {
  stream d := match sk_phase d with KReading => [] | _ => u8 <$> sk_stream d end;
  printed := sk_printed;
}.
Proof.
  - intros d. assert (Forall in_u8 (u8 <$> sk_stream d)) as Hf.
    { apply Forall_fmap, Forall_true. intros z. apply u8_range. }
    by destruct (sk_phase d).
  - intros d. by exists (Message HARDWARE (BIT 1)), d.
  - done.
  - intros d. cbn [sys_inb sim_kbd_kernel device_kernel]. unfold sim_inb. rewrite Z.eqb_refl.
    destruct (sk_phase d) as [[|n]| |] eqn:Hp; eexists _, _; (split; [reflexivity|]); cbn; rewrite ?Hp; unfold in_u8; repeat split; lia.
  - intros d b q Hs. cbn [sys_inb sim_kbd_kernel device_kernel]. unfold sim_inb. change (OUT_BUF =? STAT_REG) with false. cbv iota.
    destruct (sk_phase d) as [n| |] eqn:Hp, (sk_stream d) as [|c r] eqn:Hd; try discriminate Hs; injection Hs as <- <-.
    all: eexists; split; [reflexivity|]; cbn; by rewrite Hp.
  - intros mk n bs d. done.
  - intros d p h. by exists h, d.
  - intros d h. by exists d.
Defined.

#[export, refine] Instance sim_kbd_kbc : Kbc sim_kbd := {
  kbc_phase_of := sk_phase;
  command_byte d := u8 (sk_command d);
}.
Proof.
  - intros d. apply u8_range.
  - intros d n Hn. cbn [sys_inb sim_kbd_kernel device_kernel]. unfold sim_inb. rewrite Z.eqb_refl, Hn.
    destruct n as [|n]; eexists _, _; (split; [reflexivity|]); unfold in_u8; repeat split; try lia. exact Hn.
  - intros d Hp. by eexists.
  - intros d Hp. cbn [sys_inb sim_kbd_kernel device_kernel]. unfold sim_inb. change (OUT_BUF =? STAT_REG) with false. cbv iota. rewrite Hp.
    eexists. by split.
  - intros d Hp. by eexists.
  - intros d v Hp Hv. eexists. split; [reflexivity|]. split; [done|]. by apply u8_id.
Defined.

(** The keys A and right arrow, pressed and released, then escape. *)
Lemma kbd_test_scan_correct_witness :
  exists s', kbd_test_scan 10 (init_lab3 (SimKbd [0x1E; 0x9E; 0xE0; 0x4D; 0xE0; 0xCD; 0x81] [] (KIdle 0) 0)) = Ok 0 s' /\
    printed (dev s') = [(true, [0x1E]); (false, [0x9E]); (true, [0xE0; 0x4D]); (false, [0xE0; 0xCD]); (false, [0x81])].
Proof.
  destruct (kbd_test_scan_correct (KS := sim_kbd_stream) [0x1E; 0x9E; 0xE0; 0x4D; 0xE0; 0xCD] 10
    (SimKbd [0x1E; 0x9E; 0xE0; 0x4D; 0xE0; 0xCD; 0x81] [] (KIdle 0) 0) eq_refl
    ltac:(unfold ESC_BREAK; cbn; lia) ltac:(cbn; lia)) as (s' & He & _ & Hp).
  exists s'. split; [exact He|exact Hp].
Defined.

Lemma kbd_reenable_int_correct_witness :
  exists s', kbd_reenable_int 10 (init_lab3 (SimKbd [] [] (KIdle 3) 0x44)) = Ok 0 s' /\
    command_byte (dev s') = 0x45.
Proof.
  destruct (kbd_reenable_int_correct (C := sim_kbd_kbc) 3 10 (init_lab3 (SimKbd [] [] (KIdle 3) 0x44)) eq_refl ltac:(lia))
    as (s' & He & Hc).
  exists s'. split; [exact He|exact Hc].
Defined.

(** A system whose port reads all return [r0] and [st0]. *)
#[local] Instance stuck_kernel (r0 st0 : Z) : Kernel unit :=
  device_kernel (fun _ d => ((r0, st0), d)) (fun _ _ d => (0, d)) silent (fun _ => 0).

#[local] Instance stuck_print : LcfPrint unit := device_print (fun d => d) (fun _ _ _ d => d) (fun _ d => d).

Lemma kbd_test_poll_ignores_full_buffer_witness :
  kbd_test_poll (K := stuck_kernel 0 1) 100 (init_lab3 tt) = Fault OutOfFuel.
Proof.
  apply (kbd_test_poll_ignores_full_buffer (K := stuck_kernel 0 1) 100 (init_lab3 tt)).
  - intros d. exists 1, d. split; [reflexivity|]. split; [unfold in_u8; lia|reflexivity].
  - vm_compute. congruence.
Defined.

Lemma command_loops_on_status_failure_witness :
  readcommand (K := stuck_kernel 1 0) 100 (init_lab3 tt) = Fault OutOfFuel.
Proof.
  apply (command_loops_on_status_failure (K := stuck_kernel 1 0) 100 0 (init_lab3 tt)).
  intros d. exists 1, 0, d. split; [reflexivity|lia].
Defined.

(** A counter of ticks, with [j] in the variables that were never written. *)
#[local] Instance idle_kernel (j : Z) : Kernel Z :=
  device_kernel (fun _ d => ((0, 0), d)) (fun _ _ d => (0, d)) (fun d => ((0, Message HARDWARE (BIT 0), true), d + 1)) (fun _ => j).

#[local] Instance idle_print : LcfPrint Z := device_print (fun d => d) (fun _ _ _ d => d) (fun _ d => d).

#[local] Instance idle_system (j : Z) : Idle Z (K := idle_kernel j).
Proof.
  refine (Build_Idle Z (idle_kernel j) (fun d => d) j _ _ _ _).
  - intros d. by exists (Message HARDWARE (BIT 0)), (d + 1).
  - intros irq p h d. by exists h, d.
  - intros h d. by exists d.
  - intros d. by exists d.
Defined.

Lemma kbd_test_timed_scan_idle_witness :
  (exists s', kbd_test_timed_scan (K := idle_kernel 0) 200 3 (init_lab3 0) = Ok 0 s' /\ dev s' = 181) /\
  (exists s', kbd_test_timed_scan (K := idle_kernel 2) 200 3 (init_lab3 0) = Ok 0 s' /\ dev s' = 61).
Proof.
  split.
  - exact (kbd_test_timed_scan_idle (I := idle_system 0) 200 3 0 ltac:(lia) ltac:(cbn; lia) ltac:(lia)).
  - exact (kbd_test_timed_scan_idle (I := idle_system 2) 200 3 0 ltac:(lia) ltac:(cbn; lia) ltac:(lia)).
Defined.
