(* ===== verification/Lab4.v ===== *)
(** * Laboratory 4: the mouse (lab4/mouse.c, timer.c, utils.c, lab4.c, i8042.h, i8254.h)

    [mouse_test_async] and [mouse_test_gesture] call functions and use variables
    that no file of the laboratory defines: they are the class [Gestures]. *)

From S2P Require Import Prelude CMonad Heap Lcf Minix.
From stdpp Require Import strings options.
#[local] Open Scope Z_scope.
#[local] Open Scope cmonad_scope.

(** i8042.h *)
Definition MOUSE_IRQ : Z := 12.

Definition OUT_BUF : Z := 0x60.

Definition STAT_REG : Z := 0x64.

Definition ARGS_REG : Z := 0x60.

Definition PARITY_BIT : Z := BIT 7.

Definition TIMEOUT_BIT : Z := BIT 6.

Definition OBF_BIT : Z := BIT 0.

Definition IBF_BIT : Z := BIT 1.

Definition Y_OVFL : Z := BIT 7.

Definition X_OVFL : Z := BIT 6.

Definition Y_SIGN : Z := BIT 5.

Definition X_SIGN : Z := BIT 4.

Definition MIDDLE : Z := BIT 2.

Definition RIGHT : Z := BIT 1.

Definition LEFT : Z := BIT 0.

(** The expansion of [e | FILLMSB]. *)
Definition or_FILLMSB (e : Z) : Z :=
  Z.lor (Z.lor (Z.lor (Z.lor (Z.lor (Z.lor (Z.lor (Z.lor
    e (BIT 15)) (BIT 14)) (BIT 13)) (BIT 12)) (BIT 11)) (BIT 10)) (BIT 9)) (BIT 8).

Definition ENABLE_MOUSE : Z := 0xF4.

Definition DISABLE_MOUSE : Z := 0xF5.

Definition ACK : Z := 0xFA.

Definition ACK_ERROR : Z := 0xFC.

Definition MOUSE_COMMAND : Z := 0xD4.

(** i8254.h *)
Definition TIMER_FREQ : Z := 1193182.

Definition TIMER0_IRQ : Z := 0.

Definition TIMER_0 : Z := 0x40.

Definition TIMER_1 : Z := 0x41.

Definition TIMER_2 : Z := 0x42.

Definition TIMER_CTRL : Z := 0x43.

Definition TIMER_SEL0 : Z := 0x00.

Definition TIMER_SEL1 : Z := BIT 6.

Definition TIMER_SEL2 : Z := BIT 7.

Definition TIMER_RB_CMD : Z := Z.lor (BIT 7) (BIT 6).

Definition TIMER_LSB : Z := BIT 4.

Definition TIMER_MSB : Z := BIT 5.

Definition TIMER_LSB_MSB : Z := Z.lor TIMER_LSB TIMER_MSB.

Definition TIMER_RB_COUNT_ : Z := BIT 5.

Definition TIMER_RB_SEL (n : Z) : Z := BIT (n + 1).

(** minix/com.h *)
Definition IRQ_REENABLE : Z := 0x001.

Definition IRQ_EXCLUSIVE : Z := 0x002.

(** The code that [lab4.c] declares or calls and that is not in the repository. *)
Class Gestures (D : Type) := {
  event_t : Type;
  getMousePacket : list Z -> packet;
  mouse_get_event : packet -> D -> event_t * D;
  mouse_check_pattern : event_t -> Z -> Z -> D -> D;
  existEvent : D -> bool;
  pattern_detected : D -> bool;
  (** [previousPacket.lb = previousPacket.rb = previousPacket.mb = false] *)
  clear_previousPacket : D -> D;
}.

(** The globals of mouse.c and timer.c, and the automatic variables of the test functions. *)
Record lab4 (D : Type) := MkLab4 {
  dev : D;
  mouse_hookid : Z;
  statuscode : Z;
  scancode : Z;
  ih_error : Z;
  hookid : Z;
  timer_counter : Z;
  mouse_bit_no : Z;
  timer_bit_no : Z;
  currentByte : Z;
  bytes : list Z;
  pp : packet;
  cnt : Z;
  aux_counter : Z;
}.
Arguments MkLab4 {D}.
Arguments dev {D}.
Arguments mouse_hookid {D}.
Arguments statuscode {D}.
Arguments scancode {D}.
Arguments ih_error {D}.
Arguments hookid {D}.
Arguments timer_counter {D}.
Arguments mouse_bit_no {D}.
Arguments timer_bit_no {D}.
Arguments currentByte {D}.
Arguments bytes {D}.
Arguments pp {D}.
Arguments cnt {D}.
Arguments aux_counter {D}.

#[export] Instance settable_lab4 {D} : Settable (lab4 D) := fun s =>
  MkLab4 (dev s) (mouse_hookid s) (statuscode s) (scancode s) (ih_error s) (hookid s)
    (timer_counter s) (mouse_bit_no s) (timer_bit_no s) (currentByte s) (bytes s) (pp s) (cnt s)
    (aux_counter s).

(** One setter per member. *)
#[export] Instance set_dev {D} : Setter (@dev D) := ltac:(build_setter).
#[export] Instance set_mouse_hookid {D} : Setter (@mouse_hookid D) := ltac:(build_setter).
#[export] Instance set_statuscode {D} : Setter (@statuscode D) := ltac:(build_setter).
#[export] Instance set_scancode {D} : Setter (@scancode D) := ltac:(build_setter).
#[export] Instance set_ih_error {D} : Setter (@ih_error D) := ltac:(build_setter).
#[export] Instance set_hookid {D} : Setter (@hookid D) := ltac:(build_setter).
#[export] Instance set_timer_counter {D} : Setter (@timer_counter D) := ltac:(build_setter).
#[export] Instance set_mouse_bit_no {D} : Setter (@mouse_bit_no D) := ltac:(build_setter).
#[export] Instance set_timer_bit_no {D} : Setter (@timer_bit_no D) := ltac:(build_setter).
#[export] Instance set_currentByte {D} : Setter (@currentByte D) := ltac:(build_setter).
#[export] Instance set_bytes {D} : Setter (@bytes D) := ltac:(build_setter).
#[export] Instance set_pp {D} : Setter (@pp D) := ltac:(build_setter).
#[export] Instance set_cnt {D} : Setter (@cnt D) := ltac:(build_setter).
#[export] Instance set_aux_counter {D} : Setter (@aux_counter D) := ltac:(build_setter).

Definition init_lab4 {D} (d : D) : lab4 D :=
  MkLab4 d 1 0 0 0 0 0 0 0 1 [0; 0; 0] no_packet 0 0.

Abbreviation assign f v := (modify (fun s => s <| f := v |>)).

(** utils.c *)
Definition util_get_LSB (val : Z) : Z := u8 val.

Definition util_get_MSB (val : Z) : Z := u8 (Z.shiftr val 8).

(** mouse.c *)
Definition mouse_getPacket (b : list Z) : packet :=
  let b0 := nth 0 b 0 in
  let b1 := nth 1 b 0 in
  let b2 := nth 2 b 0 in
  {| pp_bytes := [b0; b1; b2];
     pp_lb := ctrue (Z.land b0 LEFT);
     pp_rb := ctrue (Z.shiftr (Z.land b0 RIGHT) 1);
     pp_mb := ctrue (Z.shiftr (Z.land b0 MIDDLE) 2);
     pp_delta_y := if ctrue (Z.land b0 Y_SIGN) then i16 (or_FILLMSB b2) else i16 b2;
     pp_delta_x := if ctrue (Z.land b0 X_SIGN) then i16 (or_FILLMSB b1) else i16 b1;
     pp_x_ov := ctrue (Z.shiftr (Z.land b0 X_OVFL) 6);
     pp_y_ov := ctrue (Z.shiftr (Z.land b0 Y_OVFL) 7) |}.

Section lab4.
Context {D : Type} `{K : Kernel D} `{P : LcfPrint D} `{F : LcfMain D} `{G : Gestures D}.

Definition util_sys_inb (port : Z) : M (lab4 D) (option Z) :=
  '(rc, aux) <- sys dev (sys_inb port) ;;
  if ctrue rc then ret None else ret (Some (u8 aux)).

(** [mouse_subscribe_int(&bit_no)], for the variable [mouse_bit_no]. *)
Definition mouse_subscribe_int : M (lab4 D) Z := call (
  h <- gets mouse_hookid ;;
  assign mouse_bit_no (u8 h) ;;
  '(rc, h') <- sys dev (sys_irqsetpolicy MOUSE_IRQ (Z.lor IRQ_REENABLE IRQ_EXCLUSIVE) h) ;;
  assign mouse_hookid h' ;;
  if ctrue rc then return_ 1 else ret 0).

(** [mouse_subscribe_int(&mouse_hookid)]: the byte is stored over the low byte of
    the hook id itself, which leaves it as it was. *)
Definition mouse_subscribe_int_hookid : M (lab4 D) Z := call (
  modify (fun s => s <| mouse_hookid := i32 (Z.shiftl (Z.shiftr (mouse_hookid s) 8) 8 + u8 (mouse_hookid s)) |>) ;;
  h <- gets mouse_hookid ;;
  '(rc, h') <- sys dev (sys_irqsetpolicy MOUSE_IRQ (Z.lor IRQ_REENABLE IRQ_EXCLUSIVE) h) ;;
  assign mouse_hookid h' ;;
  if ctrue rc then return_ 1 else ret 0).

Definition mouse_unsubscribe_int : M (lab4 D) Z := call (
  h <- gets mouse_hookid ;;
  rc <- sys dev (sys_irqrmpolicy h) ;;
  if ctrue rc then return_ 1 else ret 0).

Definition utils_sys_inb (port : Z) : M (lab4 D) (option Z) :=
  '(rc, aux) <- sys dev (sys_inb port) ;;
  if ctrue rc then ret None else ret (Some (u8 aux)).

(** A failed read of the status register does not end the handler. *)
Definition mouse_ih : M (lab4 D) unit :=
  st <- utils_sys_inb STAT_REG ;;
  match st with
  | None => assign ih_error 1
  | Some b => assign statuscode b
  end ;;
  st <- gets statuscode ;;
  if negb ((Z.land st (Z.lor PARITY_BIT TIMEOUT_BIT) =? 0) && ctrue (Z.land st OBF_BIT)) then
    assign scancode 0 ;;
    assign ih_error 1
  else
    b <- utils_sys_inb OUT_BUF ;;
    match b with
    | Some b => assign scancode b
    | None => ret tt
    end.

Definition mouseStatus : M (lab4 D) (option Z) := util_sys_inb STAT_REG.

(** One iteration of the loop of [send_mouse_command]; yields [ack]. *)
Definition send_mouse_iteration (cmd ack : Z) : M (lab4 D) Z :=
  st <- utils_sys_inb STAT_REG ;;
  match st with
  | None => return_ 1
  | Some st =>
      assign statuscode st ;;
      if ctrue (Z.land st IBF_BIT) then ret ack else
      rc <- sys dev (sys_outb STAT_REG MOUSE_COMMAND) ;;
      if ctrue rc then return_ 1 else
      st <- utils_sys_inb STAT_REG ;;
      match st with
      | None => return_ 1
      | Some st =>
          assign statuscode st ;;
          if ctrue (Z.land st IBF_BIT) then ret ack else
          rc <- sys dev (sys_outb ARGS_REG cmd) ;;
          if ctrue rc then return_ 1 else
          sys_ dev (fun d => tickdelay (micros_to_ticks 20000 d) d) ;;
          a <- utils_sys_inb OUT_BUF ;;
          match a with
          | None => return_ 1
          | Some ack => if ack =? ACK_ERROR then return_ 1 else ret ack
          end
      end
  end.

Fixpoint send_mouse_loop (fuel : nat) (cmd ack : Z) : M (lab4 D) Z :=
  match fuel with
  | O => raise OutOfFuel
  | S n =>
      ack <- send_mouse_iteration cmd ack ;;
      if ack =? ACK then ret 0 else send_mouse_loop n cmd ack
  end.

Definition send_mouse_command (fuel : nat) (cmd : Z) : M (lab4 D) Z := call (
  ack <- sys dev indeterminate ;;
  send_mouse_loop fuel cmd (u8 ack)).

(** timer.c *)
Definition timer_get_conf (timer : Z) : M (lab4 D) (option Z) :=
  let readBack := u8 (Z.lor (Z.lor TIMER_RB_COUNT_ TIMER_RB_CMD) (TIMER_RB_SEL timer)) in
  let port := match timer with 0 => Some TIMER_0 | 1 => Some TIMER_1 | 2 => Some TIMER_2 | _ => None end in
  match port with
  | None => ret None
  | Some port =>
      rc <- sys dev (sys_outb TIMER_CTRL readBack) ;;
      if ctrue rc then ret None else
      util_sys_inb port
  end.

(** The [switch] on the timer: the control word and the register. *)
Definition select_timer (timer controlword : Z) : option (Z * Z) :=
  match timer with
  | 0 => Some (u8 (Z.lor controlword TIMER_SEL0), TIMER_0)
  | 1 => Some (u8 (Z.lor controlword TIMER_SEL1), TIMER_1)
  | 2 => Some (u8 (Z.lor controlword TIMER_SEL2), TIMER_2)
  | _ => None
  end.

Definition timer_set_frequency (timer freq : Z) : M (lab4 D) Z := call (
  if (timer <? 0) || (2 <? timer) then return_ 1 else
  if (freq <? 19) || (TIMER_FREQ <? freq) then return_ 1 else
  st <- timer_get_conf timer ;;
  match st with
  | None => return_ 1
  | Some st =>
      let st := u8 (Z.land st (Z.lor (Z.lor (Z.lor (BIT 0) (BIT 1)) (BIT 2)) (BIT 3))) in
      let controlword := u8 (Z.lor TIMER_LSB_MSB st) in
      match select_timer timer controlword with
      | None => return_ 1
      | Some (controlword, timer_reg) =>
          rc <- sys dev (sys_outb TIMER_CTRL controlword) ;;
          if ctrue rc then return_ 1 else
          let f := u16 (TIMER_FREQ / freq) in
          rc <- sys dev (sys_outb timer_reg (util_get_LSB f)) ;;
          if ctrue rc then return_ 1 else
          rc <- sys dev (sys_outb timer_reg (util_get_MSB f)) ;;
          if ctrue rc then return_ 1 else
          ret 0
      end
  end).

Definition timer_subscribe_int : M (lab4 D) Z := call (
  h <- gets hookid ;;
  assign timer_bit_no (u8 h) ;;
  '(rc, h') <- sys dev (sys_irqsetpolicy TIMER0_IRQ IRQ_REENABLE h) ;;
  assign hookid h' ;;
  if ctrue rc then return_ 1 else ret 0).

Definition timer_unsubscribe_int : M (lab4 D) Z := call (
  h <- gets hookid ;;
  rc <- sys dev (sys_irqrmpolicy h) ;;
  if ctrue rc then return_ 1 else ret 0).

Definition timer_int_handler : M (lab4 D) unit :=
  modify (fun s => s <| timer_counter := u32 (timer_counter s + 1) |>).

(** What [timer_display_conf] stores in [val]. *)
Definition conf_field (st : Z) (field : timer_status_field) : timer_status_field_val :=
  match field with
  | tsf_all => val_byte st
  | tsf_initial => val_in_mode (Z.shiftr (Z.land st (Z.lor (BIT 4) (BIT 5))) 4)
  | tsf_mode => val_count_mode (u8 (Z.shiftr (Z.land st (Z.lor (Z.lor (BIT 1) (BIT 2)) (BIT 3))) 1))
  | tsf_base => val_bcd (ctrue (Z.land st (BIT 0)))
  end.

Definition timer_display_conf (timer st : Z) (field : timer_status_field) : M (lab4 D) Z := call (
  rc <- sys dev (timer_print_config timer field (conf_field st field)) ;;
  if ctrue rc then return_ 1 else ret 0).

(** lab4.c *)
Definition main (argv : list string) : M (lab4 D) Z := call (
  sys dev (lcf_set_language "EN-US") ;;
  sys dev (lcf_trace_calls "/home/lcom/labs/lab4/trace.txt") ;;
  sys dev (lcf_log_output "/home/lcom/labs/lab4/output.txt") ;;
  rc <- sys dev (lcf_start argv) ;;
  if ctrue rc then return_ 1 else
  sys dev lcf_cleanup ;;
  ret 0).

(** [bytes[i] = scancode; currentByte = next] *)
Definition set_byte (i : nat) (b next : Z) : M (lab4 D) unit :=
  modify (fun s => s <| bytes := <[i := b]> (bytes s) |> <| currentByte := next |>).

(** One byte from the mouse: [done] is what the function does with a full packet. *)
Definition handle_byte (packet_done : M (lab4 D) unit) : M (lab4 D) unit :=
  mouse_ih ;;
  e <- gets ih_error ;;
  if ctrue e then jump CContinue else
  cur <- gets currentByte ;;
  b <- gets scancode ;;
  if cur =? 1 then
    if Z.land b (BIT 3) =? 0 then jump CContinue else
    set_byte 0 b 2
  else if cur =? 2 then set_byte 1 b 3
  else if cur =? 3 then set_byte 2 b 1 ;; packet_done
  else ret tt.

Definition on_notification (handler : Z -> M (lab4 D) unit) : M (lab4 D) unit :=
  '(r, msg, notify) <- sys dev driver_receive ;;
  if ctrue r then jump CContinue else
  when notify (switch (
    if m_source_p msg =? HARDWARE then handler (m_interrupts msg) ;; jump CBreak
    else jump CBreak)).

(** A full packet in [mouse_test_packet]. *)
Definition packet_counted : M (lab4 D) unit :=
  bs <- gets bytes ;;
  assign pp (mouse_getPacket bs) ;;
  p <- gets pp ;;
  sys_ dev (mouse_print_packet p) ;;
  modify (fun s => s <| cnt := u32 (cnt s - 1) |>).

Definition packet_body : M (lab4 D) unit := on_notification (fun ints =>
  mb <- gets mouse_bit_no ;;
  when (ctrue (Z.land ints (BIT mb))) (handle_byte packet_counted)).

Definition mouse_test_packet (fuel : nat) (c : Z) : M (lab4 D) Z := call (
  assign cnt c ;;
  rc <- send_mouse_command fuel ENABLE_MOUSE ;;
  if ctrue rc then return_ 1 else
  rc <- mouse_subscribe_int ;;
  if ctrue rc then return_ 1 else
  assign currentByte 1 ;;
  while_ fuel (fun s => 0 <? cnt s) packet_body ;;
  rc <- mouse_unsubscribe_int ;;
  if ctrue rc then return_ 1 else
  rc <- send_mouse_command fuel DISABLE_MOUSE ;;
  if ctrue rc then return_ 1 else
  ret 0).

(** A full packet in [mouse_test_async]. *)
Definition packet_shown : M (lab4 D) unit :=
  bs <- gets bytes ;;
  assign pp (getMousePacket bs) ;;
  p <- gets pp ;;
  sys_ dev (mouse_print_packet p).

(** The mask of the mouse is [mouse_bit_no] itself, not [BIT(mouse_bit_no)]. *)
Definition async_body : M (lab4 D) unit := on_notification (fun ints =>
  mb <- gets mouse_bit_no ;;
  when (ctrue (Z.land ints mb)) (
    handle_byte packet_shown ;;
    assign timer_counter 0 ;;
    assign aux_counter 0) ;;
  tb <- gets timer_bit_no ;;
  when (ctrue (Z.land ints (BIT tb))) (
    tc <- gets timer_counter ;;
    when (Z.rem (i32 tc) 60 =? 0) (modify (fun s => s <| aux_counter := u32 (aux_counter s + 1) |>)) ;;
    timer_int_handler)).

(** The subscription is the body of the first [if]; [mouse_bit_no] is never written. *)
Definition mouse_test_async (fuel : nat) (idle_time : Z) : M (lab4 D) Z := call (
  g <- sys dev indeterminate ;;
  assign mouse_bit_no (u8 g) ;;
  rc <- send_mouse_command fuel ENABLE_MOUSE ;;
  (if ctrue rc then
     rc <- mouse_subscribe_int_hookid ;;
     when (ctrue rc) (return_ 1)
   else ret tt) ;;
  rc <- send_mouse_command fuel ENABLE_MOUSE ;;
  if ctrue rc then return_ 1 else
  rc <- timer_subscribe_int ;;
  if ctrue rc then return_ 1 else
  assign currentByte 1 ;;
  assign aux_counter 0 ;;
  while_ fuel (fun s => aux_counter s <=? idle_time) async_body ;;
  rc <- timer_unsubscribe_int ;;
  if ctrue rc then return_ 1 else
  rc <- send_mouse_command fuel DISABLE_MOUSE ;;
  if ctrue rc then return_ 1 else
  rc <- mouse_unsubscribe_int ;;
  if ctrue rc then return_ 1 else
  ret 0).

(** The loop of [mouse_test_gesture]; [event] is indeterminate until the first packet. *)
Fixpoint gesture_loop (fuel : nat) (mouse_mask tolerance lineXLen : Z) (event : option event_t) : M (lab4 D) unit :=
  fun s =>
  if pattern_detected (dev s) then Ok tt s else
  match fuel with
  | O => Fault OutOfFuel
  | S n =>
      let notified : M (lab4 D) (option event_t) :=
        '(r, msg, notify) <- sys dev driver_receive ;;
        if ctrue r then jump CContinue else
        if notify && (m_source_p msg =? HARDWARE) && ctrue (Z.land (m_interrupts msg) mouse_mask) then
          cur <- gets currentByte ;;
          handle_byte packet_shown ;;
          if cur =? 3 then
            p <- gets pp ;;
            ev <- sys dev (mouse_get_event p) ;;
            ret (Some ev)
          else ret event
        else ret event in
      match (ev <- notified ;;
             (ex <- gets (fun s => existEvent (dev s)) ;;
              when ex (match ev with
                       | Some e => sys_ dev (mouse_check_pattern e tolerance lineXLen)
                       | None => raise Indeterminate
                       end)) ;;
             ret ev) s with
      | Ok ev s' => gesture_loop n mouse_mask tolerance lineXLen ev s'
      | Jump CContinue s' => gesture_loop n mouse_mask tolerance lineXLen event s'
      | Jump c s' => Jump c s'
      | Fault f => Fault f
      end
  end.

Definition mouse_test_gesture (fuel : nat) (lineXLen tolerance : Z) : M (lab4 D) Z := call (
  mask <- gets (fun s => u32 (BIT (mouse_hookid s))) ;;
  rc <- mouse_subscribe_int_hookid ;;
  if ctrue rc then return_ 1 else
  rc <- send_mouse_command fuel ENABLE_MOUSE ;;
  if ctrue rc then return_ 1 else
  assign currentByte 1 ;;
  sys_ dev clear_previousPacket ;;
  gesture_loop fuel mask tolerance lineXLen None ;;
  rc <- send_mouse_command fuel DISABLE_MOUSE ;;
  if ctrue rc then return_ 1 else
  rc <- mouse_unsubscribe_int ;;
  if ctrue rc then return_ 1 else
  ret 0).

End lab4.
