(* ===== verification/Lab4Facts.v ===== *)
(** * Laboratory 4: packets, the error flag, the timer

    [MouseStream] is a mouse that acknowledges commands and delivers a stream of bytes
    by interrupts, with a console that records the packets printed; against it
    [mouse_test_packet] prints the packets of the stream. *)

From S2P Require Import Prelude CMonad Lcf Minix Macros ProjState Timer MouseDriver Lab2 Lab4.
From stdpp Require Import options.

(** ** Decoding *)

Lemma ctrue_shifted b n : 0 <= n -> ctrue (Z.shiftr (Z.land b (BIT n)) n) = ctrue (Z.land b (BIT n)).
Proof.
  intros Hn. rewrite ctrue_land_BIT by done. rewrite Z.shiftr_land. rewrite BIT_pow by done.
  rewrite Z.shiftr_div_pow2, (Z.shiftr_div_pow2 (2 ^ n)), Z.div_same by lia.
  change 1 with (BIT 0). rewrite ctrue_land_BIT by lia. rewrite <- Z.shiftr_div_pow2, Z.shiftr_spec by lia. done.
Qed.

(** one decoder.  The packet decoder of the laboratory and that of the project agree on every
    three bytes. *)
Theorem mouse_getPacket_equiv b : Lab4.mouse_getPacket b = MouseDriver.getMousePacket b.
Proof.
  unfold Lab4.mouse_getPacket, MouseDriver.getMousePacket. cbv zeta.
  unfold Lab4.RIGHT, Lab4.MIDDLE. rewrite (ctrue_shifted _ 1), (ctrue_shifted _ 2) by lia. reflexivity.
Qed.

(** ** The configuration of a timer *)

(** the displayed configuration.  [timer_display_conf] of the laboratory extracts bits 4 and 5 (initialisation),
    bits 1 to 3 (operating mode) and bit 0 (counting base) of the status. *)
Theorem conf_field_correct st :
  in_u8 st ->
  Lab4.conf_field st tsf_all = val_byte st /\
  Lab4.conf_field st tsf_initial = val_in_mode (st / 16 mod 4) /\
  Lab4.conf_field st tsf_mode = val_count_mode (st / 2 mod 8) /\
  Lab4.conf_field st tsf_base = val_bcd (Z.testbit st 0).
Proof.
  intros Hs. unfold Lab4.conf_field. rewrite !Z.shiftr_land.
  change (Z.shiftr (Z.lor (BIT 4) (BIT 5)) 4) with (Z.ones 2).
  change (Z.shiftr (Z.lor (Z.lor (BIT 1) (BIT 2)) (BIT 3)) 1) with (Z.ones 3).
  rewrite !Z.land_ones, !Z.shiftr_div_pow2 by lia. change (2 ^ 4) with 16. change (2 ^ 1) with 2.
  change (2 ^ 2) with 4. change (2 ^ 3) with 8. split; [done|]. split; [done|]. split.
  - rewrite u8_id; [done|]. pose proof (Z.mod_pos_bound (st / 2) 8). lia.
  - by rewrite ctrue_land_BIT.
Qed.

Lemma conf_field_correct_witness :
  Lab4.conf_field 0x36 tsf_initial = val_in_mode 3 /\ Lab4.conf_field 0x36 tsf_mode = val_count_mode 3.
Proof.
  destruct (conf_field_correct 0x36 ltac:(unfold in_u8; lia)) as (_ & Hi & Hm & _). split; [exact Hi|exact Hm].
Defined.

(** One step of a comparison of two drivers. *)
Ltac same_step :=
  lazymatch goal with
  | |- same_io _ _ (bind _ _) (bind _ _) => apply same_io_bind; [|intros ?]
  | |- same_io _ _ (ret _) (ret _) => apply same_io_ret
  | |- same_io _ _ (jump _) (jump _) => apply same_io_jump
  | |- same_io _ _ (raise _) (raise _) => apply same_io_raise
  | |- same_io _ _ (call _) (call _) => apply same_io_call
  | |- same_io _ _ (sys _ _) (sys _ _) => apply same_io_sys; intros [] ?; reflexivity
  | |- same_io _ _ (sys_ _ _) (sys_ _ _) => apply same_io_sys_; intros [] ?; reflexivity
  | |- same_io _ _ (modify _) (modify _) => apply same_io_modify; intros []; reflexivity
  | |- same_io _ _ (if ?b then _ else _) (if ?b then _ else _) => destruct b
  | |- same_io _ _ (match ?o with Some _ => _ | None => _ end) _ => destruct o
  | |- same_io _ _ (let '(_, _) := ?p in _) _ => destruct p
  end.
Ltac same := repeat same_step.

Section drivers.
Context {D : Type} `{K : Kernel D}.

Lemma util_sys_inb_equiv port : same_io (D := D) Lab2.dev Lab4.dev (Lab2.util_sys_inb port) (Lab4.util_sys_inb port).
Proof. unfold Lab2.util_sys_inb, Lab4.util_sys_inb. same. Qed.

Lemma timer_get_conf_equiv t :
  0 <= t <= 2 -> same_io (D := D) Lab2.dev Lab4.dev (Lab2.timer_get_conf t) (Lab4.timer_get_conf t).
Proof.
  intros Ht. unfold Lab2.timer_get_conf, Lab4.timer_get_conf. replace ((t <? 0) || (2 <? t)) with false by lia.
  assert (t = 0 \/ t = 1 \/ t = 2) as [->|[->| ->]] by lia; cbv zeta.
  all: apply same_io_bind; [apply same_io_sys; intros [] ?; reflexivity|]; intros rc; destruct (ctrue rc);
    [apply same_io_ret|apply util_sys_inb_equiv].
Qed.

(** C37: one timer driver.  The [timer_set_frequency] of laboratories 2 and 4, though they check their arguments in different
    orders, make the same accesses to the chip and return the same value, in every system and
    for all arguments. *)
Theorem timer_set_frequency_equiv t freq :
  same_io (D := D) Lab2.dev Lab4.dev (Lab2.timer_set_frequency t freq) (Lab4.timer_set_frequency t freq).
Proof.
  unfold Lab2.timer_set_frequency, Lab4.timer_set_frequency. apply same_io_call.
  change Lab4.TIMER_FREQ with Lab2.TIMER_FREQ.
  destruct ((freq <? 19) || (Lab2.TIMER_FREQ <? freq)) eqn:Ef, ((t <? 0) || (2 <? t)) eqn:Et; try apply same_io_jump.
  apply same_io_bind; [apply timer_get_conf_equiv; lia|]. intros [st|]; [|apply same_io_jump]. cbv zeta.
  rewrite (Z.lor_comm Lab4.TIMER_LSB_MSB). change Lab4.TIMER_LSB_MSB with Lab2.TIMER_LSB_MSB.
  change (@Lab4.select_timer) with (@Lab2.select_timer). unfold Lab4.util_get_LSB, Lab4.util_get_MSB. cbn [Lab2.util_get_LSB Lab2.util_get_MSB negb].
  change Lab4.TIMER_CTRL with Lab2.TIMER_CTRL. same.
Qed.

(** Reading the status register: in line in the laboratory, a statement of its own in the project. *)
Lemma same_io_status (k1 : Z -> M (lab4 D) Z) (k2 : Z -> M (state D) Z) :
  (forall st, same_io Lab4.dev ProjState.dev (k1 st) (k2 st)) ->
  same_io Lab4.dev ProjState.dev
    (st <- utils_sys_inb Lab4.STAT_REG ;;
     match st with
     | None => return_ 1
     | Some st => modify (fun s => s <| statuscode := st |>) ;; k1 st
     end)
    (st <- read_status ;; k2 st).
Proof.
  intros Hk s1 s2 Hs. unfold read_status, utils_sys_inb, Timer.util_sys_inb, bind, sys. rewrite Hs.
  change Lab4.STAT_REG with Macros.STAT_REG. destruct (sys_inb Macros.STAT_REG (ProjState.dev s2)) as [[rc v] d].
  destruct (ctrue rc); unfold ret, modify, jump; [done|]. by apply Hk.
Qed.

Lemma utils_sys_inb_equiv port : same_io (D := D) Lab4.dev ProjState.dev (utils_sys_inb port) (Timer.util_sys_inb port).
Proof. unfold utils_sys_inb, Timer.util_sys_inb. same. Qed.

Lemma send_mouse_iteration_equiv cmd ack :
  same_io (D := D) Lab4.dev ProjState.dev (Lab4.send_mouse_iteration cmd ack) (MouseDriver.send_mouse_iteration cmd ack).
Proof.
  apply same_io_status. intros st. change Lab4.IBF_BIT with Macros.IBF_BIT. same_step; [same|].
  same_step; [apply same_io_sys; intros [] ?; reflexivity|]. same_step; [same|].
  apply same_io_status. intros st'. change Lab4.IBF_BIT with Macros.IBF_BIT. same_step; [same|].
  same_step; [apply same_io_sys; intros [] ?; reflexivity|]. same_step; [same|].
  same_step; [apply same_io_sys_; intros [] ?; reflexivity|].
  same_step; [apply utils_sys_inb_equiv|]. change Lab4.ACK_ERROR with Macros.ACK_ERROR. same.
Qed.

(** C38: one command protocol.  The mouse command routines of laboratory 4 and of the project make the same
    accesses to the controller and return the same value, in every system. *)
Theorem send_mouse_command_equiv fuel cmd :
  same_io (D := D) Lab4.dev ProjState.dev (Lab4.send_mouse_command fuel cmd) (MouseDriver.send_mouse_command fuel cmd).
Proof.
  unfold Lab4.send_mouse_command, MouseDriver.send_mouse_command. apply same_io_call, same_io_bind.
  { apply same_io_sys; intros [] ?; reflexivity. }
  intros a. generalize (u8 a). clear a. induction fuel as [|n IH]; intros ack; [apply same_io_raise|].
  cbn [Lab4.send_mouse_loop MouseDriver.send_mouse_loop]. apply same_io_bind; [apply send_mouse_iteration_equiv|].
  intros a. change Lab4.ACK with Macros.ACK. destruct (a =? Macros.ACK); [apply same_io_ret|apply IH].
Qed.

(** ** The error flag *)

Lemma mouse_ih_keeps_error (s : lab4 D) :
  wp False Lab4.mouse_ih (fun _ s' => (ih_error s <> 0 -> ih_error s' <> 0) /\ cnt s' = cnt s) nojump s.
Proof.
  unfold Lab4.mouse_ih, utils_sys_inb. apply wp_bind, wp_bind, wp_sys. destruct (fst _) as [rc v].
  apply (wp_mono False False _ (fun o s1 => (ih_error s <> 0 -> ih_error s1 <> 0) /\ cnt s1 = cnt s) _ nojump);
    [done| |done|wp_step; by apply wp_ret].
  intros o s1 [He Hc]. apply wp_bind.
  apply (wp_mono False False _ (fun _ s2 => (ih_error s <> 0 -> ih_error s2 <> 0) /\ cnt s2 = cnt s) _ nojump);
    [done| |done|destruct o; apply wp_modify; get_set; done].
  intros _ s2 [He2 Hc2]. apply wp_bind, wp_gets. wp_step.
  { apply wp_bind, wp_modify, wp_modify. done. }
  apply wp_bind, wp_bind, wp_sys. destruct (fst _) as [rc2 v2].
  wp_step; apply wp_ret; [by apply wp_ret|by apply wp_modify].
Qed.

Context `{P : LcfPrint D}.

(** the error flag.  Nothing clears [ih_error]: once an interrupt of the mouse found an error, [mouse_test_packet]
    discards every later byte, and with packets still to show its loop never ends, whatever the
    mouse sends. *)
Theorem error_flag_never_cleared fuel (s : lab4 D) :
  ih_error s <> 0 -> 0 < cnt s -> while_ fuel (fun s => 0 <? cnt s) packet_body s = Fault OutOfFuel.
Proof.
  intros He Hc. apply (while_never (fun s => ih_error s <> 0 /\ 0 < cnt s)); [|done].
  clear s He Hc. intros s [He Hc]. split; [lia|]. unfold packet_body, on_notification.
  apply wp_bind, wp_sys. set (s0 := s <| Lab4.dev := _ |>). assert (ih_error s0 <> 0 /\ 0 < cnt s0) as [He0 Hc0] by done.
  clearbody s0. destruct (fst _) as [[r msg] notify]. wp_step; [by apply wp_jump|]. wp_step; [|done].
  apply wp_switch. wp_step; [|by apply wp_jump]. apply wp_bind, wp_bind, wp_gets.
  wp_step; [|by apply wp_ret, wp_jump]. apply wp_bind.
  apply (wp_mono False False _ (fun _ s' => (ih_error s0 <> 0 -> ih_error s' <> 0) /\ cnt s' = cnt s0) _ nojump);
    [done| |done|apply mouse_ih_keeps_error].
  intros _ s1 [He1 Hc1]. apply wp_bind, wp_gets. specialize (He1 He0).
  assert (ctrue (ih_error s1) = true) as -> by (unfold ctrue; lia). apply wp_jump. split; [done|]. split; [done|lia].
Qed.

End drivers.

(** ** Packets *)

(** The packets of a stream of bytes; [acc] are the bytes of the packet being received.  A first
    byte with bit 3 clear is not the start of a packet and is skipped. *)
Fixpoint packets (acc l : list Z) : list packet :=
  match l with
  | [] => []
  | b :: l' => match acc with
               | [] => if Z.testbit b 3 then packets [b] l' else packets [] l'
               | [b0] => packets [b0; b] l'
               | b0 :: b1 :: _ => mouse_getPacket [b0; b1; b] :: packets [] l'
               end
  end.

(** What the mouse does with the next byte: it continues its stream, or expects and
    acknowledges a command. *)
Inductive ms_state :=
| Streaming
| Addressed
| Replying.

Class MouseStream (D : Type) `{K : Kernel D} `{P : LcfPrint D} := {
  ms_view : D -> ms_state * list Z * list packet;
  ms_bytes d ph l pr : ms_view d = (ph, l, pr) -> Forall in_u8 l;
  ms_receive d : exists m d', driver_receive d = ((0, m, true), d') /\ m_source_p m = HARDWARE /\
    Z.testbit (m_interrupts m) 1 = true /\ ms_view d' = ms_view d;
  ms_status d : exists st d', sys_inb Lab4.STAT_REG d = ((0, st), d') /\ in_u8 st /\
    Z.land st (Z.lor Lab4.PARITY_BIT Lab4.TIMEOUT_BIT) = 0 /\ ctrue (Z.land st Lab4.OBF_BIT) = true /\
    ctrue (Z.land st Lab4.IBF_BIT) = false /\ ms_view d' = ms_view d;
  ms_data d b q pr : ms_view d = (Streaming, b :: q, pr) ->
    exists d', sys_inb Lab4.OUT_BUF d = ((0, b), d') /\ ms_view d' = (Streaming, q, pr);
  ms_address d l pr : ms_view d = (Streaming, l, pr) ->
    exists d', sys_outb Lab4.STAT_REG Lab4.MOUSE_COMMAND d = (0, d') /\ ms_view d' = (Addressed, l, pr);
  ms_command d c l pr : ms_view d = (Addressed, l, pr) ->
    exists d', sys_outb Lab4.ARGS_REG c d = (0, d') /\ ms_view d' = (Replying, l, pr);
  ms_reply d l pr : ms_view d = (Replying, l, pr) ->
    exists d', sys_inb Lab4.OUT_BUF d = ((0, Lab4.ACK), d') /\ ms_view d' = (Streaming, l, pr);
  ms_delay n d : ms_view (tickdelay n d) = ms_view d;
  ms_indeterminate d : ms_view (snd (indeterminate d)) = ms_view d;
  ms_subscribe irq pol h d : exists h' d', sys_irqsetpolicy irq pol h d = ((0, h'), d') /\ ms_view d' = ms_view d;
  ms_unsubscribe h d : exists d', sys_irqrmpolicy h d = (0, d') /\ ms_view d' = ms_view d;
  ms_print p d ph l pr : ms_view d = (ph, l, pr) -> ms_view (mouse_print_packet p d) = (ph, l, pr ++ [p]);
}.

Section packets.
Context {D : Type} `{MS : MouseStream D}.
Implicit Types s : lab4 D.

(** The mouse and the console as the program sees them in state [s]. *)
Definition mouse_view s := ms_view (Lab4.dev s).

Lemma mouse_ih_reads b q pr s :
  mouse_view s = (Streaming, b :: q, pr) ->
  exists d st, Lab4.mouse_ih s = Ok tt (s <| Lab4.dev := d |> <| statuscode := st |> <| Lab4.scancode := b |>) /\
    ms_view d = (Streaming, q, pr).
Proof.
  intros Hs. unfold mouse_view in Hs. destruct (ms_status (Lab4.dev s)) as (st & d1 & H1 & Hst & He & Ho & _ & Hv1).
  rewrite Hs in Hv1. destruct (ms_data d1 b q pr Hv1) as (d2 & H2 & Hv2).
  assert (in_u8 b) as Hb by (pose proof (ms_bytes _ _ _ _ Hs) as Hf; by inversion Hf).
  exists d2, st. split; [|done].
  unfold Lab4.mouse_ih, utils_sys_inb, bind, sys. rewrite H1. cbn [ctrue Z.eqb negb]. unfold ret, modify, gets. get_set.
  rewrite u8_id, He, Ho by done. cbn [Z.eqb andb negb]. get_set. rewrite H2. cbn [ctrue Z.eqb negb]. rewrite u8_id by done.
  by destruct s.
Qed.

(** The bytes of the packet being received. *)
Definition receiving (acc : list Z) s : Prop :=
  ih_error s = 0 /\ Lab4.mouse_bit_no s = 1 /\ 0 <= cnt s < 2 ^ 32 /\
  match acc, Lab4.bytes s with
  | [], [_; _; _] => Lab4.currentByte s = 1
  | [a0], [b0; _; _] => Lab4.currentByte s = 2 /\ b0 = a0
  | [a0; a1], [b0; b1; _] => Lab4.currentByte s = 3 /\ b0 = a0 /\ b1 = a1
  | _, _ => False
  end.

Definition next_acc (acc : list Z) (b : Z) : list Z :=
  match acc with
  | [] => if Z.testbit b 3 then [b] else []
  | [b0] => [b0; b]
  | _ => []
  end.

(** What a step of the loop guarantees, when [pr] has been printed before it. *)
Definition packet_step (acc : list Z) (b : Z) (q : list Z) (pr : list packet) s s' : Prop :=
  receiving (next_acc acc b) s' /\ exists pr', mouse_view s' = (Streaming, q, pr') /\
  pr' ++ take (Z.to_nat (cnt s')) (packets (next_acc acc b) q) = pr ++ take (Z.to_nat (cnt s)) (packets acc (b :: q)) /\
  ((Z.to_nat (cnt s) <= length (packets acc (b :: q)))%nat -> (Z.to_nat (cnt s') <= length (packets (next_acc acc b) q))%nat).

Lemma handle_byte_step acc b q pr s :
  receiving acc s -> 0 < cnt s -> mouse_view s = (Streaming, b :: q, pr) ->
  exists s', (handle_byte packet_counted s = Ok tt s' \/ handle_byte packet_counted s = Jump CContinue s') /\
    packet_step acc b q pr s s'.
Proof.
  intros (He & Hm & Hc & Hacc) Hpos Hs. destruct (mouse_ih_reads b q pr s Hs) as (d & st & Hih & Hv).
  assert (Z.testbit b 3 = negb (Z.land b (BIT 3) =? 0)) as Hb3 by (rewrite <- ctrue_land_BIT by lia; done).
  unfold handle_byte, bind. rewrite Hih. unfold gets. get_set. rewrite He. change (ctrue 0) with false. cbv iota beta. get_set.
  unfold packet_step, next_acc, mouse_view.
  destruct acc as [|a0 [|a1 [|]]], (Lab4.bytes s) as [|b0 [|b1 [|b2 []]]] eqn:Hbs; try done.
  - rewrite Hacc. cbn [Z.eqb Pos.eqb packets]. rewrite Hb3. destruct (Z.land b (BIT 3) =? 0); cbn [negb].
    + eexists. split; [by right|]. unfold receiving. get_set. rewrite Hbs. split; [done|]. by exists pr.
    + eexists. split; [by left|]. unfold receiving. get_set. rewrite Hbs. split; [done|]. by exists pr.
  - destruct Hacc as [Hcur ->]. rewrite Hcur. cbn [Z.eqb Pos.eqb packets].
    eexists. split; [by left|]. unfold receiving. get_set. rewrite Hbs. split; [done|]. by exists pr.
  - destruct Hacc as (Hcur & -> & ->). rewrite Hcur. cbn [Z.eqb Pos.eqb packets].
    unfold set_byte, packet_counted, bind, modify, gets, sys_. get_set. rewrite Hbs.
    change (<[2%nat := b]> [a0; a1; b2]) with [a0; a1; b].
    eexists. split; [by left|]. unfold receiving. get_set. rewrite u32_id by lia.
    split; [repeat split; try done; lia|]. exists (pr ++ [mouse_getPacket [a0; a1; b]]). split; [by apply ms_print|].
    replace (Z.to_nat (cnt s)) with (S (Z.to_nat (cnt s - 1))) by lia. cbn [take firstn length].
    split; [by rewrite <- app_assoc|]. lia.
Qed.

Lemma packet_body_step acc b q pr s :
  receiving acc s -> 0 < cnt s -> mouse_view s = (Streaming, b :: q, pr) ->
  exists s', (packet_body s = Ok tt s' \/ packet_body s = Jump CContinue s') /\ packet_step acc b q pr s s'.
Proof.
  intros Hr Hpos Hs. destruct (ms_receive (Lab4.dev s)) as (m & d & Hrec & Hsrc & Hm & Hv).
  set (s1 := s <| Lab4.dev := d |>). assert (mouse_view s1 = (Streaming, b :: q, pr)) as Hs1 by (rewrite <- Hs; exact Hv).
  destruct (handle_byte_step acc b q pr s1 Hr Hpos Hs1) as (s' & Hh & Hst).
  exists s'. split; [|exact Hst].
  assert (packet_body s = switch (handle_byte packet_counted ;; jump CBreak) s1) as ->.
  { unfold packet_body, on_notification, bind at 1, sys. rewrite Hrec. cbn [ctrue Z.eqb negb when].
    unfold switch. rewrite Hsrc. cbn [Z.eqb HARDWARE Pos.eqb]. fold s1. unfold bind, gets.
    destruct Hr as (_ & Hmb & _). change (Lab4.mouse_bit_no s1) with (Lab4.mouse_bit_no s).
    by rewrite Hmb, ctrue_land_BIT, Hm by lia. }
  unfold switch, bind. destruct Hh as [->| ->]; [by left|by right].
Qed.

(** The loop: as long as the stream holds [cnt] more packets, they are printed in order. *)
Lemma packet_loop acc l pr fuel s :
  receiving acc s -> mouse_view s = (Streaming, l, pr) -> (Z.to_nat (cnt s) <= length (packets acc l))%nat -> (length l < fuel)%nat ->
  exists s' l', while_ fuel (fun s => 0 <? cnt s) packet_body s = Ok tt s' /\
    mouse_view s' = (Streaming, l', pr ++ take (Z.to_nat (cnt s)) (packets acc l)).
Proof.
  revert acc pr fuel s. induction l as [|b l IH]; intros acc pr fuel s Hr Hs Hlen Hf; (destruct fuel as [|fuel]; [lia|]); cbn [while_].
  all: destruct (0 <? cnt s) eqn:Hc.
  2,4: eexists s, _; pose proof Hr as (_ & _ & Hcnt & _); assert (cnt s = 0) as Hz by lia; rewrite Hz; cbn; rewrite app_nil_r; split; [done|exact Hs].
  - cbn in Hlen. destruct Hr as (_ & _ & Hcnt & _). lia.
  - destruct (packet_body_step acc b l pr s Hr ltac:(lia) Hs) as (s1 & Hb & Hr1 & pr1 & Hs1 & Hp1 & Hl1).
    destruct (IH (next_acc acc b) pr1 fuel s1 Hr1 Hs1 (Hl1 Hlen) ltac:(simpl in Hf; lia)) as (s' & l' & Hw & Hv).
    exists s', l'. split; [by destruct Hb as [->| ->]|]. by rewrite Hv, Hp1.
Qed.

(** A command: the mouse acknowledges it and the stream goes on. *)
Lemma mouse_command_exec fuel cmd l pr s :
  (0 < fuel)%nat -> mouse_view s = (Streaming, l, pr) ->
  exists d st, Lab4.send_mouse_command fuel cmd s = Ok 0 (s <| Lab4.dev := d |> <| statuscode := st |>) /\
    ms_view d = (Streaming, l, pr).
Proof.
  intros Hf Hs. destruct fuel as [|n]; [lia|]. unfold mouse_view in Hs.
  pose proof (ms_indeterminate (Lab4.dev s)) as Hv0. rewrite Hs in Hv0. set (d0 := snd _) in Hv0.
  destruct (ms_status d0) as (st1 & d1 & H1 & Hb1 & _ & _ & Hi1 & Hv1). rewrite Hv0 in Hv1.
  destruct (ms_address d1 l pr Hv1) as (d2 & H2 & Hv2).
  destruct (ms_status d2) as (st3 & d3 & H3 & Hb3 & _ & _ & Hi3 & Hv3). rewrite Hv2 in Hv3.
  destruct (ms_command d3 cmd l pr Hv3) as (d4 & H4 & Hv4).
  pose proof (ms_delay (micros_to_ticks 20000 d4) d4) as Hv5. rewrite Hv4 in Hv5.
  destruct (ms_reply _ l pr Hv5) as (d6 & H6 & Hv6). exists d6, st3. split; [|done].
  unfold Lab4.send_mouse_command, call, bind, sys. destruct (indeterminate (Lab4.dev s)) as [g d0'] eqn:E0.
  cbn [snd] in d0. subst d0. cbn [Lab4.send_mouse_loop]. unfold bind, Lab4.send_mouse_iteration, utils_sys_inb, bind, sys, sys_.
  get_set. rewrite H1. cbn [ctrue Z.eqb negb]. unfold ret, modify. rewrite (u8_id st1), Hi1 by done. get_set. rewrite H2.
  cbn [ctrue Z.eqb negb]. get_set. rewrite H3. cbn [ctrue Z.eqb negb]. rewrite (u8_id st3), Hi3 by done. get_set. rewrite H4.
  cbn [ctrue Z.eqb negb]. get_set. rewrite H6. cbn [ctrue Z.eqb negb].
  change (u8 Lab4.ACK =? ACK_ERROR) with false. change (u8 Lab4.ACK =? Lab4.ACK) with true. by destruct s.
Qed.

(** C36: packets.  Against a mouse that acknowledges commands and delivers a stream of bytes
    with at least [c] packets, [mouse_test_packet] returns 0 having printed exactly the next [c]
    packets of the stream, decoded, in order: bytes that cannot start a packet are skipped
    and no byte of a packet is lost. *)
Theorem mouse_test_packet_correct fuel c l pr s :
  mouse_view s = (Streaming, l, pr) -> ih_error s = 0 -> u8 (Lab4.mouse_hookid s) = 1 -> length (Lab4.bytes s) = 3%nat ->
  0 <= c < 2 ^ 32 -> (Z.to_nat c <= length (packets [] l))%nat -> (length l < fuel)%nat ->
  exists s' l', mouse_test_packet fuel c s = Ok 0 s' /\
    mouse_view s' = (Streaming, l', pr ++ take (Z.to_nat c) (packets [] l)).
Proof.
  intros Hs He Hh Hb Hc Hlen Hf. unfold mouse_test_packet, call.
  set (s1 := s <| cnt := c |>).
  destruct (mouse_command_exec fuel ENABLE_MOUSE l pr s1 ltac:(lia) Hs) as (d1 & st1 & H1 & Hv1).
  set (s2 := s1 <| Lab4.dev := d1 |> <| statuscode := st1 |>) in H1.
  destruct (ms_subscribe Lab4.MOUSE_IRQ (Z.lor IRQ_REENABLE IRQ_EXCLUSIVE) (Lab4.mouse_hookid s) d1) as (h & d2 & H2 & Hv2).
  set (s3 := s2 <| Lab4.mouse_bit_no := 1 |> <| Lab4.dev := d2 |> <| Lab4.mouse_hookid := h |> <| Lab4.currentByte := 1 |>).
  destruct (packet_loop [] l pr fuel s3) as (s4 & l' & H4 & Hv4).
  { split; [done|]. split; [done|]. split; [done|]. change (Lab4.bytes s3) with (Lab4.bytes s).
    by destruct (Lab4.bytes s) as [|? [|? [|? []]]]. }
  { change (ms_view d2 = (Streaming, l, pr)). by rewrite Hv2. }
  { done. }
  { done. }
  change (cnt s3) with c in Hv4.
  destruct (ms_unsubscribe (Lab4.mouse_hookid s4) (Lab4.dev s4)) as (d5 & H5 & Hv5).
  destruct (mouse_command_exec fuel DISABLE_MOUSE l' (pr ++ take (Z.to_nat c) (packets [] l)) (s4 <| Lab4.dev := d5 |>)
    ltac:(lia) (eq_trans Hv5 Hv4)) as (d6 & st6 & H6 & Hv6).
  exists (s4 <| Lab4.dev := d5 |> <| Lab4.dev := d6 |> <| statuscode := st6 |>), l'. split; [|exact Hv6].
  unfold bind, modify. fold s1. rewrite H1. cbn [ctrue Z.eqb negb].
  assert (Lab4.mouse_subscribe_int s2 = Ok 0 (s2 <| Lab4.mouse_bit_no := 1 |> <| Lab4.dev := d2 |> <| Lab4.mouse_hookid := h |>)) as ->.
  { unfold Lab4.mouse_subscribe_int, call, bind, gets, modify, sys. get_set.
    change (Lab4.mouse_hookid s2) with (Lab4.mouse_hookid s). change (Lab4.dev s2) with d1. rewrite H2, Hh. reflexivity. }
  cbn [ctrue Z.eqb negb]. fold s3. rewrite H4.
  assert (Lab4.mouse_unsubscribe_int s4 = Ok 0 (s4 <| Lab4.dev := d5 |>)) as ->.
  { unfold Lab4.mouse_unsubscribe_int, call, bind, gets, sys. rewrite H5. reflexivity. }
  cbn [ctrue Z.eqb negb]. rewrite H6. reflexivity.
Qed.

End packets.

(** ** A simulated mouse *)

Record sim_mouse := SimMouse {
  sm_state : ms_state;
  sm_stream : list Z;
  sm_printed : list packet;
}.

Definition sim_mouse_in (p : Z) (d : sim_mouse) : (Z * Z) * sim_mouse :=
  if p =? Lab4.STAT_REG then ((0, 0x21), d) else
  match sm_state d, sm_stream d with
  | Replying, l => ((0, Lab4.ACK), SimMouse Streaming l (sm_printed d))
  | _, b :: q => ((0, u8 b), SimMouse (sm_state d) q (sm_printed d))
  | _, [] => ((1, 0), d)
  end.

Definition sim_mouse_out (p v : Z) (d : sim_mouse) : Z * sim_mouse :=
  (0, SimMouse (if p =? Lab4.STAT_REG then Addressed else Replying) (sm_stream d) (sm_printed d)).

#[export] Instance sim_mouse_kernel : Kernel sim_mouse :=
  device_kernel sim_mouse_in sim_mouse_out (interrupting 1) (fun _ => 0).

#[export] Instance sim_mouse_print : LcfPrint sim_mouse :=
  device_print (fun d => d) (fun _ _ _ d => d) (fun p d => SimMouse (sm_state d) (sm_stream d) (sm_printed d ++ [p])).

#[export, refine] Instance sim_mouse_stream : MouseStream sim_mouse := {
  ms_view d := (sm_state d, u8 <$> sm_stream d, sm_printed d);
}.
Proof.
  - intros d ph l pr [= _ <- _]. apply Forall_fmap, Forall_true. intros z. apply u8_range.
  - intros d. by exists (Message HARDWARE (BIT 1)), d.
  - intros d. exists 0x21, d. split; [reflexivity|]. split; [unfold in_u8; lia|done].
  - intros [st l pr] b q pr'. cbn [sm_state sm_stream sm_printed]. destruct l as [|c r]; [by intros [=]|]. intros [= -> <- <- ->].
    eexists. split; reflexivity.
  - intros [st l pr] l' pr' [= -> <- ->]. eexists. split; reflexivity.
  - intros [st l pr] c l' pr' [= -> <- ->]. eexists. split; reflexivity.
  - intros [st l pr] l' pr' [= -> <- ->]. eexists. split; reflexivity.
  - done.
  - done.
  - intros irq pol h d. by exists h, d.
  - intros h d. by exists d.
  - intros p [st l pr] ph l' pr' [= -> <- ->]. done.
Defined.

(** A byte out of step, two packets, and the start of another. *)
Definition two_packets : lab4 sim_mouse := init_lab4 (SimMouse Streaming [0; 0x08; 5; 7; 0x29; 1; 0xFF; 0x08] []).

Lemma mouse_test_packet_correct_witness :
  exists s', mouse_test_packet 10 2 two_packets = Ok 0 s' /\
    sm_printed (Lab4.dev s') = [mouse_getPacket [0x08; 5; 7]; mouse_getPacket [0x29; 1; 0xFF]].
Proof.
  destruct (mouse_test_packet_correct (MS := sim_mouse_stream) 10 2 [0; 0x08; 5; 7; 0x29; 1; 0xFF; 0x08] [] two_packets
    eq_refl eq_refl eq_refl eq_refl ltac:(lia) ltac:(cbn; lia) ltac:(cbn; lia)) as (s' & l' & He & Hp).
  exists s'. split; [exact He|]. injection Hp as _ _ Hp. exact Hp.
Defined.

Lemma error_flag_never_cleared_witness :
  while_ 100 (fun s => 0 <? cnt s) packet_body (two_packets <| Lab4.mouse_bit_no := 1 |> <| cnt := 2 |> <| ih_error := 1 |>) = Fault OutOfFuel.
Proof.
  apply error_flag_never_cleared; vm_compute; congruence.
Defined.
