(* ===== verification/Lab5.v ===== *)
(** * Laboratory 5: the video card (lab5/vg.c, timer.c, lab5.c)

    The laboratory also uses kbc.c, utils.c, i8042.h, i8254.h and vbemacros.h,
    which are not in its directory: their functions, variables and constants are
    the class [Lab5Lib]. *)

From stdpp Require Import strings options.
From S2P Require Import Prelude CMonad Heap Memory Lcf Minix.
#[local] Open Scope Z_scope.
#[local] Open Scope cmonad_scope.

Class Lab5Lib (D : Type) := {
  (** kbc.c: [kbd_subscribe_int(&bit_no)] yields the return code and [bit_no]. *)
  kbd_subscribe_int : D -> (Z * Z) * D;
  kbd_unsubscribe_int : D -> Z * D;
  kbc_ih : D -> D;
  twoBytes : Z -> Z;
  kbd_hookid : D -> Z;
  scancode : D -> Z;
  (** utils.c *)
  util_get_LSB : Z -> Z * Z;
  util_get_MSB : Z -> Z * Z;
  (** i8042.h, vbemacros.h, i8254.h *)
  ESC_BREAK : Z;
  INDEXED_MODE : Z;
  DIRECT_MODE : Z;
  TIMER_FREQ : Z;
  TIMER0_IRQ : Z;
  TIMER_0 : Z;
  TIMER_1 : Z;
  TIMER_2 : Z;
  TIMER_CTRL : Z;
  TIMER_SEL0 : Z;
  TIMER_SEL1 : Z;
  TIMER_SEL2 : Z;
  TIMER_LSB_MSB : Z;
  TIMER_RB_CMD : Z;
  TIMER_RB_COUNT_ : Z;
  TIMER_RB_STATUS_ : Z;
  TIMER_RB_SEL : Z -> Z;
  TIMER_BCD : Z;
}.

(** minix/com.h *)
Definition IRQ_REENABLE : Z := 0x001.

(** myxpm.h *)
Definition alien1 : xpm_map := XpmMap 100 60 40.

(** The static variables of vg.c. *)
Record vg := Vg {
  Xres : Z;
  Yres : Z;
  bitsPerPixel : Z;
  color_mode : Z;
  redMask : Z;
  redFieldPos : Z;
  greenMask : Z;
  greenFieldPos : Z;
  blueMask : Z;
  blueFieldPos : Z;
  video_mem : option block;
}.

(** Automatic variables of [wait_esckey] and [video_test_move]. *)
Record locals := Locals {
  kbd_bit_no : Z;
  mouse_bit_no : Z;
  size : Z;
  kbdBytes : list Z;
  moving : bool;
  cur_x : Z;
  cur_y : Z;
}.

Record lab5 (D : Type) := MkLab5 {
  dev : D;
  card : vg;
  hookid : Z;
  timer_counter : Z;
  loc : locals;
}.
Arguments MkLab5 {D}.
Arguments dev {D}.
Arguments card {D}.
Arguments hookid {D}.
Arguments timer_counter {D}.
Arguments loc {D}.

#[export] Instance settable_vg : Settable vg := fun g =>
  Vg (Xres g) (Yres g) (bitsPerPixel g) (color_mode g) (redMask g) (redFieldPos g) (greenMask g)
    (greenFieldPos g) (blueMask g) (blueFieldPos g) (video_mem g).

#[export] Instance settable_locals : Settable locals := fun l =>
  Locals (kbd_bit_no l) (mouse_bit_no l) (size l) (kbdBytes l) (moving l) (cur_x l) (cur_y l).

#[export] Instance settable_lab5 {D} : Settable (lab5 D) := fun s =>
  MkLab5 (dev s) (card s) (hookid s) (timer_counter s) (loc s).

(** One setter per member. *)
#[export] Instance set_Xres : Setter Xres := ltac:(build_setter).
#[export] Instance set_Yres : Setter Yres := ltac:(build_setter).
#[export] Instance set_bitsPerPixel : Setter bitsPerPixel := ltac:(build_setter).
#[export] Instance set_color_mode : Setter color_mode := ltac:(build_setter).
#[export] Instance set_redMask : Setter redMask := ltac:(build_setter).
#[export] Instance set_redFieldPos : Setter redFieldPos := ltac:(build_setter).
#[export] Instance set_greenMask : Setter greenMask := ltac:(build_setter).
#[export] Instance set_greenFieldPos : Setter greenFieldPos := ltac:(build_setter).
#[export] Instance set_blueMask : Setter blueMask := ltac:(build_setter).
#[export] Instance set_blueFieldPos : Setter blueFieldPos := ltac:(build_setter).
#[export] Instance set_video_mem : Setter video_mem := ltac:(build_setter).
#[export] Instance set_kbd_bit_no : Setter kbd_bit_no := ltac:(build_setter).
#[export] Instance set_mouse_bit_no : Setter mouse_bit_no := ltac:(build_setter).
#[export] Instance set_size : Setter size := ltac:(build_setter).
#[export] Instance set_kbdBytes : Setter kbdBytes := ltac:(build_setter).
#[export] Instance set_moving : Setter moving := ltac:(build_setter).
#[export] Instance set_cur_x : Setter cur_x := ltac:(build_setter).
#[export] Instance set_cur_y : Setter cur_y := ltac:(build_setter).
#[export] Instance set_dev {D} : Setter (@dev D) := ltac:(build_setter).
#[export] Instance set_card {D} : Setter (@card D) := ltac:(build_setter).
#[export] Instance set_hookid {D} : Setter (@hookid D) := ltac:(build_setter).
#[export] Instance set_timer_counter {D} : Setter (@timer_counter D) := ltac:(build_setter).
#[export] Instance set_loc {D} : Setter (@loc D) := ltac:(build_setter).

Definition init_lab5 {D} (d : D) : lab5 D :=
  MkLab5 d (Vg 0 0 0 0 0 0 0 0 0 0 None) 0 0 (Locals 0 0 1 [0; 0] true 0 0).

Abbreviation assign f v := (modify (fun s => s <| f := v |>)).
Abbreviation assign_loc f v := (modify (fun s => s <| loc := (loc s) <| f := v |> |>)).
Abbreviation local f := (gets (fun s => f (loc s))).

Section lab5.
Context {D : Type} `{K : Kernel D} `{P : LcfPrint D} `{F : LcfMain D} `{L : Lab5Lib D}.

(** ** timer.c *)

Definition util_sys_inb (port : Z) : M (lab5 D) (option Z) :=
  '(rc, aux) <- sys dev (sys_inb port) ;;
  if ctrue rc then ret None else ret (Some (u8 aux)).

Definition timer_get_conf (timer : Z) : M (lab5 D) (option Z) :=
  if (timer <? 0) || (2 <? timer) then ret None else
  let readBack := u8 (Z.lor (Z.lor TIMER_RB_CMD TIMER_RB_COUNT_) (TIMER_RB_SEL timer)) in
  let timerReg := match timer with 0 => Some TIMER_0 | 1 => Some TIMER_1 | 2 => Some TIMER_2 | _ => None end in
  match timerReg with
  | None => ret None
  | Some timerReg =>
      rc <- sys dev (sys_outb TIMER_CTRL readBack) ;;
      if ctrue rc then ret None else
      util_sys_inb timerReg
  end.

Definition select_timer (timer controlWord : Z) : option (Z * Z) :=
  match timer with
  | 0 => Some (u8 (Z.lor controlWord TIMER_SEL0), TIMER_0)
  | 1 => Some (u8 (Z.lor controlWord TIMER_SEL1), TIMER_1)
  | 2 => Some (u8 (Z.lor controlWord TIMER_SEL2), TIMER_2)
  | _ => None
  end.

Definition timer_set_frequency (timer freq : Z) : M (lab5 D) Z := call (
  if (freq <? 19) || (TIMER_FREQ <? freq) then return_ 1 else
  if (timer <? 0) || (2 <? timer) then return_ 1 else
  st <- timer_get_conf timer ;;
  match st with
  | None => return_ 1
  | Some status =>
      let status := u8 (Z.land status (Z.lor (Z.lor (Z.lor (BIT 0) (BIT 1)) (BIT 2)) (BIT 3))) in
      let controlWord := u8 (Z.lor status TIMER_LSB_MSB) in
      let frequency := u16 (TIMER_FREQ / freq) in
      match select_timer timer controlWord with
      | None => return_ 1
      | Some (controlWord, timer_reg) =>
          rc <- sys dev (sys_outb TIMER_CTRL controlWord) ;;
          if ctrue rc then return_ 1 else
          let '(rcl, lsb) := util_get_LSB frequency in
          if ctrue rcl then return_ 1 else
          let '(rcm, msb) := util_get_MSB frequency in
          if ctrue rcm then return_ 1 else
          rc <- sys dev (sys_outb timer_reg lsb) ;;
          if ctrue rc then return_ 1 else
          rc <- sys dev (sys_outb timer_reg msb) ;;
          if ctrue rc then return_ 1 else
          ret 0
      end
  end).

(** [timer_subscribe_int(&mouse_bit_no)]: the variable is named after the mouse. *)
Definition timer_subscribe_int : M (lab5 D) Z := call (
  h <- gets hookid ;;
  assign_loc mouse_bit_no (u8 h) ;;
  '(rc, h') <- sys dev (sys_irqsetpolicy TIMER0_IRQ IRQ_REENABLE h) ;;
  assign hookid h' ;;
  if ctrue rc then return_ 1 else ret 0).

Definition timer_unsubscribe_int : M (lab5 D) Z := call (
  h <- gets hookid ;;
  rc <- sys dev (sys_irqrmpolicy h) ;;
  if ctrue rc then return_ 1 else ret 0).

Definition timer_int_handler : M (lab5 D) unit :=
  modify (fun s => s <| timer_counter := i32 (timer_counter s + 1) |>).

Definition conf_field (st : Z) (field : timer_status_field) : timer_status_field_val :=
  match field with
  | tsf_all => val_byte st
  | tsf_initial => val_in_mode (u8 (Z.land (Z.land st TIMER_RB_COUNT_) TIMER_RB_STATUS_))
  | tsf_mode => val_count_mode (u8 (Z.land (Z.land (Z.land st (BIT 1)) (BIT 2)) (BIT 3)))
  | tsf_base => val_bcd (Z.land st TIMER_BCD =? 1)
  end.

Definition timer_display_conf (timer st : Z) (field : timer_status_field) : M (lab5 D) Z := call (
  if (timer <? 0) || (2 <? timer) then return_ 1 else
  rc <- sys dev (timer_print_config timer field (conf_field st field)) ;;
  if ctrue rc then return_ 1 else ret 0).

(** ** vg.c *)

Definition vg_get_mode_info (mode : Z) : M (lab5 D) Z := call (
  '(rc, info) <- sys dev (vbe_get_mode_info mode) ;;
  if ctrue rc then return_ 1 else
  modify (fun s => s <| card := (card s) <| Xres := XResolution info |>
    <| Yres := YResolution info |> <| bitsPerPixel := BitsPerPixel info |>
    <| redMask := RedMaskSize info |> <| redFieldPos := RedFieldPosition info |>
    <| greenMask := GreenMaskSize info |> <| greenFieldPos := GreenFieldPosition info |>
    <| blueMask := BlueMaskSize info |> <| blueFieldPos := BlueFieldPosition info |>
    <| color_mode := MemoryModel info |> |>) ;;
  g <- gets card ;;
  let vram_base := PhysBasePtr info in
  let vram_size := u32 (i32 (Xres g * Yres g) * (bitsPerPixel g ÷ 8)) in
  let mr_limit := u32 (vram_base + vram_size) in
  r <- sys dev (sys_privctl_add_mem vram_base mr_limit) ;;
  when (ctrue r) (raise Panic) ;;
  mapped <- sys dev (vm_map_phys vram_base vram_size) ;;
  modify (fun s => s <| card := (card s) <| video_mem := if mapped then Some (Block vram_size ∅) else None |> |>) ;;
  when (negb mapped) (raise Panic) ;;
  ret 0).

Definition vg_set_mode (mode : Z) : M (lab5 D) Z := call (
  if negb (mode =? 0x105) && negb (mode =? 0x110) && negb (mode =? 0x115)
     && negb (mode =? 0x11A) && negb (mode =? 0x14C) then return_ 1 else
  let aux := Reg86 0x10 0x02 0x4F (u16 (Z.lor (BIT 14) mode)) in
  '(rc, aux) <- sys dev (sys_int86 aux) ;;
  if ctrue rc then return_ 1 else
  if negb ((r_ah aux =? 0x00) && (r_al aux =? 0x4F)) then return_ 1 else
  ret 0).

(** [memcpy(video_mem + off, src, length)] *)
Definition memcpy_video (off : Z) (src : list Z) : M (lab5 D) unit := fun s =>
  match video_mem (card s) with
  | None => Fault NullDeref
  | Some b =>
      if (0 <=? off) && (off + Z.of_nat (length src) <=? bsize b) then
        Ok tt (s <| card := (card s) <| video_mem := Some (Block (bsize b) (write_bytes off src (bdata b))) |> |>)
      else Fault OutOfBounds
  end.

Definition vg_drawpixel (x y color : Z) : M (lab5 D) unit :=
  let x := u16 x in
  let y := u16 y in
  g <- gets card ;;
  let n := u32 (Z.shiftr (bitsPerPixel g + 7) 3) in
  let off := u32 (n * u32 (i32 (i32 (y * Xres g) + x))) in
  if 4 <? n then raise OutOfBounds else
  memcpy_video off (le_bytes (Z.to_nat n) (u32 color)).

(** The loop of [vg_drawline], with [n] values of [i] left: both [i] and [x]
    advance, and their sum is what is compared with the resolution. *)
Fixpoint drawline_loop (n : nat) (i x y color : Z) : M (lab5 D) unit :=
  match n with
  | O => ret tt
  | S n' =>
      g <- gets card ;;
      if i + x <? Xres g then
        vg_drawpixel x y color ;;
        drawline_loop n' (i + 1) (u16 (x + 1)) y color
      else ret tt
  end.

Definition vg_drawline (x y len color : Z) : M (lab5 D) Z :=
  drawline_loop (Z.to_nat len) 0 x y color ;;
  ret 0.

Definition vg_drawrectangle (x y width height color : Z) : M (lab5 D) Z :=
  for_acc (seqZ 0 height) y (fun _ y =>
    vg_drawline x y width color ;;
    ret (u16 (y + 1))) ;;
  ret 0.

(** [e % (1 << w)] on unsigned operands; the shift is undefined from 31 on. *)
Definition mod_shl (e w : Z) : M (lab5 D) Z :=
  if (w <? 0) || (31 <=? w) then raise OutOfBounds else ret (u32 e mod BIT w).

(** The two nested loops of [vg_drawpattern]. *)
Definition tile (n width height : Z) (colour : Z -> Z -> M (lab5 D) Z) : M (lab5 D) unit :=
  for_each (seqZ 0 n) (fun row =>
    for_each (seqZ 0 n) (fun col =>
      color <- colour row col ;;
      vg_drawrectangle (u16 (col * width)) (u16 (row * height)) width height color ;;
      ret tt)).

Definition vg_drawpattern (no_rectangles first step : Z) : M (lab5 D) Z := call (
  g <- gets card ;;
  if no_rectangles =? 0 then raise DivByZero else
  let width := u16 (Xres g ÷ no_rectangles) in
  let height := u16 (Yres g ÷ no_rectangles) in
  if color_mode g =? INDEXED_MODE then
    tile no_rectangles width height (fun row col =>
      mod_shl (first + u32 ((row * no_rectangles + col) * step)) (bitsPerPixel g)) ;;
    ret 0
  else if color_mode g =? DIRECT_MODE then
    let redFirst := u8 (Z.shiftr (Z.land first (redMask g)) (redFieldPos g)) in
    let greenFirst := u8 (Z.shiftr (Z.land first (greenMask g)) (greenFieldPos g)) in
    let blueFirst := u8 (Z.shiftr (Z.land first (blueMask g)) (blueFieldPos g)) in
    tile no_rectangles width height (fun row col =>
      red <- mod_shl (redFirst + col * step) (redMask g) ;;
      green <- mod_shl (greenFirst + row * step) (greenMask g) ;;
      blue <- mod_shl (blueFirst + (col + row) * step) (blueMask g) ;;
      ret (u32 (Z.lor (Z.lor (Z.shiftl (u16 red) (redFieldPos g)) (Z.shiftl (u16 green) (greenFieldPos g)))
                      (Z.shiftl (u16 blue) (blueFieldPos g))))) ;;
    ret 0
  else return_ 1).

Definition draw_xpm (x y : Z) (img : xpm_image_t) : M (lab5 D) Z :=
  for_acc (seqZ y (height img)) 0 (fun i counter =>
    for_acc (seqZ x (width img)) counter (fun j counter =>
      match bytes img !! Z.to_nat counter with
      | None => raise OutOfBounds
      | Some b => vg_drawpixel j i b ;; ret (counter + 1)
      end)) ;;
  ret 0.

Definition vg_initialize (mode : Z) : M (lab5 D) Z := call (
  rc <- vg_get_mode_info mode ;;
  if ctrue rc then return_ 1 else
  rc <- vg_set_mode mode ;;
  if ctrue rc then return_ 1 else
  ret 0).

Definition draw_next_xpm (xpm : xpm_map) (xi yi xf yf : Z) : M (lab5 D) Z := call (
  img <- sys dev (xpm_load xpm XPM_INDEXED) ;;
  rc <- vg_drawrectangle xi yi (width img) (height img) 0 ;;
  if ctrue rc then return_ 1 else
  img <- sys dev (xpm_load xpm XPM_INDEXED) ;;
  rc <- draw_xpm xf yf img ;;
  if ctrue rc then return_ 1 else
  ret 0).

(** The keyboard interrupt of [wait_esckey] and [video_test_move]. *)
Definition key_interrupt : M (lab5 D) unit :=
  sys_ dev kbc_ih ;;
  c <- gets (fun s => scancode (dev s)) ;;
  if ctrue (twoBytes c) then assign_loc size 2 ;; jump CContinue else
  sz <- local size ;;
  (if sz =? 1 then modify (fun s => s <| loc := (loc s) <| kbdBytes := <[0%nat := c]> (kbdBytes (loc s)) |> |>)
   else modify (fun s => s <| loc := (loc s) <| kbdBytes := <[1%nat := c]> (<[0%nat := 0xE0]> (kbdBytes (loc s))) |> |>)) ;;
  assign_loc size 1.

Definition not_esc (s : lab5 D) : bool := negb (scancode (dev s) =? ESC_BREAK).

Definition on_notification (handler : Z -> M (lab5 D) unit) : M (lab5 D) unit :=
  '(r, msg, notify) <- sys dev driver_receive ;;
  if ctrue r then jump CContinue else
  when notify (switch (
    if m_source_p msg =? HARDWARE then handler (m_interrupts msg) ;; jump CBreak
    else jump CBreak)).

(** [kbd_subscribe_int(&kbd_bit_no)] *)
Definition subscribe_keyboard : M (lab5 D) Z :=
  '(rc, b) <- sys dev kbd_subscribe_int ;;
  assign_loc kbd_bit_no b ;;
  ret rc.

Definition wait_esckey (fuel : nat) : M (lab5 D) Z := call (
  modify (fun s => s <| loc := (loc s) <| kbd_bit_no := u8 (BIT (kbd_hookid (dev s))) |> |>) ;;
  rc <- subscribe_keyboard ;;
  if ctrue rc then return_ 1 else
  assign_loc size 1 ;;
  while_ fuel not_esc (on_notification (fun ints =>
    kb <- local kbd_bit_no ;;
    when (ctrue (Z.land ints (BIT kb))) key_interrupt)) ;;
  rc <- sys dev kbd_unsubscribe_int ;;
  if ctrue rc then return_ 1 else
  ret 0).

(** ** lab5.c *)

Definition main (argv : list string) : M (lab5 D) Z := call (
  sys dev (lcf_set_language "EN-US") ;;
  sys dev (lcf_trace_calls "/home/lcom/labs/lab5/trace.txt") ;;
  sys dev (lcf_log_output "/home/lcom/labs/lab5/output.txt") ;;
  rc <- sys dev (lcf_start argv) ;;
  if ctrue rc then return_ 1 else
  sys dev lcf_cleanup ;;
  ret 0).

Definition video_test_init (mode delay : Z) : M (lab5 D) Z := call (
  rc <- vg_get_mode_info mode ;;
  if ctrue rc then return_ 1 else
  rc <- vg_set_mode mode ;;
  if ctrue rc then return_ 1 else
  sys_ dev (sleep delay) ;;
  rc <- sys dev vg_exit ;;
  if ctrue rc then return_ 1 else
  ret 0).

(** [if (m) return 1;] *)
Definition or_return_1 (m : M (lab5 D) Z) : M (lab5 D) unit :=
  rc <- m ;;
  when (ctrue rc) (return_ 1).

Definition video_test_rectangle (fuel : nat) (mode x y width height color : Z) : M (lab5 D) Z := call (
  or_return_1 (vg_get_mode_info mode) ;;
  or_return_1 (vg_set_mode mode) ;;
  or_return_1 (vg_drawrectangle x y width height color) ;;
  or_return_1 (wait_esckey fuel) ;;
  or_return_1 (sys dev vg_exit) ;;
  ret 0).

Definition video_test_pattern (fuel : nat) (mode no_rectangles first step : Z) : M (lab5 D) Z := call (
  or_return_1 (vg_get_mode_info mode) ;;
  or_return_1 (vg_set_mode mode) ;;
  or_return_1 (vg_drawpattern no_rectangles first step) ;;
  or_return_1 (wait_esckey fuel) ;;
  or_return_1 (sys dev vg_exit) ;;
  ret 0).

(** The pixmap drawn is [alien1], whatever the argument. *)
Definition video_test_xpm (fuel : nat) (xpm : xpm_map) (x y : Z) : M (lab5 D) Z := call (
  or_return_1 (vg_get_mode_info 0x14C) ;;
  or_return_1 (vg_set_mode 0x14C) ;;
  img <- sys dev (xpm_load alien1 XPM_8_8_8_8) ;;
  draw_xpm x y img ;;
  or_return_1 (wait_esckey fuel) ;;
  or_return_1 (sys dev vg_exit) ;;
  ret 0).

(** What [video_test_move] computes before the loop: [ipf], [mov_x], [mov_y] and
    [negative_mov]; [None] is the early return for a diagonal. *)
Definition plan_move (hz xi yi xf yf speed fr_rate : Z) : option (Z * Z * Z * bool) :=
  let ipf := i32 hz ÷ fr_rate in
  if negb (xi =? xf) && negb (yi =? yf) then None else
  let '(ipf, mov_x, mov_y) :=
    if speed <? 0 then
      if xi =? xf then (i32 (ipf * - speed), 0, 1) else (i32 (ipf * - speed), 1, 0)
    else
      if xi =? xf then (ipf, 0, speed) else (ipf, speed, 0) in
  let '(mov_x, negative) := if xf <? xi then (- mov_x, true) else (mov_x, false) in
  let '(mov_y, negative) := if yf <? yi then (- mov_y, true) else (mov_y, negative) in
  Some (ipf, mov_x, mov_y, negative).

(** The last movement has been reached. *)
Definition arrived (xi yi xf yf : Z) (negative : bool) : bool :=
  ((xf <=? xi) && (yf <=? yi) && negb negative) || ((xi <=? xf) && (yi <=? yf) && negative).

(** The section that moves the image, after the notification. *)
Definition move_step (xpm : xpm_map) (xf yf ipf mov_x mov_y : Z) (negative : bool) : M (lab5 D) unit :=
  mv <- local moving ;;
  tc <- gets timer_counter ;;
  when mv (when (ipf <=? tc) (
    prev_x <- local cur_x ;;
    prev_y <- local cur_y ;;
    assign_loc cur_x (u16 (prev_x + mov_x)) ;;
    assign_loc cur_y (u16 (prev_y + mov_y)) ;;
    xi <- local cur_x ;;
    yi <- local cur_y ;;
    (if arrived xi yi xf yf negative then
       or_return_1 (draw_next_xpm xpm prev_x prev_y xf yf) ;;
       assign_loc moving false
     else or_return_1 (draw_next_xpm xpm prev_x prev_y xi yi)) ;;
    assign timer_counter 0)).

Definition move_body (xpm : xpm_map) (xf yf ipf mov_x mov_y : Z) (negative : bool) : M (lab5 D) unit :=
  on_notification (fun ints =>
    kb <- local kbd_bit_no ;;
    when (ctrue (Z.land ints (BIT kb))) key_interrupt ;;
    tb <- local mouse_bit_no ;;
    when (ctrue (Z.land ints (BIT tb))) timer_int_handler) ;;
  move_step xpm xf yf ipf mov_x mov_y negative.

(** From the change of the mode to the end of the loop. *)
Definition play_move (fuel : nat) (xpm : xpm_map) (xi yi xf yf ipf mov_x mov_y : Z) (negative : bool) : M (lab5 D) unit :=
  or_return_1 (vg_initialize 0x105) ;;
  img <- sys dev (xpm_load xpm XPM_INDEXED) ;;
  or_return_1 (draw_xpm xi yi img) ;;
  or_return_1 timer_subscribe_int ;;
  or_return_1 subscribe_keyboard ;;
  assign_loc size 1 ;;
  assign_loc moving true ;;
  assign_loc cur_x xi ;;
  assign_loc cur_y yi ;;
  while_ fuel not_esc (move_body xpm xf yf ipf mov_x mov_y negative).

(** After the loop: back to text mode, and the subscriptions are cancelled. *)
Definition end_move : M (lab5 D) Z :=
  or_return_1 (sys dev vg_exit) ;;
  or_return_1 (sys dev kbd_unsubscribe_int) ;;
  or_return_1 timer_unsubscribe_int ;;
  ret 0.

Definition video_test_move (fuel : nat) (xpm : xpm_map) (xi yi xf yf speed fr_rate : Z) : M (lab5 D) Z := call (
  hz <- gets (fun s => sys_hz (dev s)) ;;
  if fr_rate =? 0 then raise DivByZero else
  match plan_move hz xi yi xf yf speed fr_rate with
  | None => return_ 1
  | Some (ipf, mov_x, mov_y, negative) =>
      play_move fuel xpm xi yi xf yf ipf mov_x mov_y negative ;;
      end_move
  end).

End lab5.
