(* ===== verification/Lab5Facts.v ===== *)
(** * Laboratory 5: lines, rectangles and the moving pixmap *)

From S2P Require Import Prelude CMonad Memory Lcf Minix Lab5.
From stdpp Require Import options.

(** The card is in a mode with one byte per pixel and its memory holds [m]. *)
Definition screen8 (g : vg) (m : gmap Z Z) : Prop :=
  video_mem g = Some (Block (Xres g * Yres g) m) /\ bitsPerPixel g = 8 /\
  0 < Xres g < 65536 /\ 0 < Yres g < 65536 /\ Xres g * Yres g < 2 ^ 31.

(** How many of [len] pixels [vg_drawline] draws when [room] columns are left: its index
    and its coordinate both advance, so half of the room counts as all of it. *)
Definition line_span (len room : Z) : Z := Z.min len (Z.max 0 ((room + 1) / 2)).

Section draw.
Context {D : Type} `{K : Kernel D}.
Implicit Types s : lab5 D.

Definition put (m : gmap Z Z) s : lab5 D :=
  s <| card := (card s) <| video_mem := Some (Block (Xres (card s) * Yres (card s)) m) |> |>.

Lemma put_screen8 m m' s : screen8 (card s) m -> screen8 (card (put m' s)) m'.
Proof. intros (_ & Hrest). split; [done|exact Hrest]. Qed.

Lemma put_same m s : screen8 (card s) m -> put m s = s.
Proof. intros (Hv & _). unfold put. rewrite <- Hv. by destruct s as [? []]. Qed.

Lemma vg_drawpixel_exec x y c m s :
  screen8 (card s) m -> 0 <= x < Xres (card s) -> 0 <= y < Yres (card s) ->
  vg_drawpixel x y c s = Ok tt (put (<[y * Xres (card s) + x := u8 c]> m) s).
Proof.
  intros (Hv & Hb & HX & HY & Hlt) Hx Hy. unfold vg_drawpixel, bind, gets. rewrite Hb. change (u32 (Z.shiftr (8 + 7) 3)) with 1.
  set (g := card s) in *. assert (0 <= y * Xres g + x < Xres g * Yres g) as Ho by nia.
  rewrite (u16_id x), (u16_id y) by lia. rewrite (i32_id (y * Xres g)) by (unfold in_i32; nia).
  rewrite i32_id by (unfold in_i32; lia). rewrite Z.mul_1_l, !(u32_id (y * Xres g + x)) by lia. cbn [Z.ltb Z.compare Pos.compare Pos.compare_cont Z.to_nat Pos.to_nat Pos.iter_op le_bytes].
  unfold memcpy_video. fold g. rewrite Hv. cbn [length bsize].
  change (le_bytes (Z.to_nat 1) (u32 c)) with [u32 c mod 256]. cbn [length]. replace (_ && _) with true by lia. cbn [write_bytes bdata]. unfold put. fold g.
  replace (u32 c mod 256) with (u8 c); [done|]. unfold u8, u32, wrap. change (2 ^ 8) with 256.
  symmetry. change (2 ^ 32) with (256 * 16777216). rewrite Z.rem_mul_r by lia.
  rewrite (Z.mul_comm 256), Z.mod_add, Z.mod_mod by lia. done.
Qed.

Lemma line_span_step len room : 0 < len -> 0 < room -> line_span len room = 1 + line_span (len - 1) (room - 2).
Proof. intros Hl Hr. unfold line_span. Z.to_euclidean_division_equations. lia. Qed.

Lemma drawline_loop_exec n i x y c m s :
  screen8 (card s) m -> 0 <= i -> 0 <= x < 65536 -> 0 <= y < Yres (card s) ->
  let o := y * Xres (card s) + x in
  exists m', drawline_loop n i x y c s = Ok tt (put m' s) /\
    forall a, m' !! a = if (o <=? a) && (a <? o + line_span (Z.of_nat n) (Xres (card s) - (i + x))) then Some (u8 c) else m !! a.
Proof.
  revert i x m s. induction n as [|n IH]; intros i x m s Hs Hi Hx Hy o.
  { exists m. rewrite (put_same m) by done. split; [done|]. intros a.
    unfold line_span. replace ((o <=? a) && _) with false by lia. done. }
  cbn [drawline_loop]. unfold bind at 1, gets. destruct (i + x <? Xres (card s)) eqn:Hlt.
  - pose proof Hs as (_ & _ & HX & _). unfold bind. rewrite (vg_drawpixel_exec x y c m) by (done || lia). rewrite (u16_id (x + 1)) by lia.
    set (m1 := <[_ := u8 c]> m). destruct (IH (i + 1) (x + 1) m1 (put m1 s)) as (m' & He & Hm');
      [by eapply put_screen8|lia|lia|done|]. exists m'. split; [by rewrite He|].
    intros a. rewrite Hm'. change (Xres (card (put m1 s))) with (Xres (card s)).
    rewrite (line_span_step (Z.of_nat (S n))) by lia. replace (Z.of_nat (S n) - 1) with (Z.of_nat n) by lia.
    replace (Xres (card s) - (i + 1 + (x + 1))) with (Xres (card s) - (i + x) - 2) by lia.
    set (w := line_span _ _). assert (0 <= w) by (unfold w, line_span; lia). fold o.
    destruct (Z.eq_dec a o) as [->|Hne].
    + replace ((o <=? o) && (o <? o + (1 + w))) with true by lia. fold (y * Xres (card s)).
      replace ((y * Xres (card s) + (x + 1) <=? o) && _) with false by (unfold o; lia). apply lookup_insert_eq.
    + replace ((y * Xres (card s) + (x + 1) <=? a) && (a <? y * Xres (card s) + (x + 1) + w))
        with ((o <=? a) && (a <? o + (1 + w))) by (unfold o; lia).
      destruct (_ && _); [done|]. by apply lookup_insert_ne.
  - exists m. rewrite (put_same m) by done. split; [done|]. intros a.
    unfold line_span. replace (Z.max 0 _) with 0 by (Z.to_euclidean_division_equations; lia).
    replace ((o <=? a) && _) with false by lia. done.
Qed.

(** The pixel at [(x, y)]. *)
Definition pixel8 (g : vg) (m : gmap Z Z) (x y : Z) : option Z := m !! (y * Xres g + x).

Lemma vg_drawline_exec x y len c m s :
  screen8 (card s) m -> 0 <= x < Xres (card s) -> 0 <= y < Yres (card s) -> 0 <= len ->
  exists m', vg_drawline x y len c s = Ok 0 (put m' s) /\
    forall x' y', 0 <= x' < Xres (card s) -> pixel8 (card s) m' x' y' =
      if (y' =? y) && (x <=? x') && (x' <? x + line_span len (Xres (card s) - x)) then Some (u8 c) else pixel8 (card s) m x' y'.
Proof.
  intros Hs Hx Hy Hl. pose proof Hs as (_ & _ & HX & _).
  destruct (drawline_loop_exec (Z.to_nat len) 0 x y c m s Hs ltac:(lia) ltac:(lia) Hy) as (m' & He & Hm').
  exists m'. split; [unfold vg_drawline, bind; by rewrite He|]. intros x' y' Hx'. unfold pixel8. rewrite Hm'.
  rewrite Z2Nat.id, Z.add_0_l by done. set (w := line_span _ _).
  assert (w <= Xres (card s) - x) as Hw by (unfold w, line_span; Z.to_euclidean_division_equations; lia).
  replace ((y * Xres (card s) + x <=? y' * Xres (card s) + x') && (y' * Xres (card s) + x' <? y * Xres (card s) + x + w))
    with ((y' =? y) && (x <=? x') && (x' <? x + w)); [done|].
  destruct (Z.lt_trichotomy y' y) as [|[->|]]; [|lia|].
  - replace (y' =? y) with false by lia. assert (y' * Xres (card s) + x' < y * Xres (card s)) by nia. lia.
  - replace (y' =? y) with false by lia. assert (y * Xres (card s) + Xres (card s) <= y' * Xres (card s)) by nia. lia.
Qed.

(** [vg_drawrectangle] paints the given rows of the rectangle, but of each row only the pixels
    that [line_span] counts: rectangles no wider than half of the room to their right are
    painted exactly, wider ones lose their right part; no other pixel changes. *)
Lemma vg_drawrectangle_exec x y w h c m s :
  screen8 (card s) m -> 0 <= x < Xres (card s) -> 0 <= y -> y + h <= Yres (card s) -> 0 <= w -> 0 <= h ->
  exists m', vg_drawrectangle x y w h c s = Ok 0 (put m' s) /\
    forall x' y', 0 <= x' < Xres (card s) -> pixel8 (card s) m' x' y' =
      if (y <=? y') && (y' <? y + h) && (x <=? x') && (x' <? x + line_span w (Xres (card s) - x)) then Some (u8 c)
      else pixel8 (card s) m x' y'.
Proof.
  intros Hs Hx Hy Hyh Hw Hh. pose proof Hs as (_ & _ & _ & HY & _).
  destruct (wp_exec (vg_drawrectangle x y w h c) (fun r s' => r = 0 /\ exists m', s' = put m' s /\
    forall x' y', 0 <= x' < Xres (card s) -> pixel8 (card s) m' x' y' =
      if (y <=? y') && (y' <? y + h) && (x <=? x') && (x' <? x + line_span w (Xres (card s) - x)) then Some (u8 c)
      else pixel8 (card s) m x' y') s) as (r & s' & He & -> & m' & -> & Hm'); [|by exists m'].
  apply wp_bind. apply (wp_for_acc_seqZ False (fun k a s' => a = y + k /\ exists m', s' = put m' s /\
    forall x' y', 0 <= x' < Xres (card s) -> pixel8 (card s) m' x' y' =
      if (y <=? y') && (y' <? y + k) && (x <=? x') && (x' <? x + line_span w (Xres (card s) - x)) then Some (u8 c)
      else pixel8 (card s) m x' y')); [lia| | |].
  - split; [lia|]. exists m. split; [by rewrite put_same|]. intros x' y' Hx'.
    by replace ((y <=? y') && (y' <? y + 0)) with false by lia.
  - intros k a s' Hk (-> & m1 & -> & Hm1). destruct (vg_drawline_exec x (y + k) w c m1 (put m1 s)) as (m2 & He & Hm2);
      [by eapply put_screen8|done|change (Yres (card (put m1 s))) with (Yres (card s)); lia|done|].
    apply wp_bind. eapply wp_of_exec; [exact He|]. apply wp_ret. split; [machsimp; lia|]. exists m2. split; [done|].
    intros x' y' Hx'. change (pixel8 (card s) m2 x' y') with (pixel8 (card (put m1 s)) m2 x' y'). rewrite Hm2 by done.
    change (pixel8 (card (put m1 s)) m1 x' y') with (pixel8 (card s) m1 x' y'). rewrite Hm1 by done.
    change (Xres (card (put m1 s))) with (Xres (card s)). destruct (Z.eq_dec y' (y + k)) as [->|Hne].
    + rewrite Z.eqb_refl. replace ((y <=? y + k) && (y + k <? y + k)) with false by lia.
      replace ((y <=? y + k) && (y + k <? y + (k + 1))) with true by lia. done.
    + replace (y' =? y + k) with false by lia. replace (y' <? y + (k + 1)) with (y' <? y + k) by lia. done.
  - intros a s' (_ & m' & -> & Hm'). apply wp_ret. split; [done|]. by exists m'.
Qed.

(** ** The pattern *)

Context `{L : Lab5Lib D}.

(** The colour of the pattern at a pixel: [n] by [n] tiles of [w] by [h] pixels, numbered by rows, of
    each of which the first [k] are drawn, and of each row of a tile the pixels that
    [vg_drawline] draws. *)
Definition pattern_colour (X n w h first step k x y : Z) : option Z :=
  let tile := y / h * n + x / w in
  if (x <? n * w) && (y <? n * h) && (tile <? k) && (x mod w <? line_span w (X - x / w * w)) then Some (u8 (first + tile * step))
  else None.

(** The screen with the pattern over what it held before. *)
Definition patterned (n w h first step k : Z) (g : vg) (m m' : gmap Z Z) : Prop :=
  forall x y, 0 <= x < Xres g -> 0 <= y ->
    pixel8 g m' x y = match pattern_colour (Xres g) n w h first step k x y with Some c => Some c | None => pixel8 g m x y end.

Lemma line_span_le w room : 0 <= w -> line_span w room <= w.
Proof. unfold line_span. lia. Qed.

Lemma line_span_nonneg w room : 0 <= w -> 0 <= line_span w room.
Proof. unfold line_span. lia. Qed.

(** Drawing tile [(r, c)]. *)
Lemma pattern_step X n w h first step r c x y :
  0 < w -> 0 < h -> 0 <= r < n -> 0 <= c < n -> 0 <= x -> 0 <= y ->
  pattern_colour X n w h first step (r * n + c + 1) x y =
  if (r * h <=? y) && (y <? r * h + h) && (c * w <=? x) && (x <? c * w + line_span w (X - c * w))
  then Some (u8 (first + (r * n + c) * step)) else pattern_colour X n w h first step (r * n + c) x y.
Proof.
  intros Hw Hh Hr Hc Hx Hy. unfold pattern_colour. cbv zeta.
  pose proof (line_span_le w (X - c * w) ltac:(lia)) as Hls. pose proof (line_span_nonneg w (X - c * w) ltac:(lia)) as Hls0.
  pose proof (Z.div_mod x w ltac:(lia)) as Hdx. pose proof (Z.mod_pos_bound x w Hw) as Hmx.
  pose proof (Z.div_mod y h ltac:(lia)) as Hdy. pose proof (Z.mod_pos_bound y h Hh) as Hmy.
  set (qx := x / w) in *. set (qy := y / h) in *. assert (0 <= qx) by (apply Z.div_pos; lia). assert (0 <= qy) by (apply Z.div_pos; lia).
  destruct ((r * h <=? y) && (y <? r * h + h) && (c * w <=? x) && (x <? c * w + line_span w (X - c * w))) eqn:Hin.
  - assert (qy = r) as -> by nia. assert (qx = c) as -> by nia.
    replace (x <? n * w) with true by nia. replace (y <? n * h) with true by nia.
    replace (r * n + c <? r * n + c + 1) with true by lia. replace (x mod w <? line_span w (X - c * w)) with true by nia. done.
  - destruct ((x <? n * w) && (y <? n * h)) eqn:Hn; [|done]. cbn [andb]. assert (qx < n) by nia. assert (qy < n) by nia.
    destruct (Z.eq_dec (qy * n + qx) (r * n + c)) as [He|He].
    + assert (qy = r) as -> by nia. assert (qx = c) as -> by nia.
      replace (r * n + c <? r * n + c) with false by lia. cbn [andb].
      replace (x mod w <? line_span w (X - c * w)) with false by nia. by rewrite andb_false_r.
    + replace (qy * n + qx <? r * n + c + 1) with (qy * n + qx <? r * n + c) by lia. done.
Qed.

Lemma u8_mod_shl first z : u8 (u32 (first + u32 z) mod BIT 8) = u8 (first + z).
Proof.
  unfold u8, u32, wrap. change (BIT 8) with 256. change (2 ^ 8) with 256. change (2 ^ 32) with (16777216 * 256).
  rewrite Z.mod_mod by lia. rewrite Zplus_mod_idemp_r.
  rewrite (Z.mul_comm 16777216), Z.rem_mul_r, Z.mul_comm, Z.mod_add, Z.mod_mod by lia. done.
Qed.

(** One tile. *)
Lemma draw_tile n w h first step r c m m1 s :
  screen8 (card s) m -> 0 < w -> 0 < h -> 0 <= r < n -> 0 <= c < n -> n * w <= Xres (card s) -> n * h <= Yres (card s) ->
  patterned n w h first step (r * n + c) (card s) m m1 ->
  wp False (color <- mod_shl (first + u32 ((r * n + c) * step)) 8 ;;
            vg_drawrectangle (u16 (c * w)) (u16 (r * h)) w h color ;; ret tt)
    (fun _ s' => exists m2, s' = put m2 s /\ patterned n w h first step (r * n + (c + 1)) (card s) m m2) nojump (put m1 s).
Proof.
  intros Hs Hw Hh Hr Hc HX HY Hm1. pose proof Hs as (_ & _ & HXb & HYb & _).
  apply wp_bind, wp_ret. set (colour := _ mod BIT 8). rewrite (u16_id (c * w)), (u16_id (r * h)) by nia.
  destruct (vg_drawrectangle_exec (c * w) (r * h) w h colour m1 (put m1 s)) as (m2 & He & Hm2);
    [by eapply put_screen8|change (Xres (card (put m1 s))) with (Xres (card s)); nia|nia
    |change (Yres (card (put m1 s))) with (Yres (card s)); nia|lia|lia|].
  apply wp_bind. eapply wp_of_exec; [exact He|]. apply wp_ret. exists m2. split; [done|].
  intros x y Hx Hy. rewrite Z.add_assoc, pattern_step by lia.
  change (pixel8 (card s) m2 x y) with (pixel8 (card (put m1 s)) m2 x y). rewrite Hm2 by done.
  change (pixel8 (card (put m1 s)) m1 x y) with (pixel8 (card s) m1 x y).
  change (Xres (card (put m1 s))) with (Xres (card s)).
  unfold colour. rewrite u8_mod_shl. rewrite Hm1 by done. by destruct (_ && _).
Qed.

(** C39: the test pattern.  In an indexed mode with one byte per pixel, [vg_drawpattern] ends with 0 and the screen
    shows the [n] by [n] tiles in row order, the colour of each [step] above the one before it modulo 256, up to
    the columns that [vg_drawline] leaves out; the pixels outside the tiles keep their colours. *)
Theorem vg_drawpattern_correct n first step m s :
  screen8 (card s) m -> color_mode (card s) = INDEXED_MODE -> 0 < n <= Xres (card s) -> n <= Yres (card s) ->
  exists m', vg_drawpattern n first step s = Ok 0 (put m' s) /\
    patterned n (Xres (card s) / n) (Yres (card s) / n) first step (n * n) (card s) m m'.
Proof.
  intros Hs Hmode Hn HnY. pose proof Hs as (_ & Hbpp & HX & HY & _).
  set (w := Xres (card s) / n). set (h := Yres (card s) / n).
  assert (0 < w /\ n * w <= Xres (card s)) as [Hw HwX] by (unfold w; Z.to_euclidean_division_equations; nia).
  assert (0 < h /\ n * h <= Yres (card s)) as [Hh HhY] by (unfold h; Z.to_euclidean_division_equations; nia).
  destruct (wp_exec (vg_drawpattern n first step) (fun r s' => r = 0 /\ exists m', s' = put m' s /\
    patterned n w h first step (n * n) (card s) m m') s) as (r & s' & He & -> & m' & -> & Hm'); [|by exists m'].
  apply wp_call, wp_bind, wp_gets. cbv zeta. rewrite Hmode, Z.eqb_refl. replace (n =? 0) with false by lia.
  rewrite !Z.quot_div_nonneg by lia. fold w h. rewrite (u16_id w), (u16_id h), Hbpp by nia.
  apply wp_bind. apply (wp_for_each_seqZ False (fun r s' => exists m', s' = put m' s /\
    patterned n w h first step (r * n) (card s) m m')); [lia| | |].
  - exists m. split; [by rewrite put_same|]. intros x y Hx Hy. unfold pattern_colour. cbv zeta.
    assert (0 <= x / w) by (apply Z.div_pos; lia). assert (0 <= y / h) by (apply Z.div_pos; lia).
    replace (y / h * n + x / w <? 0 * n) with false by nia. by rewrite andb_false_r.
  - intros r s1 Hr (m1 & -> & Hm1). apply (wp_for_each_seqZ False (fun c s' => exists m', s' = put m' s /\
      patterned n w h first step (r * n + c) (card s) m m')); [lia| | |].
    + exists m1. by rewrite Z.add_0_r.
    + intros c s2 Hc (m2 & -> & Hm2). by apply draw_tile.
    + intros s2. by replace ((r + 1) * n) with (r * n + n) by lia.
  - intros s1 (m1 & -> & Hm1). apply wp_ret. split; [done|]. by exists m1.
Qed.

End draw.

(** ** The moving pixmap *)

(** The position after one movement, as [move_step] computes it. *)
Definition step_pos (mov_x mov_y : Z) (p : Z * Z) : Z * Z := (u16 (fst p + mov_x), u16 (snd p + mov_y)).

(** Pixels per movement: a negative speed is a number of frames per pixel. *)
Definition stride (speed : Z) : Z := if speed <? 0 then 1 else speed.

Definition travel (xi yi xf yf : Z) : Z := Z.abs (xf - xi) + Z.abs (yf - yi).

(** The number of movements to the end. *)
Definition move_count (xi yi xf yf speed : Z) : Z :=
  Z.max 1 ((travel xi yi xf yf + stride speed - 1) / stride speed).

(** The movements planned are [stride] pixels along one axis towards the end. *)
Lemma plan_move_axis hz xi yi xf yf speed fr ipf mx my neg :
  plan_move hz xi yi xf yf speed fr = Some (ipf, mx, my, neg) ->
  (xi = xf /\ mx = 0 /\ my = (if yf <? yi then - stride speed else stride speed) /\ neg = (yf <? yi)) \/
  (xi <> xf /\ yi = yf /\ my = 0 /\ mx = (if xf <? xi then - stride speed else stride speed) /\ neg = (xf <? xi)).
Proof.
  unfold plan_move, stride. destruct (Z.eqb_spec xi xf) as [->|Hx], (Z.eqb_spec yi yf) as [->|Hy]; cbn [negb andb]; try done.
  all: destruct (speed <? 0); rewrite ?Z.ltb_irrefl.
  all: try (intros [= <- <- <- <-]; auto; fail).
  all: repeat ifcase; intros [= <- <- <- <-]; auto 10.
Qed.

(** From every start, for every plan along an axis, the positions advance by the stride
    without wrapping round, stay short of the end for all movements but the last, and the last one is
    recognised as the arrival: [move_step] then draws the pixmap at the end and stops. *)
Lemma movement_arrives hz xi yi xf yf speed fr ipf mx my neg :
  plan_move hz xi yi xf yf speed fr = Some (ipf, mx, my, neg) -> speed <> 0 ->
  in_u16 xi -> in_u16 yi -> in_u16 xf -> in_u16 yf ->
  xf + stride speed < 65536 -> yf + stride speed < 65536 ->
  (xf < xi -> stride speed <= xf) -> (yf < yi -> stride speed <= yf) ->
  forall k, 1 <= k <= move_count xi yi xf yf speed ->
    let p := Nat.iter (Z.to_nat k) (step_pos mx my) (xi, yi) in
    p = (xi + k * mx, yi + k * my) /\ arrived (fst p) (snd p) xf yf neg = (k =? move_count xi yi xf yf speed).
Proof.
  intros Hplan Hsp Hxi Hyi Hxf Hyf Hbx Hby Hnx Hny. unfold in_u16 in *.
  set (v := stride speed) in *. assert (1 <= v) as Hv by (unfold v, stride; destruct (Z.ltb_spec speed 0); lia).
  pose proof (plan_move_axis _ _ _ _ _ _ _ _ _ _ _ Hplan) as Hax. fold v in Hax.
  set (n := move_count xi yi xf yf speed). assert (forall k, 1 <= k < n -> k * v < travel xi yi xf yf) as Hshort.
  { intros k Hk. unfold n, move_count in Hk. fold v in Hk. Z.to_euclidean_division_equations; nia. }
  assert (travel xi yi xf yf <= n * v) as Hlong.
  { unfold n, move_count. fold v. Z.to_euclidean_division_equations; nia. }
  assert (n * v <= Z.max v (travel xi yi xf yf + v - 1)) as Hover.
  { unfold n, move_count. fold v. Z.to_euclidean_division_equations; nia. }
  assert (forall k, 0 <= k <= n -> k * v <= n * v) as Hmono by (intros; nia).
  assert (forall k : nat, Z.of_nat k <= n ->
    Nat.iter k (step_pos mx my) (xi, yi) = (xi + Z.of_nat k * mx, yi + Z.of_nat k * my)) as Hiter.
  { induction k as [|k IH]; intros Hk; [cbn; f_equal; lia|]. cbn [Nat.iter nat_rect]. change (nat_rect _ _ _ k) with (Nat.iter k (step_pos mx my) (xi, yi)).
    rewrite IH by lia. unfold step_pos. cbn [fst snd]. pose proof (Hmono (Z.of_nat (S k)) ltac:(lia)) as Hk'.
    unfold travel in *.
    destruct Hax as [(-> & -> & Hmy & _)|(Hne & -> & -> & Hmx & _)].
    - rewrite !u16_id by (rewrite ?Hmy; destruct (Z.ltb_spec yf yi); nia). f_equal; lia.
    - rewrite !u16_id by (rewrite ?Hmx; destruct (Z.ltb_spec xf xi); nia). f_equal; lia. }
  intros k Hk. cbv zeta. rewrite Hiter by lia. rewrite Z2Nat.id by lia. split; [done|]. cbn [fst snd].
  unfold arrived, travel in *. destruct (Z.eq_dec k n) as [->|Hkn].
  - rewrite Z.eqb_refl.
    destruct Hax as [(-> & -> & -> & ->)|(Hne & -> & -> & -> & ->)].
    + destruct (Z.ltb_spec yf yi); cbn [negb]; nia.
    + destruct (Z.ltb_spec xf xi); cbn [negb]; nia.
  - specialize (Hshort k ltac:(lia)). replace (k =? n) with false by lia.
    destruct Hax as [(-> & -> & -> & ->)|(Hne & -> & -> & -> & ->)].
    + destruct (Z.ltb_spec yf yi); cbn [negb]; nia.
    + destruct (Z.ltb_spec xf xi); cbn [negb]; nia.
Qed.

(** Before the last movement the positions are between the end points. *)
Lemma position_between hz xi yi xf yf speed fr ipf mx my neg k :
  plan_move hz xi yi xf yf speed fr = Some (ipf, mx, my, neg) -> speed <> 0 -> 0 <= k < move_count xi yi xf yf speed ->
  Z.min xi xf <= xi + k * mx <= Z.max xi xf /\ Z.min yi yf <= yi + k * my <= Z.max yi yf.
Proof.
  intros Hplan Hsp Hk. pose proof (plan_move_axis _ _ _ _ _ _ _ _ _ _ _ Hplan) as Hax.
  set (v := stride speed) in *. assert (1 <= v) as Hv by (unfold v, stride; destruct (Z.ltb_spec speed 0); lia).
  assert (k = 0 \/ k * v < travel xi yi xf yf) as Hshort.
  { unfold move_count in Hk. fold v in Hk. Z.to_euclidean_division_equations; nia. }
  unfold travel in Hshort. destruct Hax as [(-> & -> & -> & _)|(Hne & -> & -> & -> & _)].
  - destruct (Z.ltb_spec yf yi); nia.
  - destruct (Z.ltb_spec xf xi); nia.
Qed.

(** overshooting the left border.  When a movement to the left would pass the left border, the unsigned
    coordinate wraps round to the right and the arrival is not recognised. *)
Theorem overshoot_not_recognised hz xi y xf speed fr :
  0 <= xf < xi -> xi < speed < 65536 ->
  exists ipf, plan_move hz xi y xf y speed fr = Some (ipf, - speed, 0, true) /\
    let x := u16 (xi + - speed) in x = 65536 + xi - speed /\ arrived x y xf y true = false.
Proof.
  intros Hx Hs. exists (i32 hz ÷ fr). unfold plan_move. replace (xi =? xf) with false by lia. rewrite Z.eqb_refl. cbn [negb andb].
  replace (speed <? 0) with false by lia. replace (xf <? xi) with true by lia. rewrite Z.ltb_irrefl. split; [done|].
  cbv zeta. assert (u16 (xi + - speed) = 65536 + xi - speed) as ->.
  { unfold u16, wrap. change (2 ^ 16) with 65536. rewrite <- (Z.mod_add _ 1) by lia. rewrite Z.mod_small; lia. }
  split; [done|]. unfold arrived. cbn [negb]. lia.
Qed.

(** ** Examples *)

(** A screen of 8 by 4 pixels. *)
Definition small_card : vg := Vg 8 4 8 0 0 0 0 0 0 0 (Some (Block 32 ∅)).

Definition small_screen : lab5 script := (init_lab5 (ports [])) <| card := small_card |>.

Lemma small_screen8 : screen8 (card small_screen) ∅.
Proof. repeat split; try done. Qed.

(** The values of the headers that this laboratory shares with laboratories 2 and 4; no key is pressed. *)
#[local] Instance demo_lib : Lab5Lib script := {
  kbd_subscribe_int d := ((0, 1), d); kbd_unsubscribe_int d := (0, d); kbc_ih d := d; twoBytes b := if b =? 0xE0 then 1 else 0;
  kbd_hookid _ := 1; scancode _ := 0; util_get_LSB z := (u8 z, 0); util_get_MSB z := (u8 (Z.shiftr z 8), 0);
  ESC_BREAK := 0x81; INDEXED_MODE := 0; DIRECT_MODE := 6; TIMER_FREQ := 1193182; TIMER0_IRQ := 0;
  TIMER_0 := 0x40; TIMER_1 := 0x41; TIMER_2 := 0x42; TIMER_CTRL := 0x43; TIMER_SEL0 := 0; TIMER_SEL1 := 0x40; TIMER_SEL2 := 0x80;
  TIMER_LSB_MSB := 0x30; TIMER_RB_CMD := 0xC0; TIMER_RB_COUNT_ := 0x20; TIMER_RB_STATUS_ := 0x10;
  TIMER_RB_SEL n := BIT (n + 1); TIMER_BCD := 1;
}.

(** Four tiles of 4 by 2 pixels: the left ones are complete, the right ones are cut to half their width, and the
    colours go on from 255 to 0. *)
Lemma vg_drawpattern_correct_witness :
  exists m', vg_drawpattern 2 250 5 small_screen = Ok 0 (put m' small_screen) /\
    pixel8 small_card m' 3 1 = Some 250 /\ pixel8 small_card m' 5 1 = Some 255 /\ pixel8 small_card m' 6 1 = None /\
    pixel8 small_card m' 0 2 = Some 4.
Proof.
  destruct (vg_drawpattern_correct (L := demo_lib) 2 250 5 ∅ small_screen small_screen8 eq_refl ltac:(split; vm_compute; congruence)
    ltac:(vm_compute; congruence)) as (m' & He & Hm).
  exists m'. split; [exact He|]. split_and!.
  - exact (Hm 3 1 ltac:(split; vm_compute; congruence) ltac:(lia)).
  - exact (Hm 5 1 ltac:(split; vm_compute; congruence) ltac:(lia)).
  - exact (Hm 6 1 ltac:(split; vm_compute; congruence) ltac:(lia)).
  - exact (Hm 0 2 ltac:(split; vm_compute; congruence) ltac:(lia)).
Defined.

Lemma overshoot_not_recognised_witness : arrived (u16 (5 + - (10))) 0 0 0 true = false.
Proof.
  destruct (overshoot_not_recognised 60 5 0 0 10 60 ltac:(lia) ltac:(lia)) as (ipf & _ & _ & Ha). exact Ha.
Defined.
