(* ===== verification/Lab5Move.v ===== *)
(** * Laboratory 5: the moving pixmap

    [video_test_move] as a whole.  On a system whose timer ticks [n] times before the
    escape key is released, the loop ends with the pixmap where the planned movement has
    it after [n] ticks: one stride per frame along the axis, and at the end point from
    the last movement on.  The places before are erased if the pixmap is narrow enough
    for [vg_drawrectangle].  Then the text mode is restored and the function returns 0. *)

From S2P Require Import Prelude CMonad Memory Lcf Minix Graphics GraphicsFacts Lab5 Lab5Facts.
From stdpp Require Import options.

(** ** Drawing the pixmap *)

(** The pixmap lies on the screen with its corner at [(x, y)]. *)
Definition window (g : vg) (img : xpm_image_t) (x y : Z) : Prop :=
  0 <= x /\ x + width img <= Xres g /\ 0 <= y /\ y + height img <= Yres g.

(** The screen shows the pixmap at [(x, y)]. *)
Definition displays (g : vg) (m : gmap Z Z) (img : xpm_image_t) (x y : Z) : Prop :=
  forall r k, 0 <= r < height img -> 0 <= k < width img ->
    pixel8 g m (x + k) (y + r) = bytes img !! Z.to_nat (r * width img + k).

(** A system whose devices work and whose notifications are [cw_ticks] ticks of the timer followed by the
    release of the escape key; [None] is the time after that. *)
Class Clockwork (D : Type) `{K : Kernel D} `{L : Lab5Lib D} := {
  cw_ticks : D -> option nat;
  cw_key : Z;
  cw_scancode d : scancode d = ESC_BREAK <-> cw_ticks d = None;
  cw_tick d n : cw_ticks d = Some (S n) -> exists m d', driver_receive d = ((0, m, true), d') /\ m_source_p m = HARDWARE /\
    Z.testbit (m_interrupts m) 0 = true /\ ctrue (Z.land (m_interrupts m) (BIT cw_key)) = false /\ cw_ticks d' = Some n;
  cw_escape d : cw_ticks d = Some O -> exists m d', driver_receive d = ((0, m, true), d') /\ m_source_p m = HARDWARE /\
    Z.testbit (m_interrupts m) 0 = false /\ ctrue (Z.land (m_interrupts m) (BIT cw_key)) = true /\
    cw_ticks (kbc_ih d') = None;
  cw_one_byte : twoBytes ESC_BREAK = 0;
  cw_load m d : cw_ticks (snd (xpm_load m XPM_INDEXED d)) = cw_ticks d;
  cw_mode d : exists i d', vbe_get_mode_info 0x105 d = ((0, i), d') /\ XResolution i = 1024 /\ YResolution i = 768 /\
    BitsPerPixel i = 8 /\ cw_ticks d' = cw_ticks d;
  cw_privctl a b d : exists d', sys_privctl_add_mem a b d = (0, d') /\ cw_ticks d' = cw_ticks d;
  cw_map a b d : exists d', vm_map_phys a b d = (true, d') /\ cw_ticks d' = cw_ticks d;
  cw_int86 r d : exists r' d', sys_int86 r d = ((0, r'), d') /\ r_ah r' = 0 /\ r_al r' = 0x4F /\ cw_ticks d' = cw_ticks d;
  cw_policy irq policy h d : exists h' d', sys_irqsetpolicy irq policy h d = ((0, h'), d') /\ cw_ticks d' = cw_ticks d;
  cw_subscribe d : exists d', kbd_subscribe_int d = ((0, cw_key), d') /\ cw_ticks d' = cw_ticks d;
  cw_exit d : exists d', vg_exit d = (0, d');
  cw_unsubscribe d : exists d', kbd_unsubscribe_int d = (0, d');
  cw_rmpolicy h d : exists d', sys_irqrmpolicy h d = (0, d');
}.

Section drawing.
Context {D : Type} `{K : Kernel D} `{L : Lab5Lib D}.
Implicit Types s : lab5 D.

Lemma blitted_displays g img x y (m m' : gmap Z Z) :
  0 < Xres g -> window g img x y ->
  (forall a, 0 <= a -> m' !! a = blitted false img (Xres g) x y (height img) 0 m a) -> displays g m' img x y.
Proof.
  intros HX (Hx & HxX & Hy & HyY) Hm r k Hr Hk. unfold pixel8. rewrite Hm by nia. unfold blitted.
  assert (((y + r) * Xres g + (x + k)) / Xres g - y = r) as ->.
  { rewrite Z.add_comm, Z.div_add, Z.div_small by lia. lia. }
  assert (((y + r) * Xres g + (x + k)) mod Xres g - x = k) as ->.
  { rewrite Z.add_comm, Z.mod_add, Z.mod_small by lia. lia. }
  rewrite decide_True by lia. by destruct (bytes img !! _).
Qed.

(** A point of the screen outside the window of the pixmap. *)
Definition beside (g : vg) (w h x y x' y' : Z) : Prop :=
  0 <= x' < Xres g /\ 0 <= y' /\ ~ (x <= x' < x + w /\ y <= y' < y + h).

Lemma blitted_beside g img x y (m m' : gmap Z Z) x' y' :
  0 < Xres g -> (forall a, 0 <= a -> m' !! a = blitted false img (Xres g) x y (height img) 0 m a) ->
  beside g (width img) (height img) x y x' y' -> pixel8 g m' x' y' = pixel8 g m x' y'.
Proof.
  intros HX Hm (Hx & Hy & Hout). unfold pixel8. rewrite Hm by nia. unfold blitted.
  assert ((y' * Xres g + x') / Xres g = y') as -> by (rewrite Z.add_comm, Z.div_add, Z.div_small by lia; lia).
  assert ((y' * Xres g + x') mod Xres g = x') as -> by (rewrite Z.add_comm, Z.mod_add, Z.mod_small by lia; lia).
  rewrite decide_False; [done|]. lia.
Qed.

Lemma draw_xpm_exec x y img m s :
  screen8 (card s) m -> image_ok img -> window (card s) img x y ->
  exists m', draw_xpm x y img s = Ok 0 (put m' s) /\ displays (card s) m' img x y /\
    forall x' y', beside (card s) (width img) (height img) x y x' y' -> pixel8 (card s) m' x' y' = pixel8 (card s) m x' y'.
Proof.
  intros Hs Hi Hwin. pose proof Hs as (_ & _ & HX & _). pose proof Hi as (Hw & Hh & _). pose proof Hwin as (Hx & HxX & Hy & HyY).
  set (X := Xres (card s)) in *.
  set (P r k (m' : gmap Z Z) := forall a, 0 <= a -> m' !! a = blitted false img X x y r k m a).
  destruct (wp_exec (draw_xpm x y img) (fun r s' => r = 0 /\ exists m', s' = put m' s /\ P (height img) 0 m') s)
    as (r & s' & He & -> & m' & -> & Hm').
  2:{ assert (0 < Xres (card s)) as HX0 by (unfold X in HX; lia).
      exists m'. split; [done|]. split; [by eapply blitted_displays|]. intros x' y' Hb. by eapply blitted_beside. }
  unfold draw_xpm. apply wp_bind.
  apply (wp_for_acc_seqZ _ (fun r n s' => n = r * width img /\ exists m', s' = put m' s /\ P r 0 m')); [done| | |].
  - split; [lia|]. exists m. split; [by rewrite put_same|]. intros a Ha. unfold blitted. rewrite decide_False; [done|]. lia.
  - intros r n s1 Hr (-> & m1 & -> & Hm1).
    apply (wp_for_acc_seqZ _ (fun k n s' => n = r * width img + k /\ exists m', s' = put m' s /\ P r k m')); [done| | |].
    + rewrite Z.add_0_r. split; [done|]. by exists m1.
    + intros k n s2 Hk (-> & m2 & -> & Hm2). destruct (image_byte img r k Hi Hr Hk) as (c & Hc & Hu). rewrite Hc.
      apply wp_bind. eapply wp_of_exec.
      { apply (vg_drawpixel_exec (x + k) (y + r) c m2); [by eapply put_screen8|cbn; fold X; lia|cbn; lia]. }
      apply wp_ret. split; [lia|]. eexists. split; [reflexivity|]. rewrite (u8_id c) by (unfold in_u8 in Hu; lia).
      exact (blitted_pixel false img X x y r k m m2 c ltac:(lia) ltac:(lia) ltac:(lia) ltac:(lia) Hk Hc Hm2).
    + intros n s2 (-> & m2 & -> & Hm2). split; [lia|]. exists m2. split; [done|]. intros a Ha. rewrite Hm2 by done.
      apply blitted_row; lia.
  - intros n s1 (_ & Hs1). apply wp_ret. by split.
Qed.

End drawing.

Section moving.
Context {D : Type} `{CW : Clockwork D} {XL : XpmLaws D}.
Context (xpm : xpm_map) (columns_pos : 0 < xpm_columns xpm) (rows_pos : 0 < xpm_rows xpm).
Implicit Types s : lab5 D.

(** An image that [xpm_load] makes of the pixmap. *)
Definition loaded (img : xpm_image_t) : Prop := exists d, img = fst (xpm_load xpm XPM_INDEXED d).

Lemma loaded_image img : loaded img -> image_ok img /\ width img = xpm_columns xpm /\ height img = xpm_rows xpm.
Proof using XL columns_pos rows_pos.
  intros [d ->]. destruct (xpm_load_indexed xpm d) as (Hw & Hh & Hl & Hb).
  repeat split; try done; [lia|lia|by rewrite Hw, Hh].
Qed.

(** The pixmap lies on the screen when its corner is at the point. *)
Definition inside (g : vg) (x y : Z) : Prop :=
  0 <= x /\ x + xpm_columns xpm <= Xres g /\ 0 <= y /\ y + xpm_rows xpm <= Yres g.

(** All the rest of the screen is in colour 0, or was never drawn since the mode was set. *)
Definition blank_beside (g : vg) (m : gmap Z Z) (x y : Z) : Prop :=
  forall x' y', beside g (xpm_columns xpm) (xpm_rows xpm) x y x' y' -> default 0 (pixel8 g m x' y') = 0.

(** [vg_drawrectangle] erases the whole pixmap wherever its left edge is at [edge] or before. *)
Definition erasable (g : vg) (edge : Z) : Prop := 2 * xpm_columns xpm <= Xres g - edge + 1.

(** The screen shows the pixmap at a point; and nothing else, if the places left of [edge] could be erased. *)
Definition shown_at (edge x y : Z) s : Prop :=
  exists m img, screen8 (card s) m /\ loaded img /\ displays (card s) m img x y /\
    (erasable (card s) edge -> blank_beside (card s) m x y).

(** [s'] is [s] with other contents of the screen, and as many ticks to come. *)
Definition redrawn s s' : Prop :=
  exists m d, s' = put m (s <| dev := d |>) /\ cw_ticks d = cw_ticks (dev s) /\ screen8 (card s') m.

(** The old place is erased, the pixmap is drawn at the new one. *)
Lemma redrawn_blank edge px py x y w h (m m1 m2 : gmap Z Z) g :
  w = xpm_columns xpm -> h = xpm_rows xpm -> inside g px py -> px <= edge ->
  (forall x' y', 0 <= x' < Xres g -> pixel8 g m1 x' y' =
     if (py <=? y') && (y' <? py + h) && (px <=? x') && (x' <? px + line_span w (Xres g - px)) then Some (u8 0) else pixel8 g m x' y') ->
  (forall x' y', beside g w h x y x' y' -> pixel8 g m2 x' y' = pixel8 g m1 x' y') ->
  (erasable g edge -> blank_beside g m px py) -> erasable g edge -> blank_beside g m2 x y.
Proof using columns_pos.
  intros -> -> Hp Hedge Hm1 Hm2 Hb He x' y' Hxy. specialize (Hb He x' y'). unfold erasable, inside, beside in *.
  rewrite Hm2, Hm1 by (done || lia). replace (line_span _ _) with (xpm_columns xpm).
  - destruct (_ && _) eqn:Hin; [done|]. apply Hb. lia.
  - unfold line_span. Z.to_euclidean_division_equations. lia.
Qed.

Lemma draw_next_exec edge px py x y s :
  shown_at edge px py s -> px <= edge -> inside (card s) px py -> inside (card s) x y ->
  exists s', draw_next_xpm xpm px py x y s = Ok 0 s' /\ redrawn s s' /\ shown_at edge x y s'.
Proof using XL columns_pos rows_pos CW.
  intros (m & img & Hs & _ & _ & Hblank) Hedge Hp Hxy. pose proof Hp as Hp0. unfold inside in *.
  pose proof (cw_load xpm (dev s)) as Ht1. destruct (xpm_load xpm XPM_INDEXED (dev s)) as [img1 d1] eqn:E1. cbn [snd] in Ht1.
  assert (loaded img1) as Hl1 by (exists (dev s); by rewrite E1). destruct (loaded_image img1 Hl1) as (Hi1 & Hw1 & Hh1).
  set (s1 := s <| dev := d1 |>).
  destruct (vg_drawrectangle_exec px py (width img1) (height img1) 0 m s1) as (m1 & Hr & Hm1);
    [exact Hs|change (card s1) with (card s); lia|lia|change (card s1) with (card s); lia|lia|lia|].
  pose proof (cw_load xpm d1) as Ht2. destruct (xpm_load xpm XPM_INDEXED d1) as [img2 d2] eqn:E2. cbn [snd] in Ht2.
  assert (loaded img2) as Hl2 by (exists d1; by rewrite E2). destruct (loaded_image img2 Hl2) as (Hi2 & Hw2 & Hh2).
  set (s2 := s <| dev := d2 |>). set (s3 := (put m1 s1) <| dev := d2 |>).
  destruct (draw_xpm_exec x y img2 m1 s3) as (m2 & Hd & Hdisp & Hm2);
    [by eapply (put_screen8 m m1 s)|done|unfold window; rewrite Hw2, Hh2; exact Hxy|].
  exists (put m2 s2). split; [|split].
  - unfold draw_next_xpm, call, bind, sys. rewrite E1. fold s1. rewrite Hr. cbn [ctrue Z.eqb negb].
    change (dev (put m1 s1)) with d1. rewrite E2. fold s3. rewrite Hd. reflexivity.
  - exists m2, d2. split; [done|]. split; [congruence|]. by eapply (put_screen8 m m2 s).
  - exists m2, img2. split; [by eapply (put_screen8 m m2 s)|]. split; [done|]. split; [exact Hdisp|].
    apply (redrawn_blank edge px py x y (width img1) (height img1) m m1 m2 (card s)); try done. by rewrite Hw1, Hh1, <- Hw2, <- Hh2.
Qed.

(** ** The loop *)

Context (hz xi yi xf yf speed fr ipf mx my : Z) (neg : bool).
Context (planned : plan_move hz xi yi xf yf speed fr = Some (ipf, mx, my, neg)) (speed_nonzero : speed <> 0).
Context (frame_pos : 1 <= ipf < 2 ^ 31).

(** Both end points are on the screen, and the last stride does not pass the left or the top border. *)
Definition in_reach (g : vg) : Prop :=
  inside g xi yi /\ inside g xf yf /\ Xres g = 1024 /\ Yres g = 768 /\ stride speed < 2 ^ 15 /\
  (xf < xi -> stride speed <= xf) /\ (yf < yi -> stride speed <= yf).

Definition movements : Z := move_count xi yi xf yf speed.

(** The rightmost place of the movement. *)
Abbreviation edge := (Z.max xi xf).

(** Where the pixmap is after [t] ticks. *)
Definition place (t : Z) : Z * Z :=
  if movements * ipf <=? t then (xf, yf) else (xi + t / ipf * mx, yi + t / ipf * my).

(** The state when [t] ticks have been handled. *)
Definition progress (t : Z) s : Prop :=
  in_reach (card s) /\ mouse_bit_no (loc s) = 0 /\ kbd_bit_no (loc s) = cw_key /\
  shown_at edge (fst (place t)) (snd (place t)) s /\
  if moving (loc s) then
    t / ipf < movements /\ timer_counter s = t mod ipf /\ cur_x (loc s) = xi + t / ipf * mx /\ cur_y (loc s) = yi + t / ipf * my
  else movements * ipf <= t.

(** A tick has been counted, and the pixmap has not moved yet. *)
Definition ticked (t : Z) s : Prop :=
  in_reach (card s) /\ mouse_bit_no (loc s) = 0 /\ kbd_bit_no (loc s) = cw_key /\
  shown_at edge (fst (place t)) (snd (place t)) s /\
  if moving (loc s) then
    t / ipf < movements /\ timer_counter s = t mod ipf + 1 /\ cur_x (loc s) = xi + t / ipf * mx /\ cur_y (loc s) = yi + t / ipf * my
  else movements * ipf <= t.

Lemma place_moving t : t / ipf < movements -> place t = (xi + t / ipf * mx, yi + t / ipf * my).
Proof using frame_pos.
  intros Ht. unfold place. destruct (Z.leb_spec (movements * ipf) t) as [Hle|]; [|done].
  assert (movements <= t / ipf) by (apply Z.div_le_lower_bound; lia). lia.
Qed.

Lemma place_arrived t : movements * ipf <= t -> place t = (xf, yf).
Proof using Type. intros Ht. unfold place. by rewrite (proj2 (Z.leb_le _ _) Ht). Qed.

(** The next tick of the frame, and the last one. *)
Lemma tick_in_frame t : 0 <= t -> t mod ipf + 1 < ipf -> (t + 1) / ipf = t / ipf /\ (t + 1) mod ipf = t mod ipf + 1.
Proof using frame_pos.
  intros Ht Hlt. pose proof (Z.div_mod t ipf ltac:(lia)) as Hdm. pose proof (Z.mod_pos_bound t ipf ltac:(lia)).
  replace (t + 1) with (t mod ipf + 1 + t / ipf * ipf) by lia.
  rewrite Z.div_add, Z.mod_add, Z.div_small, Z.mod_small by lia. lia.
Qed.

Lemma tick_end_of_frame t : 0 <= t -> ipf <= t mod ipf + 1 -> (t + 1) / ipf = t / ipf + 1 /\ (t + 1) mod ipf = 0.
Proof using frame_pos.
  intros Ht Hle. pose proof (Z.div_mod t ipf ltac:(lia)) as Hdm. pose proof (Z.mod_pos_bound t ipf ltac:(lia)).
  replace (t + 1) with ((t / ipf + 1) * ipf) by nia. rewrite Z.div_mul, Z.mod_mul by lia. done.
Qed.

Lemma inside_between g x y : in_reach g -> Z.min xi xf <= x <= Z.max xi xf -> Z.min yi yf <= y <= Z.max yi yf -> inside g x y.
Proof using Type. intros (H1 & H2 & _) Hx Hy. unfold inside in *. lia. Qed.

(** The positions of two consecutive movements, as the code computes them. *)
Lemma next_position g j :
  in_reach g -> 0 <= j < movements ->
  u16 (xi + j * mx + mx) = xi + (j + 1) * mx /\ u16 (yi + j * my + my) = yi + (j + 1) * my /\
  arrived (xi + (j + 1) * mx) (yi + (j + 1) * my) xf yf neg = (j + 1 =? movements).
Proof using planned speed_nonzero columns_pos rows_pos.
  intros (H1 & H2 & HX & HY & Hst & Hnx & Hny) Hj. unfold inside in H1, H2.
  assert (forall k, 1 <= k <= movements ->
    let p := Nat.iter (Z.to_nat k) (step_pos mx my) (xi, yi) in
    p = (xi + k * mx, yi + k * my) /\ arrived (fst p) (snd p) xf yf neg = (k =? movements)) as Hmv.
  { apply (movement_arrives hz xi yi xf yf speed fr ipf mx my neg planned speed_nonzero); try done; unfold in_u16; lia. }
  destruct (Hmv (j + 1) ltac:(lia)) as [Hp Ha]. rewrite Hp in Ha. cbn [fst snd] in Ha.
  assert (Nat.iter (Z.to_nat j) (step_pos mx my) (xi, yi) = (xi + j * mx, yi + j * my)) as Hj0.
  { destruct (Z.eq_dec j 0) as [->|]; [by rewrite !Z.mul_0_l, !Z.add_0_r|]. by destruct (Hmv j ltac:(lia)). }
  replace (Z.to_nat (j + 1)) with (S (Z.to_nat j)) in Hp by lia. cbn [Nat.iter nat_rect] in Hp.
  change (nat_rect _ _ _ (Z.to_nat j)) with (Nat.iter (Z.to_nat j) (step_pos mx my) (xi, yi)) in Hp.
  rewrite Hj0 in Hp. unfold step_pos in Hp. cbn [fst snd] in Hp. injection Hp as Hx Hy. done.
Qed.

(** Drawing the pixmap at its next place. *)
Lemma wp_draw_next E px py x y Q J s :
  shown_at edge px py s -> px <= edge -> inside (card s) px py -> inside (card s) x y ->
  (forall s', redrawn s s' -> shown_at edge x y s' -> Q tt s') ->
  wp E (or_return_1 (draw_next_xpm xpm px py x y)) Q J s.
Proof using XL columns_pos rows_pos CW.
  intros Hs Hedge Hp Hxy HQ. destruct (draw_next_exec edge px py x y s Hs Hedge Hp Hxy) as (s' & He & Hr & Hsh).
  apply wp_bind. eapply wp_of_exec; [exact He|]. apply wp_ret. by apply HQ.
Qed.

(** A frame: the pixmap moves by one stride, or arrives. *)
Lemma move_step_moves t s :
  0 <= t -> ticked t s -> moving (loc s) = true -> ipf <= t mod ipf + 1 ->
  wp False (move_step xpm xf yf ipf mx my neg) (fun _ s' => progress (t + 1) s' /\ cw_ticks (dev s') = cw_ticks (dev s)) nojump s.
Proof using XL columns_pos rows_pos CW planned speed_nonzero frame_pos.
  intros Ht (Hg & Hmb & Hkb & Hsh & Hmv) Hm Hdue. rewrite Hm in Hmv. destruct Hmv as (Hj & Htc & Hx & Hy).
  destruct (tick_end_of_frame t Ht Hdue) as [Hdiv Hmod]. set (j := t / ipf) in *.
  assert (0 <= j) as Hj0 by (apply Z.div_pos; lia).
  destruct (next_position (card s) j Hg ltac:(lia)) as (Hnx & Hny & Harr).
  destruct (position_between hz xi yi xf yf speed fr ipf mx my neg j planned speed_nonzero ltac:(unfold movements in *; lia)) as [Hbx Hby].
  pose proof (inside_between (card s) _ _ Hg Hbx Hby) as Hprev.
  rewrite place_moving in Hsh by lia. fold j in Hsh. cbn [fst snd] in Hsh.
  apply wp_bind, wp_gets, wp_bind, wp_gets. rewrite Hm, Htc. cbn [when]. rewrite (proj2 (Z.leb_le _ _) Hdue). cbn [when].
  apply wp_bind, wp_gets, wp_bind, wp_gets, wp_bind, wp_modify, wp_bind, wp_modify, wp_bind, wp_gets, wp_bind, wp_gets.
  get_set. rewrite Hx, Hy, Hnx, Hny, Harr. match goal with |- wp _ _ _ _ ?s' => set (s1 := s') end.
  apply wp_bind. destruct (Z.eqb_spec (j + 1) movements) as [Hlast|Hlast].
  - assert (place (t + 1) = (xf, yf)) as Hpl.
    { apply place_arrived. pose proof (Z.div_mod t ipf ltac:(lia)) as Hdm. fold j in Hdm. nia. }
    apply wp_bind, wp_draw_next; [exact Hsh|lia|exact Hprev|apply Hg|]. intros s2 (m & d & -> & Hd & _) Hs2.
    apply wp_modify, wp_modify. split; [|exact Hd]. unfold progress. rewrite Hpl.
    split; [exact Hg|]. split; [exact Hmb|]. split; [exact Hkb|]. split; [exact Hs2|].
    replace (moving _) with false by done.
    pose proof (Z.div_mod t ipf ltac:(lia)) as Hdm. fold j in Hdm. nia.
  - destruct (position_between hz xi yi xf yf speed fr ipf mx my neg (j + 1) planned speed_nonzero ltac:(unfold movements in *; lia)) as [Hbx' Hby'].
    pose proof (place_moving (t + 1) ltac:(lia)) as Hpl. rewrite Hdiv in Hpl.
    apply wp_draw_next; [exact Hsh|lia|exact Hprev|by apply inside_between|]. intros s2 (m & d & -> & Hd & _) Hs2.
    apply wp_modify. split; [|exact Hd]. unfold progress. rewrite Hpl, Hdiv, Hmod.
    split; [exact Hg|]. split; [exact Hmb|]. split; [exact Hkb|]. split; [exact Hs2|].
    replace (moving _) with true by (symmetry; exact Hm). split; [lia|]. done.
Qed.

Lemma move_step_waits t s :
  0 <= t -> ticked t s -> (moving (loc s) = true -> t mod ipf + 1 < ipf) ->
  move_step xpm xf yf ipf mx my neg s = Ok tt s /\ progress (t + 1) s.
Proof using frame_pos.
  intros Ht (Hg & Hmb & Hkb & Hsh & Hmv) Hw. unfold move_step, bind, gets. destruct (moving (loc s)) eqn:Hm; cbn [when].
  - destruct Hmv as (Hj & Htc & Hx & Hy). specialize (Hw eq_refl). destruct (tick_in_frame t Ht Hw) as [Hdiv Hmod].
    rewrite Htc, (proj2 (Z.leb_gt _ _) Hw). split; [done|]. unfold progress. rewrite Hm, Hdiv, Hmod.
    rewrite place_moving, Hdiv by lia. rewrite place_moving in Hsh by lia. done.
  - split; [done|]. unfold progress. rewrite Hm. rewrite place_arrived by lia. rewrite place_arrived in Hsh by lia.
    repeat (split; [done|]). lia.
Qed.

Lemma move_step_exec t s :
  0 <= t -> ticked t s ->
  exists s', move_step xpm xf yf ipf mx my neg s = Ok tt s' /\ progress (t + 1) s' /\ cw_ticks (dev s') = cw_ticks (dev s).
Proof using XL columns_pos rows_pos CW planned speed_nonzero frame_pos.
  intros Ht Hs. destruct (moving (loc s)) eqn:Hm; [destruct (Z.lt_ge_cases (t mod ipf + 1) ipf) as [Hlt|Hge]|].
  - destruct (move_step_waits t s Ht Hs ltac:(done)) as [He Hp]. by exists s.
  - destruct (wp_exec _ _ _ (move_step_moves t s Ht Hs Hm Hge)) as ([] & s' & He & Hp & Hc). by exists s'.
  - destruct (move_step_waits t s Ht Hs ltac:(congruence)) as [He Hp]. by exists s.
Qed.

(** ** Notifications *)

Abbreviation body := (move_body xpm xf yf ipf mx my neg).

Lemma tick_body t n s :
  0 <= t -> progress t s -> cw_ticks (dev s) = Some (S n) ->
  exists s', body s = Ok tt s' /\ progress (t + 1) s' /\ cw_ticks (dev s') = Some n.
Proof using XL columns_pos rows_pos planned speed_nonzero frame_pos.
  intros Ht (Hg & Hmb & Hkb & Hsh & Hmv) Hn. destruct (cw_tick (dev s) n Hn) as (msg & d & Hrec & Hsrc & Ht0 & Hk & Hd).
  set (s1 := s <| dev := d |> <| timer_counter := i32 (timer_counter s + 1) |>).
  assert (ticked t s1) as Hs1.
  { split; [exact Hg|]. split; [exact Hmb|]. split; [exact Hkb|]. split; [exact Hsh|].
    change (moving (loc s1)) with (moving (loc s)). destruct (moving (loc s)); [|exact Hmv]. destruct Hmv as (Hj & Htc & Hx & Hy).
    split; [exact Hj|]. split; [|by split]. change (i32 (timer_counter s + 1) = t mod ipf + 1). rewrite Htc.
    pose proof (Z.mod_pos_bound t ipf ltac:(lia)). apply i32_id. unfold in_i32. lia. }
  destruct (move_step_exec t s1 Ht Hs1) as (s2 & He & Hp & Hc). exists s2. split; [|split; [exact Hp|by rewrite Hc]].
  unfold move_body, bind at 1, on_notification, bind, sys. rewrite Hrec. cbn [ctrue Z.eqb negb when]. unfold switch. rewrite Hsrc.
  cbn [Z.eqb HARDWARE Pos.eqb]. unfold gets. get_set. rewrite Hkb, Hk. cbn [when]. unfold ret. get_set.
  rewrite Hmb, ctrue_land_BIT, Ht0 by lia. exact He.
Qed.

Lemma escape_body t s :
  0 <= t -> progress t s -> cw_ticks (dev s) = Some O ->
  exists s', body s = Ok tt s' /\ progress t s' /\ cw_ticks (dev s') = None.
Proof using frame_pos.
  intros Ht Hp Hn. pose proof Hp as (Hg & Hmb & Hkb & Hsh & Hmv).
  destruct (cw_escape (dev s) Hn) as (msg & d & Hrec & Hsrc & Ht0 & Hk & Hd).
  assert (scancode (kbc_ih d) = ESC_BREAK) as Hesc by (by apply cw_scancode).
  assert (exists bs, on_notification (fun ints =>
    kb <- local kbd_bit_no ;; when (ctrue (Z.land ints (BIT kb))) key_interrupt ;;
    tb <- local mouse_bit_no ;; when (ctrue (Z.land ints (BIT tb))) timer_int_handler) s =
      Ok tt (s <| dev := kbc_ih d |> <| loc := (loc s) <| kbdBytes := bs |> <| size := 1 |> |>)) as (bs & Hnot).
  { unfold on_notification, bind, sys. rewrite Hrec. cbn [ctrue Z.eqb negb when]. unfold switch. rewrite Hsrc.
    cbn [Z.eqb HARDWARE Pos.eqb]. unfold gets. get_set. rewrite Hkb, Hk. cbn [when].
    unfold key_interrupt, bind, sys_, gets. get_set. rewrite Hesc, cw_one_byte. change (ctrue 0) with false. cbv iota beta. get_set.
    destruct (Lab5.size (loc s) =? 1); unfold modify, ret; get_set; rewrite Hmb, ctrue_land_BIT, Ht0 by lia; eexists; reflexivity. }
  exists (s <| dev := kbc_ih d |> <| loc := (loc s) <| kbdBytes := bs |> <| size := 1 |> |>). split; [|split; [exact Hp|exact Hd]].
  unfold move_body, bind at 1. rewrite Hnot. unfold move_step, bind, gets. get_set.
  destruct (moving (loc s)); cbn [when]; [|reflexivity]. destruct Hmv as (_ & Htc & _).
  pose proof (Z.mod_pos_bound t ipf ltac:(lia)). rewrite Htc. by rewrite (proj2 (Z.leb_gt _ _)) by lia.
Qed.

Lemma not_esc_ticks s : not_esc s = match cw_ticks (dev s) with Some _ => true | None => false end.
Proof using Type.
  unfold not_esc. pose proof (cw_scancode (dev s)) as Hsc. destruct (cw_ticks (dev s)).
  - destruct (Z.eqb_spec (scancode (dev s)) ESC_BREAK) as [He|]; [|done]. by apply Hsc in He.
  - destruct (Z.eqb_spec (scancode (dev s)) ESC_BREAK) as [|He]; [done|]. by destruct He; apply Hsc.
Qed.

Lemma move_loop n t fuel s :
  0 <= t -> progress t s -> cw_ticks (dev s) = Some n -> (n < fuel)%nat ->
  exists s', while_ fuel not_esc body s = Ok tt s' /\ scancode (dev s') = ESC_BREAK /\ progress (t + Z.of_nat n) s'.
Proof using XL columns_pos rows_pos planned speed_nonzero frame_pos.
  revert t fuel s. induction n as [|n IH]; intros t fuel s Ht Hp Hn Hf; (destruct fuel as [|fuel]; [lia|]); cbn [while_].
  all: rewrite not_esc_ticks, Hn.
  - destruct (escape_body t s Ht Hp Hn) as (s' & He & Hp' & Hn'). exists s'. rewrite He, Z.add_0_r. split; [|split; [by apply cw_scancode|done]].
    destruct fuel; cbn [while_]; by rewrite not_esc_ticks, Hn'.
  - destruct (tick_body t n s Ht Hp Hn) as (s1 & He & Hp1 & Hn1).
    destruct (IH (t + 1) fuel s1 ltac:(lia) Hp1 Hn1 ltac:(lia)) as (s' & Hw & Hesc & Hp').
    exists s'. rewrite He. split; [exact Hw|]. split; [exact Hesc|]. by replace (t + Z.of_nat (S n)) with (t + 1 + Z.of_nat n) by lia.
Qed.

(** ** The whole function *)

Lemma vg_initialize_exec s :
  exists d g, vg_initialize 0x105 s = Ok 0 (s <| card := g |> <| dev := d |>) /\ screen8 g ∅ /\ Xres g = 1024 /\ Yres g = 768 /\
    cw_ticks d = cw_ticks (dev s).
Proof using CW.
  destruct (cw_mode (dev s)) as (i & d1 & H1 & HX & HY & Hb & Hc1).
  destruct (cw_privctl (PhysBasePtr i) (u32 (PhysBasePtr i + 786432)) d1) as (d2 & H2 & Hc2).
  destruct (cw_map (PhysBasePtr i) 786432 d2) as (d3 & H3 & Hc3).
  destruct (cw_int86 (Reg86 0x10 0x02 0x4F (u16 (Z.lor (BIT 14) 0x105))) d3) as (r & d4 & H4 & Hah & Hal & Hc4).
  exists d4, (Vg 1024 768 8 (MemoryModel i) (RedMaskSize i) (RedFieldPosition i) (GreenMaskSize i) (GreenFieldPosition i)
    (BlueMaskSize i) (BlueFieldPosition i) (Some (Block 786432 ∅))).
  split; [|split; [by repeat split|split; [done|split; [done|congruence]]]].
  unfold vg_initialize, vg_get_mode_info, vg_set_mode, call, bind, sys, modify, gets. rewrite H1.
  cbn [ctrue Z.eqb negb]. get_set. rewrite HX, HY, Hb.
  change (u32 (i32 (1024 * 768) * (8 ÷ 8))) with 786432. rewrite H2. cbn [ctrue Z.eqb negb when]. unfold ret. get_set.
  rewrite H3. cbn [negb when]. unfold ret. get_set. cbn [ctrue Z.eqb negb Pos.eqb andb]. get_set. rewrite H4. cbn [ctrue Z.eqb negb].
  rewrite Hah, Hal. cbn [Z.eqb Pos.eqb andb negb ctrue]. by destruct s as [? [] ? ? ?].
Qed.

(** The window of the pixmap lies on the screen of mode 0x105. *)
Definition on_map (x y : Z) : Prop := 0 <= x /\ x + xpm_columns xpm <= 1024 /\ 0 <= y /\ y + xpm_rows xpm <= 768.

(** Both ends are on the screen, and the last stride does not pass the left or the top border. *)
Definition reachable : Prop :=
  on_map xi yi /\ on_map xf yf /\ stride speed < 2 ^ 15 /\ (xf < xi -> stride speed <= xf) /\ (yf < yi -> stride speed <= yf).

Lemma reachable_in_reach g : reachable -> Xres g = 1024 -> Yres g = 768 -> in_reach g.
Proof using Type. intros ([] & [] & ?) HX HY. unfold in_reach, inside. rewrite HX, HY. done. Qed.

Lemma progress_start s : in_reach (card s) -> mouse_bit_no (loc s) = 0 -> kbd_bit_no (loc s) = cw_key ->
  shown_at edge xi yi s -> moving (loc s) = true -> timer_counter s = 0 -> cur_x (loc s) = xi -> cur_y (loc s) = yi -> progress 0 s.
Proof using frame_pos.
  intros Hg Hm Hk Hsh Hmv Htc Hx Hy. unfold progress. assert (0 < movements) by (unfold movements, move_count; lia).
  rewrite place_moving, Hmv, Htc, Hx, Hy, Z.div_0_l, Z.mod_0_l by (rewrite ?Z.div_0_l; lia).
  cbn [fst snd]. rewrite !Z.mul_0_l, !Z.add_0_r. done.
Qed.

Lemma play_move_exec fuel n s :
  reachable -> cw_ticks (dev s) = Some n -> (n < fuel)%nat -> hookid s = 0 -> timer_counter s = 0 ->
  exists s', play_move fuel xpm xi yi xf yf ipf mx my neg s = Ok tt s' /\ scancode (dev s') = ESC_BREAK /\ progress (Z.of_nat n) s'.
Proof using XL columns_pos rows_pos planned speed_nonzero frame_pos.
  intros Hreach Hn Hf Hh Htc. unfold play_move. destruct (vg_initialize_exec s) as (d1 & g & H1 & Hg & HX & HY & Hc1).
  unfold or_return_1 at 1, bind at 1, bind at 1. rewrite H1. cbn [ctrue Z.eqb negb when]. unfold ret at 1.
  set (s1 := s <| card := g |> <| dev := d1 |>).
  pose proof (cw_load xpm d1) as Hc2. unfold bind at 1, sys at 1. change (dev s1) with d1.
  destruct (xpm_load xpm XPM_INDEXED d1) as [img d2] eqn:E. cbn [snd] in Hc2.
  assert (loaded img) as Hl by (exists d1; by rewrite E). destruct (loaded_image img Hl) as (Hi & Hw & Hht).
  set (s2 := s1 <| dev := d2 |>). pose proof (reachable_in_reach g Hreach HX HY) as Hin.
  destruct (draw_xpm_exec xi yi img ∅ s2) as (m & H3 & Hd & Hbl); [exact Hg|done|unfold window; rewrite Hw, Hht; apply Hin|].
  unfold or_return_1 at 1, bind at 1, bind at 1. rewrite H3. cbn [ctrue Z.eqb negb when]. unfold ret at 1.
  destruct (cw_policy TIMER0_IRQ IRQ_REENABLE (hookid s) d2) as (h & d4 & H4 & Hc4).
  set (s4 := (put m s2) <| loc := (loc s) <| mouse_bit_no := 0 |> |> <| dev := d4 |> <| hookid := h |>).
  assert (timer_subscribe_int (put m s2) = Ok 0 s4) as H4'.
  { unfold timer_subscribe_int, call, bind, gets, modify, sys. change (hookid (put m s2)) with (hookid s). get_set.
    change (dev (put m s2)) with d2. rewrite H4, Hh. reflexivity. }
  unfold or_return_1 at 1, bind at 1, bind at 1. rewrite H4'. cbn [ctrue Z.eqb negb when]. unfold ret at 1.
  destruct (cw_subscribe d4) as (d5 & H5 & Hc5). unfold or_return_1 at 1, bind at 1, bind at 1, subscribe_keyboard, bind at 1, sys at 1.
  change (dev s4) with d4. rewrite H5. unfold bind at 1, modify at 1, ret at 1. cbn [ctrue Z.eqb negb when]. unfold ret at 1.
  unfold bind at 1, modify at 1, bind at 1, modify at 1, bind at 1, modify at 1, bind at 1, modify at 1.
  match goal with |- context [while_ fuel not_esc body ?s'] => set (s5 := s') end.
  assert (progress 0 s5) as Hp.
  { apply progress_start; try done. exists m, img. split; [by eapply (put_screen8 ∅)|]. split; [done|]. split; [done|].
    intros _ x' y' Hxy. change (default 0 (pixel8 (card s2) m x' y') = 0). rewrite Hbl; [reflexivity|]. rewrite Hw, Hht. exact Hxy. }
  destruct (move_loop n 0 fuel s5 ltac:(lia) Hp) as (s6 & H6 & Hesc & Hp6); [change (cw_ticks d5 = Some n); congruence|done|].
  by exists s6.
Qed.

End moving.

(** The tear-down succeeds, and it is the device that changes. *)
Lemma end_move_exec {D} `{CW : Clockwork D} (s : lab5 D) : exists d, end_move s = Ok 0 (s <| dev := d |>).
Proof.
  destruct (cw_exit (dev s)) as (d7 & H7). destruct (cw_unsubscribe d7) as (d8 & H8).
  destruct (cw_rmpolicy (hookid s) d8) as (d9 & H9). exists d9.
  unfold end_move, or_return_1, timer_unsubscribe_int, call, bind, sys, gets. rewrite H7. cbn [ctrue Z.eqb negb when]. unfold ret. get_set.
  rewrite H8. cbn [ctrue Z.eqb negb when]. unfold ret. get_set. rewrite H9. by destruct s.
Qed.

(** C40: the movement.  Take a plan of [move_count] movements along an axis, at a speed that is not 0 and with at least one tick per
    frame, between two points at which the pixmap is on the screen and such that the last stride does not pass the left or the
    top border ([reachable]); and a start with hook id 0 and no tick counted.  Then the loop of [video_test_move] ends when the
    escape key is released, and at its end, before the text mode is restored, the screen shows the pixmap where the plan has it
    after the [n] ticks that came before: one stride per frame, and the end point from the last movement on.  It shows nothing else
    if the pixmap is no wider than half of the room to the right of its rightmost place ([erasable]).  The function then
    restores the text mode, cancels its subscriptions and returns 0. *)
Theorem video_test_move_correct {D} `{CW : Clockwork D} {XL : XpmLaws D}
    (xpm : xpm_map) (xi yi xf yf speed fr ipf mx my : Z) (neg : bool) (n fuel : nat) (s : lab5 D) :
  0 < xpm_columns xpm -> 0 < xpm_rows xpm ->
  plan_move (sys_hz (dev s)) xi yi xf yf speed fr = Some (ipf, mx, my, neg) ->
  speed <> 0 -> fr <> 0 -> 1 <= ipf < 2 ^ 31 -> reachable xpm xi yi xf yf speed ->
  hookid s = 0 -> timer_counter s = 0 -> cw_ticks (dev s) = Some n -> (n < fuel)%nat ->
  exists s1 d, play_move fuel xpm xi yi xf yf ipf mx my neg s = Ok tt s1 /\ scancode (dev s1) = ESC_BREAK /\
    (let t := Z.of_nat n in
     if move_count xi yi xf yf speed * ipf <=? t then shown_at xpm (Z.max xi xf) xf yf s1
     else shown_at xpm (Z.max xi xf) (xi + t / ipf * mx) (yi + t / ipf * my) s1) /\
    end_move s1 = Ok 0 (s1 <| dev := d |>) /\
    video_test_move fuel xpm xi yi xf yf speed fr s = Ok 0 (s1 <| dev := d |>).
Proof.
  intros Hc Hr Hp Hsp Hfr Hipf Hreach Hh Htc Hn Hf.
  destruct (play_move_exec xpm Hc Hr _ _ _ _ _ _ _ _ _ _ _ Hp Hsp Hipf fuel n s Hreach Hn Hf Hh Htc) as (s1 & He & Hesc & Hs1).
  destruct (end_move_exec s1) as (d & Hd). exists s1, d. split; [exact He|]. split; [exact Hesc|]. split; [|split; [exact Hd|]].
  - destruct Hs1 as (_ & _ & _ & Hsh & _). unfold place, movements in Hsh. cbv zeta. by destruct (_ <=? _).
  - unfold video_test_move, call, bind at 1, gets. rewrite Hp. replace (fr =? 0) with false by lia.
    unfold bind. by rewrite He, Hd.
Qed.

(** ** A simulated system *)

(** The ticks to come before the escape key is released; [None] from then on. *)
Definition sim_clock := option nat.

Definition sim_clock_receive (d : sim_clock) : (Z * message * bool) * sim_clock :=
  match d with
  | Some (S n) => interrupting 0 (Some n)
  | Some O => interrupting 1 (Some O)
  | None => silent None
  end.

#[local] Instance sim_clock_kernel : Kernel sim_clock := {|
  sys_inb _ d := ((0, 0), d); sys_outb _ _ d := (0, d);
  sys_irqsetpolicy _ _ h d := ((0, h), d); sys_irqrmpolicy _ d := (0, d); driver_receive := sim_clock_receive;
  sys_hz _ := 60; micros_to_ticks us _ := us * 60 / 1000000; tickdelay _ d := d; sleep _ d := d; srand_time d := d; rand d := (0, d);
  vbe_get_mode_info _ d := ((0, VbeModeInfo 1024 768 8 4 0 0 0 0 0 0 0xE0000000), d);
  sys_privctl_add_mem _ _ d := (0, d); vm_map_phys _ _ d := (true, d); sys_int86 _ d := ((0, Reg86 0x10 0x4F 0 0), d);
  vg_exit d := (0, d); xpm_load m t d := (XpmImage t (xpm_columns m) (xpm_rows m) 0 (replicate (Z.to_nat (xpm_columns m * xpm_rows m)) 7), d);
  indeterminate d := (0, d);
|}.

(** The values of the headers that this laboratory shares with laboratories 2 and 4. *)
#[local] Instance sim_clock_lib : Lab5Lib sim_clock := {|
  kbd_subscribe_int d := ((0, 1), d); kbd_unsubscribe_int d := (0, d);
  kbc_ih d := match d with Some O => None | _ => d end;
  twoBytes b := if b =? 0xE0 then 1 else 0; kbd_hookid _ := 1;
  scancode d := match d with None => 0x81 | _ => 0 end;
  util_get_LSB z := (u8 z, 0); util_get_MSB z := (u8 (Z.shiftr z 8), 0);
  ESC_BREAK := 0x81; INDEXED_MODE := 4; DIRECT_MODE := 6; TIMER_FREQ := 1193182; TIMER0_IRQ := 0;
  TIMER_0 := 0x40; TIMER_1 := 0x41; TIMER_2 := 0x42; TIMER_CTRL := 0x43; TIMER_SEL0 := 0; TIMER_SEL1 := 0x40; TIMER_SEL2 := 0x80;
  TIMER_LSB_MSB := 0x30; TIMER_RB_CMD := 0xC0; TIMER_RB_COUNT_ := 0x20; TIMER_RB_STATUS_ := 0x10;
  TIMER_RB_SEL n := BIT (n + 1); TIMER_BCD := 1;
|}.

#[local] Instance sim_clock_xpm : XpmLaws sim_clock.
Proof.
  intros m d. cbn. repeat split; [by rewrite length_replicate|]. apply Forall_replicate. unfold in_u8. lia.
Qed.

#[local, refine] Instance sim_clock_work : Clockwork sim_clock := { cw_ticks d := d; cw_key := 1 }.
Proof.
  all: try done.
  - by intros [d|].
  - intros d n ->. by eexists _, _.
  - intros d ->. by eexists _, _.
  - intros d. by eexists _, _.
  - intros a b d. by eexists.
  - intros a b d. by eexists.
  - intros r d. by eexists _, _.
  - intros irq pol h d. by eexists _, _.
  - intros d. by eexists.
  - intros d. by eexists.
  - intros d. by eexists.
  - intros h d. by eexists.
Defined.

(** At 60 ticks and 30 frames per second and 5 pixels per frame, a pixmap of 4 by 3 pixels is 15 pixels to the right after
    7 ticks, and at the end point after 9, and it is alone on the screen. *)
Lemma video_test_move_correct_witness :
  (exists s1, play_move 100 (XpmMap 0 4 3) 10 20 28 20 2 5 0 false (init_lab5 (Some 7%nat)) = Ok tt s1 /\ shown_at (XpmMap 0 4 3) 28 25 20 s1) /\
  exists s1 d, play_move 100 (XpmMap 0 4 3) 10 20 28 20 2 5 0 false (init_lab5 (Some 9%nat)) = Ok tt s1 /\ shown_at (XpmMap 0 4 3) 28 28 20 s1 /\
    video_test_move 100 (XpmMap 0 4 3) 10 20 28 20 5 30 (init_lab5 (Some 9%nat)) = Ok 0 (s1 <| dev := d |>).
Proof.
  assert (reachable (XpmMap 0 4 3) 10 20 28 20 5) as Hr by (repeat split; vm_compute; congruence).
  split.
  - destruct (video_test_move_correct (XpmMap 0 4 3) 10 20 28 20 5 30 2 5 0 false 7 100 (init_lab5 (Some 7%nat)) ltac:(done) ltac:(done) eq_refl
      ltac:(done) ltac:(done) ltac:(lia) Hr eq_refl eq_refl eq_refl ltac:(lia)) as (s1 & d & He & _ & Hs & _).
    exists s1. split; [exact He|exact Hs].
  - destruct (video_test_move_correct (XpmMap 0 4 3) 10 20 28 20 5 30 2 5 0 false 9 100 (init_lab5 (Some 9%nat)) ltac:(done) ltac:(done) eq_refl
      ltac:(done) ltac:(done) ltac:(lia) Hr eq_refl eq_refl eq_refl ltac:(lia)) as (s1 & d & He & _ & Hs & _ & Hv).
    exists s1, d. split; [exact He|]. split; [exact Hs|exact Hv].
Defined.
